(* ===== verification/_CoqProject ===== *)
-Q . S2P
Prelude.v
CString.v
Pmm.v
Heap.v
BlockDev.v
DiskLayout.v
SimpleFs.v
FsView.v
FsDir.v
FsInv.v
FsOps.v
FsMount.v
FsIo.v
FsProps.v
PortIo.v
Pic.v
Keyboard.v
Vga.v
Console.v
Exceptions.v
Gdt.v
Timer.v
Idt.v
Ata.v
Vfs.v
VfsProps.v
Allocator.v
Paging.v
Vmm.v
VmmInv.v
VmmMap.v
VmmOps.v
VmmProps.v
Memory.v
Machine.v
File.v
FileProps.v
Cpu.v
Registers.v
UserMem.v
Task.v
TaskRing.v
TaskInv.v
Dump.v
TaskSched.v
TaskSwitch.v
TaskPick.v
TaskSchedule.v
TaskOps.v
TaskCreate.v
TaskUser.v
Loader.v
UserPages.v
ProgramSlot.v
TaskExec.v
TaskSteps.v
TaskResume.v
TaskDemo.v
TaskProps.v
Syscall.v
SyscallInv.v
SyscallMem.v
SyscallOps.v
SyscallRun.v
SyscallProps.v
Shell.v
ShellOut.v
ShellDemo.v
ShellProps.v
ShellFiles.v
TaskProgram.v
Kernel.v
KernelBoot.v
KernelProps.v
