(* ===== verification/Prelude.v ===== *)
(** * NOSMERI-OS: a verification of the kernel

    NOSMERI-OS is a 32-bit x86 kernel in C++ (src/, kernel.cpp and its folders)
    with a bit of assembly.  This library translates its functions into
    executable Rocq definitions, one file per component with the source's names,
    and proves what each component promises and what they do together.

    ** Reading the definitions

    - An integer is the [Z] of its type; wrap-around is written out with [u8],
      [u16], [u32], [i8] and [i32] of this file.  Signed overflow, undefined in
      C++, is read as the wrap-around of the machine instructions.
    - [None] is an execution without a result: an access outside an object, a
      use of a null or freed pointer, an address that does not translate, or a
      poll that never ends.  That an operation answers [Some] is part of each
      theorem about it.
    - A pointer to bytes is the list of bytes from there to the end of its
      object.  Objects that are shared are a store by address: block headers
      ([Heap]), Task and File objects and the words of the kernel stacks
      ([Task]), page tables ([Paging]), the sectors of the disk ([BlockDev]).
      These stores are separate, and where the code could make two of them
      overlap the model has no result: a system call that would store through its
      caller's pointer into a Task, a File that a descriptor names or another
      kernel stack is undefined ([own] and [kernel_object] of [Syscall]; the code
      does not check).
    - Hardware is not code of the repository.  The ports are the class [Ports]
      over a machine [W] with the laws each driver needs ([PicLaws], [CrtcLaws],
      [AtaLaws]), each with a concrete instance.  Assembly routines the C++ code
      jumps to are followed one instruction at a time ([Cpu], [Registers]).
    - What the linker and the loader choose (addresses, entry points, the memory
      map) and what uninitialised memory holds are parameters.

    ** Parts, files, interfaces

    - lib/string.cpp: [CString].
    - mm/pmm.cpp: [Pmm], the frame bitmap.  mm/vmm.cpp: [Vmm] over [Paging],
      the two-level translation of the processor; [VmmInv] is the invariant of
      the directories, [VmmMap] and [VmmOps] what the functions do to it,
      [VmmProps] the theorems.  mm/heap.cpp: [Heap], a doubly linked list of
      blocks proved against the interface [PageProvider]; [heap_dump] is in
      [Dump].  [Machine] puts the three together: it discharges [PageProviderOk]
      and the interface [MemoryOk] of [Memory], which is all the task layer
      knows of memory.  [Allocator] is the kmalloc/kfree part of it.
    - fs/simplefs.h: [DiskLayout].  fs/simplefs.cpp: [SimpleFs], over the
      interface [BlockDevice] of [BlockDev].  [FsView], [FsDir] and [FsInv] read
      a disk as an inode table, a block store and then as the abstract file
      system ([fs_find]: names to inodes, [fs_file]: inodes to contents) with its
      invariant [fs_inv]; [FsOps], [FsMount] and [FsIo] show that the functions
      implement their abstract effects; [FsProps] has the theorems.
    - fs/vfs.cpp: [Vfs] and [VfsProps] (paths as walks of the abstract tree).
      fs/file.cpp: [File] and [FileProps].
    - drivers/: [Ata] (which implements [BlockDevice]), [Pic], [Timer],
      [Keyboard], [Vga]; [Console] has string literals and numbers on the screen.
    - arch/x86/: [PortIo], [Gdt], [Idt]; the exception handlers are in
      [Exceptions] and, for page faults, in [Vmm].
    - task/task.cpp: [Task].  [TaskRing] is the circular list, [TaskInv] the
      scheduler's invariant [sched_ok], [TaskSched], [TaskSwitch], [TaskPick],
      [TaskSchedule], [TaskOps], [TaskCreate] and [TaskUser] the operations over
      it.  create_user_process needs more of the memory managers, the interface
      [LoaderOk] of [Loader]; [TaskExec] proves it against that interface and has
      the three ways to create a task as one relation, [creates].  [TaskSteps]
      and [TaskResume] are runs of the scheduler as a step relation, [TaskProps]
      the theorems; [task_dump] is in [Dump], and [TaskDemo] is a small run on a
      bump allocator (the instance [Arena] of [MemoryOk] and [LoaderOk]).
      [UserPages] and [ProgramSlot] show what a page directory shows of a program
      copied through it and discharge [LoaderOk] on the memory of [Machine];
      [TaskProgram] joins this with the file system.
    - arch/x86/syscall.cpp: [Syscall], with the register frame of isr80 in
      [Registers] and the caller's memory in [UserMem]; [SyscallInv] adds the
      descriptor tables to the invariant ([kernel_ok]), [SyscallMem] shows where
      calls store, [SyscallOps] and [SyscallRun] that every call and every run of
      the kernel keeps the invariant, [SyscallProps] has the theorems.
    - shell/shell.cpp: [Shell]; [ShellOut] (what printing through the
      descriptors does), [ShellProps], [ShellFiles] and [ShellDemo].
    - kernel.cpp: [Kernel]; [KernelBoot] and [KernelProps] run it from the
      loader's state to the first prompt.

    ** The theorems

    - Whole system: [kernel_boots] (the start is defined and establishes the
      invariants), [kernel_descriptors_sound] and [scheduler_invariant] (every
      later step keeps them: work of the running task, interrupts, system calls,
      creation of kernel threads, user tasks and programs from files, and
      killing), [simplefs_reachable_sound] (every disk reached by create, mkdir
      and writes to files is sound and survives a remount).
    - Tasks: [schedule] is round-robin, a READY task runs after a bounded number
      of calls, a task comes back with its registers and stack, creation and
      killing account for every block and page, sleepers wake on time, and a
      program of a file finds its bytes at its entry point.
    - Memory: no frame is handed out twice, a heap block is fresh and a freed
      one merges, mapping changes one page, a new directory shares the kernel's
      half, a fault in a slot the kernel has a table for is answered with that
      table; a lost heap table is exhibited.
    - Files: create, mkdir, write, read, lookup, paths and directory listing
      refine the abstract file system on every branch; round trips through the
      node, through a descriptor and through the shell's commands.
    - System calls and shell: refusals change nothing, open and close, the
      register frame of int 0x80, the line editor's bounds, dispatch of a line.
    - Drivers and library: the keyboard ring is a queue, the console is an
      abstract screen, the ATA driver is a block device, sleep waits whole
      ticks, printed numbers read back.

    ** Bounds and fuel

    Loops that are not structural take a bound that the definitions compute
    from the state, and the theorems show that it is enough: [list_fuel] (a
    heap of so many bytes has no more headers than that), [pages_left] (each
    recursive call of kmalloc maps another page), the digits of a number in
    itoa, 1920 candidates for [find_free_block]
    (64 inodes of 30 blocks use no more), 64 directories on a path
    to the root ([get_path_loop]: inode numbers are below 64; a deeper chain is
    a cycle, where the code does not return), the number of tasks for the walks
    of the ring.  The polling loops of [Ata] take the number of reads after
    which the drive answers, which its laws promise.  [sleep] takes the number
    of ticks in each halt.  The loops of task_sleep, exit_task, the spinner and
    the shell never end by themselves: a round of each is a definition, and the
    runs of [TaskSteps] and [SyscallRun] are sequences of such rounds.

    ** Hypotheses worth knowing

    - [Machine] assumes at most 1 GB of memory (there, no frame number is a
      mapped user address); [vmm_create_page_directory] writes through physical
      addresses that are mapped below 4 MB only, so its law allows no result.
    - A creation is a step of a run only where the code has what it takes for
      granted: process numbers that do not wrap, and for a user task a page
      directory that can be made ([no_directory] says when not) and, for a
      program, frames for its pages ([exec_fits]).
    - The array of the prompt lies on the boot stack, clear of the kernel's Task
      ([kernel_boots]).
    - init_pmm is described for memory maps whose available regions lie below
      4 GB ([below_4g]); outside, [pmm_high_entry_frees_low_pages].
    - The drive of [AtaLaws] takes a command only with BSY clear.  The code
      writes FLUSH CACHE without looking, so what the driver promises of the
      flush holds for a drive that is not busy behind the last data word.
    - What the console shows is stated for text that does not run past the end
      of the screen ([room_for]).
    - The room hypothesis of the scheduler ([has_room]): when a task calls
      schedule, its stack holds the frame that is pushed.
    - Functions run with interrupts off; an interrupt is a step between two of
      them.  Races inside a function are not modelled.
    - [isr80_restores] is about calls from ring 3, which is how a program calls.

    ** Not modelled

    - The translation cache: every access walks the tables, so a missing or a
      superfluous invlpg makes no difference.
    - The instructions of _start and of the interrupt stubs other than
      switch_context, isr80 and user_task_trampoline; the host tool that makes a
      disk image; the user program; the build.
    - The shell's exec, kill, cd, ls, touch and mkdir commands are definitions
      without a theorem of their own; the functions they call have theirs.
    - [create_user_process_correct] is about regular files, empty ones included.
    - The messages of simplefs_init are not in [SimpleFs], which has no console,
      but in [Kernel]. *)
From stdpp Require Export base option list list_numbers gmap.
From Stdlib Require Export ZArith Lia ZifyBool.

Open Scope Z_scope.

(** ** Machine integers

    A [w]-bit unsigned integer is the [Z] in [0, 2^w); [u8], [u16], [u32] wrap
    a mathematical result into the type, [i8] and [i32] are the two's
    complement readings of [signed char] and [int]. *)
Definition u8 (x : Z) : Z := x mod 256.
Definition u16 (x : Z) : Z := x mod 65536.
Definition u32 (x : Z) : Z := x mod 4294967296.
Definition i8 (x : Z) : Z := if u8 x <? 128 then u8 x else u8 x - 256.
Definition i32 (x : Z) : Z :=
  if u32 x <? 2147483648 then u32 x else u32 x - 4294967296.

(** [lia] with Euclidean division made explicit, after unfolding the words. *)
Ltac word :=
  unfold i32, i8, u32, u16, u8 in *;
  repeat match goal with
         | |- context [if ?b then _ else _] => destruct b eqn:?
         | H : context [if ?b then _ else _] |- _ => destruct b eqn:?
         end;
  Z.to_euclidean_division_equations; lia.

Create HintDb word.
Create Rewrite HintDb wordrw.

Lemma u8_range x : 0 <= u8 x < 256.
Proof. unfold u8. apply Z.mod_pos_bound. lia. Qed.
Lemma u16_range x : 0 <= u16 x < 65536.
Proof. unfold u16. apply Z.mod_pos_bound. lia. Qed.
Lemma u32_range x : 0 <= u32 x < 4294967296.
Proof. unfold u32. apply Z.mod_pos_bound. lia. Qed.
Lemma i32_range x : -2147483648 <= i32 x < 2147483648.
Proof. word. Qed.
Lemma u8_small x : 0 <= x < 256 -> u8 x = x.
Proof. unfold u8. intros. by apply Z.mod_small. Qed.
Lemma u16_small x : 0 <= x < 65536 -> u16 x = x.
Proof. unfold u16. intros. by apply Z.mod_small. Qed.
Lemma u32_small x : 0 <= x < 4294967296 -> u32 x = x.
Proof. unfold u32. intros. by apply Z.mod_small. Qed.
Lemma i32_small x : -2147483648 <= x < 2147483648 -> i32 x = x.
Proof. word. Qed.
Lemma i8_small x : 0 <= x < 128 -> i8 x = x.
Proof. word. Qed.
#[export] Hint Resolve u8_range u16_range u32_range i32_range : word.
#[export] Hint Rewrite u8_small u16_small u32_small i32_small i8_small
  using lia : wordrw.

(** ** C arrays: lists indexed by [Z], with out-of-range access undefined *)
Section Arrays.
Context {A : Type}.
Implicit Types (l : list A) (i : Z) (x : A).

Definition zget l i : option A :=
  if decide (0 <= i) then l !! Z.to_nat i else None.
Definition zset l i x : option (list A) :=
  if decide (0 <= i < Z.of_nat (length l)) then Some (<[Z.to_nat i:=x]> l)
  else None.

Lemma zget_nat l (n : nat) : zget l (Z.of_nat n) = l !! n.
Proof. unfold zget. rewrite decide_True by lia. by rewrite Nat2Z.id. Qed.
Lemma zset_nat l (n : nat) x :
  (n < length l)%nat -> zset l (Z.of_nat n) x = Some (<[n:=x]> l).
Proof. intros. unfold zset. rewrite decide_True by lia. by rewrite Nat2Z.id. Qed.
Lemma zget_Some l i x :
  zget l i = Some x -> 0 <= i < Z.of_nat (length l).
Proof.
  unfold zget. case_decide; [|done]. intros H1%lookup_lt_Some. lia.
Qed.
Lemma zget_is_Some l i :
  is_Some (zget l i) <-> 0 <= i < Z.of_nat (length l).
Proof.
  split; [intros [x Hx]; by eapply zget_Some|].
  intros Hi. unfold zget. rewrite decide_True by lia.
  apply lookup_lt_is_Some. lia.
Qed.
Lemma zget_total l i :
  0 <= i < Z.of_nat (length l) -> exists x, zget l i = Some x.
Proof. intros H. by apply zget_is_Some in H. Qed.
Lemma zset_Some l i x l' :
  zset l i x = Some l' <->
  0 <= i < Z.of_nat (length l) /\ l' = <[Z.to_nat i:=x]> l.
Proof. unfold zset. case_decide; naive_solver. Qed.
Lemma zset_in_range l i x :
  0 <= i < Z.of_nat (length l) -> zset l i x = Some (<[Z.to_nat i:=x]> l).
Proof. intros. apply zset_Some. done. Qed.
Lemma zset_length l i x l' : zset l i x = Some l' -> length l' = length l.
Proof. intros [_ ->]%zset_Some. apply length_insert. Qed.
Lemma zget_zset_eq l i x l' : zset l i x = Some l' -> zget l' i = Some x.
Proof.
  intros [Hi ->]%zset_Some. unfold zget. rewrite decide_True by lia.
  apply list_lookup_insert_eq. lia.
Qed.
Lemma zget_zset_ne l i j x l' :
  zset l i x = Some l' -> j <> i -> zget l' j = zget l j.
Proof.
  intros [Hi ->]%zset_Some Hne. unfold zget. case_decide; [|done].
  apply list_lookup_insert_ne. lia.
Qed.
Lemma zget_ext l l' :
  length l = length l' ->
  (forall i, 0 <= i < Z.of_nat (length l) -> zget l i = zget l' i) -> l = l'.
Proof.
  intros Hl Hi. apply list_eq. intros n.
  destruct (decide (n < length l)%nat) as [Hn|Hn].
  - rewrite <- !zget_nat. apply Hi. lia.
  - rewrite !lookup_ge_None_2 by lia. done.
Qed.
End Arrays.

(** [splice l off m] is [l] with the bytes of [m] written from [off] on. *)
Definition splice {A} (l : list A) (off : nat) (m : list A) : list A :=
  take off l ++ m ++ drop (off + length m) l.

Lemma splice_length {A} (l m : list A) off :
  (off + length m <= length l)%nat -> length (splice l off m) = length l.
Proof.
  intros. unfold splice. rewrite !length_app, length_take, length_drop. lia.
Qed.
Lemma splice_nil {A} (l : list A) off : splice l off [] = l.
Proof.
  unfold splice. simpl. rewrite Nat.add_0_r. apply take_drop.
Qed.

(** ** The option monad of the development

    [None] is the outcome of an execution that has no defined result: an access
    outside an object, or a loop that never ends. *)
Lemma mbind_Some {A B} (f : A -> option B) (m : option A) (b : B) :
  (m ≫= f) = Some b <-> exists a, m = Some a /\ f a = Some b.
Proof. destruct m; naive_solver. Qed.

(** A computed pair from its first component, without normalising the second. *)
Lemma option_pair_eta {A B} (o : option (A * B)) (a : A) (d : B) :
  fst <$> o = Some a -> o = Some (a, default d (snd <$> o)).
Proof. destruct o as [[]|]; naive_solver. Qed.

Ltac inv_opt :=
  repeat match goal with
  | H : mbind _ _ = Some _ |- _ =>
      let a := fresh "a" in let E := fresh "E" in
      apply mbind_Some in H; destruct H as (a & E & H)
  | H : Some _ = Some _ |- _ => injection H as H; subst
  | H : None = Some _ |- _ => discriminate H
  end.

(** ** Slices *)
Definition slice {A} (l : list A) (off len : nat) : list A := take len (drop off l).

Lemma slice_length {A} (l : list A) off len :
  (off + len <= length l)%nat -> length (slice l off len) = len.
Proof. intros. unfold slice. rewrite length_take, length_drop. lia. Qed.

Lemma splice_split {A} (a m m' b : list A) :
  length m' = length m -> splice (a ++ m ++ b) (length a) m' = a ++ m' ++ b.
Proof.
  intros Hm. unfold splice. rewrite take_app_length. do 2 f_equal.
  rewrite Hm. rewrite drop_app_add. apply drop_app_length.
Qed.
Lemma slice_split {A} (a m b : list A) :
  slice (a ++ m ++ b) (length a) (length m) = m.
Proof. unfold slice. rewrite drop_app_length. apply take_app_length. Qed.
Lemma split_at {A} (l : list A) off len :
  (off + len <= length l)%nat ->
  exists a m b, l = a ++ m ++ b /\ length a = off /\ length m = len.
Proof.
  intros H. exists (take off l), (take len (drop off l)), (drop len (drop off l)).
  rewrite !take_drop, !length_take, length_drop. split_and!; [done|lia|lia].
Qed.
Lemma slice_splice_eq {A} (l m : list A) off :
  (off + length m <= length l)%nat -> slice (splice l off m) off (length m) = m.
Proof.
  intros H. destruct (split_at l off (length m) H) as (a & m0 & b & -> & <- & Hm).
  rewrite splice_split by done. apply slice_split.
Qed.

(** A byte is a [Z] in [0, 256). *)
Definition bytes_ok (l : list Z) : Prop := Forall (fun b => 0 <= b < 256) l.

Lemma bytes_ok_app l1 l2 : bytes_ok (l1 ++ l2) <-> bytes_ok l1 /\ bytes_ok l2.
Proof. apply Forall_app. Qed.
Lemma bytes_ok_replicate n x : 0 <= x < 256 -> bytes_ok (replicate n x).
Proof. intros. by apply Forall_replicate. Qed.
Lemma bytes_ok_slice l off len : bytes_ok l -> bytes_ok (slice l off len).
Proof. intros. by apply Forall_take, Forall_drop. Qed.
Lemma bytes_ok_splice l off m : bytes_ok l -> bytes_ok m -> bytes_ok (splice l off m).
Proof.
  intros. unfold splice. rewrite !bytes_ok_app.
  split_and!; [by apply Forall_take|done|by apply Forall_drop].
Qed.
#[export] Hint Resolve bytes_ok_slice bytes_ok_splice : word.

(** ** Counting the indices below [n] at which [f] holds *)
Fixpoint zcount (f : Z -> bool) (n : nat) : Z :=
  match n with
  | O => 0
  | S n' => zcount f n' + if f (Z.of_nat n') then 1 else 0
  end.

Lemma zcount_range f n : 0 <= zcount f n <= Z.of_nat n.
Proof. induction n as [|n IH]; simpl; [lia|]. destruct (f _); lia. Qed.
Lemma zcount_ext f g n :
  (forall i, 0 <= i < Z.of_nat n -> f i = g i) -> zcount f n = zcount g n.
Proof.
  intros H. induction n as [|n IH]; simpl; [done|].
  rewrite IH, H by first [lia | intros; apply H; lia]. done.
Qed.
Lemma zcount_flip f g n i :
  0 <= i < Z.of_nat n -> f i = false -> g i = true ->
  (forall j, j <> i -> g j = f j) -> zcount g n = zcount f n + 1.
Proof.
  intros Hi Hf Hg Hne. induction n as [|n IH]; simpl; [lia|].
  destruct (decide (i = Z.of_nat n)) as [->|Hn].
  - rewrite Hf, Hg. rewrite (zcount_ext g f n); [lia|].
    intros j Hj. apply Hne. lia.
  - rewrite IH, (Hne (Z.of_nat n)) by lia. lia.
Qed.
Lemma zcount_true f n :
  (forall i, 0 <= i < Z.of_nat n -> f i = true) -> zcount f n = Z.of_nat n.
Proof.
  intros H. induction n as [|n IH]; simpl; [done|].
  rewrite IH, H by first [lia | intros; apply H; lia]. lia.
Qed.
Lemma zcount_pos f n i :
  0 <= i < Z.of_nat n -> f i = true -> 0 < zcount f n.
Proof.
  intros Hi Hf. induction n as [|n IH]; simpl; [lia|].
  destruct (decide (i = Z.of_nat n)) as [->|].
  - rewrite Hf. pose proof (zcount_range f n). lia.
  - specialize (IH ltac:(lia)). destruct (f (Z.of_nat n)); lia.
Qed.
