(* ===== verification/CString.v ===== *)
(** * lib/string.cpp: the freestanding C string library

    A [char*] is the list of bytes from the pointer to the end of the object it
    points into; a byte is a [Z] in [0, 256), read as a signed [char] with [i8]
    where the code compares [char]s.  A read or a write outside the object is
    [None]. *)
From S2P Require Import Prelude.

Definition c_nul : Z := 0.
Definition ch_space : Z := 32.
Definition ch_plus : Z := 43.
Definition ch_minus : Z := 45.
Definition ch_0 : Z := 48.
Definition ch_9 : Z := 57.
Definition ch_A : Z := 65.

(** ** reverse_string *)

(** The [while (start < end)] loop; [end] decreases, so [fuel] is a bound on
    [end - start]. *)
Fixpoint reverse_loop (fuel : nat) (str : list Z) (st en : Z)
  : option (list Z) :=
  if st <? en then
    match fuel with
    | O => None
    | S f =>
        temp ← zget str st;
        e ← zget str en;
        str1 ← zset str st e;
        str2 ← zset str1 en temp;
        reverse_loop f str2 (st + 1) (en - 1)
    end
  else Some str.
Definition reverse_string (str : list Z) (length : Z) : option (list Z) :=
  reverse_loop (Z.to_nat length) str 0 (length - 1).

(** ** itoa *)

(** The character the loop stores for one remainder. *)
Definition digit_char (remainder : Z) : Z :=
  if remainder >? 9 then u8 ((remainder - 10) + ch_A) else u8 (remainder + ch_0).

(** [while (num != 0)] of [itoa(unsigned int, ...)]: every round stores one
    byte at a new index, so it runs at most once per byte of the buffer and
    once more to leave; [base] is converted to unsigned by the division. *)
Fixpoint itoa_u_loop (fuel : nat) (num : Z) (str : list Z) (i base : Z)
  : option (list Z * Z) :=
  if num =? 0 then Some (str, i) else
  match fuel with
  | O => None
  | S f =>
      if u32 base =? 0 then None else
      let remainder := i32 (num mod u32 base) in
      str' ← zset str i (digit_char remainder);
      itoa_u_loop f (num / u32 base) str' (i + 1) base
  end.

(** [void itoa(unsigned int num, char *str, int base)] *)
Definition itoa_u (num : Z) (str : list Z) (base : Z) : option (list Z) :=
  if num =? 0 then
    str1 ← zset str 0 ch_0;
    zset str1 1 c_nul
  else
    '(str1, i) ← itoa_u_loop (S (length str)) num str 0 base;
    str2 ← zset str1 i c_nul;
    reverse_string str2 i.

(** The same loop of [itoa(int, ...)], with the truncating signed division. *)
Fixpoint itoa_i_loop (fuel : nat) (num : Z) (str : list Z) (i base : Z)
  : option (list Z * Z) :=
  if num =? 0 then Some (str, i) else
  match fuel with
  | O => None
  | S f =>
      if base =? 0 then None else
      let remainder := Z.rem num base in
      str' ← zset str i (digit_char remainder);
      itoa_i_loop f (i32 (Z.quot num base)) str' (i + 1) base
  end.

(** [void itoa(int num, char *str, int base)]; [-num] wraps at 32 bits. *)
Definition itoa_i (num : Z) (str : list Z) (base : Z) : option (list Z) :=
  if num =? 0 then
    str1 ← zset str 0 ch_0;
    zset str1 1 c_nul
  else
    let is_negative := (num <? 0) && (base =? 10) in
    let num := if is_negative then i32 (- num) else num in
    '(str1, i) ← itoa_i_loop (S (length str)) num str 0 base;
    '(str2, i) ← (if is_negative
                  then s ← zset str1 i ch_minus; Some (s, i + 1)
                  else Some (str1, i));
    str3 ← zset str2 i c_nul;
    reverse_string str3 i.

(** ** atoi *)
Fixpoint skip_spaces (str : list Z) : list Z :=
  match str with
  | c :: rest => if c =? ch_space then skip_spaces rest else str
  | [] => []
  end.

(** [while (str[i] >= '0' && str[i] <= '9')] with [char] signed. *)
Fixpoint atoi_digits (str : list Z) (res : Z) : option Z :=
  match str with
  | [] => None
  | c :: rest =>
      if (ch_0 <=? i8 c) && (i8 c <=? ch_9)
      then atoi_digits rest (i32 (i32 (res * 10) + (i8 c - ch_0)))
      else Some res
  end.

Definition atoi (str : list Z) : option Z :=
  match skip_spaces str with
  | [] => None
  | c :: rest =>
      if c =? ch_minus then
        res ← atoi_digits rest 0; Some (i32 (res * -1))
      else if c =? ch_plus then atoi_digits rest 0
      else atoi_digits (c :: rest) 0
  end.

(** ** Comparison and length *)
Fixpoint strcmp (s1 s2 : list Z) : option Z :=
  match s1, s2 with
  | c1 :: t1, c2 :: t2 =>
      if negb (c1 =? 0) && (c1 =? c2) then strcmp t1 t2 else Some (c1 - c2)
  | _, _ => None
  end.

Fixpoint strncmp (s1 s2 : list Z) (n : nat) : option Z :=
  match n with
  | O => Some 0
  | S n' =>
      match s1, s2 with
      | c1 :: t1, c2 :: t2 =>
          if negb (c1 =? c2) then Some (u8 c1 - u8 c2)
          else if c1 =? 0 then Some 0
          else strncmp t1 t2 n'
      | _, _ => None
      end
  end.

Fixpoint strlen_from (str : list Z) (cnt : Z) : option Z :=
  match str with
  | [] => None
  | c :: rest => if c =? 0 then Some cnt else strlen_from rest (u32 (cnt + 1))
  end.
Definition strlen (str : list Z) : option Z := strlen_from str 0.

(** ** memset and memcpy: [count] byte stores, from index [i] up *)
Fixpoint memset_loop (n : nat) (dst : list Z) (doff i val : Z)
  : option (list Z) :=
  match n with
  | O => Some dst
  | S n' =>
      dst' ← zset dst (doff + i) (u8 val);
      memset_loop n' dst' doff (i + 1) val
  end.
(** [memset(dst + doff, val, count)] *)
Definition memset (dst : list Z) (doff val count : Z) : option (list Z) :=
  memset_loop (Z.to_nat count) dst doff 0 val.

Fixpoint memcpy_loop (n : nat) (dst src : list Z) (doff soff i : Z)
  : option (list Z) :=
  match n with
  | O => Some dst
  | S n' =>
      c ← zget src (soff + i);
      dst' ← zset dst (doff + i) c;
      memcpy_loop n' dst' src doff soff (i + 1)
  end.
(** [memcpy(dst + doff, src + soff, count)] between two distinct objects *)
Definition memcpy (dst : list Z) (doff : Z) (src : list Z) (soff count : Z)
  : option (list Z) :=
  memcpy_loop (Z.to_nat count) dst src doff soff 0.

Fixpoint memcpy_within_loop (n : nat) (buf : list Z) (doff soff i : Z)
  : option (list Z) :=
  match n with
  | O => Some buf
  | S n' =>
      c ← zget buf (soff + i);
      buf' ← zset buf (doff + i) c;
      memcpy_within_loop n' buf' doff soff (i + 1)
  end.
(** [memcpy(buf + doff, buf + soff, count)] inside one object *)
Definition memcpy_within (buf : list Z) (doff soff count : Z)
  : option (list Z) :=
  memcpy_within_loop (Z.to_nat count) buf doff soff 0.

(** A C string in a buffer: the bytes before the first NUL. *)
Fixpoint cstring (l : list Z) : option (list Z) :=
  match l with
  | [] => None
  | c :: rest => if c =? 0 then Some [] else cons c <$> cstring rest
  end.
(** The buffer of a string literal. *)
Definition cbuf (s : list Z) : list Z := s ++ [0].

(** ** reverse_string reverses the prefix it is given *)
Lemma zget_middle (a : list Z) x b : zget (a ++ x :: b) (Z.of_nat (length a)) = Some x.
Proof. rewrite zget_nat. by rewrite list_lookup_middle. Qed.
Lemma zset_middle (a : list Z) x y b :
  zset (a ++ x :: b) (Z.of_nat (length a)) y = Some (a ++ y :: b).
Proof.
  rewrite zset_nat by (rewrite length_app; simpl; lia).
  f_equal. rewrite insert_app_r_alt by lia. by rewrite Nat.sub_diag.
Qed.

Lemma reverse_loop_spec fuel : forall (a m b : list Z),
  (length m <= fuel)%nat ->
  reverse_loop fuel (a ++ m ++ b) (Z.of_nat (length a))
    (Z.of_nat (length a) + Z.of_nat (length m) - 1) = Some (a ++ reverse m ++ b).
Proof.
  induction fuel as [|f IH]; intros a m b Hf.
  { destruct m; [|simpl in Hf; lia]. simpl. rewrite (proj2 (Z.ltb_ge _ _)) by lia. done. }
  destruct m as [|x m].
  { simpl. rewrite (proj2 (Z.ltb_ge _ _)) by lia. done. }
  destruct m as [|y m _] using rev_ind.
  { simpl. rewrite (proj2 (Z.ltb_ge _ _)) by lia. done. }
  assert (Hl : Z.of_nat (length a) + Z.of_nat (length (x :: m ++ [y])) - 1
               = Z.of_nat (length (a ++ x :: m))).
  { rewrite !length_cons, !length_app, length_cons. simpl. lia. }
  rewrite Hl. cbn [reverse_loop].
  rewrite (proj2 (Z.ltb_lt _ _)) by (rewrite length_app; simpl; lia).
  rewrite <- app_comm_cons, zget_middle. cbn [mbind option_bind].
  replace (a ++ x :: (m ++ [y]) ++ b) with ((a ++ x :: m) ++ y :: b)
    by (by rewrite <- !app_assoc).
  rewrite zget_middle. cbn [mbind option_bind].
  rewrite <- app_assoc, <- app_comm_cons. rewrite zset_middle. cbn [mbind option_bind].
  replace (a ++ y :: m ++ y :: b) with ((a ++ y :: m) ++ y :: b)
    by (by rewrite <- !app_assoc).
  replace (length (a ++ x :: m)) with (length (a ++ y :: m))
    by (by rewrite !length_app).
  rewrite zset_middle. cbn [mbind option_bind].
  specialize (IH (a ++ [y]) m (x :: b)).
  rewrite reverse_cons, reverse_app, reverse_singleton.
  replace (((a ++ y :: m) ++ x :: b)) with ((a ++ [y]) ++ m ++ x :: b)
    by (by rewrite <- !app_assoc).
  replace (Z.of_nat (length a) + 1) with (Z.of_nat (length (a ++ [y])))
    by (rewrite length_app; simpl; lia).
  replace (Z.of_nat (length (a ++ y :: m)) - 1) with
    (Z.of_nat (length (a ++ [y])) + Z.of_nat (length m) - 1)
    by (rewrite !length_app; simpl; lia).
  rewrite IH.
  - f_equal. by rewrite <- !app_assoc.
  - simpl in Hf. rewrite length_app in Hf. simpl in Hf. lia.
Qed.

(** [reverse_string] never leaves a buffer of at least [n] bytes, and reverses
    exactly its first [n] bytes. *)
Lemma reverse_string_spec (m b : list Z) :
  reverse_string (m ++ b) (Z.of_nat (length m)) = Some (reverse m ++ b).
Proof.
  unfold reverse_string. rewrite Nat2Z.id. exact (reverse_loop_spec _ [] m b (le_n _)).
Qed.

(** ** Digits *)

(** The value of a little-endian digit list. *)
Definition digits_value (base : Z) (ds : list Z) : Z :=
  foldr (fun d acc => d + base * acc) 0 ds.

(** [ds] are the digits of [num], least significant first, without a leading
    zero. *)
Definition is_digits (base num : Z) (ds : list Z) : Prop :=
  Forall (fun d => 0 <= d < base) ds /\ digits_value base ds = num /\
  last ds <> Some 0.

Lemma itoa_u_loop_spec base (k : nat) : 2 <= base <= 36 ->
  forall fuel num (a b : list Z),
  (k <= fuel)%nat -> 0 <= num < base ^ Z.of_nat k -> num < 4294967296 ->
  (k <= length b)%nat ->
  exists ds, is_digits base num ds /\ (length ds <= k)%nat /\ (num <> 0 -> ds <> []) /\
    itoa_u_loop fuel num (a ++ b) (Z.of_nat (length a)) base =
    Some (a ++ (digit_char <$> ds) ++ drop (length ds) b,
          Z.of_nat (length a) + Z.of_nat (length ds)).
Proof.
  intros Hb. induction k as [|k IH]; intros fuel num a b Hf Hn Hw Hl.
  { change (base ^ Z.of_nat 0) with 1 in Hn. assert (num = 0) as -> by lia.
    exists []. do 3 (split; [done || (simpl; lia) || by repeat constructor|]).
    destruct fuel; simpl; by rewrite drop_0, Z.add_0_r. }
  destruct (decide (num = 0)) as [->|Hnz].
  { exists []. do 3 (split; [done || (simpl; lia) || by repeat constructor|]).
    destruct fuel; simpl; by rewrite drop_0, Z.add_0_r. }
  destruct fuel as [|f]; [lia|].
  destruct b as [|x b]; [simpl in Hl; lia|]. cbn [itoa_u_loop].
  rewrite (proj2 (Z.eqb_neq _ _) Hnz).
  rewrite (u32_small base) by lia.
  rewrite (proj2 (Z.eqb_neq base 0)) by lia.
  pose proof (Z.mod_pos_bound num base ltac:(lia)) as Hr.
  rewrite (i32_small (num mod base)) by lia.
  rewrite zset_middle. cbn [mbind option_bind].
  rewrite Nat2Z.inj_succ, Z.pow_succ_r in Hn by lia.
  destruct (IH f (num / base) (a ++ [digit_char (num mod base)]) b)
    as (ds & (Hd & Hv & Hz) & Hlen & Hne & Hrun).
  { lia. }
  { split; [apply Z.div_pos; lia|]. apply Z.div_lt_upper_bound; lia. }
  { apply Z.le_lt_trans with num; [|lia]. apply Z.div_le_upper_bound; nia. }
  { simpl in Hl. lia. }
  exists (num mod base :: ds). split_and!.
  - split_and!.
    + by constructor.
    + change (num mod base + base * digits_value base ds = num). rewrite Hv.
      pose proof (Z.div_mod num base). lia.
    + destruct ds as [|d ds]; [|done]. simpl. intros [= Hm].
      simpl in Hv. pose proof (Z.div_mod num base). lia.
  - simpl. lia.
  - done.
  - replace (Z.of_nat (length a) + 1) with
      (Z.of_nat (length (a ++ [digit_char (num mod base)])))
      by (rewrite length_app; simpl; lia).
    replace (a ++ digit_char (num mod base) :: b) with
      ((a ++ [digit_char (num mod base)]) ++ b) by (by rewrite <- app_assoc).
    rewrite Hrun. f_equal. f_equal.
    + simpl. by rewrite <- app_assoc.
    + rewrite length_app. simpl. lia.
Qed.

(** On non-negative numbers the signed loop is the unsigned one. *)
Lemma itoa_i_loop_u fuel : forall num str i base,
  0 <= num < 2147483648 -> 2 <= base <= 36 ->
  itoa_i_loop fuel num str i base = itoa_u_loop fuel num str i base.
Proof.
  induction fuel as [|f IH]; intros num str i base Hn Hb; [done|].
  cbn [itoa_i_loop itoa_u_loop]. rewrite (u32_small base) by lia.
  rewrite Z.rem_mod_nonneg, Z.quot_div_nonneg by lia.
  pose proof (Z.mod_pos_bound num base ltac:(lia)).
  assert (0 <= num / base <= num).
  { split; [apply Z.div_pos; lia|]. apply Z.div_le_upper_bound; nia. }
  rewrite (i32_small (num mod base)), (i32_small (num / base)) by lia.
  case_match; [done|]. case_match; [done|].
  destruct (zset str i _); [simpl; apply IH; lia|done].
Qed.

(** [ds] spells [num] in [base], least significant digit first: the digits the
    code prints, "0" for zero and no leading zero otherwise. *)
Definition spells (base num : Z) (ds : list Z) : Prop :=
  Forall (fun d => 0 <= d < base) ds /\ digits_value base ds = num /\
  ds <> [] /\ (last ds = Some 0 -> ds = [0]).

Lemma is_digits_spells base num ds :
  num <> 0 -> is_digits base num ds -> spells base num ds.
Proof.
  intros Hn (? & Hv & ?). split_and!; try done.
  intros ->. by apply Hn.
Qed.

Lemma spells_zero base : 2 <= base -> spells base 0 [0].
Proof.
  intros. unfold spells. split; [by repeat constructor; lia|].
  split; [simpl; lia|done].
Qed.

(** Finishing: a NUL after the [n] stored characters, then the reversal. *)
Lemma finish_string (m rest : list Z) c x :
  (str2 ← zset (m ++ c :: rest) (Z.of_nat (length m)) x;
   reverse_string str2 (Z.of_nat (length m))) = Some (reverse m ++ x :: rest).
Proof. rewrite zset_middle. simpl. apply reverse_string_spec. Qed.

Lemma itoa_u_spec base num (k : nat) str :
  2 <= base <= 36 -> 0 <= num < 4294967296 -> num < base ^ Z.of_nat k ->
  (k < length str)%nat -> (1 <= k)%nat ->
  exists ds, spells base num ds /\ (length ds <= k)%nat /\
    itoa_u num str base =
    Some ((digit_char <$> reverse ds) ++ 0 :: drop (S (length ds)) str).
Proof.
  intros Hb Hn Hk Hl H1. unfold itoa_u. destruct (decide (num = 0)) as [->|Hnz].
  { destruct str as [|x [|y str]]; [simpl in Hl; lia|simpl in Hl; lia|].
    exists [0]. split; [apply spells_zero; lia|]. split; [simpl; lia|].
    exact (zset_middle [ch_0] y 0 str). }
  rewrite (proj2 (Z.eqb_neq _ _) Hnz).
  destruct (itoa_u_loop_spec base k Hb (S (length str)) num [] str)
    as (ds & Hds & Hlen & Hne & Hrun); [lia|lia|lia|lia|].
  rewrite !app_nil_l in Hrun. change (Z.of_nat (length (@nil Z))) with 0 in Hrun.
  rewrite Z.add_0_l in Hrun. rewrite Hrun. cbn [mbind option_bind]. exists ds.
  split; [by apply is_digits_spells|]. split; [lia|].
  destruct (drop (length ds) str) as [|c rest] eqn:Hd.
  { apply (f_equal length) in Hd. rewrite length_drop in Hd. simpl in Hd. lia. }
  rewrite <- (length_fmap digit_char ds). rewrite finish_string.
  rewrite fmap_reverse. do 3 f_equal. rewrite length_fmap.
  replace (S (length ds)) with (length ds + 1)%nat by lia.
  by rewrite <- drop_drop, Hd.
Qed.

(** ** atoi reads back what itoa printed *)
Lemma digit_char_small d : 0 <= d <= 9 -> digit_char d = 48 + d.
Proof.
  intros. unfold digit_char, ch_0. rewrite Z.gtb_ltb.
  rewrite (proj2 (Z.ltb_ge _ _)) by lia. rewrite u8_small by lia. lia.
Qed.

(** The accumulator of [atoi_digits] after the digits [ds]. *)
Definition dec_fold (res : Z) (ds : list Z) : Z := foldl (fun a d => a * 10 + d) res ds.

Lemma i32_idem_step a d : i32 (i32 (i32 a * 10) + d) = i32 (a * 10 + d).
Proof.
  unfold i32, u32.
  repeat match goal with |- context [if ?b then _ else _] => destruct b eqn:? end;
  Z.to_euclidean_division_equations; lia.
Qed.

Lemma i32_idem a : i32 (i32 a) = i32 a.
Proof. apply i32_small, i32_range. Qed.

Lemma atoi_digits_spec c rest : (i8 c < 48 \/ 57 < i8 c) -> forall ds res,
  Forall (fun d => 0 <= d < 10) ds ->
  atoi_digits ((digit_char <$> ds) ++ c :: rest) (i32 res) =
  Some (i32 (dec_fold res ds)).
Proof.
  intros Hc ds. induction ds as [|d ds IH]; intros res Hds; simpl.
  { unfold ch_0, ch_9. destruct (48 <=? i8 c) eqn:?, (i8 c <=? 57) eqn:?; try done.
    lia. }
  apply Forall_cons in Hds as [Hd Hds].
  rewrite digit_char_small by lia. unfold ch_0, ch_9.
  rewrite i8_small by lia.
  rewrite (proj2 (Z.leb_le _ _)), (proj2 (Z.leb_le _ _)) by lia. simpl.
  replace (48 + d - 48) with d by lia. rewrite i32_idem_step.
  by apply IH.
Qed.

Lemma dec_fold_reverse ds : dec_fold 0 (reverse ds) = digits_value 10 ds.
Proof.
  unfold dec_fold, digits_value. induction ds as [|d ds IH]; [done|].
  rewrite reverse_cons, foldl_app, IH. simpl. lia.
Qed.

Lemma digit_char_10_range d : 0 <= d < 10 -> 48 <= digit_char d <= 57.
Proof. intros. rewrite digit_char_small by lia. lia. Qed.

(** [atoi] on a run of decimal digits ended by a NUL. *)
Lemma atoi_spelled num ds rest :
  spells 10 num ds ->
  atoi ((digit_char <$> reverse ds) ++ 0 :: rest) = Some (i32 num) /\
  atoi (ch_minus :: (digit_char <$> reverse ds) ++ 0 :: rest) =
    Some (i32 (i32 num * -1)).
Proof.
  intros (Hd & Hv & Hne & _).
  assert (Hr : Forall (fun d => 0 <= d < 10) (reverse ds)) by (by apply Forall_reverse).
  assert (Hrun : atoi_digits ((digit_char <$> reverse ds) ++ 0 :: rest) 0 =
                 Some (i32 num)).
  { rewrite <- Hv, <- dec_fold_reverse.
    exact (atoi_digits_spec 0 rest ltac:(left; reflexivity) _ 0 Hr). }
  split.
  - destruct (reverse ds) as [|d l] eqn:E.
    { apply (f_equal reverse) in E. rewrite reverse_involutive in E. done. }
    apply Forall_cons in Hr as [Hd0 _].
    apply digit_char_10_range in Hd0. unfold atoi. simpl skip_spaces.
    unfold ch_space, ch_minus, ch_plus.
    rewrite (proj2 (Z.eqb_neq _ _)) by lia.
    rewrite !(proj2 (Z.eqb_neq _ _)) by lia. exact Hrun.
  - unfold atoi. simpl. rewrite Hrun. done.
Qed.

(** [itoa] on a signed number: the sign, then the digits of the magnitude. *)
Lemma itoa_i_spec num str :
  -2147483648 < num < 2147483648 -> (12 <= length str)%nat ->
  exists ds rest, spells 10 (Z.abs num) ds /\
    itoa_i num str 10 =
    Some ((if num <? 0 then [ch_minus] else []) ++
          (digit_char <$> reverse ds) ++ 0 :: rest).
Proof.
  intros Hn Hl. unfold itoa_i. destruct (decide (num = 0)) as [->|Hnz].
  { destruct str as [|x [|y str]]; [simpl in Hl; lia|simpl in Hl; lia|].
    exists [0], str. split; [by apply spells_zero|].
    exact (zset_middle [ch_0] y 0 str). }
  rewrite (proj2 (Z.eqb_neq _ _) Hnz). rewrite Z.eqb_refl, andb_true_r.
  set (m := if num <? 0 then i32 (- num) else num).
  assert (Hm : m = Z.abs num).
  { unfold m. destruct (Z.ltb_spec num 0); [rewrite i32_small by lia|]; lia. }
  clearbody m. subst m. rewrite itoa_i_loop_u by lia.
  destruct (itoa_u_loop_spec 10 10 ltac:(lia) (S (length str)) (Z.abs num) [] str)
    as (ds & Hds & Hlen & Hne & Hrun); [lia|lia|lia|lia|].
  rewrite !app_nil_l in Hrun. change (Z.of_nat (length (@nil Z))) with 0 in Hrun.
  rewrite Z.add_0_l in Hrun. rewrite Hrun. cbn [mbind option_bind].
  exists ds. destruct (drop (length ds) str) as [|c [|c' rest]] eqn:Hd;
    [apply (f_equal length) in Hd; rewrite length_drop in Hd; simpl in Hd; lia..|].
  rewrite <- (length_fmap digit_char ds). rewrite fmap_reverse.
  destruct (num <? 0).
  - exists rest. split; [apply is_digits_spells; [lia|done]|].
    rewrite zset_middle. cbn [mbind option_bind].
    replace ((digit_char <$> ds) ++ ch_minus :: c' :: rest) with
      (((digit_char <$> ds) ++ [ch_minus]) ++ c' :: rest) by (by rewrite <- app_assoc).
    replace (Z.of_nat (length (digit_char <$> ds)) + 1) with
      (Z.of_nat (length ((digit_char <$> ds) ++ [ch_minus])))
      by (rewrite length_app; simpl; lia).
    rewrite finish_string. by rewrite reverse_app.
  - exists (c' :: rest). split; [apply is_digits_spells; [lia|done]|].
    cbn [mbind option_bind]. by rewrite finish_string.
Qed.

(** ** strlen and strcmp on C strings *)
Lemma cstring_cbuf s : 0 ∉ s -> forall rest, cstring (s ++ 0 :: rest) = Some s.
Proof.
  induction s as [|c s IH]; intros Hs rest; [done|]. simpl.
  apply not_elem_of_cons in Hs as [Hc Hs].
  rewrite (proj2 (Z.eqb_neq _ _)) by done. by rewrite IH.
Qed.
Lemma cstring_Some l s :
  cstring l = Some s -> 0 ∉ s /\ exists rest, l = s ++ 0 :: rest.
Proof.
  revert s. induction l as [|c l IH]; intros s; simpl; [done|].
  destruct (Z.eqb_spec c 0) as [->|Hc].
  - intros [= <-]. split; [apply not_elem_of_nil|by exists l].
  - intros (s' & Hs' & ->)%fmap_Some. destruct (IH s' Hs') as [Hn [r ->]].
    split; [by apply not_elem_of_cons|by exists r].
Qed.

Lemma strlen_from_spec l : forall s cnt,
  cstring l = Some s -> 0 <= cnt -> cnt + Z.of_nat (length s) < 4294967296 ->
  strlen_from l cnt = Some (cnt + Z.of_nat (length s)).
Proof.
  induction l as [|c l IH]; intros s cnt; simpl; [done|].
  destruct (c =? 0); [intros [= <-]; simpl; intros; f_equal; lia|].
  intros (s' & Hs' & ->)%fmap_Some H0 Hb. simpl in *.
  rewrite u32_small by lia. rewrite (IH s') by (done || lia). f_equal. lia.
Qed.
(** [strlen] is the number of bytes before the NUL. *)
Lemma strlen_spec l s :
  cstring l = Some s -> Z.of_nat (length s) < 4294967296 ->
  strlen l = Some (Z.of_nat (length s)).
Proof. intros. by apply (strlen_from_spec l s 0). Qed.

(** Lexicographic comparison of byte strings, the reference for [strcmp]. *)
Fixpoint bytes_compare (a b : list Z) : comparison :=
  match a, b with
  | [], [] => Eq
  | [], _ :: _ => Lt
  | _ :: _, [] => Gt
  | x :: a, y :: b =>
      match Z.compare x y with Eq => bytes_compare a b | c => c end
  end.

Lemma bytes_compare_Eq a : forall b, bytes_compare a b = Eq <-> a = b.
Proof.
  induction a as [|x a IH]; intros [|y b]; simpl; try done.
  destruct (Z.compare_spec x y) as [->|?|?].
  - rewrite IH. split; congruence.
  - split; [done|]. intros [= ??]. lia.
  - split; [done|]. intros [= ??]. lia.
Qed.

Lemma strcmp_spec l1 : forall l2 a b,
  bytes_ok l1 -> bytes_ok l2 -> cstring l1 = Some a -> cstring l2 = Some b ->
  exists r, strcmp l1 l2 = Some r /\ Z.compare r 0 = bytes_compare a b.
Proof.
  induction l1 as [|x l1 IH]; intros [|y l2] a b Hx Hy; simpl; try done.
  apply Forall_cons in Hx as [Hx Hx']. apply Forall_cons in Hy as [Hy Hy'].
  destruct (Z.eqb_spec x 0) as [->|Hx0]; simpl.
  { intros [= <-]. destruct (Z.eqb_spec y 0) as [->|Hy0].
    - intros [= <-]. by exists 0.
    - intros (b' & _ & ->)%fmap_Some. exists (0 - y). split; [done|].
      simpl. apply Z.compare_lt_iff. lia. }
  intros (a' & Ha & ->)%fmap_Some.
  destruct (Z.eqb_spec y 0) as [->|Hy0].
  { intros [= <-]. rewrite (proj2 (Z.eqb_neq _ _)) by done.
    exists (x - 0). split; [done|]. simpl. apply Z.compare_gt_iff. lia. }
  intros (b' & Hb & ->)%fmap_Some. simpl.
  destruct (Z.eqb_spec x y) as [->|Hne].
  - rewrite Z.compare_refl. by apply IH.
  - exists (x - y). split; [done|].
    destruct (Z.compare_spec x y); [done|apply Z.compare_lt_iff; lia|
      apply Z.compare_gt_iff; lia].
Qed.

(** [strcmp] answers 0 exactly on equal strings. *)
Lemma strcmp_zero l1 l2 a b :
  bytes_ok l1 -> bytes_ok l2 -> cstring l1 = Some a -> cstring l2 = Some b ->
  exists r, strcmp l1 l2 = Some r /\ (r = 0 <-> a = b).
Proof.
  intros H1 H2 H3 H4. destruct (strcmp_spec l1 l2 a b H1 H2 H3 H4) as (r & Hr & Hc).
  exists r. split; [done|]. rewrite <- bytes_compare_Eq, <- Hc. symmetry.
  apply Z.compare_eq_iff.
Qed.

(** ** memset and memcpy write exactly the range they are given *)
Lemma memset_loop_spec n : forall (a m b : list Z) i doff val,
  length m = n -> doff + i = Z.of_nat (length a) ->
  memset_loop n (a ++ m ++ b) doff i val = Some (a ++ replicate n (u8 val) ++ b).
Proof.
  induction n as [|n IH]; intros a m b i doff val Hm Hi.
  { destruct m; done. }
  destruct m as [|x m]; [done|]. simpl. rewrite Hi, zset_middle. simpl.
  specialize (IH (a ++ [u8 val]) m b (i + 1) doff val).
  rewrite <- !app_assoc in IH. apply IH; [simpl in Hm; lia|].
  rewrite length_app. simpl. lia.
Qed.
Lemma memset_spec (dst : list Z) (off n : nat) val :
  (off + n <= length dst)%nat ->
  memset dst (Z.of_nat off) val (Z.of_nat n) = Some (splice dst off (replicate n (u8 val))).
Proof.
  intros H. destruct (split_at dst off n H) as (a & m & b & -> & <- & Hm).
  unfold memset. rewrite Nat2Z.id, (memset_loop_spec n a m b) by (done || lia).
  by rewrite splice_split by (by rewrite length_replicate).
Qed.

Lemma memcpy_loop_spec n : forall (a m b c s d : list Z) i doff soff,
  length m = n -> length s = n ->
  doff + i = Z.of_nat (length a) -> soff + i = Z.of_nat (length c) ->
  memcpy_loop n (a ++ m ++ b) (c ++ s ++ d) doff soff i = Some (a ++ s ++ b).
Proof.
  induction n as [|n IH]; intros a m b c s d i doff soff Hm Hs Hi Hj.
  { destruct m, s; done. }
  destruct m as [|x m]; [done|]. destruct s as [|y s]; [done|]. simpl.
  rewrite Hj, zget_middle. simpl. rewrite Hi, zset_middle. simpl.
  specialize (IH (a ++ [y]) m b (c ++ [y]) s d (i + 1) doff soff).
  rewrite <- !app_assoc in IH. simpl in *.
  apply IH; rewrite ?length_app; simpl; lia.
Qed.
Lemma memcpy_spec (dst src : list Z) (doff soff n : nat) :
  (doff + n <= length dst)%nat -> (soff + n <= length src)%nat ->
  memcpy dst (Z.of_nat doff) src (Z.of_nat soff) (Z.of_nat n) =
  Some (splice dst doff (slice src soff n)).
Proof.
  intros Hd Hs. destruct (split_at dst doff n Hd) as (a & m & b & -> & <- & Hm).
  destruct (split_at src soff n Hs) as (c & s & d & -> & <- & Hs').
  unfold memcpy. rewrite Nat2Z.id, (memcpy_loop_spec n a m b c s d) by (done || lia).
  subst n. rewrite <- Hs'. rewrite slice_split. by rewrite splice_split.
Qed.

(** The ascending byte loop is a correct move when the destination is at or
    below the source in the same buffer. *)
Lemma memcpy_within_loop_spec n : forall (a g s d : list Z) x i doff soff,
  length s = n ->
  doff + i = Z.of_nat (length a) ->
  soff + i = Z.of_nat (length a) + Z.of_nat (length g) ->
  x = (a ++ g ++ s ++ d) ->
  memcpy_within_loop n x doff soff i =
  Some (a ++ s ++ drop (length s) (g ++ s) ++ d).
Proof.
  induction n as [|n IH]; intros a g s d x i doff soff Hs Hi Hj ->.
  { destruct s; [|done]. simpl. by rewrite app_nil_r, drop_0. }
  destruct s as [|y s]; [done|]. simpl.
  replace (a ++ g ++ y :: s ++ d) with ((a ++ g) ++ y :: s ++ d)
    by (by rewrite <- !app_assoc).
  replace (soff + i) with (Z.of_nat (length (a ++ g))) by (rewrite length_app; lia).
  rewrite zget_middle. simpl. rewrite Hi.
  destruct g as [|h g].
  - rewrite app_nil_r, zset_middle. simpl.
    specialize (IH (a ++ [y]) [] s d (a ++ y :: s ++ d) (i + 1) doff soff).
    rewrite IH; [by list_simplifier|simpl in Hs; lia| | |].
    + rewrite length_app; simpl; lia.
    + rewrite length_app; simpl in *; lia.
    + by list_simplifier.
  - rewrite <- app_assoc. simpl. rewrite zset_middle. simpl.
    specialize (IH (a ++ [y]) (g ++ [y]) s d (a ++ y :: g ++ y :: s ++ d) (i + 1) doff soff).
    rewrite IH.
    + by list_simplifier.
    + simpl in Hs; lia.
    + rewrite length_app; simpl; lia.
    + rewrite !length_app; simpl in *; lia.
    + by list_simplifier.
Qed.

(** ** Properties of the library *)

(** itoa on an unsigned number writes, for every base from 2 to 36 and every
    buffer longer than the digit count [k], the digits of the number most
    significant first, without leading zeros, then a NUL, and leaves the rest
    of the buffer alone; in particular it terminates inside the buffer. *)
Theorem itoa_unsigned_prints_number base num (k : nat) str :
  2 <= base <= 36 -> 0 <= num < 4294967296 -> num < base ^ Z.of_nat k ->
  (1 <= k < length str)%nat ->
  exists ds, spells base num ds /\ (length ds <= k)%nat /\
    itoa_u num str base =
    Some ((digit_char <$> reverse ds) ++ 0 :: drop (S (length ds)) str).
Proof. intros ??? [??]. by apply itoa_u_spec. Qed.

Lemma itoa_unsigned_prints_number_witness :
  exists ds, spells 16 753664 ds /\ (length ds <= 8)%nat /\
    itoa_u 753664 (replicate 32 0) 16 =
    Some ((digit_char <$> reverse ds) ++ 0 :: drop (S (length ds)) (replicate 32 0)).
Proof.
  apply (itoa_unsigned_prints_number 16 753664 8 (replicate 32 0)).
  - lia.
  - lia.
  - reflexivity.
  - simpl. lia.
Defined.

(** C39. Printing any int but INT_MIN in decimal and reading it back with atoi
    gives the number. *)
Theorem atoi_itoa_roundtrip num str :
  -2147483648 < num < 2147483648 -> (12 <= length str)%nat ->
  exists buf, itoa_i num str 10 = Some buf /\ atoi buf = Some num.
Proof.
  intros Hn Hl. destruct (itoa_i_spec num str Hn Hl) as (ds & rest & Hds & ->).
  eexists. split; [done|]. destruct (atoi_spelled _ _ rest Hds) as [H1 H2].
  destruct (Z.ltb_spec num 0); simpl app.
  - rewrite H2. rewrite (i32_small (Z.abs num)), i32_small by lia. f_equal. lia.
  - rewrite H1. rewrite i32_small by lia. f_equal. lia.
Qed.

Lemma atoi_itoa_roundtrip_witness :
  exists buf, itoa_i (-40960) (replicate 32 0) 10 = Some buf /\ atoi buf = Some (-40960).
Proof.
  apply (atoi_itoa_roundtrip (-40960) (replicate 32 0)); [lia|simpl; lia].
Defined.

(** itoa(INT_MIN, buf, 10): the negation wraps back to INT_MIN, the remainders
    are negative and the buffer receives characters below '0'. *)
Example itoa_int_min_prints_no_digits :
  itoa_i (-2147483648) (replicate 13 0) 10 =
  Some [45; 46; 47; 44; 41; 44; 40; 45; 42; 44; 40; 0; 0].
Proof. vm_compute. reflexivity. Qed.

(** strcmp on two NUL-terminated strings is the lexicographic comparison of
    their bytes as unsigned characters: its sign is that of the comparison and
    it is zero exactly on equal strings. *)
Theorem strcmp_lexicographic l1 l2 a b :
  bytes_ok l1 -> bytes_ok l2 -> cstring l1 = Some a -> cstring l2 = Some b ->
  exists r, strcmp l1 l2 = Some r /\ Z.compare r 0 = bytes_compare a b /\
            (r = 0 <-> a = b).
Proof.
  intros H1 H2 H3 H4. destruct (strcmp_spec l1 l2 a b H1 H2 H3 H4) as (r & Hr & Hc).
  exists r. split; [done|]. split; [done|].
  rewrite <- bytes_compare_Eq, <- Hc. symmetry. apply Z.compare_eq_iff.
Qed.

Lemma strcmp_lexicographic_witness :
  exists r, strcmp [108; 115; 0] [108; 200; 0; 9] = Some r /\
    Z.compare r 0 = bytes_compare [108; 115] [108; 200] /\
    (r = 0 <-> [108; 115] = [108; 200]).
Proof.
  apply (strcmp_lexicographic [108; 115; 0] [108; 200; 0; 9] [108; 115] [108; 200]).
  - repeat constructor; lia.
  - repeat constructor; lia.
  - reflexivity.
  - reflexivity.
Defined.

(** memcpy inside one buffer with the destination at or below the source (the
    way vfs_get_path shifts its result to the front) moves the source bytes
    although the ranges may overlap, and leaves the bytes before the
    destination and after the source alone. *)
Theorem memcpy_forward_overlap (a g s d : list Z) :
  memcpy_within (a ++ g ++ s ++ d) (Z.of_nat (length a))
    (Z.of_nat (length a) + Z.of_nat (length g)) (Z.of_nat (length s)) =
  Some (a ++ s ++ drop (length s) (g ++ s) ++ d).
Proof.
  unfold memcpy_within. rewrite Nat2Z.id.
  apply memcpy_within_loop_spec; (done || lia).
Qed.
