(* ===== verification/Pmm.v ===== *)
(** * mm/pmm.cpp: the physical page allocator

    The record [pmm] holds the three static variables of the file.  A [None]
    result is an access outside [memory_bitmap]. *)
From S2P Require Import Prelude.

Definition PAGE_SIZE : Z := 4096.
Definition MAX_PAGES : Z := 1024 * 1024.
Definition BITMAP_SIZE : Z := MAX_PAGES / 32.
Definition ALL_ONES : Z := 0xFFFFFFFF.

Record pmm := mk_pmm {
  memory_bitmap : list Z;
  total_memory_pages : Z;
  used_memory_pages : Z;
}.

(** [1 << j] as an unsigned mask *)
Definition bit_mask (j : Z) : Z := u32 (Z.shiftl 1 j).

Definition bitmap_set (p : pmm) (page_idx : Z) : option pmm :=
  if page_idx <? total_memory_pages p then
    w ← zget (memory_bitmap p) (page_idx / 32);
    if Z.land w (bit_mask (page_idx mod 32)) =? 0 then
      bm ← zset (memory_bitmap p) (page_idx / 32)
             (Z.lor w (bit_mask (page_idx mod 32)));
      Some (mk_pmm bm (total_memory_pages p) (u32 (used_memory_pages p + 1)))
    else Some p
  else Some p.

Definition bitmap_unset (p : pmm) (page_idx : Z) : option pmm :=
  if page_idx <? total_memory_pages p then
    w ← zget (memory_bitmap p) (page_idx / 32);
    if Z.land w (bit_mask (page_idx mod 32)) =? 0 then Some p
    else
      bm ← zset (memory_bitmap p) (page_idx / 32)
             (Z.land w (u32 (Z.lnot (bit_mask (page_idx mod 32)))));
      Some (mk_pmm bm (total_memory_pages p) (u32 (used_memory_pages p - 1)))
  else Some p.

Definition bitmap_test (p : pmm) (page_idx : Z) : option bool :=
  w ← zget (memory_bitmap p) (page_idx / 32);
  Some (negb (Z.land w (bit_mask (page_idx mod 32)) =? 0)).

(** The inner loop [for (int j = 0; j < 32; j++)]; [None] is falling out of it. *)
Fixpoint find_in_word (n : nat) (w i j total : Z) : option Z :=
  match n with
  | O => None
  | S n' =>
      let page_idx := i * 32 + j in
      if total <=? page_idx then Some (-1)
      else if Z.land w (bit_mask j) =? 0 then Some page_idx
      else find_in_word n' w i (j + 1) total
  end.

Fixpoint find_from (n : nat) (p : pmm) (i : Z) : option Z :=
  match n with
  | O => Some (-1)
  | S n' =>
      w ← zget (memory_bitmap p) i;
      if w =? ALL_ONES then find_from n' p (i + 1)
      else match find_in_word 32 w i 0 (total_memory_pages p) with
           | Some r => Some r
           | None => find_from n' p (i + 1)
           end
  end.

Definition find_first_free_page (p : pmm) : option Z :=
  find_from (Z.to_nat (total_memory_pages p / 32)) p 0.

(** [for (i = 0; i < num_pages; i++) bitmap_set(start_page + i)] *)
Fixpoint set_pages (n : nat) (p : pmm) (start_page i : Z) : option pmm :=
  match n with
  | O => Some p
  | S n' => p' ← bitmap_set p (u32 (start_page + i)); set_pages n' p' start_page (i + 1)
  end.
Definition pmm_mark_region_used (p : pmm) (base length : Z) : option pmm :=
  let start_page := base / PAGE_SIZE in
  let num_pages := u32 (length + PAGE_SIZE - 1) / PAGE_SIZE in
  set_pages (Z.to_nat num_pages) p start_page 0.

(** [for (i = start_page; i < end_page; i++) bitmap_unset(i)] *)
Fixpoint unset_pages (n : nat) (p : pmm) (i : Z) : option pmm :=
  match n with
  | O => Some p
  | S n' => p' ← bitmap_unset p i; unset_pages n' p' (i + 1)
  end.
Definition pmm_mark_region_free (p : pmm) (base length : Z) : option pmm :=
  let start_page := u32 (base + PAGE_SIZE - 1) / PAGE_SIZE in
  let end_page := u32 (base + length) / PAGE_SIZE in
  unset_pages (Z.to_nat (end_page - start_page)) p start_page.

(** ** mm/multiboot.h *)
Definition MULTIBOOT_BOOTLOADER_MAGIC : Z := 0x2BADB002.
Definition MULTIBOOT_INFO_MEMORY : Z := 1.
Definition MULTIBOOT_INFO_MEM_MAP : Z := 64.
Definition MULTIBOOT_MEMORY_AVAILABLE : Z := 1.

Record multiboot_mmap_entry := mk_mmap_entry {
  e_size : Z; e_addr_low : Z; e_addr_high : Z;
  e_len_low : Z; e_len_high : Z; e_type : Z;
}.
Record multiboot_info := mk_mbi {
  mbi_flags : Z; mbi_mem_lower : Z; mbi_mem_upper : Z; mbi_boot_device : Z;
  mbi_cmdline : Z; mbi_mods_count : Z; mbi_mods_addr : Z; mbi_num : Z;
  mbi_size : Z; mbi_addr : Z; mbi_shndx : Z; mbi_mmap_length : Z;
  mbi_mmap_addr : Z;
}.

Section Init.
(** What the boot loader left in memory: the map entry at an address; and the
    linker's [kernel_end]. *)
Context (mmap_at : Z -> multiboot_mmap_entry) (kernel_end : Z).

(** [while ((unsigned int)mmap < mmap_end)] *)
Fixpoint mmap_loop (fuel : nat) (p : pmm) (mmap mmap_end : Z) : option pmm :=
  if mmap <? mmap_end then
    match fuel with
    | O => None
    | S f =>
        let e := mmap_at mmap in
        p' ← (if e_type e =? MULTIBOOT_MEMORY_AVAILABLE
              then pmm_mark_region_free p (e_addr_low e) (e_len_low e)
              else Some p);
        mmap_loop f p' (u32 (mmap + e_size e + 4)) mmap_end
    end
  else Some p.

Definition memory_size (magic : Z) (mbi : multiboot_info) : Z :=
  if (magic =? MULTIBOOT_BOOTLOADER_MAGIC)
     && negb (Z.land (mbi_flags mbi) MULTIBOOT_INFO_MEMORY =? 0)
  then u32 (1024 + mbi_mem_upper mbi)
  else 128 * 1024.

Definition memory_pages (magic : Z) (mbi : multiboot_info) : Z :=
  let total := u32 (memory_size magic mbi * 1024) / PAGE_SIZE in
  if total >? MAX_PAGES then MAX_PAGES else total.

(** Entries advance the walk by at least 4 bytes, so [mmap_length] rounds are
    enough unless an entry's size wraps the address. *)
Definition init_pmm (magic : Z) (mbi : multiboot_info) : option pmm :=
  let memory_size_kb := memory_size magic mbi in
  let total := memory_pages magic mbi in
  let p := mk_pmm (replicate (Z.to_nat BITMAP_SIZE) ALL_ONES) total total in
  p1 ← (if (magic =? MULTIBOOT_BOOTLOADER_MAGIC)
           && negb (Z.land (mbi_flags mbi) MULTIBOOT_INFO_MEM_MAP =? 0)
        then mmap_loop (Z.to_nat (mbi_mmap_length mbi)) p (mbi_mmap_addr mbi)
               (u32 (mbi_mmap_addr mbi + mbi_mmap_length mbi))
        else pmm_mark_region_free p 0x100000 (u32 (u32 (memory_size_kb - 1024) * 1024)));
  p2 ← pmm_mark_region_used p1 0x0 0x100000;
  pmm_mark_region_used p2 0x100000 (u32 (kernel_end - 0x100000)).
End Init.

(** Returns the address, 0 when out of memory. *)
Definition pmm_alloc_page (p : pmm) : option (Z * pmm) :=
  free_page ← find_first_free_page p;
  if free_page =? -1 then Some (0, p)
  else
    p' ← bitmap_set p (u32 free_page);
    Some (u32 (i32 (free_page * PAGE_SIZE)), p').

Definition pmm_free_page (p : pmm) (ptr : Z) : option pmm :=
  bitmap_unset p (ptr / PAGE_SIZE).

Definition pmm_get_total_pages (p : pmm) : Z := total_memory_pages p.
Definition pmm_get_used_pages (p : pmm) : Z := used_memory_pages p.
Definition pmm_get_free_pages (p : pmm) : Z :=
  u32 (total_memory_pages p - used_memory_pages p).
Definition pmm_get_total_memory_kb (p : pmm) : Z :=
  u32 (total_memory_pages p * PAGE_SIZE) / 1024.
Definition pmm_get_used_memory_kb (p : pmm) : Z :=
  u32 (used_memory_pages p * PAGE_SIZE) / 1024.
Definition pmm_get_free_memory_kb (p : pmm) : Z :=
  u32 (pmm_get_free_pages p * PAGE_SIZE) / 1024.

(** ** Bits of a bitmap word *)
Lemma bit_mask_pow j : 0 <= j < 32 -> bit_mask j = 2 ^ j.
Proof.
  intros Hj. unfold bit_mask. rewrite Z.shiftl_1_l. apply u32_small. split; [lia|].
  change 4294967296 with (2 ^ 32). apply Z.pow_lt_mono_r; lia.
Qed.
Lemma testbit_mask j k : 0 <= j < 32 -> Z.testbit (bit_mask j) k = (k =? j).
Proof.
  intros Hj. rewrite bit_mask_pow by done. rewrite Z.pow2_bits_eqb by lia.
  apply Z.eqb_sym.
Qed.
Lemma land_mask_zero w j :
  0 <= j < 32 -> (Z.land w (bit_mask j) =? 0) = negb (Z.testbit w j).
Proof.
  intros Hj. destruct (Z.testbit w j) eqn:E; simpl.
  - apply Z.eqb_neq. intros H0. apply (f_equal (fun z => Z.testbit z j)) in H0.
    rewrite Z.land_spec, E, testbit_mask, Z.eqb_refl, Z.bits_0 in H0 by done. done.
  - apply Z.eqb_eq. apply Z.bits_inj'. intros k Hk.
    rewrite Z.land_spec, testbit_mask, Z.bits_0 by done.
    destruct (Z.eqb_spec k j) as [->|]; [by rewrite E|apply andb_false_r].
Qed.
Lemma testbit_set w j k :
  0 <= j < 32 -> Z.testbit (Z.lor w (bit_mask j)) k = Z.testbit w k || (k =? j).
Proof. intros. by rewrite Z.lor_spec, testbit_mask. Qed.
Lemma testbit_clear w j k :
  0 <= j < 32 -> 0 <= k < 32 ->
  Z.testbit (Z.land w (u32 (Z.lnot (bit_mask j)))) k = Z.testbit w k && negb (k =? j).
Proof.
  intros Hj Hk. rewrite Z.land_spec. unfold u32. change 4294967296 with (2 ^ 32).
  rewrite Z.mod_pow2_bits_low by lia. by rewrite Z.lnot_spec, testbit_mask by lia.
Qed.

Definition word_ok (w : Z) : Prop := 0 <= w < 2 ^ 32.
Lemma word_ok_bits w : 0 <= w -> (forall k, 32 <= k -> Z.testbit w k = false) -> word_ok w.
Proof.
  intros Hw Hk. split; [done|]. replace w with (w mod 2 ^ 32); [apply Z.mod_pos_bound; lia|].
  apply Z.bits_inj'. intros k Hk0. destruct (decide (k < 32)).
  - by rewrite Z.mod_pow2_bits_low.
  - rewrite Z.mod_pow2_bits_high, Hk by lia. done.
Qed.
Lemma word_ok_high w k : word_ok w -> 32 <= k -> Z.testbit w k = false.
Proof.
  intros [H0 Hw] Hk. destruct (decide (w = 0)) as [->|]; [apply Z.bits_0|].
  apply Z.bits_above_log2; [done|].
  assert (Z.log2 w < 32) by (apply Z.log2_lt_pow2; lia). lia.
Qed.
Lemma word_ok_set w j : word_ok w -> 0 <= j < 32 -> word_ok (Z.lor w (bit_mask j)).
Proof.
  intros Hw Hj. apply word_ok_bits.
  - apply Z.lor_nonneg. split; [by destruct Hw|]. unfold bit_mask. apply u32_range.
  - intros k Hk. rewrite testbit_set, word_ok_high by done. simpl. apply Z.eqb_neq. lia.
Qed.
Lemma word_ok_clear w m : word_ok w -> 0 <= m -> word_ok (Z.land w m).
Proof.
  intros Hw Hm. apply word_ok_bits; [apply Z.land_nonneg; right; done|].
  intros k Hk. by rewrite Z.land_spec, word_ok_high.
Qed.
Lemma testbit_ones k : 0 <= k < 32 -> Z.testbit ALL_ONES k = true.
Proof. intros. change ALL_ONES with (Z.ones 32). by apply Z.ones_spec_low. Qed.
Lemma word_all_ones w :
  word_ok w -> (forall k, 0 <= k < 32 -> Z.testbit w k = true) -> w = ALL_ONES.
Proof.
  intros Hw Hk. apply Z.bits_inj'. intros k Hk0. destruct (decide (k < 32)).
  - rewrite Hk, testbit_ones by lia. done.
  - change ALL_ONES with (Z.ones 32).
    rewrite word_ok_high, Z.ones_spec_high by (done || lia). done.
Qed.

(** ** The abstract state: which pages are marked used *)
Definition page_used (p : pmm) (i : Z) : bool :=
  match zget (memory_bitmap p) (i / 32) with
  | Some w => Z.testbit w (i mod 32)
  | None => true
  end.

(** The bitmap has its declared size and unsigned words, there are at most
    [MAX_PAGES] pages, and the counter is the number of used pages. *)
Record pmm_wf (p : pmm) : Prop := {
  wf_length : length (memory_bitmap p) = Z.to_nat BITMAP_SIZE;
  wf_words : Forall word_ok (memory_bitmap p);
  wf_total : 0 <= total_memory_pages p <= MAX_PAGES;
  wf_used : used_memory_pages p
            = zcount (page_used p) (Z.to_nat (total_memory_pages p));
}.

Lemma page_word p i :
  pmm_wf p -> 0 <= i < MAX_PAGES ->
  exists w, zget (memory_bitmap p) (i / 32) = Some w /\ word_ok w /\
            page_used p i = Z.testbit w (i mod 32).
Proof.
  intros Hp Hi. destruct (zget_total (memory_bitmap p) (i / 32)) as [w Hw].
  { rewrite (wf_length _ Hp). change (Z.of_nat (Z.to_nat BITMAP_SIZE)) with 32768.
    unfold MAX_PAGES in Hi. split; [apply Z.div_pos; lia|].
    apply Z.div_lt_upper_bound; lia. }
  exists w. split; [done|]. unfold page_used. rewrite Hw. split; [|done].
  pose proof (wf_words _ Hp) as HF. rewrite Forall_lookup in HF.
  apply (HF (Z.to_nat (i / 32))). unfold zget in Hw. case_decide; [done|discriminate].
Qed.

(** Rewriting one word of the bitmap. *)
Lemma page_used_zset p bm t u i w :
  zset (memory_bitmap p) (i / 32) w = Some bm ->
  (forall k, 0 <= k < 32 -> k <> i mod 32 ->
    Z.testbit w k = Z.testbit (default 0 (zget (memory_bitmap p) (i / 32))) k) ->
  forall j, page_used (mk_pmm bm t u) j =
    if j =? i then Z.testbit w (i mod 32) else page_used p j.
Proof.
  intros Hset Hw j. unfold page_used. simpl.
  destruct (Z.eqb_spec j i) as [->|Hne].
  { by rewrite (zget_zset_eq _ _ _ _ Hset). }
  destruct (decide (j / 32 = i / 32)) as [Hd|Hd].
  - rewrite Hd, (zget_zset_eq _ _ _ _ Hset).
    pose proof Hset as [Hr _]%zset_Some. apply zget_is_Some in Hr as [w0 Hw0].
    rewrite Hw0 in *. simpl in Hw. apply Hw; [apply Z.mod_pos_bound; lia|].
    intros Hm. apply Hne. pose proof (Z.div_mod j 32). pose proof (Z.div_mod i 32). lia.
  - by rewrite (zget_zset_ne _ _ (j / 32) _ _ Hset).
Qed.

Lemma zset_words p i w bm :
  Forall word_ok (memory_bitmap p) -> word_ok w ->
  zset (memory_bitmap p) i w = Some bm -> Forall word_ok bm.
Proof. intros HF Hw [_ ->]%zset_Some. by apply Forall_insert. Qed.

(** [bitmap_set] marks one page below the total and nothing else. *)
Lemma bitmap_set_spec p i :
  pmm_wf p -> 0 <= i ->
  exists p', bitmap_set p i = Some p' /\ pmm_wf p' /\
    total_memory_pages p' = total_memory_pages p /\
    forall j, page_used p' j =
      page_used p j || ((j =? i) && (i <? total_memory_pages p)).
Proof.
  intros Hp Hi. unfold bitmap_set. destruct (Z.ltb_spec i (total_memory_pages p)) as [Ht|].
  2:{ exists p. split_and!; try done. intros j. by rewrite andb_false_r, orb_false_r. }
  pose proof (wf_total _ Hp).
  destruct (page_word p i Hp ltac:(lia)) as (w & Hw & Hwok & Hu).
  assert (Hm : 0 <= i mod 32 < 32) by (apply Z.mod_pos_bound; lia).
  rewrite Hw. simpl. rewrite land_mask_zero, <- Hu by done.
  destruct (page_used p i) eqn:Hui; simpl.
  { exists p. split_and!; try done. intros j. rewrite andb_true_r.
    destruct (Z.eqb_spec j i) as [->|]; [by rewrite Hui|by rewrite orb_false_r]. }
  pose proof (proj1 (zget_is_Some _ _) (ex_intro _ w Hw)) as Hr.
  rewrite (zset_in_range _ _ _ Hr). simpl.
  set (w' := Z.lor w _). set (bm := <[_:=w']> _).
  assert (Hset : zset (memory_bitmap p) (i / 32) w' = Some bm) by (by apply zset_in_range).
  assert (Hbits : forall j, page_used (mk_pmm bm (total_memory_pages p)
      (u32 (used_memory_pages p + 1))) j = page_used p j || (j =? i)).
  { intros j. rewrite (page_used_zset _ _ _ _ _ _ Hset).
    - destruct (Z.eqb_spec j i) as [->|]; [|by rewrite orb_false_r].
      unfold w'. rewrite testbit_set, Z.eqb_refl by done. by rewrite !orb_true_r.
    - intros k Hk Hne. rewrite Hw. simpl. unfold w'. rewrite testbit_set by done.
      rewrite (proj2 (Z.eqb_neq _ _) Hne). apply orb_false_r. }
  eexists. split; [done|]. split; [|split; [done|]].
  - split; simpl.
    + rewrite (zset_length _ _ _ _ Hset). apply Hp.
    + eapply zset_words; [apply Hp| |done]. by apply word_ok_set.
    + lia.
    + rewrite (zcount_flip (page_used p) _ _ i).
      * rewrite <- (wf_used _ Hp). apply u32_small. rewrite (wf_used _ Hp).
        pose proof (zcount_range (page_used p) (Z.to_nat (total_memory_pages p))).
        unfold MAX_PAGES in *. lia.
      * lia.
      * done.
      * rewrite Hbits, Z.eqb_refl. apply orb_true_r.
      * intros j Hj. rewrite Hbits, (proj2 (Z.eqb_neq _ _) Hj). apply orb_false_r.
  - intros j. by rewrite Hbits, andb_true_r.
Qed.

(** [bitmap_unset] frees one page below the total and nothing else. *)
Lemma bitmap_unset_spec p i :
  pmm_wf p -> 0 <= i ->
  exists p', bitmap_unset p i = Some p' /\ pmm_wf p' /\
    total_memory_pages p' = total_memory_pages p /\
    forall j, page_used p' j =
      page_used p j && negb ((j =? i) && (i <? total_memory_pages p)).
Proof.
  intros Hp Hi. unfold bitmap_unset. destruct (Z.ltb_spec i (total_memory_pages p)) as [Ht|].
  2:{ exists p. split_and!; try done. intros j. by rewrite andb_false_r, andb_true_r. }
  pose proof (wf_total _ Hp).
  destruct (page_word p i Hp ltac:(lia)) as (w & Hw & Hwok & Hu).
  assert (Hm : 0 <= i mod 32 < 32) by (apply Z.mod_pos_bound; lia).
  rewrite Hw. simpl. rewrite land_mask_zero, <- Hu by done.
  destruct (page_used p i) eqn:Hui; simpl.
  2:{ exists p. split_and!; try done. intros j. rewrite andb_true_r.
    destruct (Z.eqb_spec j i) as [->|]; [by rewrite Hui|by rewrite andb_true_r]. }
  pose proof (proj1 (zget_is_Some _ _) (ex_intro _ w Hw)) as Hr.
  rewrite (zset_in_range _ _ _ Hr). simpl.
  set (w' := Z.land w _). set (bm := <[_:=w']> _).
  assert (Hset : zset (memory_bitmap p) (i / 32) w' = Some bm) by (by apply zset_in_range).
  assert (Hbits : forall j, page_used (mk_pmm bm (total_memory_pages p)
      (u32 (used_memory_pages p - 1))) j = page_used p j && negb (j =? i)).
  { intros j. rewrite (page_used_zset _ _ _ _ _ _ Hset).
    - destruct (Z.eqb_spec j i) as [->|]; [|by rewrite andb_true_r].
      unfold w'. rewrite testbit_clear, Z.eqb_refl by done. by rewrite !andb_false_r.
    - intros k Hk Hne. rewrite Hw. simpl. unfold w'. rewrite testbit_clear by done.
      rewrite (proj2 (Z.eqb_neq _ _) Hne). apply andb_true_r. }
  eexists. split; [done|]. split; [|split; [done|]].
  - split; simpl.
    + rewrite (zset_length _ _ _ _ Hset). apply Hp.
    + eapply zset_words; [apply Hp| |done]. apply word_ok_clear; [done|]. apply u32_range.
    + lia.
    + set (p' := mk_pmm bm _ _) in *.
      assert (Hc : zcount (page_used p) (Z.to_nat (total_memory_pages p)) =
                   zcount (page_used p') (Z.to_nat (total_memory_pages p)) + 1).
      { apply (zcount_flip _ _ _ i); [lia| |done|].
        - rewrite Hbits, Z.eqb_refl. apply andb_false_r.
        - intros j Hj. rewrite Hbits, (proj2 (Z.eqb_neq _ _) Hj). by rewrite andb_true_r. }
      rewrite (wf_used _ Hp), Hc.
      pose proof (zcount_range (page_used p') (Z.to_nat (total_memory_pages p))).
      unfold MAX_PAGES in *. rewrite u32_small by lia. lia.
  - intros j. by rewrite Hbits, andb_true_r.
Qed.

(** ** The search *)
Lemma find_in_word_spec w i total n : forall j,
  0 <= j -> j + Z.of_nat n = 32 -> i * 32 + 32 <= total ->
  match find_in_word n w i j total with
  | Some r => exists k, r = i * 32 + k /\ j <= k < 32 /\ Z.testbit w k = false /\
              forall k', j <= k' < k -> Z.testbit w k' = true
  | None => forall k, j <= k < 32 -> Z.testbit w k = true
  end.
Proof.
  induction n as [|n IH]; intros j Hj Hn Ht; simpl.
  { intros k Hk. lia. }
  destruct (Z.leb_spec total (i * 32 + j)); [lia|].
  rewrite land_mask_zero by lia. destruct (Z.testbit w j) eqn:E; simpl.
  - specialize (IH (j + 1) ltac:(lia) ltac:(lia) Ht).
    destruct (find_in_word n w i (j + 1) total) as [r|].
    + destruct IH as (k & -> & Hk & Hb & Hall). exists k. split; [done|]. split; [lia|]. split; [done|].
      intros k' Hk'. destruct (decide (k' = j)) as [->|]; [done|]. apply Hall. lia.
    + intros k Hk. destruct (decide (k = j)) as [->|]; [done|]. apply IH. lia.
  - exists j. split_and!; try done; intros; lia.
Qed.

Lemma page_used_word p i k w :
  zget (memory_bitmap p) i = Some w -> 0 <= k < 32 ->
  page_used p (i * 32 + k) = Z.testbit w k.
Proof.
  intros Hw Hk. unfold page_used.
  replace ((i * 32 + k) / 32) with i by (Z.to_euclidean_division_equations; lia).
  replace ((i * 32 + k) mod 32) with k by (Z.to_euclidean_division_equations; lia).
  by rewrite Hw.
Qed.

Lemma find_from_spec p n : forall i,
  pmm_wf p -> 0 <= i -> i + Z.of_nat n = total_memory_pages p / 32 ->
  (forall j, 0 <= j < i * 32 -> page_used p j = true) ->
  exists r, find_from n p i = Some r /\
   ((r = -1 /\ forall j, 0 <= j < 32 * (total_memory_pages p / 32) -> page_used p j = true)
    \/ (0 <= r < 32 * (total_memory_pages p / 32) /\ page_used p r = false /\
        forall j, 0 <= j < r -> page_used p j = true)).
Proof.
  induction n as [|n IH]; intros i Hp Hi Hn Hall; cbn [find_from].
  { exists (-1). split; [done|]. left. split; [done|]. intros j Hj. apply Hall. lia. }
  pose proof (wf_total _ Hp) as Ht.
  assert (Hle : total_memory_pages p / 32 * 32 <= total_memory_pages p).
  { pose proof (Z.div_mod (total_memory_pages p) 32).
    pose proof (Z.mod_pos_bound (total_memory_pages p) 32). lia. }
  destruct (page_word p (i * 32) Hp) as (w & Hw & Hwok & _); [lia|].
  rewrite Z.div_mul in Hw by lia. rewrite Hw. cbn [mbind option_bind].
  assert (Hnext : (forall k, 0 <= k < 32 -> Z.testbit w k = true) ->
    forall j, 0 <= j < (i + 1) * 32 -> page_used p j = true).
  { intros Hb j Hj. destruct (decide (j < i * 32)); [apply Hall; lia|].
    replace j with (i * 32 + (j - i * 32)) by lia.
    rewrite (page_used_word _ _ _ _ Hw) by lia. apply Hb. lia. }
  destruct (Z.eqb_spec w ALL_ONES) as [->|Hne].
  { apply IH; try done; try lia. apply Hnext. intros. by apply testbit_ones. }
  pose proof (find_in_word_spec w i (total_memory_pages p) 32 0) as Hf.
  specialize (Hf ltac:(lia) ltac:(lia) ltac:(lia)).
  destruct (find_in_word 32 w i 0 (total_memory_pages p)) as [r|].
  - destruct Hf as (k & -> & Hk & Hb & Hbs). eexists. split; [done|]. right.
    split; [lia|]. split; [by rewrite (page_used_word _ _ _ _ Hw)|].
    intros j Hj. destruct (decide (j < i * 32)); [apply Hall; lia|].
    replace j with (i * 32 + (j - i * 32)) by lia.
    rewrite (page_used_word _ _ _ _ Hw) by lia. apply Hbs. lia.
  - by apply IH; try done; try lia; apply Hnext.
Qed.

(** The pages the search looks at: whole words of the bitmap only. *)
Definition searched (p : pmm) : Z := 32 * (total_memory_pages p / 32).

Lemma find_first_free_page_spec p :
  pmm_wf p ->
  exists r, find_first_free_page p = Some r /\
   ((r = -1 /\ forall j, 0 <= j < searched p -> page_used p j = true)
    \/ (0 <= r < searched p /\ page_used p r = false /\
        forall j, 0 <= j < r -> page_used p j = true)).
Proof.
  intros Hp. pose proof (wf_total _ Hp). unfold find_first_free_page.
  apply (find_from_spec p _ 0); [done|lia| |intros; lia].
  rewrite Z2Nat.id; [lia|]. apply Z.div_pos; lia.
Qed.

Lemma searched_le p : pmm_wf p -> searched p <= total_memory_pages p <= MAX_PAGES.
Proof.
  intros Hp. pose proof (wf_total _ Hp). unfold searched.
  pose proof (Z.div_mod (total_memory_pages p) 32).
  pose proof (Z.mod_pos_bound (total_memory_pages p) 32). lia.
Qed.

Lemma page_address r : 0 <= r < MAX_PAGES -> u32 (i32 (r * PAGE_SIZE)) = r * PAGE_SIZE.
Proof. unfold MAX_PAGES, PAGE_SIZE. intros. word. Qed.
Lemma page_address_index r : r * PAGE_SIZE / PAGE_SIZE = r.
Proof. apply Z.div_mul. unfold PAGE_SIZE. lia. Qed.

(** What [pmm_alloc_page] does on either branch. *)
Lemma pmm_alloc_page_spec p :
  pmm_wf p ->
  (pmm_alloc_page p = Some (0, p) /\
   forall j, 0 <= j < searched p -> page_used p j = true) \/
  exists r p', pmm_alloc_page p = Some (r * PAGE_SIZE, p') /\ pmm_wf p' /\
    0 <= r < searched p /\ page_used p r = false /\
    (forall j, 0 <= j < r -> page_used p j = true) /\
    total_memory_pages p' = total_memory_pages p /\
    forall j, page_used p' j = page_used p j || (j =? r).
Proof.
  intros Hp. pose proof (searched_le p Hp). unfold pmm_alloc_page.
  destruct (find_first_free_page_spec p Hp) as (r & -> & [[-> Hall]|(Hr & Hf & Hall)]);
    cbn [mbind option_bind].
  - left. done.
  - right. rewrite (proj2 (Z.eqb_neq _ _)) by lia.
    unfold MAX_PAGES in *. rewrite (u32_small r) by lia.
    destruct (bitmap_set_spec p r Hp ltac:(lia)) as (p' & -> & Hp' & Ht & Hu).
    cbn [mbind option_bind]. rewrite page_address by (unfold MAX_PAGES; lia).
    exists r, p'. split_and!; try done; try lia.
    intros j. rewrite Hu. rewrite (proj2 (Z.ltb_lt _ _)) by lia. by rewrite andb_true_r.
Qed.

Lemma pmm_free_page_spec p ptr :
  pmm_wf p -> 0 <= ptr ->
  exists p', pmm_free_page p ptr = Some p' /\ pmm_wf p' /\
    total_memory_pages p' = total_memory_pages p /\
    forall j, page_used p' j = page_used p j &&
      negb ((j =? ptr / PAGE_SIZE) && (ptr / PAGE_SIZE <? total_memory_pages p)).
Proof.
  intros Hp H0. apply bitmap_unset_spec; [done|]. apply Z.div_pos; [done|].
  unfold PAGE_SIZE. lia.
Qed.

(** Two well-formed allocators with the same total and the same used pages in
    the whole bitmap are equal: the abstraction loses nothing. *)
Lemma pmm_ext p q :
  pmm_wf p -> pmm_wf q -> total_memory_pages p = total_memory_pages q ->
  (forall j, 0 <= j < MAX_PAGES -> page_used p j = page_used q j) -> p = q.
Proof.
  intros Hp Hq Ht Hu.
  assert (Hb : memory_bitmap p = memory_bitmap q).
  { apply zget_ext; [by rewrite (wf_length _ Hp), (wf_length _ Hq)|].
    intros i Hi. rewrite (wf_length _ Hp) in Hi.
    change (Z.of_nat (Z.to_nat BITMAP_SIZE)) with 32768 in Hi.
    destruct (page_word p (i * 32) Hp) as (w & Hw & Hwok & _); [unfold MAX_PAGES; lia|].
    destruct (page_word q (i * 32) Hq) as (v & Hv & Hvok & _); [unfold MAX_PAGES; lia|].
    rewrite Z.div_mul in Hw, Hv by lia. rewrite Hw, Hv. f_equal.
    apply Z.bits_inj'. intros k Hk. destruct (decide (k < 32)).
    - rewrite <- (page_used_word p i k w), <- (page_used_word q i k v) by (done || lia).
      apply Hu. unfold MAX_PAGES. lia.
    - by rewrite !word_ok_high by (done || lia). }
  assert (Hc : used_memory_pages p = used_memory_pages q).
  { rewrite (wf_used _ Hp), (wf_used _ Hq), Ht. apply zcount_ext. intros i Hi.
    apply Hu. pose proof (wf_total _ Hq). lia. }
  destruct p, q; simpl in *. congruence.
Qed.

(** ** Regions *)
Lemma set_pages_spec n : forall p start i,
  pmm_wf p -> 0 <= start -> 0 <= i -> start + i + Z.of_nat n < 4294967296 ->
  exists p', set_pages n p start i = Some p' /\ pmm_wf p' /\
    total_memory_pages p' = total_memory_pages p /\
    forall j, page_used p' j = page_used p j ||
      ((start + i <=? j) && (j <? start + i + Z.of_nat n) && (j <? total_memory_pages p)).
Proof.
  induction n as [|n IH]; intros p start i Hp Hs Hi Hb; cbn [set_pages].
  { exists p. split_and!; try done. intros j.
    replace ((start + i <=? j) && (j <? start + i + Z.of_nat 0)) with false by lia.
    by rewrite orb_false_r. }
  rewrite (u32_small (start + i)) by lia.
  destruct (bitmap_set_spec p (start + i) Hp ltac:(lia)) as (p1 & -> & Hp1 & Ht1 & Hu1).
  cbn [mbind option_bind].
  destruct (IH p1 start (i + 1) Hp1 Hs ltac:(lia) ltac:(lia)) as (p2 & -> & Hp2 & Ht2 & Hu2).
  exists p2. split_and!; try done; [congruence|]. intros j.
  rewrite Hu2, Hu1, Ht1. rewrite <- orb_assoc. f_equal. lia.
Qed.

Lemma unset_pages_spec n : forall p i,
  pmm_wf p -> 0 <= i ->
  exists p', unset_pages n p i = Some p' /\ pmm_wf p' /\
    total_memory_pages p' = total_memory_pages p /\
    forall j, page_used p' j = page_used p j &&
      negb ((i <=? j) && (j <? i + Z.of_nat n) && (j <? total_memory_pages p)).
Proof.
  induction n as [|n IH]; intros p i Hp Hi; cbn [unset_pages].
  { exists p. split_and!; try done. intros j.
    replace ((i <=? j) && (j <? i + Z.of_nat 0)) with false by lia. by rewrite andb_true_r. }
  destruct (bitmap_unset_spec p i Hp Hi) as (p1 & -> & Hp1 & Ht1 & Hu1).
  cbn [mbind option_bind].
  destruct (IH p1 (i + 1) Hp1 ltac:(lia)) as (p2 & -> & Hp2 & Ht2 & Hu2).
  exists p2. split_and!; try done; [congruence|]. intros j.
  rewrite Hu2, Hu1, Ht1. rewrite <- andb_assoc. f_equal. lia.
Qed.

Definition in_used_region (base length j : Z) : bool :=
  (base / PAGE_SIZE <=? j)
  && (j <? base / PAGE_SIZE + u32 (length + PAGE_SIZE - 1) / PAGE_SIZE).
Definition in_free_region (base length j : Z) : bool :=
  (u32 (base + PAGE_SIZE - 1) / PAGE_SIZE <=? j)
  && (j <? u32 (base + length) / PAGE_SIZE).

Lemma page_index_range x : 0 <= x < 4294967296 -> 0 <= x / PAGE_SIZE < MAX_PAGES.
Proof. unfold PAGE_SIZE, MAX_PAGES. intros. Z.to_euclidean_division_equations; lia. Qed.

Lemma pmm_mark_region_used_spec p base length :
  pmm_wf p -> 0 <= base < 4294967296 ->
  exists p', pmm_mark_region_used p base length = Some p' /\ pmm_wf p' /\
    total_memory_pages p' = total_memory_pages p /\
    forall j, page_used p' j = page_used p j ||
      (in_used_region base length j && (j <? total_memory_pages p)).
Proof.
  intros Hp Hb. pose proof (page_index_range base Hb).
  pose proof (page_index_range _ (u32_range (length + PAGE_SIZE - 1))).
  unfold pmm_mark_region_used.
  destruct (set_pages_spec (Z.to_nat (u32 (length + PAGE_SIZE - 1) / PAGE_SIZE)) p
              (base / PAGE_SIZE) 0 Hp) as (p' & H1 & H2 & H3 & H4);
    [lia|lia|unfold MAX_PAGES in *; lia|].
  exists p'. split_and!; try done. intros j. rewrite H4. unfold in_used_region.
  rewrite Z2Nat.id, Z.add_0_r by lia. done.
Qed.

Lemma pmm_mark_region_free_spec p base length :
  pmm_wf p ->
  exists p', pmm_mark_region_free p base length = Some p' /\ pmm_wf p' /\
    total_memory_pages p' = total_memory_pages p /\
    forall j, page_used p' j = page_used p j &&
      negb (in_free_region base length j && (j <? total_memory_pages p)).
Proof.
  intros Hp. pose proof (page_index_range _ (u32_range (base + PAGE_SIZE - 1))).
  unfold pmm_mark_region_free.
  destruct (unset_pages_spec (Z.to_nat (u32 (base + length) / PAGE_SIZE -
     u32 (base + PAGE_SIZE - 1) / PAGE_SIZE)) p _ Hp (proj1 H)) as (p' & H1 & H2 & H3 & H4).
  exists p'. split_and!; try done. intros j. rewrite H4. unfold in_free_region. lia.
Qed.

(** ** Initialisation *)
Section InitSpec.
Context (mmap_at : Z -> multiboot_mmap_entry) (kernel_end : Z).

(** The entries a walk from [a] to [en] visits, none of them wrapping. *)
Inductive mmap_chain : Z -> Z -> list multiboot_mmap_entry -> Prop :=
| chain_end a en : en <= a -> mmap_chain a en []
| chain_entry a en es :
    a < en -> 0 <= e_size (mmap_at a) -> a + e_size (mmap_at a) + 4 < 4294967296 ->
    mmap_chain (a + e_size (mmap_at a) + 4) en es ->
    mmap_chain a en (mmap_at a :: es).

(** The pages one round of the walk frees: the code reads the low halves of
    the 64-bit base and length, and adds them in 32 bits. *)
Definition entry_frees (e : multiboot_mmap_entry) (j : Z) : bool :=
  (e_type e =? MULTIBOOT_MEMORY_AVAILABLE) &&
  in_free_region (e_addr_low e) (e_len_low e) j.

Lemma mmap_loop_spec a en es : mmap_chain a en es -> forall fuel p,
  pmm_wf p -> 0 <= a -> en - a <= Z.of_nat fuel ->
  exists p', mmap_loop mmap_at fuel p a en = Some p' /\ pmm_wf p' /\
    total_memory_pages p' = total_memory_pages p /\
    forall j, page_used p' j = page_used p j &&
      negb (existsb (fun e => entry_frees e j) es && (j <? total_memory_pages p)).
Proof.
  induction 1 as [a en Hle|a en es Hlt Hs Hw Hc IH]; intros fuel p Hp Ha Hf.
  { exists p. split; [destruct fuel; simpl; by rewrite (proj2 (Z.ltb_ge _ _))|].
    split_and!; try done. intros j. by rewrite andb_true_r. }
  destruct fuel as [|f]; [lia|]. cbn [mmap_loop]. rewrite (proj2 (Z.ltb_lt _ _)) by done.
  assert (Hbody : exists p1,
    (if e_type (mmap_at a) =? MULTIBOOT_MEMORY_AVAILABLE
     then pmm_mark_region_free p (e_addr_low (mmap_at a)) (e_len_low (mmap_at a))
     else Some p) = Some p1 /\ pmm_wf p1 /\
    total_memory_pages p1 = total_memory_pages p /\
    forall j, page_used p1 j = page_used p j &&
      negb (entry_frees (mmap_at a) j && (j <? total_memory_pages p))).
  { unfold entry_frees. destruct (e_type (mmap_at a) =? _).
    - by apply pmm_mark_region_free_spec.
    - exists p. split_and!; try done. intros j. by rewrite andb_true_r. }
  destruct Hbody as (p1 & -> & Hp1 & Ht1 & Hu1). cbn [mbind option_bind].
  rewrite u32_small by lia.
  destruct (IH f p1 Hp1 ltac:(lia) ltac:(lia)) as (p2 & -> & Hp2 & Ht2 & Hu2).
  exists p2. split_and!; try done; [congruence|]. intros j.
  rewrite Hu2, Hu1, Ht1. simpl. rewrite <- andb_assoc. f_equal.
  destruct (entry_frees (mmap_at a) j), (existsb _ es), (j <? total_memory_pages p); done.
Qed.

Lemma memory_pages_range magic mbi : 0 <= memory_pages magic mbi <= MAX_PAGES.
Proof.
  unfold memory_pages.
  pose proof (page_index_range _ (u32_range (memory_size magic mbi * 1024))).
  destruct (_ >? _); lia.
Qed.

(** Everything locked: the state [init_pmm] starts from. *)
Lemma locked_wf total :
  0 <= total <= MAX_PAGES ->
  pmm_wf (mk_pmm (replicate (Z.to_nat BITMAP_SIZE) ALL_ONES) total total) /\
  forall j, 0 <= j < MAX_PAGES ->
    page_used (mk_pmm (replicate (Z.to_nat BITMAP_SIZE) ALL_ONES) total total) j = true.
Proof.
  intros Ht.
  assert (Hu : forall j, 0 <= j < MAX_PAGES ->
    page_used (mk_pmm (replicate (Z.to_nat BITMAP_SIZE) ALL_ONES) total total) j = true).
  { intros j Hj. unfold page_used. cbn [memory_bitmap].
    destruct (zget (replicate (Z.to_nat BITMAP_SIZE) ALL_ONES) (j / 32)) as [w|] eqn:E;
      [|reflexivity].
    unfold zget in E. case_decide; [|done]. apply lookup_replicate in E as [-> _].
    apply testbit_ones. apply Z.mod_pos_bound. lia. }
  split; [|exact Hu]. split; cbn [memory_bitmap total_memory_pages used_memory_pages].
  - apply length_replicate.
  - apply Forall_replicate. done.
  - done.
  - rewrite zcount_true; [lia|]. intros i Hi. apply Hu. lia.
Qed.

(** The pages [init_pmm] leaves used: those no round frees, the first megabyte
    and the kernel image. *)
Definition init_used (es : list multiboot_mmap_entry) (j : Z) : bool :=
  negb (existsb (fun e => entry_frees e j) es)
  || in_used_region 0x0 0x100000 j
  || in_used_region 0x100000 (u32 (kernel_end - 0x100000)) j.

Lemma init_pmm_spec magic mbi es :
  magic = MULTIBOOT_BOOTLOADER_MAGIC ->
  Z.land (mbi_flags mbi) MULTIBOOT_INFO_MEM_MAP <> 0 ->
  0 <= mbi_mmap_addr mbi -> 0 <= mbi_mmap_length mbi ->
  mbi_mmap_addr mbi + mbi_mmap_length mbi < 4294967296 ->
  mmap_chain (mbi_mmap_addr mbi) (mbi_mmap_addr mbi + mbi_mmap_length mbi) es ->
  exists p, init_pmm mmap_at kernel_end magic mbi = Some p /\ pmm_wf p /\
    total_memory_pages p = memory_pages magic mbi /\
    forall j, 0 <= j < total_memory_pages p -> page_used p j = init_used es j.
Proof.
  intros Hmag Hfl Ha Hl Hw Hc. pose proof (memory_pages_range magic mbi) as Hr.
  destruct (locked_wf _ Hr) as [Hp0 Hu0]. unfold init_pmm.
  rewrite (proj2 (Z.eqb_eq _ _) Hmag), (proj2 (Z.eqb_neq _ _) Hfl).
  set (p0 := mk_pmm _ _ _) in *. cbn [andb negb].
  rewrite (u32_small (_ + _)) by lia.
  destruct (mmap_loop_spec _ _ _ Hc (Z.to_nat (mbi_mmap_length mbi)) p0 Hp0 Ha
    ltac:(lia)) as (p1 & -> & Hp1 & Ht1 & Hu1). cbn [mbind option_bind].
  destruct (pmm_mark_region_used_spec p1 0x0 0x100000 Hp1 ltac:(lia))
    as (p2 & -> & Hp2 & Ht2 & Hu2). cbn [mbind option_bind].
  destruct (pmm_mark_region_used_spec p2 0x100000 (u32 (kernel_end - 0x100000)) Hp2
    ltac:(lia)) as (p3 & -> & Hp3 & Ht3 & Hu3).
  assert (Ht : total_memory_pages p3 = memory_pages magic mbi)
    by (rewrite Ht3, Ht2, Ht1; done).
  exists p3. split_and!; try done. intros j Hj.
  rewrite Hu3, Hu2, Hu1, Ht2, Ht1, Hu0 by lia.
  change (total_memory_pages p0) with (memory_pages magic mbi). unfold init_used.
  rewrite (proj2 (Z.ltb_lt _ _)) by lia. by rewrite !andb_true_r.
Qed.

(** *** The memory map as the boot loader means it *)
Definition e_addr (e : multiboot_mmap_entry) : Z := e_addr_high e * 4294967296 + e_addr_low e.
Definition e_len (e : multiboot_mmap_entry) : Z := e_len_high e * 4294967296 + e_len_low e.
(** Page [j] lies whole inside a region the map calls available. *)
Definition available (e : multiboot_mmap_entry) (j : Z) : bool :=
  (e_type e =? MULTIBOOT_MEMORY_AVAILABLE) &&
  (e_addr e <=? j * PAGE_SIZE) && ((j + 1) * PAGE_SIZE <=? e_addr e + e_len e).
(** An available region that starts and ends below 4 GB, its start not inside
    the last page: outside this range the code frees other pages than the map
    names ([pmm_high_entry_frees_low_pages]). *)
Definition below_4g (e : multiboot_mmap_entry) : Prop :=
  e_type e = MULTIBOOT_MEMORY_AVAILABLE ->
  e_addr_high e = 0 /\ e_len_high e = 0 /\ 0 <= e_addr_low e <= 4294967296 - PAGE_SIZE /\
  0 <= e_len_low e /\ e_addr_low e + e_len_low e < 4294967296.

Lemma entry_frees_available e j : below_4g e -> entry_frees e j = available e j.
Proof.
  intros Hb. unfold entry_frees, available, below_4g, e_addr, e_len, in_free_region, PAGE_SIZE in *.
  destruct (Z.eqb_spec (e_type e) MULTIBOOT_MEMORY_AVAILABLE) as [Ht|]; [|done].
  destruct (Hb Ht) as (-> & -> & Ha & Hl & Hs). rewrite !u32_small by lia. cbn [andb].
  f_equal; apply eq_true_iff_eq; rewrite ?Z.leb_le, ?Z.ltb_lt; Z.to_euclidean_division_equations; lia.
Qed.
Lemma init_used_layout es j : Forall below_4g es -> 0x100000 <= kernel_end <= 4294967296 - PAGE_SIZE -> 0 <= j ->
  init_used es j = negb (existsb (fun e => available e j) es) || (j * PAGE_SIZE <? kernel_end).
Proof.
  intros Hes Hk Hj. unfold init_used. rewrite <- orb_assoc. f_equal.
  - f_equal. induction Hes as [|e es He _ IH]; [done|]. cbn [existsb]. by rewrite IH, entry_frees_available.
  - unfold in_used_region, PAGE_SIZE in *. rewrite (u32_small (kernel_end - _)) by lia.
    rewrite !u32_small by lia. apply eq_true_iff_eq.
    rewrite orb_true_iff, !andb_true_iff, !Z.leb_le, !Z.ltb_lt. Z.to_euclidean_division_equations; lia.
Qed.
End InitSpec.

(** ** A decision procedure for the invariant *)
Definition pmm_wfb (p : pmm) : bool :=
  (length (memory_bitmap p) =? Z.to_nat BITMAP_SIZE)%nat
  && forallb (fun w => (0 <=? w) && (w <? 2 ^ 32)) (memory_bitmap p)
  && (0 <=? total_memory_pages p) && (total_memory_pages p <=? MAX_PAGES)
  && (used_memory_pages p =? zcount (page_used p) (Z.to_nat (total_memory_pages p))).
Lemma pmm_wfb_sound p : pmm_wfb p = true -> pmm_wf p.
Proof.
  unfold pmm_wfb. rewrite !andb_true_iff. intros ((((H1 & H2) & H3) & H4) & H5).
  split; [by apply Nat.eqb_eq| |lia|lia].
  apply Forall_forall. intros w Hw. rewrite forallb_forall in H2.
  apply list_elem_of_In in Hw. specialize (H2 w Hw). unfold word_ok. lia.
Qed.

(** An 8 MB machine with a two-entry map, as the boot loader would describe it,
    and a kernel that ends at 0x125000. *)
Definition demo_mbi : multiboot_info := mk_mbi 65 639 7168 0 0 0 0 0 0 0 0 48 0x9000.
Definition demo_mmap (a : Z) : multiboot_mmap_entry :=
  if a =? 0x9000 then mk_mmap_entry 20 0 0 0x9fc00 0 1
  else mk_mmap_entry 20 0x100000 0 0x700000 0 1.

(** An allocator of 2 MB whose first megabyte and kernel image are used: the
    first free page is the one at 0x125000. *)
Definition demo_pmm : pmm :=
  mk_pmm (replicate 9 ALL_ONES ++ 0x1F :: replicate (Z.to_nat BITMAP_SIZE - 10) 0) 512 293.
Lemma demo_wfb : pmm_wfb demo_pmm = true.
Proof. vm_compute. reflexivity. Qed.

(** ** Allocation and release over time *)

(** The allocator with the addresses its clients hold; a client frees only an
    address it holds. *)
Inductive pmm_step : pmm * list Z -> pmm * list Z -> Prop :=
| step_alloc p a p' owned :
    pmm_alloc_page p = Some (a, p') -> a <> 0 -> pmm_step (p, owned) (p', a :: owned)
| step_out_of_memory p p' owned :
    pmm_alloc_page p = Some (0, p') -> pmm_step (p, owned) (p', owned)
| step_free p a p' l1 l2 :
    pmm_free_page p a = Some p' -> pmm_step (p, l1 ++ a :: l2) (p', l1 ++ l2).

Definition holds_page (p : pmm) (a : Z) : Prop :=
  exists r, a = r * PAGE_SIZE /\ 0 < r < total_memory_pages p /\ page_used p r = true.

Record owned_inv (base : Z) (s : pmm * list Z) : Prop := {
  oi_wf : pmm_wf (fst s);
  oi_zero : page_used (fst s) 0 = true;
  oi_nodup : NoDup (snd s);
  oi_held : Forall (holds_page (fst s)) (snd s);
  oi_count : used_memory_pages (fst s) = base + Z.of_nat (length (snd s));
}.

Lemma used_after_alloc p p' r :
  pmm_wf p -> pmm_wf p' -> total_memory_pages p' = total_memory_pages p ->
  0 <= r < total_memory_pages p -> page_used p r = false ->
  (forall j, page_used p' j = page_used p j || (j =? r)) ->
  used_memory_pages p' = used_memory_pages p + 1.
Proof.
  intros Hp Hp' Ht Hr Hf Hu. rewrite (wf_used _ Hp), (wf_used _ Hp'), Ht.
  apply (zcount_flip _ _ _ r); [lia|done| |].
  - by rewrite Hu, Z.eqb_refl, orb_true_r.
  - intros j Hj. by rewrite Hu, (proj2 (Z.eqb_neq _ _) Hj), orb_false_r.
Qed.

Lemma pmm_step_inv base s s' : pmm_step s s' -> owned_inv base s -> owned_inv base s'.
Proof.
  destruct 1 as [p a p' owned Ha Hne|p p' owned Ha|p a p' l1 l2 Hfree];
    intros [Hp Hz Hnd Hh Hc]; simpl in *.
  - destruct (pmm_alloc_page_spec p Hp) as [[E _]|(r & q & E & Hq & Hr & Hf & _ & Ht & Hu)];
      rewrite E in Ha; simplify_eq.
    pose proof (searched_le p Hp).
    split; simpl; try done.
    + by rewrite Hu, Hz.
    + apply NoDup_cons. split; [|done]. intros Hin. rewrite Forall_forall in Hh.
      destruct (Hh _ Hin) as (r' & Heq & _ & Hu'). unfold PAGE_SIZE in Heq.
      assert (r' = r) as -> by lia. congruence.
    + apply Forall_cons. split.
      * exists r. split; [done|]. unfold PAGE_SIZE in *. rewrite Ht. split; [|].
        -- lia.
        -- by rewrite Hu, Z.eqb_refl, orb_true_r.
      * eapply Forall_impl; [exact Hh|]. intros x (r' & -> & ? & Hu').
        exists r'. rewrite Ht, Hu, Hu'. done.
    + rewrite (used_after_alloc p p' r); try done; lia.
  - destruct (pmm_alloc_page_spec p Hp) as [[E _]|(r & q & E & Hq & Hr & Hf & _ & Ht & Hu)];
      rewrite E in Ha; injection Ha; intros; subst; [by split|].
    exfalso. assert (r = 0) as -> by (unfold PAGE_SIZE in *; lia). congruence.
  - apply Forall_app in Hh as [Hh1 [Ha Hh2]%Forall_cons].
    destruct Ha as (r & -> & Hr & Hur).
    destruct (pmm_free_page_spec p (r * PAGE_SIZE) Hp) as (q & E & Hq & Ht & Hu).
    { unfold PAGE_SIZE. lia. }
    rewrite E in Hfree. injection Hfree as <-. rewrite page_address_index in Hu.
    assert (Hu' : forall j, page_used q j = page_used p j && negb (j =? r)).
    { intros j. rewrite Hu. rewrite (proj2 (Z.ltb_lt r _)) by lia. by rewrite andb_true_r. }
    apply NoDup_app in Hnd as (Hnd1 & Hd & [Hn2 Hnd2]%NoDup_cons).
    assert (Hni : r * PAGE_SIZE ∉ l1 ++ l2).
    { rewrite elem_of_app. intros [Hin|Hin]; [|done].
      apply (Hd _ Hin). by left. }
    split; simpl; try done.
    + rewrite Hu', Hz. assert (0 =? r = false) as -> by lia. done.
    + apply NoDup_app. split_and!; try done. intros x Hx Hx2. apply (Hd x Hx). by right.
    + apply Forall_forall. intros x Hx.
      assert (Hhx : holds_page p x).
      { rewrite !Forall_forall in *. apply elem_of_app in Hx as [Hx|Hx]; auto. }
      destruct Hhx as (r' & -> & Hr' & Hux). exists r'. rewrite Ht, Hu', Hux.
      split_and!; try done; try lia.
      destruct (Z.eqb_spec r' r) as [->|]; done.
    + rewrite length_app in *. simpl in Hc.
      rewrite (used_after_alloc q p r) in Hc; try done; try lia.
      * rewrite Hu', Z.eqb_refl. apply andb_false_r.
      * intros j. rewrite Hu'. destruct (Z.eqb_spec j r) as [->|].
        -- by rewrite orb_true_r.
        -- by rewrite orb_false_r, andb_true_r.
Qed.

Lemma pmm_steps_inv base s s' : rtc pmm_step s s' -> owned_inv base s -> owned_inv base s'.
Proof. induction 1; eauto using pmm_step_inv. Qed.

(** ** Properties of the allocator *)

(** C35. init_pmm on a boot with an E820 map whose available regions lie below 4 GB
    ([below_4g]) terminates inside the bitmap and
    leaves a page used exactly when no available region of the map (its full
    64-bit base and length) covers it, or it lies below kernel_end: in the
    first megabyte or in the kernel image.  The used counter is the number of
    used pages ([pmm_wf]).  A region outside that range frees other pages
    ([pmm_high_entry_frees_low_pages]). *)
Theorem init_pmm_layout mmap_at kernel_end magic mbi es :
  magic = MULTIBOOT_BOOTLOADER_MAGIC ->
  Z.land (mbi_flags mbi) MULTIBOOT_INFO_MEM_MAP <> 0 ->
  0 <= mbi_mmap_addr mbi -> 0 <= mbi_mmap_length mbi ->
  mbi_mmap_addr mbi + mbi_mmap_length mbi < 4294967296 ->
  mmap_chain mmap_at (mbi_mmap_addr mbi) (mbi_mmap_addr mbi + mbi_mmap_length mbi) es ->
  Forall below_4g es -> 0x100000 <= kernel_end <= 4294967296 - PAGE_SIZE ->
  exists p, init_pmm mmap_at kernel_end magic mbi = Some p /\ pmm_wf p /\
    total_memory_pages p = memory_pages magic mbi /\
    forall j, 0 <= j < total_memory_pages p ->
      page_used p j = negb (existsb (fun e => available e j) es) || (j * PAGE_SIZE <? kernel_end).
Proof.
  intros H1 H2 H3 H4 H5 H6 Hes Hk.
  destruct (init_pmm_spec mmap_at kernel_end magic mbi es H1 H2 H3 H4 H5 H6) as (p & Hi & Hwf & Ht & Hu).
  exists p. do 3 (split; [done|]). intros j Hj. rewrite Hu by done. by apply init_used_layout; [..|lia].
Qed.

Lemma init_pmm_layout_witness :
  exists p, init_pmm demo_mmap 0x125000 MULTIBOOT_BOOTLOADER_MAGIC demo_mbi = Some p /\
    pmm_wf p /\
    total_memory_pages p = memory_pages MULTIBOOT_BOOTLOADER_MAGIC demo_mbi /\
    forall j, 0 <= j < total_memory_pages p ->
      page_used p j = negb (existsb (fun e => available e j) [demo_mmap 0x9000; demo_mmap 0x9018])
                      || (j * PAGE_SIZE <? 0x125000).
Proof.
  apply (init_pmm_layout demo_mmap 0x125000 MULTIBOOT_BOOTLOADER_MAGIC demo_mbi
           [demo_mmap 0x9000; demo_mmap 0x9018]).
  - reflexivity.
  - vm_compute. discriminate.
  - vm_compute. discriminate.
  - vm_compute. discriminate.
  - reflexivity.
  - simpl. apply (chain_entry demo_mmap 0x9000); [reflexivity|vm_compute; discriminate|reflexivity|].
    apply (chain_entry demo_mmap 0x9018); [reflexivity|vm_compute; discriminate|reflexivity|].
    apply chain_end. vm_compute. discriminate.
  - repeat apply Forall_cons_2; try apply Forall_nil_2; intros _; vm_compute; repeat split; discriminate.
  - vm_compute. split; discriminate.
Defined.

(** pmm_alloc_page never leaves the bitmap; it answers 0 and changes nothing
    exactly when every page in the whole words of the bitmap is used, and
    otherwise returns the address of the lowest free page, which it marks used
    and whose neighbours it leaves alone; the invariant is kept. *)
Theorem pmm_alloc_page_lowest_free p :
  pmm_wf p ->
  (pmm_alloc_page p = Some (0, p) /\
   forall j, 0 <= j < searched p -> page_used p j = true) \/
  exists r p', pmm_alloc_page p = Some (r * PAGE_SIZE, p') /\ pmm_wf p' /\
    0 <= r < searched p /\ page_used p r = false /\
    (forall j, 0 <= j < r -> page_used p j = true) /\
    used_memory_pages p' = used_memory_pages p + 1 /\
    forall j, page_used p' j = page_used p j || (j =? r).
Proof.
  intros Hp. pose proof (searched_le p Hp).
  destruct (pmm_alloc_page_spec p Hp) as [?|(r & p' & ? & ? & ? & ? & ? & Ht & Hu)];
    [by left|right].
  exists r, p'. split_and!; try done; try lia.
  apply (used_after_alloc p p' r); done || lia.
Qed.

Lemma pmm_alloc_page_lowest_free_witness :
  (pmm_alloc_page demo_pmm = Some (0, demo_pmm) /\
   forall j, 0 <= j < searched demo_pmm -> page_used demo_pmm j = true) \/
  exists r p', pmm_alloc_page demo_pmm = Some (r * PAGE_SIZE, p') /\ pmm_wf p' /\
    0 <= r < searched demo_pmm /\ page_used demo_pmm r = false /\
    (forall j, 0 <= j < r -> page_used demo_pmm j = true) /\
    used_memory_pages p' = used_memory_pages demo_pmm + 1 /\
    forall j, page_used p' j = page_used demo_pmm j || (j =? r).
Proof.
  apply (pmm_alloc_page_lowest_free demo_pmm). apply pmm_wfb_sound. exact demo_wfb.
Defined.

(** Freeing the page just allocated restores the allocator to the state before
    the allocation, bit for bit and counter included. *)
Theorem pmm_alloc_free_roundtrip p a p' :
  pmm_wf p -> page_used p 0 = true -> pmm_alloc_page p = Some (a, p') -> a <> 0 ->
  pmm_free_page p' a = Some p.
Proof.
  intros Hp Hz Ha Hne. pose proof (searched_le p Hp).
  destruct (pmm_alloc_page_spec p Hp) as [[E _]|(r & q & E & Hq & Hr & Hf & _ & Ht & Hu)];
    rewrite E in Ha; simplify_eq.
  destruct (pmm_free_page_spec p' (r * PAGE_SIZE) Hq) as (q & Eq & Hq' & Ht' & Hu').
  { unfold PAGE_SIZE. lia. }
  rewrite page_address_index in Hu'. rewrite Eq. f_equal.
  apply pmm_ext; try done; [congruence|]. intros j Hj. rewrite Hu', Hu.
  rewrite (proj2 (Z.ltb_lt r _)) by lia. rewrite andb_true_r.
  destruct (Z.eqb_spec j r) as [->|]; simpl.
  - by rewrite Hf, andb_false_r.
  - by rewrite orb_false_r, andb_true_r.
Qed.

Lemma pmm_alloc_free_roundtrip_witness :
  pmm_free_page (default demo_pmm (snd <$> pmm_alloc_page demo_pmm)) 0x125000
  = Some demo_pmm.
Proof.
  apply (pmm_alloc_free_roundtrip demo_pmm 0x125000).
  - apply pmm_wfb_sound. exact demo_wfb.
  - vm_compute. reflexivity.
  - apply option_pair_eta. vm_compute. reflexivity.
  - discriminate.
Defined.

(** C24. In every sequence of allocations and of releases of held pages, from any
    well-formed state whose page 0 is used, no page is ever held twice, every
    held address is the non-null aligned address of a used page below the
    total, and the used counter is its initial value plus the number of pages
    held. *)
Theorem pmm_pages_never_shared p0 p owned :
  pmm_wf p0 -> page_used p0 0 = true -> rtc pmm_step (p0, []) (p, owned) ->
  NoDup owned /\ Forall (holds_page p) owned /\
  used_memory_pages p = used_memory_pages p0 + Z.of_nat (length owned).
Proof.
  intros Hp Hz Hs.
  apply (pmm_steps_inv (used_memory_pages p0)) in Hs as [? ? ? ? ?]; [done|].
  split; simpl; first [done|apply NoDup_nil_2|apply Forall_nil_2|lia].
Qed.

Definition demo_pmm1 : pmm := default demo_pmm (snd <$> pmm_alloc_page demo_pmm).
Lemma pmm_pages_never_shared_witness :
  NoDup [0x125000] /\ Forall (holds_page demo_pmm1) [0x125000] /\
  used_memory_pages demo_pmm1 = used_memory_pages demo_pmm + 1.
Proof.
  apply (pmm_pages_never_shared demo_pmm demo_pmm1 [0x125000]).
  - apply pmm_wfb_sound. exact demo_wfb.
  - vm_compute. reflexivity.
  - apply rtc_once. apply step_alloc; [|discriminate].
    apply option_pair_eta. vm_compute. reflexivity.
Defined.

(** The search covers whole 32-page words only: on a machine whose page count
    is not a multiple of 32 the last pages are free in the bitmap and counted
    free, and an allocation still reports that memory is exhausted. *)
Definition tail_pmm : pmm :=
  mk_pmm (ALL_ONES :: replicate (Z.to_nat BITMAP_SIZE - 1) 0) 40 32.
Example pmm_tail_pages_unreachable :
  pmm_wfb tail_pmm = true /\ pmm_get_free_pages tail_pmm = 8 /\
  page_used tail_pmm 35 = false /\ option_map fst (pmm_alloc_page tail_pmm) = Some 0.
Proof. vm_compute. done. Qed.

(** A map entry above 4 GB (base high word 1) opens the low pages with the
    same low word: the page count is kept below 2 GB here, and page 300, which
    no map entry covers, becomes allocatable. *)
Example pmm_high_entry_frees_low_pages :
  (p ← init_pmm (fun _ => mk_mmap_entry 20 0x12C000 1 0x1000 0 1) 0x125000
         MULTIBOOT_BOOTLOADER_MAGIC (mk_mbi 65 639 7168 0 0 0 0 0 0 0 0 24 0x9000);
   Some (page_used p 300)) = Some false.
Proof. vm_compute. reflexivity. Qed.

(** The clamp to MAX_PAGES never acts: the size in bytes wraps at 4 GB first,
    and a machine reporting exactly 4 GB gets no page at all. *)
Theorem pmm_size_wraps_before_clamp magic mbi :
  memory_pages magic mbi < MAX_PAGES /\
  memory_pages MULTIBOOT_BOOTLOADER_MAGIC
    (mk_mbi 1 639 (4 * 1024 * 1024 - 1024) 0 0 0 0 0 0 0 0 0 0) = 0.
Proof.
  split; [|reflexivity]. unfold memory_pages.
  pose proof (page_index_range _ (u32_range (memory_size magic mbi * 1024))).
  rewrite Z.gtb_ltb, (proj2 (Z.ltb_ge _ _)) by lia. lia.
Qed.
