(* ===== verification/Heap.v ===== *)
(** * mm/heap.cpp: the kernel heap

    The headers the allocator reads and writes are a map from address to
    [block_header]; a read of an address with no header is [None].  A header
    left behind inside a block by a merge stays in the map, as it stays in
    memory.  The physical and virtual memory managers are reached through the
    interface [PageProvider]. *)
From S2P Require Import Prelude.

Definition HEAP_START : Z := 0xC0000000.
Definition HEAP_INITIAL_SIZE : Z := 0x1000.
Definition HEAP_MAX_ADDR : Z := 0xE0000000.
Definition HEAP_PAGE : Z := 4096.
Definition HEADER : Z := 16. (* sizeof(block_header) *)
Definition PAGE_RW_FLAGS : Z := 3. (* PAGE_PRESENT | PAGE_RW *)

(** What the heap needs of mm/pmm.cpp and mm/vmm.cpp: [pmm_alloc_page()] (0
    when memory is exhausted) and [vmm_map_page(virt, phys, flags)]. *)
Class PageProvider (S : Type) := {
  provide_page : S -> option (Z * S);
  map_page : S -> Z -> Z -> Z -> option S;
}.
(** The contract: under an invariant of the provider, both calls return. *)
Class PageProviderOk (S : Type) `{PageProvider S} := {
  provider_inv : S -> Prop;
  provide_page_ok : forall s, provider_inv s ->
    exists a s', provide_page s = Some (a, s') /\ provider_inv s';
  map_page_ok : forall s virt phys s0,
    provide_page s0 = Some (phys, s) -> phys <> 0 -> provider_inv s ->
    HEAP_START <= virt < HEAP_MAX_ADDR ->
    exists s', map_page s virt phys PAGE_RW_FLAGS = Some s' /\ provider_inv s';
}.

Record block_header := mk_block {
  b_size : Z;
  b_is_free : bool;
  b_next : Z;
  b_prev : Z;
}.
Definition set_b_size v b := mk_block v (b_is_free b) (b_next b) (b_prev b).
Definition set_b_is_free v b := mk_block (b_size b) v (b_next b) (b_prev b).
Definition set_b_next v b := mk_block (b_size b) (b_is_free b) v (b_prev b).
Definition set_b_prev v b := mk_block (b_size b) (b_is_free b) (b_next b) v.

Record heap (S : Type) := mk_heap {
  headers : gmap Z block_header;
  heap_head : Z;
  heap_current_end : Z;
  provider : S;
}.
Arguments mk_heap {S} _ _ _ _.
Arguments headers {S} _.
Arguments heap_head {S} _.
Arguments heap_current_end {S} _.
Arguments provider {S} _.

(** [block->field = v], on the header map *)
Definition poke (m : gmap Z block_header) (a : Z) (f : block_header -> block_header)
  : option (gmap Z block_header) :=
  b ← m !! a; Some (<[a := f b]> m).

Section Heap.
Context {S : Type} `{PageProvider S}.
Implicit Types h : heap S.

Definition set_headers h m : heap S :=
  mk_heap m (heap_head h) (heap_current_end h) (provider h).
Definition set_provider h s : heap S :=
  mk_heap (headers h) (heap_head h) (heap_current_end h) s.

Definition init_heap (s : S) : option (heap S) :=
  (* HEAP_INITIAL_SIZE is one page: the loop body runs once *)
  '(heap_phys_addr, s1) ← provide_page s;
  s2 ← map_page s1 HEAP_START heap_phys_addr PAGE_RW_FLAGS;
  Some (mk_heap {[HEAP_START := mk_block (HEAP_INITIAL_SIZE - HEADER) true 0 0]}
          HEAP_START (HEAP_START + HEAP_INITIAL_SIZE) s2).

(** [while (block != 0)]: [inl] the first free block that is large enough, or
    [inr] the last block visited. *)
Fixpoint find_block (fuel : nat) (m : gmap Z block_header)
    (block prev_block aligned_size : Z) : option (Z + Z) :=
  if block =? 0 then Some (inr prev_block) else
  match fuel with
  | O => None
  | Datatypes.S f =>
      b ← m !! block;
      if b_is_free b && (aligned_size <=? b_size b) then Some (inl block)
      else find_block f m (b_next b) block aligned_size
  end.

(** The body of the [if]: split when the rest can hold a header and 4 bytes,
    take the block. *)
Definition take_block (m : gmap Z block_header) (block aligned_size : Z)
  : option (gmap Z block_header) :=
  b ← m !! block;
  m1 ← (if HEADER + 4 <=? u32 (b_size b - aligned_size) then
          let new_block := u32 (block + aligned_size + HEADER) in
          let m1 := <[new_block :=
                      mk_block (u32 (b_size b - aligned_size - HEADER)) true
                               (b_next b) block]> m in
          m2 ← (if b_next b =? 0 then Some m1
                else poke m1 (b_next b) (set_b_prev new_block));
          m3 ← poke m2 block (set_b_next new_block);
          poke m3 block (set_b_size aligned_size)
        else Some m);
  poke m1 block (set_b_is_free false).

(** The list has at most one block per [HEADER] bytes of the heap. *)
Definition list_fuel h : nat :=
  Z.to_nat ((heap_current_end h - HEAP_START) / HEADER + 1).

(** One page more at the end of the heap; [None] inside when the heap cannot
    grow. *)
Definition grow_heap h (prev_block : Z) : option (option (heap S) * heap S) :=
  if HEAP_MAX_ADDR <? u32 (heap_current_end h + HEAP_PAGE) then Some (None, h) else
  '(heap_phys_addr, s1) ← provide_page (provider h);
  if heap_phys_addr =? 0 then Some (None, set_provider h s1) else
  s2 ← map_page s1 (heap_current_end h) heap_phys_addr PAGE_RW_FLAGS;
  let m := headers h in
  let en := heap_current_end h in
  prev_free ← (if prev_block =? 0 then Some false else b_is_free <$> m !! prev_block);
  m' ← (if prev_free : bool then
          b ← m !! prev_block;
          poke m prev_block (set_b_size (u32 (b_size b + HEAP_PAGE)))
        else
          let m1 := <[en := mk_block (HEAP_PAGE - HEADER) true 0 prev_block]> m in
          poke m1 prev_block (set_b_next en));
  let h' := mk_heap m' (heap_head h) (u32 (en + HEAP_PAGE)) s2 in
  Some (Some h', h').

(** kmalloc calls itself after growing the heap by a page. *)
Fixpoint kmalloc_rec (fuel : nat) h (size : Z) : option (Z * heap S) :=
  if size =? 0 then Some (0, h) else
  let aligned_size := u32 (u32 (size + 3) / 4 * 4) in
  r ← find_block (list_fuel h) (headers h) (heap_head h) 0 aligned_size;
  match r with
  | inl block =>
      m ← take_block (headers h) block aligned_size;
      Some (u32 (block + HEADER), set_headers h m)
  | inr prev_block =>
      '(g, h1) ← grow_heap h prev_block;
      match g with
      | None => Some (0, h1)
      | Some h2 =>
          match fuel with
          | O => None
          | Datatypes.S f => kmalloc_rec f h2 size
          end
      end
  end.

(** Each recursive call follows the mapping of one page below HEAP_MAX_ADDR. *)
Definition pages_left h : nat :=
  Z.to_nat ((HEAP_MAX_ADDR - heap_current_end h) / HEAP_PAGE).
Definition kmalloc h (size : Z) : option (Z * heap S) :=
  kmalloc_rec (pages_left h) h size.

(** [if (block->next && block->next->is_free)]: absorb the next block. *)
Definition coalesce_next (m : gmap Z block_header) (block : Z)
  : option (gmap Z block_header) :=
  b ← m !! block;
  if b_next b =? 0 then Some m else
  nb ← m !! b_next b;
  if b_is_free nb then
    let m1 := <[block := mk_block (u32 (b_size b + u32 (b_size nb + HEADER)))
                           (b_is_free b) (b_next nb) (b_prev b)]> m in
    if b_next nb =? 0 then Some m1 else poke m1 (b_next nb) (set_b_prev block)
  else Some m.

(** [if (block->prev && block->prev->is_free)]: be absorbed by it. *)
Definition coalesce_prev (m : gmap Z block_header) (block : Z)
  : option (gmap Z block_header) :=
  b ← m !! block;
  if b_prev b =? 0 then Some m else
  pb ← m !! b_prev b;
  if b_is_free pb then
    m1 ← poke m (b_prev b) (set_b_size (u32 (b_size pb + u32 (b_size b + HEADER))));
    m2 ← poke m1 (b_prev b) (set_b_next (b_next b));
    if b_next b =? 0 then Some m2 else poke m2 (b_next b) (set_b_prev (b_prev b))
  else Some m.

Definition kfree h (ptr : Z) : option (heap S) :=
  if ptr =? 0 then Some h else
  let block := u32 (ptr - HEADER) in
  m0 ← poke (headers h) block (set_b_is_free true);
  m1 ← coalesce_next m0 block;
  m2 ← coalesce_prev m1 block;
  Some (set_headers h m2).
End Heap.

(** ** The block list as an abstract list of (size, free) pairs *)
Notation blocks := (list (Z * bool)).

(** [seg m a p bs e q i n]: in [m], the headers of [bs] start at [a] and their
    payloads end at [e]; [p] is the [prev] of the first header and [q] the
    address of the last one ([p] when [bs] is empty); [i] is the pointer to the
    first header ([n] when [bs] is empty) and [n] the last header's [next]. *)
Fixpoint seg (m : gmap Z block_header) (a p : Z) (bs : blocks) (e q i n : Z) : Prop :=
  match bs with
  | [] => e = a /\ q = p /\ i = n
  | (s, f) :: bs' =>
      i = a /\ 0 <= s /\
      exists i', m !! a = Some (mk_block s f i' p) /\
                 seg m (a + HEADER + s) a bs' e q i' n
  end.

Lemma seg_end_le m bs : forall a p e q i n,
  seg m a p bs e q i n -> a + HEADER * Z.of_nat (length bs) <= e.
Proof.
  induction bs as [|[s f] bs IH]; intros a p e q i n; simpl; [lia|].
  intros (-> & Hs & i' & _ & Hseg). apply IH in Hseg. unfold HEADER in *. lia.
Qed.

Lemma seg_app m bs1 bs2 : forall a p e q i n,
  seg m a p (bs1 ++ bs2) e q i n <->
  exists e1 q1 i1, seg m a p bs1 e1 q1 i i1 /\ seg m e1 q1 bs2 e q i1 n.
Proof.
  induction bs1 as [|[s f] bs1 IH]; intros a p e q i n; simpl.
  { naive_solver. }
  split.
  - intros (-> & Hs & i' & Hm & (e1 & q1 & i1 & H1 & H2)%IH). naive_solver.
  - intros (e1 & q1 & i1 & (-> & Hs & i' & Hm & H1) & H2).
    do 2 (split; [done|]). exists i'. split; [done|]. apply IH. naive_solver.
Qed.

(** A segment depends on the headers in its own range only. *)
Lemma seg_frame m m' bs : forall a p e q i n,
  (forall x, a <= x < e -> m' !! x = m !! x) ->
  seg m a p bs e q i n -> seg m' a p bs e q i n.
Proof.
  induction bs as [|[s f] bs IH]; intros a p e q i n Hm; simpl; [done|].
  intros (-> & Hs & i' & Hb & Hseg). do 2 (split; [done|]). exists i'.
  pose proof (seg_end_le _ _ _ _ _ _ _ _ Hseg). unfold HEADER in *.
  split; [rewrite Hm by lia; done|]. apply IH; [|done]. intros x Hx. apply Hm. lia.
Qed.

(** Changing the predecessor of a non-empty segment. *)
Lemma seg_set_prev m a p s f bs e q i n p' :
  seg m a p ((s, f) :: bs) e q i n ->
  exists m', poke m a (set_b_prev p') = Some m' /\
    seg m' a p' ((s, f) :: bs) e q i n /\ forall x, x <> a -> m' !! x = m !! x.
Proof.
  intros (-> & Hs & i' & Hm & Hseg). unfold poke. rewrite Hm. simpl.
  eexists. split; [done|]. split.
  - simpl. do 2 (split; [done|]). exists i'. rewrite lookup_insert_eq. split; [done|].
    eapply seg_frame; [|done]. intros x Hx. unfold HEADER in *.
    apply lookup_insert_ne. lia.
  - intros x Hx. by apply lookup_insert_ne.
Qed.

(** Redirecting the last [next] of a non-empty segment. *)
Lemma seg_set_next m bs b : forall a p e q i n n',
  seg m a p (bs ++ [b]) e q i n ->
  exists m', poke m q (set_b_next n') = Some m' /\
    seg m' a p (bs ++ [b]) e q i n' /\ a <= q < e /\
    forall x, x <> q -> m' !! x = m !! x.
Proof.
  intros a p e q i n n' (e1 & q1 & i1 & H1 & H2)%seg_app. destruct b as [s f].
  simpl in H2. destruct H2 as (-> & Hs & i' & Hm & He & -> & ->).
  pose proof (seg_end_le _ _ _ _ _ _ _ _ H1). unfold HEADER in *.
  unfold poke. rewrite Hm. simpl. eexists. split; [done|].
  assert (Hne : forall x, x <> e1 ->
    <[e1:=set_b_next n' (mk_block s f n q1)]> m !! x = m !! x).
  { intros x Hx. by apply lookup_insert_ne. }
  split; [|split; [lia|done]].
  apply seg_app. exists e1, q1, e1. split.
  - eapply seg_frame; [|done]. intros x Hx. apply Hne. lia.
  - simpl. do 2 (split; [done|]). exists n'. by rewrite lookup_insert_eq.
Qed.

(** The first pointer of a segment that starts above 0 is 0 exactly when the
    segment is empty and followed by 0. *)
Lemma seg_first m a p bs e q i : 
  seg m a p bs e q i 0 -> i = match bs with [] => 0 | _ => a end.
Proof. destruct bs as [|[s f] bs]; simpl; naive_solver. Qed.

(** ** The heap invariant *)
Definition aligned_blocks (bs : blocks) : Prop := Forall (fun b => fst b mod 4 = 0) bs.

(** No two adjacent blocks are both free. *)
Fixpoint coalesced (bs : blocks) : Prop :=
  match bs with
  | (_, true) :: (((_, true) :: _) as bs') => False
  | _ :: bs' => coalesced bs'
  | [] => True
  end.

Record heap_wf {S} (h : heap S) (bs : blocks) : Prop := {
  hw_head : heap_head h = HEAP_START;
  hw_seg : exists q, seg (headers h) HEAP_START 0 bs (heap_current_end h) q HEAP_START 0;
  hw_nonempty : bs <> [];
  hw_end : heap_current_end h <= HEAP_MAX_ADDR;
  hw_page : heap_current_end h mod HEAP_PAGE = 0;
  hw_aligned : aligned_blocks bs;
  hw_coalesced : coalesced bs;
}.

(** The payloads in use, in address order: (address, size). *)
Fixpoint used_from (a : Z) (bs : blocks) : list (Z * Z) :=
  match bs with
  | [] => []
  | (s, f) :: bs' =>
      let rest := used_from (a + HEADER + s) bs' in
      if f : bool then rest else (a + HEADER, s) :: rest
  end.
Definition used_blocks (bs : blocks) : list (Z * Z) := used_from HEAP_START bs.

(** The address after the blocks [bs] placed from [a]. *)
Fixpoint end_of (a : Z) (bs : blocks) : Z :=
  match bs with [] => a | (s, _) :: bs' => end_of (a + HEADER + s) bs' end.

Lemma seg_end_of m bs : forall a p e q i n, seg m a p bs e q i n -> e = end_of a bs.
Proof.
  induction bs as [|[s f] bs IH]; intros a p e q i n; simpl; [naive_solver|].
  intros (_ & _ & i' & _ & Hseg). by apply IH in Hseg.
Qed.
Lemma used_from_app bs1 bs2 : forall a,
  used_from a (bs1 ++ bs2) = used_from a bs1 ++ used_from (end_of a bs1) bs2.
Proof.
  induction bs1 as [|[s f] bs1 IH]; intros a; simpl; [done|].
  destruct f; simpl; by rewrite IH.
Qed.
Lemma end_of_app bs1 bs2 : forall a, end_of a (bs1 ++ bs2) = end_of (end_of a bs1) bs2.
Proof. induction bs1 as [|[s f] bs1 IH]; intros a; simpl; [done|apply IH]. Qed.

Lemma coalesced_app_r bs1 bs2 : coalesced (bs1 ++ bs2) -> coalesced bs2.
Proof.
  induction bs1 as [|[s f] bs1 IH]; [done|]. intros H. apply IH.
  rewrite <- app_comm_cons in H. destruct f; [|exact H].
  simpl in H. destruct (bs1 ++ bs2) as [|[s' []] ?]; done.
Qed.
(** Coalescing depends only on the free flags. *)
Lemma coalesced_flags bs1 : forall bs2,
  snd <$> bs1 = snd <$> bs2 -> coalesced bs1 -> coalesced bs2.
Proof.
  induction bs1 as [|[s f] bs1 IH]; intros [|[s' f'] bs2]; simpl; try done.
  intros [= <- Ht] Hc. destruct f; [|by apply IH].
  destruct bs1 as [|[s1 f1] bs1], bs2 as [|[s2 f2] bs2]; simpl in *; try done.
  injection Ht as <- Ht. destruct f1; [done|]. apply (IH ((s2, false) :: bs2)); [|done].
  simpl. by rewrite Ht.
Qed.

Lemma poke_eq m a f b : m !! a = Some b -> poke m a f = Some (<[a := f b]> m).
Proof. intros Hb. unfold poke. by rewrite Hb. Qed.

(** ** The search and the split *)
Definition fits (n : Z) (b : Z * bool) : Prop := snd b = true /\ n <= fst b.

Lemma find_block_spec m n bs : forall fuel a p e q i,
  0 < a -> seg m a p bs e q i 0 -> (length bs <= fuel)%nat ->
  exists r, find_block fuel m i p n = Some r /\
  match r with
  | inl b => exists l1 s l2, bs = l1 ++ (s, true) :: l2 /\ n <= s /\ b = end_of a l1 /\
               Forall (fun x => ~ fits n x) l1
  | inr x => x = q /\ Forall (fun x => ~ fits n x) bs
  end.
Proof.
  induction bs as [|[s f] bs IH]; intros fuel a p e q i Ha Hseg Hf.
  { destruct Hseg as (-> & -> & ->). exists (inr p).
    split; [by destruct fuel|]. split; [done|constructor]. }
  destruct Hseg as (-> & Hs & i' & Hm & Hseg).
  destruct fuel as [|fuel]; [simpl in Hf; lia|]. cbn [find_block].
  rewrite (proj2 (Z.eqb_neq _ _)) by lia. rewrite Hm. cbn [mbind option_bind b_is_free b_size].
  destruct (f && (n <=? s)) eqn:Efit.
  { exists (inl a). split; [done|]. apply andb_true_iff in Efit as [-> Hn].
    exists [], s, bs. split_and!; [done|lia|done|constructor]. }
  assert (Hnf : ~ fits n (s, f)).
  { intros [Hfr Hn]. simpl in *. subst f. lia. }
  simpl in Hf. unfold HEADER in *.
  destruct (IH fuel (a + 16 + s) a e q i' ltac:(lia) Hseg ltac:(lia)) as (r & Hr & Hspec).
  exists r. split; [done|]. destruct r as [b|x].
  - destruct Hspec as (l1 & s' & l2 & -> & Hn & -> & Hl1).
    exists ((s, f) :: l1), s', l2. split_and!; try done. by constructor.
  - destruct Hspec as [-> Hall]. split; [done|]. by constructor.
Qed.

(** The blocks that replace a free block of size [s] when [n] bytes are taken. *)
Definition taken (s n : Z) : blocks :=
  if HEADER + 4 <=? s - n then [(n, false); (s - n - HEADER, true)] else [(s, false)].

Lemma take_block_spec m a p l1 s l2 e q i n :
  0 < a -> 0 <= n <= s -> e < 4294967296 ->
  seg m a p (l1 ++ (s, true) :: l2) e q i 0 ->
  exists m' q', take_block m (end_of a l1) n = Some m' /\
    seg m' a p (l1 ++ taken s n ++ l2) e q' i 0.
Proof.
  intros Ha Hn He (b & q1 & i1 & H1 & H2)%seg_app.
  pose proof (seg_end_of _ _ _ _ _ _ _ _ H1) as Hb. rewrite <- Hb.
  pose proof (seg_end_le _ _ _ _ _ _ _ _ H1) as Hle.
  destruct H2 as (-> & Hs & i' & Hm & H2).
  pose proof (seg_end_le _ _ _ _ _ _ _ _ H2) as Hle2. unfold HEADER in *.
  unfold take_block. rewrite Hm. cbn [mbind option_bind b_size b_next].
  rewrite (u32_small (s - n)) by lia. unfold taken, HEADER.
  destruct (Z.leb_spec (16 + 4) (s - n)) as [Hsplit|Hno].
  - rewrite (u32_small (b + n + 16)), (u32_small (s - n - 16)) by lia.
    set (N := b + n + 16) in *.
    set (m1 := <[N:=mk_block (s - n - 16) true i' b]> m).
    assert (Hfr1 : forall x, x <> N -> m1 !! x = m !! x).
    { intros x Hx. unfold m1. by apply lookup_insert_ne. }
    (* the successor's [prev] *)
    assert (Hnext : exists m2 q2, (if i' =? 0 then Some m1 else poke m1 i' (set_b_prev N)) = Some m2
      /\ seg m2 (b + 16 + s) N l2 e q2 i' 0 /\ forall x, x < b + 16 + s -> m2 !! x = m1 !! x).
    { destruct l2 as [|[s2 f2] l2].
      - destruct H2 as (-> & -> & ->). exists m1, N. split; [done|]. simpl. done.
      - assert (Hi : i' = b + 16 + s) by apply H2. subst i'.
        rewrite (proj2 (Z.eqb_neq _ _)) by lia.
        apply (seg_frame m m1) in H2; [|intros x Hx; apply Hfr1; lia].
        destruct (seg_set_prev _ _ _ _ _ _ _ _ _ _ N H2) as (m2 & -> & Hseg & Hfr).
        exists m2, q. split; [done|]. split; [done|]. intros x Hx. apply Hfr. lia. }
    destruct Hnext as (m2 & q2 & -> & Hseg2 & Hfr2). cbn [mbind option_bind].
    assert (Hb2 : m2 !! b = Some (mk_block s true i' q1)).
    { rewrite Hfr2, Hfr1 by lia. done. }
    unfold poke. rewrite Hb2. cbn [mbind option_bind]. rewrite lookup_insert_eq.
    cbn [mbind option_bind]. rewrite insert_insert_eq, lookup_insert_eq.
    cbn [mbind option_bind]. rewrite insert_insert_eq. cbn.
    eexists _, q2. split; [done|]. apply seg_app. exists b, q1, b.
    split.
    { eapply seg_frame; [|exact H1]. intros x Hx.
      rewrite lookup_insert_ne, Hfr2, Hfr1 by lia. done. }
    simpl. split; [done|]. split; [lia|]. exists N. rewrite lookup_insert_eq.
    split; [done|]. unfold HEADER in *. replace (b + 16 + n) with N by lia.
    split; [done|]. split; [lia|]. exists i'.
    rewrite lookup_insert_ne, Hfr2 by lia. unfold m1 at 1. rewrite lookup_insert_eq.
    split; [done|]. replace (N + 16 + (s - n - 16)) with (b + 16 + s) by lia.
    eapply seg_frame; [|exact Hseg2]. intros x Hx. apply lookup_insert_ne. lia.
  - cbn [mbind option_bind]. unfold poke. rewrite Hm. cbn.
    eexists _, q. split; [done|]. apply seg_app. exists b, q1, b. split.
    { eapply seg_frame; [|exact H1]. intros x Hx. apply lookup_insert_ne. lia. }
    simpl. split; [done|]. split; [lia|]. exists i'. rewrite lookup_insert_eq.
    split; [done|]. eapply seg_frame; [|exact H2]. intros x Hx. unfold HEADER in *.
    apply lookup_insert_ne. lia.
Qed.

Lemma taken_end s n a : end_of a (taken s n) = a + HEADER + s.
Proof. unfold taken. destruct (_ <=? _); simpl; lia. Qed.
(** The size the caller really gets. *)
Definition taken_size (s n : Z) : Z := if HEADER + 4 <=? s - n then n else s.
Lemma used_taken l1 s l2 n :
  used_blocks (l1 ++ taken s n ++ l2) =
    used_from HEAP_START l1 ++
    (end_of HEAP_START l1 + HEADER, taken_size s n) ::
    used_from (end_of HEAP_START l1 + HEADER + s) l2.
Proof.
  unfold used_blocks. rewrite !used_from_app, taken_end. unfold taken, taken_size.
  destruct (HEADER + 4 <=? s - n); done.
Qed.
Lemma used_free l1 s l2 :
  used_blocks (l1 ++ (s, true) :: l2) =
    used_from HEAP_START l1 ++ used_from (end_of HEAP_START l1 + HEADER + s) l2.
Proof. unfold used_blocks. by rewrite used_from_app. Qed.

(** ** Coalescing and splitting *)
Lemma coalesced_prefix l1 : forall l2, coalesced (l1 ++ l2) -> coalesced l1.
Proof.
  induction l1 as [|[s f] l1 IH]; intros l2; [done|]. rewrite <- app_comm_cons.
  destruct f; [|apply IH]. destruct l1 as [|[s' []] l1]; simpl; [done|done|].
  intros H. by apply (IH l2).
Qed.
Lemma coalesced_used l1 s l2 :
  coalesced l1 -> coalesced l2 -> coalesced (l1 ++ (s, false) :: l2).
Proof.
  intros H1 H2. induction l1 as [|[s1 f1] l1 IH]; [done|].
  rewrite <- app_comm_cons. destruct f1; [|by apply IH].
  destruct l1 as [|[s2 []] l1]; simpl in *; [done|done|]. by apply IH.
Qed.
Lemma coalesced_taken l1 s n l2 :
  coalesced (l1 ++ (s, true) :: l2) -> coalesced (l1 ++ taken s n ++ l2).
Proof.
  intros H. pose proof (coalesced_prefix _ _ H) as H1. apply coalesced_app_r in H as H2.
  unfold taken. destruct (_ <=? _); simpl.
  - apply coalesced_used; [done|]. exact H2.
  - apply coalesced_used; [done|]. by apply (coalesced_app_r [(s, true)]) in H2.
Qed.

Lemma aligned_taken l1 s n l2 :
  n mod 4 = 0 -> aligned_blocks (l1 ++ (s, true) :: l2) ->
  aligned_blocks (l1 ++ taken s n ++ l2).
Proof.
  unfold aligned_blocks. rewrite !Forall_app, Forall_cons. simpl. intros Hn (H1 & Hs & H2).
  split; [done|]. split; [|done]. unfold taken, HEADER.
  destruct (_ <=? _); repeat constructor; simpl; try done.
  Z.to_euclidean_division_equations; lia.
Qed.

Lemma end_of_ge a bs : Forall (fun b => 0 <= fst b) bs -> a <= end_of a bs.
Proof.
  revert a. induction bs as [|[s f] bs IH]; intros a; simpl; [lia|].
  intros [Hs Hbs]%Forall_cons. specialize (IH (a + HEADER + s) Hbs).
  unfold HEADER in *. simpl in *. lia.
Qed.
Lemma seg_end_of_le m a p l1 l2 e q i n :
  seg m a p (l1 ++ l2) e q i n -> a <= end_of a l1 <= e.
Proof.
  intros (e1 & q1 & i1 & H1 & H2)%seg_app. rewrite <- (seg_end_of _ _ _ _ _ _ _ _ H1).
  apply seg_end_le in H1, H2. unfold HEADER in *. lia.
Qed.

(** ** Growing the heap *)
Definition grown (bs : blocks) : blocks :=
  match last bs with
  | Some (s, true) => removelast bs ++ [(s + HEAP_PAGE, true)]
  | _ => bs ++ [(HEAP_PAGE - HEADER, true)]
  end.

Lemma grown_snoc l s f :
  grown (l ++ [(s, f)]) =
  if f : bool then l ++ [(s + HEAP_PAGE, true)]
  else l ++ (s, false) :: [(HEAP_PAGE - HEADER, true)].
Proof.
  unfold grown. rewrite last_snoc. destruct f.
  - by rewrite removelast_last.
  - by rewrite <- app_assoc.
Qed.

Lemma seg_last_prev m a p l b e q i n :
  seg m a p (l ++ [b]) e q i n ->
  exists q1, q = end_of a l /\ a <= q < e /\ e = q + HEADER + fst b /\ 0 <= fst b /\
    m !! q = Some (mk_block (fst b) (snd b) n q1) /\ seg m a p l q q1 i q.
Proof.
  intros (e1 & q1 & i1 & H1 & H2)%seg_app. destruct b as [s f].
  destruct H2 as (-> & Hs & i' & Hm & -> & -> & ->).
  pose proof (seg_end_le _ _ _ _ _ _ _ _ H1). unfold HEADER in *.
  exists q1. split; [by eapply seg_end_of|]. split; [lia|]. done.
Qed.

Section HeapFacts.
Context {S : Type} `{PageProviderOk S}.
Implicit Types h : heap S.

Lemma heap_end_range h bs : heap_wf h bs -> HEAP_START < heap_current_end h <= HEAP_MAX_ADDR.
Proof.
  intros Hw. destruct (hw_seg _ _ Hw) as [q Hs]. apply seg_end_le in Hs.
  pose proof (hw_nonempty _ _ Hw). pose proof (hw_end _ _ Hw).
  destruct bs; [done|]. simpl in Hs. unfold HEADER in *. lia.
Qed.

Lemma heap_fuel h bs : heap_wf h bs -> (length bs <= list_fuel h)%nat.
Proof.
  intros Hw. destruct (hw_seg _ _ Hw) as [q Hs]. apply seg_end_le in Hs.
  unfold list_fuel, HEADER in *.
  assert (Z.of_nat (length bs) <= (heap_current_end h - HEAP_START) / 16); [|lia].
  apply Z.div_le_lower_bound; lia.
Qed.

Lemma pages_left_grow h h' :
  heap_current_end h' = heap_current_end h + HEAP_PAGE ->
  heap_current_end h + HEAP_PAGE <= HEAP_MAX_ADDR ->
  pages_left h = Datatypes.S (pages_left h').
Proof.
  unfold pages_left, HEAP_PAGE. intros -> Hle.
  Z.to_euclidean_division_equations; lia.
Qed.

Lemma grow_heap_spec h bs q :
  heap_wf h bs -> provider_inv (provider h) ->
  seg (headers h) HEAP_START 0 bs (heap_current_end h) q HEAP_START 0 ->
  exists g h', grow_heap h q = Some (g, h') /\ provider_inv (provider h') /\
    match g with
    | None => heap_wf h' bs /\ headers h' = headers h
    | Some h'' => h'' = h' /\ heap_wf h' (grown bs) /\
                  pages_left h = Datatypes.S (pages_left h')
    end.
Proof.
  intros Hw Hp Hseg. pose proof (heap_end_range _ _ Hw) as He.
  assert (HEAP_START = 3221225472 /\ HEAP_MAX_ADDR = 3758096384) as [HS HM] by done.
  unfold grow_heap. rewrite (u32_small (_ + HEAP_PAGE)) by (unfold HEAP_PAGE; lia).
  destruct (Z.ltb_spec HEAP_MAX_ADDR (heap_current_end h + HEAP_PAGE)) as [|Hle].
  { exists None, h. split; [done|]. done. }
  destruct (provide_page_ok (provider h) Hp) as (phys & s1 & Hph & Hp1). rewrite Hph.
  cbn [mbind option_bind]. destruct (Z.eqb_spec phys 0) as [->|Hnz].
  { exists None, (set_provider h s1). split; [done|]. split; [done|]. split; [|done].
    destruct Hw. by split. }
  destruct (map_page_ok s1 (heap_current_end h) phys _ Hph Hnz Hp1 ltac:(unfold HEAP_PAGE in *; lia))
    as (s2 & -> & Hp2). cbn [mbind option_bind].
  pose proof (hw_nonempty _ _ Hw). destruct bs as [|[s f] l _] using rev_ind; [done|].
  destruct (seg_last_prev _ _ _ _ _ _ _ _ _ Hseg) as (q1 & Hq & Hqr & Hqe & Hs & Hm & Hl).
  simpl in Hqe, Hs, Hm.
  rewrite (proj2 (Z.eqb_neq _ _)) by lia. rewrite Hm. cbn [mbind option_bind fmap option_map].
  unfold poke. rewrite grown_snoc.
  pose proof (hw_page _ _ Hw) as Hpg. pose proof (hw_aligned _ _ Hw) as Hal.
  pose proof (hw_coalesced _ _ Hw) as Hco.
  assert (Hpg' : (heap_current_end h + HEAP_PAGE) mod HEAP_PAGE = 0).
  { unfold HEAP_PAGE in *. Z.to_euclidean_division_equations; lia. }
  cbn [b_is_free fmap option_fmap option_map].
  apply Forall_app in Hal as [Hal1 [Hal2 _]%Forall_cons]. simpl in Hal2.
  destruct f; cbn [mbind option_bind].
  - rewrite Hm. cbn.
    rewrite (u32_small (s + HEAP_PAGE)) by (unfold HEAP_PAGE, HEADER in *; lia).
    eexists (Some _), _. split; [reflexivity|]. split; [done|]. split; [done|].
    split; [|by apply pages_left_grow].
    split; simpl; try done; [apply Hw| |by destruct l|apply Forall_app; split; [done|]|].
    + exists q. apply seg_app. exists q, q1, q. split.
      * eapply seg_frame; [|exact Hl]. intros x Hx. apply lookup_insert_ne. lia.
      * simpl. split; [done|]. split; [unfold HEAP_PAGE; lia|]. exists 0.
        rewrite lookup_insert_eq. split; [done|]. split; [lia|done].
    + repeat constructor. simpl. unfold HEAP_PAGE. Z.to_euclidean_division_equations; lia.
    + eapply coalesced_flags; [|exact Hco]. by rewrite !fmap_app.
  - rewrite lookup_insert_ne, Hm by lia. cbn.
    eexists (Some _), _. split; [reflexivity|]. split; [done|]. split; [done|].
    split; [|by apply pages_left_grow].
    split; simpl; try done; [apply Hw| |by destruct l|apply Forall_app; split; [done|]|].
    + exists (heap_current_end h). apply seg_app. exists q, q1, q. split.
      * eapply seg_frame; [|exact Hl]. intros x Hx. rewrite !lookup_insert_ne by lia. done.
      * simpl. split; [done|]. split; [done|]. exists (heap_current_end h).
        rewrite lookup_insert_eq. split; [done|]. rewrite <- Hqe.
        split; [done|]. split; [unfold HEAP_PAGE, HEADER; lia|]. exists 0.
        rewrite lookup_insert_ne, lookup_insert_eq by lia. split; [done|].
        unfold HEAP_PAGE, HEADER. split; [lia|done].
    + repeat constructor; done.
    + apply coalesced_used; [by eapply coalesced_prefix|done].
Qed.

Lemma used_grown bs : bs <> [] -> used_blocks (grown bs) = used_blocks bs.
Proof.
  intros Hne. destruct bs as [|[s f] l _] using rev_ind; [done|].
  rewrite grown_snoc. unfold used_blocks. destruct f; by rewrite !used_from_app.
Qed.
End HeapFacts.

(** ** kmalloc *)
Definition align4 (size : Z) : Z := u32 (u32 (size + 3) / 4 * 4).

Lemma align4_spec size :
  0 < size <= 0xFFFFFFFC ->
  size <= align4 size < size + 4 /\ align4 size mod 4 = 0.
Proof.
  intros H. unfold align4. rewrite (u32_small (size + 3)) by lia.
  rewrite u32_small by (Z.to_euclidean_division_equations; lia).
  Z.to_euclidean_division_equations; lia.
Qed.

(** [bs'] is [bs] with one more block in use: [size] bytes or more at [ptr]. *)
Definition one_more_used (size ptr : Z) (bs bs' : blocks) : Prop :=
  exists l1 l2 k, used_blocks bs = l1 ++ l2 /\ used_blocks bs' = l1 ++ (ptr, k) :: l2 /\
    size <= k.

Section Kmalloc.
Context {S : Type} `{PageProviderOk S}.
Implicit Types h : heap S.

Lemma take_first_fit h l1 s l2 n :
  heap_wf h (l1 ++ (s, true) :: l2) -> 0 <= n <= s -> n mod 4 = 0 ->
  exists m', take_block (headers h) (end_of HEAP_START l1) n = Some m' /\
    heap_wf (set_headers h m') (l1 ++ taken s n ++ l2) /\
    one_more_used n (end_of HEAP_START l1 + HEADER)
      (l1 ++ (s, true) :: l2) (l1 ++ taken s n ++ l2) /\
    HEAP_START <= end_of HEAP_START l1 < HEAP_MAX_ADDR.
Proof.
  intros Hw Hn Hm. destruct (hw_seg _ _ Hw) as [q Hseg].
  pose proof (heap_end_range _ _ Hw) as He. pose proof (seg_end_of_le _ _ _ _ _ _ _ _ _ Hseg).
  assert (HEAP_START = 3221225472 /\ HEAP_MAX_ADDR = 3758096384) as [HS HM] by done.
  destruct (take_block_spec (headers h) HEAP_START 0 l1 s l2 (heap_current_end h) q HEAP_START n
              ltac:(lia) Hn ltac:(lia) Hseg)
    as (m' & q' & Ht & Hseg').
  exists m'. split; [done|]. split; [|split].
  - split; simpl; try apply Hw.
    + by exists q'.
    + unfold taken. destruct l1; [|done]. by destruct (_ <=? _).
    + apply aligned_taken; [done|]. apply Hw.
    + apply coalesced_taken, Hw.
  - exists (used_from HEAP_START l1), (used_from (end_of HEAP_START l1 + HEADER + s) l2),
      (taken_size s n).
    rewrite used_taken, used_free. split_and!; try done.
    unfold taken_size. destruct (_ <=? _); lia.
  - apply seg_app in Hseg as (e1 & q1 & i1 & H1' & H2').
    rewrite <- (seg_end_of _ _ _ _ _ _ _ _ H1') in *.
    apply seg_end_le in H2'. simpl in H2'. unfold HEADER in *. lia.
Qed.

Lemma kmalloc_rec_spec size : 0 < size <= 0xFFFFFFFC -> forall fuel h bs,
  heap_wf h bs -> provider_inv (provider h) -> (pages_left h <= fuel)%nat ->
  exists ptr h' bs', kmalloc_rec fuel h size = Some (ptr, h') /\
    heap_wf h' bs' /\ provider_inv (provider h') /\
    ((ptr = 0 /\ used_blocks bs' = used_blocks bs) \/
     (HEAP_START < ptr < HEAP_MAX_ADDR + HEADER /\ one_more_used size ptr bs bs')).
Proof.
  intros Hsz. pose proof (align4_spec _ Hsz) as [Ha Ha4].
  assert (HEAP_START = 3221225472 /\ HEAP_MAX_ADDR = 3758096384) as [HS HM] by done.
  induction fuel as [|fuel IH]; intros h bs Hw Hp Hf; cbn [kmalloc_rec];
    rewrite (proj2 (Z.eqb_neq size 0)) by lia; fold (align4 size);
    destruct (hw_seg _ _ Hw) as [q Hseg];
    rewrite (hw_head _ _ Hw);
    destruct (find_block_spec _ (align4 size) _ (list_fuel h) HEAP_START _ _ _ _ ltac:(lia) Hseg
      (heap_fuel _ _ Hw)) as (r & -> & Hr); cbn [mbind option_bind];
    destruct r as [b|x].
  1,3: destruct Hr as (l1 & s & l2 & -> & Hn & -> & _);
    destruct (take_first_fit h l1 s l2 (align4 size) Hw ltac:(lia) Ha4)
      as (m' & -> & Hw' & (u1 & u2 & k & E1 & E2 & Hk) & Hb); cbn [mbind option_bind];
    eexists _, _, _; (split; [done|]); (split; [exact Hw'|]); (split; [done|]); right;
    rewrite u32_small by (unfold HEADER; lia); (split; [unfold HEADER; lia|]);
    exists u1, u2, k; split_and!; done || lia.
  - destruct Hr as [-> _].
    destruct (grow_heap_spec h bs q Hw Hp Hseg) as (g & h' & -> & Hp' & Hg).
    cbn [mbind option_bind]. destruct g as [h''|].
    + exfalso. destruct Hg as (_ & _ & Hpl). lia.
    + destruct Hg as [Hw' _]. exists 0, h', bs. split_and!; try done. by left.
  - destruct Hr as [-> _].
    destruct (grow_heap_spec h bs q Hw Hp Hseg) as (g & h' & -> & Hp' & Hg).
    cbn [mbind option_bind]. destruct g as [h''|].
    + destruct Hg as (-> & Hw' & Hpl).
      destruct (IH h' (grown bs) Hw' Hp' ltac:(lia)) as (ptr & h2 & bs2 & -> & Hw2 & Hp2 & Hres).
      exists ptr, h2, bs2. split_and!; try done.
      unfold one_more_used in *. rewrite used_grown in Hres by apply Hw. exact Hres.
    + destruct Hg as [Hw' _]. exists 0, h', bs. split_and!; try done. by left.
Qed.
End Kmalloc.

(** ** The used blocks do not overlap *)
Lemma used_from_bounds bs : forall a, Forall (fun b => 0 <= fst b) bs ->
  Forall (fun u => a + HEADER <= fst u /\ 0 <= snd u /\ fst u + snd u <= end_of a bs)
    (used_from a bs).
Proof.
  induction bs as [|[s f] bs IH]; intros a; simpl; [constructor|].
  intros [Hs Hbs]%Forall_cons. simpl in Hs.
  assert (Forall (fun u => a + HEADER <= fst u /\ 0 <= snd u /\
    fst u + snd u <= end_of (a + HEADER + s) bs) (used_from (a + HEADER + s) bs)) as Hr.
  { eapply Forall_impl; [apply IH, Hbs|]. intros u Hu. unfold HEADER in *. simpl in *. lia. }
  pose proof (end_of_ge (a + HEADER + s) _ Hbs).
  destruct f; [done|]. apply Forall_cons. split; [simpl; lia|done].
Qed.

(** Payloads in address order, each ending before the next one's header. *)
Fixpoint separated (us : list (Z * Z)) : Prop :=
  match us with
  | u :: us' => Forall (fun v => fst u + snd u + HEADER <= fst v) us' /\ separated us'
  | [] => True
  end.
Lemma used_from_separated bs : forall a,
  Forall (fun b => 0 <= fst b) bs -> separated (used_from a bs).
Proof.
  induction bs as [|[s f] bs IH]; intros a; simpl; [done|].
  intros [Hs Hbs]%Forall_cons. destruct f; [by apply IH|].
  split; [|by apply IH]. eapply Forall_impl; [apply used_from_bounds, Hbs|].
  intros u Hu. simpl in *. lia.
Qed.
Lemma seg_sizes m bs : forall a p e q i n,
  seg m a p bs e q i n -> Forall (fun b => 0 <= fst b) bs.
Proof.
  induction bs as [|[s f] bs IH]; intros a p e q i n; simpl; [constructor|].
  intros (_ & Hs & i' & _ & Hseg). constructor; [done|]. by eapply IH.
Qed.

(** ** kfree *)

(** Merging the block at [end_of a l1] with its successor. *)
Lemma merge_seg m a p l1 s f s2 f2 l2 e q i :
  0 < a -> seg m a p (l1 ++ (s, f) :: (s2, f2) :: l2) e q i 0 ->
  let x := end_of a l1 in
  exists px ny m' q',
    m !! x = Some (mk_block s f (x + HEADER + s) px) /\
    m !! (x + HEADER + s) = Some (mk_block s2 f2 ny x) /\
    (let m1 := <[x := mk_block (s + (s2 + HEADER)) f ny px]> m in
     if ny =? 0 then Some m1 else poke m1 ny (set_b_prev x)) = Some m' /\
    seg m' a p (l1 ++ (s + (s2 + HEADER), f) :: l2) e q' i 0.
Proof.
  intros Ha (x & px & ix & H1 & H2)%seg_app. cbn zeta.
  rewrite <- (seg_end_of _ _ _ _ _ _ _ _ H1). pose proof (seg_end_le _ _ _ _ _ _ _ _ H1).
  destruct H2 as (-> & Hs & i2 & Hx & (-> & Hs2 & ny & Hy & H2)).
  pose proof (seg_end_le _ _ _ _ _ _ _ _ H2). unfold HEADER in *.
  exists px, ny. set (m1 := <[x:=_]> m).
  assert (Hfr : forall y, y <> x -> m1 !! y = m !! y).
  { intros y Hy'. unfold m1. by apply lookup_insert_ne. }
  assert (Hnext : exists m' q', (if ny =? 0 then Some m1 else poke m1 ny (set_b_prev x)) = Some m' /\
    seg m' (x + 16 + s + 16 + s2) x l2 e q' ny 0 /\
    forall y, y < x + 16 + s + 16 + s2 -> m' !! y = m1 !! y).
  { destruct l2 as [|[s3 f3] l2].
    - destruct H2 as (-> & -> & ->). exists m1, x. done.
    - assert (Hi : ny = x + 16 + s + 16 + s2) by apply H2. subst ny.
      rewrite (proj2 (Z.eqb_neq _ _)) by lia.
      apply (seg_frame m m1) in H2; [|intros y Hy'; apply Hfr; lia].
      destruct (seg_set_prev _ _ _ _ _ _ _ _ _ _ x H2) as (m2 & -> & Hseg & Hfr2).
      exists m2, q. split; [done|]. split; [done|]. intros y Hy'. apply Hfr2. lia. }
  destruct Hnext as (m' & q' & Hm' & Hseg & Hfr2). exists m', q'.
  split; [done|]. split; [done|]. split; [done|].
  apply seg_app. exists x, px, x. split.
  - eapply seg_frame; [|exact H1]. intros y Hy'. rewrite Hfr2, Hfr by lia. done.
  - simpl. split; [done|]. split; [lia|]. exists ny. rewrite Hfr2 by lia. unfold m1.
    rewrite lookup_insert_eq. split; [done|]. unfold HEADER.
    replace (x + 16 + (s + (s2 + 16))) with (x + 16 + s + 16 + s2) by lia. done.
Qed.

Definition merge_next (s : Z) (l2 : blocks) : Z * blocks :=
  match l2 with
  | (s2, true) :: l2' => (s + (s2 + HEADER), l2')
  | _ => (s, l2)
  end.
(** The blocks after freeing the block of size [s] between [l1] and [l2]. *)
Definition freed (l1 : blocks) (s : Z) (l2 : blocks) : blocks :=
  let '(s', l2') := merge_next s l2 in
  match last l1 with
  | Some (s0, true) => removelast l1 ++ (s0 + (s' + HEADER), true) :: l2'
  | _ => l1 ++ (s', true) :: l2'
  end.

Lemma freed_snoc l1 s0 f0 s l2 :
  freed (l1 ++ [(s0, f0)]) s l2 =
  let '(s', l2') := merge_next s l2 in
  if f0 : bool then l1 ++ (s0 + (s' + HEADER), true) :: l2'
  else (l1 ++ [(s0, false)]) ++ (s', true) :: l2'.
Proof.
  unfold freed. destruct (merge_next s l2). rewrite last_snoc.
  destruct f0; [by rewrite removelast_last|done].
Qed.

(** Marking a block free. *)
Lemma mark_free m a p l1 s l2 e q i :
  seg m a p (l1 ++ (s, false) :: l2) e q i 0 ->
  exists m0, poke m (end_of a l1) (set_b_is_free true) = Some m0 /\
    seg m0 a p (l1 ++ (s, true) :: l2) e q i 0.
Proof.
  intros (x & px & ix & H1 & H2)%seg_app.
  rewrite <- (seg_end_of _ _ _ _ _ _ _ _ H1).
  destruct H2 as (-> & Hs & i2 & Hm & H2). unfold poke. rewrite Hm. simpl.
  eexists. split; [done|]. apply seg_app. exists x, px, x. unfold HEADER in *. split.
  - eapply seg_frame; [|exact H1]. intros y Hy. apply lookup_insert_ne. lia.
  - simpl. split; [done|]. split; [done|]. exists i2. rewrite lookup_insert_eq.
    split; [done|]. eapply seg_frame; [|exact H2]. intros y Hy.
    unfold HEADER in *. apply lookup_insert_ne. lia.
Qed.

(** The total size of a segment bounds every block in it. *)
Lemma seg_block_bound m a p l1 s f l2 e q i n :
  seg m a p (l1 ++ (s, f) :: l2) e q i n -> a + HEADER + s <= e.
Proof.
  intros (x & px & ix & H1 & H2)%seg_app. apply seg_end_le in H1.
  destruct H2 as (_ & Hs & i2 & _ & H2). apply seg_end_le in H2. unfold HEADER in *. lia.
Qed.

Lemma coalesce_next_spec m a p l1 s l2 e q i :
  0 < a -> e < 4294967296 -> seg m a p (l1 ++ (s, true) :: l2) e q i 0 ->
  exists m' q', coalesce_next m (end_of a l1) = Some m' /\
    seg m' a p (l1 ++ (fst (merge_next s l2), true) :: snd (merge_next s l2)) e q' i 0.
Proof.
  intros Ha He Hseg. unfold coalesce_next.
  destruct l2 as [|[s2 f2] l2].
  { exists m, q. split; [|done]. apply seg_app in Hseg as (x & px & ix & H1 & H2).
    rewrite <- (seg_end_of _ _ _ _ _ _ _ _ H1).
    destruct H2 as (_ & _ & i2 & -> & _ & _ & ->). done. }
  destruct (merge_seg _ _ _ _ _ _ _ _ _ _ _ _ Ha Hseg)
    as (px & ny & m' & q' & -> & Hy & Hm' & Hseg').
  pose proof (seg_end_of_le _ _ _ _ _ _ _ _ _ Hseg).
  pose proof (seg_block_bound _ _ _ _ _ _ _ _ _ _ _ Hseg') as Hb.
  apply seg_sizes in Hseg as Hsz. apply Forall_app in Hsz as [_ [Hs [Hs2 _]%Forall_cons]%Forall_cons].
  simpl in Hs, Hs2. cbn [mbind option_bind b_next b_size b_is_free b_prev].
  rewrite (proj2 (Z.eqb_neq _ 0)) by (unfold HEADER in *; lia).
  rewrite Hy. cbn [mbind option_bind b_next b_size b_is_free b_prev].
  destruct f2; [|by exists m, q]. unfold HEADER in *.
  rewrite (u32_small (s2 + 16)), (u32_small (s + _)) by lia. by exists m', q'.
Qed.

Lemma coalesce_prev_spec m a l1 s l2 e q i :
  0 < a -> e < 4294967296 -> seg m a 0 (l1 ++ (s, true) :: l2) e q i 0 ->
  exists m' q', coalesce_prev m (end_of a l1) = Some m' /\
    seg m' a 0 (match last l1 with
                | Some (s0, true) => removelast l1 ++ (s0 + (s + HEADER), true) :: l2
                | _ => l1 ++ (s, true) :: l2 end) e q' i 0.
Proof.
  intros Ha He Hseg. unfold coalesce_prev.
  destruct l1 as [|[s0 f0] l1 _] using rev_ind.
  { exists m, q. split; [|done]. destruct Hseg as (_ & _ & i2 & Hm & _).
    simpl end_of. by rewrite Hm. }
  rewrite last_snoc. rewrite <- app_assoc in Hseg. rewrite end_of_app. simpl end_of.
  destruct (merge_seg _ _ _ _ _ _ _ _ _ _ _ _ Ha Hseg)
    as (px & ny & m' & q' & Hx & Hy & Hm' & Hseg').
  pose proof (seg_end_of_le _ _ _ _ _ _ _ _ _ Hseg).
  pose proof (seg_block_bound _ _ _ _ _ _ _ _ _ _ _ Hseg') as Hb.
  apply seg_sizes in Hseg as Hsz. apply Forall_app in Hsz as [_ [Hs [Hs2 _]%Forall_cons]%Forall_cons].
  simpl in Hs, Hs2. rewrite Hy. cbn [mbind option_bind b_next b_size b_is_free b_prev].
  rewrite (proj2 (Z.eqb_neq _ 0)) by (unfold HEADER in *; lia).
  rewrite Hx. cbn [mbind option_bind b_next b_size b_is_free b_prev].
  destruct f0; [|exists m, q; split; [done|]; by rewrite <- app_assoc].
  rewrite removelast_last, (poke_eq _ _ _ _ Hx). cbn [mbind option_bind].
  erewrite (poke_eq _ (end_of a l1)) by apply lookup_insert_eq.
  cbn [mbind option_bind]. rewrite insert_insert_eq. unfold set_b_size, set_b_next.
  cbn [b_next b_size b_is_free b_prev]. unfold HEADER in *.
  rewrite (u32_small (s + 16)), (u32_small (s0 + _)) by lia. by exists m', q'.
Qed.

Section Kfree.
Context {S : Type} `{PageProvider S}.
Implicit Types h : heap S.

Lemma kfree_spec h l1 s l2 :
  heap_wf h (l1 ++ (s, false) :: l2) ->
  exists h' q, kfree h (end_of HEAP_START l1 + HEADER) = Some h' /\
    provider h' = provider h /\ heap_current_end h' = heap_current_end h /\
    heap_head h' = heap_head h /\
    seg (headers h') HEAP_START 0 (freed l1 s l2) (heap_current_end h) q HEAP_START 0.
Proof.
  intros Hw. destruct (hw_seg _ _ Hw) as [q Hseg].
  assert (HEAP_START = 3221225472 /\ HEAP_MAX_ADDR = 3758096384) as [HS HM] by done.
  pose proof (hw_end _ _ Hw) as He.
  pose proof (seg_end_of_le _ _ _ _ _ _ _ _ _ Hseg) as Hx.
  unfold kfree. rewrite (proj2 (Z.eqb_neq _ _)) by (unfold HEADER; lia).
  replace (u32 (end_of HEAP_START l1 + HEADER - HEADER)) with (end_of HEAP_START l1)
    by (rewrite u32_small; unfold HEADER; lia).
  destruct (mark_free _ _ _ _ _ _ _ _ _ Hseg) as (m0 & -> & Hseg0).
  cbn [mbind option_bind].
  destruct (coalesce_next_spec _ HEAP_START _ _ _ _ (heap_current_end h) _ _
    ltac:(lia) ltac:(lia) Hseg0) as (m1 & q1 & -> & Hseg1). cbn [mbind option_bind].
  destruct (coalesce_prev_spec _ HEAP_START _ _ _ (heap_current_end h) _ _
    ltac:(lia) ltac:(lia) Hseg1) as (m2 & q2 & -> & Hseg2). cbn [mbind option_bind].
  exists (set_headers h m2), q2. split_and!; try done.
  unfold freed. destruct (merge_next s l2). exact Hseg2.
Qed.
End Kfree.

(** ** The abstract effect of kfree *)
Lemma used_from_split bs : forall a u1 p k u2,
  used_from a bs = u1 ++ (p, k) :: u2 ->
  exists l1 l2, bs = l1 ++ (k, false) :: l2 /\ p = end_of a l1 + HEADER /\
    u1 = used_from a l1 /\ u2 = used_from (end_of a l1 + HEADER + k) l2.
Proof.
  induction bs as [|[s f] bs IH]; intros a u1 p k u2; simpl.
  { by destruct u1. }
  destruct f.
  - intros (l1 & l2 & -> & -> & -> & ->)%IH. by exists ((s, true) :: l1), l2.
  - destruct u1 as [|u u1]; simpl.
    + intros [= <- <- <-]. by exists [], bs.
    + intros [= <- Hu]. apply IH in Hu as (l1 & l2 & -> & -> & -> & ->).
      by exists ((s, false) :: l1), l2.
Qed.

Lemma used_freed l1 s l2 :
  used_blocks (freed l1 s l2) =
  used_from HEAP_START l1 ++ used_from (end_of HEAP_START l1 + HEADER + s) l2.
Proof.
  assert (Hn : forall a, used_from (a + HEADER + fst (merge_next s l2)) (snd (merge_next s l2))
                = used_from (a + HEADER + s) l2).
  { intros a. destruct l2 as [|[s2 []] l2]; simpl; try done. f_equal. lia. }
  unfold used_blocks, freed. destruct (merge_next s l2) as [s' l2'] eqn:E. simpl in Hn.
  destruct l1 as [|[s0 f0] l1 _] using rev_ind; simpl.
  { apply Hn. }
  rewrite last_snoc. destruct f0.
  - rewrite removelast_last, !used_from_app, end_of_app. simpl. rewrite app_nil_r.
    f_equal. rewrite <- Hn. f_equal. lia.
  - rewrite !used_from_app, end_of_app. simpl. by rewrite Hn.
Qed.

Lemma freed_nonempty l1 s l2 : freed l1 s l2 <> [].
Proof.
  unfold freed. destruct (merge_next s l2).
  destruct (last l1) as [[s0 []]|]; intros E%app_eq_nil; destruct E; discriminate.
Qed.

Lemma aligned_freed l1 s l2 :
  aligned_blocks (l1 ++ (s, false) :: l2) -> aligned_blocks (freed l1 s l2).
Proof.
  unfold aligned_blocks. rewrite Forall_app, Forall_cons. simpl. intros (H1 & Hs & H2).
  assert (Hn : fst (merge_next s l2) mod 4 = 0 /\
    Forall (fun b : Z * bool => b.1 mod 4 = 0) (snd (merge_next s l2))).
  { destruct l2 as [|[s2 []] l2]; simpl; try done.
    apply Forall_cons in H2 as [Hs2 H2]. split; [|done]. simpl in Hs2. unfold HEADER.
    Z.to_euclidean_division_equations; lia. }
  unfold freed. destruct (merge_next s l2) as [s' l2']. simpl in Hn. destruct Hn as [Hs' H2'].
  destruct l1 as [|[s0 f0] l1 _] using rev_ind; simpl.
  { by apply Forall_cons. }
  rewrite last_snoc. destruct f0.
  - rewrite removelast_last. apply Forall_app in H1 as [H1 [Hs0 _]%Forall_cons].
    apply Forall_app. split; [done|]. apply Forall_cons. split; [|done]. simpl in *.
    unfold HEADER. Z.to_euclidean_division_equations; lia.
  - apply Forall_app. split; [done|]. by apply Forall_cons.
Qed.

Lemma coalesced_snoc_used l s : coalesced l -> coalesced (l ++ [(s, false)]).
Proof. intros. by apply coalesced_used. Qed.
(** A free block may follow a list that does not end in a free block. *)
Lemma coalesced_free l s l2 :
  coalesced l -> (forall s0, last l <> Some (s0, true)) ->
  coalesced ((s, true) :: l2) -> coalesced (l ++ (s, true) :: l2).
Proof.
  intros Hl Hlast H2. destruct l as [|[s0 f0] l _] using rev_ind; [done|].
  rewrite last_snoc in Hlast. destruct f0; [by specialize (Hlast s0)|].
  rewrite <- app_assoc. apply coalesced_used; [|done]. by eapply coalesced_prefix.
Qed.
Lemma coalesced_cons_free s l2 :
  coalesced l2 -> (forall s0 r, l2 <> (s0, true) :: r) -> coalesced ((s, true) :: l2).
Proof.
  intros H2 Hne. destruct l2 as [|[s2 []] l2]; simpl; try done. by destruct (Hne s2 l2).
Qed.
Lemma coalesced_last_free l s : 
  coalesced (l ++ [(s, true)]) -> forall s0, last l <> Some (s0, true).
Proof.
  intros Hc s0 Hl. destruct l as [|[s1 f1] l _] using rev_ind; [done|].
  rewrite last_snoc in Hl. injection Hl as -> ->. rewrite <- app_assoc in Hc.
  by apply coalesced_app_r in Hc.
Qed.

Lemma coalesced_freed l1 s l2 :
  coalesced (l1 ++ (s, false) :: l2) -> coalesced (freed l1 s l2).
Proof.
  intros Hc. pose proof (coalesced_prefix _ _ Hc) as H1.
  apply coalesced_app_r in Hc as H2. simpl in H2.
  assert (Hn : coalesced ((fst (merge_next s l2), true) :: snd (merge_next s l2))).
  { by destruct l2 as [|[s2 []] l2]. }
  unfold freed. destruct (merge_next s l2) as [s' l2']. simpl in Hn.
  destruct l1 as [|[s0 f0] l1 _] using rev_ind; [done|].
  rewrite last_snoc. destruct f0.
  - rewrite removelast_last. apply coalesced_free.
    + by eapply coalesced_prefix.
    + by eapply coalesced_last_free.
    + exact (coalesced_flags ((s', true) :: l2') _ eq_refl Hn).
  - rewrite <- app_assoc. apply coalesced_used; [|done]. by eapply coalesced_prefix.
Qed.

(** Taking a free block and freeing it again gives the blocks back. *)
Lemma freed_taken l1 s n l2 :
  0 <= n <= s -> coalesced (l1 ++ (s, true) :: l2) ->
  exists k r, taken s n ++ l2 = (k, false) :: r /\ freed l1 k r = l1 ++ (s, true) :: l2.
Proof.
  intros Hn Hc.
  assert (Hl1 : forall s0, last l1 <> Some (s0, true)).
  { apply (coalesced_last_free l1 s). apply (coalesced_prefix _ l2).
    by rewrite <- app_assoc. }
  assert (Hprev : forall s' r, (match last l1 with
    | Some (s0, true) => removelast l1 ++ (s0 + (s' + HEADER), true) :: r
    | _ => l1 ++ (s', true) :: r end) = l1 ++ (s', true) :: r).
  { intros. destruct (last l1) as [[s0 []]|]; try done. by destruct (Hl1 s0). }
  unfold taken. destruct (HEADER + 4 <=? s - n); simpl.
  - exists n, ((s - n - HEADER, true) :: l2). split; [done|]. unfold freed. simpl.
    rewrite Hprev. do 3 f_equal. lia.
  - exists s, l2. split; [done|]. unfold freed.
    apply coalesced_app_r in Hc.
    destruct l2 as [|[s2 []] l2]; simpl; [apply Hprev| |apply Hprev]. done.
Qed.

Section KfreeWf.
Context {S : Type} `{PageProvider S}.
Lemma kfree_wf (h : heap S) l1 s l2 :
  heap_wf h (l1 ++ (s, false) :: l2) ->
  exists h', kfree h (end_of HEAP_START l1 + HEADER) = Some h' /\
    heap_wf h' (freed l1 s l2) /\ provider h' = provider h.
Proof.
  intros Hw. destruct (kfree_spec h l1 s l2 Hw) as (h' & q & -> & Hp & He & Hh & Hseg).
  exists h'. split; [done|]. split; [|done]. split.
  - rewrite Hh. apply Hw.
  - exists q. by rewrite He.
  - apply freed_nonempty.
  - rewrite He. apply Hw.
  - rewrite He. apply Hw.
  - apply aligned_freed, Hw.
  - apply coalesced_freed, Hw.
Qed.

Lemma init_heap_wf `{!PageProviderOk S} s :
  provider_inv s -> (exists a s', provide_page s = Some (a, s') /\ a <> 0) ->
  exists h, init_heap s = Some h /\ heap_wf h [(HEAP_INITIAL_SIZE - HEADER, true)] /\
    provider_inv (provider h).
Proof.
  intros Hp (a & s1 & Ha & Hnz). unfold init_heap. rewrite Ha. cbn [mbind option_bind].
  destruct (provide_page_ok s Hp) as (a' & s1' & E & Hp1). rewrite Ha in E.
  injection E as <- <-.
  destruct (map_page_ok s1 HEAP_START a s Ha Hnz Hp1 ltac:(done)) as (s2 & -> & Hp2).
  cbn [mbind option_bind]. eexists. split; [done|]. split; [|done].
  split; simpl; try done.
  - exists HEAP_START. split; [done|]. split; [done|]. exists 0.
    by rewrite lookup_singleton_eq.
  - by repeat constructor.
Qed.
End KfreeWf.

(** ** A concrete provider: pages are handed out upwards from an address, and
    mapping needs no table.  It is used to run the heap in the witnesses. *)
Module Bump.
Definition limit : Z := 0x200000.
#[export] Instance bump_provider : PageProvider Z := {
  provide_page s := Some (if s <? limit then (s, s + HEAP_PAGE) else (0, s));
  map_page s _ _ _ := Some s;
}.
#[export] Program Instance bump_ok : PageProviderOk Z :=
  {| provider_inv := fun _ => True |}.
Next Obligation. intros s _. simpl. destruct (s <? limit); eauto. Qed.
Next Obligation. intros. simpl. eauto. Qed.
End Bump.
Import Bump.

(** ** Properties of the heap *)
Section Properties.
Context {S : Type} `{PageProviderOk S}.
Implicit Types h : heap S.

(** init_heap maps one page and leaves a well-formed heap of one free block. *)
Theorem init_heap_establishes s a s' :
  provider_inv s -> provide_page s = Some (a, s') -> a <> 0 ->
  exists h, init_heap s = Some h /\ heap_wf h [(HEAP_INITIAL_SIZE - HEADER, true)] /\
    provider_inv (provider h).
Proof. intros. apply init_heap_wf; eauto. Qed.

(** C22. kmalloc terminates on every well-formed heap, whatever the number of
    pages it has to add, and keeps the invariant (the headers tile the heap,
    the links agree, sizes are multiples of 4, no two free blocks are
    adjacent); the answer is either 0 with the blocks in use unchanged, or
    the address of a block of at least [size] bytes that was not in use, and
    no other block in use changes. *)
Theorem kmalloc_correct size h bs :
  0 < size <= 0xFFFFFFFC -> heap_wf h bs -> provider_inv (provider h) ->
  exists ptr h' bs', kmalloc h size = Some (ptr, h') /\ heap_wf h' bs' /\
    provider_inv (provider h') /\
    ((ptr = 0 /\ used_blocks bs' = used_blocks bs) \/
     (HEAP_START < ptr < HEAP_MAX_ADDR + HEADER /\ one_more_used size ptr bs bs')).
Proof. intros. by apply kmalloc_rec_spec. Qed.

(** C23. kfree of a block in use terminates, removes exactly that block from the
    blocks in use and keeps the invariant, so the freed block has been merged
    with a free neighbour on either side. *)
Theorem kfree_correct h bs u1 ptr k u2 :
  heap_wf h bs -> used_blocks bs = u1 ++ (ptr, k) :: u2 ->
  exists h' bs', kfree h ptr = Some h' /\ heap_wf h' bs' /\
    used_blocks bs' = u1 ++ u2 /\ provider h' = provider h.
Proof.
  intros Hw Hu. apply used_from_split in Hu as (l1 & l2 & -> & -> & -> & ->).
  destruct (kfree_wf h l1 k l2 Hw) as (h' & -> & Hw' & Hp).
  exists h', (freed l1 k l2). split_and!; try done. apply used_freed.
Qed.

(** The blocks in use lie inside the heap and each ends at least a header
    before the next one starts: no two of them share a byte. *)
Theorem heap_payloads_disjoint h bs :
  heap_wf h bs ->
  separated (used_blocks bs) /\
  Forall (fun u => HEAP_START + HEADER <= fst u /\ 0 <= snd u /\
                   fst u + snd u <= heap_current_end h) (used_blocks bs).
Proof.
  intros Hw. destruct (hw_seg _ _ Hw) as [q Hseg].
  pose proof (seg_sizes _ _ _ _ _ _ _ _ Hseg) as Hs.
  rewrite (seg_end_of _ _ _ _ _ _ _ _ Hseg).
  split; [by apply used_from_separated|by apply used_from_bounds].
Qed.

(** When some free block fits, freeing what kmalloc has just returned gives
    back exactly the block list before the call. *)
Theorem kfree_kmalloc_roundtrip size h bs :
  0 < size <= 0xFFFFFFFC -> heap_wf h bs -> Exists (fits (align4 size)) bs ->
  exists ptr h1 h2, kmalloc h size = Some (ptr, h1) /\ ptr <> 0 /\
    kfree h1 ptr = Some h2 /\ heap_wf h2 bs.
Proof.
  intros Hsz Hw Hex. pose proof (align4_spec _ Hsz) as [Ha Ha4].
  destruct (hw_seg _ _ Hw) as [q Hseg].
  assert (Hrec : kmalloc_rec (pages_left h) h size =
    (r ← find_block (list_fuel h) (headers h) (heap_head h) 0 (align4 size);
     match r with
     | inl block => m ← take_block (headers h) block (align4 size);
                    Some (u32 (block + HEADER), set_headers h m)
     | inr _ => kmalloc_rec (pages_left h) h size end)).
  { rewrite (hw_head _ _ Hw).
    destruct (find_block_spec _ (align4 size) _ (list_fuel h) HEAP_START _ _ _ _
      ltac:(done) Hseg (heap_fuel _ _ Hw)) as (r & Hr & _).
    rewrite Hr. cbn [mbind option_bind]. destruct r as [b|x]; [|done].
    destruct (pages_left h); cbn [kmalloc_rec]; rewrite (proj2 (Z.eqb_neq size 0)) by lia;
      fold (align4 size); rewrite (hw_head _ _ Hw), Hr; done. }
  unfold kmalloc. rewrite Hrec, (hw_head _ _ Hw).
  destruct (find_block_spec _ (align4 size) _ (list_fuel h) HEAP_START _ _ _ _
    ltac:(done) Hseg (heap_fuel _ _ Hw)) as (r & -> & Hr).
  cbn [mbind option_bind]. destruct r as [b|x].
  2:{ exfalso. destruct Hr as [_ Hall]. apply Exists_exists in Hex as (y & Hy & Hf).
      rewrite Forall_forall in Hall. by apply (Hall y Hy). }
  destruct Hr as (l1 & s & l2 & -> & Hn & -> & _).
  destruct (take_first_fit h l1 s l2 (align4 size) Hw ltac:(lia) Ha4)
    as (m' & -> & Hw' & _ & Hb). cbn [mbind option_bind].
  destruct (freed_taken l1 s (align4 size) l2 ltac:(lia) (hw_coalesced _ _ Hw))
    as (k & r & Ht & Hfr).
  rewrite Ht in Hw'. destruct (kfree_wf _ _ _ _ Hw') as (h2 & Hk & Hw2 & _).
  assert (HEAP_START = 3221225472 /\ HEAP_MAX_ADDR = 3758096384) as [HS HM] by done.
  rewrite u32_small by (unfold HEADER; lia).
  eexists _, _, h2. split; [done|]. split; [unfold HEADER; lia|]. split; [exact Hk|].
  by rewrite <- Hfr.
Qed.
End Properties.

(** ** Runs of the heap on the concrete provider *)
Definition demo_heap : heap Z := default (mk_heap ∅ 0 0 0) (init_heap 0x125000).
Lemma demo_heap_wf : heap_wf demo_heap [(HEAP_INITIAL_SIZE - HEADER, true)].
Proof.
  split; try reflexivity; try (vm_compute; discriminate).
  - exists HEAP_START. simpl. split; [done|]. split; [done|]. exists 0.
    split; [reflexivity|]. split_and!; reflexivity.
  - by repeat constructor.
Qed.

Lemma init_heap_establishes_witness :
  exists h : heap Z, init_heap 0x125000 = Some h /\
    heap_wf h [(HEAP_INITIAL_SIZE - HEADER, true)] /\ provider_inv (provider h).
Proof.
  apply (init_heap_establishes (0x125000 : Z) 0x125000 (0x126000 : Z)).
  - exact I.
  - reflexivity.
  - discriminate.
Defined.

Lemma kmalloc_correct_witness :
  exists ptr h' bs', kmalloc demo_heap 5000 = Some (ptr, h') /\ heap_wf h' bs' /\
    provider_inv (provider h') /\
    ((ptr = 0 /\ used_blocks bs' = used_blocks [(HEAP_INITIAL_SIZE - HEADER, true)]) \/
     (HEAP_START < ptr < HEAP_MAX_ADDR + HEADER /\
      one_more_used 5000 ptr [(HEAP_INITIAL_SIZE - HEADER, true)] bs')).
Proof.
  apply (kmalloc_correct 5000 demo_heap).
  - lia.
  - exact demo_heap_wf.
  - exact I.
Defined.

Definition demo_heap1 : heap Z := default demo_heap (snd <$> kmalloc demo_heap 100).
Lemma demo_heap1_wf : heap_wf demo_heap1 [(100, false); (3964, true)].
Proof.
  split; try reflexivity; try (vm_compute; discriminate).
  - exists 0xC0000074. simpl. split; [done|]. split; [done|]. exists 0xC0000074.
    split; [reflexivity|]. split; [done|]. split; [done|]. exists 0.
    split; [reflexivity|]. split_and!; reflexivity.
  - by repeat constructor.
Qed.

Lemma kfree_correct_witness :
  exists h' bs', kfree demo_heap1 0xC0000010 = Some h' /\ heap_wf h' bs' /\
    used_blocks bs' = [] /\ provider h' = provider demo_heap1.
Proof.
  apply (kfree_correct demo_heap1 [(100, false); (3964, true)] [] 0xC0000010 100 []).
  - exact demo_heap1_wf.
  - reflexivity.
Defined.

Lemma heap_payloads_disjoint_witness :
  separated (used_blocks [(100, false); (3964, true)]) /\
  Forall (fun u => HEAP_START + HEADER <= fst u /\ 0 <= snd u /\
                   fst u + snd u <= heap_current_end demo_heap1)
    (used_blocks [(100, false); (3964, true)]).
Proof. apply (heap_payloads_disjoint demo_heap1). exact demo_heap1_wf. Defined.

Lemma kfree_kmalloc_roundtrip_witness :
  exists ptr h1 h2, kmalloc demo_heap1 256 = Some (ptr, h1) /\ ptr <> 0 /\
    kfree h1 ptr = Some h2 /\ heap_wf h2 [(100, false); (3964, true)].
Proof.
  apply (kfree_kmalloc_roundtrip 256 demo_heap1).
  - lia.
  - exact demo_heap1_wf.
  - apply Exists_cons_tl. apply Exists_cons_hd. split; [reflexivity|]. vm_compute. discriminate.
Defined.

(** A request within 3 bytes of 4 GB wraps to an aligned size of 0, and kmalloc
    answers a non-null pointer to a block of 0 bytes. *)
Example kmalloc_wraps_to_zero :
  option_map fst (kmalloc demo_heap 0xFFFFFFFD) = Some 0xC0000010 /\
  ('(_, h) ← kmalloc demo_heap 0xFFFFFFFD; b_size <$> headers h !! 0xC0000000) = Some 0.
Proof. vm_compute. done. Qed.
