(* ===== verification/BlockDev.v ===== *)
(** * The disk as the file system sees it

    drivers/ata.h promises two calls, [ata_read_sector] and [ata_write_sector].
    The interface states them with the contract the file system relies on; the
    instance [RamDisk] is the disk image as a map from sector number to
    contents. *)
From S2P Require Import Prelude.

Definition SECTOR_SIZE : nat := 512.
Definition sector_ok (s : list Z) : Prop := length s = SECTOR_SIZE /\ bytes_ok s.
Definition zero_sector : list Z := replicate SECTOR_SIZE 0.

(** [None] is a request that never completes. *)
Class BlockDevice (D : Type) := {
  dev_sectors : D -> Z;
  ata_read_sector : D -> Z -> option (list Z);
  ata_write_sector : D -> Z -> list Z -> option D;
}.

Class BlockDeviceOk (D : Type) `{BlockDevice D} := {
  read_sector_ok : forall d lba, 0 <= lba < dev_sectors d ->
    exists s, ata_read_sector d lba = Some s /\ sector_ok s;
  write_sector_ok : forall d lba s, 0 <= lba < dev_sectors d -> sector_ok s ->
    exists d', ata_write_sector d lba s = Some d' /\
      dev_sectors d' = dev_sectors d /\
      ata_read_sector d' lba = Some s /\
      forall l, l <> lba -> ata_read_sector d' l = ata_read_sector d l;
}.

Lemma zero_sector_ok : sector_ok zero_sector.
Proof. split; [apply length_replicate|by apply bytes_ok_replicate]. Qed.
#[export] Hint Resolve zero_sector_ok : word.

Module RamDisk.
Record disk := mk_disk { nsectors : Z; image : gmap Z (list Z) }.

Definition read (d : disk) (lba : Z) : option (list Z) :=
  if (0 <=? lba) && (lba <? nsectors d) then
    let s := default zero_sector (image d !! lba) in
    if decide (sector_ok s) then Some s else Some zero_sector
  else None.
Definition write (d : disk) (lba : Z) (s : list Z) : option disk :=
  if (0 <=? lba) && (lba <? nsectors d) then
    Some (mk_disk (nsectors d) (<[lba := s]> (image d)))
  else None.

#[export] Instance ram_disk : BlockDevice disk := {
  dev_sectors := nsectors; ata_read_sector := read; ata_write_sector := write;
}.
#[export] Instance ram_disk_ok : BlockDeviceOk disk.
Proof.
  split; simpl.
  - intros d lba H. unfold read.
    replace ((0 <=? lba) && (lba <? nsectors d)) with true by lia.
    case_decide; eauto with word.
  - intros d lba s H Hs. unfold write, read.
    replace ((0 <=? lba) && (lba <? nsectors d)) with true by lia.
    eexists. split; [done|]. simpl. split; [done|]. split.
    + replace ((0 <=? lba) && (lba <? nsectors d)) with true by lia.
      rewrite lookup_insert_eq. simpl. by rewrite decide_True.
    + intros l Hl. by rewrite lookup_insert_ne.
Qed.

(** A blank disk of 32768 sectors, as [qemu-img create -f raw disk.img 16M]. *)
Definition blank : disk := mk_disk 32768 ∅.
End RamDisk.
