(* ===== verification/DiskLayout.v ===== *)
(** * fs/simplefs.h: the on-disk structures

    A packed structure is its bytes in declaration order, integers little
    endian.  A cast such as [(Inode* )buffer] is the decoding of the sector
    into its structures, and using the buffer after assignments through the
    cast pointer is the encoding back. *)
From S2P Require Import Prelude BlockDev.

Definition SIMPLEFS_MAGIC : Z := 0x50435231.
Definition INODE_USED : Z := 1.
Definition INODE_DIR : Z := 2.
Definition SIMPLEFS_TOTAL_SECTORS : Z := 32768.
Definition SIMPLEFS_SUPERBLOCK_SECTOR : Z := 0.
Definition SIMPLEFS_INODE_START_SECTOR : Z := 1.
Definition SIMPLEFS_INODE_COUNT : Z := 64.
Definition SIMPLEFS_INODES_PER_SECTOR : Z := 4.   (* 512 / sizeof(Inode) *)
Definition SIMPLEFS_INODE_SECTORS : Z := 16.
Definition SIMPLEFS_DATA_START_SECTOR : Z := 17.
Definition SIMPLEFS_DIRECT_BLOCKS : Z := 30.
Definition SIMPLEFS_MAX_FILENAME : Z := 28.
Definition SIMPLEFS_ENTRIES_PER_BLOCK : Z := 16.  (* 512 / sizeof(DirEntry) *)

Record Superblock := mk_sb {
  magic : Z; total_sectors : Z; inode_count : Z; data_block_start : Z;
}.
Record Inode := mk_inode { i_size : Z; i_flags : Z; i_blocks : list Z }.
Record DirEntry := mk_dirent { inode_idx : Z; filename : list Z }.

#[export] Instance Inode_eq_dec : EqDecision Inode.
Proof. solve_decision. Defined.
#[export] Instance DirEntry_eq_dec : EqDecision DirEntry.
Proof. solve_decision. Defined.
#[export] Instance Superblock_eq_dec : EqDecision Superblock.
Proof. solve_decision. Defined.

(** ** Words and chunks *)
Definition le32 (x : Z) : list Z :=
  [x mod 256; x / 256 mod 256; x / 65536 mod 256; x / 16777216 mod 256].
Definition of_le32 (l : list Z) : Z :=
  match l with
  | a :: b :: c :: d :: _ => a + 256 * b + 65536 * c + 16777216 * d
  | _ => 0
  end.

(** The first [k] chunks of [n] bytes. *)
Fixpoint chunks (n k : nat) (l : list Z) : list (list Z) :=
  match k with O => [] | S k' => take n l :: chunks n k' (drop n l) end.

Definition words (k : nat) (l : list Z) : list Z := of_le32 <$> chunks 4 k l.
Definition bytes_of_words (ws : list Z) : list Z := concat (le32 <$> ws).

(** ** The structures *)
Definition encode_inode (i : Inode) : list Z :=
  bytes_of_words (i_size i :: i_flags i :: i_blocks i).
Definition decode_inode (l : list Z) : Inode :=
  match words 32 l with
  | s :: f :: bs => mk_inode s f bs
  | _ => mk_inode 0 0 []
  end.
Definition encode_dirent (e : DirEntry) : list Z := le32 (inode_idx e) ++ filename e.
Definition decode_dirent (l : list Z) : DirEntry :=
  mk_dirent (of_le32 (take 4 l)) (drop 4 l).
Definition encode_sb (s : Superblock) : list Z :=
  bytes_of_words [magic s; total_sectors s; inode_count s; data_block_start s].
Definition decode_sb (l : list Z) : Superblock :=
  match words 4 l with
  | [m; t; c; b] => mk_sb m t c b
  | _ => mk_sb 0 0 0 0
  end.

Definition inodes_of_sector (s : list Z) : list Inode := decode_inode <$> chunks 128 4 s.
Definition sector_of_inodes (ns : list Inode) : list Z := concat (encode_inode <$> ns).
Definition dirents_of_sector (s : list Z) : list DirEntry := decode_dirent <$> chunks 32 16 s.
Definition sector_of_dirents (es : list DirEntry) : list Z := concat (encode_dirent <$> es).

(** ** Well-formed values *)
Definition word32 (x : Z) : Prop := 0 <= x < 4294967296.
Record inode_ok (i : Inode) : Prop := {
  io_size : word32 (i_size i);
  io_flags : word32 (i_flags i);
  io_blocks : Forall word32 (i_blocks i);
  io_length : length (i_blocks i) = 30%nat;
}.
Record dirent_ok (e : DirEntry) : Prop := {
  do_idx : word32 (inode_idx e);
  do_name : bytes_ok (filename e);
  do_length : length (filename e) = 28%nat;
}.

(** ** Round trips *)
Lemma of_le32_le32 x : word32 x -> of_le32 (le32 x) = x.
Proof.
  unfold word32, of_le32, le32. intros. Z.to_euclidean_division_equations; lia.
Qed.
Lemma le32_of_le32 l : length l = 4%nat -> bytes_ok l -> le32 (of_le32 l) = l.
Proof.
  destruct l as [|a [|b [|c [|d [|]]]]]; try done. intros _ H.
  unfold bytes_ok in H. rewrite !Forall_cons in H. destruct H as (Ha & Hb & Hc & Hd & _).
  unfold of_le32, le32. repeat f_equal; Z.to_euclidean_division_equations; lia.
Qed.
Lemma le32_ok x : length (le32 x) = 4%nat /\ bytes_ok (le32 x).
Proof.
  split; [done|]. unfold le32, bytes_ok. repeat constructor; apply Z.mod_pos_bound; lia.
Qed.
Lemma of_le32_range l : bytes_ok l -> word32 (of_le32 l).
Proof.
  destruct l as [|a [|b [|c [|d l]]]]; unfold word32; simpl; try lia.
  unfold bytes_ok. rewrite !Forall_cons. lia.
Qed.

Lemma chunks_length n k : forall l, length (chunks n k l) = k.
Proof. induction k; simpl; auto. Qed.
Lemma chunks_concat n (ls : list (list Z)) :
  Forall (fun c => length c = n) ls -> chunks n (length ls) (concat ls) = ls.
Proof.
  induction ls as [|c ls IH]; simpl; [done|].
  intros [Hc Hls]%Forall_cons. subst n. rewrite take_app_length, drop_app_length.
  by rewrite IH.
Qed.
Lemma concat_chunks n k : forall l, length l = (n * k)%nat -> concat (chunks n k l) = l.
Proof.
  induction k as [|k IH]; intros l Hl; simpl.
  { destruct l; [done|]. simpl in Hl. lia. }
  rewrite IH, take_drop; [done|]. rewrite length_drop. lia.
Qed.
Lemma chunks_ok n k : forall l, length l = (n * k)%nat -> bytes_ok l ->
  Forall (fun c => length c = n /\ bytes_ok c) (chunks n k l).
Proof.
  induction k as [|k IH]; intros l Hl Hb; simpl; [constructor|]. constructor.
  - split; [rewrite length_take; lia|by apply Forall_take].
  - apply IH; [rewrite length_drop; lia|by apply Forall_drop].
Qed.

Lemma fmap_id_in {A} (f : A -> A) l : Forall (fun x => f x = x) l -> f <$> l = l.
Proof. induction 1 as [|x l Hx _ IH]; [done|]. rewrite fmap_cons. by rewrite Hx, IH. Qed.

(** Decoding by chunks and encoding by concatenation are inverse when the
    codec of one element is. *)
Section Codec.
Context {A : Type} (n : nat) (enc : A -> list Z) (dec : list Z -> A) (ok : A -> Prop).
Hypothesis enc_ok : forall a, ok a -> length (enc a) = n /\ bytes_ok (enc a).
Hypothesis dec_enc : forall a, ok a -> dec (enc a) = a.
Hypothesis dec_ok : forall l, length l = n -> bytes_ok l -> ok (dec l) /\ enc (dec l) = l.

Lemma codec_decode k l :
  length l = (n * k)%nat -> bytes_ok l ->
  Forall ok (dec <$> chunks n k l) /\ length (dec <$> chunks n k l) = k /\
  concat (enc <$> (dec <$> chunks n k l)) = l.
Proof.
  intros Hl Hb. pose proof (chunks_ok n k l Hl Hb) as Hc. split_and!.
  - apply Forall_fmap. eapply Forall_impl; [exact Hc|]. intros c [? ?]. simpl.
    by apply dec_ok.
  - rewrite length_fmap. apply chunks_length.
  - rewrite <- list_fmap_compose. rewrite fmap_id_in; [by apply concat_chunks|].
    eapply Forall_impl; [exact Hc|]. intros c [? ?]. simpl. by apply dec_ok.
Qed.
Lemma codec_encode (xs : list A) :
  Forall ok xs ->
  dec <$> chunks n (length xs) (concat (enc <$> xs)) = xs /\
  length (concat (enc <$> xs)) = (n * length xs)%nat /\ bytes_ok (concat (enc <$> xs)).
Proof.
  intros Hx. split_and!.
  - rewrite <- (length_fmap enc xs). rewrite chunks_concat.
    + rewrite <- list_fmap_compose. apply fmap_id_in.
      eapply Forall_impl; [exact Hx|]. intros a Ha. by apply dec_enc.
    + apply Forall_fmap. eapply Forall_impl; [exact Hx|]. intros a Ha. by apply enc_ok.
  - induction Hx as [|a xs Ha Hx IH]; [simpl; lia|].
    rewrite fmap_cons, concat_cons, length_app, IH. simpl length. destruct (enc_ok a Ha) as [-> _]. lia.
  - induction Hx as [|a xs Ha Hx IH]; [constructor|].
    rewrite fmap_cons, concat_cons. apply bytes_ok_app. split; [by apply enc_ok|done].
Qed.
End Codec.

Lemma words_decode k l :
  length l = (4 * k)%nat -> bytes_ok l ->
  Forall word32 (words k l) /\ length (words k l) = k /\ bytes_of_words (words k l) = l.
Proof.
  apply (codec_decode 4 le32 of_le32 word32).
  intros c Hc Hb. split; [by apply of_le32_range|by apply le32_of_le32].
Qed.
Lemma words_encode ws :
  Forall word32 ws ->
  words (length ws) (bytes_of_words ws) = ws /\
  length (bytes_of_words ws) = (4 * length ws)%nat /\ bytes_ok (bytes_of_words ws).
Proof. apply (codec_encode 4 le32 of_le32 word32); eauto using le32_ok, of_le32_le32. Qed.

Lemma encode_inode_ok i : inode_ok i ->
  length (encode_inode i) = 128%nat /\ bytes_ok (encode_inode i) /\
  decode_inode (encode_inode i) = i.
Proof.
  intros [Hs Hf Hb Hl]. unfold encode_inode, decode_inode.
  assert (HF : Forall word32 (i_size i :: i_flags i :: i_blocks i)) by (by rewrite !Forall_cons).
  destruct (words_encode _ HF) as (Hw & Hlen & Hbytes). simpl length in *. rewrite Hl in *.
  split; [done|]. split; [done|]. rewrite Hw. by destruct i.
Qed.
Lemma decode_inode_ok l : length l = 128%nat -> bytes_ok l ->
  inode_ok (decode_inode l) /\ encode_inode (decode_inode l) = l.
Proof.
  intros Hl Hb. destruct (words_decode 32 l Hl Hb) as (HF & Hlen & Henc).
  unfold encode_inode, decode_inode. destruct (words 32 l) as [|s [|f bs]]; try done.
  rewrite !Forall_cons in HF. destruct HF as (? & ? & ?). simpl in Hlen.
  split; [|done]. split; simpl; try done. lia.
Qed.
Lemma encode_dirent_ok e : dirent_ok e ->
  length (encode_dirent e) = 32%nat /\ bytes_ok (encode_dirent e) /\
  decode_dirent (encode_dirent e) = e.
Proof.
  intros [Hi Hn Hl]. unfold encode_dirent, decode_dirent. destruct (le32_ok (inode_idx e)) as [H4 Hb].
  rewrite length_app, Hl, H4. split; [done|]. split; [by apply bytes_ok_app|].
  rewrite <- H4 at 1 2. rewrite take_app_length, drop_app_length, of_le32_le32 by done.
  by destruct e.
Qed.
Lemma decode_dirent_ok l : length l = 32%nat -> bytes_ok l ->
  dirent_ok (decode_dirent l) /\ encode_dirent (decode_dirent l) = l.
Proof.
  intros Hl Hb. unfold encode_dirent, decode_dirent. cbn [inode_idx filename].
  assert (Ht : length (take 4 l) = 4%nat) by (rewrite length_take; lia).
  split; [|by rewrite le32_of_le32, take_drop by (done || by apply Forall_take)].
  split; cbn [inode_idx filename].
  - apply of_le32_range. by apply Forall_take.
  - by apply Forall_drop.
  - rewrite length_drop. lia.
Qed.

(** ** Sectors *)
Lemma inodes_of_sector_ok s : sector_ok s ->
  Forall inode_ok (inodes_of_sector s) /\ length (inodes_of_sector s) = 4%nat /\
  sector_of_inodes (inodes_of_sector s) = s.
Proof.
  intros [Hl Hb]. apply (codec_decode 128 encode_inode decode_inode inode_ok); try done.
  apply decode_inode_ok.
Qed.
Lemma sector_of_inodes_ok ns : Forall inode_ok ns -> length ns = 4%nat ->
  sector_ok (sector_of_inodes ns) /\ inodes_of_sector (sector_of_inodes ns) = ns.
Proof.
  intros HF Hl.
  destruct (codec_encode 128 encode_inode decode_inode inode_ok) with (xs := ns)
    as (H1 & H2 & H3); try done.
  { intros a Ha. by destruct (encode_inode_ok a Ha) as (? & ? & ?). }
  { intros a Ha. by apply encode_inode_ok. }
  rewrite Hl in *. done.
Qed.
Lemma dirents_of_sector_ok s : sector_ok s ->
  Forall dirent_ok (dirents_of_sector s) /\ length (dirents_of_sector s) = 16%nat /\
  sector_of_dirents (dirents_of_sector s) = s.
Proof.
  intros [Hl Hb]. apply (codec_decode 32 encode_dirent decode_dirent dirent_ok); try done.
  apply decode_dirent_ok.
Qed.
Lemma sector_of_dirents_ok es : Forall dirent_ok es -> length es = 16%nat ->
  sector_ok (sector_of_dirents es) /\ dirents_of_sector (sector_of_dirents es) = es.
Proof.
  intros HF Hl.
  destruct (codec_encode 32 encode_dirent decode_dirent dirent_ok) with (xs := es)
    as (H1 & H2 & H3); try done.
  { intros a Ha. by destruct (encode_dirent_ok a Ha) as (? & ? & ?). }
  { intros a Ha. by apply encode_dirent_ok. }
  rewrite Hl in *. done.
Qed.
