(* ===== verification/SimpleFs.v ===== *)
(** * fs/simplefs.cpp: the on-disk file system

    The state is the disk behind ata.h and the static superblock [sb].  A
    [const char*] or [void*] argument is the list of bytes from the pointer to
    the end of its object.  [None] is an execution without a result: a disk
    request that never completes or an access outside an object.  The console
    messages of [simplefs_init] are left out. *)
From S2P Require Import Prelude CString BlockDev DiskLayout.

Record fs (D : Type) := mk_fs { dev : D; sb : Superblock }.
Arguments mk_fs {D} _ _.
Arguments dev {D} _.
Arguments sb {D} _.

Definition has_flag (flags bit : Z) : bool := negb (Z.land flags bit =? 0).

(** Structures built by the code. *)
Definition zero_blocks : list Z := replicate 30 0.
Definition set_i_blocks (n : Inode) (bs : list Z) : Inode :=
  mk_inode (i_size n) (i_flags n) bs.
Definition set_i_size (n : Inode) (s : Z) : Inode := mk_inode s (i_flags n) (i_blocks n).
Definition zero_dirent : DirEntry := mk_dirent 0 (replicate 28 0).
Definition name_dot : list Z := [46].
Definition name_dotdot : list Z := [46; 46].

Section SimpleFs.
Context {D : Type} `{BlockDevice D}.
Implicit Types f : fs D.

Definition set_dev f (d : D) : fs D := mk_fs d (sb f).

Definition inode_sector (idx : Z) : Z :=
  idx / SIMPLEFS_INODES_PER_SECTOR + SIMPLEFS_INODE_START_SECTOR.
Definition inode_index (idx : Z) : Z := idx mod SIMPLEFS_INODES_PER_SECTOR.

Definition read_inode (d : D) (idx : Z) : option Inode :=
  buffer ← ata_read_sector d (inode_sector idx);
  zget (inodes_of_sector buffer) (inode_index idx).

Definition write_inode (d : D) (idx : Z) (inode : Inode) : option D :=
  buffer ← ata_read_sector d (inode_sector idx);
  inodes ← zset (inodes_of_sector buffer) (inode_index idx) inode;
  ata_write_sector d (inode_sector idx) (sector_of_inodes inodes).

(** ** simplefs_init *)
(** [for (sec = 1; sec < 17; sec++) ata_write_sector(sec, zero_buf)] *)
Fixpoint clear_inodes (n : nat) (d : D) (sec : Z) : option D :=
  match n with
  | O => Some d
  | S n' => d' ← ata_write_sector d sec zero_sector; clear_inodes n' d' (sec + 1)
  end.

(** The root inode of the fresh inode table. *)
Definition root_inode_init : Inode :=
  mk_inode 0 (Z.lor INODE_USED INODE_DIR) (<[0%nat := SIMPLEFS_DATA_START_SECTOR]> zero_blocks).

Definition format_disk (d : D) : option (fs D) :=
  let s := mk_sb SIMPLEFS_MAGIC SIMPLEFS_TOTAL_SECTORS SIMPLEFS_INODE_COUNT
             SIMPLEFS_DATA_START_SECTOR in
  buffer ← memcpy zero_sector 0 (encode_sb s) 0 16;
  d1 ← ata_write_sector d SIMPLEFS_SUPERBLOCK_SECTOR buffer;
  d2 ← clear_inodes 16 d1 SIMPLEFS_INODE_START_SECTOR;
  inodes ← zset (inodes_of_sector zero_sector) 0 root_inode_init;
  d3 ← ata_write_sector d2 SIMPLEFS_INODE_START_SECTOR (sector_of_inodes inodes);
  n0 ← memcpy (filename zero_dirent) 0 (cbuf name_dot) 0 2;
  n1 ← memcpy (filename zero_dirent) 0 (cbuf name_dotdot) 0 3;
  let root_entries := <[0%nat := mk_dirent 0 n0]>
                        (<[1%nat := mk_dirent 0 n1]> (replicate 16 zero_dirent)) in
  d4 ← ata_write_sector d3 (data_block_start s) (sector_of_dirents root_entries);
  Some (mk_fs d4 s).

Definition simplefs_init (d : D) : option (fs D) :=
  buffer ← ata_read_sector d SIMPLEFS_SUPERBLOCK_SECTOR;
  let s := decode_sb buffer in
  if negb (magic s =? SIMPLEFS_MAGIC) || (total_sectors s =? 0)
  then format_disk d
  else Some (mk_fs d s).

(** ** allocate_free_inode *)
(** Index of the first inode of a sector without [INODE_USED]. *)
Fixpoint first_free (inodes : list Inode) (i : Z) : option Z :=
  match inodes with
  | [] => None
  | n :: rest => if has_flag (i_flags n) INODE_USED then first_free rest (i + 1) else Some i
  end.

(** The sector loop; the inner [None] is "no free inode". *)
Fixpoint find_free_inode (n : nat) (d : D) (sec : Z) : option (option (Z * Z)) :=
  match n with
  | O => Some None
  | S n' =>
      buffer ← ata_read_sector d sec;
      match first_free (inodes_of_sector buffer) 0 with
      | Some i => Some (Some (sec, i))
      | None => find_free_inode n' d (sec + 1)
      end
  end.

Definition allocate_free_inode (d : D) (flags : Z) : option (Z * D) :=
  r ← find_free_inode 16 d SIMPLEFS_INODE_START_SECTOR;
  match r with
  | None => Some (-1, d)
  | Some (target_sector, target_index) =>
      let target_inode_idx :=
        (target_sector - SIMPLEFS_INODE_START_SECTOR) * SIMPLEFS_INODES_PER_SECTOR
        + target_index in
      buffer ← ata_read_sector d target_sector;
      inodes ← zset (inodes_of_sector buffer) target_index (mk_inode 0 flags zero_blocks);
      d' ← ata_write_sector d target_sector (sector_of_inodes inodes);
      Some (target_inode_idx, d')
  end.

(** ** add_dir_entry *)
(** Fill the first entry whose name is empty; the inner [None] is a full
    block. *)
Fixpoint fill_entry (es : list DirEntry) (idx : Z) (name : list Z)
  : option (option (list DirEntry)) :=
  match es with
  | [] => Some None
  | e :: rest =>
      c ← zget (filename e) 0;
      if c =? 0 then
        len ← strlen name;
        fn ← memcpy (filename e) 0 name 0 (u32 (len + 1));
        Some (Some (mk_dirent idx fn :: rest))
      else
        r ← fill_entry rest idx name;
        Some (option_map (cons e) r)
  end.

Definition add_dir_entry (d : D) (dir_block_num idx : Z) (name : list Z) : option (Z * D) :=
  buffer ← ata_read_sector d dir_block_num;
  r ← fill_entry (dirents_of_sector buffer) idx name;
  match r with
  | None => Some (-1, d)
  | Some es =>
      d' ← ata_write_sector d dir_block_num (sector_of_dirents es);
      Some (0, d')
  end.

(** ** simplefs_lookup *)
Fixpoint lookup_entries (es : list DirEntry) (name : list Z) : option Z :=
  match es with
  | [] => Some (-1)
  | e :: rest =>
      c ← zget (filename e) 0;
      if c =? 0 then lookup_entries rest name
      else
        r ← strcmp (filename e) name;
        if r =? 0 then Some (i32 (inode_idx e)) else lookup_entries rest name
  end.

Definition simplefs_lookup (d : D) (dir_inode_idx : Z) (name : list Z) : option Z :=
  inode ← read_inode d dir_inode_idx;
  if negb (has_flag (i_flags inode) INODE_DIR) then Some (-1) else
  dir_block ← zget (i_blocks inode) 0;
  buffer ← ata_read_sector d dir_block;
  lookup_entries (dirents_of_sector buffer) name.

(** ** Free blocks *)
Definition inode_uses (block_num : Z) (n : Inode) : bool :=
  has_flag (i_flags n) INODE_USED && existsb (fun b => b =? block_num) (i_blocks n).

Fixpoint block_used_from (n : nat) (d : D) (sec block_num : Z) : option bool :=
  match n with
  | O => Some false
  | S n' =>
      buffer ← ata_read_sector d sec;
      if existsb (inode_uses block_num) (inodes_of_sector buffer) then Some true
      else block_used_from n' d (sec + 1) block_num
  end.
Definition is_block_used (d : D) (block_num : Z) : option bool :=
  block_used_from 16 d SIMPLEFS_INODE_START_SECTOR block_num.

(** [for (; is_block_used(candidate); candidate++)]; 64 inodes name at most
    1920 blocks, so 1921 candidates are enough. *)
Fixpoint find_free_block (fuel : nat) (d : D) (candidate : Z) : option Z :=
  u ← is_block_used d candidate;
  if u : bool then
    match fuel with
    | O => None
    | S n => find_free_block n d (u32 (candidate + 1))
    end
  else Some candidate.
Definition find_free_data_block f : option Z :=
  find_free_block 1920 (dev f) (data_block_start (sb f)).

(** ** simplefs_create *)
Definition simplefs_create f (parent_inode_idx : Z) (name : list Z) : option (Z * fs D) :=
  len ← strlen name;
  if (SIMPLEFS_MAX_FILENAME <=? len) || (len =? 0) then Some (-1, f) else
  parent_inode ← read_inode (dev f) parent_inode_idx;
  if negb (has_flag (i_flags parent_inode) INODE_DIR) then Some (-1, f) else
  parent_data_block_num ← zget (i_blocks parent_inode) 0;
  found ← simplefs_lookup (dev f) parent_inode_idx name;
  if negb (found =? -1) then Some (-1, f) else
  '(target_inode_idx, d1) ← allocate_free_inode (dev f) INODE_USED;
  if target_inode_idx =? -1 then Some (-1, set_dev f d1) else
  '(r, d2) ← add_dir_entry d1 parent_data_block_num target_inode_idx name;
  Some (if r =? 0 then 0 else -1, set_dev f d2).

(** ** simplefs_mkdir *)
Definition simplefs_mkdir f (parent_inode_idx : Z) (name : list Z) : option (Z * fs D) :=
  len ← strlen name;
  if (SIMPLEFS_MAX_FILENAME <=? len) || (len =? 0) then Some (-1, f) else
  parent_inode ← read_inode (dev f) parent_inode_idx;
  if negb (has_flag (i_flags parent_inode) INODE_DIR) then Some (-1, f) else
  parent_data_block_num ← zget (i_blocks parent_inode) 0;
  found ← simplefs_lookup (dev f) parent_inode_idx name;
  if negb (found =? -1) then Some (-1, f) else
  '(target_inode_idx, d1) ← allocate_free_inode (dev f) (Z.lor INODE_USED INODE_DIR);
  if target_inode_idx =? -1 then Some (-1, set_dev f d1) else
  new_dir_block ← find_free_data_block (set_dev f d1);
  n0 ← memcpy (filename zero_dirent) 0 (cbuf name_dot) 0 1;
  n1 ← memcpy (filename zero_dirent) 0 (cbuf name_dotdot) 0 2;
  let dir_entries := <[0%nat := mk_dirent target_inode_idx n0]>
                       (<[1%nat := mk_dirent parent_inode_idx n1]> (replicate 16 zero_dirent)) in
  d2 ← ata_write_sector d1 new_dir_block (sector_of_dirents dir_entries);
  new_dir_inode ← read_inode d2 target_inode_idx;
  blocks ← zset (i_blocks new_dir_inode) 0 new_dir_block;
  d3 ← write_inode d2 target_inode_idx (set_i_blocks new_dir_inode blocks);
  '(r, d4) ← add_dir_entry d3 parent_data_block_num target_inode_idx name;
  Some (if r =? 0 then 0 else -1, set_dev f d4).

(** ** simplefs_get_direntry, simplefs_get_inode: [None] inside is -1 *)
Definition simplefs_get_direntry (d : D) (dir_inode_idx index : Z)
  : option (option DirEntry) :=
  if (index <? 0) || (SIMPLEFS_ENTRIES_PER_BLOCK <=? index) then Some None else
  inode ← read_inode d dir_inode_idx;
  if negb (has_flag (i_flags inode) INODE_DIR) then Some None else
  dir_block ← zget (i_blocks inode) 0;
  buffer ← ata_read_sector d dir_block;
  e ← zget (dirents_of_sector buffer) index;
  c ← zget (filename e) 0;
  if c =? 0 then Some None else Some (Some e).

Definition simplefs_get_inode (d : D) (idx : Z) : option (option Inode) :=
  if SIMPLEFS_INODE_COUNT <=? idx then Some None else
  buffer ← ata_read_sector d (inode_sector idx);
  n ← zget (inodes_of_sector buffer) (inode_index idx);
  Some (Some n).

(** ** simplefs_write *)
(** One round per block; the state is the disk, the in-memory inode and the
    bytes left. *)
Fixpoint write_blocks (n : nat) (d : D) (dbs idx : Z) (file_inode : Inode)
    (buf : list Z) (i bytes_left : Z) : option (D * Inode) :=
  match n with
  | O => Some (d, file_inode)
  | S n' =>
      b ← zget (i_blocks file_inode) i;
      '(d1, inode1) ←
        (if b =? 0 then
           block ← find_free_block 1920 d dbs;
           blocks ← zset (i_blocks file_inode) i block;
           let inode1 := set_i_blocks file_inode blocks in
           d1 ← write_inode d idx inode1;
           Some (d1, inode1)
         else Some (d, file_inode));
      let chunk := if 512 <? bytes_left then 512 else bytes_left in
      buffer ← memset zero_sector 0 0 512;
      buffer ← memcpy buffer 0 buf (i * 512) chunk;
      b1 ← zget (i_blocks inode1) i;
      d2 ← ata_write_sector d1 b1 buffer;
      write_blocks n' d2 dbs idx inode1 buf (i + 1) (bytes_left - chunk)
  end.

Definition blocks_needed (size : Z) : Z := u32 (size + 511) / 512.

Definition simplefs_write f (parent_inode_idx : Z) (name buf : list Z) (size : Z)
  : option (Z * fs D) :=
  file_inode_idx ← simplefs_lookup (dev f) parent_inode_idx name;
  if file_inode_idx =? -1 then Some (-1, f) else
  let needed_blocks := blocks_needed size in
  if SIMPLEFS_DIRECT_BLOCKS <? needed_blocks then Some (-1, f) else
  file_inode ← read_inode (dev f) (u32 file_inode_idx);
  '(d1, inode1) ← write_blocks (Z.to_nat needed_blocks) (dev f) (data_block_start (sb f))
                    (u32 file_inode_idx) file_inode buf 0 size;
  d2 ← write_inode d1 (u32 file_inode_idx) (set_i_size inode1 size);
  Some (0, set_dev f d2).

(** ** simplefs_read: the result and the caller's buffer *)
Fixpoint read_blocks (n : nat) (d : D) (file_inode : Inode) (buf : list Z)
    (i bytes_left : Z) : option (list Z) :=
  match n with
  | O => Some buf
  | S n' =>
      let chunk := if 512 <? bytes_left then 512 else bytes_left in
      b ← zget (i_blocks file_inode) i;
      buffer ← ata_read_sector d b;
      buf' ← memcpy buf (i * 512) buffer 0 chunk;
      read_blocks n' d file_inode buf' (i + 1) (bytes_left - chunk)
  end.

Definition simplefs_read (d : D) (parent_inode_idx : Z) (name buf : list Z) (size : Z)
  : option (Z * list Z) :=
  file_inode_idx ← simplefs_lookup d parent_inode_idx name;
  if file_inode_idx =? -1 then Some (-1, buf) else
  file_inode ← read_inode d (u32 file_inode_idx);
  if has_flag (i_flags file_inode) INODE_DIR then Some (-1, buf) else
  let bytes_to_read := if i_size file_inode <? size then i_size file_inode else size in
  buf' ← read_blocks (Z.to_nat (blocks_needed bytes_to_read)) d file_inode buf 0 bytes_to_read;
  Some (i32 bytes_to_read, buf').
End SimpleFs.
