(* ===== verification/FsView.v ===== *)
(** * The abstract state of SimpleFS

    A mounted disk is seen as an inode table [T] (inode number to inode) and a
    block store [B] (sector number to contents).  [view d N T B] says that the
    disk [d] of [N] sectors holds them; the lemmas say what the primitive
    accesses of fs/simplefs.cpp do to the view. *)
From stdpp Require Import functions.
From S2P Require Import Prelude CString BlockDev DiskLayout SimpleFs.

Notation inode_table := (Z -> Inode).
Notation block_store := (Z -> list Z).

(** 64 inodes of 30 blocks: one block more than they can name, after the 17
    sectors of metadata. *)
Definition MIN_SECTORS : Z := 17 + 64 * 30 + 1.

Section View.
Context {D : Type} `{BlockDeviceOk D}.
Implicit Types (d : D) (T : inode_table) (B : block_store).

Record view (d : D) (N : Z) (T : inode_table) (B : block_store) : Prop := {
  v_size : dev_sectors d = N;
  v_big : MIN_SECTORS <= N;
  v_inode : forall i, 0 <= i < 64 -> read_inode d i = Some (T i) /\ inode_ok (T i);
  v_block : forall b, b = 0 \/ 17 <= b < N -> ata_read_sector d b = Some (B b) /\ sector_ok (B b);
}.

Lemma inode_sector_range i : 0 <= i < 64 -> 1 <= inode_sector i < 17 /\ 0 <= inode_index i < 4.
Proof.
  unfold inode_sector, inode_index, SIMPLEFS_INODES_PER_SECTOR, SIMPLEFS_INODE_START_SECTOR.
  intros. Z.to_euclidean_division_equations; lia.
Qed.
Lemma inode_pos_inj i j :
  inode_sector i = inode_sector j -> inode_index i = inode_index j -> i = j.
Proof.
  unfold inode_sector, inode_index, SIMPLEFS_INODES_PER_SECTOR, SIMPLEFS_INODE_START_SECTOR.
  intros. Z.to_euclidean_division_equations; lia.
Qed.
Lemma inode_pos sec k : 1 <= sec < 17 -> 0 <= k < 4 ->
  inode_sector ((sec - 1) * 4 + k) = sec /\ inode_index ((sec - 1) * 4 + k) = k.
Proof.
  unfold inode_sector, inode_index, SIMPLEFS_INODES_PER_SECTOR, SIMPLEFS_INODE_START_SECTOR.
  intros. Z.to_euclidean_division_equations; lia.
Qed.

Lemma zget_in {A} (P : A -> Prop) (l : list A) i x : Forall P l -> zget l i = Some x -> P x.
Proof.
  intros HF Hg. rewrite Forall_lookup in HF. unfold zget in Hg. case_decide; [|done].
  by eapply HF.
Qed.

Lemma read_inode_total d i :
  MIN_SECTORS <= dev_sectors d -> 0 <= i < 64 ->
  exists n, read_inode d i = Some n /\ inode_ok n.
Proof.
  intros Hd Hi. destruct (inode_sector_range i Hi) as [Hs Hk]. unfold MIN_SECTORS in *.
  destruct (read_sector_ok d (inode_sector i)) as (s & Hr & Hok); [lia|].
  destruct (inodes_of_sector_ok s Hok) as (HF & Hl & _).
  destruct (zget_total (inodes_of_sector s) (inode_index i)) as [n Hn]; [rewrite Hl; lia|].
  exists n. unfold read_inode. rewrite Hr. split; [done|]. by eapply zget_in.
Qed.

(** Every large enough disk has a view. *)
Lemma view_exists d : MIN_SECTORS <= dev_sectors d -> exists T B, view d (dev_sectors d) T B.
Proof.
  intros Hd. exists (fun i => default root_inode_init (read_inode d i)).
  exists (fun b => default zero_sector (ata_read_sector d b)). split; [done|done| |].
  - intros i Hi. destruct (read_inode_total d i Hd Hi) as (n & -> & Hn). done.
  - intros b Hb. destruct (read_sector_ok d b) as (s & -> & Hs); [unfold MIN_SECTORS in Hd; lia|]. done.
Qed.

Lemma set_inode_spec d N T B i n buffer inodes :
  view d N T B -> 0 <= i < 64 -> inode_ok n ->
  ata_read_sector d (inode_sector i) = Some buffer ->
  zset (inodes_of_sector buffer) (inode_index i) n = Some inodes ->
  exists d', ata_write_sector d (inode_sector i) (sector_of_inodes inodes) = Some d' /\
    view d' N (<[i := n]> T) B.
Proof.
  intros Hv Hi Hn Hb Hz. destruct (inode_sector_range i Hi) as [Hs Hk].
  pose proof (v_size _ _ _ _ Hv) as HN. pose proof (v_big _ _ _ _ Hv) as HM.
  unfold MIN_SECTORS in HM.
  destruct (read_sector_ok d (inode_sector i)) as (s & Hr & Hok); [lia|].
  rewrite Hb in Hr. injection Hr as <-.
  destruct (inodes_of_sector_ok buffer Hok) as (HF & Hl & _).
  assert (HF' : Forall inode_ok inodes).
  { apply zset_Some in Hz as [_ ->]. by apply Forall_insert. }
  assert (Hl' : length inodes = 4%nat) by (by rewrite (zset_length _ _ _ _ Hz)).
  destruct (sector_of_inodes_ok inodes HF' Hl') as [Hsok Hdec].
  destruct (write_sector_ok d (inode_sector i) (sector_of_inodes inodes)) as
    (d' & Hw & Hd' & Hsame & Hother); [lia|done|].
  exists d'. split; [done|]. split.
  - congruence.
  - done.
  - intros j Hj. destruct (v_inode _ _ _ _ Hv j Hj) as [Hrj Hokj].
    destruct (decide (i = j)) as [<-|Hne].
    + rewrite fn_lookup_insert. split; [|done]. unfold read_inode. rewrite Hsame.
      simpl. rewrite Hdec. by eapply zget_zset_eq.
    + rewrite fn_lookup_insert_ne by done. split; [|done]. rewrite <- Hrj.
      unfold read_inode. destruct (decide (inode_sector j = inode_sector i)) as [He|He].
      * rewrite He, Hsame, Hb. simpl. rewrite Hdec. eapply zget_zset_ne; [done|].
        intros Hx. apply Hne. by apply inode_pos_inj.
      * by rewrite Hother.
  - intros b Hbr. rewrite Hother by lia. by apply (v_block _ _ _ _ Hv).
Qed.

(** [write_inode] updates the table at one index. *)
Lemma write_inode_spec d N T B i n :
  view d N T B -> 0 <= i < 64 -> inode_ok n ->
  exists d', write_inode d i n = Some d' /\ view d' N (<[i := n]> T) B.
Proof.
  intros Hv Hi Hn. destruct (inode_sector_range i Hi) as [Hs Hk].
  pose proof (v_size _ _ _ _ Hv). pose proof (v_big _ _ _ _ Hv). unfold MIN_SECTORS in *.
  destruct (read_sector_ok d (inode_sector i)) as (s & Hr & Hok); [lia|].
  destruct (inodes_of_sector_ok s Hok) as (_ & Hl & _).
  unfold write_inode. rewrite Hr. cbn [mbind option_bind].
  rewrite zset_in_range by (rewrite Hl; lia). cbn [mbind option_bind].
  eapply set_inode_spec; try done. apply zset_in_range. rewrite Hl. lia.
Qed.

(** Writing a data sector updates the store at one block. *)
Lemma write_block_spec d N T B b s :
  view d N T B -> 17 <= b < N -> sector_ok s ->
  exists d', ata_write_sector d b s = Some d' /\ view d' N T (<[b := s]> B).
Proof.
  intros Hv Hb Hs. pose proof (v_size _ _ _ _ Hv) as HN.
  destruct (write_sector_ok d b s) as (d' & Hw & Hd' & Hsame & Hother); [lia|done|].
  exists d'. split; [done|]. split.
  - congruence.
  - apply Hv.
  - intros j Hj. destruct (v_inode _ _ _ _ Hv j Hj) as [Hrj Hokj].
    split; [|done]. rewrite <- Hrj. unfold read_inode.
    destruct (inode_sector_range j Hj). by rewrite Hother by lia.
  - intros c Hc. destruct (decide (b = c)) as [<-|Hne].
    + rewrite fn_lookup_insert. done.
    + rewrite fn_lookup_insert_ne, Hother by done. by apply (v_block _ _ _ _ Hv).
Qed.

Lemma view_ext d N T T' B B' :
  view d N T B -> (forall i, 0 <= i < 64 -> T' i = T i) ->
  (forall b, b = 0 \/ 17 <= b < N -> B' b = B b) -> view d N T' B'.
Proof.
  intros [H1 H2 H3 H4] HT HB. split; try done.
  - intros i Hi. rewrite HT by done. by apply H3.
  - intros b Hb. rewrite HB by done. by apply H4.
Qed.

(** ** The inode sectors read as one table *)
Lemma inode_sector_view d N T B sec :
  view d N T B -> 1 <= sec < 17 ->
  exists s, ata_read_sector d sec = Some s /\
    inodes_of_sector s = [T ((sec - 1) * 4); T ((sec - 1) * 4 + 1);
                          T ((sec - 1) * 4 + 2); T ((sec - 1) * 4 + 3)].
Proof.
  intros Hv Hs. pose proof (v_size _ _ _ _ Hv). pose proof (v_big _ _ _ _ Hv).
  unfold MIN_SECTORS in *. destruct (read_sector_ok d sec) as (s & Hr & Hok); [lia|].
  exists s. split; [done|]. destruct (inodes_of_sector_ok s Hok) as (_ & Hl & _).
  assert (Hg : forall k, 0 <= k < 4 -> zget (inodes_of_sector s) k = Some (T ((sec - 1) * 4 + k))).
  { intros k Hk. destruct (v_inode _ _ _ _ Hv ((sec - 1) * 4 + k) ltac:(lia)) as [Hi _].
    destruct (inode_pos sec k Hs Hk) as [E1 E2]. unfold read_inode in Hi.
    rewrite E1, E2, Hr in Hi. exact Hi. }
  apply zget_ext; [by rewrite Hl|]. intros k Hk. rewrite Hl in Hk.
  rewrite Hg by lia. rewrite <- (Z.add_0_r ((sec - 1) * 4)) at 2.
  assert (k = 0 \/ k = 1 \/ k = 2 \/ k = 3) as [-> | [-> | [-> | ->]]] by lia; reflexivity.
Qed.
End View.

Definition inode_used (n : Inode) : bool := has_flag (i_flags n) INODE_USED.
Definition inode_dir (n : Inode) : bool := has_flag (i_flags n) INODE_DIR.

(** Some used inode names block [b]. *)
Definition block_in_use (T : inode_table) (b : Z) : Prop :=
  exists i, 0 <= i < 64 /\ inode_uses b (T i) = true.

Lemma inode_uses_spec b n : inode_uses b n = true <-> inode_used n = true /\ b ∈ i_blocks n.
Proof.
  unfold inode_uses, inode_used. rewrite andb_true_iff, existsb_exists.
  split.
  - intros [Hu (x & Hin & Hx)]. apply Z.eqb_eq in Hx as ->.
    split; [done|]. by apply list_elem_of_In.
  - intros [Hu Hin]. split; [done|]. exists b. rewrite Z.eqb_refl.
    split; [by apply list_elem_of_In|done].
Qed.

Section Search.
Context {D : Type} `{BlockDeviceOk D}.
Implicit Types (d : D) (T : inode_table) (B : block_store).

(** ** allocate_free_inode *)
Lemma first_free_spec l : forall k,
  match first_free l k with
  | Some j => exists n, k <= j /\ l !! Z.to_nat (j - k) = Some n /\ inode_used n = false /\
      forall m, (m < Z.to_nat (j - k))%nat -> inode_used <$> l !! m = Some true
  | None => Forall (fun n => inode_used n = true) l
  end.
Proof.
  induction l as [|n l IH]; intros k; simpl; [constructor|].
  unfold inode_used at 1 2 3. destruct (has_flag (i_flags n) INODE_USED) eqn:E.
  - specialize (IH (k + 1)). destruct (first_free l (k + 1)) as [j|].
    + destruct IH as (n' & Hj & Hl & Hu & Hall).
      exists n'. split; [lia|]. replace (Z.to_nat (j - k)) with (S (Z.to_nat (j - (k + 1)))) by lia.
      simpl. split; [done|]. split; [done|]. intros [|m] Hm; simpl.
      * unfold inode_used. by rewrite E.
      * apply Hall. lia.
    + by constructor.
  - exists n. rewrite Z.sub_diag. simpl. split_and!; try done; intros; lia.
Qed.

Lemma find_free_inode_spec d N T B (Hv : view d N T B) n : forall sec,
  1 <= sec -> sec + Z.of_nat n = 17 ->
  exists r, find_free_inode n d sec = Some r /\
  match r with
  | Some (s, k) => 1 <= s < 17 /\ 0 <= k < 4 /\ inode_used (T ((s - 1) * 4 + k)) = false /\
      forall j, (sec - 1) * 4 <= j < (s - 1) * 4 + k -> inode_used (T j) = true
  | None => forall j, (sec - 1) * 4 <= j < 64 -> inode_used (T j) = true
  end.
Proof.
  induction n as [|n IH]; intros sec Hs Hn; cbn [find_free_inode].
  { exists None. split; [done|]. intros; lia. }
  destruct (inode_sector_view _ _ _ _ sec Hv ltac:(lia)) as (s & -> & Hl).
  cbn [mbind option_bind]. rewrite Hl. pose proof (first_free_spec
    [T ((sec - 1) * 4); T ((sec - 1) * 4 + 1); T ((sec - 1) * 4 + 2); T ((sec - 1) * 4 + 3)] 0) as Hf.
  assert (Hcell : forall (m : nat) x,
    [T ((sec - 1) * 4); T ((sec - 1) * 4 + 1); T ((sec - 1) * 4 + 2); T ((sec - 1) * 4 + 3)]
      !! m = Some x -> (m < 4)%nat /\ x = T ((sec - 1) * 4 + Z.of_nat m)).
  { intros m x Hm. do 4 (destruct m as [|m]; [simpl in Hm; injection Hm as <-;
      split; [lia|rewrite ?Z.add_0_r; done]|]). done. }
  destruct (first_free _ 0) as [k|].
  - destruct Hf as (x & Hk & Hx & Hu & Hall). rewrite Z.sub_0_r in *.
    apply Hcell in Hx as [Hk4 ->]. rewrite Z2Nat.id in Hu by lia.
    exists (Some (sec, k)). split; [done|]. split; [lia|]. split; [lia|]. split; [done|].
    intros j Hj. specialize (Hall (Z.to_nat (j - (sec - 1) * 4)) ltac:(lia)).
    destruct (_ !! Z.to_nat (j - (sec - 1) * 4)) as [y|] eqn:Hy; [|done].
    apply Hcell in Hy as [_ ->]. simpl in Hall. injection Hall as Hall.
    rewrite Z2Nat.id in Hall by lia.
    by replace ((sec - 1) * 4 + (j - (sec - 1) * 4)) with j in Hall by lia.
  - destruct (IH (sec + 1) ltac:(lia) ltac:(lia)) as (r & -> & Hr).
    assert (Hhere : forall j, (sec - 1) * 4 <= j < (sec - 1) * 4 + 4 -> inode_used (T j) = true).
    { intros j Hj. rewrite !Forall_cons in Hf. destruct Hf as (? & ? & ? & ? & _).
      assert (j = (sec - 1) * 4 \/ j = (sec - 1) * 4 + 1 \/ j = (sec - 1) * 4 + 2 \/
              j = (sec - 1) * 4 + 3) as [-> | [-> | [-> | ->]]] by lia; done. }
    exists r. split; [done|]. destruct r as [[s' k']|].
    + destruct Hr as (? & ? & ? & Hall). split_and!; try done; try lia. intros j Hj.
      destruct (decide (j < (sec - 1) * 4 + 4)); [apply Hhere; lia|apply Hall; lia].
    + intros j Hj. destruct (decide (j < (sec - 1) * 4 + 4)); [apply Hhere; lia|apply Hr; lia].
Qed.

Lemma new_inode_ok flags : word32 flags -> inode_ok (mk_inode 0 flags zero_blocks).
Proof.
  intros Hf. split; simpl; try done. unfold zero_blocks. apply Forall_replicate. done.
Qed.

Lemma allocate_free_inode_spec d N T B flags :
  view d N T B -> word32 flags ->
  (allocate_free_inode d flags = Some (-1, d) /\
     forall j, 0 <= j < 64 -> inode_used (T j) = true) \/
  exists i d', allocate_free_inode d flags = Some (i, d') /\ 0 <= i < 64 /\
    inode_used (T i) = false /\ (forall j, 0 <= j < i -> inode_used (T j) = true) /\
    view d' N (<[i := mk_inode 0 flags zero_blocks]> T) B.
Proof.
  intros Hv Hfl. unfold allocate_free_inode, SIMPLEFS_INODE_START_SECTOR, SIMPLEFS_INODES_PER_SECTOR.
  destruct (find_free_inode_spec d N T B Hv 16 1 ltac:(lia) ltac:(lia)) as (r & -> & Hr).
  cbn [mbind option_bind]. destruct r as [[s k]|].
  - right. destruct Hr as (Hs & Hk & Hu & Hall).
    destruct (inode_pos s k Hs Hk) as [E1 E2].
    destruct (inode_sector_view _ _ _ _ s Hv Hs) as (buf & Hb & Hl).
    rewrite Hb. cbn [mbind option_bind].
    assert (Hz : zset (inodes_of_sector buf) k (mk_inode 0 flags zero_blocks) =
      Some (<[Z.to_nat k := mk_inode 0 flags zero_blocks]> (inodes_of_sector buf))).
    { apply zset_in_range. rewrite Hl. simpl. lia. }
    rewrite Hz. cbn [mbind option_bind].
    destruct (set_inode_spec d N T B ((s - 1) * 4 + k) (mk_inode 0 flags zero_blocks) buf
      (<[Z.to_nat k := mk_inode 0 flags zero_blocks]> (inodes_of_sector buf)))
      as (d' & Hw & Hv'); try done; try lia.
    { by apply new_inode_ok. }
    { by rewrite E1. }
    { by rewrite E2. }
    rewrite E1 in Hw. rewrite Hw. cbn [mbind option_bind].
    exists ((s - 1) * 4 + k), d'. split_and!; try done; lia.
  - left. split; [done|]. intros j Hj. apply Hr. lia.
Qed.

(** ** is_block_used and find_free_data_block *)
Lemma block_used_from_spec d N T B b (Hv : view d N T B) n : forall sec,
  1 <= sec -> sec + Z.of_nat n = 17 ->
  exists r, block_used_from n d sec b = Some r /\
    (r = true <-> exists i, (sec - 1) * 4 <= i < 64 /\ inode_uses b (T i) = true).
Proof.
  induction n as [|n IH]; intros sec Hs Hn; cbn [block_used_from].
  { exists false. split; [done|]. split; [done|]. intros (i & Hi & _). lia. }
  destruct (inode_sector_view _ _ _ _ sec Hv ltac:(lia)) as (s & -> & Hl).
  cbn [mbind option_bind]. rewrite Hl. cbn [existsb].
  destruct (IH (sec + 1) ltac:(lia) ltac:(lia)) as (r & -> & Hr).
  match goal with |- context [if ?x then _ else _] => destruct x eqn:E end.
  - exists true. split; [done|]. split; [|done]. intros _.
    rewrite !orb_true_iff in E. destruct E as [E|[E|[E|[E|E]]]]; [..|done];
      (eexists; split; [|exact E]; lia).
  - exists r. split; [done|]. rewrite Hr. rewrite !orb_false_iff in E.
    destruct E as (E0 & E1 & E2 & E3 & _). split; intros (i & Hi & Hu).
    + exists i. split; [lia|done].
    + exists i. split; [|done].
      destruct (decide ((sec + 1 - 1) * 4 <= i)); [lia|].
      assert (i = (sec - 1) * 4 \/ i = (sec - 1) * 4 + 1 \/ i = (sec - 1) * 4 + 2 \/
              i = (sec - 1) * 4 + 3) as [-> | [-> | [-> | ->]]] by lia; congruence.
Qed.
Lemma is_block_used_spec d N T B b :
  view d N T B ->
  exists r, is_block_used d b = Some r /\ (r = true <-> block_in_use T b).
Proof.
  intros Hv. apply (block_used_from_spec d N T B b Hv 16 1); lia.
Qed.

(** The blocks the 64 inodes name: 1920 of them. *)
Definition all_blocks (T : inode_table) : list Z :=
  concat ((fun i => i_blocks (T i)) <$> seqZ 0 64).
Lemma all_blocks_length d N T B : view d N T B -> length (all_blocks T) = 1920%nat.
Proof.
  intros Hv. unfold all_blocks.
  assert (HF : Forall (fun i => length (i_blocks (T i)) = 30%nat) (seqZ 0 64)).
  { apply Forall_forall. intros i Hi%elem_of_seqZ.
    destruct (v_inode _ _ _ _ Hv i) as [_ Hok]; [lia|]. apply Hok. }
  change 1920%nat with (30 * length (seqZ 0 64))%nat.
  induction HF as [|i l Hi _ IH]; [done|].
  rewrite fmap_cons, concat_cons, length_app, IH, Hi. simpl length. lia.
Qed.
Lemma in_use_all_blocks T b : block_in_use T b -> b ∈ all_blocks T.
Proof.
  intros (i & Hi & [_ Hb]%inode_uses_spec). unfold all_blocks.
  apply list_elem_of_In, in_concat. exists (i_blocks (T i)).
  split; [|by apply list_elem_of_In]. apply list_elem_of_In, list_elem_of_fmap.
  exists i. split; [done|]. apply elem_of_seqZ. lia.
Qed.

(** Pigeonhole: the blocks from 17 on cannot all be in use for 1921 of them. *)
Lemma in_use_bound d N T B c :
  view d N T B -> 17 <= c -> (forall b, 17 <= b < c -> block_in_use T b) -> c <= 17 + 1920.
Proof.
  intros Hv Hc Hall.
  assert (Hle : (length (seqZ 17 (c - 17)) <= length (all_blocks T))%nat).
  { apply NoDup_incl_length.
    - apply NoDup_ListNoDup, NoDup_seqZ.
    - intros b Hb. apply list_elem_of_In. apply in_use_all_blocks, Hall.
      apply list_elem_of_In, elem_of_seqZ in Hb. lia. }
  rewrite (all_blocks_length d N T B Hv), length_seqZ in Hle. lia.
Qed.

Lemma find_free_block_spec d N T B (Hv : view d N T B) fuel : forall c,
  17 <= c -> (forall b, 17 <= b < c -> block_in_use T b) ->
  17 + 1920 <= c + Z.of_nat fuel ->
  exists r, find_free_block fuel d c = Some r /\ c <= r <= 17 + 1920 /\
    ~ block_in_use T r /\ forall b, 17 <= b < r -> block_in_use T b.
Proof.
  induction fuel as [|n IH]; intros c Hc Hall Hf; cbn [find_free_block];
    destruct (is_block_used_spec d N T B c Hv) as (u & -> & Hu); cbn [mbind option_bind];
    pose proof (in_use_bound d N T B c Hv Hc Hall) as Hb; destruct u.
  2,4: exists c; split; [done|]; split; [lia|]; split; [|done];
       intros Hx; apply Hu in Hx; done.
  - exfalso. assert (c + 1 <= 17 + 1920); [|lia].
    apply (in_use_bound d N T B (c + 1) Hv); [lia|]. intros b Hb'.
    destruct (decide (b = c)) as [->|]; [by apply Hu|apply Hall; lia].
  - rewrite u32_small by lia.
    destruct (IH (c + 1)) as (r & -> & Hr & Hnu & Hr'); [lia| |lia|].
    + intros b Hb'. destruct (decide (b = c)) as [->|]; [by apply Hu|apply Hall; lia].
    + exists r. split; [done|]. split; [lia|]. done.
Qed.

Lemma find_free_data_block_spec (f : fs D) N T B :
  view (dev f) N T B -> data_block_start (sb f) = 17 ->
  exists r, find_free_data_block f = Some r /\ 17 <= r <= 1937 /\
    ~ block_in_use T r /\ forall b, 17 <= b < r -> block_in_use T b.
Proof.
  intros Hv Hs. unfold find_free_data_block. rewrite Hs.
  pose proof (v_big _ _ _ _ Hv). unfold MIN_SECTORS in *.
  destruct (find_free_block_spec (dev f) N T B Hv 1920 17) as (r & -> & Hr & Hnu & Hall);
    [lia|intros; lia|lia|].
  exists r. split_and!; try done; lia.
Qed.
End Search.
