(* ===== verification/FsDir.v ===== *)
(** * Directory blocks of SimpleFS

    A directory is one block of 16 entries.  [dir_find] is the abstract lookup
    by name; the lemmas say that [lookup_entries] computes it and what
    [fill_entry] does to it. *)
From S2P Require Import Prelude CString BlockDev DiskLayout SimpleFs.

(** The name of an entry in use; an entry is free when its first byte is 0. *)
Definition entry_name (e : DirEntry) : option (list Z) :=
  match cstring (filename e) with Some (c :: s) => Some (c :: s) | _ => None end.

(** The name is terminated inside its 28 bytes. *)
Definition entry_ok (e : DirEntry) : Prop :=
  dirent_ok e /\ is_Some (cstring (filename e)).

Fixpoint dir_find (es : list DirEntry) (nm : list Z) : option Z :=
  match es with
  | [] => None
  | e :: rest =>
      if decide (entry_name e = Some nm) then Some (inode_idx e) else dir_find rest nm
  end.

Lemma entry_name_first e : entry_ok e ->
  exists c, zget (filename e) 0 = Some c /\ (c = 0 <-> entry_name e = None).
Proof.
  intros [_ [s Hs]]. unfold entry_name. rewrite Hs.
  destruct (filename e) as [|c rest]; [done|]. exists c. split; [done|].
  simpl in Hs. destruct (Z.eqb_spec c 0) as [->|Hc].
  - by injection Hs as <-.
  - apply fmap_Some in Hs as (s' & _ & ->). done.
Qed.

Lemma lookup_entries_spec es name nm :
  Forall entry_ok es -> bytes_ok name -> cstring name = Some nm ->
  lookup_entries es name =
  Some (match dir_find es nm with Some i => i32 i | None => -1 end).
Proof.
  intros HF Hb Hn. induction HF as [|e es He HF IH]; [done|]. cbn [lookup_entries dir_find].
  destruct (entry_name_first e He) as (c & -> & Hc). cbn [mbind option_bind].
  destruct (Z.eqb_spec c 0) as [Hc0|Hc0].
  { apply Hc in Hc0. rewrite Hc0. rewrite decide_False by done. apply IH. }
  destruct He as [Hd [s Hs]].
  destruct (strcmp_zero (filename e) name s nm) as (r & -> & Hr); try done; [apply Hd|].
  cbn [mbind option_bind]. assert (Hname : entry_name e = Some s).
  { destruct (entry_name e) eqn:E.
    - unfold entry_name in E. rewrite Hs in E. by destruct s; simplify_eq.
    - exfalso. by apply Hc0, Hc. }
  rewrite Hname. destruct (Z.eqb_spec r 0) as [Hr0|Hr0].
  - rewrite decide_True; [done|]. f_equal. by apply Hr.
  - rewrite decide_False; [apply IH|]. intros [= Heq]. by apply Hr0, Hr.
Qed.

(** The entry the code writes into a free slot. *)
Lemma fill_entry_spec es idx name nm :
  Forall entry_ok es -> bytes_ok name -> cstring name = Some nm -> nm <> [] ->
  Z.of_nat (length nm) < 28 -> word32 idx ->
  (fill_entry es idx name = Some None /\ Forall (fun e => is_Some (entry_name e)) es) \/
  exists l1 e l2 e', es = l1 ++ e :: l2 /\ Forall (fun e => is_Some (entry_name e)) l1 /\
    entry_name e = None /\ fill_entry es idx name = Some (Some (l1 ++ e' :: l2)) /\
    inode_idx e' = idx /\ entry_name e' = Some nm /\ entry_ok e'.
Proof.
  intros HF Hb Hn Hne Hlen Hidx. induction HF as [|e es He HF IH]; [by left|].
  cbn [fill_entry]. destruct (entry_name_first e He) as (c & -> & Hc). cbn [mbind option_bind].
  destruct (Z.eqb_spec c 0) as [Hc0|Hc0].
  - right. apply Hc in Hc0. destruct He as [[_ Hfb Hfl] _].
    rewrite (strlen_spec name nm Hn) by lia. cbn [mbind option_bind].
    rewrite u32_small by lia.
    destruct (cstring_Some _ _ Hn) as [Hnz [rest ->]].
    change 0 with (Z.of_nat 0). replace (Z.of_nat (length nm) + 1)
      with (Z.of_nat (length (nm ++ [0%Z]))) by (rewrite length_app; simpl; lia).
    rewrite memcpy_spec by (rewrite !length_app; simpl; lia).
    cbn [mbind option_bind].
    assert (Hsl : slice (nm ++ 0 :: rest) 0 (length (nm ++ [0%Z])) = nm ++ [0]).
    { unfold slice. rewrite drop_0. change (0 :: rest) with ([0] ++ rest).
      rewrite app_assoc. apply take_app_length. }
    change (Z.of_nat 0) with 0. rewrite Hsl.
    exists [], e, es, (mk_dirent idx (splice (filename e) 0 (nm ++ [0]))).
    assert (Hcs : cstring (splice (filename e) 0 (nm ++ [0])) = Some nm).
    { unfold splice. simpl. rewrite <- app_assoc. by apply cstring_cbuf. }
    apply bytes_ok_app in Hb as [Hb _].
    split_and!; try done.
    + unfold entry_name. simpl. rewrite Hcs. by destruct nm.
    + split; [|by eexists]. split; simpl; [done| |].
      * apply bytes_ok_splice; [done|]. apply bytes_ok_app. split; [done|].
        by repeat constructor.
      * rewrite splice_length; rewrite ?length_app; simpl; lia.
  - assert (Hs : is_Some (entry_name e)).
    { destruct (entry_name e); [done|]. exfalso. by apply Hc0, Hc. }
    destruct IH as [[-> Hall]|(l1 & x & l2 & e' & -> & Hall & Hx & -> & H1 & H2)].
    + left. cbn. by rewrite Forall_cons.
    + right. exists (e :: l1), x, l2, e'. cbn. rewrite Forall_cons. split_and!; try done; apply H2.
Qed.

(** Filling a free slot with an absent name adds exactly that name. *)
Lemma dir_find_fill l1 e l2 e' nm : entry_name e = None -> entry_name e' = Some nm ->
  dir_find (l1 ++ e :: l2) nm = None ->
  forall nm', dir_find (l1 ++ e' :: l2) nm' =
    if decide (nm' = nm) then Some (inode_idx e') else dir_find (l1 ++ e :: l2) nm'.
Proof.
  intros He He' Hn nm'. induction l1 as [|x l1 IH]; simpl in *.
  - rewrite (decide_False (P := entry_name e = Some nm')) by congruence.
    destruct (decide (nm' = nm)) as [->|Hne].
    + by rewrite decide_True.
    + rewrite decide_False; [done|]. congruence.
  - destruct (decide (entry_name x = Some nm)) as [|Hx]; [done|].
    destruct (decide (nm' = nm)) as [->|Hne].
    + rewrite decide_False by done. by apply IH.
    + by rewrite IH.
Qed.

Lemma dir_find_elem es nm i : dir_find es nm = Some i ->
  exists e, e ∈ es /\ entry_name e = Some nm /\ inode_idx e = i.
Proof.
  induction es as [|e es IH]; simpl; [done|]. case_decide as Hd.
  - intros [= <-]. exists e. split; [by left|done].
  - intros (x & Hx & ?)%IH. exists x. split; [by right|done].
Qed.
Lemma dir_find_nil es : dir_find es [] = None.
Proof.
  induction es as [|e es IH]; simpl; [done|]. rewrite decide_False; [done|].
  unfold entry_name. by destruct (cstring (filename e)) as [[|]|].
Qed.

(** ** No two entries in use share a name *)
Definition names_distinct (es : list DirEntry) : Prop := NoDup (omap entry_name es).

Lemma dir_find_none es nm : dir_find es nm = None <-> nm ∉ omap entry_name es.
Proof.
  induction es as [|e es IH]; simpl; [split; [intros _; apply not_elem_of_nil|done]|].
  destruct (entry_name e) as [n|]; simpl.
  - rewrite not_elem_of_cons, <- IH. case_decide; naive_solver.
  - exact IH.
Qed.
Lemma names_distinct_find es e nm : names_distinct es -> e ∈ es -> entry_name e = Some nm ->
  dir_find es nm = Some (inode_idx e).
Proof.
  unfold names_distinct. induction es as [|x es IH]; simpl; intros Hd Hin Hnm; [by inversion Hin|].
  apply elem_of_cons in Hin as [<-|Hin]; [by rewrite decide_True|].
  rewrite decide_False.
  - apply IH; [|done..]. destruct (entry_name x); [by apply NoDup_cons in Hd as [_ ?]|done].
  - intros Hx. rewrite Hx in Hd. apply NoDup_cons in Hd as [Hd _]. apply Hd.
    apply list_elem_of_omap. by exists e.
Qed.
Lemma names_distinct_fill l1 e l2 e' nm : entry_name e = None -> entry_name e' = Some nm ->
  dir_find (l1 ++ e :: l2) nm = None -> names_distinct (l1 ++ e :: l2) ->
  names_distinct (l1 ++ e' :: l2).
Proof.
  unfold names_distinct. rewrite dir_find_none, !omap_app. simpl. intros -> -> Hn Hd.
  rewrite <- Permutation_middle. by apply NoDup_cons.
Qed.
