(* ===== verification/FsInv.v ===== *)
(** * The invariant of SimpleFS and its abstract reading

    [fs_inv] is what every reachable disk satisfies: no block is shared, every
    file owns the blocks its size needs, every directory names live inodes, each name
    once.
    [fs_find] and [fs_file] are the abstract file system: names to inodes, and
    inodes to contents. *)
From stdpp Require Import functions.
From S2P Require Import Prelude CString BlockDev DiskLayout SimpleFs FsView FsDir.

(** The last block number the allocator can answer: 1920 blocks can be named. *)
Definition LAST_BLOCK : Z := 17 + 64 * 30.
Definition MAX_FILE : Z := 30 * 512.

Definition dir_block_ok (T : inode_table) (s : list Z) : Prop :=
  Forall entry_ok (dirents_of_sector s) /\
  (forall nm j, dir_find (dirents_of_sector s) nm = Some j ->
    0 <= j < 64 /\ inode_used (T j) = true) /\
  names_distinct (dirents_of_sector s).

Record fs_inv (T : inode_table) (B : block_store) : Prop := {
  inv_range : forall i b, 0 <= i < 64 -> inode_used (T i) = true ->
    b ∈ i_blocks (T i) -> b = 0 \/ 17 <= b <= LAST_BLOCK;
  inv_distinct : forall i j m n b, 0 <= i < 64 -> 0 <= j < 64 ->
    inode_used (T i) = true -> inode_used (T j) = true ->
    i_blocks (T i) !! m = Some b -> i_blocks (T j) !! n = Some b -> b <> 0 -> i = j /\ m = n;
  inv_file : forall i, 0 <= i < 64 -> inode_used (T i) = true ->
    0 <= i_size (T i) <= MAX_FILE /\
    forall k, Z.of_nat k < blocks_needed (i_size (T i)) ->
      exists b, i_blocks (T i) !! k = Some b /\ b <> 0;
  inv_dir : forall i, 0 <= i < 64 -> inode_dir (T i) = true -> inode_used (T i) = true /\
    exists b, i_blocks (T i) !! 0%nat = Some b /\ b <> 0 /\ dir_block_ok T (B b);
  inv_root : inode_dir (T 0) = true;
}.

(** ** The abstract file system *)
Definition dir_block (T : inode_table) (p : Z) : Z := default 0 (i_blocks (T p) !! 0%nat).
Definition fs_find (T : inode_table) (B : block_store) (p : Z) (nm : list Z) : option Z :=
  if inode_dir (T p) then dir_find (dirents_of_sector (B (dir_block T p))) nm else None.

Definition file_bytes (B : block_store) (n : Inode) : list Z :=
  take (Z.to_nat (i_size n))
    (concat (B <$> take (Z.to_nat (blocks_needed (i_size n))) (i_blocks n))).
Definition fs_file (T : inode_table) (B : block_store) (i : Z) : option (list Z) :=
  if inode_used (T i) && negb (inode_dir (T i)) then Some (file_bytes B (T i)) else None.

Lemma blocks_needed_spec s : 0 <= s <= MAX_FILE ->
  0 <= blocks_needed s <= 30 /\ 512 * (blocks_needed s - 1) < s <= 512 * blocks_needed s.
Proof.
  unfold blocks_needed, MAX_FILE. intros. rewrite u32_small by lia.
  Z.to_euclidean_division_equations. lia.
Qed.

Section Inv.
Context (T : inode_table) (B : block_store) (Hinv : fs_inv T B).

Lemma dir_block_lookup p : 0 <= p < 64 -> inode_dir (T p) = true ->
  inode_used (T p) = true /\ i_blocks (T p) !! 0%nat = Some (dir_block T p) /\
  dir_block T p <> 0 /\ 17 <= dir_block T p <= LAST_BLOCK /\ dir_block_ok T (B (dir_block T p)).
Proof.
  intros Hp Hd. destruct (inv_dir _ _ Hinv p Hp Hd) as (Hu & b & Hb & Hb0 & Hok).
  unfold dir_block. rewrite Hb. simpl. split_and!; try done; try apply Hok;
    destruct (inv_range _ _ Hinv p b Hp Hu); try lia; by eapply list_elem_of_lookup_2.
Qed.

Lemma fs_find_range p nm j : 0 <= p < 64 -> fs_find T B p nm = Some j ->
  inode_dir (T p) = true /\ 0 <= j < 64 /\ inode_used (T j) = true.
Proof.
  unfold fs_find. intros Hp. destruct (inode_dir (T p)) eqn:Hd; [|done]. intros Hf.
  destruct (dir_block_lookup p Hp Hd) as (_ & _ & _ & _ & _ & Hr).
  apply Hr in Hf. done.
Qed.

Lemma file_block j k : 0 <= j < 64 -> inode_used (T j) = true ->
  Z.of_nat k < blocks_needed (i_size (T j)) ->
  exists b, i_blocks (T j) !! k = Some b /\ b <> 0 /\ 17 <= b <= LAST_BLOCK.
Proof.
  intros Hj Hu Hk. destruct (inv_file _ _ Hinv j Hj Hu) as [_ Hb].
  destruct (Hb k Hk) as (b & Hb1 & Hb0). exists b. split_and!; try done;
  destruct (inv_range _ _ Hinv j b Hj Hu); try lia; by eapply list_elem_of_lookup_2.
Qed.

(** The contents of a file depend on its own blocks only. *)
Lemma file_bytes_frame B' n j : 0 <= j < 64 -> inode_used (T j) = true -> n = T j ->
  (forall b k, i_blocks (T j) !! k = Some b -> b <> 0 -> B' b = B b) ->
  file_bytes B' n = file_bytes B (T j).
Proof.
  intros Hj Hu -> HB. unfold file_bytes. do 2 f_equal. apply list_eq. intros k.
  rewrite !list_lookup_fmap. destruct (_ !! k) as [b|] eqn:Hk; [|done]. simpl.
  apply lookup_take_Some in Hk as [Hk Hlt]. f_equal.
  destruct (inv_file _ _ Hinv j Hj Hu) as [Hs Hb].
  destruct (blocks_needed_spec _ Hs) as [Hn _].
  destruct (Hb k ltac:(lia)) as (b' & Hb' & Hne). rewrite Hk in Hb'. injection Hb' as <-.
  by eapply HB.
Qed.

(** ** Updates that keep the invariant *)
Lemma inv_set_block b s :
  (forall i, 0 <= i < 64 -> inode_dir (T i) = true -> i_blocks (T i) !! 0%nat = Some b ->
     dir_block_ok T s) ->
  fs_inv T (<[b := s]> B).
Proof.
  intros Hs. destruct Hinv as [H1 H2 H3 H4 H5]. split; try done.
  intros i Hi Hd. destruct (H4 i Hi Hd) as (Hu & c & Hc & Hc0 & Hok).
  split; [done|]. exists c. split; [done|]. split; [done|].
  destruct (decide (b = c)) as [<-|Hne].
  - rewrite fn_lookup_insert. by eapply Hs.
  - by rewrite fn_lookup_insert_ne.
Qed.

(** The inode [n] can take place [i] of the table. *)
Record inode_fits (i : Z) (n : Inode) : Prop := {
  fit_range : forall b, b ∈ i_blocks n -> b = 0 \/ 17 <= b <= LAST_BLOCK;
  fit_distinct : forall m k b, i_blocks n !! m = Some b -> i_blocks n !! k = Some b ->
    b <> 0 -> m = k;
  fit_other : forall j b, 0 <= j < 64 -> j <> i -> inode_used (T j) = true ->
    b ∈ i_blocks (T j) -> b ∈ i_blocks n -> b = 0;
  fit_file : 0 <= i_size n <= MAX_FILE /\
    forall k, Z.of_nat k < blocks_needed (i_size n) -> exists b, i_blocks n !! k = Some b /\ b <> 0;
  fit_used : inode_used n = true;
  fit_dir : inode_dir n = true -> exists b, i_blocks n !! 0%nat = Some b /\ b <> 0 /\
    Forall entry_ok (dirents_of_sector (B b)) /\
    (forall nm j, dir_find (dirents_of_sector (B b)) nm = Some j ->
      0 <= j < 64 /\ (j = i \/ inode_used (T j) = true)) /\
    names_distinct (dirents_of_sector (B b));
  fit_root : i = 0 -> inode_dir n = true;
}.

Lemma inv_set_inode i n : 0 <= i < 64 -> inode_fits i n -> fs_inv (<[i := n]> T) B.
Proof.
  intros Hi [F1 F2 F3 F4 F5 F6 F7].
  assert (HT : forall j, (j = i /\ <[i := n]> T j = n) \/ (j <> i /\ <[i := n]> T j = T j)).
  { intros j. destruct (decide (i = j)) as [<-|]; [left|right].
    - by rewrite fn_lookup_insert.
    - by rewrite fn_lookup_insert_ne. }
  assert (Huse : forall j, inode_used (T j) = true -> inode_used (<[i:=n]> T j) = true).
  { intros j Hj. destruct (HT j) as [[-> ->]|[_ ->]]; done. }
  split.
  - intros j b Hj. destruct (HT j) as [[-> ->]|[_ ->]]; [by auto|]. by apply (inv_range _ _ Hinv).
  - intros j k m l b Hj Hk.
    destruct (HT j) as [[-> ->]|[Hji ->]], (HT k) as [[-> ->]|[Hki ->]]; intros U1 U2 L1 L2 Hb.
    + split; [done|]. by apply (F2 m l b).
    + exfalso. apply Hb. by eapply (F3 k); eauto using list_elem_of_lookup_2.
    + exfalso. apply Hb. by eapply (F3 j); eauto using list_elem_of_lookup_2.
    + by apply (inv_distinct _ _ Hinv j k m l b).
  - intros j Hj. destruct (HT j) as [[-> ->]|[_ ->]]; [done|]. by apply (inv_file _ _ Hinv).
  - intros j Hj. destruct (HT j) as [[-> ->]|[_ ->]]; intros Hd.
    + split; [done|]. destruct (F6 Hd) as (b & Hb & Hb0 & He & Hr & Hnd).
      exists b. split; [done|]. split; [done|]. split; [done|].
      split; [|done]. intros nm k Hk. destruct (Hr _ _ Hk) as [Hk64 Hku]. split; [done|].
      destruct Hku as [->|]; [by rewrite fn_lookup_insert|by apply Huse].
    + destruct (inv_dir _ _ Hinv j Hj Hd) as (Hu & b & Hb & Hb0 & He & Hr & Hnd).
      split; [done|]. exists b. split; [done|]. split; [done|]. split; [done|].
      split; [|done]. intros nm k Hk. destruct (Hr _ _ Hk) as [Hk64 Hku]. split; [done|]. by apply Huse.
  - destruct (HT 0) as [[<- ->]|[_ ->]]; [by apply F7|apply (inv_root _ _ Hinv)].
Qed.
End Inv.

(** The invariant looks at the 64 inodes only. *)
Lemma inv_ext T T' B : fs_inv T B -> (forall i, 0 <= i < 64 -> T' i = T i) -> fs_inv T' B.
Proof.
  intros [H1 H2 H3 H4 H5] HT. split.
  - intros i b Hi. rewrite HT by done. by apply H1.
  - intros i j m n b Hi Hj. rewrite (HT i), (HT j) by done. by apply H2.
  - intros i Hi. rewrite HT by done. by apply H3.
  - intros i Hi. rewrite HT by done. intros Hd.
    destruct (H4 i Hi Hd) as (Hu & b & Hb & Hb0 & He & Hr & Hnd). split; [done|].
    exists b. split; [done|]. split; [done|]. split; [done|].
    split; [|done]. intros nm k Hk. destruct (Hr _ _ Hk) as [Hk64 Hku]. split; [done|]. by rewrite HT.
  - by rewrite HT.
Qed.
