(* ===== verification/FsOps.v ===== *)
(** * SimpleFS: names — lookup, create, mkdir and mounting

    [fs_rel f N T B] relates the state of fs/simplefs.cpp to the abstract
    inode table and block store; each operation is shown to implement its
    abstract effect on [fs_find] and [fs_file]. *)
From stdpp Require Import functions.
From S2P Require Import Prelude CString BlockDev DiskLayout SimpleFs FsView FsDir FsInv.

Section Rel.
Context {D : Type} `{BlockDeviceOk D}.
Implicit Types (d : D) (f : fs D) (T : inode_table) (B : block_store).

Record fs_rel f (N : Z) T B : Prop := {
  rel_view : view (dev f) N T B;
  rel_start : data_block_start (sb f) = 17;
  rel_super : decode_sb (B 0) = sb f /\ magic (sb f) = SIMPLEFS_MAGIC /\ total_sectors (sb f) <> 0;
  rel_inv : fs_inv T B;
}.

(** What the callers pass as a name: a C string. *)
Record c_name (name nm : list Z) : Prop := {
  cn_bytes : bytes_ok name;
  cn_string : cstring name = Some nm;
  cn_length : Z.of_nat (length nm) < 4294967296;
}.

Lemma simplefs_lookup_spec d N T B p name nm :
  view d N T B -> fs_inv T B -> 0 <= p < 64 -> c_name name nm ->
  simplefs_lookup d p name = Some (default (-1) (fs_find T B p nm)).
Proof.
  intros Hv Hi Hp [Hb Hn _]. unfold simplefs_lookup.
  destruct (v_inode _ _ _ _ Hv p Hp) as [-> _]. cbn [mbind option_bind].
  pose proof (fs_find_range T B Hi p nm) as Hr. unfold fs_find, inode_dir in *.
  destruct (has_flag (i_flags (T p)) INODE_DIR) eqn:Hd; [|done]. simpl negb. cbn iota.
  destruct (dir_block_lookup T B Hi p Hp Hd) as (_ & Hb0 & _ & Hbr & He & _).
  pose proof (v_big _ _ _ _ Hv). unfold MIN_SECTORS, LAST_BLOCK in *.
  change 0 with (Z.of_nat 0) at 1. rewrite zget_nat, Hb0. cbn [mbind option_bind].
  destruct (v_block _ _ _ _ Hv (dir_block T p)) as [-> _]; [lia|]. cbn [mbind option_bind].
  rewrite (lookup_entries_spec _ name nm He Hb Hn).
  destruct (dir_find _ nm) as [j|]; [|done].
  destruct (Hr j Hp eq_refl) as (_ & Hj & _). by rewrite i32_small by lia.
Qed.

(** ** add_dir_entry *)
Lemma add_dir_entry_spec d N T B b i name nm :
  view d N T B -> 17 <= b < N -> Forall entry_ok (dirents_of_sector (B b)) ->
  dir_find (dirents_of_sector (B b)) nm = None -> names_distinct (dirents_of_sector (B b)) ->
  c_name name nm -> 1 <= Z.of_nat (length nm) < 28 -> word32 i ->
  (add_dir_entry d b i name = Some (-1, d) /\
   Forall (fun e => is_Some (entry_name e)) (dirents_of_sector (B b))) \/
  exists d' s, add_dir_entry d b i name = Some (0, d') /\ view d' N T (<[b := s]> B) /\
    ~ Forall (fun e => is_Some (entry_name e)) (dirents_of_sector (B b)) /\
    Forall entry_ok (dirents_of_sector s) /\
    (forall nm', dir_find (dirents_of_sector s) nm' =
      if decide (nm' = nm) then Some i else dir_find (dirents_of_sector (B b)) nm') /\
    names_distinct (dirents_of_sector s).
Proof.
  intros Hv Hb He Hf Hd [Hnb Hn _] Hlen Hw. unfold add_dir_entry.
  destruct (v_block _ _ _ _ Hv b) as [-> Hs]; [lia|]. cbn [mbind option_bind].
  destruct (dirents_of_sector_ok _ Hs) as (_ & Hl & _).
  destruct (fill_entry_spec _ i name nm He Hnb Hn) as
    [[-> Hall]|(l1 & e & l2 & e' & Heq & Hall & Hx & -> & Hi & Hnm & Hok)];
    [intros ->; simpl in *; lia|lia|done| |]; cbn [mbind option_bind]; [by left|right].
  assert (He' : Forall entry_ok (l1 ++ e' :: l2)).
  { rewrite Heq in He. apply Forall_app in He as [? [_ ?]%Forall_cons].
    apply Forall_app. split; [done|]. by apply Forall_cons. }
  destruct (sector_of_dirents_ok (l1 ++ e' :: l2)) as [Hso Hdec].
  { eapply Forall_impl; [exact He'|]. by intros x [? _]. }
  { rewrite Heq, !length_app in Hl. rewrite length_app. exact Hl. }
  destruct (write_block_spec d N T B b _ Hv Hb Hso) as (d' & -> & Hv').
  cbn [mbind option_bind]. eexists d', _. split; [done|]. split; [exact Hv'|].
  rewrite Hdec. split; [|split; [done|]].
  { rewrite Heq, Forall_app, Forall_cons, Hx. intros (_ & [? ?] & _). done. }
  rewrite Heq in *. split; [|by eapply names_distinct_fill].
  intros nm'. rewrite (dir_find_fill l1 e l2 e' nm) by done. by rewrite Hi.
Qed.

(** The directory [p] is full. *)
Definition dir_full T B p : Prop :=
  Forall (fun e => is_Some (entry_name e)) (dirents_of_sector (B (dir_block T p))).

(** Linking the live inode [i] under a fresh name of the directory [p]. *)
Lemma link_spec d N T B p i name nm :
  view d N T B -> fs_inv T B -> 0 <= p < 64 -> inode_dir (T p) = true ->
  0 <= i < 64 -> inode_used (T i) = true -> fs_find T B p nm = None ->
  c_name name nm -> 1 <= Z.of_nat (length nm) < 28 ->
  (add_dir_entry d (dir_block T p) i name = Some (-1, d) /\ dir_full T B p) \/
  exists d' B', add_dir_entry d (dir_block T p) i name = Some (0, d') /\
    view d' N T B' /\ fs_inv T B' /\ B' 0 = B 0 /\ ~ dir_full T B p /\
    (forall q nm', 0 <= q < 64 -> fs_find T B' q nm' =
       if decide (q = p /\ nm' = nm) then Some i else fs_find T B q nm') /\
    forall j, 0 <= j < 64 -> fs_file T B' j = fs_file T B j.
Proof.
  intros Hv Hinv Hp Hd Hi Hu Hf Hn Hlen.
  destruct (dir_block_lookup T B Hinv p Hp Hd) as (Hup & Hb0 & Hnz & Hbr & He & Hr & Hnd).
  pose proof (v_big _ _ _ _ Hv). unfold MIN_SECTORS, LAST_BLOCK in *.
  unfold fs_find in Hf. rewrite Hd in Hf.
  destruct (add_dir_entry_spec d N T B (dir_block T p) i name nm Hv) as
    [[-> Hfull]|(d' & s & -> & Hv' & Hnfull & He' & Hfind & Hnd')]; try done; try (unfold word32; lia);
    [by left|right].
  exists d', (<[dir_block T p := s]> B). split; [done|]. split; [done|]. split.
  { apply inv_set_block; [done|]. intros q Hq Hdq Hqb. split; [done|].
    split; [|done]. intros nm' j. rewrite Hfind. case_decide; [|apply Hr]. intros [= <-]. done. }
  split; [by rewrite fn_lookup_insert_ne|]. split; [done|]. split.
  - intros q nm' Hq. unfold fs_find. destruct (inode_dir (T q)) eqn:Hdq.
    2:{ rewrite decide_False; [done|]. intros [-> _]. congruence. }
    destruct (dir_block_lookup T B Hinv q Hq Hdq) as (Huq & Hbq & Hnq & _).
    destruct (decide (q = p)) as [->|Hqp].
    + rewrite fn_lookup_insert, Hfind. destruct (decide (nm' = nm)) as [->|];
        [by rewrite decide_True|rewrite decide_False; naive_solver].
    + rewrite decide_False by naive_solver. rewrite fn_lookup_insert_ne; [done|].
      intros Heq. apply Hqp. rewrite <- Heq in Hbq.
      by apply (inv_distinct _ _ Hinv q p 0%nat 0%nat (dir_block T p)).
  - intros j Hj. unfold fs_file. destruct (inode_used (T j)) eqn:Huj; [|done].
    destruct (inode_dir (T j)) eqn:Hdj; [done|]. simpl. f_equal.
    apply (file_bytes_frame T B Hinv _ _ j); try done.
    intros b k Hk Hb. rewrite fn_lookup_insert_ne; [done|]. intros <-.
    destruct (inv_distinct _ _ Hinv j p k 0%nat (dir_block T p)) as [-> _]; try done.
    congruence.
Qed.
(** ** Taking a free inode *)
Definition fresh T (i : Z) : Prop :=
  0 <= i < 64 /\ inode_used (T i) = false /\ forall j, 0 <= j < i -> inode_used (T j) = true.
Definition no_inode T : Prop := forall j, 0 <= j < 64 -> inode_used (T j) = true.

Lemma fresh_not_dir T B i : fs_inv T B -> fresh T i -> inode_dir (T i) = false /\ i <> 0.
Proof.
  intros Hinv (Hi & Hu & _).
  assert (Hd : inode_dir (T i) = false).
  { destruct (inode_dir (T i)) eqn:Hd; [|done].
    destruct (inv_dir _ _ Hinv i Hi Hd). congruence. }
  split; [done|]. intros ->. rewrite (inv_root _ _ Hinv) in Hd. done.
Qed.

Lemma find_set_inode T B i n q nm : fs_inv T B -> fresh T i -> inode_dir n = false ->
  fs_find (<[i := n]> T) B q nm = fs_find T B q nm.
Proof.
  intros Hinv Hi Hn. destruct (fresh_not_dir T B i Hinv Hi) as [Hd _]. unfold fs_find, dir_block.
  destruct (decide (i = q)) as [<-|Hne].
  - by rewrite fn_lookup_insert, Hn, Hd.
  - by rewrite fn_lookup_insert_ne.
Qed.
Lemma file_set_inode T B i n j :
  fs_file (<[i := n]> T) B j =
  if decide (j = i) then
    (if inode_used n && negb (inode_dir n) then Some (file_bytes B n) else None)
  else fs_file T B j.
Proof.
  unfold fs_file. case_decide as Hd.
  - subst j. by rewrite fn_lookup_insert.
  - by rewrite fn_lookup_insert_ne.
Qed.

Lemma zero_blocks_lookup k b : zero_blocks !! k = Some b -> b = 0.
Proof. unfold zero_blocks. intros Hk. by apply lookup_replicate in Hk as [-> _]. Qed.

Lemma empty_inode_fits T B i : i <> 0 -> inode_fits T B i (mk_inode 0 INODE_USED zero_blocks).
Proof.
  intros Hi. split; simpl; try done.
  - intros b Hb. apply list_elem_of_lookup in Hb as [k Hk]. left. by eapply zero_blocks_lookup.
  - intros m k b Hm _ Hb. by apply zero_blocks_lookup in Hm.
  - intros j b _ _ _ _ Hb. apply list_elem_of_lookup in Hb as [k Hk]. by eapply zero_blocks_lookup.
  - split; [unfold MAX_FILE; lia|]. intros k Hk. exfalso. vm_compute in Hk. by destruct k.
Qed.

(** ** create *)
Definition name_fits (nm : list Z) : Prop := 1 <= Z.of_nat (length nm) < SIMPLEFS_MAX_FILENAME.
(** The conditions under which [create] and [mkdir] take an inode. *)
Definition can_create T B (p : Z) (nm : list Z) : Prop :=
  name_fits nm /\ inode_dir (T p) = true /\ fs_find T B p nm = None.

(** What [create] may do, for the caller: nothing at all, with a reason; a new
    empty file under the name; or, when the directory is full, an empty file
    that no name reaches. *)
Inductive create_outcome T B (p : Z) (nm : list Z) : Z -> inode_table -> block_store -> Prop :=
| create_refused : ~ can_create T B p nm \/ no_inode T -> create_outcome T B p nm (-1) T B
| create_done i T' B' :
    can_create T B p nm -> fresh T i -> ~ dir_full T B p ->
    (forall q nm', 0 <= q < 64 -> fs_find T' B' q nm' =
       if decide (q = p /\ nm' = nm) then Some i else fs_find T B q nm') ->
    (forall j, 0 <= j < 64 -> fs_file T' B' j = if decide (j = i) then Some [] else fs_file T B j) ->
    create_outcome T B p nm 0 T' B'
| create_leaked i T' B' :
    can_create T B p nm -> fresh T i -> dir_full T B p ->
    (forall q nm', 0 <= q < 64 -> fs_find T' B' q nm' = fs_find T B q nm') ->
    (forall j, 0 <= j < 64 -> fs_file T' B' j = if decide (j = i) then Some [] else fs_file T B j) ->
    create_outcome T B p nm (-1) T' B'.

Lemma name_fits_spec name nm : c_name name nm ->
  exists len, strlen name = Some len /\
    ((SIMPLEFS_MAX_FILENAME <=? len) || (len =? 0) = true <-> ~ name_fits nm).
Proof.
  intros [_ Hn Hl]. exists (Z.of_nat (length nm)). split; [by apply strlen_spec|].
  unfold name_fits, SIMPLEFS_MAX_FILENAME. lia.
Qed.

(** The checks that open [create] and [mkdir]: they answer with [e], or go on
    with the parent's directory block. *)
Lemma create_guards {A} d N T B p name nm (e : option A) (K : Z -> option A) :
  view d N T B -> fs_inv T B -> 0 <= p < 64 -> c_name name nm ->
  exists g, g = (len ← strlen name;
     if (SIMPLEFS_MAX_FILENAME <=? len) || (len =? 0) then e else
     parent_inode ← read_inode d p;
     if negb (has_flag (i_flags parent_inode) INODE_DIR) then e else
     parent_data_block_num ← zget (i_blocks parent_inode) 0;
     found ← simplefs_lookup d p name;
     if negb (found =? -1) then e else K parent_data_block_num) /\
  ((g = e /\ ~ can_create T B p nm) \/ (g = K (dir_block T p) /\ can_create T B p nm)).
Proof.
  intros Hv Hinv Hp Hname. eexists. split; [reflexivity|]. unfold can_create.
  destruct (name_fits_spec name nm Hname) as (len & -> & Hlen). cbn [mbind option_bind].
  destruct (_ || _) eqn:E.
  { left. split; [done|]. intros [Hx _]. by apply Hlen in Hx. }
  assert (Hfit : name_fits nm) by (unfold name_fits in *; intuition lia). clear Hlen E.
  destruct (v_inode _ _ _ _ Hv p Hp) as [-> _]. cbn [mbind option_bind].
  fold (inode_dir (T p)). destruct (inode_dir (T p)) eqn:Hd; cbn [negb].
  2:{ left. split; [done|]. intros (_ & Hx & _). congruence. }
  destruct (dir_block_lookup T B Hinv p Hp Hd) as (Hup & Hb0 & _).
  change (zget (i_blocks (T p)) 0) with (zget (i_blocks (T p)) (Z.of_nat 0)).
  rewrite zget_nat, Hb0. cbn [mbind option_bind].
  rewrite (simplefs_lookup_spec _ N T B p name nm) by done. cbn [mbind option_bind].
  pose proof (fs_find_range T B Hinv p nm) as Hr.
  destruct (fs_find T B p nm) as [j|] eqn:Hf; cbn [from_option]; unfold id.
  - rewrite (proj2 (Z.eqb_neq j (-1))) by (destruct (Hr j Hp eq_refl); lia).
    left. split; [done|]. intros (_ & _ & Hx). congruence.
  - by right.
Qed.

Lemma simplefs_create_spec f N T B p name nm :
  fs_rel f N T B -> 0 <= p < 64 -> c_name name nm ->
  exists r f' T' B', simplefs_create f p name = Some (r, f') /\ fs_rel f' N T' B' /\
    create_outcome T B p nm r T' B'.
Proof.
  intros Hrel Hp Hname. pose proof Hrel as [Hv Hst Hsup Hinv]. unfold simplefs_create.
  assert (Hno : ~ can_create T B p nm \/ no_inode T ->
    exists r f' T' B', Some (-1, f) = Some (r, f') /\ fs_rel f' N T' B' /\
      create_outcome T B p nm r T' B').
  { intros ?. exists (-1), f, T, B. split_and!; try done. by apply create_refused. }
  edestruct (create_guards (dev f) N T B p name nm (Some (-1, f))) as (g & Hg & Hcases);
    [done..|]. rewrite <- Hg. clear Hg. destruct Hcases as [[-> Hcan]|[-> Hcan]]; [by apply Hno; left|].
  destruct (allocate_free_inode_spec (dev f) N T B INODE_USED Hv) as
    [[-> Hall]|(i & d1 & -> & Hi & Hui & Hlow & Hv1)]; [done| |]; cbn [mbind option_bind].
  { rewrite Z.eqb_refl. destruct f; apply Hno. by right. }
  rewrite (proj2 (Z.eqb_neq i (-1))) by lia.
  set (n := mk_inode 0 INODE_USED zero_blocks) in *.
  assert (Hfresh : fresh T i) by done.
  destruct (fresh_not_dir T B i Hinv Hfresh) as [Hdi Hi0].
  assert (Hinv1 : fs_inv (<[i := n]> T) B).
  { apply inv_set_inode; [done..|]. by apply empty_inode_fits. }
  assert (Hdp : <[i := n]> T p = T p).
  { rewrite fn_lookup_insert_ne; [done|]. destruct Hcan as (_ & ? & _). congruence. }
  destruct (link_spec d1 N (<[i := n]> T) B p i name nm) as
    [[E Hfull]|(d2 & B' & E & Hv2 & Hinv2 & HB0 & Hnf & Hfind & Hfile)];
    rewrite ?Hdp, ?fn_lookup_insert, ?find_set_inode by done; try done; try apply Hcan.
  all: unfold dir_block in E; rewrite Hdp in E; fold (dir_block T p) in E;
    rewrite E; cbn [mbind option_bind].
  - exists (-1), (set_dev f d1), (<[i := n]> T), B. split; [done|]. split; [by split|].
    apply create_leaked with i; try done.
    + unfold dir_full, dir_block in *. by rewrite Hdp in Hfull.
    + intros q nm' _. by apply find_set_inode.
    + intros j _. by rewrite file_set_inode.
  - exists 0, (set_dev f d2), (<[i := n]> T), B'. split; [done|]. split.
    { split; try done. by simpl; rewrite HB0. }
    apply create_done with i; try done.
    + unfold dir_full, dir_block in *. by rewrite Hdp in Hnf.
    + intros q nm' Hq. rewrite Hfind by done. case_decide; [done|]. by apply find_set_inode.
    + intros j Hj. by rewrite Hfile, file_set_inode.
Qed.
(** ** mkdir *)
(** Writing a block no inode names changes nothing the clients see. *)
Lemma free_block_frame T B b s : fs_inv T B -> ~ block_in_use T b -> b <> 0 ->
  fs_inv T (<[b := s]> B) /\
  (forall q nm, 0 <= q < 64 -> fs_find T (<[b := s]> B) q nm = fs_find T B q nm) /\
  forall j, 0 <= j < 64 -> fs_file T (<[b := s]> B) j = fs_file T B j.
Proof.
  intros Hinv Hfree Hb.
  assert (Hno : forall j k c, 0 <= j < 64 -> inode_used (T j) = true ->
    i_blocks (T j) !! k = Some c -> b <> c).
  { intros j k c Hj Hu Hk <-. apply Hfree. exists j. split; [done|].
    apply inode_uses_spec. split; [done|]. by eapply list_elem_of_lookup_2. }
  split.
  { apply inv_set_block; [done|]. intros i Hi Hd Hk. exfalso.
    destruct (inv_dir _ _ Hinv i Hi Hd) as [Hu _]. by apply (Hno i 0%nat b). }
  split.
  - intros q nm Hq. unfold fs_find. destruct (inode_dir (T q)) eqn:Hd; [|done].
    destruct (dir_block_lookup T B Hinv q Hq Hd) as (Hu & Hk & _).
    rewrite fn_lookup_insert_ne; [done|]. by apply (Hno q 0%nat).
  - intros j Hj. unfold fs_file. destruct (inode_used (T j)) eqn:Hu; [|done].
    destruct (inode_dir (T j)); [done|]. simpl. f_equal.
    apply (file_bytes_frame T B Hinv _ _ j); try done.
    intros c k Hk _. rewrite fn_lookup_insert_ne; [done|]. by apply (Hno j k).
Qed.

(** The entries of a new directory [i] under [p]. *)
Definition new_dir (i p : Z) : list DirEntry :=
  mk_dirent i (46 :: replicate 27 0) :: mk_dirent p (46 :: 46 :: replicate 26 0)
  :: replicate 14 zero_dirent.
Definition dots (i p : Z) (nm : list Z) : option Z :=
  if decide (nm = name_dot) then Some i else if decide (nm = name_dotdot) then Some p else None.

Lemma zero_dirents_ok n : Forall entry_ok (replicate n zero_dirent).
Proof.
  apply Forall_replicate. split; [|by exists []]. split; [done| |done].
  by apply bytes_ok_replicate.
Qed.
Lemma zero_dirents_find n nm : dir_find (replicate n zero_dirent) nm = None.
Proof. induction n as [|n IH]; [done|]. exact IH. Qed.

Lemma new_dir_ok i p : word32 i -> word32 p ->
  Forall entry_ok (new_dir i p) /\ length (new_dir i p) = 16%nat /\
  (forall nm, dir_find (new_dir i p) nm = dots i p nm) /\ names_distinct (new_dir i p).
Proof.
  intros Hi Hp. split; [|split; [done|split; [|]]].
  - unfold new_dir. rewrite !Forall_cons. split_and!; [| |apply zero_dirents_ok];
      (split; [|by eexists]); (split; [done| |done]); simpl; repeat constructor; lia.
  - intros nm. unfold new_dir, dots. cbn [dir_find].
    replace (entry_name (mk_dirent i (46 :: replicate 27 0))) with (Some name_dot) by done.
    replace (entry_name (mk_dirent p (46 :: 46 :: replicate 26 0))) with (Some name_dotdot) by done.
    destruct (decide (nm = name_dot)) as [->|H1]; [done|]. rewrite decide_False by congruence.
    destruct (decide (nm = name_dotdot)) as [->|H2]; [done|]. rewrite decide_False by congruence.
    apply (zero_dirents_find 14).
  - change (names_distinct (new_dir i p)) with (NoDup [name_dot; name_dotdot]).
    by apply (bool_decide_unpack _).
Qed.

(** What [mkdir] may do: nothing, with a reason; a new directory holding [.]
    and [..] under the name; or that directory without a name, when the parent
    is full. *)
Inductive mkdir_outcome T B (p : Z) (nm : list Z) : Z -> inode_table -> block_store -> Prop :=
| mkdir_refused : ~ can_create T B p nm \/ no_inode T -> mkdir_outcome T B p nm (-1) T B
| mkdir_done i T' B' :
    can_create T B p nm -> fresh T i -> ~ dir_full T B p ->
    (forall q nm', 0 <= q < 64 -> fs_find T' B' q nm' =
       if decide (q = p /\ nm' = nm) then Some i
       else if decide (q = i) then dots i p nm' else fs_find T B q nm') ->
    (forall j, 0 <= j < 64 -> fs_file T' B' j = fs_file T B j) ->
    mkdir_outcome T B p nm 0 T' B'
| mkdir_leaked i T' B' :
    can_create T B p nm -> fresh T i -> dir_full T B p ->
    (forall q nm', 0 <= q < 64 -> fs_find T' B' q nm' =
       if decide (q = i) then dots i p nm' else fs_find T B q nm') ->
    (forall j, 0 <= j < 64 -> fs_file T' B' j = fs_file T B j) ->
    mkdir_outcome T B p nm (-1) T' B'.

Definition dir_inode (b : Z) : Inode :=
  mk_inode 0 (Z.lor INODE_USED INODE_DIR) (<[0%nat := b]> zero_blocks).

Lemma dir_blocks_lookup b m c : <[0%nat := b]> zero_blocks !! m = Some c -> c <> 0 -> m = 0%nat /\ c = b.
Proof.
  intros Hm Hc. apply list_lookup_insert_Some in Hm as [(<- & <- & _)|[_ Hm]]; [done|].
  by apply zero_blocks_lookup in Hm.
Qed.

(** A fresh directory inode over a free block keeps the invariant. *)
Lemma new_dir_inv T B i p b : fs_inv T B -> fresh T i -> 0 <= p < 64 ->
  inode_used (T p) = true -> ~ block_in_use T b -> 17 <= b <= LAST_BLOCK ->
  dirents_of_sector (B b) = new_dir i p -> fs_inv (<[i := dir_inode b]> T) B.
Proof.
  intros Hinv Hi Hp Hup Hfree Hb Hs. destruct (fresh_not_dir T B i Hinv Hi) as [_ Hi0].
  destruct Hi as (Hi & Hu & _).
  destruct (new_dir_ok i p) as (He & _ & Hf & Hnd); [unfold word32; lia..|].
  apply inv_set_inode; [done..|]. split; cbn [dir_inode i_blocks i_size].
  - intros c Hc. destruct (decide (c = 0)); [by left|right].
    apply list_elem_of_lookup in Hc as [k Hk]. by apply dir_blocks_lookup in Hk as [_ ->].
  - intros m k c Hm Hk Hc. apply dir_blocks_lookup in Hm as [-> _]; [|done].
    by apply dir_blocks_lookup in Hk as [-> _].
  - intros j c Hj Hji Huj Hcj Hc. destruct (decide (c = 0)); [done|]. exfalso.
    apply list_elem_of_lookup in Hc as [k Hk]. apply dir_blocks_lookup in Hk as [_ ->]; [|done].
    apply Hfree. exists j. split; [done|]. by apply inode_uses_spec.
  - split; [unfold MAX_FILE; lia|]. intros k Hk. exfalso. vm_compute in Hk. by destruct k.
  - done.
  - intros _. exists b. split; [done|]. split; [lia|]. rewrite Hs. split; [done|].
    split; [|done]. intros nm j. rewrite Hf. unfold dots.
    destruct (decide (nm = name_dot)); [intros [= <-]; by auto|].
    destruct (decide (nm = name_dotdot)); [intros [= <-]; by auto|done].
  - done.
Qed.
Lemma new_dir_find T B i p b q nm : dirents_of_sector (B b) = new_dir i p ->
  0 <= i < 64 -> 0 <= p < 64 ->
  fs_find (<[i := dir_inode b]> T) B q nm =
  if decide (q = i) then dots i p nm else fs_find T B q nm.
Proof.
  intros Hs Hi Hp. unfold fs_find, dir_block. case_decide as Hq.
  - subst q. rewrite fn_lookup_insert.
    change (default 0 (i_blocks (dir_inode b) !! 0%nat)) with b.
    change (inode_dir (dir_inode b)) with true. cbn iota. rewrite Hs. apply new_dir_ok; unfold word32; lia.
  - by rewrite fn_lookup_insert_ne.
Qed.
Lemma new_dir_file T B i b j : fs_inv T B -> fresh T i ->
  fs_file (<[i := dir_inode b]> T) B j = fs_file T B j.
Proof.
  intros Hinv (_ & Hu & _). rewrite file_set_inode. case_decide; [subst j|done].
  unfold fs_file. by rewrite Hu.
Qed.

(** The statements of [mkdir] between taking the inode and linking it. *)
Lemma mkdir_build f d1 N T B i p :
  view d1 N (<[i := mk_inode 0 (Z.lor INODE_USED INODE_DIR) zero_blocks]> T) B ->
  data_block_start (sb f) = 17 -> fs_inv T B -> fresh T i -> 0 <= p < 64 ->
  inode_dir (T p) = true ->
  exists b d3 B', find_free_data_block (set_dev f d1) = Some b /\
    (forall {A} (K : D -> option A),
    (n0 ← memcpy (filename zero_dirent) 0 (cbuf name_dot) 0 1;
     n1 ← memcpy (filename zero_dirent) 0 (cbuf name_dotdot) 0 2;
     let dir_entries := <[0%nat := mk_dirent i n0]>
                          (<[1%nat := mk_dirent p n1]> (replicate 16 zero_dirent)) in
     d2 ← ata_write_sector d1 b (sector_of_dirents dir_entries);
     new_dir_inode ← read_inode d2 i;
     blocks ← zset (i_blocks new_dir_inode) 0 b;
     d' ← write_inode d2 i (set_i_blocks new_dir_inode blocks);
     K d') = K d3) /\
    view d3 N (<[i := dir_inode b]> T) B' /\ fs_inv (<[i := dir_inode b]> T) B' /\ B' 0 = B 0 /\
    B' (dir_block T p) = B (dir_block T p) /\
    (forall q nm, 0 <= q < 64 -> fs_find (<[i := dir_inode b]> T) B' q nm =
       if decide (q = i) then dots i p nm else fs_find T B q nm) /\
    forall j, 0 <= j < 64 -> fs_file (<[i := dir_inode b]> T) B' j = fs_file T B j.
Proof.
  intros Hv Hst Hinv Hfresh Hp Hdp. pose proof Hfresh as (Hi & Hu & _).
  destruct (dir_block_lookup T B Hinv p Hp Hdp) as (Hup & Hpb & _).
  destruct (find_free_data_block_spec (set_dev f d1) N _ B Hv Hst) as (b & Hfb & Hb & Hfree & _).
  assert (Hfree' : ~ block_in_use T b).
  { intros (j & Hj & Hin). apply Hfree. exists j. split; [done|].
    rewrite fn_lookup_insert_ne; [done|]. intros ->. apply inode_uses_spec in Hin as [? _]. congruence. }
  pose proof (v_big _ _ _ _ Hv). unfold MIN_SECTORS in *.
  destruct (new_dir_ok i p) as (He & Hel & _); [unfold word32; lia..|].
  destruct (sector_of_dirents_ok (new_dir i p)) as [Hso Hdec]; [|done|].
  { eapply Forall_impl; [exact He|]. by intros x [? _]. }
  destruct (write_block_spec d1 N _ B b _ Hv ltac:(lia) Hso) as (d2 & Hw & Hv2).
  destruct (v_inode _ _ _ _ Hv2 i Hi) as [Hr Hok]. rewrite fn_lookup_insert in Hr.
  destruct (write_inode_spec d2 N _ _ i (dir_inode b) Hv2 Hi) as (d3 & Hw3 & Hv3).
  { split; simpl; try done. rewrite !Forall_cons. unfold word32. split; [lia|].
    split_and!; try lia. apply Forall_nil. done. }
  destruct (free_block_frame T B b (sector_of_dirents (new_dir i p)) Hinv Hfree' ltac:(lia))
    as (Hinv' & Hfind & Hfile).
  set (B' := <[b := sector_of_dirents (new_dir i p)]> B) in *.
  assert (HBb : dirents_of_sector (B' b) = new_dir i p).
  { unfold B'. by rewrite fn_lookup_insert. }
  exists b, d3, B'. split; [done|]. split; [|split; [|split; [|split; [|split; [|split]]]]].
  - intros A K. change (memcpy (filename zero_dirent) 0 (cbuf name_dot) 0 1)
      with (Some (46 :: replicate 27 0)).
    change (memcpy (filename zero_dirent) 0 (cbuf name_dotdot) 0 2)
      with (Some (46 :: 46 :: replicate 26 0)).
    cbn [mbind option_bind]. change (<[0%nat := _]> (<[1%nat := _]> (replicate 16 zero_dirent)))
      with (new_dir i p). rewrite Hw. cbn [mbind option_bind]. rewrite Hr.
    cbn [mbind option_bind]. rewrite zset_in_range by done. cbn [mbind option_bind].
    change (set_i_blocks _ _) with (dir_inode b). by rewrite Hw3.
  - eapply view_ext; [exact Hv3| |done]. intros j _. destruct (decide (i = j)) as [<-|].
    + by rewrite !fn_lookup_insert.
    + by rewrite !fn_lookup_insert_ne.
  - apply new_dir_inv with p; try done.
  - unfold B'. rewrite fn_lookup_insert_ne by lia. done.
  - unfold B'. rewrite fn_lookup_insert_ne; [done|]. intros ->. apply Hfree'.
    exists p. split; [done|]. apply inode_uses_spec. split; [done|].
    by eapply list_elem_of_lookup_2.
  - intros q nm Hq. rewrite (new_dir_find T B' i p) by done. case_decide; [done|]. by apply Hfind.
  - intros j Hj. rewrite new_dir_file by done. by apply Hfile.
Qed.

Lemma simplefs_mkdir_spec f N T B p name nm :
  fs_rel f N T B -> 0 <= p < 64 -> c_name name nm ->
  exists r f' T' B', simplefs_mkdir f p name = Some (r, f') /\ fs_rel f' N T' B' /\
    mkdir_outcome T B p nm r T' B'.
Proof.
  intros Hrel Hp Hname. pose proof Hrel as [Hv Hst Hsup Hinv]. unfold simplefs_mkdir.
  assert (Hno : ~ can_create T B p nm \/ no_inode T ->
    exists r f' T' B', Some (-1, f) = Some (r, f') /\ fs_rel f' N T' B' /\
      mkdir_outcome T B p nm r T' B').
  { intros ?. exists (-1), f, T, B. split_and!; try done. by apply mkdir_refused. }
  edestruct (create_guards (dev f) N T B p name nm (Some (-1, f))) as (g & Hg & Hcases);
    [done..|]. rewrite <- Hg. clear Hg. destruct Hcases as [[-> Hcan]|[-> Hcan]]; [by apply Hno; left|].
  destruct (allocate_free_inode_spec (dev f) N T B (Z.lor INODE_USED INODE_DIR) Hv) as
    [[-> Hall]|(i & d1 & -> & Hi & Hui & Hlow & Hv1)]; [done| |]; cbn [mbind option_bind].
  { rewrite Z.eqb_refl. destruct f; apply Hno. by right. }
  rewrite (proj2 (Z.eqb_neq i (-1))) by lia.
  assert (Hfresh : fresh T i) by done. pose proof Hcan as (Hnm & Hdp & Habsent).
  destruct (dir_block_lookup T B Hinv p Hp Hdp) as (Hup & _).
  destruct (mkdir_build f d1 N T B i p Hv1) as
    (b & d3 & B1 & -> & Hd3 & Hv3 & Hinv3 & HB1 & HBp & Hfind1 & Hfile1); try done.
  cbn [mbind option_bind]. cbv zeta in Hd3. rewrite Hd3. clear Hd3.
  assert (HTp : <[i := dir_inode b]> T p = T p).
  { rewrite fn_lookup_insert_ne; [done|]. congruence. }
  assert (Hpi : p <> i) by congruence.
  destruct (link_spec d3 N (<[i := dir_inode b]> T) B1 p i name nm) as
    [[E Hfull]|(d4 & B' & E & Hv4 & Hinv4 & HB0 & Hnf & Hfind & Hfile)];
    rewrite ?HTp, ?fn_lookup_insert, ?Hfind1, ?decide_False by done; try done.
  all: unfold dir_block in E; rewrite HTp in E; fold (dir_block T p) in E;
    rewrite E; cbn [mbind option_bind].
  - exists (-1), (set_dev f d3), (<[i := dir_inode b]> T), B1. split; [done|]. split.
    { split; try done. by simpl; rewrite HB1. }
    apply mkdir_leaked with i; try done.
    unfold dir_full in *. unfold dir_block at 1 in Hfull. rewrite HTp in Hfull.
    fold (dir_block T p) in Hfull. by rewrite HBp in Hfull.
  - exists 0, (set_dev f d4), (<[i := dir_inode b]> T), B'. split; [done|]. split.
    { split; try done. by simpl; rewrite HB0, HB1. }
    apply mkdir_done with i; try done.
    + unfold dir_full in *. unfold dir_block at 1 in Hnf. rewrite HTp in Hnf.
      fold (dir_block T p) in Hnf. by rewrite HBp in Hnf.
    + intros q nm' Hq. rewrite Hfind by done. case_decide; [done|]. by apply Hfind1.
    + intros j Hj. by rewrite Hfile, Hfile1.
Qed.
End Rel.
