(* ===== verification/FsMount.v ===== *)
(** * SimpleFS: formatting and mounting

    [simplefs_init] either formats the disk into the empty file system or
    reads the superblock back; both establish [fs_rel]. *)
From stdpp Require Import functions.
From S2P Require Import Prelude CString BlockDev DiskLayout SimpleFs FsView FsDir FsInv FsOps.

Definition zero_inode : Inode := mk_inode 0 0 zero_blocks.
Lemma zero_inode_ok : inode_ok zero_inode.
Proof. by apply new_inode_ok. Qed.

(** The inode table of a fresh disk. *)
Definition fresh_table (i : Z) : Inode := if decide (i = 0) then root_inode_init else zero_inode.
Definition root_sector : list Z := sector_of_dirents (new_dir 0 0).
Definition fresh_sb : Superblock :=
  mk_sb SIMPLEFS_MAGIC SIMPLEFS_TOTAL_SECTORS SIMPLEFS_INODE_COUNT SIMPLEFS_DATA_START_SECTOR.
Definition super_sector : list Z := encode_sb fresh_sb ++ replicate 496 0.

Lemma super_sector_ok : sector_ok super_sector /\ decode_sb super_sector = fresh_sb.
Proof. split; [|reflexivity]. split; [reflexivity|]. by apply (bool_decide_unpack _). Qed.
Lemma root_sector_ok : sector_ok root_sector /\ dirents_of_sector root_sector = new_dir 0 0.
Proof.
  destruct (new_dir_ok 0 0) as (He & Hl & _); [done..|].
  apply sector_of_dirents_ok; [|done]. eapply Forall_impl; [exact He|]. by intros x [? _].
Qed.

Section Mount.
Context {D : Type} `{BlockDeviceOk D}.
Implicit Types (d : D) (f : fs D) (T : inode_table) (B : block_store).

Lemma write_super_spec d N T B s : view d N T B -> sector_ok s ->
  exists d', ata_write_sector d 0 s = Some d' /\ view d' N T (<[0 := s]> B).
Proof.
  intros Hv Hs. pose proof (v_size _ _ _ _ Hv) as HN. pose proof (v_big _ _ _ _ Hv) as HM.
  unfold MIN_SECTORS in HM.
  destruct (write_sector_ok d 0 s) as (d' & Hw & Hd' & Hsame & Hother); [lia|done|].
  exists d'. split; [done|]. split; [congruence|done| |].
  - intros j Hj. destruct (v_inode _ _ _ _ Hv j Hj) as [Hrj Hokj]. split; [|done].
    rewrite <- Hrj. unfold read_inode. destruct (inode_sector_range j Hj).
    by rewrite Hother by lia.
  - intros c Hc. destruct (decide (0 = c)) as [<-|Hne].
    + by rewrite fn_lookup_insert.
    + rewrite fn_lookup_insert_ne, Hother by done. by apply (v_block _ _ _ _ Hv).
Qed.

(** Overwriting one sector of the inode table. *)
Lemma write_inodes_spec d N T B sec ns : view d N T B -> 1 <= sec < 17 ->
  Forall inode_ok ns -> length ns = 4%nat ->
  exists d' T', ata_write_sector d sec (sector_of_inodes ns) = Some d' /\ view d' N T' B /\
    forall i, 0 <= i < 64 ->
      T' i = if decide (inode_sector i = sec) then default zero_inode (zget ns (inode_index i)) else T i.
Proof.
  intros Hv Hs HF Hl. pose proof (v_size _ _ _ _ Hv) as HN. pose proof (v_big _ _ _ _ Hv) as HM.
  unfold MIN_SECTORS in HM. destruct (sector_of_inodes_ok ns HF Hl) as [Hso Hdec].
  destruct (write_sector_ok d sec (sector_of_inodes ns)) as (d' & Hw & Hd' & Hsame & Hother);
    [lia|done|].
  eexists d', _. split; [done|]. split; [|by intros i _].
  split; [congruence|done| |].
  - intros j Hj. destruct (v_inode _ _ _ _ Hv j Hj) as [Hrj Hokj].
    destruct (inode_sector_range j Hj) as [_ Hk]. unfold read_inode. case_decide as Hd.
    + rewrite Hd, Hsame. cbn [mbind option_bind]. rewrite Hdec.
      destruct (zget_total ns (inode_index j)) as [x Hx]; [lia|]. rewrite Hx.
      split; [done|]. by eapply zget_in.
    + rewrite Hother by done. by split.
  - intros b Hb. rewrite Hother by lia. by apply (v_block _ _ _ _ Hv).
Qed.

Lemma zero_sector_inodes : zero_sector = sector_of_inodes (replicate 4 zero_inode).
Proof. reflexivity. Qed.

Lemma clear_inodes_spec N B n : forall d T sec, view d N T B ->
  1 <= sec -> sec + Z.of_nat n = 17 ->
  exists d' T', clear_inodes n d sec = Some d' /\ view d' N T' B /\
    forall i, 0 <= i < 64 -> T' i = if sec <=? inode_sector i then zero_inode else T i.
Proof.
  induction n as [|n IH]; intros d T sec Hv Hs Hn; cbn [clear_inodes].
  { exists d, T. split; [done|]. split; [done|]. intros i Hi.
    destruct (inode_sector_range i Hi). by rewrite (proj2 (Z.leb_gt _ _)) by lia. }
  rewrite zero_sector_inodes.
  destruct (write_inodes_spec d N T B sec (replicate 4 zero_inode) Hv) as (d1 & T1 & -> & Hv1 & HT1);
    [lia|apply Forall_replicate, zero_inode_ok|done|]. cbn [mbind option_bind].
  destruct (IH d1 T1 (sec + 1) Hv1) as (d2 & T2 & -> & Hv2 & HT2); [lia..|].
  exists d2, T2. split; [done|]. split; [done|]. intros i Hi. rewrite HT2, HT1 by done.
  destruct (Z.leb_spec (sec + 1) (inode_sector i)), (Z.leb_spec sec (inode_sector i)); try done; try lia.
  - rewrite decide_True by lia. destruct (zget (replicate 4 zero_inode) _) as [x|] eqn:E; [|done].
    eapply (zget_in (fun n => n = zero_inode)) in E; [done|]. by apply Forall_replicate.
  - by rewrite decide_False by lia.
Qed.

(** The empty file system satisfies the invariant. *)
Lemma fresh_inv B : B 17 = root_sector -> fs_inv fresh_table B.
Proof.
  intros HB. destruct root_sector_ok as [_ Hroot].
  destruct (new_dir_ok 0 0) as (He & _ & Hf & Hnd); [done..|].
  assert (Hused : forall i, inode_used (fresh_table i) = true ->
    i = 0 /\ fresh_table i = root_inode_init).
  { intros i. unfold fresh_table. by case_decide. }
  assert (Hblk : forall m b, i_blocks root_inode_init !! m = Some b -> b <> 0 -> m = 0%nat /\ b = 17).
  { intros m b. apply dir_blocks_lookup. }
  split.
  - intros i b _ Hu. apply Hused in Hu as [_ ->]. intros [m Hm]%list_elem_of_lookup.
    destruct (decide (b = 0)); [by left|right]. apply Hblk in Hm as [_ ->]; done.
  - intros i j m n b _ _ Hu1 Hu2. apply Hused in Hu1 as [-> ->], Hu2 as [-> ->].
    intros H1 H2 Hb. apply Hblk in H1 as [-> _], H2 as [-> _]; done.
  - intros i _ Hu. apply Hused in Hu as [_ ->]. split; [done|].
    intros k Hk. exfalso. vm_compute in Hk. by destruct k.
  - intros i Hi Hd. assert (i = 0) as ->.
    { unfold fresh_table in Hd. by case_decide. }
    split; [done|]. exists 17. split; [done|]. split; [done|]. unfold dir_block_ok.
    rewrite HB, Hroot. split; [done|]. split; [|done]. intros nm j. rewrite Hf. unfold dots.
    repeat case_decide; intros [= <-]; done.
  - done.
Qed.

Lemma format_disk_spec d : MIN_SECTORS <= dev_sectors d ->
  exists d' B, format_disk d = Some (mk_fs d' fresh_sb) /\
    fs_rel (mk_fs d' fresh_sb) (dev_sectors d) fresh_table B /\ B 17 = root_sector.
Proof.
  intros HN. destruct (view_exists d HN) as (T0 & B0 & Hv0).
  unfold format_disk, SIMPLEFS_SUPERBLOCK_SECTOR, SIMPLEFS_INODE_START_SECTOR. cbv zeta.
  fold fresh_sb.
  change (memcpy zero_sector 0 (encode_sb fresh_sb) 0 16) with (Some super_sector).
  cbn [mbind option_bind]. destruct super_sector_ok as [Hsok Hsdec], root_sector_ok as [Hrok _].
  destruct (write_super_spec d _ T0 B0 super_sector Hv0 Hsok) as (d1 & -> & Hv1).
  cbn [mbind option_bind].
  destruct (clear_inodes_spec _ _ 16 d1 T0 1 Hv1) as (d2 & T2 & Hc & Hv2 & HT2); [done..|].
  rewrite Hc. cbn [mbind option_bind].
  change (zset (inodes_of_sector zero_sector) 0 root_inode_init)
    with (Some (root_inode_init :: replicate 3 zero_inode)). cbn [mbind option_bind].
  destruct (write_inodes_spec d2 _ T2 _ 1 (root_inode_init :: replicate 3 zero_inode) Hv2)
    as (d3 & T3 & -> & Hv3 & HT3); [done| |done|].
  { rewrite Forall_cons. split; [|apply Forall_replicate, zero_inode_ok].
    split; try done. by apply (bool_decide_unpack _). }
  cbn [mbind option_bind].
  change (memcpy (filename zero_dirent) 0 (cbuf name_dot) 0 2) with (Some (46 :: replicate 27 0)).
  change (memcpy (filename zero_dirent) 0 (cbuf name_dotdot) 0 3)
    with (Some (46 :: 46 :: replicate 26 0)). cbn [mbind option_bind].
  change (sector_of_dirents _) with root_sector. change (data_block_start fresh_sb) with 17.
  pose proof HN as HM. unfold MIN_SECTORS in HM.
  destruct (write_block_spec d3 _ _ _ 17 root_sector Hv3 ltac:(lia) Hrok) as (d4 & -> & Hv4).
  cbn [mbind option_bind].
  assert (HT : forall i, 0 <= i < 64 -> fresh_table i = T3 i).
  { intros i Hi. rewrite HT3, HT2 by done. destruct (inode_sector_range i Hi) as [Hs Hk].
    rewrite (proj2 (Z.leb_le _ _)) by lia. unfold fresh_table.
    destruct (decide (i = 0)) as [->|Hi0]; [done|].
    case_decide as H1; [|done].
    assert (inode_index i <> 0).
    { intros H2. apply Hi0. by apply inode_pos_inj. }
    assert (inode_index i = 1 \/ inode_index i = 2 \/ inode_index i = 3) as [-> | [-> | ->]] by lia;
    done. }
  eexists d4, _. split; [done|]. split; [|by rewrite fn_lookup_insert].
  split; simpl; try done.
  - eapply view_ext; [exact Hv4|exact HT|done].
  - rewrite fn_lookup_insert_ne, fn_lookup_insert, Hsdec by done. done.
  - apply fresh_inv. by rewrite fn_lookup_insert.
Qed.

(** A disk without the magic number. *)
Definition unformatted d : Prop :=
  exists s, ata_read_sector d SIMPLEFS_SUPERBLOCK_SECTOR = Some s /\
    (magic (decode_sb s) <> SIMPLEFS_MAGIC \/ total_sectors (decode_sb s) = 0).

Lemma simplefs_init_format d : MIN_SECTORS <= dev_sectors d -> unformatted d ->
  exists d' B, simplefs_init d = Some (mk_fs d' fresh_sb) /\
    fs_rel (mk_fs d' fresh_sb) (dev_sectors d) fresh_table B /\ B 17 = root_sector.
Proof.
  intros HN (s & Hs & Hsb). unfold simplefs_init. rewrite Hs. cbn [mbind option_bind].
  replace (negb _ || _) with true by lia. by apply format_disk_spec.
Qed.

Lemma fresh_find B q nm : B 17 = root_sector ->
  fs_find fresh_table B q nm = if decide (q = 0) then dots 0 0 nm else None.
Proof.
  intros HB. unfold fs_find, dir_block, fresh_table. case_decide; [|done].
  change (default 0 _) with 17. change (inode_dir root_inode_init) with true. cbn iota.
  rewrite HB. destruct root_sector_ok as [_ ->]. by apply new_dir_ok.
Qed.
End Mount.
