(* ===== verification/FsIo.v ===== *)
(** * SimpleFS: file contents — simplefs_write and simplefs_read

    Both loops go block by block; the lemmas reduce them to the contents
    [file_bytes] of the inode. *)
From stdpp Require Import functions.
From S2P Require Import Prelude CString BlockDev DiskLayout SimpleFs FsView FsDir FsInv FsOps.

(** Block [k] of a buffer of [size] bytes, padded with zeros to a sector. *)
Definition chunk (buf : list Z) (size k : nat) : list Z := slice buf (k * 512) ((size - k * 512) `min` 512).
Definition pad_block (l : list Z) : list Z := l ++ replicate (512 - length l) 0.

Lemma chunk_length buf size k : (size <= length buf)%nat ->
  length (chunk buf size k) = ((size - k * 512) `min` 512)%nat.
Proof. intros. unfold chunk, slice. rewrite length_take, length_drop. lia. Qed.
Lemma pad_block_ok l : bytes_ok l -> (length l <= 512)%nat -> sector_ok (pad_block l).
Proof.
  intros Hb Hl. unfold pad_block. split.
  - rewrite length_app, length_replicate. unfold SECTOR_SIZE. lia.
  - apply bytes_ok_app. split; [done|]. by apply bytes_ok_replicate.
Qed.

Lemma splice_app {A} (l a b : list A) off : (off + length a + length b <= length l)%nat ->
  splice (splice l off a) (off + length a) b = splice l off (a ++ b).
Proof.
  intros Hl. destruct (split_at l off (length a + length b)) as (x & m & y & -> & <- & Hm); [lia|].
  destruct (split_at m (length a) (length b)) as (u & v & z & -> & Hu & Hv); [lia|].
  rewrite !length_app in Hm. assert (z = []) as -> by (destruct z; [done|simpl in *; lia]).
  rewrite (splice_split x (u ++ v ++ []) (a ++ b) y) by (rewrite !length_app; simpl; lia).
  replace (x ++ (u ++ v ++ []) ++ y) with (x ++ u ++ (v ++ y)) by (by rewrite app_nil_r, !app_assoc).
  rewrite splice_split by done. rewrite <- length_app, (app_assoc x a).
  rewrite splice_split by done. by rewrite !app_assoc.
Qed.

(** The contents gathered from the blocks [bs] from number [i] on. *)
Definition gather (B : block_store) (bs : list Z) (size i n : nat) : list Z :=
  take (size - i * 512) (concat (B <$> take n (drop i bs))).

Lemma gather_cons B bs size i n b : bs !! i = Some b -> length (B b) = 512%nat ->
  gather B bs size i (S n) =
  take (size - i * 512) (B b) ++ gather B bs size (S i) n.
Proof.
  intros Hb Hl. unfold gather. rewrite (drop_S _ b) by done. cbn [take fmap list_fmap concat].
  rewrite take_app, Hl. do 2 f_equal. lia.
Qed.
Lemma gather_nil B bs size i : gather B bs size i 0 = [].
Proof. unfold gather. simpl. apply take_nil. Qed.

(** The blocks [i .. i+n) are the last ones of [size] bytes. *)
Definition tail_blocks (size i n : nat) : Prop :=
  (n = 0 \/ (i + n - 1) * 512 < size)%nat /\ (size <= (i + n) * 512)%nat.

Lemma gather_length B bs size n : forall i, tail_blocks size i n ->
  (forall k, (i <= k < i + n)%nat -> exists b, bs !! k = Some b /\ length (B b) = 512%nat) ->
  length (gather B bs size i n) = (size - i * 512)%nat.
Proof.
  induction n as [|n IH]; intros i [Ht1 Ht2] Hb.
  { rewrite gather_nil. simpl. lia. }
  destruct (Hb i ltac:(lia)) as (b & Hi & Hl). rewrite (gather_cons _ _ _ _ _ b) by done.
  rewrite length_app, IH, length_take, Hl; [lia| |].
  - split; lia.
  - intros k Hk. apply Hb. lia.
Qed.

(** Blocks holding the padded chunks of [buf] gather to [buf]. *)
Lemma gather_chunks B bs buf size n : (size <= length buf)%nat -> forall i,
  tail_blocks size i n ->
  (forall k, (i <= k < i + n)%nat -> exists b, bs !! k = Some b /\ B b = pad_block (chunk buf size k)) ->
  gather B bs size i n = take (size - i * 512) (drop (i * 512) buf).
Proof.
  intros Hs. induction n as [|n IH]; intros i [Ht1 Ht2] Hb.
  { rewrite gather_nil. replace (size - i * 512)%nat with 0%nat by lia. done. }
  destruct (Hb i ltac:(lia)) as (b & Hi & Hbb).
  pose proof (chunk_length buf size i Hs) as Hcl.
  rewrite (gather_cons _ _ _ _ _ b) by
    (done || (rewrite Hbb; unfold pad_block; rewrite length_app, length_replicate; lia)).
  rewrite Hbb, IH; [|split; lia|intros k Hk; apply Hb; lia].
  unfold pad_block. unfold chunk at 1, slice.
  destruct (decide (size - i * 512 <= 512)%nat) as [Hlast|Hfull].
  - assert (n = 0%nat) as -> by lia. replace (size - S i * 512)%nat with 0%nat by lia.
    rewrite Nat.min_l by lia. rewrite take_0, app_nil_r.
    rewrite take_app_le, take_take by (rewrite length_take, length_drop; lia). f_equal. lia.
  - rewrite Nat.min_r in * by lia. rewrite Hcl, Nat.sub_diag. simpl replicate. rewrite app_nil_r.
    rewrite take_take, Nat.min_r by lia. replace (S i * 512)%nat with (i * 512 + 512)%nat by lia.
    rewrite <- drop_drop. rewrite <- (take_drop 512 (drop (i * 512) buf)) at 3.
    rewrite take_app, take_take, length_take, length_drop. f_equal.
    + f_equal. lia.
    + f_equal. lia.
Qed.

(** A shorter read gathers a prefix. *)
Lemma gather_prefix B bs s size n m :
  tail_blocks s 0 m -> (m <= n)%nat -> (s <= size)%nat -> tail_blocks size 0 n ->
  (forall k, (k < n)%nat -> exists b, bs !! k = Some b /\ length (B b) = 512%nat) ->
  gather B bs s 0 m = take s (gather B bs size 0 n).
Proof.
  intros Hs Hm Hle Hn Hb.
  assert (Hl : length (gather B bs s 0 m) = s).
  { rewrite gather_length; [lia|done|]. intros k Hk. apply Hb. lia. }
  unfold gather in *. rewrite take_take, !Nat.sub_0_r, Nat.min_l in * by lia.
  rewrite drop_0 in *. rewrite length_take in Hl.
  rewrite <- (take_drop m (take n bs)), take_take, Nat.min_l by lia.
  rewrite fmap_app, concat_app, take_app_le; [done|lia].
Qed.

Section Io.
Context {D : Type} `{BlockDeviceOk D}.
Implicit Types (d : D) (f : fs D) (T : inode_table) (B : block_store).

(** ** simplefs_read *)
Lemma read_blocks_spec d (inode : Inode) B size n : forall i buf left,
  (n = 0%nat \/ left = Z.of_nat size - Z.of_nat (i * 512)) ->
  tail_blocks size i n -> (size <= length buf)%nat ->
  (forall k, (i <= k < i + n)%nat -> exists b, i_blocks inode !! k = Some b /\
     ata_read_sector d b = Some (B b) /\ length (B b) = 512%nat) ->
  read_blocks n d inode buf (Z.of_nat i) left =
  Some (splice buf (i * 512) (gather B (i_blocks inode) size i n)).
Proof.
  induction n as [|n IH]; intros i buf left Hleft Ht Hsz Hb; cbn [read_blocks].
  { by rewrite gather_nil, splice_nil. }
  pose proof (gather_length B (i_blocks inode) size (S n) i Ht) as Hgl.
  destruct (Hb i ltac:(lia)) as (b & Hi & Hr & Hl). destruct Ht as [Ht1 Ht2].
  destruct Hleft as [? | ->]; [done|].
  rewrite zget_nat, Hi. cbn [mbind option_bind]. rewrite Hr. cbn [mbind option_bind].
  set (c := ((size - i * 512) `min` 512)%nat).
  replace (if 512 <? Z.of_nat size - Z.of_nat (i * 512) then 512
           else Z.of_nat size - Z.of_nat (i * 512)) with (Z.of_nat c) by (unfold c; case_match; lia).
  replace (Z.of_nat i * 512) with (Z.of_nat (i * 512)) by lia. change 0 with (Z.of_nat 0).
  rewrite memcpy_spec by lia. cbn [mbind option_bind].
  assert (Hlen : length (slice (B b) 0 c) = c) by (apply slice_length; lia).
  assert (Hs : slice (B b) 0 c = take (size - i * 512) (B b)).
  { unfold slice. rewrite drop_0. unfold c. rewrite <- Hl, Nat.min_comm, <- take_take.
    by rewrite (take_ge _ (length (B b))) by (rewrite length_take; lia).  }
  replace (Z.of_nat i + 1) with (Z.of_nat (S i)) by lia.
  rewrite IH.
  - rewrite (gather_cons _ _ _ _ _ b) by done. rewrite <- Hs.
    destruct (decide (n = 0%nat)) as [->|Hn].
    + by rewrite !gather_nil, splice_nil, app_nil_r.
    + rewrite <- splice_app; rewrite Hlen.
      * by replace (i * 512 + c)%nat with (S i * 512)%nat by (unfold c; lia).
      * rewrite gather_length; [unfold c; lia|split; lia|].
        intros k Hk. destruct (Hb k ltac:(lia)) as (? & ? & _ & ?). by eexists.
  - destruct n; [by left|right]. unfold c. lia.
  - split; lia.
  - rewrite splice_length; rewrite ?Hlen; lia.
  - intros k Hk. apply Hb. lia.
Qed.

Lemma file_bytes_gather B n :
  file_bytes B n =
  gather B (i_blocks n) (Z.to_nat (i_size n)) 0 (Z.to_nat (blocks_needed (i_size n))).
Proof. unfold gather, file_bytes. by rewrite Nat.sub_0_r, drop_0. Qed.

(** The blocks of a live file are readable sectors. *)
Lemma file_blocks_read d N T B i k : view d N T B -> fs_inv T B ->
  0 <= i < 64 -> inode_used (T i) = true -> Z.of_nat k < blocks_needed (i_size (T i)) ->
  exists b, i_blocks (T i) !! k = Some b /\ ata_read_sector d b = Some (B b) /\
    length (B b) = 512%nat.
Proof.
  intros Hv Hinv Hi Hu Hk. destruct (file_block T B Hinv i k Hi Hu Hk) as (b & Hb & _ & Hbr).
  pose proof (v_big _ _ _ _ Hv). unfold MIN_SECTORS, LAST_BLOCK in *.
  destruct (v_block _ _ _ _ Hv b) as [Hr [Hl _]]; [lia|]. by exists b.
Qed.

(** The loop of [simplefs_read] on the first [rd] bytes of a live file. *)
Lemma read_file d N T B i rd buf : view d N T B -> fs_inv T B ->
  0 <= i < 64 -> inode_used (T i) = true ->
  0 <= rd <= i_size (T i) -> (Z.to_nat rd <= length buf)%nat ->
  length (file_bytes B (T i)) = Z.to_nat (i_size (T i)) /\
  read_blocks (Z.to_nat (blocks_needed rd)) d (T i) buf 0 rd =
  Some (take (Z.to_nat rd) (file_bytes B (T i)) ++ drop (Z.to_nat rd) buf).
Proof.
  intros Hv Hinv Hi Hu Hrd Hbuf. destruct (inv_file _ _ Hinv i Hi Hu) as [Hsz _].
  destruct (blocks_needed_spec _ Hsz) as [Hn1 Hn2].
  destruct (blocks_needed_spec rd) as [Hm1 Hm2]; [lia|].
  pose proof (fun k => file_blocks_read d N T B i k Hv Hinv Hi Hu) as Hblk.
  assert (Hlen : forall k, (k < Z.to_nat (blocks_needed (i_size (T i))))%nat ->
    exists b, i_blocks (T i) !! k = Some b /\ length (B b) = 512%nat).
  { intros k Hk. destruct (Hblk k) as (b & ? & _ & ?); [lia|]. by exists b. }
  rewrite file_bytes_gather. split.
  { rewrite gather_length; [lia|split; lia|]. intros k Hk. apply Hlen. lia. }
  rewrite (read_blocks_spec d (T i) B (Z.to_nat rd) _ 0 buf rd).
  - rewrite (gather_prefix _ _ _ (Z.to_nat (i_size (T i))) (Z.to_nat (blocks_needed (i_size (T i)))))
      by (done || lia || (split; lia)).
    unfold splice. rewrite length_take, gather_length; [|split; lia|].
    + rewrite take_0. cbn [app].
      by replace (0 * 512 + _)%nat with (Z.to_nat rd) by lia.
    + intros k Hk. apply Hlen. lia.
  - right. lia.
  - split; lia.
  - lia.
  - intros k Hk. apply Hblk. lia.
Qed.

(** [simplefs_read] answers the bytes of the named file, cut to the size asked
    for, and leaves the rest of the caller's buffer alone. *)
Lemma simplefs_read_spec f N T B p name nm buf size :
  fs_rel f N T B -> 0 <= p < 64 -> c_name name nm -> 0 <= size < 4294967296 ->
  (forall i c, fs_find T B p nm = Some i -> fs_file T B i = Some c ->
     (Z.to_nat size `min` length c <= length buf)%nat) ->
  simplefs_read (dev f) p name buf size =
  Some (match i ← fs_find T B p nm; fs_file T B i with
        | None => (-1, buf)
        | Some c => let n := (Z.to_nat size `min` length c)%nat in
                    (Z.of_nat n, take n c ++ drop n buf)
        end).
Proof.
  intros [Hv Hst Hsup Hinv] Hp Hname Hsize Hbuf. unfold simplefs_read.
  rewrite (simplefs_lookup_spec _ N T B p name nm) by done. cbn [mbind option_bind].
  destruct (fs_find T B p nm) as [i|] eqn:Hf; cbn [from_option mbind option_bind]; [|done].
  unfold id. destruct (fs_find_range T B Hinv p nm i Hp Hf) as (_ & Hi & Hu).
  rewrite (proj2 (Z.eqb_neq i (-1))), u32_small by lia.
  destruct (v_inode _ _ _ _ Hv i Hi) as [-> _]. cbn [mbind option_bind].
  specialize (Hbuf i). unfold fs_file in *. rewrite Hu in *. fold (inode_dir (T i)).
  destruct (inode_dir (T i)) eqn:Hd; [done|]. cbn [andb negb] in *.
  specialize (Hbuf _ eq_refl eq_refl).
  destruct (inv_file _ _ Hinv i Hi Hu) as [Hsz _].
  set (rd := if i_size (T i) <? size then i_size (T i) else size).
  assert (Hrd : 0 <= rd <= i_size (T i) /\
    Z.to_nat rd = (Z.to_nat size `min` Z.to_nat (i_size (T i)))%nat).
  { unfold rd, MAX_FILE in *. case_match; lia. }
  destruct Hrd as [Hrd Hmin].
  destruct (read_file (dev f) N T B i 0 buf) as [Hlen _]; try done; try lia.
  rewrite Hlen in *.
  destruct (read_file (dev f) N T B i rd buf) as [_ ->]; try done; try lia.
  cbn [mbind option_bind]. rewrite i32_small by (unfold MAX_FILE in *; lia).
  cbv zeta. rewrite <- Hmin. do 2 f_equal. lia.
Qed.

(** ** simplefs_write *)
(** Two inode tables that differ in the blocks of the plain file [idx] only,
    the later one naming every block the earlier one does. *)
Record grows T T' (idx : Z) : Prop := {
  gr_other : forall j, j <> idx -> T' j = T j;
  gr_size : i_size (T' idx) = i_size (T idx);
  gr_flags : i_flags (T' idx) = i_flags (T idx);
  gr_blocks : forall m b, i_blocks (T idx) !! m = Some b -> b <> 0 -> i_blocks (T' idx) !! m = Some b;
}.
Lemma grows_trans T1 T2 T3 idx : grows T1 T2 idx -> grows T2 T3 idx -> grows T1 T3 idx.
Proof.
  intros [A1 A2 A3 A4] [B1 B2 B3 B4]. split; [|congruence..|by auto].
  intros j Hj. by rewrite B1, A1.
Qed.

(** A plain file in use. *)
Definition plain T (idx : Z) : Prop :=
  0 <= idx < 64 /\ inode_used (T idx) = true /\ inode_dir (T idx) = false.
Lemma plain_grows T T' idx : plain T idx -> grows T T' idx -> plain T' idx.
Proof.
  intros (Hi & Hu & Hd) [_ _ Hf _]. unfold plain, inode_used, inode_dir in *. by rewrite Hf.
Qed.

(** Replacing the inode of a plain file. *)
Lemma inv_set_plain T B idx n : fs_inv T B -> plain T idx -> i_flags n = i_flags (T idx) ->
  (forall b, b ∈ i_blocks n -> b ∈ i_blocks (T idx) \/ (~ block_in_use T b /\ 17 <= b <= LAST_BLOCK)) ->
  (forall m k b, i_blocks n !! m = Some b -> i_blocks n !! k = Some b -> b <> 0 -> m = k) ->
  0 <= i_size n <= MAX_FILE ->
  (forall k, Z.of_nat k < blocks_needed (i_size n) -> exists b, i_blocks n !! k = Some b /\ b <> 0) ->
  fs_inv (<[idx := n]> T) B.
Proof.
  intros Hinv (Hi & Hu & Hd) Hfl Hbl Hdis Hsz Hfile.
  assert (Hnu : inode_used n = true) by (unfold inode_used in *; by rewrite Hfl).
  assert (Hnd : inode_dir n = false) by (unfold inode_dir in *; by rewrite Hfl).
  apply inv_set_inode; [done..|]. split; try done.
  - intros b [Hb|[_ Hb]]%Hbl; [by apply (inv_range _ _ Hinv idx)|by right].
  - intros j b Hj Hne Huj Hbj [Hb|[Hb _]]%Hbl.
    + destruct (decide (b = 0)); [done|]. exfalso. apply Hne.
      apply list_elem_of_lookup in Hb as [k Hk], Hbj as [m Hm].
      by apply (inv_distinct _ _ Hinv j idx m k b).
    + exfalso. apply Hb. exists j. split; [done|]. by apply inode_uses_spec.
  - congruence.
  - intros ->. rewrite (inv_root _ _ Hinv) in Hd. done.
Qed.

(** The part of a round that finds block [i] of the file, allocating it when
    the inode has none. *)
Lemma pick_block d N T B idx i : view d N T B -> fs_inv T B -> plain T idx -> (i < 30)%nat ->
  exists b0 b d1 T1, i_blocks (T idx) !! i = Some b0 /\
    (if b0 =? 0 then
       block ← find_free_block 1920 d 17;
       blocks ← zset (i_blocks (T idx)) (Z.of_nat i) block;
       let inode1 := set_i_blocks (T idx) blocks in
       d1 ← write_inode d idx inode1;
       Some (d1, inode1)
     else Some (d, T idx)) = Some (d1, T1 idx) /\
    view d1 N T1 B /\ fs_inv T1 B /\ grows T T1 idx /\
    i_blocks (T1 idx) !! i = Some b /\ b <> 0.
Proof.
  intros Hv Hinv Hpl Hi30. pose proof Hpl as (Hi & Hu & Hd).
  destruct (v_inode _ _ _ _ Hv idx Hi) as [_ [Hs Hf Hw Hl]].
  destruct (lookup_lt_is_Some_2 (i_blocks (T idx)) i ltac:(lia)) as [b0 Hb0].
  destruct (Z.eqb_spec b0 0) as [->|Hne].
  2:{ exists b0, b0, d, T. rewrite (proj2 (Z.eqb_neq b0 0)) by done. by split_and!. }
  destruct (find_free_block_spec d N T B Hv 1920 17) as (b & Hff & Hb & Hnb & _);
    [lia|intros; lia|lia|].
  set (n := set_i_blocks (T idx) (<[i := b]> (i_blocks (T idx)))).
  destruct (write_inode_spec d N T B idx n Hv Hi) as (d1 & Hwi & Hv1).
  { split; try done; simpl; [|by rewrite length_insert].
    apply Forall_insert; [done|]. unfold word32. lia. }
  exists 0, b, d1, (<[idx := n]> T). rewrite fn_lookup_insert. split; [done|]. split.
  { cbn [Z.eqb]. rewrite Hff. cbn [mbind option_bind]. rewrite zset_nat by lia.
    cbn [mbind option_bind]. fold n. by rewrite Hwi. }
  assert (Hget : forall m c, <[i := b]> (i_blocks (T idx)) !! m = Some c ->
    (m = i /\ c = b) \/ (m <> i /\ i_blocks (T idx) !! m = Some c)).
  { intros m c [(-> & -> & _)|[? ?]]%list_lookup_insert_Some; auto. }
  assert (Hnin : forall m, i_blocks (T idx) !! m <> Some b).
  { intros m Hm. apply Hnb. exists idx. split; [done|]. apply inode_uses_spec.
    split; [done|]. by eapply list_elem_of_lookup_2. }
  split; [done|]. split; [|split; [|split; [by apply list_lookup_insert_eq; lia|lia]]].
  - apply inv_set_plain; try done; try apply (inv_file _ _ Hinv idx Hi Hu).
    + intros c [m Hm]%list_elem_of_lookup. apply Hget in Hm as [[-> ->]|[_ Hm]].
      * right. split; [done|]. unfold LAST_BLOCK. lia.
      * left. by eapply list_elem_of_lookup_2.
    + intros m k c [[-> ->]|[Hm1 Hm]]%Hget [[-> Hc]|[Hk1 Hk]]%Hget Hc0; try done; subst;
        try (by exfalso; eapply Hnin); by eapply (inv_distinct _ _ Hinv idx idx).
    + intros k Hk. destruct (inv_file _ _ Hinv idx Hi Hu) as [_ Hfl].
      destruct (Hfl k Hk) as (c & Hc & Hc0). exists c. split; [|done]. simpl.
      rewrite list_lookup_insert_ne; [done|]. intros ->. congruence.
  - split; simpl; try done; intros.
    + by rewrite fn_lookup_insert_ne.
    + by rewrite fn_lookup_insert.
    + by rewrite fn_lookup_insert.
    + rewrite fn_lookup_insert. simpl. rewrite list_lookup_insert_ne; [done|]. intros ->. congruence.
Qed.

(** Writing a block of a plain file keeps the invariant. *)
Lemma inv_set_file_block T B idx i b s : fs_inv T B -> plain T idx ->
  i_blocks (T idx) !! i = Some b -> b <> 0 -> fs_inv T (<[b := s]> B).
Proof.
  intros Hinv (Hi & Hu & Hd) Hb Hb0. apply inv_set_block; [done|].
  intros j Hj Hdj Hjb. exfalso.
  destruct (inv_dir _ _ Hinv j Hj Hdj) as [Huj _].
  destruct (inv_distinct _ _ Hinv idx j i 0%nat b) as [-> _]; try done. congruence.
Qed.

(** The bytes one round stores. *)
Lemma round_bytes buf size i left :
  left = Z.of_nat size - Z.of_nat (i * 512) -> (size <= length buf)%nat ->
  (i * 512 < size)%nat ->
  (buffer ← memset zero_sector 0 0 512;
   memcpy buffer 0 buf (Z.of_nat i * 512) (if 512 <? left then 512 else left)) =
  Some (pad_block (chunk buf size i)).
Proof.
  intros -> Hs Hi. change (memset zero_sector 0 0 512) with (Some zero_sector).
  cbn [mbind option_bind]. set (c := ((size - i * 512) `min` 512)%nat).
  replace (if 512 <? _ then 512 else _) with (Z.of_nat c) by (unfold c; case_match; lia).
  replace (Z.of_nat i * 512) with (Z.of_nat (i * 512)) by lia.
  pose proof (chunk_length buf size i Hs) as Hcl.
  change 0 with (Z.of_nat 0). rewrite memcpy_spec.
  - fold (chunk buf size i). unfold splice, pad_block, zero_sector. cbn [take app Nat.add].
    by rewrite drop_replicate.
  - unfold zero_sector. rewrite length_replicate. unfold SECTOR_SIZE. lia.
  - unfold c. lia.
Qed.

Lemma write_blocks_spec N idx buf size : (size <= length buf)%nat -> bytes_ok buf ->
  forall n d T B i left,
  view d N T B -> fs_inv T B -> plain T idx -> (i + n <= 30)%nat ->
  (n = 0%nat \/ left = Z.of_nat size - Z.of_nat (i * 512)) -> tail_blocks size i n ->
  exists d' T' B', write_blocks n d 17 idx (T idx) buf (Z.of_nat i) left = Some (d', T' idx) /\
    view d' N T' B' /\ fs_inv T' B' /\ grows T T' idx /\
    (forall k, (i <= k < i + n)%nat -> exists b, i_blocks (T' idx) !! k = Some b /\ b <> 0 /\
       B' b = pad_block (chunk buf size k)) /\
    (forall c, (forall k, (i <= k < i + n)%nat -> i_blocks (T' idx) !! k <> Some c) -> B' c = B c).
Proof.
  intros Hsz Hbuf n. induction n as [|n IH]; intros d T B i left Hv Hinv Hpl Hi Hleft [Ht1 Ht2].
  { exists d, T, B. cbn [write_blocks]. split_and!; try done; intros; lia. }
  destruct Hleft as [? | ->]; [done|].
  destruct (pick_block d N T B idx i Hv Hinv Hpl) as
    (b0 & b & d1 & T1 & Hb0 & Hpick & Hv1 & Hinv1 & Hg1 & Hb & Hne); [lia|].
  cbn [write_blocks]. rewrite zget_nat, Hb0. cbn [mbind option_bind]. cbv zeta in *.
  rewrite Hpick.
  cbn [mbind option_bind].
  pose proof (round_bytes buf size i _ eq_refl Hsz ltac:(lia)) as Hround.
  apply mbind_Some in Hround as (z & -> & Hround). cbn [mbind option_bind].
  rewrite Hround. cbn [mbind option_bind]. rewrite zget_nat, Hb. cbn [mbind option_bind].
  pose proof (plain_grows _ _ _ Hpl Hg1) as Hpl1. pose proof Hpl1 as (Hidx & Hu1 & _).
  assert (Hbr : 17 <= b < N).
  { pose proof (v_big _ _ _ _ Hv). unfold MIN_SECTORS in *.
    destruct (inv_range _ _ Hinv1 idx b Hidx Hu1); [by eapply list_elem_of_lookup_2|done|].
    unfold LAST_BLOCK in *. lia. }
  pose proof (chunk_length buf size i Hsz) as Hcl.
  destruct (write_block_spec d1 N T1 B b (pad_block (chunk buf size i)) Hv1 Hbr) as (d2 & -> & Hv2).
  { apply pad_block_ok; [by apply bytes_ok_slice|lia]. }
  cbn [mbind option_bind]. replace (Z.of_nat i + 1) with (Z.of_nat (S i)) by lia.
  destruct (IH d2 T1 _ (S i) (Z.of_nat size - Z.of_nat (i * 512) -
      (if 512 <? Z.of_nat size - Z.of_nat (i * 512) then 512 else Z.of_nat size - Z.of_nat (i * 512)))
      Hv2) as (d' & T' & B' & -> & Hv' & Hinv' & Hg' & Hdata & Hframe).
  - by eapply inv_set_file_block.
  - done.
  - lia.
  - destruct n; [by left|right]. case_match; lia.
  - split; lia.
  - exists d', T', B'. split; [done|]. split; [done|]. split; [done|].
    split; [by eapply grows_trans|].
    pose proof (gr_blocks _ _ _ Hg' i b Hb Hne) as Hb'.
    pose proof (plain_grows _ _ _ Hpl1 Hg') as (_ & Hu' & _). split.
    + intros k Hk. destruct (decide (k = i)) as [->|Hki]; [|apply Hdata; lia].
      exists b. split; [done|]. split; [done|]. rewrite Hframe.
      * by rewrite fn_lookup_insert.
      * intros m Hm Hmb. destruct (inv_distinct _ _ Hinv' idx idx i m b) as [_ ->]; try done. lia.
    + intros c Hc. rewrite Hframe by (intros k Hk; apply Hc; lia).
      rewrite fn_lookup_insert_ne; [done|]. intros ->. by apply (Hc i ltac:(lia)).
Qed.

(** What [write] may do: nothing, with a reason, or replace the contents of
    the named file by the [size] bytes, and nothing else. *)
Inductive write_outcome T B (p : Z) (nm buf : list Z) (size : Z)
  : Z -> inode_table -> block_store -> Prop :=
| write_refused : fs_find T B p nm = None \/ MAX_FILE < size ->
    write_outcome T B p nm buf size (-1) T B
| write_done i T' B' :
    fs_find T B p nm = Some i -> size <= MAX_FILE ->
    (forall q nm', 0 <= q < 64 -> fs_find T' B' q nm' = fs_find T B q nm') ->
    (forall j, 0 <= j < 64 -> fs_file T' B' j =
       if decide (j = i) then Some (take (Z.to_nat size) buf) else fs_file T B j) ->
    write_outcome T B p nm buf size 0 T' B'.

(** Changes confined to the plain file [i] and its blocks do not show in any
    other file or in any directory. *)
Lemma plain_frame T B T' B' i : fs_inv T B -> fs_inv T' B' -> plain T i -> plain T' i ->
  (forall j, j <> i -> T' j = T j) ->
  (forall c, (forall k, i_blocks (T' i) !! k <> Some c) -> B' c = B c) ->
  (forall q nm, 0 <= q < 64 -> fs_find T' B' q nm = fs_find T B q nm) /\
  (forall j, 0 <= j < 64 -> j <> i -> fs_file T' B' j = fs_file T B j).
Proof.
  intros Hinv Hinv' (Hi & Hu & Hd) (_ & Hu' & Hd') HT HB.
  assert (Hother : forall j k b, 0 <= j < 64 -> j <> i -> inode_used (T j) = true ->
    i_blocks (T j) !! k = Some b -> b <> 0 -> B' b = B b).
  { intros j k b Hj Hne Huj Hk Hb. apply HB. intros m Hm. apply Hne.
    apply (inv_distinct _ _ Hinv' j i k m b); rewrite ?(HT j) by done; done. }
  split.
  - intros q nm Hq. unfold fs_find, dir_block. destruct (decide (q = i)) as [->|Hqi].
    { by rewrite Hd, Hd'. }
    rewrite HT by done. destruct (inode_dir (T q)) eqn:Hdq; [|done].
    destruct (dir_block_lookup T B Hinv q Hq Hdq) as (Huq & Hb & Hb0 & _).
    fold (dir_block T q). by rewrite (Hother q 0%nat).
  - intros j Hj Hji. unfold fs_file. rewrite HT by done.
    destruct (inode_used (T j)) eqn:Huj; [|done]. destruct (inode_dir (T j)); [done|].
    simpl. f_equal. apply (file_bytes_frame T B Hinv _ _ j); try done.
    intros b k Hk Hb. by apply (Hother j k).
Qed.

Lemma simplefs_write_spec f N T B p name nm buf size :
  fs_rel f N T B -> 0 <= p < 64 -> c_name name nm -> bytes_ok buf ->
  0 <= size <= 0xFFFFFE00 -> size <= Z.of_nat (length buf) ->
  (forall i, fs_find T B p nm = Some i -> inode_dir (T i) = false) ->
  exists r f' T' B', simplefs_write f p name buf size = Some (r, f') /\ fs_rel f' N T' B' /\
    write_outcome T B p nm buf size r T' B'.
Proof.
  intros Hrel Hp Hname Hbuf Hsize Hlen Hplain. pose proof Hrel as [Hv Hst Hsup Hinv].
  unfold simplefs_write. rewrite (simplefs_lookup_spec _ N T B p name nm) by done.
  cbn [mbind option_bind].
  destruct (fs_find T B p nm) as [i|] eqn:Hf; cbn [from_option mbind option_bind].
  2:{ exists (-1), f, T, B. split_and!; try done. apply write_refused. by left. }
  unfold id. destruct (fs_find_range T B Hinv p nm i Hp Hf) as (_ & Hi & Hu).
  rewrite (proj2 (Z.eqb_neq i (-1))), u32_small by lia.
  destruct (Z.ltb_spec SIMPLEFS_DIRECT_BLOCKS (blocks_needed size)) as [Hbig|Hfit].
  { exists (-1), f, T, B. split_and!; try done. apply write_refused. right.
    unfold SIMPLEFS_DIRECT_BLOCKS, MAX_FILE, blocks_needed in *. rewrite u32_small in Hbig by lia.
    Z.to_euclidean_division_equations. lia. }
  assert (Hmax : size <= MAX_FILE).
  { unfold SIMPLEFS_DIRECT_BLOCKS, MAX_FILE, blocks_needed in *. rewrite u32_small in Hfit by lia.
    Z.to_euclidean_division_equations. lia. }
  destruct (blocks_needed_spec size) as [Hn1 Hn2]; [lia|].
  assert (Hpl : plain T i) by (split; [done|split; [done|by apply Hplain]]).
  destruct (v_inode _ _ _ _ Hv i Hi) as [-> _]. cbn [mbind option_bind]. rewrite Hst.
  destruct (write_blocks_spec N i buf (Z.to_nat size) ltac:(lia) Hbuf
    (Z.to_nat (blocks_needed size)) (dev f) T B 0 size Hv Hinv Hpl) as
    (d1 & T1 & B1 & Hw & Hv1 & Hinv1 & Hg & Hdata & Hframe);
    [lia|right; lia|split; lia|].
  change (Z.of_nat 0) with 0 in Hw. rewrite Hw. cbn [mbind option_bind].
  pose proof (plain_grows _ _ _ Hpl Hg) as Hpl1. pose proof Hpl1 as (_ & Hu1 & _).
  set (n := set_i_size (T1 i) size).
  destruct (v_inode _ _ _ _ Hv1 i Hi) as [_ [Hs1 Hf1 Hb1 Hl1]].
  destruct (write_inode_spec d1 N T1 B1 i n Hv1 Hi) as (d2 & -> & Hv2).
  { split; try done. simpl. unfold word32, MAX_FILE in *. lia. }
  cbn [mbind option_bind].
  assert (Hinv2 : fs_inv (<[i := n]> T1) B1).
  { apply inv_set_plain; try done.
    - intros b Hb. by left.
    - intros m k b Hm Hk Hb. by apply (inv_distinct _ _ Hinv1 i i m k b).
    - simpl. lia.
    - simpl. intros k Hk. destruct (Hdata k ltac:(lia)) as (b & ? & ? & _). by exists b. }
  assert (Hpl2 : plain (<[i := n]> T1) i).
  { unfold plain. rewrite fn_lookup_insert. by destruct Hpl1 as (? & ? & ?). }
  destruct (plain_frame T B (<[i := n]> T1) B1 i) as [Hfind Hfile]; try done.
  { intros j Hj. rewrite fn_lookup_insert_ne by done. by apply (gr_other _ _ _ Hg). }
  { intros c Hc. apply Hframe. intros k _. specialize (Hc k). by rewrite fn_lookup_insert in Hc. }
  exists 0, (set_dev f d2), (<[i := n]> T1), B1. split; [done|]. split.
  - split; try done. simpl. rewrite Hframe; [done|]. intros k Hk Hk0.
    destruct (Hdata k Hk) as (b & Hb & Hb0 & _). congruence.
  - apply write_done with i; try done. intros j Hj. case_decide as Hji; [|by apply Hfile].
    subst j. unfold fs_file. destruct Hpl2 as (_ & -> & ->). simpl. f_equal.
    rewrite fn_lookup_insert, file_bytes_gather. simpl.
    rewrite (gather_chunks _ _ buf); [|lia|split; lia|].
    + rewrite drop_0. f_equal. lia.
    + intros k Hk. destruct (Hdata k Hk) as (b & ? & _ & ?). by exists b.
Qed.
End Io.
