(* ===== verification/FsProps.v ===== *)
(** * SimpleFS: its properties

    The contract of each operation as a refinement of its abstract outcome, and
    what follows for a sequence of calls. *)
From stdpp Require Import functions.
From S2P Require Import Prelude CString BlockDev DiskLayout SimpleFs FsView.
From S2P Require Import FsDir FsInv FsOps FsMount FsIo.

Section Props.
Context {D : Type} `{BlockDeviceOk D}.
Implicit Types (d : D) (f : fs D) (T : inode_table) (B : block_store).

Lemma remount f N T B : fs_rel f N T B -> simplefs_init (dev f) = Some f.
Proof.
  intros [Hv _ (Hsb & Hm & Ht) _]. unfold simplefs_init, SIMPLEFS_SUPERBLOCK_SECTOR.
  destruct (v_block _ _ _ _ Hv 0) as [-> _]; [by left|]. cbn [mbind option_bind]. cbv zeta.
  rewrite Hsb. replace (negb _ || _) with false by lia. by destruct f.
Qed.

(** The operations of a client, with arguments as the callers pass them: an
    inode number below 64 and C strings.  Two kinds of write the code accepts
    are left out, because they break the file system
    ([simplefs_write_clobbers_directory], [simplefs_write_size_wraps]): a write
    to the name of a directory, and one of a size above 0xFFFFFE00. *)
Inductive fs_step : fs D -> fs D -> Prop :=
| step_create f p name nm r f' : 0 <= p < 64 -> c_name name nm ->
    simplefs_create f p name = Some (r, f') -> fs_step f f'
| step_mkdir f p name nm r f' : 0 <= p < 64 -> c_name name nm ->
    simplefs_mkdir f p name = Some (r, f') -> fs_step f f'
| step_write f p name nm buf size r f' : 0 <= p < 64 -> c_name name nm -> bytes_ok buf ->
    0 <= size <= 0xFFFFFE00 -> size <= Z.of_nat (length buf) ->
    (forall i n, simplefs_lookup (dev f) p name = Some i -> read_inode (dev f) i = Some n ->
       inode_dir n = false) ->
    simplefs_write f p name buf size = Some (r, f') -> fs_step f f'.

Lemma fs_step_rel f f' N : fs_step f f' ->
  (exists T B, fs_rel f N T B) -> exists T B, fs_rel f' N T B.
Proof.
  destruct 1 as [f p name nm r f' Hp Hn E|f p name nm r f' Hp Hn E
                |f p name nm buf size r f' Hp Hn Hb Hs Hl Hd E]; intros (T & B & Hrel).
  - destruct (simplefs_create_spec f N T B p name nm Hrel Hp Hn) as (r' & f'' & T' & B' & E' & ? & _).
    simplify_eq. by exists T', B'.
  - destruct (simplefs_mkdir_spec f N T B p name nm Hrel Hp Hn) as (r' & f'' & T' & B' & E' & ? & _).
    simplify_eq. by exists T', B'.
  - destruct (simplefs_write_spec f N T B p name nm buf size Hrel Hp Hn Hb Hs Hl)
      as (r' & f'' & T' & B' & E' & ? & _); [|simplify_eq; by exists T', B'].
    intros i Hi. destruct (fs_find_range T B (rel_inv _ _ _ _ Hrel) p nm i Hp Hi) as (_ & Hi64 & _).
    destruct (v_inode _ _ _ _ (rel_view _ _ _ _ Hrel) i Hi64) as [Hr _].
    apply (Hd i); [|done].
    rewrite (simplefs_lookup_spec _ N T B p name nm) by (done || apply Hrel). by rewrite Hi.
Qed.
Lemma fs_steps_rel f f' N : rtc fs_step f f' ->
  (exists T B, fs_rel f N T B) -> exists T B, fs_rel f' N T B.
Proof. induction 1; eauto using fs_step_rel. Qed.

(** simplefs_init on a disk without the magic number terminates and leaves the
    empty file system: every inode but the root is free, and the root holds
    [.] and [..], both naming inode 0. *)
Theorem simplefs_init_formats d :
  MIN_SECTORS <= dev_sectors d -> unformatted d ->
  exists f B, simplefs_init d = Some f /\ fs_rel f (dev_sectors d) fresh_table B /\
    (forall q nm, fs_find fresh_table B q nm = if decide (q = 0) then dots 0 0 nm else None) /\
    (forall j, fs_file fresh_table B j = None).
Proof.
  intros HN Hu. destruct (simplefs_init_format d HN Hu) as (d' & B & Hf & Hrel & HB).
  exists (mk_fs d' fresh_sb), B. split_and!; try done.
  - intros q nm. by apply fresh_find.
  - intros j. unfold fs_file, fresh_table. by case_decide.
Qed.

(** C1. Every disk reached from a fresh one by any sequence of create, mkdir and
    write, the writes going to names that are not directories with at most
    0xFFFFFE00 bytes ([fs_step]), satisfies the invariant (no
    block is shared between two inodes or named twice, every file owns the
    blocks of its size, every directory entry names a live inode, no
    directory names anything twice), and mounting
    it again gives the same file system: nothing lives in memory only. *)
Theorem simplefs_reachable_sound d f0 f :
  MIN_SECTORS <= dev_sectors d -> unformatted d -> simplefs_init d = Some f0 ->
  rtc fs_step f0 f ->
  (exists T B, fs_rel f (dev_sectors d) T B) /\ simplefs_init (dev f) = Some f.
Proof.
  intros HN Hu Hi Hs. destruct (simplefs_init_format d HN Hu) as (d' & B & Hf & Hrel & _).
  rewrite Hf in Hi. injection Hi as <-.
  destruct (fs_steps_rel _ _ (dev_sectors d) Hs) as (T' & B' & Hrel'); [by eexists _, _|].
  split; [by exists T', B'|by eapply remount].
Qed.

(** C19. simplefs_create terminates, keeps the invariant and refines
    [create_outcome]: 0 exactly when the name now finds a new empty file, with
    every other name and every other content as before; -1 with nothing
    changed; or -1 because the directory is full. *)
Theorem simplefs_create_correct f N T B p name nm :
  fs_rel f N T B -> 0 <= p < 64 -> c_name name nm ->
  exists r f' T' B', simplefs_create f p name = Some (r, f') /\ fs_rel f' N T' B' /\
    create_outcome T B p nm r T' B'.
Proof. apply simplefs_create_spec. Qed.

(** C20. simplefs_mkdir terminates, keeps the invariant and refines
    [mkdir_outcome]: on success the name finds a new directory whose only
    entries are [.] and [..], and nothing else changes. *)
Theorem simplefs_mkdir_correct f N T B p name nm :
  fs_rel f N T B -> 0 <= p < 64 -> c_name name nm ->
  exists r f' T' B', simplefs_mkdir f p name = Some (r, f') /\ fs_rel f' N T' B' /\
    mkdir_outcome T B p nm r T' B'.
Proof. apply simplefs_mkdir_spec. Qed.

(** C7. simplefs_write on a plain file terminates, keeps the invariant and refines
    [write_outcome]: 0 with the file now holding exactly the bytes written and
    every other file and directory unchanged, or -1 with nothing changed when
    the name is absent or the size exceeds 30 blocks. *)
Theorem simplefs_write_correct f N T B p name nm buf size :
  fs_rel f N T B -> 0 <= p < 64 -> c_name name nm -> bytes_ok buf ->
  0 <= size <= 0xFFFFFE00 -> size <= Z.of_nat (length buf) ->
  (forall i, fs_find T B p nm = Some i -> inode_dir (T i) = false) ->
  exists r f' T' B', simplefs_write f p name buf size = Some (r, f') /\ fs_rel f' N T' B' /\
    write_outcome T B p nm buf size r T' B'.
Proof. apply simplefs_write_spec. Qed.

(** C21. simplefs_read answers the first bytes of the named file, as many as the
    file has and the caller asked for, and leaves the rest of the buffer alone;
    it answers -1 for an absent name and for a directory. *)
Theorem simplefs_read_correct f N T B p name nm buf size :
  fs_rel f N T B -> 0 <= p < 64 -> c_name name nm -> 0 <= size < 4294967296 ->
  (forall i c, fs_find T B p nm = Some i -> fs_file T B i = Some c ->
     (Z.to_nat size `min` length c <= length buf)%nat) ->
  simplefs_read (dev f) p name buf size =
  Some (match i ← fs_find T B p nm; fs_file T B i with
        | None => (-1, buf)
        | Some c => let n := (Z.to_nat size `min` length c)%nat in
                    (Z.of_nat n, take n c ++ drop n buf)
        end).
Proof. apply simplefs_read_spec. Qed.

Lemma write_plain f N T B p name nm buf size i :
  fs_rel f N T B -> 0 <= p < 64 -> c_name name nm -> bytes_ok buf ->
  0 <= size <= MAX_FILE -> size <= Z.of_nat (length buf) ->
  fs_find T B p nm = Some i -> inode_dir (T i) = false ->
  exists f' T' B', simplefs_write f p name buf size = Some (0, f') /\ fs_rel f' N T' B' /\
    (forall q nm', 0 <= q < 64 -> fs_find T' B' q nm' = fs_find T B q nm') /\
    (forall j, 0 <= j < 64 -> fs_file T' B' j =
       if decide (j = i) then Some (take (Z.to_nat size) buf) else fs_file T B j).
Proof.
  intros Hrel Hp Hn Hb Hs Hl Hf Hd. unfold MAX_FILE in *.
  destruct (simplefs_write_spec f N T B p name nm buf size Hrel Hp Hn Hb) as
    (r & f' & T' & B' & Hw & Hrel' & Ho); [lia|done|intros j; rewrite Hf; by intros [= <-]|].
  inversion Ho as [Hx|j ? ? Hfj Hsz Hfind Hfile]; subst.
  - exfalso. unfold MAX_FILE in Hx. destruct Hx as [|]; [congruence|lia].
  - rewrite Hf in Hfj. injection Hfj as <-. by exists f', T', B'.
Qed.

(** Reading back what was written gives the bytes written, whatever the buffer
    held; and a read of any other file answers as it did before the write. *)
Theorem simplefs_write_read_roundtrip f N T B p name nm buf size i rbuf :
  fs_rel f N T B -> 0 <= p < 64 -> c_name name nm -> bytes_ok buf ->
  0 <= size <= MAX_FILE -> size <= Z.of_nat (length buf) -> size <= Z.of_nat (length rbuf) ->
  fs_find T B p nm = Some i -> inode_dir (T i) = false ->
  exists f', simplefs_write f p name buf size = Some (0, f') /\
    simplefs_read (dev f') p name rbuf size =
      Some (size, take (Z.to_nat size) buf ++ drop (Z.to_nat size) rbuf) /\
    forall q name' nm' j c b s, 0 <= q < 64 -> c_name name' nm' ->
      fs_find T B q nm' = Some j -> j <> i -> fs_file T B j = Some c ->
      0 <= s < 4294967296 -> (Z.to_nat s `min` length c <= length b)%nat ->
      simplefs_read (dev f') q name' b s = simplefs_read (dev f) q name' b s.
Proof.
  intros Hrel Hp Hn Hb Hs Hl Hlr Hf Hd.
  destruct (write_plain f N T B p name nm buf size i) as (f' & T' & B' & Hw & Hrel' & Hfind & Hfile);
    try done.
  destruct (fs_find_range T B (rel_inv _ _ _ _ Hrel) p nm i Hp Hf) as (_ & Hi & _).
  assert (Hlen : length (take (Z.to_nat size) buf) = Z.to_nat size) by (rewrite length_take; lia).
  exists f'. split; [done|]. split.
  - rewrite (simplefs_read_spec f' N T' B' p name nm) by
      first [done | unfold MAX_FILE in *; lia | intros j c; rewrite Hfind, Hf by done;
        intros [= <-]; rewrite Hfile, decide_True by done; intros [= <-]; rewrite Hlen; lia].
    rewrite Hfind, Hf by done. cbn [mbind option_bind]. rewrite Hfile, decide_True by done.
    rewrite Hlen, Nat.min_id, take_take, Nat.min_id. cbv zeta. do 2 f_equal. lia.
  - intros q name' nm' j c b s Hq Hn' Hfj Hne Hc Hs' Hbuf.
    destruct (fs_find_range T B (rel_inv _ _ _ _ Hrel) q nm' j Hq Hfj) as (_ & Hj & _).
    rewrite (simplefs_read_spec f' N T' B' q name' nm'),
      (simplefs_read_spec f N T B q name' nm'); try done.
    + rewrite Hfind, Hfj by done. cbn [mbind option_bind]. by rewrite Hfile, decide_False.
    + intros j' c'. rewrite Hfj. intros [= <-]. rewrite Hc. by intros [= <-].
    + intros j' c'. rewrite Hfind, Hfj by done. intros [= <-]. rewrite Hfile, decide_False by done.
      rewrite Hc. by intros [= <-].
Qed.

(** find_free_data_block terminates on every disk that holds an inode table,
    and answers the lowest data sector no live inode names, at most 1937. *)
Theorem find_free_data_block_correct f N T B :
  view (dev f) N T B -> data_block_start (sb f) = 17 ->
  exists r, find_free_data_block f = Some r /\ 17 <= r <= LAST_BLOCK /\
    ~ block_in_use T r /\ forall b, 17 <= b < r -> block_in_use T b.
Proof. apply find_free_data_block_spec. Qed.

(** A full directory makes create answer -1 after it has taken an inode: the
    inode stays in use and no name finds it. *)
Theorem simplefs_create_leaks_inode f N T B p name nm :
  fs_rel f N T B -> 0 <= p < 64 -> c_name name nm ->
  can_create T B p nm -> dir_full T B p -> ~ no_inode T ->
  exists f' T' B' i, simplefs_create f p name = Some (-1, f') /\ fs_rel f' N T' B' /\
    fresh T i /\ fs_file T B i = None /\ fs_file T' B' i = Some [] /\
    forall q nm', 0 <= q < 64 -> fs_find T' B' q nm' <> Some i.
Proof.
  intros Hrel Hp Hn Hcan Hfull Hfree. pose proof (rel_inv _ _ _ _ Hrel) as Hinv.
  destruct (simplefs_create_spec f N T B p name nm Hrel Hp Hn) as (r & f' & T' & B' & E & Hrel' & Ho).
  assert (Hnf : forall i q nm', fresh T i -> 0 <= q < 64 -> fs_find T B q nm' <> Some i).
  { intros i q nm' (_ & Hu & _) Hq Hx. destruct (fs_find_range T B Hinv q nm' i Hq Hx) as (_ & _ & ?).
    congruence. }
  destruct Ho as [Hx|i T' B' _ _ Hx _ _|i T' B' _ Hi _ Hfind Hfile]; [tauto|done|].
  exists f', T', B', i. pose proof Hi as (Hi64 & Hu & _). split; [done|]. split; [done|].
  split; [done|]. split; [unfold fs_file; by rewrite Hu|].
  split; [by rewrite Hfile, decide_True|]. intros q nm' Hq. rewrite Hfind by done. by apply Hnf.
Qed.
(** A size within 511 bytes of 4 GB makes the block count wrap to 0: the write
    stores nothing, answers 0 and records the size in the inode. *)
Theorem simplefs_write_size_wraps f N T B p name nm buf size i :
  fs_rel f N T B -> 0 <= p < 64 -> c_name name nm -> fs_find T B p nm = Some i ->
  0xFFFFFE00 < size < 4294967296 ->
  exists f' n, simplefs_write f p name buf size = Some (0, f') /\
    simplefs_get_inode (dev f') i = Some (Some n) /\ i_size n = size /\
    i_blocks n = i_blocks (T i).
Proof.
  intros [Hv Hst Hsup Hinv] Hp Hname Hf Hsize. unfold simplefs_write.
  rewrite (simplefs_lookup_spec _ N T B p name nm) by done. cbn [mbind option_bind].
  rewrite Hf. cbn [from_option]. unfold id.
  destruct (fs_find_range T B Hinv p nm i Hp Hf) as (_ & Hi & _).
  rewrite (proj2 (Z.eqb_neq i (-1))), u32_small by lia.
  assert (Hw : blocks_needed size = 0) by (unfold blocks_needed; word). rewrite Hw.
  destruct (v_inode _ _ _ _ Hv i Hi) as [-> [Hs Hfl Hb Hl]].
  change (SIMPLEFS_DIRECT_BLOCKS <? 0) with false. change (Z.to_nat 0) with 0%nat.
  cbn [write_blocks mbind option_bind].
  destruct (write_inode_spec (dev f) N T B i (set_i_size (T i) size) Hv Hi) as (d' & -> & Hv').
  { split; try done. simpl. unfold word32. lia. }
  exists (set_dev f d'), (set_i_size (T i) size). split; [done|]. split; [|done].
  unfold simplefs_get_inode, SIMPLEFS_INODE_COUNT. rewrite (proj2 (Z.leb_gt _ _)) by lia.
  destruct (v_inode _ _ _ _ Hv' i Hi) as [Hr _]. unfold read_inode in Hr.
  apply mbind_Some in Hr as (s & Hs' & Hr). simpl. rewrite Hs'. cbn [mbind option_bind].
  by rewrite Hr, fn_lookup_insert.
Qed.
End Props.

(** ** Runs on the blank RAM disk *)
Import RamDisk.
Definition demo_fs : fs disk := default (mk_fs blank fresh_sb) (simplefs_init blank).

Lemma blank_unformatted : unformatted blank.
Proof. exists zero_sector. split; [vm_compute; reflexivity|]. left. vm_compute. discriminate. Qed.
Lemma blank_big : MIN_SECTORS <= dev_sectors blank.
Proof. vm_compute. discriminate. Qed.
Lemma demo_rel : exists B, fs_rel demo_fs 32768 fresh_table B /\ B 17 = root_sector.
Proof.
  destruct (simplefs_init_format blank) as (d' & B & Hf & Hrel & HB).
  - exact blank_big.
  - exact blank_unformatted.
  - exists B. unfold demo_fs. rewrite Hf. split; [exact Hrel|exact HB].
Qed.
#[local] Opaque demo_fs.

(** simplefs_write does not look at INODE_DIR: writing 32 zero bytes to [.]
    succeeds and empties the root directory. *)
Example simplefs_write_clobbers_directory :
  simplefs_lookup (dev demo_fs) 0 (cbuf name_dotdot) = Some 0 /\
  ('(r, f) ← simplefs_write demo_fs 0 (cbuf name_dot) (replicate 32 0) 32;
   l ← simplefs_lookup (dev f) 0 (cbuf name_dotdot); Some (r, l)) = Some (0, -1).
Proof. vm_compute. split; reflexivity. Qed.

(** The name ["a"], a file of that name in the root, and a full root. *)
Definition name_a : list Z := [97].
Lemma root_range : 0 <= 0 < 64.
Proof. done. Qed.
Lemma name_a_ok : c_name (cbuf name_a) name_a.
Proof. split; [by repeat constructor|done|done]. Qed.

Lemma create_in_fresh (f : fs disk) B :
  fs_rel f 32768 fresh_table B -> B 17 = root_sector ->
  exists f' T B i, simplefs_create f 0 (cbuf name_a) = Some (0, f') /\
    fs_rel f' 32768 T B /\ fs_find T B 0 name_a = Some i /\ fs_file T B i = Some [].
Proof.
  intros Hrel HB. assert (Hcan : can_create fresh_table B 0 name_a).
  { split; [done|]. split; [done|]. by rewrite fresh_find. }
  assert (Hnfull : ~ dir_full fresh_table B 0).
  { unfold dir_full. change (dir_block fresh_table 0) with 17. rewrite HB.
    destruct root_sector_ok as [_ ->]. unfold new_dir. rewrite !Forall_cons.
    intros (_ & _ & [[? [=]] _]%Forall_cons). }
  destruct (simplefs_create_spec f 32768 fresh_table B 0 (cbuf name_a) name_a Hrel)
    as (r & f' & T & B' & E & Hrel' & Ho); [done|apply name_a_ok|].
  destruct Ho as [[Hx|Hx]|i T B' _ (Hi & _) _ Hfind Hfile|i T B' _ _ Hx _ _];
    [tauto|by specialize (Hx 1 ltac:(done))| |tauto].
  exists f', T, B', i. split; [exact E|]. split; [exact Hrel'|].
  rewrite Hfind, Hfile, !decide_True by done. split; reflexivity.
Qed.
Lemma demo_file : exists f T B i, simplefs_create demo_fs 0 (cbuf name_a) = Some (0, f) /\
  fs_rel f 32768 T B /\ fs_find T B 0 name_a = Some i /\ fs_file T B i = Some [].
Proof. destruct demo_rel as (B & Hrel & HB). exact (create_in_fresh demo_fs B Hrel HB). Qed.
Lemma demo_plain (T : inode_table) (B : block_store) i :
  fs_file T B i = Some [] -> inode_dir (T i) = false.
Proof. unfold fs_file. destruct (inode_dir (T i)); [|done]. by rewrite andb_false_r. Qed.

Definition full_dir : list DirEntry :=
  take 2 (new_dir 0 0) ++
  ((fun k => mk_dirent 0 (98 + Z.of_nat k :: replicate 27 0)) <$> seq 0 14).
Lemma fill_fresh (f0 : fs disk) B0 : fs_rel f0 32768 fresh_table B0 ->
  exists f B, fs_rel (D := disk) f 32768 fresh_table B /\
  can_create fresh_table B 0 name_a /\ dir_full fresh_table B 0.
Proof.
  intros [Hv Hst Hsup Hinv].
  assert (Hnamed : Forall (fun e => is_Some (entry_name e)) full_dir).
  { unfold full_dir. simpl. rewrite !Forall_cons. split_and!; [by eexists..|done]. }
  assert (Hok : Forall entry_ok full_dir).
  { unfold full_dir. apply Forall_app. split.
    - apply Forall_take. by apply new_dir_ok.
    - apply Forall_fmap, Forall_seq. intros k Hk. split; [|exists [98 + Z.of_nat k]].
      + split; [done| |done]. simpl. constructor; [lia|]. by repeat constructor.
      + simpl. by rewrite (proj2 (Z.eqb_neq _ _)) by lia. }
  destruct (sector_of_dirents_ok full_dir) as [Hso Hdec]; [|done|].
  { eapply Forall_impl; [exact Hok|]. by intros x [? _]. }
  destruct (write_block_spec (dev f0) 32768 fresh_table B0 17 _ Hv ltac:(done) Hso)
    as (d & _ & Hv').
  set (B' := <[17 := sector_of_dirents full_dir]> B0) in *.
  assert (HB' : dirents_of_sector (B' 17) = full_dir).
  { unfold B'. by rewrite fn_lookup_insert, Hdec. }
  exists (set_dev f0 d), B'. split; [|split].
  - split; [exact Hv'|exact Hst|exact Hsup|]. apply inv_set_block; [done|]. intros i Hi Hd _.
    unfold dir_block_ok. rewrite Hdec. split; [done|].
    split; [|by apply (bool_decide_unpack _)]. intros nm j Hj.
    apply dir_find_elem in Hj as (e & He & _ & <-).
    assert (HF : Forall (fun e => inode_idx e = 0) full_dir) by (by repeat constructor).
    rewrite Forall_forall in HF. by rewrite (HF e He).
  - split; [done|]. split; [done|]. unfold fs_find. change (dir_block fresh_table 0) with 17.
    change (inode_dir (fresh_table 0)) with true. cbn iota. rewrite HB'. reflexivity.
  - unfold dir_full. change (dir_block fresh_table 0) with 17. by rewrite HB'.
Qed.
Lemma demo_full : exists f B, fs_rel (D := disk) f 32768 fresh_table B /\
  can_create fresh_table B 0 name_a /\ dir_full fresh_table B 0.
Proof. destruct demo_rel as (B & Hrel & _). exact (fill_fresh demo_fs B Hrel). Qed.

Lemma simplefs_init_formats_witness :
  exists f B, simplefs_init blank = Some f /\ fs_rel f (dev_sectors blank) fresh_table B /\
    (forall q nm, fs_find fresh_table B q nm = if decide (q = 0) then dots 0 0 nm else None) /\
    (forall j, fs_file fresh_table B j = None).
Proof.
  apply (simplefs_init_formats blank).
  - exact blank_big.
  - exact blank_unformatted.
Defined.

Lemma simplefs_reachable_sound_witness : exists f1,
  (exists T B, fs_rel f1 (dev_sectors blank) T B) /\ simplefs_init (dev f1) = Some f1.
Proof.
  destruct (simplefs_init_format blank blank_big blank_unformatted)
    as (d & B & Hf & Hrel & _).
  destruct (simplefs_create_spec (mk_fs d fresh_sb) 32768 fresh_table B 0 (cbuf name_a) name_a Hrel
    root_range name_a_ok) as (r & f1 & T & B' & E & _).
  exists f1. apply (simplefs_reachable_sound blank (mk_fs d fresh_sb) f1).
  - exact blank_big.
  - exact blank_unformatted.
  - exact Hf.
  - apply rtc_once. exact (step_create _ 0 _ name_a r f1 root_range name_a_ok E).
Defined.

Lemma simplefs_create_correct_witness : exists B r f' T' B',
  simplefs_create demo_fs 0 (cbuf name_a) = Some (r, f') /\ fs_rel f' 32768 T' B' /\
  create_outcome fresh_table B 0 name_a r T' B'.
Proof.
  destruct demo_rel as (B & Hrel & _). exists B.
  apply (simplefs_create_correct demo_fs 32768 fresh_table B 0 (cbuf name_a) name_a).
  - exact Hrel.
  - exact root_range.
  - exact name_a_ok.
Defined.

Lemma simplefs_mkdir_correct_witness : exists B r f' T' B',
  simplefs_mkdir demo_fs 0 (cbuf name_a) = Some (r, f') /\ fs_rel f' 32768 T' B' /\
  mkdir_outcome fresh_table B 0 name_a r T' B'.
Proof.
  destruct demo_rel as (B & Hrel & _). exists B.
  apply (simplefs_mkdir_correct demo_fs 32768 fresh_table B 0 (cbuf name_a) name_a).
  - exact Hrel.
  - exact root_range.
  - exact name_a_ok.
Defined.

Lemma simplefs_write_correct_witness : exists f T B i r f' T' B',
  fs_find T B 0 name_a = Some i /\
  simplefs_write f 0 (cbuf name_a) (replicate 600 7) 600 = Some (r, f') /\
  fs_rel (D := disk) f' 32768 T' B' /\ write_outcome T B 0 name_a (replicate 600 7) 600 r T' B'.
Proof.
  destruct demo_file as (f & T & B & i & _ & Hrel & Hf & Hc). exists f, T, B, i.
  destruct (simplefs_write_correct f 32768 T B 0 (cbuf name_a) name_a (replicate 600 7) 600)
    as (r & f' & T' & B' & Hres).
  - exact Hrel.
  - exact root_range.
  - exact name_a_ok.
  - by apply bytes_ok_replicate.
  - done.
  - done.
  - intros j Hj. rewrite Hf in Hj. injection Hj as <-. exact (demo_plain T B i Hc).
  - exists r, f', T', B'. exact (conj Hf Hres).
Defined.

Lemma simplefs_read_correct_witness : exists f T B i,
  fs_find T B 0 name_a = Some i /\
  simplefs_read (D := disk) (dev f) 0 (cbuf name_a) (replicate 8 9) 8 =
  Some (match i ← fs_find T B 0 name_a; fs_file T B i with
        | None => (-1, replicate 8 9)
        | Some c => let n := (8 `min` length c)%nat in
                    (Z.of_nat n, take n c ++ drop n (replicate 8 9))
        end).
Proof.
  destruct demo_file as (f & T & B & i & _ & Hrel & Hf & Hc). exists f, T, B, i.
  split; [exact Hf|].
  apply (simplefs_read_correct f 32768 T B 0 (cbuf name_a) name_a (replicate 8 9) 8).
  - exact Hrel.
  - exact root_range.
  - exact name_a_ok.
  - done.
  - intros j c Hj Hcj. rewrite length_replicate. apply Nat.le_min_l.
Defined.

Lemma simplefs_write_read_roundtrip_witness : exists f f',
  simplefs_write (D := disk) f 0 (cbuf name_a) (replicate 600 7) 600 = Some (0, f') /\
  simplefs_read (dev f') 0 (cbuf name_a) (replicate 700 1) 600 =
    Some (600, take 600 (replicate 600 7) ++ drop 600 (replicate 700 1)).
Proof.
  destruct demo_file as (f & T & B & i & _ & Hrel & Hf & Hc). exists f.
  destruct (simplefs_write_read_roundtrip f 32768 T B 0 (cbuf name_a) name_a (replicate 600 7) 600 i
    (replicate 700 1)) as (f' & Hw & Hr & _).
  - exact Hrel.
  - exact root_range.
  - exact name_a_ok.
  - by apply bytes_ok_replicate.
  - done.
  - done.
  - done.
  - exact Hf.
  - exact (demo_plain T B i Hc).
  - exists f'. exact (conj Hw Hr).
Defined.

Lemma find_free_data_block_correct_witness :
  exists r, find_free_data_block demo_fs = Some r /\ 17 <= r <= LAST_BLOCK /\
    ~ block_in_use fresh_table r /\ forall b, 17 <= b < r -> block_in_use fresh_table b.
Proof.
  destruct demo_rel as (B & Hrel & _).
  apply (find_free_data_block_correct demo_fs 32768 fresh_table B).
  - exact (rel_view _ _ _ _ Hrel).
  - exact (rel_start _ _ _ _ Hrel).
Defined.

Lemma simplefs_create_leaks_inode_witness : exists f B f' T' B' i,
  simplefs_create (D := disk) f 0 (cbuf name_a) = Some (-1, f') /\ fs_rel f' 32768 T' B' /\
  fresh fresh_table i /\ fs_file fresh_table B i = None /\ fs_file T' B' i = Some [] /\
  forall q nm', 0 <= q < 64 -> fs_find T' B' q nm' <> Some i.
Proof.
  destruct demo_full as (f & B & Hrel & Hcan & Hfull). exists f, B.
  apply (simplefs_create_leaks_inode f 32768 fresh_table B 0 (cbuf name_a) name_a).
  - exact Hrel.
  - exact root_range.
  - exact name_a_ok.
  - exact Hcan.
  - exact Hfull.
  - intros Hx. by specialize (Hx 1 ltac:(done)).
Defined.

Lemma simplefs_write_size_wraps_witness : exists f T i f' n,
  simplefs_write (D := disk) f 0 (cbuf name_a) [] 0xFFFFFFFF = Some (0, f') /\
  simplefs_get_inode (dev f') i = Some (Some n) /\ i_size n = 0xFFFFFFFF /\
  i_blocks n = i_blocks (T i).
Proof.
  destruct demo_file as (f & T & B & i & _ & Hrel & Hf & _). exists f, T, i.
  apply (simplefs_write_size_wraps f 32768 T B 0 (cbuf name_a) name_a [] 0xFFFFFFFF i).
  - exact Hrel.
  - exact root_range.
  - exact name_a_ok.
  - exact Hf.
  - done.
Defined.
