(* ===== verification/PortIo.v ===== *)
(** * arch/x86/io.h: the I/O ports

    The machine behind the ports is not code of the repository: it is a type
    [W] with the four port instructions, and each driver states the laws of the
    device it talks to. *)
From S2P Require Import Prelude.

Class Ports (W : Type) := {
  outb : W -> Z -> Z -> W;   (* port, value *)
  inb : W -> Z -> Z * W;     (* port *)
  outw : W -> Z -> Z -> W;
  inw : W -> Z -> Z * W;
}.

(** [outb %al, $0x80] *)
Definition io_wait {W} `{Ports W} (w : W) : W := outb w 0x80 0.

(** A machine that answers its reads from a list, then 0, and records what is
    written to it: the trace of a driver. *)
Module Trace.
Record t : Type := mk_trace { t_in : list Z; t_out : list (Z * Z) }.
Definition put (w : t) (port v : Z) : t := mk_trace (t_in w) (t_out w ++ [(port, v)]).
Definition get (w : t) (port : Z) : Z * t :=
  match t_in w with [] => (0, w) | x :: rest => (x, mk_trace rest (t_out w)) end.
#[export] Instance trace_ports : Ports t := { outb := put; inb := get; outw := put; inw := get }.
End Trace.
