(* ===== verification/Pic.v ===== *)
(** * drivers/pic.cpp and drivers/pic.h: the 8259 interrupt controllers

    The controllers are reached through the ports only; [PicLaws] states the
    one documented fact the mask operations rely on, that the data port reads
    back the interrupt mask last written. *)
From S2P Require Import Prelude PortIo.

Definition PIC1_COMMAND : Z := 0x20.
Definition PIC1_DATA : Z := 0x21.
Definition PIC2_COMMAND : Z := 0xA0.
Definition PIC2_DATA : Z := 0xA1.
Definition PIC_EOI : Z := 0x20.

Section Pic.
Context {W : Type} `{Ports W}.
Implicit Types w : W.

(** [outb(port, v); io_wait();] *)
Definition outb_wait w (port v : Z) : W := io_wait (outb w port v).

Definition pic_remap w : W :=
  let w := outb_wait w PIC1_COMMAND 0x11 in
  let w := outb_wait w PIC2_COMMAND 0x11 in
  let w := outb_wait w PIC1_DATA 0x20 in
  let w := outb_wait w PIC2_DATA 0x28 in
  let w := outb_wait w PIC1_DATA 0x04 in
  let w := outb_wait w PIC2_DATA 0x02 in
  let w := outb_wait w PIC1_DATA 0x01 in
  let w := outb_wait w PIC2_DATA 0x01 in
  let w := outb w PIC1_DATA 252 in
  outb w PIC2_DATA 255.

Definition pic_send_eoi w (irq : Z) : W :=
  let w := if 8 <=? irq then outb w PIC2_COMMAND PIC_EOI else w in
  outb w PIC1_COMMAND PIC_EOI.

(** The port and the bit of an IRQ line ([irq_line] is an unsigned char). *)
Definition mask_port (irq_line : Z) : Z := if irq_line <? 8 then PIC1_DATA else PIC2_DATA.
Definition mask_line (irq_line : Z) : Z := if irq_line <? 8 then irq_line else u8 (irq_line - 8).

Definition pic_set_mask w (irq_line : Z) : W :=
  let port := mask_port irq_line in
  let '(v, w) := inb w port in
  outb w port (u8 (Z.lor v (u32 (Z.shiftl 1 (mask_line irq_line))))).

Definition pic_clear_mask w (irq_line : Z) : W :=
  let port := mask_port irq_line in
  let '(v, w) := inb w port in
  outb w port (u8 (Z.land v (Z.lnot (u32 (Z.shiftl 1 (mask_line irq_line)))))).
End Pic.

(** The interrupt mask registers: [imr w port] is the byte behind a data port. *)
Class PicLaws (W : Type) `{Ports W} := {
  imr : W -> Z -> Z;
  imr_byte : forall w port, 0 <= imr w port < 256;
  imr_read : forall w port, port = PIC1_DATA \/ port = PIC2_DATA ->
    fst (inb w port) = imr w port /\ forall p, imr (snd (inb w port)) p = imr w p;
  imr_write : forall w port v p, port = PIC1_DATA \/ port = PIC2_DATA -> 0 <= v < 256 ->
    imr (outb w port v) p = if p =? port then v else imr w p;
}.

(** The mask bit of an IRQ line, 0 to 15. *)
Definition masked {W} `{PicLaws W} (w : W) (irq : Z) : bool :=
  Z.testbit (imr w (mask_port irq)) (mask_line irq).

Lemma mask_port_data irq : mask_port irq = PIC1_DATA \/ mask_port irq = PIC2_DATA.
Proof. unfold mask_port. case_match; auto. Qed.
Lemma mask_line_range irq : 0 <= irq < 16 -> 0 <= mask_line irq < 8.
Proof. intros. unfold mask_line. case_match; [lia|]. rewrite u8_small; lia. Qed.
Lemma mask_bit_eq irq j : 0 <= irq < 16 -> 0 <= j < 16 ->
  (mask_port j = mask_port irq /\ mask_line j = mask_line irq) <-> j = irq.
Proof.
  intros Hi Hj. unfold mask_port, mask_line, PIC1_DATA, PIC2_DATA.
  split; [|by intros ->]. destruct (Z.ltb_spec j 8), (Z.ltb_spec irq 8);
    rewrite ?u8_small by lia; lia.
Qed.

Lemma testbit_u8 x n : 0 <= n < 8 -> Z.testbit (u8 x) n = Z.testbit x n.
Proof. intros. unfold u8. change 256 with (2 ^ 8). apply Z.mod_pow2_bits_low. lia. Qed.
Lemma line_bit line n : 0 <= line < 8 -> 0 <= n < 8 ->
  Z.testbit (u32 (Z.shiftl 1 line)) n = (n =? line).
Proof.
  intros Hl Hn. rewrite Z.shiftl_mul_pow2, Z.mul_1_l by lia. unfold u32.
  change 4294967296 with (2 ^ 32). rewrite Z.mod_pow2_bits_low by lia.
  rewrite Z.pow2_bits_eqb by lia. apply Z.eqb_sym.
Qed.

Section Mask.
Context {W : Type} `{PicLaws W}.
Implicit Types w : W.

Lemma set_mask_imr w irq p : imr (pic_set_mask w irq) p =
  if p =? mask_port irq then u8 (Z.lor (imr w p) (u32 (Z.shiftl 1 (mask_line irq)))) else imr w p.
Proof.
  unfold pic_set_mask. destruct (imr_read w _ (mask_port_data irq)) as [Hr Hsame].
  destruct (inb w (mask_port irq)) as [v w'] eqn:E. simpl in *. subst v.
  rewrite imr_write by (apply mask_port_data || apply u8_range). rewrite Hsame.
  destruct (Z.eqb_spec p (mask_port irq)) as [->|]; done.
Qed.
Lemma clear_mask_imr w irq p : imr (pic_clear_mask w irq) p =
  if p =? mask_port irq
  then u8 (Z.land (imr w p) (Z.lnot (u32 (Z.shiftl 1 (mask_line irq))))) else imr w p.
Proof.
  unfold pic_clear_mask. destruct (imr_read w _ (mask_port_data irq)) as [Hr Hsame].
  destruct (inb w (mask_port irq)) as [v w'] eqn:E. simpl in *. subst v.
  rewrite imr_write by (apply mask_port_data || apply u8_range). rewrite Hsame.
  destruct (Z.eqb_spec p (mask_port irq)) as [->|]; done.
Qed.

(** pic_set_mask masks exactly the line it is given and pic_clear_mask unmasks
    exactly it, for the sixteen lines of the two controllers. *)
Theorem pic_masks_one_line w irq j :
  0 <= irq < 16 -> 0 <= j < 16 ->
  masked (pic_set_mask w irq) j = (j =? irq) || masked w j /\
  masked (pic_clear_mask w irq) j = negb (j =? irq) && masked w j.
Proof.
  intros Hi Hj. pose proof (mask_line_range irq Hi). pose proof (mask_line_range j Hj).
  pose proof (mask_bit_eq irq j Hi Hj) as Heq.
  unfold masked. rewrite set_mask_imr, clear_mask_imr.
  destruct (Z.eqb_spec (mask_port j) (mask_port irq)) as [Hp|Hp].
  - rewrite !testbit_u8, Z.lor_spec, Z.land_spec, Z.lnot_spec, line_bit by lia.
    replace (mask_line j =? mask_line irq) with (j =? irq) by lia.
    destruct (j =? irq), (Z.testbit _ _); done.
  - rewrite (proj2 (Z.eqb_neq j irq)) by naive_solver. done.
Qed.
End Mask.

(** ** Two mask registers behind the data ports *)
Module Imr.
Definition t : Type := Z * Z.
Definition port_out (w : t) (port v : Z) : t :=
  if port =? PIC1_DATA then (u8 v, snd w) else if port =? PIC2_DATA then (fst w, u8 v) else w.
Definition port_in (w : t) (port : Z) : Z * t :=
  (if port =? PIC1_DATA then u8 (fst w) else if port =? PIC2_DATA then u8 (snd w) else 0, w).
#[export] Instance imr_ports : Ports t := {
  outb := port_out; inb := port_in; outw w _ _ := w; inw w _ := (0, w);
}.
#[export] Instance imr_laws : PicLaws t.
Proof.
  refine {| imr w port := fst (port_in w port) |}.
  - intros w port. unfold port_in. simpl. repeat case_match; [apply u8_range..|lia].
  - done.
  - intros w port v p Hport Hv. unfold port_in, PIC1_DATA, PIC2_DATA in *. simpl.
    unfold port_out, PIC1_DATA, PIC2_DATA.
    destruct Hport as [-> | ->]; simpl;
      destruct (Z.eqb_spec p 33), (Z.eqb_spec p 161); subst; simpl; try done;
      rewrite ?(u8_small v), ?u8_small by done; done.
Defined.
End Imr.
Import Imr.

Lemma pic_masks_one_line_witness :
  masked (pic_set_mask ((252, 255) : Imr.t) 1) 0 = (0 =? 1) || masked ((252, 255) : Imr.t) 0 /\
  masked (pic_clear_mask ((252, 255) : Imr.t) 1) 0 = negb (0 =? 1) && masked ((252, 255) : Imr.t) 0.
Proof. apply (pic_masks_one_line ((252, 255) : Imr.t) 1 0); lia. Defined.
