(* ===== verification/Keyboard.v ===== *)
(** * drivers/keyboard.cpp: scancodes to a ring buffer

    A ring of 128 bytes with [keyboard_head] and [keyboard_tail]; the abstract
    state is the list of keys waiting, oldest first, at most 127 of them. *)
From S2P Require Import Prelude PortIo Pic.

Definition KBD_SIZE : Z := 128.

Record keyboard := mk_kbd {
  keyboard_buffer : list Z;
  keyboard_head : Z;
  keyboard_tail : Z;
}.
Definition keyboard_init : keyboard := mk_kbd (replicate 128 0) 0 0.

(** The scancode set 1 table; the entries after F12 are zero. *)
Definition kbd_us : list Z :=
  [0; 27; 49; 50; 51; 52; 53; 54; 55; 56;
   57; 48; 45; 61; 8;
   9;
   113; 119; 101; 114;
   116; 121; 117; 105; 111; 112; 91; 93; 10;
   0;
   97; 115; 100; 102; 103; 104; 106; 107; 108; 59;
   39; 96; 0;
   92; 122; 120; 99; 118; 98; 110;
   109; 44; 46; 47; 0;
   42;
   0;
   32;
   0;
   0;
   0; 0; 0; 0; 0; 0; 0; 0;
   0;
   0;
   0;
   0;
   0;
   0;
   45;
   0;
   0;
   0;
   43;
   0;
   0;
   0;
   0;
   0;
   0; 0; 0;
   0;
   0;
   0] ++ replicate 38 0.

Definition enqueue_key (k : keyboard) (c : Z) : option keyboard :=
  let next_head := u32 (keyboard_head k + 1) mod KBD_SIZE in
  if next_head =? keyboard_tail k then Some k else
  b ← zset (keyboard_buffer k) (keyboard_head k) c;
  Some (mk_kbd b next_head (keyboard_tail k)).

Definition handle_keyboard_input (k : keyboard) (scancode : Z) : option keyboard :=
  if negb (Z.land scancode 0x80 =? 0) then Some k else
  if scancode <? 128 then
    c ← zget kbd_us scancode;
    if negb (c =? 0) then enqueue_key k c else Some k
  else Some k.

(** The IRQ1 handler. *)
Definition keyboard_handler {W} `{Ports W} (k : keyboard) (w : W) : option (keyboard * W) :=
  let '(scancode, w) := inb w 0x60 in
  k' ← handle_keyboard_input k scancode;
  Some (k', pic_send_eoi w 1).

(** The key, 0 when the buffer is empty. *)
Definition dequeue_key (k : keyboard) : option (Z * keyboard) :=
  if keyboard_tail k =? keyboard_head k then Some (0, k) else
  c ← zget (keyboard_buffer k) (keyboard_tail k);
  Some (c, mk_kbd (keyboard_buffer k) (keyboard_head k)
             (u32 (keyboard_tail k + 1) mod KBD_SIZE)).

Definition buffer_has_char (k : keyboard) : bool := negb (keyboard_head k =? keyboard_tail k).

(** ** The abstract queue *)
Record kbd_wf (k : keyboard) : Prop := {
  kw_len : length (keyboard_buffer k) = 128%nat;
  kw_head : 0 <= keyboard_head k < 128;
  kw_tail : 0 <= keyboard_tail k < 128;
}.

(** Keys waiting, oldest first. *)
Definition pending (k : keyboard) : nat :=
  Z.to_nat ((keyboard_head k - keyboard_tail k) mod 128).
Definition slot (k : keyboard) (i : nat) : nat := Z.to_nat ((keyboard_tail k + Z.of_nat i) mod 128).
Definition keys (k : keyboard) : list Z :=
  (fun i => default 0 (keyboard_buffer k !! slot k i)) <$> seq 0 (pending k).

Lemma pending_lt k : (pending k < 128)%nat.
Proof. unfold pending. pose proof (Z.mod_pos_bound (keyboard_head k - keyboard_tail k) 128). lia. Qed.
Lemma keys_length k : length (keys k) = pending k.
Proof. unfold keys. by rewrite length_fmap, length_seq. Qed.

Lemma next_index x : 0 <= x < 128 -> u32 (x + 1) mod KBD_SIZE = (x + 1) mod 128.
Proof. intros. by rewrite u32_small by lia. Qed.

(** Every slot in use is below 128 and differs from the slot of the head. *)
Lemma slot_not_head k i : kbd_wf k -> (i < pending k)%nat ->
  slot k i <> Z.to_nat (keyboard_head k).
Proof.
  intros [_ Hh Ht]. unfold pending, slot. intros Hi Heq.
  apply Z2Nat.inj in Heq; [|apply Z.mod_pos_bound; lia|lia].
  revert Hi Heq. Z.to_euclidean_division_equations. nia.
Qed.

Lemma enqueue_key_spec k c : kbd_wf k ->
  exists k', enqueue_key k c = Some k' /\ kbd_wf k' /\
    keys k' = if decide (pending k = 127%nat) then keys k else keys k ++ [c].
Proof.
  intros Hk. pose proof Hk as [Hl Hh Ht]. unfold enqueue_key. rewrite next_index by done.
  destruct (Z.eqb_spec ((keyboard_head k + 1) mod 128) (keyboard_tail k)) as [He|Hne].
  - exists k. split; [done|]. split; [done|]. rewrite decide_True; [done|]. unfold pending.
    revert He. Z.to_euclidean_division_equations. lia.
  - rewrite zset_in_range by (rewrite Hl; lia). cbn [mbind option_bind].
    set (k' := mk_kbd _ _ _). exists k'. split; [done|].
    assert (Hk' : kbd_wf k').
    { split; simpl; [by rewrite length_insert|apply Z.mod_pos_bound; lia|done]. }
    split; [done|].
    assert (Hp : pending k' = S (pending k) /\ pending k <> 127%nat).
    { unfold pending. simpl. revert Hne. Z.to_euclidean_division_equations. lia. }
    destruct Hp as [Hp Hnf]. rewrite decide_False by done.
    unfold keys. rewrite Hp, seq_S, fmap_app. f_equal.
    + apply list_fmap_ext. intros i x [-> Hi]%lookup_seq.
      change (slot k' (0 + i)) with (slot k (0 + i)). simpl keyboard_buffer.
      rewrite list_lookup_insert_ne; [done|]. intros Hx. symmetry in Hx. revert Hx.
      by apply slot_not_head.
    + simpl. f_equal. assert (Hs : slot k' (pending k) = Z.to_nat (keyboard_head k)).
      { unfold slot, pending. simpl. f_equal. revert Ht Hh. clear. intros.
        Z.to_euclidean_division_equations. nia. }
      rewrite Hs. rewrite list_lookup_insert_eq by lia. done.
Qed.

Lemma dequeue_key_spec k : kbd_wf k ->
  exists c k', dequeue_key k = Some (c, k') /\ kbd_wf k' /\
    match keys k with
    | [] => c = 0 /\ k' = k
    | x :: rest => c = x /\ keys k' = rest
    end.
Proof.
  intros Hk. pose proof Hk as [Hl Hh Ht]. unfold dequeue_key.
  destruct (Z.eqb_spec (keyboard_tail k) (keyboard_head k)) as [He|Hne].
  - exists 0, k. split; [done|]. split; [done|]. unfold keys, pending.
    by rewrite He, Z.sub_diag.
  - destruct (zget_total (keyboard_buffer k) (keyboard_tail k)) as [c Hc]; [rewrite Hl; lia|].
    rewrite Hc. cbn [mbind option_bind]. rewrite next_index by done. set (k' := mk_kbd _ _ _).
    exists c, k'. split; [done|]. split; [split; simpl; try done; apply Z.mod_pos_bound; lia|].
    assert (Hp : pending k = S (pending k')).
    { unfold pending. simpl. Z.to_euclidean_division_equations. lia. }
    unfold keys at 1. rewrite Hp. simpl. split.
    + assert (Hs : slot k 0 = Z.to_nat (keyboard_tail k)).
      { unfold slot. rewrite Z.add_0_r, Z.mod_small by lia. done. }
      rewrite Hs. unfold zget in Hc. rewrite decide_True in Hc by lia. by rewrite Hc.
    + unfold keys. rewrite <- fmap_S_seq, <- list_fmap_compose. apply list_fmap_ext.
      intros i x _. simpl. do 2 f_equal. unfold slot. simpl. f_equal.
      rewrite Zplus_mod_idemp_l. f_equal. lia.
Qed.

(** ** Properties *)
(** C36. The ring is a FIFO queue of capacity 127: enqueue appends the key unless 127
    are waiting, when it drops it; dequeue removes the oldest key, and answers 0
    and changes nothing when none waits; buffer_has_char tells which; none of
    them leaves the 128 bytes. *)
Theorem keyboard_is_fifo k c :
  kbd_wf k ->
  (exists k', enqueue_key k c = Some k' /\ kbd_wf k' /\
     keys k' = if decide (length (keys k) = 127%nat) then keys k else keys k ++ [c]) /\
  (exists x k', dequeue_key k = Some (x, k') /\ kbd_wf k' /\
     match keys k with [] => x = 0 /\ k' = k | y :: rest => x = y /\ keys k' = rest end) /\
  buffer_has_char k = negb (bool_decide (keys k = [])) /\
  (length (keys k) <= 127)%nat.
Proof.
  intros Hk. rewrite keys_length. split; [by apply enqueue_key_spec|].
  split; [by apply dequeue_key_spec|]. pose proof (pending_lt k). split; [|lia].
  unfold buffer_has_char. f_equal. destruct (Z.eqb_spec (keyboard_head k) (keyboard_tail k)) as [He|Hne];
    symmetry; [apply bool_decide_eq_true|apply bool_decide_eq_false].
  - unfold keys, pending. by rewrite He, Z.sub_diag.
  - intros Hn. apply (f_equal length) in Hn. rewrite keys_length in Hn. destruct Hk as [_ Hh Ht].
    unfold pending in Hn. simpl in Hn. revert Hn. Z.to_euclidean_division_equations. lia.
Qed.

Lemma keyboard_init_wf : kbd_wf keyboard_init.
Proof. split; simpl; [done|lia|lia]. Qed.

Lemma keyboard_is_fifo_witness :
  (exists k', enqueue_key keyboard_init 97 = Some k' /\ kbd_wf k' /\
     keys k' = if decide (length (keys keyboard_init) = 127%nat) then keys keyboard_init
               else keys keyboard_init ++ [97]) /\
  (exists x k', dequeue_key keyboard_init = Some (x, k') /\ kbd_wf k' /\
     match keys keyboard_init with
     | [] => x = 0 /\ k' = keyboard_init | y :: rest => x = y /\ keys k' = rest end) /\
  buffer_has_char keyboard_init = negb (bool_decide (keys keyboard_init = [])) /\
  (length (keys keyboard_init) <= 127)%nat.
Proof. apply (keyboard_is_fifo keyboard_init 97). exact keyboard_init_wf. Defined.

(** The interrupt handler, on any byte the keyboard sends, ends with the end of
    interrupt and queues at most one key: none for a release code, the table's
    character for a press, and never the character 0, which dequeue_key uses
    for "empty". *)
Theorem keyboard_handler_queues_press {W} `{Ports W} (k : keyboard) (w w1 : W) scancode :
  kbd_wf k -> inb w 0x60 = (scancode, w1) -> 0 <= scancode < 256 -> 0 ∉ keys k ->
  exists k', keyboard_handler k w = Some (k', pic_send_eoi w1 1) /\ kbd_wf k' /\ 0 ∉ keys k' /\
    (keys k' = keys k \/
     exists c, scancode < 128 /\ kbd_us !! Z.to_nat scancode = Some c /\ c <> 0 /\
       keys k' = keys k ++ [c]).
Proof.
  intros Hk Hin Hs Hz. unfold keyboard_handler. rewrite Hin. unfold handle_keyboard_input.
  destruct (Z.ltb_spec scancode 128) as [Hlt|Hge].
  - assert (Hland : Z.land scancode 0x80 = 0).
    { apply Z.bits_inj'. intros n Hn. rewrite Z.land_spec, Z.bits_0.
      change 0x80 with (2 ^ 7). rewrite Z.pow2_bits_eqb by lia.
      destruct (Z.eqb_spec 7 n) as [<-|]; [|apply andb_false_r].
      apply andb_false_intro1. apply Z.testbit_false; [lia|]. by rewrite Z.div_small by lia. }
    rewrite Hland. cbn [Z.eqb negb].
    destruct (zget_total kbd_us scancode) as [c Hc]; [simpl; lia|]. rewrite Hc.
    cbn [mbind option_bind]. destruct (Z.eqb_spec c 0) as [->|Hc0]; cbn [negb].
    + cbn [mbind option_bind]. exists k. split; [done|]. split; [done|]. split; [done|by left].
    + destruct (enqueue_key_spec k c Hk) as (k' & -> & Hk' & Hkeys). cbn [mbind option_bind].
      exists k'. split; [done|]. split; [done|]. unfold zget in Hc. rewrite decide_True in Hc by lia.
      rewrite Hkeys. case_decide; [by split; [|left]|]. split; [|right; by exists c].
      rewrite not_elem_of_app, list_elem_of_singleton. done.
  - destruct (negb _); cbn [mbind option_bind]; exists k;
      (split; [done|]); (split; [done|]); (split; [done|by left]).
Qed.

Import Trace.
(** The press of the key A, scancode 30. *)
Lemma keyboard_handler_queues_press_witness :
  exists k', keyboard_handler keyboard_init (mk_trace [30] []) =
      Some (k', pic_send_eoi (mk_trace [] []) 1) /\ kbd_wf k' /\ 0 ∉ keys k' /\
    (keys k' = keys keyboard_init \/
     exists c, 30 < 128 /\ kbd_us !! Z.to_nat 30 = Some c /\ c <> 0 /\
       keys k' = keys keyboard_init ++ [c]).
Proof.
  apply (keyboard_handler_queues_press keyboard_init (mk_trace [30] []) (mk_trace [] []) 30).
  - exact keyboard_init_wf.
  - reflexivity.
  - lia.
  - unfold keys. simpl. apply not_elem_of_nil.
Defined.
