(* ===== verification/Vga.v ===== *)
(** * drivers/vga.cpp and drivers/vga.h: the text console

    The state is the 80x25 window of video memory at 0xB8000, the cursor, the
    attribute byte and the machine behind the ports.  A store outside the
    window is [None].  A [char] argument is a byte, read as signed. *)
From S2P Require Import Prelude CString PortIo.

Definition VGA_WIDTH : Z := 80.
Definition VGA_HEIGHT : Z := 25.
Definition VGA_COLOR_BLACK : Z := 0.
Definition VGA_COLOR_RED : Z := 4.
Definition VGA_COLOR_LIGHT_GREY : Z := 7.

Definition i16 (x : Z) : Z := if u16 x <? 32768 then u16 x else u16 x - 65536.

Record vga (W : Type) := mk_vga {
  video_memory : list Z;
  cursor_pos : Z;
  text_attribute : Z;
  machine : W;
}.
Arguments mk_vga {W} _ _ _ _.
Arguments video_memory {W} _.
Arguments cursor_pos {W} _.
Arguments text_attribute {W} _.
Arguments machine {W} _.

(** The cell [(attr << 8) | c]; [c] is an int. *)
Definition cell (attr c : Z) : Z := u16 (Z.lor (Z.shiftl attr 8) c).

Section Vga.
Context {W : Type} `{Ports W}.
Implicit Types v : vga W.

Definition set_memory v m := mk_vga m (cursor_pos v) (text_attribute v) (machine v).
Definition set_cursor v p := mk_vga (video_memory v) p (text_attribute v) (machine v).

(** [short] parameter. *)
Definition update_cursor v (pos : Z) : vga W :=
  let pos := i16 pos in
  let w := outb (machine v) 0x3D4 0x0F in
  let w := outb w 0x3D5 (u8 (Z.land pos 0xFF)) in
  let w := outb w 0x3D4 0x0E in
  let w := outb w 0x3D5 (u8 (Z.land (Z.shiftr pos 8) 0xFF)) in
  mk_vga (video_memory v) (cursor_pos v) (text_attribute v) w.

Definition set_text_color v (fg bg : Z) : vga W :=
  mk_vga (video_memory v) (cursor_pos v)
    (u8 (Z.lor (Z.shiftl bg 4) (Z.land fg 0x0F))) (machine v).

Definition get_cursor_pos v : Z := cursor_pos v.

(** [for (; n > 0; i++) VIDEO_MEMORY[i] = (text_attribute << 8) | ' '] *)
Fixpoint blank_loop (n : nat) (m : list Z) (i attr : Z) : option (list Z) :=
  match n with
  | O => Some m
  | S n' => m' ← zset m i (cell attr ch_space); blank_loop n' m' (i + 1) attr
  end.

Definition clear_screen v : option (vga W) :=
  m ← blank_loop (Z.to_nat (VGA_WIDTH * VGA_HEIGHT)) (video_memory v) 0 (text_attribute v);
  Some (update_cursor (set_cursor (set_memory v m) 0) 0).

(** [for (; n > 0; i++) VIDEO_MEMORY[i] = VIDEO_MEMORY[i + VGA_WIDTH]] *)
Fixpoint scroll_loop (n : nat) (m : list Z) (i : Z) : option (list Z) :=
  match n with
  | O => Some m
  | S n' => x ← zget m (i + VGA_WIDTH); m' ← zset m i x; scroll_loop n' m' (i + 1)
  end.

Definition scroll_screen v : option (vga W) :=
  let rows := VGA_WIDTH * (VGA_HEIGHT - 1) in
  m ← scroll_loop (Z.to_nat rows) (video_memory v) 0;
  m ← blank_loop (Z.to_nat (VGA_WIDTH * VGA_HEIGHT - rows)) m rows (text_attribute v);
  Some (update_cursor (set_cursor (set_memory v m) rows) rows).

Definition vga_init v : option (vga W) := clear_screen v.

(** The end of [print_char]: scroll when the cursor left the screen. *)
Definition finish_char v : option (vga W) :=
  v ← (if VGA_WIDTH * VGA_HEIGHT <=? cursor_pos v then scroll_screen v else Some v);
  Some (update_cursor v (cursor_pos v)).

Definition print_char v (c : Z) : option (vga W) :=
  if i8 c =? 10 then
    finish_char (set_cursor v ((Z.quot (cursor_pos v) VGA_WIDTH + 1) * VGA_WIDTH))
  else if i8 c =? 8 then
    if 0 <? cursor_pos v then
      let p := cursor_pos v - 1 in
      m ← zset (video_memory v) p (cell (text_attribute v) ch_space);
      finish_char (set_cursor (set_memory v m) p)
    else finish_char v
  else if i8 c =? 12 then clear_screen v
  else
    m ← zset (video_memory v) (cursor_pos v) (cell (text_attribute v) (i8 c));
    finish_char (set_cursor (set_memory v m) (cursor_pos v + 1)).

(** [while (str[i] != '\0') print_char(str[i])] *)
Fixpoint print_string v (str : list Z) : option (vga W) :=
  match str with
  | [] => None
  | c :: rest => if c =? 0 then Some v else v' ← print_char v c; print_string v' rest
  end.

(** The screen holds 2000 cells and the cursor is on it. *)
Record vga_wf v : Prop := {
  vw_len : length (video_memory v) = 2000%nat;
  vw_cursor : 0 <= cursor_pos v < 2000;
}.
End Vga.

(** The CRT controller, as documented: port 0x3D4 selects a register and port
    0x3D5 stores into it. *)
Class CrtcLaws (W : Type) `{Ports W} := {
  crtc_index : W -> Z;
  crtc_reg : W -> Z -> Z;
  crtc_select : forall w i, crtc_index (outb w 0x3D4 i) = i /\
    forall r, crtc_reg (outb w 0x3D4 i) r = crtc_reg w r;
  crtc_store : forall w x r,
    crtc_reg (outb w 0x3D5 x) r = if r =? crtc_index w then x else crtc_reg w r;
}.
(** Where the blinking cursor is. *)
Definition hw_cursor {W} `{CrtcLaws W} (w : W) : Z := crtc_reg w 0x0E * 256 + crtc_reg w 0x0F.

(** ** The loops *)
Lemma blank_loop_spec n attr : forall (a m b : list Z) i,
  length m = n -> i = Z.of_nat (length a) ->
  blank_loop n (a ++ m ++ b) i attr = Some (a ++ replicate n (cell attr ch_space) ++ b).
Proof.
  induction n as [|n IH]; intros a m b i Hm Hi.
  { destruct m; done. }
  destruct m as [|x m]; [done|]. cbn [blank_loop app]. rewrite Hi, zset_middle.
  cbn [mbind option_bind].
  specialize (IH (a ++ [cell attr ch_space]) m b (i + 1)). rewrite <- !app_assoc in IH.
  rewrite <- Hi. apply IH; [simpl in Hm; lia|]. rewrite length_app. simpl. lia.
Qed.
Lemma scroll_loop_move n : forall m i, scroll_loop n m i = memcpy_within_loop n m 0 80 i.
Proof.
  induction n as [|n IH]; intros m i; [done|]. cbn [scroll_loop memcpy_within_loop].
  unfold VGA_WIDTH. rewrite (Z.add_comm i 80), Z.add_0_l.
  destruct (zget m (80 + i)) as [x|]; [|done]. cbn [mbind option_bind].
  destruct (zset m i x); [|done]. apply IH.
Qed.

(** ** print_char on the screen as a list of 2000 cells *)
Definition blank (attr : Z) : Z := cell attr ch_space.
(** Scrolling by one line, and the cell and cursor after one character. *)
Definition scrolled (attr : Z) (m : list Z) : list Z := drop 80 m ++ replicate 80 (blank attr).
Definition settle (attr : Z) (s : list Z * Z) : list Z * Z :=
  if 2000 <=? snd s then (scrolled attr (fst s), 1920) else s.
Definition put_char (attr c : Z) (s : list Z * Z) : list Z * Z :=
  let '(m, p) := s in
  if c =? 12 then (replicate 2000 (blank attr), 0)
  else settle attr
    (if c =? 10 then (m, (p / 80 + 1) * 80)
     else if c =? 8 then
       (if 0 <? p then (<[Z.to_nat (p - 1) := blank attr]> m, p - 1) else (m, p))
     else (<[Z.to_nat p := cell attr (i8 c)]> m, p + 1)).
Definition screen {W} (v : vga W) : list Z * Z := (video_memory v, cursor_pos v).

Lemma put_char_wf attr c m p : length m = 2000%nat -> 0 <= p < 2000 ->
  length (fst (put_char attr c (m, p))) = 2000%nat /\ 0 <= snd (put_char attr c (m, p)) < 2000.
Proof.
  intros Hm Hp. unfold put_char. destruct (c =? 12); [split; simpl; [done|lia]|].
  assert (Hsettle : forall m' p', length m' = 2000%nat -> 0 <= p' ->
    length (fst (settle attr (m', p'))) = 2000%nat /\ 0 <= snd (settle attr (m', p')) < 2000).
  { intros m' p' Hm' Hp'. unfold settle, scrolled. cbn [fst snd]. destruct (Z.leb_spec 2000 p').
    - cbn [fst snd]. rewrite length_app, length_drop, length_replicate. lia.
    - simpl. lia. }
  destruct (c =? 10); [apply Hsettle; [done|Z.to_euclidean_division_equations; lia]|].
  destruct (c =? 8).
  - destruct (Z.ltb_spec 0 p); apply Hsettle; rewrite ?length_insert; done || lia.
  - apply Hsettle; rewrite ?length_insert; done || lia.
Qed.

Section Spec.
Context {W : Type} `{CrtcLaws W}.
Implicit Types v : vga W.

Lemma i16_small x : 0 <= x < 32768 -> i16 x = x.
Proof. unfold i16. intros. rewrite u16_small by lia. case_match; lia. Qed.

Lemma update_cursor_spec v p : 0 <= p < 2000 ->
  screen (update_cursor v p) = screen v /\
  text_attribute (update_cursor v p) = text_attribute v /\
  hw_cursor (machine (update_cursor v p)) = p.
Proof.
  intros Hp. split; [done|]. split; [done|]. unfold update_cursor, hw_cursor. cbn [machine].
  rewrite i16_small by lia. set (w1 := outb (machine v) 0x3D4 0x0F).
  set (w2 := outb w1 0x3D5 _). set (w3 := outb w2 0x3D4 0x0E).
  assert (Hw1 : crtc_index w1 = 0x0F) by apply crtc_select.
  assert (Hw3 : crtc_index w3 = 0x0E) by apply crtc_select.
  rewrite !crtc_store, Hw3. cbn [Z.eqb Pos.eqb].
  assert (Hlow : crtc_reg w3 0x0F = u8 (Z.land p 255)).
  { unfold w3. rewrite (proj2 (crtc_select w2 0x0E)). unfold w2. by rewrite crtc_store, Hw1. }
  rewrite Hlow. change 255 with (Z.ones 8). rewrite !Z.land_ones, Z.shiftr_div_pow2 by lia.
  unfold u8. change (2 ^ 8) with 256. Z.to_euclidean_division_equations. lia.
Qed.

Lemma clear_screen_spec v : length (video_memory v) = 2000%nat ->
  exists v', clear_screen v = Some v' /\ screen v' = (replicate 2000 (blank (text_attribute v)), 0) /\
    text_attribute v' = text_attribute v /\ hw_cursor (machine v') = 0.
Proof.
  intros Hl. unfold clear_screen.
  change (Z.to_nat (VGA_WIDTH * VGA_HEIGHT)) with 2000%nat.
  pose proof (blank_loop_spec 2000 (text_attribute v) [] (video_memory v) [] 0 Hl eq_refl) as Hb.
  cbn [app] in Hb. rewrite !app_nil_r in Hb. rewrite Hb. cbn [mbind option_bind].
  set (v1 := set_cursor _ 0). exists (update_cursor v1 0). split; [done|].
  destruct (update_cursor_spec v1 0) as (H1 & H2 & H3); [lia|]. rewrite H1, H2, H3. done.
Qed.

Lemma scroll_screen_spec v : length (video_memory v) = 2000%nat ->
  exists v', scroll_screen v = Some v' /\
    screen v' = (scrolled (text_attribute v) (video_memory v), 1920) /\
    text_attribute v' = text_attribute v /\ hw_cursor (machine v') = 1920.
Proof.
  intros Hl. unfold scroll_screen.
  change (Z.to_nat (VGA_WIDTH * (VGA_HEIGHT - 1))) with 1920%nat.
  change (Z.to_nat (VGA_WIDTH * VGA_HEIGHT - VGA_WIDTH * (VGA_HEIGHT - 1))) with 80%nat.
  change (VGA_WIDTH * (VGA_HEIGHT - 1)) with 1920. rewrite scroll_loop_move.
  rewrite (memcpy_within_loop_spec 1920 [] (take 80 (video_memory v)) (drop 80 (video_memory v)) []).
  2:{ rewrite length_drop. lia. }
  2:{ done. }
  2:{ rewrite length_take, Hl. done. }
  2:{ simpl. by rewrite app_nil_r, take_drop. }
  cbn [mbind option_bind app]. rewrite take_drop, app_nil_r.
  pose proof (blank_loop_spec 80 (text_attribute v) (drop 80 (video_memory v))
    (drop (length (drop 80 (video_memory v))) (video_memory v)) [] 1920) as Hb.
  rewrite !app_nil_r in Hb. rewrite Hb by (rewrite ?length_drop; lia).
  cbn [mbind option_bind]. set (v1 := set_cursor _ 1920). exists (update_cursor v1 1920).
  split; [done|]. destruct (update_cursor_spec v1 1920) as (H1 & H2 & H3); [lia|].
  rewrite H1, H2, H3. done.
Qed.

Lemma finish_char_spec v : length (video_memory v) = 2000%nat -> 0 <= cursor_pos v ->
  exists v', finish_char v = Some v' /\ screen v' = settle (text_attribute v) (screen v) /\
    text_attribute v' = text_attribute v /\ hw_cursor (machine v') = cursor_pos v'.
Proof.
  intros Hl Hc. unfold finish_char, settle. change (VGA_WIDTH * VGA_HEIGHT) with 2000.
  cbn [screen fst snd]. destruct (Z.leb_spec 2000 (cursor_pos v)) as [Hge|Hlt].
  - destruct (scroll_screen_spec v Hl) as (v1 & -> & Hs & Ha & _). cbn [mbind option_bind].
    exists (update_cursor v1 (cursor_pos v1)). split; [done|].
    assert (Hp : cursor_pos v1 = 1920) by (by injection Hs).
    destruct (update_cursor_spec v1 (cursor_pos v1)) as (H1 & H2 & H3); [lia|].
    rewrite H1, H2, H3. done.
  - cbn [mbind option_bind]. exists (update_cursor v (cursor_pos v)). split; [done|].
    destruct (update_cursor_spec v (cursor_pos v)) as (H1 & H2 & H3); [lia|].
    rewrite H1, H2, H3. done.
Qed.

Lemma i8_eqb c k : 0 <= c < 256 -> 0 <= k < 128 -> (i8 c =? k) = (c =? k).
Proof. intros. word. Qed.

Lemma print_char_spec v c : vga_wf v -> 0 <= c < 256 ->
  exists v', print_char v c = Some v' /\
    screen v' = put_char (text_attribute v) c (screen v) /\
    text_attribute v' = text_attribute v /\ hw_cursor (machine v') = cursor_pos v'.
Proof.
  intros [Hl Hp] Hc. unfold print_char, put_char, screen.
  rewrite !i8_eqb by lia. destruct (Z.eqb_spec c 10) as [->|H10].
  { cbn [Z.eqb Pos.eqb].
    destruct (finish_char_spec (set_cursor v ((Z.quot (cursor_pos v) VGA_WIDTH + 1) * VGA_WIDTH)))
      as (v' & -> & Hs & Ha & Hw); [done|simpl; unfold VGA_WIDTH; Z.to_euclidean_division_equations; lia|].
    exists v'. split; [done|]. fold (screen v'). rewrite Hs, Ha. unfold screen. simpl.
    rewrite Z.quot_div_nonneg by (unfold VGA_WIDTH; lia). done. }
  destruct (Z.eqb_spec c 8) as [->|H8].
  { cbn [Z.eqb Pos.eqb]. destruct (Z.ltb_spec 0 (cursor_pos v)) as [Hpos|Hz].
    - rewrite zset_in_range by lia. cbn [mbind option_bind].
      match goal with |- context [finish_char ?x] =>
        destruct (finish_char_spec x) as (v' & -> & Hs & Ha & Hw) end.
      { simpl. by rewrite length_insert. }
      { simpl. lia. }
      exists v'. by rewrite Ha.
    - destruct (finish_char_spec v Hl) as (v' & -> & Hs & Ha & Hw); [lia|].
      exists v'. by rewrite Ha. }
  destruct (Z.eqb_spec c 12) as [->|H12].
  - destruct (clear_screen_spec v Hl) as (v' & -> & Hs & Ha & Hw). exists v'.
    split; [done|]. split; [done|]. split; [done|]. injection Hs as _ ->. done.
  - rewrite zset_in_range by lia. cbn [mbind option_bind].
    match goal with |- context [finish_char ?x] =>
      destruct (finish_char_spec x) as (v' & -> & Hs & Ha & Hw) end.
    { simpl. by rewrite length_insert. }
    { simpl. lia. }
    exists v'. by rewrite Ha.
Qed.

Lemma print_char_wf v v' c : vga_wf v -> screen v' = put_char (text_attribute v) c (screen v) ->
  vga_wf v'.
Proof.
  intros [Hl Hp] Hs. destruct (put_char_wf (text_attribute v) c _ _ Hl Hp) as [H1 H2].
  fold (screen v) in *. rewrite <- Hs in *. by split.
Qed.

(** The screen after the characters of [s]. *)
Definition put_string (attr : Z) (s : list Z) (sc : list Z * Z) : list Z * Z :=
  foldl (fun sc c => put_char attr c sc) sc s.

Lemma print_string_spec str : forall v s, vga_wf v -> bytes_ok str -> cstring str = Some s ->
  exists v', print_string v str = Some v' /\ vga_wf v' /\
    screen v' = put_string (text_attribute v) s (screen v) /\
    text_attribute v' = text_attribute v /\
    (hw_cursor (machine v) = cursor_pos v \/ s <> [] -> hw_cursor (machine v') = cursor_pos v').
Proof.
  induction str as [|c str IH]; intros v s Hv Hb Hs; [done|]. simpl in Hs.
  apply Forall_cons in Hb as [Hc Hb]. cbn [print_string].
  destruct (Z.eqb_spec c 0) as [->|Hc0].
  { injection Hs as <-. exists v. split_and!; try done; try apply Hv. by intros [?|?]. }
  apply fmap_Some in Hs as (s' & Hs' & ->).
  destruct (print_char_spec v c Hv Hc) as (v1 & -> & Hsc & Ha & Hw). cbn [mbind option_bind].
  destruct (IH v1 s' (print_char_wf v v1 c Hv Hsc) Hb Hs') as (v' & -> & Hv' & Hsc' & Ha' & Hw').
  exists v'. split; [done|]. split; [done|]. split; [by rewrite Hsc', Ha, Hsc|].
  split; [congruence|]. intros _. apply Hw'. by left.
Qed.
End Spec.

(** Printable characters that fit on the screen. *)
Definition printable (c : Z) : Prop := 32 <= c < 127.

Lemma put_string_text attr s : forall m p, Forall printable s -> length m = 2000%nat ->
  0 <= p -> p + Z.of_nat (length s) < 2000 ->
  put_string attr s (m, p) = (splice m (Z.to_nat p) (cell attr <$> s), p + Z.of_nat (length s)).
Proof.
  induction s as [|c s IH]; intros m p Hs Hm Hp Hfit.
  { simpl. by rewrite splice_nil, Z.add_0_r. }
  apply Forall_cons in Hs as [Hc Hs]. unfold printable in Hc. simpl length in *.
  change (put_string attr (c :: s) (m, p)) with (put_string attr s (put_char attr c (m, p))).
  unfold put_char.
  rewrite !(proj2 (Z.eqb_neq c _)) by lia. unfold settle. cbn [snd].
  rewrite (proj2 (Z.leb_gt _ _)) by lia. rewrite i8_small by lia.
  rewrite IH by (rewrite ?length_insert; done || lia). f_equal; [|lia].
  destruct (split_at m (Z.to_nat p) (1 + length s)) as (a & b & d & -> & Ha & Hb); [lia|].
  destruct b as [|x b]; [done|]. simpl in Hb. injection Hb as Hb.
  rewrite <- Ha. rewrite insert_app_r_alt, Nat.sub_diag by lia. cbn [app insert list_insert].
  rewrite fmap_cons.
  rewrite (splice_split a (x :: b) (cell attr c :: (cell attr <$> s)) d)
    by (simpl; rewrite length_fmap; lia).
  replace (a ++ cell attr c :: b ++ d) with ((a ++ [cell attr c]) ++ b ++ d) by (by rewrite <- app_assoc).
  replace (Z.to_nat (p + 1)) with (length (a ++ [cell attr c])) by (rewrite length_app; simpl; lia).
  rewrite splice_split by (by rewrite length_fmap). by rewrite <- app_assoc.
Qed.

(** *** The console as long as the text stays on the screen *)
(** Where the cursor goes. *)
Definition cursor_after (c p : Z) : Z :=
  if c =? 12 then 0 else if c =? 10 then (p / 80 + 1) * 80
  else if c =? 8 then (if 0 <? p then p - 1 else p) else p + 1.
(** What the cells become. *)
Definition cells_after (attr c : Z) (m : list Z) (p : Z) : list Z :=
  if c =? 12 then replicate 2000 (blank attr) else if c =? 10 then m
  else if c =? 8 then (if 0 <? p then <[Z.to_nat (p - 1) := blank attr]> m else m)
  else <[Z.to_nat p := cell attr (i8 c)]> m.
Fixpoint typed (attr : Z) (s : list Z) (sc : list Z * Z) : list Z * Z :=
  match s with
  | [] => sc
  | c :: s => typed attr s (cells_after attr c (fst sc) (snd sc), cursor_after c (snd sc))
  end.
(** No character moves the cursor past the end. *)
Fixpoint room_for (s : list Z) (p : Z) : bool :=
  match s with
  | [] => true
  | c :: s => (cursor_after c p <? 2000) && room_for s (cursor_after c p)
  end.

Lemma put_string_typed attr s : forall m p, room_for s p = true ->
  put_string attr s (m, p) = typed attr s (m, p).
Proof.
  induction s as [|c s IH]; intros m p Hr; [done|]. cbn [room_for typed fst snd] in *.
  apply andb_true_iff in Hr as [Hlt%Z.ltb_lt Hr].
  change (put_string attr (c :: s) (m, p)) with (put_string attr s (put_char attr c (m, p))).
  rewrite <- IH by done. f_equal. unfold put_char, cells_after, cursor_after, settle in *.
  destruct (c =? 12); [done|].
  destruct (c =? 10); [|destruct (c =? 8); [destruct (0 <? p)|]]; cbn [fst snd];
    by rewrite (proj2 (Z.leb_gt _ _)) by lia.
Qed.

Section Properties.
Context {W : Type} `{CrtcLaws W}.
Implicit Types v : vga W.

(** C37. print_string of any terminated string, empty or with control characters,
    ends, stores only into the 2000 cells of the screen and keeps the colours
    and the cursor on the screen, with the hardware cursor where it is
    (a string of no characters leaves it alone).  While the text does not run
    past the end of the screen ([room_for]) the cells are the ones an abstract
    console computes: newline, backspace, form feed, one cell a character
    ([typed]).  What happens to the cells past the end is left open: the
    comment in the source says cleared, the code scrolls. *)
Theorem print_string_stays_on_screen v str s :
  vga_wf v -> bytes_ok str -> cstring str = Some s ->
  exists v', print_string v str = Some v' /\ vga_wf v' /\
    text_attribute v' = text_attribute v /\
    (hw_cursor (machine v) = cursor_pos v \/ s <> [] -> hw_cursor (machine v') = cursor_pos v') /\
    (room_for s (cursor_pos v) = true ->
     screen v' = typed (text_attribute v) s (video_memory v, cursor_pos v)).
Proof.
  intros Hv Hb Hs. destruct (print_string_spec str v s Hv Hb Hs) as (v' & Hr & Hwf & Hsc & Ha & Hw).
  exists v'. do 4 (split; [done|]). intros Hroom. rewrite Hsc. unfold screen. by apply put_string_typed.
Qed.

(** Printable text that fits behind the cursor appears there, one cell a
    character with the current attribute, and every other cell is unchanged. *)
Theorem print_string_shows_text v str s :
  vga_wf v -> bytes_ok str -> cstring str = Some s -> Forall printable s ->
  cursor_pos v + Z.of_nat (length s) < 2000 ->
  exists v', print_string v str = Some v' /\
    video_memory v' = splice (video_memory v) (Z.to_nat (cursor_pos v))
                        (cell (text_attribute v) <$> s) /\
    cursor_pos v' = cursor_pos v + Z.of_nat (length s).
Proof.
  intros Hv Hb Hs Hp Hfit. destruct (print_string_spec str v s Hv Hb Hs) as (v' & ? & _ & Hsc & _).
  exists v'. split; [done|]. destruct Hv as [Hl Hc].
  unfold screen in Hsc. rewrite put_string_text in Hsc by (done || lia).
  by injection Hsc as -> ->.
Qed.
End Properties.

(** A character from 0x80 up is negative as a [char]; its sign bits replace the
    attribute, and the cell is white on white whatever the colours set. *)
Theorem high_char_overwrites_attribute attr c :
  0 <= attr < 256 -> 128 <= c < 256 -> cell attr (i8 c) = 0xFF00 + c.
Proof.
  intros Ha Hc. replace (i8 c) with (c - 256) by word. unfold cell, u16.
  replace (Z.lor (Z.shiftl attr 8) (c - 256)) with (c - 256); [word|].
  apply Z.bits_inj'. intros n Hn. rewrite Z.lor_spec.
  destruct (Z.ltb_spec n 8).
  - by rewrite Z.shiftl_spec_low.
  - replace (Z.testbit (c - 256) n) with true; [by rewrite orb_true_r|].
    symmetry. apply Z.testbit_true; [lia|].
    replace ((c - 256) / 2 ^ n) with (-1); [done|].
    assert (Hpow : 2 ^ 8 <= 2 ^ n) by (apply Z.pow_le_mono_r; lia). change (2 ^ 8) with 256 in Hpow.
    apply Z.div_unique_pos with (2 ^ n + (c - 256)); lia.
Qed.
Lemma high_char_overwrites_attribute_witness : cell 7 (i8 200) = 0xFF00 + 200.
Proof. apply (high_char_overwrites_attribute 7 200); lia. Defined.

(** ** A CRT controller with its index and registers *)
Module Crtc.
Definition t : Type := Z * (Z -> Z).
Definition out (w : t) (port x : Z) : t :=
  if port =? 0x3D4 then (x, snd w)
  else if port =? 0x3D5 then (fst w, fun r => if r =? fst w then x else snd w r) else w.
#[export] Instance crtc_ports : Ports t := {
  outb := out; inb w _ := (0, w); outw w _ _ := w; inw w _ := (0, w);
}.
#[export] Instance crtc_laws : CrtcLaws t.
Proof. by refine {| crtc_index := fst; crtc_reg := snd |}. Defined.
End Crtc.
Import Crtc.

Definition demo_screen : vga Crtc.t := mk_vga (replicate 2000 0x720) 1995 0x07 (0, fun _ => 0).
Lemma demo_screen_wf : vga_wf demo_screen.
Proof. split; [apply length_replicate|simpl; lia]. Qed.

(** "\fhi\b\n" from the end of the screen. *)
Lemma print_string_stays_on_screen_witness :
  exists v', print_string demo_screen [12; 104; 105; 8; 10; 0] = Some v' /\ vga_wf v' /\
    hw_cursor (machine v') = 80 /\
    screen v' = (cell 7 104 :: replicate 1999 0x720, 80).
Proof.
  destruct (print_string_stays_on_screen demo_screen [12; 104; 105; 8; 10; 0] [12; 104; 105; 8; 10])
    as (v' & Hr & Hwf & _ & Hw & Hsc).
  - exact demo_screen_wf.
  - by repeat constructor.
  - reflexivity.
  - assert (Hs : screen v' = (cell 7 104 :: replicate 1999 0x720, 80)) by exact (Hsc eq_refl).
    exists v'. split; [exact Hr|]. split; [exact Hwf|]. split; [|exact Hs].
    rewrite Hw by (right; discriminate). exact (f_equal snd Hs).
Defined.
Lemma print_string_shows_text_witness :
  exists v', print_string demo_screen [104; 105; 0] = Some v' /\
    video_memory v' = splice (video_memory demo_screen) (Z.to_nat (cursor_pos demo_screen))
                        (cell (text_attribute demo_screen) <$> [104; 105]) /\
    cursor_pos v' = cursor_pos demo_screen + 2.
Proof.
  apply (print_string_shows_text demo_screen [104; 105; 0] [104; 105]).
  - exact demo_screen_wf.
  - by repeat constructor.
  - reflexivity.
  - by repeat constructor.
  - reflexivity.
Defined.
