(* ===== verification/Console.v ===== *)
(** * Messages on the console

    String literals as C sees them, and the kernel's way of printing numbers:
    [itoa] into a local buffer, then [print_string]. *)
From S2P Require Import Prelude CString PortIo Pic Vga.
From stdpp Require Export strings.
From Stdlib Require Import Ascii.
Open Scope Z_scope.

Definition VGA_COLOR_LIGHT_RED : Z := 12.

Definition char_code (c : ascii) : Z := Z.of_nat (nat_of_ascii c).
Fixpoint codes (s : string) : list Z :=
  match s with EmptyString => [] | String c s' => char_code c :: codes s' end.
(** The array a literal names; [newline] is the character of a '\n'. *)
Definition lit (s : string) : list Z := cbuf (codes s).
Definition newline : Z := 10.

Section Console.
Context {W : Type} `{Ports W}.
Implicit Types v : vga W.

(** [itoa(num, buf, base); print_string(buf);] *)
Definition print_itoa v (num : Z) (buf : list Z) (base : Z) : option (vga W * list Z) :=
  buf ← itoa_u num buf base; v ← print_string v buf; Some (v, buf).
End Console.

Lemma codes_ok s : bytes_ok (codes s).
Proof.
  induction s as [|c s IH]; simpl; constructor; [|done]. unfold char_code.
  pose proof (nat_ascii_bounded c). lia.
Qed.

Section Spec.
Context {W : Type} `{CrtcLaws W}.
Implicit Types v : vga W.

(** [v'] is [v] after the text [s] in the colours of [v]. *)
Record shows v (s : list Z) v' : Prop := {
  sh_wf : vga_wf v';
  sh_attr : text_attribute v' = text_attribute v;
  sh_screen : screen v' = put_string (text_attribute v) s (screen v);
}.
Lemma shows_refl v : vga_wf v -> shows v [] v.
Proof. by split. Qed.
Lemma shows_app v1 s1 v2 s2 v3 : shows v1 s1 v2 -> shows v2 s2 v3 -> shows v1 (s1 ++ s2) v3.
Proof.
  intros [W2 A2 S2] [W3 A3 S3]. split; [done|congruence|].
  unfold put_string in *. by rewrite foldl_app, <- S2, <- A2.
Qed.

Lemma print_cbuf v s : vga_wf v -> bytes_ok s -> 0 ∉ s ->
  exists v', print_string v (cbuf s) = Some v' /\ shows v s v'.
Proof.
  intros Hv Hb Hn. destruct (print_string_spec (cbuf s) v s Hv) as (v' & Hp & Hw & Hs & Ha & _).
  - apply bytes_ok_app. split; [done|]. by repeat constructor.
  - by apply cstring_cbuf.
  - exists v'. split; [done|]. by split.
Qed.

(** What follows the NUL is not read. *)
Lemma print_prefix s rest : 0 ∉ s -> forall v,
  print_string v (s ++ 0 :: rest) = print_string v (cbuf s).
Proof.
  unfold cbuf. induction s as [|c s IH]; intros Hn v; [done|].
  apply not_elem_of_cons in Hn as [Hc Hn]. cbn [app print_string].
  rewrite (proj2 (Z.eqb_neq c 0)) by done. destruct (print_char v c); [|done]. by apply IH.
Qed.

(** The digits [itoa] prints. *)
Definition digits_of (base num : Z) (s : list Z) : Prop :=
  exists ds, spells base num ds /\ s = digit_char <$> reverse ds.
Lemma digit_char_byte d : 0 <= d < 36 -> 0 < digit_char d < 256.
Proof.
  intros Hd. unfold digit_char, ch_0, ch_A. rewrite Z.gtb_ltb.
  destruct (Z.ltb_spec 9 d); rewrite u8_small by lia; lia.
Qed.
Lemma digits_plain base num s : 2 <= base <= 36 -> digits_of base num s -> bytes_ok s /\ 0 ∉ s.
Proof.
  intros Hb (ds & (Hr & _) & ->).
  assert (HF : Forall (fun c => 0 < c < 256) (digit_char <$> reverse ds)).
  { rewrite Forall_fmap. apply Forall_reverse. eapply Forall_impl; [exact Hr|]. intros d Hd. cbv beta in Hd.
    apply digit_char_byte. lia. }
  split; [eapply Forall_impl; [exact HF|]; simpl; lia|].
  intros Hz. rewrite Forall_forall in HF. specialize (HF 0 Hz). lia.
Qed.

Lemma print_itoa_spec v num buf base (k : nat) : vga_wf v -> 2 <= base <= 36 ->
  0 <= num < 4294967296 -> num < base ^ Z.of_nat k -> (k < length buf)%nat -> (1 <= k)%nat ->
  exists v' buf' s, print_itoa v num buf base = Some (v', buf') /\ shows v s v' /\
    digits_of base num s /\ length buf' = length buf.
Proof.
  intros Hv Hb Hn Hk Hl H1. unfold print_itoa.
  destruct (itoa_u_spec base num k buf Hb Hn Hk Hl H1) as (ds & Hds & Hlen & ->). cbn [mbind option_bind].
  assert (Hd : digits_of base num (digit_char <$> reverse ds)) by by exists ds.
  destruct (digits_plain base num _ Hb Hd) as [Hok Hz].
  rewrite print_prefix by done. destruct (print_cbuf v _ Hv Hok Hz) as (v' & -> & Hsh). cbn [mbind option_bind].
  eexists v', _, _. split; [reflexivity|]. split; [done|]. split; [done|].
  rewrite !length_app, length_fmap, length_reverse. simpl.
  rewrite length_drop. lia.
Qed.

(** Characters that print: no NUL. *)
Definition plain (s : list Z) : bool := forallb (fun c => (0 <? c) && (c <? 256)) s.
Lemma print_plain v s : vga_wf v -> plain s = true ->
  exists v', print_string v (cbuf s) = Some v' /\ shows v s v'.
Proof.
  intros Hv Hs. assert (HF : Forall (fun c => 0 < c < 256) s).
  { apply Forall_forall. intros c Hc. apply list_elem_of_In in Hc. unfold plain in Hs.
    rewrite forallb_forall in Hs. specialize (Hs c Hc). lia. }
  apply print_cbuf; [done|eapply Forall_impl; [exact HF|simpl; lia]|].
  intros Hz. rewrite Forall_forall in HF. specialize (HF 0 Hz). lia.
Qed.

End Spec.

(** One print of a plain string, chaining what is shown so far. *)
Ltac print_step :=
  match goal with
  | Hsh : shows ?v0 ?s0 ?v |- context [print_string ?v (cbuf ?s)] =>
      let v' := fresh "v" in let Hp := fresh "Hp" in let Hs := fresh "Hs" in
      destruct (print_plain v s (sh_wf _ _ _ Hsh)) as (v' & Hp & Hs);
      [repeat case_match; vm_compute; reflexivity|];
      rewrite Hp; clear Hp; cbn [mbind option_bind];
      pose proof (shows_app _ _ _ _ _ Hsh Hs); clear Hsh Hs
  end.
(** One print of a number of at most [k] digits. *)
Ltac number_step k ds Hdig :=
  match goal with
  | Hsh : shows ?v0 ?s0 ?v |- context [print_itoa ?v ?num ?buf ?base] =>
      let v' := fresh "v" in let buf' := fresh "buf" in let Hp := fresh "Hp" in
      let Hs := fresh "Hs" in let Hlen := fresh "Hlen" in
      destruct (print_itoa_spec v num buf base k (sh_wf _ _ _ Hsh)) as (v' & buf' & ds & Hp & Hs & Hdig & Hlen);
      [lia|lia|cbn; lia|lia|lia|];
      rewrite Hp; clear Hp; cbn [mbind option_bind];
      pose proof (shows_app _ _ _ _ _ Hsh Hs); clear Hsh Hs
  end.
(** The print that ends a function. *)
Ltac print_last :=
  match goal with
  | Hsh : shows ?v0 ?s0 ?v |- context [print_string ?v (cbuf ?s)] =>
      let v' := fresh "v" in let Hp := fresh "Hp" in let Hs := fresh "Hs" in
      destruct (print_plain v s (sh_wf _ _ _ Hsh)) as (v' & Hp & Hs);
      [repeat case_match; vm_compute; reflexivity|];
      rewrite Hp; clear Hp; pose proof (shows_app _ _ _ _ _ Hsh Hs); clear Hsh Hs; exists v'
  end.
