(* ===== verification/Exceptions.v ===== *)
(** * The exception handlers of arch/x86/idt.cpp

    [isr_handler] (vector 0) and [gpf_handler] (vector 13): a red report on the
    console, then a halt.  The answer is the console when the processor halts. *)
From S2P Require Import Prelude CString PortIo Pic Vga Console.

Section Handlers.
Context {W : Type} `{Ports W}.
Implicit Types (v : vga W).

(** Up to the loop on [hlt]. *)
Definition isr_handler v : option (vga W) :=
  let v := set_text_color v VGA_COLOR_LIGHT_RED VGA_COLOR_BLACK in
  v ← print_string v (cbuf (newline :: codes "[EXCEPTION] CPU Divide by Zero Exception (ISR0)!" ++ [newline]));
  print_string v (cbuf (codes "System halted." ++ [newline])).

(** [buf] is uninitialised. *)
Definition gpf_handler v (buf : list Z) (error_code : Z) : option (vga W) :=
  let v := set_text_color v VGA_COLOR_LIGHT_RED VGA_COLOR_BLACK in
  v ← print_string v (cbuf (newline :: codes "========================================" ++ [newline]));
  v ← print_string v (cbuf (codes " [KERNEL PANIC] GENERAL PROTECTION FAULT (GPF)!" ++ [newline]));
  v ← print_string v (cbuf (codes "========================================" ++ [newline]));
  v ← print_string v (lit "Error Code: 0x");
  '(v, buf) ← print_itoa v error_code buf 16;
  v ← print_string v (cbuf [newline]);
  v ← print_string v (cbuf (codes
    "Cause: Privilege violation (Ring 3 attempted Ring 0 instruction/access) or Invalid Segment."
    ++ [newline]));
  print_string v (cbuf (codes "System halted." ++ [newline])).
End Handlers.

Section Spec.
Context {W : Type} `{CrtcLaws W}.
Implicit Types (v : vga W).

Definition red v : vga W := set_text_color v VGA_COLOR_LIGHT_RED VGA_COLOR_BLACK.
Lemma red_wf v : vga_wf v -> vga_wf (red v).
Proof. intros []. by split. Qed.
Definition divide_report : list Z :=
  newline :: codes "[EXCEPTION] CPU Divide by Zero Exception (ISR0)!" ++ [newline] ++
  codes "System halted." ++ [newline].
Definition gpf_report (ds : list Z) : list Z :=
  newline :: codes "========================================" ++ [newline] ++
  codes " [KERNEL PANIC] GENERAL PROTECTION FAULT (GPF)!" ++ [newline] ++
  codes "========================================" ++ [newline] ++
  codes "Error Code: 0x" ++ ds ++ [newline] ++
  codes "Cause: Privilege violation (Ring 3 attempted Ring 0 instruction/access) or Invalid Segment."
    ++ [newline] ++ codes "System halted." ++ [newline].

(** The handlers of vectors 0 and 13 never go wrong: from any console they put
    their report on the screen in light red, the error code of a general
    protection fault in hexadecimal, and halt. *)
Theorem exception_reports v buf error_code :
  vga_wf v -> (8 < length buf)%nat -> 0 <= error_code < 4294967296 ->
  (exists v', isr_handler v = Some v' /\ shows (red v) divide_report v') /\
  exists v' ds, gpf_handler v buf error_code = Some v' /\ digits_of 16 error_code ds /\
    shows (red v) (gpf_report ds) v'.
Proof.
  intros Hv Hb He. pose proof (red_wf v Hv) as Hv0. split.
  - unfold isr_handler. fold (red v). cbv zeta. pose proof (shows_refl (red v) Hv0) as Hsh.
    print_step. print_last. by split.
  - unfold gpf_handler. fold (red v). cbv zeta. pose proof (shows_refl (red v) Hv0) as Hsh. unfold lit.
    do 4 print_step. number_step 8%nat ds Hdig. do 2 print_step. print_last.
    exists ds. split; [done|]. split; [done|]. unfold gpf_report. match goal with Hs : shows _ _ _ |- _ => revert Hs end.
    rewrite <- !app_assoc. cbn [app]. done.
Qed.
End Spec.

Import Crtc.
Lemma exception_reports_witness : exists v' ds, gpf_handler demo_screen (replicate 32 0) 0x1B = Some v' /\
  digits_of 16 0x1B ds /\ shows (red demo_screen) (gpf_report ds) v'.
Proof.
  apply (exception_reports demo_screen (replicate 32 0) 0x1B).
  - split; [done|]. by vm_compute.
  - simpl. lia.
  - lia.
Defined.
