(* ===== verification/Gdt.v ===== *)
(** * arch/x86/gdt.cpp and gdt.h: the segment table and the TSS

    [gdt_flush] and [tss_flush] are assembly; the state keeps the operands they
    were called with.  The addresses of the tables are parameters.  The last
    part reads a packed descriptor the way the processor documents it. *)
From S2P Require Import Prelude DiskLayout.

Record gdt_entry := mk_gdt_entry {
  limit_low : Z; base_low : Z; base_middle : Z;
  access : Z; granularity : Z; base_high : Z;
}.
Definition null_entry : gdt_entry := mk_gdt_entry 0 0 0 0 0 0.

(** [tss_words] are the 25 leading words, [prev_tss] first, [ldt] last. *)
Record tss_entry := mk_tss { tss_words : list Z; trap : Z; iomap_base : Z }.
Definition SIZEOF_TSS : Z := 104.
Definition TSS_ESP0 : Z := 1.
Definition TSS_SS0 : Z := 2.

Record gdt := mk_gdt {
  gdt_entries : list gdt_entry;
  gdt_record : Z * Z;             (* limit, base *)
  tss : tss_entry;
  gdtr : option Z;                (* operand of gdt_flush *)
  tr : option Z;                  (* operand of tss_flush *)
}.
(** The zero-initialised globals. *)
Definition gdt_boot : gdt :=
  mk_gdt (replicate 6 null_entry) (0, 0) (mk_tss (replicate 25 0) 0 0) None None.

Definition set_tss (g : gdt) (t : tss_entry) : gdt :=
  mk_gdt (gdt_entries g) (gdt_record g) t (gdtr g) (tr g).

Definition set_kernel_stack (g : gdt) (stack_top : Z) : option gdt :=
  ws ← zset (tss_words (tss g)) TSS_ESP0 stack_top;
  Some (set_tss g (mk_tss ws (trap (tss g)) (iomap_base (tss g)))).

Definition make_gate (base limit acc gran : Z) : gdt_entry :=
  let g0 := u8 (Z.land (Z.shiftr limit 16) 0x0F) in
  mk_gdt_entry (u16 (Z.land limit 0xFFFF)) (u16 (Z.land base 0xFFFF))
    (u8 (Z.land (Z.shiftr base 16) 0xFF)) acc
    (u8 (Z.lor g0 (Z.shiftl (Z.land gran 0xF) 4)))
    (u8 (Z.land (Z.shiftr base 24) 0xFF)).
Definition set_gdt_gate (g : gdt) (num base limit acc gran : Z) : option gdt :=
  es ← zset (gdt_entries g) num (make_gate base limit acc gran);
  Some (mk_gdt es (gdt_record g) (tss g) (gdtr g) (tr g)).

Definition init_tss (tss_addr : Z) (g : gdt) : option gdt :=
  ws ← zset (replicate 25 0) TSS_SS0 0x10;
  ws ← zset ws TSS_ESP0 0x800000;
  set_gdt_gate (set_tss g (mk_tss ws 0 SIZEOF_TSS)) 5 tss_addr (SIZEOF_TSS - 1) 0x89 0.

(** [record_addr], [entries_addr] and [tss_addr] are the addresses of
    [gdt_record], [gdt_entries] and [tss]. *)
Definition init_gdt (record_addr entries_addr tss_addr : Z) (g : gdt) : option gdt :=
  let g := mk_gdt (gdt_entries g) (8 * 6 - 1, entries_addr) (tss g) (gdtr g) (tr g) in
  g ← set_gdt_gate g 0 0 0 0 0;
  g ← set_gdt_gate g 1 0 0xFFFFF 154 12;
  g ← set_gdt_gate g 2 0 0xFFFFF 146 12;
  g ← set_gdt_gate g 3 0 0xFFFFF 250 12;
  g ← set_gdt_gate g 4 0 0xFFFFF 242 12;
  g ← init_tss tss_addr g;
  Some (mk_gdt (gdt_entries g) (gdt_record g) (tss g) (Some record_addr) (Some 0x28)).

(** ** The processor's reading of the eight packed bytes *)
Definition le16 (x : Z) : list Z := [x mod 256; (x / 256) mod 256].
Definition gdt_bytes (e : gdt_entry) : list Z :=
  le16 (limit_low e) ++ le16 (base_low e) ++
  [base_middle e; access e; granularity e; base_high e].

Record segment := mk_segment { seg_base : Z; seg_limit : Z; seg_access : Z; seg_flags : Z }.
Definition cpu_segment (bytes : list Z) : option segment :=
  match bytes with
  | [b0; b1; b2; b3; b4; b5; b6; b7] =>
      Some (mk_segment (b2 + 256 * b3 + 65536 * b4 + 16777216 * b7)
              (b0 + 256 * b1 + 65536 * (b6 mod 16)) b5 (b6 / 16))
  | _ => None
  end.
(** Descriptor privilege level and present bit of an access byte. *)
Definition dpl (acc : Z) : Z := (acc / 32) mod 4.
Definition present (acc : Z) : bool := Z.testbit acc 7.

Lemma land_low x n k : 0 <= n -> k = 2 ^ n - 1 -> Z.land x k = x mod 2 ^ n.
Proof. intros Hn ->. rewrite <- Z.land_ones, Z.ones_equiv, Z.sub_1_r by done. done. Qed.
Lemma lor_nibbles a b : 0 <= a < 16 -> 0 <= b -> Z.lor a (Z.shiftl b 4) = a + 16 * b.
Proof.
  intros Ha Hb. assert (Hz : Z.land a (Z.shiftl b 4) = 0).
  { apply Z.bits_inj'. intros n Hn. rewrite Z.land_spec, Z.bits_0.
    destruct (Z.ltb_spec n 4).
    - rewrite Z.shiftl_spec_low by lia. apply andb_false_r.
    - apply andb_false_intro1. apply Z.testbit_false; [lia|]. rewrite Z.div_small; [done|].
      split; [lia|]. apply Z.lt_le_trans with (2 ^ 4); [lia|]. apply Z.pow_le_mono_r; lia. }
  rewrite <- Z.lxor_lor, <- Z.add_nocarry_lxor, Z.shiftl_mul_pow2 by done. lia.
Qed.

Lemma le16_bytes x : 0 <= x < 65536 -> exists a b, le16 x = [a; b] /\ a + 256 * b = x.
Proof.
  intros Hx. eexists _, _. split; [reflexivity|]. Z.to_euclidean_division_equations. lia.
Qed.

Lemma make_gate_decode base limit acc gran :
  0 <= base < 4294967296 -> 0 <= limit < 4294967296 -> 0 <= gran < 256 ->
  cpu_segment (gdt_bytes (make_gate base limit acc gran)) =
  Some (mk_segment base (limit mod 1048576) acc (gran mod 16)).
Proof.
  intros Hb Hl Hg. unfold gdt_bytes, make_gate. cbn [limit_low base_low base_middle access
    granularity base_high].
  rewrite (land_low gran 4), (land_low (Z.shiftr limit 16) 4), (land_low (Z.shiftr base 16) 8),
    (land_low (Z.shiftr base 24) 8), (land_low base 16), (land_low limit 16) by done.
  rewrite !Z.shiftr_div_pow2 by lia. change (2 ^ 4) with 16. change (2 ^ 8) with 256.
  change (2 ^ 16) with 65536. change (2 ^ 24) with 16777216.
  rewrite (u8_small (_ mod 16)) by (Z.to_euclidean_division_equations; lia).
  rewrite lor_nibbles by (Z.to_euclidean_division_equations; lia).
  unfold le16, u16, u8. cbn [app cpu_segment]. f_equal.
  f_equal; Z.to_euclidean_division_equations; lia.
Qed.

Lemma set_gdt_gate_spec g num base limit acc gran : 0 <= num < Z.of_nat (length (gdt_entries g)) ->
  set_gdt_gate g num base limit acc gran =
  Some (mk_gdt (<[Z.to_nat num := make_gate base limit acc gran]> (gdt_entries g))
          (gdt_record g) (tss g) (gdtr g) (tr g)).
Proof. intros Hn. unfold set_gdt_gate. by rewrite zset_in_range. Qed.

(** What the processor finds at index [i] of the table. *)
Definition segment_at (g : gdt) (i : nat) : option segment :=
  e ← gdt_entries g !! i; cpu_segment (gdt_bytes e).

(** ** Properties *)
(** set_gdt_gate on one of the six entries stores the descriptor the processor
    reads back as the given base, the low 20 bits of the limit, the access byte
    and the four flags, and leaves the other entries alone. *)
Theorem set_gdt_gate_decodes g num base limit acc gran :
  length (gdt_entries g) = 6%nat -> 0 <= num < 6 -> 0 <= base < 4294967296 ->
  0 <= limit < 4294967296 -> 0 <= gran < 256 ->
  exists g', set_gdt_gate g num base limit acc gran = Some g' /\
    length (gdt_entries g') = 6%nat /\
    segment_at g' (Z.to_nat num) = Some (mk_segment base (limit mod 1048576) acc (gran mod 16)) /\
    forall i, i <> Z.to_nat num -> segment_at g' i = segment_at g i.
Proof.
  intros Hl Hn Hb Hlim Hg. rewrite set_gdt_gate_spec by lia. eexists. split; [reflexivity|].
  unfold segment_at. cbn [gdt_entries]. split; [by rewrite length_insert|]. split.
  - rewrite list_lookup_insert_eq by lia. cbn [mbind option_bind]. by apply make_gate_decode.
  - intros i Hi. by rewrite list_lookup_insert_ne.
Qed.
Lemma set_gdt_gate_decodes_witness :
  exists g', set_gdt_gate gdt_boot 3 0x12345678 0xFFFFF 250 12 = Some g' /\
    length (gdt_entries g') = 6%nat /\
    segment_at g' (Z.to_nat 3) = Some (mk_segment 0x12345678 (0xFFFFF mod 1048576) 250 (12 mod 16)) /\
    forall i, i <> Z.to_nat 3 -> segment_at g' i = segment_at gdt_boot i.
Proof.
  apply (set_gdt_gate_decodes gdt_boot 3 0x12345678 0xFFFFF 250 12); [reflexivity|lia|lia|lia|lia].
Defined.

(** init_gdt from the boot state loads a table of six descriptors: a null one,
    flat 4 GB code and data segments for ring 0 and for ring 3, and the TSS,
    104 bytes at its address; the selectors the kernel uses (0x08 and 0x10, and
    0x1B and 0x23 in user tasks) name entries of their own privilege level, and
    the TSS holds the ring 0 stack segment. *)
Theorem init_gdt_layout record_addr entries_addr tss_addr :
  0 <= tss_addr < 4294967296 ->
  exists g, init_gdt record_addr entries_addr tss_addr gdt_boot = Some g /\
    gdt_record g = (47, entries_addr) /\ gdtr g = Some record_addr /\ tr g = Some 0x28 /\
    segment_at g 0 = Some (mk_segment 0 0 0 0) /\
    (forall sel, sel ∈ [0x08; 0x10; 0x1B; 0x23] ->
       exists acc, segment_at g (Z.to_nat (sel / 8)) = Some (mk_segment 0 0xFFFFF acc 12) /\
         present acc = true /\ dpl acc = sel mod 4) /\
    segment_at g 5 = Some (mk_segment tss_addr (SIZEOF_TSS - 1) 0x89 0) /\
    tss_words (tss g) !! Z.to_nat TSS_SS0 = Some 0x10.
Proof.
  intros Ht. eexists. split; [lazy -[make_gate]; reflexivity|]. split_and!; try reflexivity.
  - intros sel Hs. rewrite !elem_of_cons in Hs.
    destruct Hs as [-> |[-> |[-> |[-> |Hs]]]]; [eexists; split; [reflexivity|split; reflexivity]..|].
    by apply not_elem_of_nil in Hs.
  - unfold segment_at. cbn [gdt_entries]. apply (make_gate_decode tss_addr 103 0x89 0); lia.
Qed.
Lemma init_gdt_layout_witness :
  exists g, init_gdt 0x110000 0x110010 0x110100 gdt_boot = Some g /\
    gdt_record g = (47, 0x110010) /\ gdtr g = Some 0x110000 /\ tr g = Some 0x28 /\
    segment_at g 0 = Some (mk_segment 0 0 0 0) /\
    (forall sel, sel ∈ [0x08; 0x10; 0x1B; 0x23] ->
       exists acc, segment_at g (Z.to_nat (sel / 8)) = Some (mk_segment 0 0xFFFFF acc 12) /\
         present acc = true /\ dpl acc = sel mod 4) /\
    segment_at g 5 = Some (mk_segment 0x110100 (SIZEOF_TSS - 1) 0x89 0) /\
    tss_words (tss g) !! Z.to_nat TSS_SS0 = Some 0x10.
Proof. apply (init_gdt_layout 0x110000 0x110010 0x110100). lia. Defined.
