(* ===== verification/Timer.v ===== *)
(** * drivers/timer.cpp and drivers/timer.h: the PIT and the tick counter

    The state is [timer_ticks].  [sleep] halts until an interrupt; the list
    [wakes] says how many timer interrupts arrived during each halt, in order.
    [timer_handler], which also drives the scheduler, is in [Task]. *)
From S2P Require Import Prelude PortIo.

Definition TIMER_FREQ : Z := 100.

Definition init_pit_timer {W} `{Ports W} (w : W) : W :=
  let divisor := 1193182 / TIMER_FREQ in
  let w := outb w 0x43 0x36 in
  let w := outb w 0x40 (u8 (Z.land divisor 0xFF)) in
  outb w 0x40 (u8 (Z.land (Z.shiftr divisor 8) 0xFF)).

(** [timer_ticks++] of the IRQ0 handler. *)
Definition tick (timer_ticks : Z) : Z := u32 (timer_ticks + 1).
Definition get_tick (timer_ticks : Z) : Z := timer_ticks.

(** The halts of the loop; [None]: the interrupts listed do not end it. *)
Fixpoint sleep_loop (wakes : list nat) (timer_ticks target_ticks : Z) : option Z :=
  if timer_ticks <? target_ticks then
    match wakes with
    | [] => None
    | n :: rest => sleep_loop rest (Nat.iter n tick timer_ticks) target_ticks
    end
  else Some timer_ticks.
Definition sleep_ticks (ms : Z) : Z := u32 (ms * TIMER_FREQ) / 1000.
Definition sleep (wakes : list nat) (timer_ticks ms : Z) : option Z :=
  sleep_loop wakes timer_ticks (u32 (timer_ticks + sleep_ticks ms)).

Lemma iter_tick n t : 0 <= t -> t + Z.of_nat n < 4294967296 -> Nat.iter n tick t = t + Z.of_nat n.
Proof.
  intros Ht. induction n as [|n IH]; intros Hn; [simpl; lia|].
  rewrite Nat.iter_succ, IH by lia. unfold tick. rewrite u32_small; lia.
Qed.
Definition elapsed (wakes : list nat) : Z := foldr (fun n s => Z.of_nat n + s) 0 wakes.
Lemma elapsed_nonneg wakes : 0 <= elapsed wakes.
Proof. induction wakes; simpl; lia. Qed.

Lemma sleep_loop_spec wakes : forall t target, 0 <= t -> target < 4294967296 ->
  t + elapsed wakes < 4294967296 -> target <= t + elapsed wakes ->
  exists t', sleep_loop wakes t target = Some t' /\ Z.max t target <= t' <= t + elapsed wakes.
Proof.
  induction wakes as [|n wakes IH]; intros t target Ht Htg Hw He;
    cbn [sleep_loop elapsed foldr] in *; destruct (Z.ltb_spec t target).
  - lia.
  - exists t. split; [done|]. lia.
  - fold (elapsed wakes) in *. pose proof (elapsed_nonneg wakes). rewrite iter_tick by lia.
    destruct (IH (t + Z.of_nat n) target) as (t' & -> & Hr); try lia.
    exists t'. split; [done|]. lia.
  - fold (elapsed wakes) in *. pose proof (elapsed_nonneg wakes). exists t. split; [done|]. lia.
Qed.

(** 9 ms are no whole tick: sleep returns without one interrupt. *)
Lemma sleep_of_nine_returns_at_once t : 0 <= t < 4294967296 -> sleep [] t 9 = Some t.
Proof.
  intros Ht. unfold sleep, sleep_ticks. change (u32 (9 * TIMER_FREQ) / 1000) with 0.
  rewrite Z.add_0_r, u32_small by lia. cbn [sleep_loop]. by rewrite Z.ltb_irrefl.
Qed.

(** C38. sleep returns as soon as enough timer interrupts have arrived, and never
    before ms * 100 / 1000 of them, the quotient rounded down: whole ticks of
    10 ms, so that a sleep of less than 10 ms returns at once
    ([sleep_of_nine_returns_at_once]).  It is stated for [ms] below 42949672,
    where the multiplication does not wrap, and while the tick counter does
    not wrap. *)
Theorem sleep_waits wakes t ms :
  0 <= t -> 0 <= ms < 42949672 -> t + elapsed wakes < 4294967296 ->
  ms * 100 / 1000 <= elapsed wakes ->
  exists t', sleep wakes t ms = Some t' /\ t + ms * 100 / 1000 <= t' <= t + elapsed wakes.
Proof.
  intros Ht Hms Hw He. unfold sleep, sleep_ticks, TIMER_FREQ.
  rewrite (u32_small (ms * 100)) by lia.
  assert (0 <= ms * 100 / 1000) by (Z.to_euclidean_division_equations; lia).
  rewrite u32_small by lia.
  destruct (sleep_loop_spec wakes t (t + ms * 100 / 1000)) as (t' & -> & Hr); try lia.
  exists t'. split; [done|]. lia.
Qed.
Lemma sleep_waits_witness :
  exists t', sleep [1; 0; 3; 9]%nat 700 100 = Some t' /\
    700 + 100 * 100 / 1000 <= t' <= 700 + elapsed [1; 0; 3; 9]%nat.
Proof. apply (sleep_waits [1; 0; 3; 9]%nat 700 100); vm_compute; done. Defined.
