(* ===== verification/Idt.v ===== *)
(** * arch/x86/idt.cpp and idt.h: the interrupt table

    The handlers' entry points are assembly labels and are parameters, as is
    the address of the table.  The two exception handlers of the file,
    [isr_handler] and [gpf_handler], are in [Exceptions]. *)
From S2P Require Import Prelude PortIo Pic Timer Gdt.

Record idt_entry := mk_idt_entry {
  i_base_low : Z; i_selector : Z; i_always0 : Z; i_flags : Z; i_base_high : Z;
}.
Definition null_gate : idt_entry := mk_idt_entry 0 0 0 0 0.

Record idt (W : Type) := mk_idt {
  idt_entries : list idt_entry;
  idt_record : Z * Z;           (* limit, base *)
  idtr : option Z;              (* operand of idt_load *)
  idt_machine : W;
}.
Arguments mk_idt {W} _ _ _ _.
Arguments idt_entries {W} _.
Arguments idt_record {W} _.
Arguments idtr {W} _.
Arguments idt_machine {W} _.

(** The assembly labels [init_idt] registers. *)
Record handlers := mk_handlers {
  isr0 : Z; isr13 : Z; isr14 : Z; irq0 : Z; irq1 : Z; isr80 : Z;
}.

Section Idt.
Context {W : Type} `{Ports W}.
Implicit Types t : idt W.

Definition make_idt_gate (base sel flags : Z) : idt_entry :=
  mk_idt_entry (u16 (Z.land base 0xFFFF)) sel 0 flags
    (u16 (Z.land (Z.shiftr base 16) 0xFFFF)).
(** [num] is an unsigned char. *)
Definition set_idt_gate t (num base sel flags : Z) : option (idt W) :=
  es ← zset (idt_entries t) (u8 num) (make_idt_gate base sel flags);
  Some (mk_idt es (idt_record t) (idtr t) (idt_machine t)).

(** [for (; n > 0; i++) set_idt_gate(i, 0, 0, 0)] *)
Fixpoint clear_gates (n : nat) t (i : Z) : option (idt W) :=
  match n with
  | O => Some t
  | S n' => t' ← set_idt_gate t i 0 0 0; clear_gates n' t' (i + 1)
  end.

Definition on_machine t (f : W -> W) : idt W :=
  mk_idt (idt_entries t) (idt_record t) (idtr t) (f (idt_machine t)).

Definition init_idt (record_addr entries_addr : Z) (h : handlers) t : option (idt W) :=
  let t := mk_idt (idt_entries t) (8 * 256 - 1, entries_addr) (idtr t) (idt_machine t) in
  t ← clear_gates 256 t 0;
  let t := on_machine t pic_remap in
  t ← set_idt_gate t 0 (isr0 h) 0x08 0x8E;
  t ← set_idt_gate t 13 (isr13 h) 0x08 0x8E;
  t ← set_idt_gate t 14 (isr14 h) 0x08 0x8E;
  t ← set_idt_gate t 32 (irq0 h) 0x08 0x8E;
  let t := on_machine t init_pit_timer in
  t ← set_idt_gate t 33 (irq1 h) 0x08 0x8E;
  t ← set_idt_gate t 0x80 (isr80 h) 0x08 0xEE;
  Some (mk_idt (idt_entries t) (idt_record t) (Some record_addr) (idt_machine t)).
End Idt.

(** ** The processor's reading of the eight packed bytes *)
Definition idt_bytes (e : idt_entry) : list Z :=
  le16 (i_base_low e) ++ le16 (i_selector e) ++ [i_always0 e; i_flags e] ++ le16 (i_base_high e).
Record gate := mk_gate { gate_offset : Z; gate_selector : Z; gate_flags : Z }.
Definition cpu_gate (bytes : list Z) : option gate :=
  match bytes with
  | [b0; b1; b2; b3; b4; b5; b6; b7] =>
      Some (mk_gate (b0 + 256 * b1 + 65536 * (b6 + 256 * b7)) (b2 + 256 * b3) b5)
  | _ => None
  end.
Definition gate_at {W} (t : idt W) (num : Z) : option gate :=
  e ← idt_entries t !! Z.to_nat num; cpu_gate (idt_bytes e).

Lemma make_idt_gate_decode base sel flags :
  0 <= base < 4294967296 -> 0 <= sel < 65536 ->
  cpu_gate (idt_bytes (make_idt_gate base sel flags)) = Some (mk_gate base sel flags).
Proof.
  intros Hb Hs. unfold idt_bytes, make_idt_gate. cbn [i_base_low i_selector i_always0 i_flags i_base_high].
  rewrite (land_low base 16), (land_low (Z.shiftr base 16) 16) by done.
  rewrite Z.shiftr_div_pow2 by lia. change (2 ^ 16) with 65536.
  unfold le16, u16. cbn [app cpu_gate]. f_equal. f_equal; Z.to_euclidean_division_equations; lia.
Qed.

Section Spec.
Context {W : Type} `{Ports W}.
Implicit Types t : idt W.

Lemma set_idt_gate_spec t num base sel flags :
  length (idt_entries t) = 256%nat -> 0 <= num < 256 ->
  0 <= base < 4294967296 -> 0 <= sel < 65536 ->
  exists t', set_idt_gate t num base sel flags = Some t' /\
    length (idt_entries t') = 256%nat /\ idt_record t' = idt_record t /\
    idt_machine t' = idt_machine t /\
    forall j, 0 <= j < 256 ->
      gate_at t' j = if j =? num then Some (mk_gate base sel flags) else gate_at t j.
Proof.
  intros Hl Hn Hb Hs. unfold set_idt_gate. rewrite u8_small, zset_in_range by lia.
  eexists. split; [reflexivity|]. cbn [idt_entries]. split; [by rewrite length_insert|].
  split; [done|]. split; [done|]. intros j Hj. unfold gate_at. cbn [idt_entries].
  destruct (Z.eqb_spec j num) as [->|Hne].
  - rewrite list_lookup_insert_eq by lia. cbn [mbind option_bind]. by apply make_idt_gate_decode.
  - by rewrite list_lookup_insert_ne by lia.
Qed.

Lemma clear_gates_spec n : forall t i, length (idt_entries t) = 256%nat ->
  0 <= i -> i + Z.of_nat n = 256 ->
  exists t', clear_gates n t i = Some t' /\ length (idt_entries t') = 256%nat /\
    idt_record t' = idt_record t /\ idt_machine t' = idt_machine t /\
    forall j, 0 <= j < 256 ->
      gate_at t' j = if i <=? j then Some (mk_gate 0 0 0) else gate_at t j.
Proof.
  induction n as [|n IH]; intros t i Hl Hi Hn; cbn [clear_gates].
  { exists t. split_and!; try done. intros j Hj. by rewrite (proj2 (Z.leb_gt _ _)) by lia. }
  destruct (set_idt_gate_spec t i 0 0 0 Hl) as (t1 & -> & Hl1 & Hr1 & Hm1 & Hg1); try lia.
  cbn [mbind option_bind].
  destruct (IH t1 (i + 1) Hl1) as (t' & -> & Hl' & Hr' & Hm' & Hg'); try lia.
  exists t'. split; [done|]. split; [done|]. split; [congruence|]. split; [congruence|].
  intros j Hj. rewrite Hg', Hg1 by done.
  destruct (Z.leb_spec (i + 1) j), (Z.leb_spec i j), (Z.eqb_spec j i); done || lia.
Qed.

(** The gate of each vector after [init_idt]. *)
Definition vector (h : handlers) (j : Z) : gate :=
  if j =? 0x80 then mk_gate (isr80 h) 0x08 0xEE
  else if j =? 33 then mk_gate (irq1 h) 0x08 0x8E
  else if j =? 32 then mk_gate (irq0 h) 0x08 0x8E
  else if j =? 14 then mk_gate (isr14 h) 0x08 0x8E
  else if j =? 13 then mk_gate (isr13 h) 0x08 0x8E
  else if j =? 0 then mk_gate (isr0 h) 0x08 0x8E
  else mk_gate 0 0 0.

Definition handlers_ok (h : handlers) : Prop :=
  Forall (fun a => 0 <= a < 4294967296) [isr0 h; isr13 h; isr14 h; irq0 h; irq1 h; isr80 h].

(** init_idt fills all 256 vectors: divide error, general protection, page
    fault, timer, keyboard and system call lead to their handlers through the
    kernel code segment, every other gate is absent, and only the system call
    may be raised from ring 3; the PIC has been remapped before the PIT was
    programmed. *)
Theorem init_idt_vectors record_addr entries_addr h t :
  length (idt_entries t) = 256%nat -> handlers_ok h ->
  exists t', init_idt record_addr entries_addr h t = Some t' /\
    (forall j, 0 <= j < 256 -> gate_at t' j = Some (vector h j)) /\
    (forall j, 0 <= j < 256 ->
       present (gate_flags (vector h j)) = bool_decide (j ∈ [0; 13; 14; 32; 33; 0x80]) /\
       (dpl (gate_flags (vector h j)) = 3 <-> j = 0x80)) /\
    idt_record t' = (2047, entries_addr) /\ idtr t' = Some record_addr /\
    idt_machine t' = init_pit_timer (pic_remap (idt_machine t)).
Proof.
  intros Hl Hh. unfold handlers_ok in Hh. rewrite !Forall_cons in Hh.
  destruct Hh as (H0 & H13 & H14 & H32 & H33 & H80 & _). unfold init_idt. cbv zeta.
  change (8 * 256 - 1) with 2047.
  destruct (clear_gates_spec 256 (mk_idt (idt_entries t) (2047, entries_addr) (idtr t) (idt_machine t)) 0)
    as (t0 & -> & L0 & R0 & M0 & G0); [done|lia|lia|]. cbn [mbind option_bind].
  edestruct (set_idt_gate_spec (on_machine t0 pic_remap) 0 (isr0 h) 0x08 0x8E)
    as (t1 & -> & L1 & R1 & M1 & G1); [done|lia..|]. cbn [mbind option_bind].
  destruct (set_idt_gate_spec t1 13 (isr13 h) 0x08 0x8E)
    as (t2 & -> & L2 & R2 & M2 & G2); [done|lia..|]. cbn [mbind option_bind].
  destruct (set_idt_gate_spec t2 14 (isr14 h) 0x08 0x8E)
    as (t3 & -> & L3 & R3 & M3 & G3); [done|lia..|]. cbn [mbind option_bind].
  destruct (set_idt_gate_spec t3 32 (irq0 h) 0x08 0x8E)
    as (t4 & -> & L4 & R4 & M4 & G4); [done|lia..|]. cbn [mbind option_bind].
  destruct (set_idt_gate_spec (on_machine t4 init_pit_timer) 33 (irq1 h) 0x08 0x8E)
    as (t5 & -> & L5 & R5 & M5 & G5); [done|lia..|]. cbn [mbind option_bind].
  destruct (set_idt_gate_spec t5 0x80 (isr80 h) 0x08 0xEE)
    as (t6 & -> & L6 & R6 & M6 & G6); [done|lia..|]. cbn [mbind option_bind].
  eexists. split; [reflexivity|]. split; [|split; [|split; [|split]]].
  - intros j Hj. change (gate_at (mk_idt (idt_entries t6) _ _ _) j) with (gate_at t6 j).
    rewrite G6, G5 by done. change (gate_at (on_machine t4 init_pit_timer) j) with (gate_at t4 j).
    rewrite G4, G3, G2, G1 by done. change (gate_at (on_machine t0 pic_remap) j) with (gate_at t0 j).
    rewrite G0 by done. rewrite (proj2 (Z.leb_le _ _)) by lia. unfold vector.
    repeat case_match; done.
  - intros j Hj. unfold vector.
    repeat match goal with
    | |- context [if ?b then _ else _] => destruct b eqn:?;
        [match goal with E : (j =? _) = true |- _ => apply Z.eqb_eq in E as -> end;
         vm_compute; split; [done|split; intros; done]|]
    end.
    split; [|split; intros; [done|lia]].
    symmetry. apply bool_decide_eq_false. rewrite !elem_of_cons, elem_of_nil. lia.
  - cbn [idt_record]. rewrite R6, R5. cbn [on_machine idt_record]. by rewrite R4, R3, R2, R1.
  - done.
  - cbn [idt_machine]. rewrite M6, M5. cbn [on_machine idt_machine]. rewrite M4, M3, M2, M1.
    cbn [on_machine idt_machine]. by rewrite M0.
Qed.
End Spec.

Import Trace.
Definition demo_handlers : handlers :=
  mk_handlers 0x100040 0x100050 0x100060 0x100070 0x100080 0x100090.
Definition demo_idt : idt Trace.t := mk_idt (replicate 256 null_gate) (0, 0) None (mk_trace [] []).
Lemma init_idt_vectors_witness :
  exists t', init_idt 0x110000 0x110010 demo_handlers demo_idt = Some t' /\
    (forall j, 0 <= j < 256 -> gate_at t' j = Some (vector demo_handlers j)) /\
    (forall j, 0 <= j < 256 ->
       present (gate_flags (vector demo_handlers j)) = bool_decide (j ∈ [0; 13; 14; 32; 33; 0x80]) /\
       (dpl (gate_flags (vector demo_handlers j)) = 3 <-> j = 0x80)) /\
    idt_record t' = (2047, 0x110010) /\ idtr t' = Some 0x110000 /\
    idt_machine t' = init_pit_timer (pic_remap (idt_machine demo_idt)).
Proof.
  apply (init_idt_vectors 0x110000 0x110010 demo_handlers demo_idt).
  - reflexivity.
  - by repeat constructor.
Defined.
