(* ===== verification/Ata.v ===== *)
(** * drivers/ata.cpp: the ATA driver, polled PIO

    The controller is hardware: [AtaLaws] states the part of the documented
    28-bit PIO protocol the driver relies on.  The polling loops take a bound
    on the number of status reads; [None] is a poll that outlasts it.  A
    [buffer] is the 512 bytes of a sector. *)
From S2P Require Import Prelude PortIo BlockDev.

Definition ATA_DATA : Z := 0x1F0.
Definition ATA_STATUS : Z := 0x1F7.
Definition BSY : Z := 0x80.
Definition DRQ : Z := 0x08.

Section Driver.
Context {W : Type} `{Ports W}.
Implicit Types w : W.

(** [while (inb(0x1F7) & 0x80)] *)
Fixpoint ata_wait_ready (polls : nat) w : option W :=
  let '(s, w) := inb w ATA_STATUS in
  if Z.land s BSY =? 0 then Some w
  else match polls with O => None | S n => ata_wait_ready n w end.

(** [while (!(inb(0x1F7) & 0x08))] *)
Fixpoint wait_drq (polls : nat) w : option W :=
  let '(s, w) := inb w ATA_STATUS in
  if negb (Z.land s DRQ =? 0) then Some w
  else match polls with O => None | S n => wait_drq n w end.

(** The six register writes that start a command. *)
Definition ata_command w (lba cmd : Z) : W :=
  let w := outb w 0x1F2 1 in
  let w := outb w 0x1F3 (u8 lba) in
  let w := outb w 0x1F4 (u8 (Z.shiftr lba 8)) in
  let w := outb w 0x1F5 (u8 (Z.shiftr lba 16)) in
  let w := outb w 0x1F6 (u8 (Z.lor (Z.shiftr lba 24) 0xE0)) in
  outb w ATA_STATUS cmd.

(** [for (; n > 0; i++) ((unsigned short* )buffer)[i] = inw(0x1F0)] *)
Fixpoint read_words (n : nat) w : list Z * W :=
  match n with
  | O => ([], w)
  | S n' =>
      let '(x, w) := inw w ATA_DATA in
      let '(bytes, w) := read_words n' w in
      (x mod 256 :: (x / 256) mod 256 :: bytes, w)
  end.

Definition ata_read_sector_pio (polls : nat) w (lba : Z) : option (Z * list Z * W) :=
  w ← ata_wait_ready polls w;
  let w := ata_command w lba 0x20 in
  w ← ata_wait_ready polls w;
  w ← wait_drq polls w;
  let '(buffer, w) := read_words 256 w in
  Some (0, buffer, w).

(** [for (; n > 0; i++) outw(0x1F0, ((unsigned short* )buffer)[i])] *)
Fixpoint write_words (n : nat) w (buffer : list Z) : option W :=
  match n with
  | O => Some w
  | S n' =>
      match buffer with
      | lo :: hi :: rest => write_words n' (outw w ATA_DATA (lo + 256 * hi)) rest
      | _ => None
      end
  end.

(** Up to the last data word, and the rest: the flush is written right behind
    it, without a look at the status. *)
Definition ata_write_data (polls : nat) w (lba : Z) (buffer : list Z) : option W :=
  w ← ata_wait_ready polls w;
  let w := ata_command w lba 0x30 in
  w ← ata_wait_ready polls w;
  w ← wait_drq polls w;
  write_words 256 w buffer.
Definition ata_write_sector_pio (polls : nat) w (lba : Z) (buffer : list Z) : option (Z * W) :=
  w ← ata_write_data polls w lba buffer;
  let w := outb w ATA_STATUS 0xE7 in
  w ← ata_wait_ready polls w;
  Some (0, w).
End Driver.

(** ** The controller *)
(** What the data port is for: nothing, the words of a sector still to be read,
    or the sector being written and the words received. *)
Inductive phase := Idle | Reading (words : list Z) | Writing (lba : Z) (words : list Z).
Definition drq (p : phase) : bool := match p with Idle => false | _ => true end.

(** The address in registers 0x1F3 to 0x1F6. *)
Definition lba_of (r : Z -> Z) : Z :=
  r 0x1F3 + 256 * r 0x1F4 + 65536 * r 0x1F5 + 16777216 * (r 0x1F6 mod 16).
Fixpoint words_of (bytes : list Z) : list Z :=
  match bytes with lo :: hi :: rest => (lo + 256 * hi) :: words_of rest | _ => [] end.
Fixpoint bytes_of (words : list Z) : list Z :=
  match words with [] => [] | x :: rest => x mod 256 :: (x / 256) mod 256 :: bytes_of rest end.

(** Register 0x1F6 asks for a sector number (its LBA bit; otherwise the four
    registers are cylinder, head and sector) on drive 0. *)
Definition lba_mode (r : Z -> Z) : Prop :=
  Z.testbit (r 0x1F6) 6 = true /\ Z.testbit (r 0x1F6) 4 = false.

(** [ata_busy] counts the status reads until BSY clears.  Registers and
    commands are laws only for an idle controller with BSY clear, as the
    protocol demands of the host; a command shows in the status from the next
    read on (the host waits 400 ns), and no sector is bad. *)
Class AtaLaws (W : Type) `{Ports W} := {
  ata_regs : W -> Z -> Z;
  ata_phase : W -> phase;
  ata_disk : W -> Z -> list Z;
  ata_busy : W -> nat;
  patience : nat;
  law_patience : forall w, (ata_busy w <= patience)%nat;
  law_status : forall w, exists s w', inb w ATA_STATUS = (s, w') /\
    Z.testbit s 7 = negb (ata_busy w =? 0)%nat /\
    (ata_busy w = 0%nat -> Z.testbit s 3 = drq (ata_phase w)) /\
    ata_busy w' = pred (ata_busy w) /\ ata_phase w' = ata_phase w /\
    (forall r, ata_regs w' r = ata_regs w r) /\ forall l, ata_disk w' l = ata_disk w l;
  law_reg : forall w p v, 0x1F2 <= p <= 0x1F6 -> ata_busy w = 0%nat -> ata_phase w = Idle ->
    let w' := outb w p v in
    ata_busy w' = 0%nat /\ ata_phase w' = Idle /\
    (forall r, ata_regs w' r = if r =? p then v else ata_regs w r) /\
    forall l, ata_disk w' l = ata_disk w l;
  law_read : forall w, ata_busy w = 0%nat -> ata_phase w = Idle -> ata_regs w 0x1F2 = 1 ->
    lba_mode (ata_regs w) ->
    let w' := outb w ATA_STATUS 0x20 in
    ata_phase w' = Reading (words_of (ata_disk w (lba_of (ata_regs w)))) /\
    forall l, ata_disk w' l = ata_disk w l;
  law_write : forall w, ata_busy w = 0%nat -> ata_phase w = Idle -> ata_regs w 0x1F2 = 1 ->
    lba_mode (ata_regs w) ->
    let w' := outb w ATA_STATUS 0x30 in
    ata_phase w' = Writing (lba_of (ata_regs w)) [] /\ forall l, ata_disk w' l = ata_disk w l;
  law_inw : forall w x ws, ata_busy w = 0%nat -> ata_phase w = Reading (x :: ws) ->
    exists w', inw w ATA_DATA = (x, w') /\ ata_busy w' = 0%nat /\
      ata_phase w' = (match ws with [] => Idle | _ => Reading ws end) /\
      forall l, ata_disk w' l = ata_disk w l;
  law_outw : forall w lba ws x, ata_busy w = 0%nat -> ata_phase w = Writing lba ws ->
    let w' := outw w ATA_DATA x in
    if (length ws <? 255)%nat then
      ata_busy w' = 0%nat /\ ata_phase w' = Writing lba (ws ++ [x]) /\
      forall l, ata_disk w' l = ata_disk w l
    else ata_phase w' = Idle /\
      forall l, ata_disk w' l = if l =? lba then bytes_of (ws ++ [x]) else ata_disk w l;
  law_flush : forall w, ata_busy w = 0%nat -> ata_phase w = Idle ->
    let w' := outb w ATA_STATUS 0xE7 in
    ata_phase w' = Idle /\ forall l, ata_disk w' l = ata_disk w l;
}.

(** ** Words and bytes *)
Lemma words_of_length l n : length l = (2 * n)%nat -> length (words_of l) = n.
Proof.
  revert l. induction n as [|n IH]; intros l Hl.
  - by destruct l.
  - destruct l as [|a [|b l]]; simpl in *; [lia|lia|]. rewrite IH; lia.
Qed.
Lemma bytes_of_words_of l n : length l = (2 * n)%nat -> bytes_ok l -> bytes_of (words_of l) = l.
Proof.
  revert l. induction n as [|n IH]; intros l Hl Hb.
  - by destruct l.
  - destruct l as [|a [|b l]]; simpl in *; [lia|lia|].
    apply Forall_cons in Hb as [Ha [Hb Hl']%Forall_cons]. rewrite IH by (done || lia).
    f_equal; [|f_equal]; Z.to_euclidean_division_equations; lia.
Qed.

Lemma testbit_land s k n : 0 <= n -> k = 2 ^ n -> (Z.land s k =? 0) = negb (Z.testbit s n).
Proof.
  intros Hn ->. destruct (Z.testbit s n) eqn:E; simpl.
  - apply Z.eqb_neq. intros Hz. apply (f_equal (fun x => Z.testbit x n)) in Hz.
    rewrite Z.land_spec, E, Z.pow2_bits_true, Z.bits_0 in Hz by done. done.
  - apply Z.eqb_eq, Z.bits_inj'. intros m Hm. rewrite Z.land_spec, Z.bits_0, Z.pow2_bits_eqb by done.
    destruct (Z.eqb_spec n m) as [<-|]; [by rewrite E|apply andb_false_r].
Qed.

Section Laws.
Context {W : Type} `{AtaLaws W}.
Implicit Types w : W.

(** Two machine states with the same phase, registers and disk. *)
Definition same_but_busy w w' : Prop :=
  ata_phase w' = ata_phase w /\ (forall r, ata_regs w' r = ata_regs w r) /\
  forall l, ata_disk w' l = ata_disk w l.

Lemma wait_ready_spec polls : forall w, (ata_busy w <= polls)%nat ->
  exists w', ata_wait_ready polls w = Some w' /\ ata_busy w' = 0%nat /\ same_but_busy w w'.
Proof.
  induction polls as [|n IH]; intros w Hb; cbn [ata_wait_ready];
    destruct (law_status w) as (s & w1 & -> & Hs & _ & Hb1 & Hp1 & Hr1 & Hd1);
    unfold BSY; rewrite (testbit_land s 128 7), Hs by done; rewrite negb_involutive.
  - rewrite (proj2 (Nat.eqb_eq _ _)) by lia. exists w1. split; [done|]. split; [lia|done].
  - destruct (Nat.eqb_spec (ata_busy w) 0) as [Hz|Hnz].
    + exists w1. split; [done|]. split; [lia|done].
    + destruct (IH w1) as (w' & -> & Hb' & Hp' & Hr' & Hd'); [lia|]. exists w'.
      split; [done|]. split; [done|]. split; [congruence|]. split; intros; congruence.
Qed.
Lemma wait_drq_spec polls w : ata_busy w = 0%nat -> ata_phase w <> Idle ->
  exists w', wait_drq polls w = Some w' /\ ata_busy w' = 0%nat /\ same_but_busy w w'.
Proof.
  intros Hb Hp. destruct (law_status w) as (s & w1 & E & _ & Hdrq & Hb1 & Hp1 & Hr1 & Hd1).
  exists w1. split; [|split; [lia|done]].
  assert (Hbit : Z.testbit s 3 = true) by (rewrite Hdrq by done; by destruct (ata_phase w)).
  destruct polls; cbn [wait_drq]; rewrite E; unfold DRQ;
    rewrite (testbit_land s 8 3), Hbit by done; done.
Qed.

Definition ready w : Prop := ata_busy w = 0%nat /\ ata_phase w = Idle.

(** The drive register: the high four bits of the number, the LBA bit, drive 0. *)
Lemma drive_register lba : 0 <= lba < 2 ^ 28 ->
  let r := u8 (Z.lor (Z.shiftr lba 24) 0xE0) in
  0 <= r < 256 /\ (Z.testbit r 6 = true /\ Z.testbit r 4 = false) /\ r mod 16 = lba / 16777216.
Proof.
  intros Hlba r.
  assert (Hhi : 0 <= lba / 16777216 < 16).
  { change (2 ^ 28) with 268435456 in Hlba. Z.to_euclidean_division_equations; lia. }
  assert (Hcases : forallb (fun x => let r := u8 (Z.lor x 0xE0) in
    (0 <=? r) && (r <? 256) && Z.testbit r 6 && negb (Z.testbit r 4) && (r mod 16 =? x)) (seqZ 0 16) = true)
    by done.
  rewrite forallb_forall in Hcases. specialize (Hcases (lba / 16777216)).
  unfold r. rewrite Z.shiftr_div_pow2 by lia. change (2 ^ 24) with 16777216.
  cbv zeta in Hcases. rewrite !andb_true_iff, negb_true_iff, Z.leb_le, Z.ltb_lt, Z.eqb_eq in Hcases.
  destruct Hcases as ((((H1 & H2) & H3) & H4) & H5); [|done].
  apply list_elem_of_In, elem_of_seqZ. lia.
Qed.

(** After the five address registers, the controller holds the sector number. *)
Lemma ata_address w lba : ready w -> 0 <= lba < 2 ^ 28 ->
  let w' := outb (outb (outb (outb (outb w 0x1F2 1) 0x1F3 (u8 lba)) 0x1F4 (u8 (Z.shiftr lba 8)))
                    0x1F5 (u8 (Z.shiftr lba 16))) 0x1F6 (u8 (Z.lor (Z.shiftr lba 24) 0xE0)) in
  ready w' /\ ata_regs w' 0x1F2 = 1 /\ lba_mode (ata_regs w') /\ lba_of (ata_regs w') = lba /\
  forall l, ata_disk w' l = ata_disk w l.
Proof.
  intros [Hb Hp] Hlba. cbv zeta.
  destruct (law_reg w 0x1F2 1) as (B1 & P1 & R1 & D1); try done.
  destruct (law_reg _ 0x1F3 (u8 lba) ltac:(done) B1 P1) as (B2 & P2 & R2 & D2).
  destruct (law_reg _ 0x1F4 (u8 (Z.shiftr lba 8)) ltac:(done) B2 P2) as (B3 & P3 & R3 & D3).
  destruct (law_reg _ 0x1F5 (u8 (Z.shiftr lba 16)) ltac:(done) B3 P3) as (B4 & P4 & R4 & D4).
  destruct (law_reg _ 0x1F6 (u8 (Z.lor (Z.shiftr lba 24) 0xE0)) ltac:(done) B4 P4)
    as (B5 & P5 & R5 & D5).
  destruct (drive_register lba Hlba) as (Hd & Hm & Hv).
  split; [done|]. split; [by rewrite R5, R4, R3, R2, R1|]. split; [|split].
  - unfold lba_mode. by rewrite !R5.
  - unfold lba_of. rewrite !R5, !R4, !R3, !R2, !R1. cbn [Z.eqb Pos.eqb]. rewrite Hv.
    rewrite !Z.shiftr_div_pow2 by lia. change (2 ^ 8) with 256. change (2 ^ 16) with 65536.
    change (2 ^ 28) with 268435456 in Hlba. unfold u8. Z.to_euclidean_division_equations. lia.
  - intros l. by rewrite D5, D4, D3, D2, D1.
Qed.

Lemma read_words_spec ws : forall w, ata_busy w = 0%nat -> ata_phase w = Reading ws -> ws <> [] ->
  exists w', read_words (length ws) w = (bytes_of ws, w') /\ ready w' /\
    forall l, ata_disk w' l = ata_disk w l.
Proof.
  induction ws as [|x ws IH]; intros w Hb Hp Hne; [done|]. cbn [length read_words bytes_of].
  destruct (law_inw w x ws Hb Hp) as (w1 & -> & Hb1 & Hp1 & Hd1). destruct ws as [|y ws].
  - exists w1. by split_and!.
  - destruct (IH w1 Hb1 Hp1) as (w' & -> & Hr & Hd); [done|]. exists w'. split; [done|].
    split; [done|]. intros l. by rewrite Hd.
Qed.

Lemma write_words_spec n : forall w buffer lba ws,
  ata_busy w = 0%nat -> ata_phase w = Writing lba ws -> length buffer = (2 * S n)%nat ->
  (length ws + S n = 256)%nat ->
  exists w', write_words (S n) w buffer = Some w' /\ ata_phase w' = Idle /\
    forall l, ata_disk w' l = if l =? lba then bytes_of (ws ++ words_of buffer) else ata_disk w l.
Proof.
  induction n as [|n IH]; intros w buffer lba ws Hb Hp Hl Hn;
    (destruct buffer as [|lo [|hi rest]]; [simpl in Hl; lia..|]);
    pose proof (law_outw w lba ws (lo + 256 * hi) Hb Hp) as Ho; cbv zeta in Ho;
    cbn [write_words words_of].
  - rewrite (proj2 (Nat.ltb_ge _ _)) in Ho by lia. destruct Ho as [Ho1 Ho2].
    destruct rest; [|simpl in Hl; lia]. eexists. split; [reflexivity|]. done.
  - rewrite (proj2 (Nat.ltb_lt _ _)) in Ho by lia. destruct Ho as (Hb1 & Hp1 & Hd1).
    destruct (IH _ rest lba (ws ++ [lo + 256 * hi]) Hb1 Hp1) as (w' & Hw & Hp' & Hd').
    { simpl in Hl. lia. }
    { rewrite length_app. simpl. lia. }
    exists w'. cbn [write_words] in Hw. split; [exact Hw|]. split; [done|].
    intros l. rewrite Hd', Hd1, <- app_assoc. done.
Qed.
End Laws.

(** ** Properties *)
Section Properties.
Context {W : Type} `{AtaLaws W}.
Implicit Types w : W.

Lemma read_sector_pio_spec polls w lba :
  (patience <= polls)%nat -> ata_phase w = Idle -> 0 <= lba < 2 ^ 28 -> sector_ok (ata_disk w lba) ->
  exists w', ata_read_sector_pio polls w lba = Some (0, ata_disk w lba, w') /\
    ata_phase w' = Idle /\ forall l, ata_disk w' l = ata_disk w l.
Proof.
  intros Hpat Hp Hlba [Hlen Hbytes]. unfold ata_read_sector_pio.
  pose proof (law_patience w).
  destruct (wait_ready_spec polls w) as (w1 & -> & Hb1 & Hp1 & _ & Hd1); [lia|].
  cbn [mbind option_bind]. unfold ata_command.
  destruct (ata_address w1 lba) as ([Hb2 Hp2] & Hn2 & Hm2 & Hl2 & Hd2); [split; congruence|done|].
  set (w2 := outb _ 0x1F6 _) in *.
  destruct (law_read w2 Hb2 Hp2 Hn2 Hm2) as [Hp3 Hd3]. set (w3 := outb w2 ATA_STATUS 0x20) in *.
  pose proof (law_patience w3). rewrite Hl2, Hd2, Hd1 in Hp3.
  destruct (wait_ready_spec polls w3) as (w4 & -> & Hb4 & Hp4 & _ & Hd4); [lia|].
  cbn [mbind option_bind]. rewrite Hp3 in Hp4.
  assert (Hwl : length (words_of (ata_disk w lba)) = 256%nat) by (by apply words_of_length).
  destruct (wait_drq_spec polls w4 Hb4) as (w5 & -> & Hb5 & Hp5 & _ & Hd5); [by rewrite Hp4|].
  cbn [mbind option_bind]. rewrite Hp4 in Hp5.
  destruct (read_words_spec _ w5 Hb5 Hp5) as (w6 & Hr & [_ Hp6] & Hd6).
  { intros Hz. by rewrite Hz in Hwl. }
  rewrite Hwl in Hr. rewrite Hr. exists w6.
  rewrite (bytes_of_words_of _ 256) by done. split; [done|]. split; [done|].
  intros l. by rewrite Hd6, Hd5, Hd4, Hd3, Hd2, Hd1.
Qed.

Lemma write_data_spec polls w lba buffer :
  (patience <= polls)%nat -> ata_phase w = Idle -> 0 <= lba < 2 ^ 28 -> sector_ok buffer ->
  exists w', ata_write_data polls w lba buffer = Some w' /\ ata_phase w' = Idle /\
    forall l, ata_disk w' l = if l =? lba then buffer else ata_disk w l.
Proof.
  intros Hpat Hp Hlba [Hlen Hbytes]. unfold ata_write_data.
  pose proof (law_patience w).
  destruct (wait_ready_spec polls w) as (w1 & -> & Hb1 & Hp1 & _ & Hd1); [lia|].
  cbn [mbind option_bind]. unfold ata_command.
  destruct (ata_address w1 lba) as ([Hb2 Hp2] & Hn2 & Hm2 & Hl2 & Hd2); [split; congruence|done|].
  set (w2 := outb _ 0x1F6 _) in *.
  destruct (law_write w2 Hb2 Hp2 Hn2 Hm2) as [Hp3 Hd3]. set (w3 := outb w2 ATA_STATUS 0x30) in *.
  pose proof (law_patience w3). rewrite Hl2 in Hp3.
  destruct (wait_ready_spec polls w3) as (w4 & -> & Hb4 & Hp4 & _ & Hd4); [lia|].
  cbn [mbind option_bind]. rewrite Hp3 in Hp4.
  destruct (wait_drq_spec polls w4 Hb4) as (w5 & -> & Hb5 & Hp5 & _ & Hd5); [by rewrite Hp4|].
  cbn [mbind option_bind]. rewrite Hp4 in Hp5.
  destruct (write_words_spec 255 w5 buffer lba [] Hb5 Hp5) as (w6 & -> & Hp6 & Hd6); [done..|].
  exists w6. split; [done|]. split; [done|]. intros l.
  rewrite Hd6. cbn [app]. rewrite (bytes_of_words_of buffer 256) by done.
  case_match; [done|]. by rewrite Hd5, Hd4, Hd3, Hd2, Hd1.
Qed.
Lemma flush_spec polls w : (patience <= polls)%nat -> ata_busy w = 0%nat -> ata_phase w = Idle ->
  exists w', ata_wait_ready polls (outb w ATA_STATUS 0xE7) = Some w' /\ ata_phase w' = Idle /\
    forall l, ata_disk w' l = ata_disk w l.
Proof.
  intros Hpat Hb Hp. destruct (law_flush w Hb Hp) as [Hp1 Hd1].
  set (w1 := outb w ATA_STATUS 0xE7) in *. pose proof (law_patience w1).
  destruct (wait_ready_spec polls w1) as (w2 & -> & _ & Hp2 & _ & Hd2); [lia|].
  exists w2. split; [done|]. split; [congruence|]. intros l. by rewrite Hd2, Hd1.
Qed.

(** C30. The driver implements the block device SimpleFS relies on: on an idle
    controller and a 28-bit sector number, a read ends within the
    controller's patience, answers the 512 bytes of
    the sector, leaves the controller idle and changes no sector.  A write
    hands its 512 bytes over to that sector and no other.  It writes FLUSH
    CACHE without a look at BSY, which the protocol forbids while BSY is set;
    when the controller is not busy behind the last word, the write answers 0,
    leaves the controller idle and the next read gives the bytes back. *)
Theorem ata_implements_block_device polls w lba buffer :
  (patience <= polls)%nat -> ata_phase w = Idle -> 0 <= lba < 2 ^ 28 ->
  sector_ok (ata_disk w lba) -> sector_ok buffer ->
  (exists w', ata_read_sector_pio polls w lba = Some (0, ata_disk w lba, w') /\
     ata_phase w' = Idle /\ forall l, ata_disk w' l = ata_disk w l) /\
  exists wd, ata_write_data polls w lba buffer = Some wd /\ ata_phase wd = Idle /\
    (forall l, ata_disk wd l = if l =? lba then buffer else ata_disk w l) /\
    (ata_busy wd = 0%nat ->
     exists w', ata_write_sector_pio polls w lba buffer = Some (0, w') /\ ata_phase w' = Idle /\
       (forall l, l <> lba -> ata_disk w' l = ata_disk w l) /\
       exists w'', ata_read_sector_pio polls w' lba = Some (0, buffer, w'')).
Proof.
  intros Hpat Hp Hlba Hs Hb. split; [by apply read_sector_pio_spec|].
  destruct (write_data_spec polls w lba buffer) as (wd & Hw & Hpd & Hd); try done.
  exists wd. do 3 (split; [done|]). intros Hbusy.
  destruct (flush_spec polls wd Hpat Hbusy Hpd) as (w' & Hf & Hp' & Hd').
  assert (Hsame : ata_disk w' lba = buffer) by (by rewrite Hd', Hd, Z.eqb_refl).
  exists w'. split; [|split; [done|split]].
  - unfold ata_write_sector_pio. rewrite Hw. cbn [mbind option_bind]. by rewrite Hf.
  - intros l Hl. by rewrite Hd', Hd, (proj2 (Z.eqb_neq l lba)).
  - destruct (read_sector_pio_spec polls w' lba) as (w'' & Hr & _); rewrite ?Hsame; try done.
    exists w''. by rewrite Hr, Hsame.
Qed.
End Properties.

(** ** A controller with a disk image *)
Module Drive.
Record t : Type := mk_drive {
  busy : nat; st : phase; regs : Z -> Z; image : Z -> list Z;
}.
(** BSY stays set for at most two status reads after a command; the word that
    completes a sector is stored at once. *)
Definition lag (w : t) : nat := Nat.min (busy w) 2.
Definition start (w : t) (p : phase) : t := mk_drive 2 p (regs w) (image w).
(** The sector the registers name: of drive 0 by its number, or something the
    driver never asks for. *)
Definition addressed (w : t) : option Z :=
  if Z.testbit (regs w 0x1F6) 6 && negb (Z.testbit (regs w 0x1F6) 4) then Some (lba_of (regs w)) else None.
(** A command written while BSY is set or during a transfer breaks the disk. *)
Definition broken (w : t) : t := mk_drive 2 Idle (regs w) (fun _ => zero_sector).
Definition out8 (w : t) (port v : Z) : t :=
  if port =? ATA_STATUS then
    match lag w, st w with
    | O, Idle =>
        match addressed w with
        | Some lba =>
            if v =? 0x20 then start w (Reading (words_of (image w lba)))
            else if v =? 0x30 then start w (Writing lba [])
            else start w Idle
        | None => if v =? 0xE7 then start w Idle else broken w
        end
    | _, _ => broken w
    end
  else mk_drive (busy w) (st w) (fun r => if r =? port then v else regs w r) (image w).
Definition in8 (w : t) (port : Z) : Z * t :=
  (match lag w with
   | O => if drq (st w) then 0x58 else 0x50
   | S _ => 0x80
   end, mk_drive (pred (lag w)) (st w) (regs w) (image w)).
Definition in16 (w : t) (port : Z) : Z * t :=
  match st w with
  | Reading (x :: ws) =>
      (x, mk_drive (busy w) (match ws with [] => Idle | _ => Reading ws end) (regs w) (image w))
  | _ => (0, w)
  end.
Definition out16 (w : t) (port v : Z) : t :=
  match st w with
  | Writing lba ws =>
      if (length ws <? 255)%nat then mk_drive (busy w) (Writing lba (ws ++ [v])) (regs w) (image w)
      else mk_drive 0 Idle (regs w)
             (fun l => if l =? lba then bytes_of (ws ++ [v]) else image w l)
  | _ => w
  end.
#[export] Instance drive_ports : Ports t := { outb := out8; inb := in8; outw := out16; inw := in16 }.
Lemma addressed_lba w : lba_mode (regs w) -> addressed w = Some (lba_of (regs w)).
Proof. intros [H1 H2]. unfold addressed. by rewrite H1, H2. Qed.
#[export] Instance drive_laws : AtaLaws t.
Proof.
  refine {| ata_regs := regs; ata_phase := st; ata_disk := image; ata_busy := lag; patience := 2 |}.
  - intros w. unfold lag. lia.
  - intros w. eexists _, _. split; [reflexivity|]. cbn [st regs image].
    split; [|split; [|split; [unfold lag at 1; cbn [busy]; unfold lag; lia|done]]].
    + unfold in8. destruct (lag w); [by destruct (drq (st w))|done].
    + intros ->. by destruct (drq (st w)).
  - intros w p v Hp Hb Hi. simpl. unfold out8, ATA_STATUS.
    rewrite (proj2 (Z.eqb_neq p _)) by lia. done.
  - intros w Hb Hi _ Hm. simpl. unfold out8. by rewrite Hb, Hi, addressed_lba.
  - intros w Hb Hi _ Hm. simpl. unfold out8. by rewrite Hb, Hi, addressed_lba.
  - intros w x ws Hb Hp. simpl. unfold in16. rewrite Hp. eexists. split; [reflexivity|]. done.
  - intros w lba ws x Hb Hp. simpl. unfold out16. rewrite Hp. by destruct (length ws <? 255)%nat.
  - intros w Hb Hp. simpl. unfold out8, ATA_STATUS. rewrite Z.eqb_refl, Hp, Hb. by destruct (addressed w).
Defined.

Definition blank : t := mk_drive 1 Idle (fun _ => 0) (fun _ => zero_sector).
End Drive.
Import Drive.

Lemma ata_implements_block_device_witness :
  (exists w', ata_read_sector_pio 2 blank 17 = Some (0, ata_disk blank 17, w')) /\
  exists w', ata_write_sector_pio 2 blank 17 (replicate 512 65) = Some (0, w') /\
    exists w'', ata_read_sector_pio 2 w' 17 = Some (0, replicate 512 65, w'').
Proof.
  destruct (ata_implements_block_device 2 blank 17 (replicate 512 65)) as
    ((w1 & Hr & _) & wd & Hd & _ & _ & Hw).
  - exact (le_n 2).
  - reflexivity.
  - lia.
  - exact zero_sector_ok.
  - split; [reflexivity|by apply bytes_ok_replicate].
  - split; [exists w1; exact Hr|]. destruct Hw as (w' & Hw & _ & _ & w'' & Hr').
    + apply (f_equal (fmap lag)) in Hd. cbn [fmap option_fmap option_map] in Hd.
      assert (Hz : fmap lag (ata_write_data 2 blank 17 (replicate 512 65)) = Some 0%nat) by (vm_compute; reflexivity).
      apply (inj Some). rewrite <- Hz. symmetry. exact Hd.
    + exists w'. split; [exact Hw|]. exists w''. exact Hr'.
Defined.
