(* ===== verification/Vfs.v ===== *)
(** * fs/vfs.cpp and fs/vfs.h: paths and nodes over SimpleFS

    A [vfs_node] is a value; the functions that read the current task's [cwd]
    take it as an argument, and a pointer argument that may be null is an
    [option].  The result of a function that fills [*out_node] is [Some node]
    for 0 and [None] for -1, in which case [*out_node] is untouched; the outer
    [None] is undefined behaviour. *)
From S2P Require Import Prelude CString BlockDev DiskLayout SimpleFs.

Definition VFS_FILE : Z := 1.
Definition VFS_DIRECTORY : Z := 2.

Record vfs_node := mk_node {
  n_name : list Z;     (* 32 bytes *)
  n_flags : Z;
  n_size : Z;
  n_inode_idx : Z;
  n_parent_idx : Z;
}.
#[export] Instance vfs_node_eq_dec : EqDecision vfs_node.
Proof. solve_decision. Defined.
Definition zero_node : vfs_node := mk_node (replicate 32 0) 0 0 0 0.

(** [strcpy]-like fill of the name field: [memcpy(name, s, strlen(s) + 1)]. *)
Definition copy_name (field s : list Z) : option (list Z) :=
  len ← strlen s; memcpy field 0 s 0 (u32 (len + 1)).

Section Vfs.
Context {D : Type} `{BlockDevice D}.
Implicit Types (f : fs D) (dir_node node cur : vfs_node).

Definition vfs_init (d : D) : option (vfs_node * fs D) :=
  f ← simplefs_init d;
  nm ← memcpy (n_name zero_node) 0 (cbuf [47]) 0 2;
  r ← simplefs_get_inode (dev f) 0;
  Some (mk_node nm VFS_DIRECTORY (match r with Some i => i_size i | None => 0 end) 0 0, f).

Definition vfs_lookup (d : D) dir_node (name : list Z) : option (option vfs_node) :=
  if negb (has_flag (n_flags dir_node) VFS_DIRECTORY) then Some None else
  r ← strcmp name (cbuf name_dot);
  if r =? 0 then Some (Some dir_node) else
  target_inode_idx ← simplefs_lookup d (n_inode_idx dir_node) name;
  if target_inode_idx <? 0 then Some None else
  r ← simplefs_get_inode d (u32 target_inode_idx);
  match r with
  | None => Some None
  | Some target_inode =>
      nm ← copy_name (n_name zero_node) name;
      Some (Some (mk_node nm
        (if has_flag (i_flags target_inode) INODE_DIR then VFS_DIRECTORY else VFS_FILE)
        (i_size target_inode) (u32 target_inode_idx) (n_inode_idx dir_node)))
  end.

(** [vfs_create] and [vfs_mkdir]: the result, the file system, and the node
    stored through [out_node] when the caller passed one ([want]). *)
Definition vfs_make (make : fs D -> Z -> list Z -> option (Z * fs D))
    f parent (name : list Z) (want : bool) : option (Z * fs D * option vfs_node) :=
  dummy ← vfs_lookup (dev f) parent name;
  match dummy with
  | Some _ => Some (-1, f, None)
  | None =>
      '(result, f') ← make f (n_inode_idx parent) name;
      if result <? 0 then Some (-1, f', None) else
      if want then
        out ← vfs_lookup (dev f') parent name; Some (0, f', out)
      else Some (0, f', None)
  end.
Definition vfs_create := vfs_make simplefs_create.
Definition vfs_mkdir := vfs_make simplefs_mkdir.

(** The result, the file system and the caller's node. *)
Definition vfs_write f node (buf : list Z) (size : Z) : option (Z * fs D * vfs_node) :=
  if has_flag (n_flags node) VFS_DIRECTORY then Some (-1, f, node) else
  '(result, f') ← simplefs_write f (n_parent_idx node) (n_name node) buf size;
  if result <? 0 then Some (-1, f', node)
  else Some (result, f', mk_node (n_name node) (n_flags node) size (n_inode_idx node)
                           (n_parent_idx node)).

Definition vfs_read (d : D) node (buf : list Z) (size : Z) : option (Z * list Z) :=
  if has_flag (n_flags node) VFS_DIRECTORY then Some (-1, buf)
  else simplefs_read d (n_parent_idx node) (n_name node) buf size.

(** [out] is what [*out_node] held before. *)
Definition vfs_readdir (d : D) dir_node (index : Z) (out : vfs_node) : option (option vfs_node) :=
  if negb (has_flag (n_flags dir_node) VFS_DIRECTORY) then Some None else
  e ← simplefs_get_direntry d (n_inode_idx dir_node) index;
  match e with
  | None => Some None
  | Some dir_entry =>
      r ← simplefs_get_inode d (inode_idx dir_entry);
      inode ← r;       (* an uninitialised [inode] when the number is not below 64 *)
      nm ← copy_name (n_name out) (filename dir_entry);
      Some (Some (mk_node nm
        (if has_flag (i_flags inode) INODE_DIR then VFS_DIRECTORY else VFS_FILE)
        (i_size inode) (inode_idx dir_entry) (n_inode_idx dir_node)))
  end.

(** ** Path resolution *)
Definition resolve_step (d : D) cur (token : list Z) : option (option vfs_node) :=
  vfs_lookup d cur token.

(** The [while (path[i] != '\0')] loop; the inner [None] is the early -1.  The
    token array has 256 bytes. *)
Fixpoint resolve_loop (d : D) (path : list Z) cur (token : list Z) (n : Z)
  : option (option (vfs_node * list Z * Z)) :=
  match path with
  | [] => None
  | c :: rest =>
      if c =? 0 then Some (Some (cur, token, n))
      else if c =? 47 then
        if 0 <? n then
          token ← zset token n 0;
          r ← resolve_step d cur token;
          match r with
          | None => Some None
          | Some next => resolve_loop d rest next token 0
          end
        else resolve_loop d rest cur token n
      else
        token ← zset token n c;
        resolve_loop d rest cur token (n + 1)
  end.

(** [while (path[i] == '/') i++] *)
Fixpoint skip_slashes (path : list Z) : list Z :=
  match path with
  | c :: rest => if c =? 47 then skip_slashes rest else path
  | [] => []
  end.

(** [token] is uninitialised: [junk] is what the stack held. *)
Definition vfs_resolve_path (d : D) (vfs_root cwd : vfs_node) (junk : list Z)
    (path : option (list Z)) : option (option vfs_node) :=
  match path with
  | None => Some (Some cwd)
  | Some path =>
      c ← zget path 0;
      if c =? 0 then Some (Some cwd) else
      let '(cur, path) := if c =? 47 then (vfs_root, skip_slashes path) else (cwd, path) in
      r ← resolve_loop d path cur junk 0;
      match r with
      | None => Some None
      | Some (cur, token, n) =>
          if 0 <? n then
            token ← zset token n 0;
            resolve_step d cur token
          else Some (Some cur)
      end
  end.

(** The result and the new [cwd] of the current task. *)
Definition vfs_cd (d : D) (vfs_root cwd : vfs_node) (junk : list Z) (path : option (list Z))
  : option (Z * vfs_node) :=
  r ← vfs_resolve_path d vfs_root cwd junk path;
  match r with
  | None => Some (-1, cwd)
  | Some target =>
      if negb (has_flag (n_flags target) VFS_DIRECTORY) then Some (-1, cwd) else Some (0, target)
  end.

(** ** vfs_get_path *)
(** The [for] loop over the parent's entries: [cur] renamed by the first entry
    of its inode; [temp] is uninitialised. *)
Fixpoint find_name (n : nat) (d : D) (parent cur temp : vfs_node) (i : Z) : option vfs_node :=
  match n with
  | O => Some cur
  | S n' =>
      r ← vfs_readdir d parent i temp;
      match r with
      | None => find_name n' d parent cur temp (i + 1)
      | Some e => if n_inode_idx cur =? n_inode_idx e then Some e
                  else find_name n' d parent cur temp (i + 1)
      end
  end.

(** The [while (cur.inode_idx != 0)] loop, going up at most [fuel] directories:
    whether it ended without -1, the buffer and [idx]. *)
Fixpoint get_path_loop (fuel : nat) (d : D) cur (temp : vfs_node) (out_buf : list Z) (idx : Z)
  : option (bool * list Z * Z) :=
  if n_inode_idx cur =? 0 then Some (true, out_buf, idx) else
  match fuel with
  | O => None
  | S fuel' =>
      p ← vfs_lookup d cur (cbuf name_dotdot);
      match p with
      | None => Some (false, out_buf, idx)
      | Some parent =>
          cur ← find_name 16 d parent cur temp 0;
          name_len ← strlen (n_name cur);
          if idx <? i32 name_len then Some (false, out_buf, idx) else
          buf ← memcpy out_buf (idx - name_len + 1) (n_name cur) 0 name_len;
          let idx := idx - name_len in
          buf ← zset buf idx 47;
          let idx := idx - 1 in
          if idx <? 0 then Some (false, buf, idx) else
          get_path_loop fuel' d parent temp buf idx
      end
  end.

(** The result and the caller's buffer; 64 inodes make at most 64 levels. *)
Definition vfs_get_path (d : D) node (temp : vfs_node) (out_buf : list Z) (buf_size : Z)
  : option (Z * list Z) :=
  if buf_size =? 0 then Some (-1, out_buf) else
  if n_inode_idx node =? 0 then
    buf ← memcpy out_buf 0 (cbuf [47]) 0 2; Some (0, buf)
  else
    let idx := i32 (buf_size - 1) in
    buf ← zset out_buf idx 0;
    '(ok, buf, idx) ← get_path_loop 64 d node temp buf (idx - 1);
    if negb ok then Some (-1, buf) else
    buf ← memcpy_within buf 0 (idx + 1) (u32 (buf_size - idx - 1));
    Some (0, buf).
Definition vfs_getcwd (d : D) (cwd temp : vfs_node) (out_buf : list Z) (buf_size : Z)
  : option (Z * list Z) := vfs_get_path d cwd temp out_buf buf_size.
End Vfs.
