(* ===== verification/VfsProps.v ===== *)
(** * The virtual file system refines name lookup

    [step] is one path component on the abstract file system and [walk] a
    whole path; the functions of fs/vfs.cpp compute them. *)
From stdpp Require Import functions.
From S2P Require Import Prelude CString BlockDev DiskLayout SimpleFs FsView FsDir.
From S2P Require Import FsInv FsOps FsMount FsIo FsProps Vfs.

(** The name field of a node made from the name [nm]. *)
Definition name_field (nm : list Z) : list Z := nm ++ replicate (32 - length nm) 0.
Definition node_of (T : inode_table) (i : Z) (nm : list Z) (parent : Z) : vfs_node :=
  mk_node (name_field nm) (if inode_dir (T i) then VFS_DIRECTORY else VFS_FILE)
    (i_size (T i)) i parent.
Definition is_dir (node : vfs_node) : bool := has_flag (n_flags node) VFS_DIRECTORY.

(** One component: [.] stays, any other name is looked up. *)
Definition step (T : inode_table) (B : block_store) (node : vfs_node) (nm : list Z) : option vfs_node :=
  if negb (is_dir node) then None
  else if decide (nm = name_dot) then Some node
  else i ← fs_find T B (n_inode_idx node) nm; Some (node_of T i nm (n_inode_idx node)).
Definition walk (T : inode_table) (B : block_store) (node : vfs_node) (nms : list (list Z))
  : option vfs_node :=
  foldl (fun n nm => node ← n; step T B node nm) (Some node) nms.

(** The components of a path: what is between slashes and not empty. *)
Fixpoint components (s acc : list Z) : list (list Z) :=
  match s with
  | [] => match acc with [] => [] | _ => [acc] end
  | c :: rest =>
      if c =? 47 then match acc with [] => components rest [] | _ => acc :: components rest [] end
      else components rest (acc ++ [c])
  end.

Definition node_ok (node : vfs_node) : Prop := 0 <= n_inode_idx node < 64.

Lemma found_name_short T B p nm i : fs_inv T B -> 0 <= p < 64 -> fs_find T B p nm = Some i ->
  1 <= Z.of_nat (length nm) < 28.
Proof.
  unfold fs_find. intros Hinv Hp. destruct (inode_dir (T p)) eqn:Hd; [|done]. intros Hf.
  destruct (dir_block_lookup T B Hinv p Hp Hd) as (_ & _ & _ & _ & He & _).
  apply dir_find_elem in Hf as (e & Hin & Hnm & _). rewrite Forall_forall in He.
  destruct (He e Hin) as [[_ _ Hl] [s Hs]]. unfold entry_name in Hnm. rewrite Hs in Hnm.
  destruct s as [|c s]; [done|]. injection Hnm as <-.
  apply cstring_Some in Hs as [_ [rest Hr]]. rewrite Hr, length_app in Hl. simpl in *. lia.
Qed.

Lemma name_field_ok nm : bytes_ok nm -> 0 ∉ nm -> (length nm < 32)%nat ->
  c_name (name_field nm) nm /\ length (name_field nm) = 32%nat.
Proof.
  intros Hb Hz Hl. unfold name_field. split.
  - split; [|destruct (32 - length nm)%nat eqn:E; [lia|]; by apply cstring_cbuf|lia].
    apply bytes_ok_app. split; [done|]. by apply bytes_ok_replicate.
  - rewrite length_app, length_replicate. lia.
Qed.

Lemma copy_name_spec name nm : c_name name nm -> (length nm < 32)%nat ->
  copy_name (n_name zero_node) name = Some (name_field nm).
Proof.
  intros [_ Hn _] Hl. unfold copy_name. rewrite (strlen_spec name nm) by (done || lia).
  cbn [mbind option_bind]. rewrite u32_small by lia.
  destruct (cstring_Some _ _ Hn) as [_ [rest ->]].
  pose proof (memcpy_spec (n_name zero_node) (nm ++ 0 :: rest) 0 0 (length nm + 1)) as Hm.
  change (Z.of_nat 0) with 0 in Hm. rewrite Nat2Z.inj_add in Hm. change (Z.of_nat 1) with 1 in Hm.
  rewrite Hm by (rewrite ?length_app; simpl; lia).
  unfold slice, splice, name_field. rewrite drop_0, take_0.
  assert (Ht : take (length nm + 1) (nm ++ 0 :: rest) = nm ++ [0]).
  { replace (nm ++ 0 :: rest) with ((nm ++ [0]) ++ rest) by (by rewrite <- app_assoc).
    apply take_app_length'. by rewrite length_app. }
  rewrite Ht. cbn [n_name zero_node]. rewrite app_nil_l, drop_replicate, length_app, <- app_assoc.
  do 2 f_equal. replace (32 - length nm)%nat with (S (32 - (length nm + 1)))%nat by lia. done.
Qed.

Section Spec.
Context {D : Type} `{BlockDeviceOk D}.
Implicit Types (d : D) (f : fs D) (T : inode_table) (B : block_store).

Lemma get_inode_spec d N T B i : view d N T B -> 0 <= i < 64 ->
  simplefs_get_inode d i = Some (Some (T i)).
Proof.
  intros Hv Hi. unfold simplefs_get_inode, SIMPLEFS_INODE_COUNT.
  rewrite (proj2 (Z.leb_gt _ _)) by lia. destruct (v_inode _ _ _ _ Hv i Hi) as [Hr _].
  unfold read_inode in Hr. apply mbind_Some in Hr as (s & -> & Hr). cbn [mbind option_bind].
  by rewrite Hr.
Qed.

Lemma vfs_lookup_spec d N T B node name nm :
  view d N T B -> fs_inv T B -> node_ok node -> c_name name nm ->
  vfs_lookup d node name = Some (step T B node nm).
Proof.
  intros Hv Hinv Hnode Hname. pose proof Hname as [Hb Hn Hl]. unfold vfs_lookup, step, is_dir.
  destruct (has_flag (n_flags node) VFS_DIRECTORY); [|done]. cbn [negb].
  destruct (strcmp_zero name (cbuf name_dot) nm name_dot) as (r & -> & Hr); try done.
  { by repeat constructor. }
  cbn [mbind option_bind]. destruct (Z.eqb_spec r 0) as [Hr0|Hr0].
  { rewrite decide_True; [done|]. by apply Hr. }
  rewrite decide_False by (intros ?; by apply Hr0, Hr).
  rewrite (simplefs_lookup_spec d N T B _ name nm) by done. cbn [mbind option_bind].
  destruct (fs_find T B (n_inode_idx node) nm) as [i|] eqn:Hf; cbn [from_option]; [|done].
  unfold id. destruct (fs_find_range T B Hinv _ nm i Hnode Hf) as (_ & Hi & _).
  rewrite (proj2 (Z.ltb_ge _ _)), u32_small by lia. rewrite (get_inode_spec d N T B) by done.
  cbn [mbind option_bind]. pose proof (found_name_short T B _ nm i Hinv Hnode Hf).
  rewrite (copy_name_spec name nm) by (done || lia). done.
Qed.

Lemma step_ok T B node nm node' : fs_inv T B -> node_ok node -> step T B node nm = Some node' ->
  node_ok node'.
Proof.
  unfold step. intros Hinv Hok. destruct (negb _); [done|]. case_decide; [by intros [= <-]|].
  intros (i & Hf & [= <-])%mbind_Some. destruct (fs_find_range T B Hinv _ nm i Hok Hf) as (_ & Hi & _).
  done.
Qed.

Lemma walk_none T B nms : foldl (fun n nm => node ← n; step T B node nm) None nms = None.
Proof. induction nms; simpl; done. Qed.
Lemma walk_cons T B node nm nms :
  walk T B node (nm :: nms) = (node' ← step T B node nm; walk T B node' nms).
Proof.
  unfold walk. cbn [foldl mbind option_bind]. destruct (step T B node nm); [done|].
  apply walk_none.
Qed.

(** The token array holding the component read so far. *)
Lemma token_name token acc : length token = 256%nat -> bytes_ok token -> bytes_ok acc -> 0 ∉ acc ->
  (length acc < 256)%nat -> (exists tl, token = acc ++ tl) ->
  exists token', zset token (Z.of_nat (length acc)) 0 = Some token' /\ length token' = 256%nat /\
    bytes_ok token' /\ c_name token' acc.
Proof.
  intros Hl Hb Hba Hz Hla [tl ->]. destruct tl as [|x tl].
  { rewrite app_nil_r in Hl. lia. }
  rewrite zset_middle. eexists. split; [reflexivity|].
  rewrite length_app in *. simpl in *. split; [done|].
  assert (Hb' : bytes_ok (acc ++ 0 :: tl)).
  { apply bytes_ok_app in Hb as [_ Hb]. apply Forall_cons in Hb as [_ Hb].
    apply bytes_ok_app. split; [done|]. by apply Forall_cons. }
  split; [done|]. split; [done|by apply cstring_cbuf|lia].
Qed.

Definition short (nms : list (list Z)) : Prop := Forall (fun nm => (length nm < 256)%nat) nms.

Lemma components_acc s : forall acc, acc <> [] -> short (components s acc) -> (length acc < 256)%nat.
Proof.
  induction s as [|c s IH]; intros acc Ha Hs; simpl in Hs.
  - destruct acc; [done|]. by inversion Hs.
  - destruct (c =? 47).
    + destruct acc; [done|]. by inversion Hs.
    + apply IH in Hs; [|by destruct acc]. rewrite length_app in Hs. lia.
Qed.

(** The end of a path: the last component, if any. *)
Definition finish d (r : option (vfs_node * list Z * Z)) : option (option vfs_node) :=
  match r with
  | None => Some None
  | Some (cur, token, n) =>
      if 0 <? n then token ← zset token n 0; resolve_step d cur token else Some (Some cur)
  end.

Lemma resolve_loop_spec d N T B (Hv : view d N T B) (Hinv : fs_inv T B) path :
  forall s cur token acc,
  bytes_ok path -> cstring path = Some s -> node_ok cur ->
  length token = 256%nat -> bytes_ok token -> bytes_ok acc -> 0 ∉ acc ->
  (exists tl, token = acc ++ tl) -> short (components s acc) ->
  (r ← resolve_loop d path cur token (Z.of_nat (length acc)); finish d r) =
  Some (walk T B cur (components s acc)).
Proof.
  induction path as [|c path IH]; intros s cur token acc Hb Hs Hcur Hl Htb Hba Hz Htl Hsh; [done|].
  apply Forall_cons in Hb as [Hc Hb]. simpl in Hs. cbn [resolve_loop].
  assert (Hacc : acc <> [] -> (length acc < 256)%nat) by (intros; by eapply components_acc).
  destruct (Z.eqb_spec c 0) as [->|Hc0].
  { injection Hs as <-. cbn [mbind option_bind finish components]. destruct acc as [|a acc].
    { done. }
    destruct (token_name token (a :: acc)) as (token' & -> & _ & _ & Hn); try done; [by apply Hacc|].
    rewrite (proj2 (Z.ltb_lt _ _)) by (simpl; lia). cbn [mbind option_bind]. unfold resolve_step.
    rewrite (vfs_lookup_spec d N T B cur token' (a :: acc)) by done.
    rewrite walk_cons. by destruct (step T B cur (a :: acc)). }
  apply fmap_Some in Hs as (s' & Hs' & ->). cbn [components] in *.
  destruct (Z.eqb_spec c 47) as [->|Hc47].
  - destruct acc as [|a acc].
    + cbn [length Z.of_nat Z.ltb Z.compare]. by apply (IH s' cur token []).
    + destruct (token_name token (a :: acc)) as (token' & -> & Hl' & Htb' & Hn); try done; [by apply Hacc|].
      rewrite (proj2 (Z.ltb_lt _ _)) by (simpl; lia). cbn [mbind option_bind]. unfold resolve_step.
      rewrite (vfs_lookup_spec d N T B cur token' (a :: acc)) by done.
      cbn [mbind option_bind]. rewrite walk_cons. apply Forall_cons in Hsh as [_ Hsh].
      destruct (step T B cur (a :: acc)) as [next|] eqn:Hst; [|done].
      apply (IH s' next token' []); try done;
        [by eapply step_ok|by constructor|by apply not_elem_of_nil|by exists token'].
  - assert (Hlen : (length acc < 256)%nat).
    { apply components_acc in Hsh; [|by destruct acc]. rewrite length_app in Hsh. simpl in Hsh. lia. }
    destruct Htl as [tl ->]. destruct tl as [|x tl]; [rewrite app_nil_r in Hl; lia|].
    rewrite zset_middle. cbn [mbind option_bind].
    specialize (IH s' cur (acc ++ c :: tl) (acc ++ [c])).
    replace (Z.of_nat (length acc) + 1) with (Z.of_nat (length (acc ++ [c])))
      by (rewrite length_app; simpl; lia).
    apply IH; try done.
    + rewrite length_app in *. simpl in *. done.
    + apply bytes_ok_app in Htb as [_ Htb]. apply Forall_cons in Htb as [_ Htb].
      apply bytes_ok_app. split; [done|]. by apply Forall_cons.
    + apply bytes_ok_app. split; [done|]. by apply Forall_cons.
    + rewrite not_elem_of_app, list_elem_of_singleton. by split.
    + exists tl. by rewrite <- app_assoc.
Qed.

(** ** Whole paths *)
Definition absolute (s : list Z) : bool := match s with c :: _ => c =? 47 | [] => false end.
Definition start (root cwd : vfs_node) (s : list Z) : vfs_node := if absolute s then root else cwd.

Lemma skip_slashes_spec path : forall s, bytes_ok path -> cstring path = Some s ->
  exists s', cstring (skip_slashes path) = Some s' /\ bytes_ok (skip_slashes path) /\
    components s' [] = components s [].
Proof.
  induction path as [|c path IH]; intros s Hb Hs; [done|]. cbn [skip_slashes].
  destruct (Z.eqb_spec c 47) as [->|Hc]; [|by exists s].
  apply Forall_cons in Hb as [_ Hb]. simpl in Hs. apply fmap_Some in Hs as (s0 & Hs0 & ->).
  destruct (IH s0 Hb Hs0) as (s' & ? & ? & Heq). exists s'. split; [done|]. by split.
Qed.

Lemma resolve_path_spec d N T B root cwd junk path s :
  view d N T B -> fs_inv T B -> node_ok root -> node_ok cwd ->
  length junk = 256%nat -> bytes_ok junk -> bytes_ok path -> cstring path = Some s ->
  short (components s []) ->
  vfs_resolve_path d root cwd junk (Some path) =
  Some (walk T B (start root cwd s) (components s [])).
Proof.
  intros Hv Hinv Hr Hc Hl Hj Hb Hs Hsh. unfold vfs_resolve_path, start.
  destruct path as [|c path]; [done|]. cbn [mbind option_bind].
  change (zget (c :: path) 0) with (Some c). cbn [mbind option_bind].
  pose proof Hs as Hs0. simpl in Hs0. destruct (Z.eqb_spec c 0) as [->|Hc0].
  { by injection Hs0 as <-. }
  apply fmap_Some in Hs0 as (s0 & _ & ->). cbn [absolute].
  assert (Hrun : forall p s' cur, bytes_ok p -> cstring p = Some s' -> node_ok cur ->
    components s' [] = components (c :: s0) [] ->
    (r ← resolve_loop d p cur junk 0; finish d r) = Some (walk T B cur (components (c :: s0) []))).
  { intros p s' cur Hp Hs' Hcur Heq. rewrite <- Heq in *.
    apply (resolve_loop_spec d N T B Hv Hinv p s' cur junk []); try done;
      [by constructor|by apply not_elem_of_nil|by exists junk]. }
  destruct (Z.eqb_spec c 47) as [->|Hc47].
  - destruct (skip_slashes_spec (47 :: path) _ Hb Hs) as (s' & Hs' & Hb' & Heq).
    rewrite <- (Hrun _ s' root) by done. by destruct (resolve_loop _ _ _ _ _) as [[[[]]|]|].
  - rewrite <- (Hrun (c :: path) _ cwd) by done.
    by destruct (resolve_loop _ _ _ _ _) as [[[[]]|]|].
Qed.

(** A node as the table has it. *)
Definition node_valid T node : Prop :=
  node_ok node /\ is_dir node = inode_dir (T (n_inode_idx node)).

Lemma node_of_dir T i nm p : is_dir (node_of T i nm p) = inode_dir (T i).
Proof. unfold is_dir, node_of. simpl. by destruct (inode_dir (T i)). Qed.
Lemma step_valid T B node nm node' : fs_inv T B -> node_valid T node ->
  step T B node nm = Some node' -> node_valid T node'.
Proof.
  intros Hinv Hv Hs. pose proof Hs as Hs0. destruct Hv as [Hok Hd]. split; [by eapply step_ok|].
  unfold step in Hs0. destruct (negb _); [done|]. case_decide; [by injection Hs0 as <-|].
  apply mbind_Some in Hs0 as (i & _ & [= <-]). apply node_of_dir.
Qed.
Lemma walk_valid T B nms : fs_inv T B -> forall node node', node_valid T node ->
  walk T B node nms = Some node' -> node_valid T node'.
Proof.
  intros Hinv. induction nms as [|nm nms IH]; intros node node' Hv; [by intros [= <-]|].
  rewrite walk_cons. intros (n1 & Hs & Hw)%mbind_Some. apply (IH n1); [|done]. by eapply step_valid.
Qed.

(** vfs_lookup refines one step of name resolution: [.] is the directory
    itself, any other name the node of the inode the directory maps it to. *)
Theorem vfs_lookup_correct d N T B node name nm :
  view d N T B -> fs_inv T B -> node_ok node -> c_name name nm ->
  vfs_lookup d node name = Some (step T B node nm).
Proof. apply vfs_lookup_spec. Qed.

(** C28. vfs_resolve_path terminates and answers the node reached by stepping
    through the non-empty components between slashes, from the root for an
    absolute path and from the current directory otherwise, provided every
    component has less than 256 bytes. *)
Theorem vfs_resolve_path_correct d N T B root cwd junk path s :
  view d N T B -> fs_inv T B -> node_ok root -> node_ok cwd ->
  length junk = 256%nat -> bytes_ok junk -> bytes_ok path -> cstring path = Some s ->
  Forall (fun nm => (length nm < 256)%nat) (components s []) ->
  vfs_resolve_path d root cwd junk (Some path) =
  Some (walk T B (if absolute s then root else cwd) (components s [])).
Proof. apply resolve_path_spec. Qed.

(** vfs_cd moves to the node the path names when that is a directory and
    otherwise answers -1 without moving: the current directory is a directory
    of the file system before and after. *)
Theorem vfs_cd_correct d N T B root cwd junk path s :
  view d N T B -> fs_inv T B -> node_valid T root -> node_valid T cwd -> is_dir cwd = true ->
  length junk = 256%nat -> bytes_ok junk -> bytes_ok path -> cstring path = Some s ->
  short (components s []) ->
  exists r cwd', vfs_cd d root cwd junk (Some path) = Some (r, cwd') /\
    node_valid T cwd' /\ is_dir cwd' = true /\
    (r = 0 /\ walk T B (start root cwd s) (components s []) = Some cwd' \/
     r = -1 /\ cwd' = cwd /\
       forall t, walk T B (start root cwd s) (components s []) = Some t -> is_dir t = false).
Proof.
  intros Hv Hinv Hr Hc Hcd Hl Hj Hb Hs Hsh. unfold vfs_cd.
  rewrite (resolve_path_spec d N T B root cwd junk path s) by (done || apply Hr || apply Hc).
  cbn [mbind option_bind]. destruct (walk _ _ _ _) as [t|] eqn:Hw.
  2:{ exists (-1), cwd. split; [done|]. split; [done|]. split; [done|]. by right. }
  fold (is_dir t). destruct (is_dir t) eqn:Ht; cbn [negb].
  - exists 0, t. split; [done|]. split; [|split; [done|by left]].
    eapply walk_valid; [done| |exact Hw]. unfold start. by destruct (absolute s).
  - exists (-1), cwd. split; [done|]. split; [done|]. split; [done|]. right.
    split; [done|]. split; [done|]. by intros ? [= <-].
Qed.

(** ** create and mkdir *)
(** The node of the object made, when the caller asked for it. *)
Definition answer T B parent (nm : list Z) (want : bool) (r : Z) : option vfs_node :=
  if want && (r =? 0) then step T B parent nm else None.

Lemma vfs_make_spec make (outcome : Z -> inode_table -> block_store -> Prop)
    f N T B parent name nm want :
  fs_rel f N T B -> node_valid T parent -> c_name name nm ->
  (exists r f' T' B', make f (n_inode_idx parent) name = Some (r, f') /\ fs_rel f' N T' B' /\
    outcome r T' B' /\ (r = 0 \/ r = -1)) ->
  vfs_make make f parent name want = Some (-1, f, None) /\ step T B parent nm <> None \/
  step T B parent nm = None /\
  exists r f' T' B', vfs_make make f parent name want = Some (r, f', answer T' B' parent nm want r) /\
    fs_rel f' N T' B' /\ outcome r T' B'.
Proof.
  intros Hrel [Hok Hd] Hn (r & f' & T' & B' & Hm & Hrel' & Ho & Hr). unfold vfs_make, answer.
  rewrite (vfs_lookup_spec _ N T B parent name nm) by (done || apply Hrel). cbn [mbind option_bind].
  destruct (step T B parent nm) as [n|]; [left|right]; [by split|]. split; [done|].
  exists r, f', T', B'. rewrite Hm. cbn [mbind option_bind].
  destruct Hr as [-> | ->]; cbn [Z.ltb Z.eqb Z.compare]; destruct want; cbn [andb]; try by split.
  rewrite (vfs_lookup_spec _ N T' B' parent name nm) by (done || apply Hrel'). by split.
Qed.

(** vfs_create terminates, refuses a name that resolves without touching the
    disk, and otherwise does what simplefs_create does; on success the node
    handed back is the one a lookup of the name now answers. *)
Theorem vfs_create_correct f N T B parent name nm want :
  fs_rel f N T B -> node_valid T parent -> c_name name nm ->
  vfs_create f parent name want = Some (-1, f, None) /\ step T B parent nm <> None \/
  step T B parent nm = None /\
  exists r f' T' B', vfs_create f parent name want = Some (r, f', answer T' B' parent nm want r) /\
    fs_rel f' N T' B' /\ create_outcome T B (n_inode_idx parent) nm r T' B'.
Proof.
  intros Hrel Hp Hn. apply (vfs_make_spec _ _ f N T B parent name nm want Hrel Hp Hn).
  destruct (simplefs_create_spec f N T B (n_inode_idx parent) name nm Hrel) as
    (r & f' & T' & B' & E & Hrel' & Ho); [apply Hp|done|].
  exists r, f', T', B'. split; [done|]. split; [done|]. split; [done|].
  destruct Ho; by auto.
Qed.

(** vfs_mkdir, likewise, over simplefs_mkdir. *)
Theorem vfs_mkdir_correct f N T B parent name nm want :
  fs_rel f N T B -> node_valid T parent -> c_name name nm ->
  vfs_mkdir f parent name want = Some (-1, f, None) /\ step T B parent nm <> None \/
  step T B parent nm = None /\
  exists r f' T' B', vfs_mkdir f parent name want = Some (r, f', answer T' B' parent nm want r) /\
    fs_rel f' N T' B' /\ mkdir_outcome T B (n_inode_idx parent) nm r T' B'.
Proof.
  intros Hrel Hp Hn. apply (vfs_make_spec _ _ f N T B parent name nm want Hrel Hp Hn).
  destruct (simplefs_mkdir_spec f N T B (n_inode_idx parent) name nm Hrel) as
    (r & f' & T' & B' & E & Hrel' & Ho); [apply Hp|done|].
  exists r, f', T', B'. split; [done|]. split; [done|]. split; [done|].
  destruct Ho; by auto.
Qed.

(** ** write and read through a node *)
Lemma file_size d N T B i c : view d N T B -> fs_inv T B -> 0 <= i < 64 ->
  fs_file T B i = Some c -> i_size (T i) = Z.of_nat (length c) /\ inode_dir (T i) = false.
Proof.
  intros Hv Hinv Hi. unfold fs_file. destruct (inode_used (T i)) eqn:Hu; [|done].
  destruct (inode_dir (T i)); [done|]. intros [= <-]. split; [|done].
  destruct (inv_file _ _ Hinv i Hi Hu) as [Hs _].
  destruct (read_file d N T B i 0 [] Hv Hinv Hi Hu) as [-> _]; simpl; lia.
Qed.

Lemma step_file T B dir nm node : fs_inv T B -> node_ok dir -> step T B dir nm = Some node ->
  is_dir node = false -> exists i, fs_find T B (n_inode_idx dir) nm = Some i /\
    node = node_of T i nm (n_inode_idx dir) /\ inode_dir (T i) = false /\ 0 <= i < 64 /\
    nm <> name_dot.
Proof.
  intros Hinv Hok Hs Hf. unfold step in Hs. destruct (is_dir dir) eqn:Hd; [|done]. cbn [negb] in Hs.
  case_decide; [injection Hs as <-; congruence|].
  apply mbind_Some in Hs as (i & Hi & [= <-]). exists i. rewrite node_of_dir in Hf.
  destruct (fs_find_range T B Hinv _ nm i Hok Hi) as (_ & ? & _). done.
Qed.

(** C18. A file found by lookup keeps what is written through its node: a read of
    that size answers the bytes written, the directory now answers exactly the
    node the write left with the caller, and the node of a directory is refused
    by both. *)
Theorem vfs_write_read_roundtrip f N T B dir name nm node buf size rbuf :
  fs_rel f N T B -> node_ok dir -> c_name name nm -> bytes_ok buf -> step T B dir nm = Some node ->
  0 <= size <= MAX_FILE -> size <= Z.of_nat (length buf) -> size <= Z.of_nat (length rbuf) ->
  if is_dir node then
    vfs_write f node buf size = Some (-1, f, node) /\
    vfs_read (dev f) node rbuf size = Some (-1, rbuf)
  else exists f' node', vfs_write f node buf size = Some (0, f', node') /\
    vfs_read (dev f') node' rbuf size =
      Some (size, take (Z.to_nat size) buf ++ drop (Z.to_nat size) rbuf) /\
    vfs_lookup (dev f') dir name = Some (Some node') /\ n_size node' = size.
Proof.
  intros Hrel Hok Hn Hb Hst Hs Hl Hlr. pose proof (rel_inv _ _ _ _ Hrel) as Hinv.
  unfold vfs_write, vfs_read. fold (is_dir node). destruct (is_dir node) eqn:Hd; [by split|].
  destruct (step_file T B dir nm node Hinv Hok Hst Hd) as (i & Hf & -> & Hdi & Hi & Hdot).
  pose proof (found_name_short T B _ nm i Hinv Hok Hf) as Hshort.
  destruct Hn as [Hnb Hns Hnl]. destruct (cstring_Some _ _ Hns) as [Hnz [rest Hname]].
  destruct (name_field_ok nm) as [Hfield _]; [|done|lia|].
  { rewrite Hname in Hnb. by apply bytes_ok_app in Hnb as [? _]. }
  assert (Hdirp : is_dir dir = true) by (unfold step in Hst; by destruct (is_dir dir)).
  set (p := n_inode_idx dir) in *.
  destruct (write_plain f N T B p (name_field nm) nm buf size i) as
    (f' & T' & B' & Hw & Hrel' & Hfind & Hfile); try done.
  cbn [node_of n_name n_parent_idx n_flags n_inode_idx]. rewrite Hw. cbn [mbind option_bind].
  cbn [Z.ltb Z.compare]. eexists f', _. split; [reflexivity|].
  pose proof (rel_inv _ _ _ _ Hrel') as Hinv'.
  assert (Hc : fs_file T' B' i = Some (take (Z.to_nat size) buf)) by by rewrite Hfile, decide_True.
  assert (Hlen : length (take (Z.to_nat size) buf) = Z.to_nat size) by (rewrite length_take; lia).
  destruct (file_size (dev f') N T' B' i _ (rel_view _ _ _ _ Hrel') Hinv' Hi Hc) as [Hsz Hdi'].
  rewrite Hdi. split; [|split; [|done]].
  - cbn [n_flags n_name n_parent_idx has_flag]. change (has_flag VFS_FILE VFS_DIRECTORY) with false.
    cbn iota. rewrite (simplefs_read_spec f' N T' B' p (name_field nm) nm); try done.
    + rewrite Hfind, Hf by done. cbn [mbind option_bind]. rewrite Hc. cbv zeta.
      rewrite Hlen, Nat.min_id, take_take, Nat.min_id. do 2 f_equal. lia.
    + unfold MAX_FILE in *. lia.
    + intros j c. rewrite Hfind, Hf by done. intros [= <-]. rewrite Hc. intros [= <-].
      rewrite Hlen. lia.
  - rewrite (vfs_lookup_spec _ N T' B' dir name nm) by (done || apply Hrel').
    unfold step. rewrite Hdirp. cbn [negb]. rewrite decide_False by done. fold p.
    rewrite Hfind, Hf by done. cbn [mbind option_bind]. unfold node_of. rewrite Hdi', Hsz, Hlen.
    by rewrite Z2Nat.id by lia.
Qed.

(** ** readdir *)
Definition dir_slot T B (p index : Z) : option DirEntry :=
  if inode_dir (T p) then
    e ← zget (dirents_of_sector (B (dir_block T p))) index; _ ← entry_name e; Some e
  else None.

Lemma get_direntry_spec d N T B p index : view d N T B -> fs_inv T B -> 0 <= p < 64 ->
  simplefs_get_direntry d p index = Some (dir_slot T B p index).
Proof.
  intros Hv Hinv Hp. unfold simplefs_get_direntry, dir_slot, SIMPLEFS_ENTRIES_PER_BLOCK.
  destruct (v_inode _ _ _ _ Hv p Hp) as [-> _]. cbn [mbind option_bind]. fold (inode_dir (T p)).
  destruct (inode_dir (T p)) eqn:Hd; cbn [negb]; [|by destruct (_ || _)].
  destruct (dir_block_lookup T B Hinv p Hp Hd) as (_ & Hb0 & _ & Hbr & He & _).
  pose proof (v_big _ _ _ _ Hv). unfold MIN_SECTORS, LAST_BLOCK in *.
  destruct (v_block _ _ _ _ Hv (dir_block T p)) as [Hr Hs]; [lia|].
  destruct (dirents_of_sector_ok _ Hs) as (_ & Hl & _).
  replace (zget (i_blocks (T p)) 0) with (Some (dir_block T p))
    by (rewrite <- Hb0; symmetry; apply (zget_nat _ 0)).
  cbn [mbind option_bind]. rewrite Hr. cbn [mbind option_bind]. set (es := dirents_of_sector _) in *.
  destruct (zget es index) as [e|] eqn:Hz.
  - pose proof (zget_Some _ _ _ Hz) as Hrange. replace ((index <? 0) || _) with false by lia.
    cbn [mbind option_bind]. rewrite Forall_forall in He.
    assert (Hin : e ∈ es).
    { unfold zget in Hz. rewrite decide_True in Hz by lia. by eapply list_elem_of_lookup_2. }
    destruct (entry_name_first e (He e Hin)) as (c & -> & Hc). cbn [mbind option_bind].
    destruct (Z.eqb_spec c 0) as [H0'|H0'].
    + apply Hc in H0'. by rewrite H0'.
    + destruct (entry_name e); [done|]. exfalso. by apply H0', Hc.
  - replace ((index <? 0) || _) with true; [done|]. destruct (decide (0 <= index < 16)); [|lia].
    destruct (zget_total es index) as [x Hx]; [lia|]. congruence.
Qed.

Lemma dir_slot_find T B p index e : fs_inv T B -> 0 <= p < 64 -> dir_slot T B p index = Some e ->
  exists nm, entry_name e = Some nm /\ entry_ok e /\ fs_find T B p nm = Some (inode_idx e).
Proof.
  unfold dir_slot, fs_find. intros Hinv Hp. destruct (inode_dir (T p)) eqn:Hd; [|done].
  destruct (dir_block_lookup T B Hinv p Hp Hd) as (_ & _ & _ & _ & He & _ & Hnd).
  intros (x & Hz & (nm & Hnm & [= <-])%mbind_Some)%mbind_Some. exists nm. split; [done|].
  assert (Hin : x ∈ dirents_of_sector (B (dir_block T p))).
  { pose proof (zget_Some _ _ _ Hz). unfold zget in Hz. rewrite decide_True in Hz by lia.
    by eapply list_elem_of_lookup_2. }
  rewrite Forall_forall in He. split; [by apply He|]. by apply names_distinct_find.
Qed.

(** [memcpy(out->name, s, strlen(s) + 1)] over any 32 bytes. *)
Lemma copy_name_any field name nm : bytes_ok field -> length field = 32%nat -> c_name name nm ->
  (length nm < 32)%nat -> exists field', copy_name field name = Some field' /\
    c_name field' nm /\ length field' = 32%nat.
Proof.
  intros Hfb Hfl [Hb Hn _] Hl. unfold copy_name. rewrite (strlen_spec name nm) by (done || lia).
  cbn [mbind option_bind]. rewrite u32_small by lia.
  destruct (cstring_Some _ _ Hn) as [Hz [rest ->]].
  pose proof (memcpy_spec field (nm ++ 0 :: rest) 0 0 (length nm + 1)) as Hm.
  change (Z.of_nat 0) with 0 in Hm. rewrite Nat2Z.inj_add in Hm. change (Z.of_nat 1) with 1 in Hm.
  rewrite Hm by (rewrite ?length_app; simpl; lia).
  assert (Hsl : slice (nm ++ 0 :: rest) 0 (length nm + 1) = nm ++ [0]).
  { unfold slice. rewrite drop_0.
    replace (nm ++ 0 :: rest) with ((nm ++ [0]) ++ rest) by (by rewrite <- app_assoc).
    apply take_app_length'. by rewrite length_app. }
  rewrite Hsl. eexists. split; [reflexivity|]. apply bytes_ok_app in Hb as [Hb _]. split.
  - split; [|unfold splice; rewrite take_0, app_nil_l, <- app_assoc; by apply cstring_cbuf|lia].
    apply bytes_ok_splice; [done|]. apply bytes_ok_app. split; [done|]. by repeat constructor.
  - rewrite splice_length; [done|]. rewrite length_app. simpl. lia.
Qed.

Lemma readdir_spec d N T B dir index out : view d N T B -> fs_inv T B -> node_ok dir ->
  is_dir dir = true -> bytes_ok (n_name out) -> length (n_name out) = 32%nat ->
  match dir_slot T B (n_inode_idx dir) index with
  | None => vfs_readdir d dir index out = Some None
  | Some e => exists nm node, vfs_readdir d dir index out = Some (Some node) /\
      entry_name e = Some nm /\ fs_find T B (n_inode_idx dir) nm = Some (inode_idx e) /\
      c_name (n_name node) nm /\ n_inode_idx node = inode_idx e /\
      n_size node = i_size (T (inode_idx e)) /\
      n_parent_idx node = n_inode_idx dir /\ node_valid T node
  end.
Proof.
  intros Hv Hinv Hok Hd Hob Hol. unfold vfs_readdir. fold (is_dir dir). rewrite Hd. cbn [negb].
  rewrite (get_direntry_spec d N T B) by done. cbn [mbind option_bind].
  destruct (dir_slot _ _ _ _) as [e|] eqn:Hs; [|done].
  destruct (dir_slot_find T B _ _ e Hinv Hok Hs) as (nm & Hnm & [[_ Hfb Hfl] [s Hcs]] & Hf).
  destruct (fs_find_range T B Hinv _ nm _ Hok Hf) as (_ & Hi & _).
  rewrite (get_inode_spec d N T B) by done. cbn [mbind option_bind].
  assert (s = nm) as ->.
  { unfold entry_name in Hnm. rewrite Hcs in Hnm. by destruct s; simplify_eq. }
  pose proof (found_name_short T B _ nm _ Hinv Hok Hf).
  destruct (copy_name_any (n_name out) (filename e) nm) as (fld & -> & Hfld & _);
    [done|done|split; [done|done|lia]|lia|].
  cbn [mbind option_bind]. exists nm. eexists. split; [reflexivity|]. do 6 (split; [done|]).
  split; [done|]. unfold is_dir. cbn [n_flags n_inode_idx]. fold (inode_dir (T (inode_idx e))).
  by destruct (inode_dir (T (inode_idx e))).
Qed.

Lemma find_slot T B p nm i : fs_inv T B -> 0 <= p < 64 -> fs_find T B p nm = Some i ->
  exists index e, 0 <= index < 16 /\ dir_slot T B p index = Some e /\
    entry_name e = Some nm /\ inode_idx e = i.
Proof.
  unfold fs_find, dir_slot. intros Hinv Hp. destruct (inode_dir (T p)) eqn:Hd; [|done].
  intros (e & Hin & Hnm & Hi)%dir_find_elem.
  apply list_elem_of_lookup in Hin as [k Hk]. exists (Z.of_nat k), e.
  pose proof (lookup_lt_Some _ _ _ Hk) as Hlt. rewrite zget_nat, Hk. cbn [mbind option_bind].
  rewrite Hnm. split; [|by split].
  assert (length (dirents_of_sector (B (dir_block T p))) = 16%nat); [|lia].
  unfold dirents_of_sector. by rewrite length_fmap.
Qed.

(** C29. vfs_readdir lists a directory: at every index it answers -1 or a node whose
    name the directory maps to the node's inode, and every name the directory
    maps is listed at an index below 16, whatever the caller's node held. *)
Theorem vfs_readdir_lists_directory d N T B dir out :
  view d N T B -> fs_inv T B -> node_ok dir -> is_dir dir = true ->
  bytes_ok (n_name out) -> length (n_name out) = 32%nat ->
  (forall index, exists r, vfs_readdir d dir index out = Some r /\
     forall node, r = Some node -> node_valid T node /\
       exists nm, c_name (n_name node) nm /\
         fs_find T B (n_inode_idx dir) nm = Some (n_inode_idx node)) /\
  (forall nm i, fs_find T B (n_inode_idx dir) nm = Some i ->
     exists index node, 0 <= index < 16 /\ vfs_readdir d dir index out = Some (Some node) /\
       c_name (n_name node) nm /\ n_inode_idx node = i).
Proof.
  intros Hv Hinv Hok Hd Hob Hol.
  pose proof (fun index => readdir_spec d N T B dir index out Hv Hinv Hok Hd Hob Hol) as Hr. split.
  - intros index. specialize (Hr index). destruct (dir_slot _ _ _ _) as [e|]; [|by exists None].
    destruct Hr as (nm & node & -> & _ & Hf & Hn & Hi & _ & _ & Hval). exists (Some node).
    split; [done|]. intros ? [= <-]. split; [done|]. exists nm. by rewrite Hi.
  - intros nm i Hf. destruct (find_slot T B _ nm i Hinv Hok Hf) as (index & e & Hx & Hs & Hnm & <-).
    specialize (Hr index). rewrite Hs in Hr.
    destruct Hr as (nm' & node & Hrd & Hnm' & _ & Hn & Hi & _). simplify_eq.
    by exists index, node.
Qed.
End Spec.

(** ** Runs over the formatted RAM disk *)
Import RamDisk.
Definition root_node : vfs_node := mk_node (name_field [47]) VFS_DIRECTORY 0 0 0.
Definition junk : list Z := replicate 256 7.
(** ["/./a"] *)
Definition demo_path : list Z := [47; 46; 47; 97].

Lemma root_node_valid : node_valid fresh_table root_node.
Proof. split; [split; done|done]. Qed.
Lemma junk_ok : length junk = 256%nat /\ bytes_ok junk.
Proof. split; [done|]. by apply bytes_ok_replicate. Qed.
Lemma path_ok : bytes_ok (cbuf demo_path) /\ cstring (cbuf demo_path) = Some demo_path /\
  short (components demo_path []).
Proof. split; [by repeat constructor|]. split; [done|]. by apply (bool_decide_unpack _). Qed.

(** A file of a directory other than the root's own entries. *)
Lemma demo_dir : exists (f : fs disk) T B node, fs_rel f 32768 T B /\
  step T B root_node name_a = Some node /\ is_dir node = false.
Proof.
  destruct demo_file as (f & T & B & i & _ & Hrel & Hf & Hc).
  exists f, T, B, (node_of T i name_a 0). split; [exact Hrel|]. split.
  - unfold step. change (is_dir root_node) with true. cbn [negb].
    rewrite decide_False by done. change (n_inode_idx root_node) with 0. rewrite Hf. reflexivity.
  - rewrite node_of_dir. exact (demo_plain T B i Hc).
Qed.

Lemma vfs_lookup_correct_witness : exists B,
  vfs_lookup (dev demo_fs) root_node (cbuf name_a) = Some (step fresh_table B root_node name_a).
Proof.
  destruct demo_rel as (B & Hrel & _). exists B.
  apply (vfs_lookup_correct _ 32768 fresh_table B root_node (cbuf name_a) name_a).
  - exact (rel_view _ _ _ _ Hrel).
  - exact (rel_inv _ _ _ _ Hrel).
  - exact (proj1 root_node_valid).
  - exact name_a_ok.
Defined.

Lemma vfs_resolve_path_correct_witness : exists B,
  vfs_resolve_path (dev demo_fs) root_node root_node junk (Some (cbuf demo_path)) =
  Some (walk fresh_table B root_node [[46]; [97]]).
Proof.
  destruct demo_rel as (B & Hrel & _). exists B.
  apply (vfs_resolve_path_correct _ 32768 fresh_table B root_node root_node junk (cbuf demo_path)
    demo_path).
  - exact (rel_view _ _ _ _ Hrel).
  - exact (rel_inv _ _ _ _ Hrel).
  - exact (proj1 root_node_valid).
  - exact (proj1 root_node_valid).
  - exact (proj1 junk_ok).
  - exact (proj2 junk_ok).
  - exact (proj1 path_ok).
  - exact (proj1 (proj2 path_ok)).
  - exact (proj2 (proj2 path_ok)).
Defined.

Lemma vfs_cd_correct_witness : exists B r cwd',
  vfs_cd (dev demo_fs) root_node root_node junk (Some (cbuf demo_path)) = Some (r, cwd') /\
  node_valid fresh_table cwd' /\ is_dir cwd' = true /\
  (r = 0 /\ walk fresh_table B root_node [[46]; [97]] = Some cwd' \/
   r = -1 /\ cwd' = root_node /\
     forall t, walk fresh_table B root_node [[46]; [97]] = Some t -> is_dir t = false).
Proof.
  destruct demo_rel as (B & Hrel & _). exists B.
  apply (vfs_cd_correct _ 32768 fresh_table B root_node root_node junk (cbuf demo_path) demo_path).
  - exact (rel_view _ _ _ _ Hrel).
  - exact (rel_inv _ _ _ _ Hrel).
  - exact root_node_valid.
  - exact root_node_valid.
  - reflexivity.
  - exact (proj1 junk_ok).
  - exact (proj2 junk_ok).
  - exact (proj1 path_ok).
  - exact (proj1 (proj2 path_ok)).
  - exact (proj2 (proj2 path_ok)).
Defined.

Lemma vfs_create_correct_witness : exists B,
  vfs_create demo_fs root_node (cbuf name_a) true = Some (-1, demo_fs, None) /\
    step fresh_table B root_node name_a <> None \/
  step fresh_table B root_node name_a = None /\ exists r f' T' B',
    vfs_create demo_fs root_node (cbuf name_a) true =
      Some (r, f', answer T' B' root_node name_a true r) /\
    fs_rel f' 32768 T' B' /\ create_outcome fresh_table B 0 name_a r T' B'.
Proof.
  destruct demo_rel as (B & Hrel & _). exists B.
  apply (vfs_create_correct demo_fs 32768 fresh_table B root_node (cbuf name_a) name_a true).
  - exact Hrel.
  - exact root_node_valid.
  - exact name_a_ok.
Defined.

Lemma vfs_mkdir_correct_witness : exists B,
  vfs_mkdir demo_fs root_node (cbuf name_a) true = Some (-1, demo_fs, None) /\
    step fresh_table B root_node name_a <> None \/
  step fresh_table B root_node name_a = None /\ exists r f' T' B',
    vfs_mkdir demo_fs root_node (cbuf name_a) true =
      Some (r, f', answer T' B' root_node name_a true r) /\
    fs_rel f' 32768 T' B' /\ mkdir_outcome fresh_table B 0 name_a r T' B'.
Proof.
  destruct demo_rel as (B & Hrel & _). exists B.
  apply (vfs_mkdir_correct demo_fs 32768 fresh_table B root_node (cbuf name_a) name_a true).
  - exact Hrel.
  - exact root_node_valid.
  - exact name_a_ok.
Defined.

Lemma vfs_write_read_roundtrip_witness : exists (f : fs disk) node f' node',
  vfs_write f node (replicate 600 7) 600 = Some (0, f', node') /\
  vfs_read (dev f') node' (replicate 700 1) 600 =
    Some (600, take 600 (replicate 600 7) ++ drop 600 (replicate 700 1)) /\
  vfs_lookup (dev f') root_node (cbuf name_a) = Some (Some node') /\ n_size node' = 600.
Proof.
  destruct demo_dir as (f & T & B & node & Hrel & Hst & Hd). exists f, node.
  pose proof (vfs_write_read_roundtrip f 32768 T B root_node (cbuf name_a) name_a node
    (replicate 600 7) 600 (replicate 700 1) Hrel (proj1 root_node_valid) name_a_ok
    (bytes_ok_replicate 600 7 ltac:(lia)) Hst ltac:(done) ltac:(done) ltac:(done)) as Hx.
  rewrite Hd in Hx. exact Hx.
Defined.

Lemma vfs_readdir_lists_directory_witness : exists B,
  (forall index, exists r, vfs_readdir (dev demo_fs) root_node index zero_node = Some r /\
     forall node, r = Some node -> node_valid fresh_table node /\
       exists nm, c_name (n_name node) nm /\ fs_find fresh_table B 0 nm = Some (n_inode_idx node)) /\
  (forall nm i, fs_find fresh_table B 0 nm = Some i ->
     exists index node, 0 <= index < 16 /\
       vfs_readdir (dev demo_fs) root_node index zero_node = Some (Some node) /\
       c_name (n_name node) nm /\ n_inode_idx node = i).
Proof.
  destruct demo_rel as (B & Hrel & _). exists B.
  apply (vfs_readdir_lists_directory _ 32768 fresh_table B root_node zero_node).
  - exact (rel_view _ _ _ _ Hrel).
  - exact (rel_inv _ _ _ _ Hrel).
  - exact (proj1 root_node_valid).
  - reflexivity.
  - apply (bytes_ok_replicate 32 0). lia.
  - reflexivity.
Defined.

(** The directory ["/a"] has a path of three bytes with its terminator;
    vfs_get_path needs four. *)
Example vfs_get_path_rejects_exact_fit :
  ('(r, f) ← simplefs_mkdir demo_fs 0 (cbuf name_a);
   node ← vfs_lookup (dev f) root_node (cbuf name_a);
   node ← node;
   '(short, _) ← vfs_get_path (dev f) node zero_node [1; 1; 1] 3;
   '(r, buf) ← vfs_get_path (dev f) node zero_node [1; 1; 1; 1] 4;
   Some (short, r, buf)) = Some (-1, 0, [47; 97; 0; 0]).
Proof. vm_compute. reflexivity. Qed.
