(* ===== verification/Allocator.v ===== *)
(** * The kernel allocator as its clients see it

    [kmalloc] and [kfree] as an interface: the task and file layers are proved
    against the laws, which mm/heap.cpp discharges. *)
From S2P Require Import Prelude Heap.

Class Allocator (A : Type) := {
  kmalloc_op : A -> Z -> option (Z * A);   (* 0 when memory is exhausted *)
  kfree_op : A -> Z -> option A;
}.

(** [allocated a m]: the allocator is in a legal state and [m] maps the address
    of every block in use to its size; all of them lie from [heap_base] on. *)
Class AllocatorOk (A : Type) `{Allocator A} := {
  allocated : A -> gmap Z Z -> Prop;
  kmalloc_law : forall a m n, allocated a m -> 0 < n <= 0xFFFFFFFC ->
    exists p a' m', kmalloc_op a n = Some (p, a') /\ allocated a' m' /\
      (p = 0 /\ m' = m \/
       exists sz, 0 < p < 4294967296 /\ m !! p = None /\ n <= sz /\ m' = <[p := sz]> m);
  kfree_law : forall a m p sz, allocated a m -> m !! p = Some sz ->
    exists a', kfree_op a p = Some a' /\ allocated a' (delete p m);
  kfree_null : forall a, kfree_op a 0 = Some a;
  heap_base : Z;
  heap_base_pos : 0 < heap_base;
  allocated_range : forall a m p sz, allocated a m -> m !! p = Some sz ->
    heap_base <= p /\ 0 <= sz /\ p + sz < 4294967296;
  allocated_disjoint : forall a m p q sp sq, allocated a m -> m !! p = Some sp ->
    m !! q = Some sq -> p < q -> p + sp <= q;
}.

(** ** mm/heap.cpp discharges the laws *)
#[export] Instance heap_allocator {S} `{PageProvider S} : Allocator (heap S) :=
  {| kmalloc_op h n := kmalloc h n; kfree_op h p := kfree h p |}.

Lemma separated_nodup us : Forall (fun u => 0 <= snd u) us -> separated us -> NoDup us.*1.
Proof.
  induction us as [|[p k] us IH]; simpl; [constructor|]. intros [Hk Hus]%Forall_cons [Hp Hs].
  constructor; [|by apply IH]. simpl in *.
  intros ([q j] & -> & Hin)%list_elem_of_fmap. rewrite Forall_forall in Hp.
  specialize (Hp _ Hin). simpl in Hp. unfold HEADER in Hp. lia.
Qed.
Lemma separated_lt us p k q j : separated us -> Forall (fun u => 0 <= snd u) us ->
  (p, k) ∈ us -> (q, j) ∈ us -> p < q -> p + k <= q.
Proof.
  induction us as [|[a s] us IH]; simpl; [by intros _ _ ?%not_elem_of_nil|].
  intros [Ha Hs] [Hs0 Hus]%Forall_cons. rewrite !elem_of_cons, Forall_forall in *. simpl in *.
  unfold HEADER in *. intros [[= -> ->]|Hp] [[= -> ->]|Hq] Hlt; [lia| | |by apply IH].
  - specialize (Ha _ Hq). simpl in Ha. lia.
  - specialize (Ha _ Hp). specialize (Hus _ Hp). simpl in *. lia.
Qed.
Lemma separated_middle l1 u l2 : separated (l1 ++ u :: l2) -> separated (l1 ++ l2).
Proof.
  induction l1 as [|x l1 IH]; simpl; [tauto|]. intros [Hx Hs]. split; [|by apply IH].
  apply Forall_app in Hx as [? [_ ?]%Forall_cons]. by apply Forall_app.
Qed.

Section HeapAllocator.
Context {S : Type} `{PageProviderOk S}.
Implicit Types h : heap S.

Definition heap_allocated h (m : gmap Z Z) : Prop :=
  exists bs, heap_wf h bs /\ provider_inv (provider h) /\ m = list_to_map (used_blocks bs).

Lemma heap_blocks h bs : heap_wf h bs ->
  NoDup (used_blocks bs).*1 /\ separated (used_blocks bs) /\
  Forall (fun u => 0 <= snd u) (used_blocks bs) /\
  Forall (fun u => HEAP_START + HEADER <= fst u /\ fst u + snd u <= HEAP_MAX_ADDR) (used_blocks bs).
Proof.
  intros Hw. destruct (hw_seg _ _ Hw) as [q Hseg]. pose proof (seg_sizes _ _ _ _ _ _ _ _ Hseg) as Hs.
  pose proof (seg_end_of _ _ _ _ _ _ _ _ Hseg) as He. pose proof (hw_end _ _ Hw).
  pose proof (used_from_bounds bs HEAP_START Hs) as Hb.
  assert (Hnn : Forall (fun u => 0 <= snd u) (used_blocks bs)).
  { eapply Forall_impl; [exact Hb|]. simpl. lia. }
  pose proof (used_from_separated bs HEAP_START Hs) as Hsep.
  split; [by apply separated_nodup|]. split; [done|]. split; [done|].
  eapply Forall_impl; [exact Hb|]. simpl. rewrite <- He. lia.
Qed.

Lemma heap_kmalloc h m n : heap_allocated h m -> 0 < n <= 0xFFFFFFFC ->
  exists p h' m', kmalloc h n = Some (p, h') /\ heap_allocated h' m' /\
    (p = 0 /\ m' = m \/
     exists sz, 0 < p < 4294967296 /\ m !! p = None /\ n <= sz /\ m' = <[p := sz]> m).
Proof.
  intros (bs & Hw & Hp & ->) Hn.
  destruct (kmalloc_rec_spec n Hn (pages_left h) h bs Hw Hp) as (p & h' & bs' & E & Hw' & Hp' & Ho);
    [done|].
  exists p, h', (list_to_map (used_blocks bs')). split; [exact E|]. split; [by exists bs'|].
  destruct Ho as [[-> ->]|[Hr (l1 & l2 & k & Hu & Hu' & Hk)]]; [by left|right].
  destruct (heap_blocks h' bs' Hw') as (Hnd & _). rewrite Hu' in Hnd.
  rewrite fmap_app, fmap_cons in Hnd. simpl in Hnd.
  assert (Hfresh : p ∉ (l1 ++ l2).*1).
  { rewrite fmap_app. rewrite <- Permutation_middle in Hnd. by apply NoDup_cons in Hnd as [? _]. }
  exists k. unfold HEAP_START, HEAP_MAX_ADDR, HEADER in *. split; [lia|]. rewrite Hu, Hu'. split.
  - by apply not_elem_of_list_to_map.
  - split; [done|]. rewrite !list_to_map_app. simpl. rewrite <- insert_union_r; [done|].
    apply not_elem_of_list_to_map. intros Hin. apply Hfresh. rewrite fmap_app. set_solver.
Qed.

Lemma heap_kfree h m p sz : heap_allocated h m -> m !! p = Some sz ->
  exists h', kfree h p = Some h' /\ heap_allocated h' (delete p m).
Proof.
  intros (bs & Hw & Hp & ->) Hm. destruct (heap_blocks h bs Hw) as (Hnd & _).
  apply elem_of_list_to_map in Hm as (u1 & u2 & Hu)%list_elem_of_split; [|done].
  pose proof Hu as Hu0. unfold used_blocks in Hu.
  apply used_from_split in Hu as (l1 & l2 & -> & -> & -> & ->).
  destruct (kfree_wf h l1 sz l2 Hw) as (h' & -> & Hw' & Hpr). exists h'. split; [done|].
  exists (freed l1 sz l2). split; [done|]. rewrite Hpr. split; [done|].
  rewrite used_freed. rewrite Hu0 in *. rewrite fmap_app, fmap_cons in Hnd. simpl in Hnd.
  rewrite !list_to_map_app. simpl. rewrite <- Permutation_middle in Hnd.
  apply NoDup_cons in Hnd as [Hnin _].
  rewrite <- fmap_app in Hnin. apply (not_elem_of_list_to_map_1 (M := gmap Z)) in Hnin.
  rewrite list_to_map_app in Hnin. apply lookup_union_None in Hnin as [Hn1 Hn2].
  rewrite delete_union, delete_insert_id by done. by rewrite (delete_id _ _ Hn1).
Qed.

#[export] Instance heap_allocator_ok : AllocatorOk (heap S).
Proof.
  refine {| allocated := heap_allocated; heap_base := HEAP_START |}.
  - exact heap_kmalloc.
  - exact heap_kfree.
  - done.
  - done.
  - intros h m p sz (bs & Hw & _ & ->) Hm. destruct (heap_blocks h bs Hw) as (Hnd & _ & Hnn & Hr).
    apply elem_of_list_to_map in Hm; [|done]. rewrite Forall_forall in Hr, Hnn.
    specialize (Hr _ Hm). specialize (Hnn _ Hm). simpl in *.
    unfold HEAP_START, HEAP_MAX_ADDR, HEADER in *. lia.
  - intros h m p q sp sq (bs & Hw & _ & ->) Hp Hq. destruct (heap_blocks h bs Hw) as (Hnd & Hs & Hnn & _).
    apply elem_of_list_to_map in Hp, Hq; try done. by eapply separated_lt.
Defined.
End HeapAllocator.
