(* ===== verification/Paging.v ===== *)
(** * Physical memory and 32-bit paging

    What the processor does with an address: [translate] walks the page
    directory CR3 points at and the page table behind it.  [ram] is the
    physical memory, a word at every address that is a multiple of four.  A
    load or store of an address that does not translate is [None]: it raises a
    page fault.  Kernel code runs in ring 0, which neither the RW nor the USER
    bit restrains.  The translation cache is not modelled: each walk reads the
    tables as they are. *)
From S2P Require Import Prelude Pmm.

Record vm := mk_vm { ram : Z -> Z; cr3 : Z; paging : bool; vm_pmm : pmm }.
Definition set_ram r s := mk_vm r (cr3 s) (paging s) (vm_pmm s).
Definition set_cr3 c s := mk_vm (ram s) c (paging s) (vm_pmm s).
Definition set_paging b s := mk_vm (ram s) (cr3 s) b (vm_pmm s).
Definition set_vm_pmm p s := mk_vm (ram s) (cr3 s) (paging s) p.

Definition write (r : Z -> Z) (p v : Z) : Z -> Z := fun x => if x =? p then v else r x.

(** The parts of an entry and of an address. *)
Definition frame_of (e : Z) : Z := e / 4096 * 4096.
Definition present (e : Z) : bool := Z.testbit e 0.
Definition dir_index (v : Z) : Z := v / 4194304.
Definition table_index (v : Z) : Z := v / 4096 mod 1024.

(** The walk from a given directory. *)
Definition walk_from (r : Z -> Z) (d v : Z) : option Z :=
  let pde := r (d + 4 * dir_index v) in
  if present pde then
    let pte := r (frame_of pde + 4 * table_index v) in
    if present pte then Some (frame_of pte + v mod 4096) else None
  else None.
Definition translate s (v : Z) : option Z :=
  if paging s then walk_from (ram s) (frame_of (cr3 s)) v else Some v.
Definition load s (v : Z) : option Z := p ← translate s v; Some (ram s p).
Definition store s (v x : Z) : option vm :=
  p ← translate s v; Some (set_ram (write (ram s) p x) s).

(** ** Words and indices *)
Definition page (p : Z) : Prop := 0 <= p < 4294967296 /\ p mod 4096 = 0.

Lemma write_eq r p v : write r p v p = v.
Proof. unfold write. by rewrite Z.eqb_refl. Qed.
Lemma write_ne r p v x : x <> p -> write r p v x = r x.
Proof. intros. unfold write. by rewrite (proj2 (Z.eqb_neq _ _)). Qed.

Lemma frame_flags p f : page p -> 0 <= f < 4096 -> frame_of (p + f) = p.
Proof. unfold page, frame_of. intros. Z.to_euclidean_division_equations. lia. Qed.
Lemma frame_page p : page p -> frame_of p = p.
Proof. unfold page, frame_of. intros. Z.to_euclidean_division_equations. lia. Qed.
Lemma present_flags p f : page p -> 0 <= f < 4096 -> present (p + f) = Z.odd f.
Proof.
  unfold page, present. intros Hp Hf. rewrite Z.bit0_odd.
  replace (p + f) with (f + 2 * (p / 2)) by (Z.to_euclidean_division_equations; lia).
  apply Z.odd_add_mul_2.
Qed.

(** [x | y] of numbers without a common bit, [x] a multiple of [2 ^ k]. *)
Lemma lor_add k x y : 0 <= k -> x mod 2 ^ k = 0 -> 0 <= y < 2 ^ k -> Z.lor x y = x + y.
Proof.
  intros Hk Hx Hy.
  assert (Z.land x y = 0) as Hl.
  { apply Z.bits_inj'. intros n Hn. rewrite Z.land_spec, Z.bits_0.
    destruct (decide (n < k)).
    - rewrite <- (Z.mod_pow2_bits_low x k n) by lia. by rewrite Hx, Z.bits_0.
    - replace (Z.testbit y n) with false; [apply andb_false_r|]. symmetry.
      apply Z.testbit_false; [lia|]. rewrite Z.div_small; [done|].
      pose proof (Z.pow_le_mono_r 2 k n). lia. }
  rewrite Z.add_nocarry_lxor by done. symmetry. by apply Z.lxor_lor.
Qed.
Lemma lor_flags p f : page p -> 0 <= f < 4096 -> Z.lor p f = p + f.
Proof. intros [_ Hp] Hf. by apply (lor_add 12). Qed.

Lemma shiftr_22 v : Z.shiftr v 22 = dir_index v.
Proof. by rewrite Z.shiftr_div_pow2. Qed.
Lemma table_index_land v : Z.land (Z.shiftr v 12) 0x3FF = table_index v.
Proof. change 0x3FF with (Z.ones 10). by rewrite Z.land_ones, Z.shiftr_div_pow2. Qed.
Lemma dir_index_range v : 0 <= v < 4294967296 -> 0 <= dir_index v < 1024.
Proof. unfold dir_index. intros. Z.to_euclidean_division_equations. lia. Qed.
Lemma table_index_range v : 0 <= table_index v < 1024.
Proof. unfold table_index. apply Z.mod_pos_bound. lia. Qed.
Lemma window_base i : 0 <= i < 1024 -> Z.lor 0xFFC00000 (Z.shiftl i 12) = 0xFFC00000 + 4096 * i.
Proof.
  intros Hi. rewrite Z.shiftl_mul_pow2 by lia. rewrite (lor_add 22); [lia|lia|done|].
  change (2 ^ 12) with 4096. change (2 ^ 22) with 4194304. lia.
Qed.
Lemma land_frame x : 0 <= x < 4294967296 -> Z.land x 0xFFFFF000 = frame_of x.
Proof.
  intros Hx. unfold frame_of. change 0xFFFFF000 with (Z.shiftl (Z.ones 20) 12).
  apply Z.bits_inj'. intros n Hn. rewrite Z.land_spec.
  change 4096 with (2 ^ 12). rewrite <- Z.shiftl_mul_pow2, <- Z.shiftr_div_pow2 by lia.
  destruct (decide (n < 12)).
  - rewrite !Z.shiftl_spec_low by lia. apply andb_false_r.
  - rewrite !Z.shiftl_spec, Z.shiftr_spec by lia. replace (n - 12 + 12) with n by lia.
    destruct (decide (n - 12 < 20)).
    + rewrite Z.ones_spec_low by lia. apply andb_true_r.
    + rewrite Z.ones_spec_high by lia. rewrite andb_false_r. symmetry. apply Z.testbit_false; [lia|].
      rewrite Z.div_small; [done|]. pose proof (Z.pow_le_mono_r 2 32 n). lia.
Qed.

(** Two words of pages are the same word exactly when page and index are. *)
Lemma word_of_page p i q j : page p -> page q -> 0 <= i < 1024 -> 0 <= j < 1024 ->
  p + 4 * i = q + 4 * j -> p = q /\ i = j.
Proof. unfold page. intros. Z.to_euclidean_division_equations. lia. Qed.
Lemma write_word r p i q j v : page p -> page q -> 0 <= i < 1024 -> 0 <= j < 1024 ->
  write r (p + 4 * i) v (q + 4 * j) = if (p =? q) && (i =? j) then v else r (q + 4 * j).
Proof.
  intros Hp Hq Hi Hj. unfold write. destruct (Z.eqb_spec (q + 4 * j) (p + 4 * i)) as [He|Hne].
  - destruct (word_of_page q j p i Hq Hp Hj Hi He) as [-> ->]. by rewrite !Z.eqb_refl.
  - destruct (Z.eqb_spec p q) as [->|]; [|done]. destruct (Z.eqb_spec i j) as [->|]; [lia|done].
Qed.
