(* ===== verification/Vmm.v ===== *)
(** * mm/vmm.cpp and mm/vmm.h: page directories

    The memory is [Paging]'s; the code reaches page tables through the
    directory's last entry, which points at the directory itself.  The link
    addresses of the two static tables are parameters.  [invlpg] has no
    counterpart, since no translation is cached. *)
From S2P Require Import Prelude CString Pmm Paging PortIo Pic Vga Console.

Definition PAGE_PRESENT : Z := 1.
Definition PAGE_RW : Z := 2.
Definition PAGE_USER : Z := 4.

(** Where the linker put [page_directory] and [first_page_table]. *)
Record vmm_image := mk_image { page_directory : Z; first_page_table : Z }.

Section Vmm.
Context (im : vmm_image).
Implicit Types (s : vm).

(** [for (; n > 0; i++) table[i] = 0] *)
Fixpoint clear_table (n : nat) s (table i : Z) : option vm :=
  match n with
  | O => Some s
  | S n' => s ← store s (u32 (table + 4 * i)) 0; clear_table n' s table (i + 1)
  end.
(** [for (; n > 0; i++) first_page_table[i] = ...] *)
Fixpoint fill_first (n : nat) s (i : Z) : option vm :=
  match n with
  | O => Some s
  | S n' =>
      s ← store s (u32 (first_page_table im + 4 * i))
            (Z.lor (Z.lor (Z.lor (u32 (i * 0x1000)) PAGE_PRESENT) PAGE_RW) PAGE_USER);
      fill_first n' s (i + 1)
  end.
(** [... mov cr0] *)
Definition init_vmm s : option vm :=
  s ← clear_table 1024 s (page_directory im) 0;
  s ← store s (page_directory im)
        (Z.lor (Z.lor (Z.lor (first_page_table im) PAGE_PRESENT) PAGE_RW) PAGE_USER);
  s ← store s (u32 (page_directory im + 4 * 1023))
        (Z.lor (Z.lor (page_directory im) PAGE_PRESENT) PAGE_RW);
  s ← fill_first 1024 s 0;
  Some (set_paging true (set_cr3 (page_directory im) s)).

Definition vmm_get_kernel_page_directory : Z := page_directory im.

(** [for (; n > 0; i++) if (page_directory[i] & PAGE_PRESENT) new_pd[i] = ...] *)
Fixpoint copy_heap (n : nat) s (new_pd i : Z) : option vm :=
  match n with
  | O => Some s
  | S n' =>
      e ← load s (u32 (page_directory im + 4 * i));
      s ← (if negb (Z.land e PAGE_PRESENT =? 0) then store s (u32 (new_pd + 4 * i)) e else Some s);
      copy_heap n' s new_pd (i + 1)
  end.
Definition vmm_create_page_directory s : option (Z * vm) :=
  '(page_dir_phys, pm) ← pmm_alloc_page (vm_pmm s);
  let s := set_vm_pmm pm s in
  if page_dir_phys =? 0 then Some (0, s) else
  let new_pd := page_dir_phys in
  s ← clear_table 1024 s new_pd 0;
  e ← load s (page_directory im);
  s ← store s new_pd e;
  s ← copy_heap 128 s new_pd 768;
  s ← store s (u32 (new_pd + 4 * 1023)) (Z.lor (Z.lor new_pd PAGE_PRESENT) PAGE_RW);
  Some (new_pd, s).

Definition vmm_switch_page_directory s (cr3 : Z) : vm := set_cr3 cr3 s.

Definition current_pd : Z := 0xFFFFF000.
Definition page_table_of (pd_idx : Z) : Z := Z.lor 0xFFC00000 (Z.shiftl pd_idx 12).

(** The body of [if (!(current_pd[pd_idx] & PAGE_PRESENT))]. *)
Definition new_table s (virt_addr pd_idx : Z) : option vm :=
  '(new_pt_phys, pm) ← pmm_alloc_page (vm_pmm s);
  let s := set_vm_pmm pm s in
  let entry := Z.lor (Z.lor (Z.lor new_pt_phys PAGE_PRESENT) PAGE_RW) PAGE_USER in
  s ← store s (u32 (current_pd + 4 * pd_idx)) entry;
  s ← (if 0xC0000000 <=? virt_addr then store s (u32 (page_directory im + 4 * pd_idx)) entry else Some s);
  clear_table 1024 s (page_table_of pd_idx) 0.
Definition vmm_map_page s (virt_addr phys_addr flags : Z) : option vm :=
  let pd_idx := Z.shiftr virt_addr 22 in
  let pt_idx := Z.land (Z.shiftr virt_addr 12) 0x3FF in
  let page_table := page_table_of pd_idx in
  e ← load s (u32 (current_pd + 4 * pd_idx));
  s ← (if Z.land e PAGE_PRESENT =? 0 then new_table s virt_addr pd_idx else Some s);
  store s (u32 (page_table + 4 * pt_idx)) (Z.lor (Z.land phys_addr 0xFFFFF000) flags).

Definition vmm_unmap_page s (virt_addr : Z) : option vm :=
  let pd_idx := Z.shiftr virt_addr 22 in
  let pt_idx := Z.land (Z.shiftr virt_addr 12) 0x3FF in
  e ← load s (u32 (current_pd + 4 * pd_idx));
  if Z.land e PAGE_PRESENT =? 0 then Some s else
  store s (u32 (page_table_of pd_idx + 4 * pt_idx)) 0.

(** ** The page fault handler *)
Section Fault.
Context {W : Type} `{Ports W}.
Implicit Types (v : vga W).

(** From [set_text_color] to the last message; [buf] is uninitialised. *)
Definition fault_report v (buf : list Z) (faulting_address error_code : Z) : option (vga W) :=
  let v := set_text_color v VGA_COLOR_LIGHT_RED VGA_COLOR_BLACK in
  v ← print_string v (cbuf (newline :: codes "========================================" ++ [newline]));
  v ← print_string v (cbuf (codes " [KERNEL PANIC] PAGE FAULT EXCEPTION!" ++ [newline]));
  v ← print_string v (cbuf (codes "========================================" ++ [newline]));
  v ← print_string v (lit "Faulting Virtual Address: 0x");
  '(v, buf) ← print_itoa v faulting_address buf 16;
  v ← print_string v (cbuf [newline]);
  v ← print_string v (cbuf (codes "Error Code Details:" ++ [newline]));
  v ← print_string v (cbuf ((if Z.land error_code 0x1 =? 0
        then codes "  - Cause       : Super/Non-present page (Page not present in RAM)"
        else codes "  - Cause       : Page-protection violation") ++ [newline]));
  v ← print_string v (cbuf ((if Z.land error_code 0x2 =? 0
        then codes "  - Access Type : Read operation"
        else codes "  - Access Type : Write operation") ++ [newline]));
  v ← print_string v (cbuf ((if Z.land error_code 0x4 =? 0
        then codes "  - Privilege   : Kernel-mode (Ring 0)"
        else codes "  - Privilege   : User-mode (Ring 3)") ++ [newline]));
  print_string v (cbuf (codes "System halted." ++ [newline])).

(** How the handler ends: it returns to the faulting instruction, or it halts
    for good after its report. *)
Inductive fault_outcome := Resume (s : vm) | Halted (v : vga W).
Definition page_fault_handler s v (buf : list Z) (cr2 error_code : Z) : option fault_outcome :=
  let faulting_address := cr2 in
  let pd_idx := Z.shiftr faulting_address 22 in
  let halt := v ← fault_report v buf faulting_address error_code; Some (Halted v) in
  if (0xC0000000 <=? faulting_address) && (pd_idx <? 1023) then
    e ← load s (u32 (page_directory im + 4 * pd_idx));
    if negb (Z.land e PAGE_PRESENT =? 0) then
      e ← load s (u32 (page_directory im + 4 * pd_idx));
      s ← store s (u32 (current_pd + 4 * pd_idx)) e;
      Some (Resume s)
    else halt
  else halt.
End Fault.
End Vmm.
