(* ===== verification/VmmInv.v ===== *)
(** * The invariant of the page directories

    [vm_ok D s]: the kernel's directory and the directories [D] all contain
    themselves in their last entry and the identity table of the first 4 MB in
    their first; their page tables are pages of their own, shared only between
    the same heap slots, and in use in the page allocator.  Frame 0 is the
    exception: it is what a table is when memory ran out. *)
From S2P Require Import Prelude CString Pmm Paging Vmm.

Lemma page_add_range p i : page p -> 0 <= i < 1024 -> 0 <= p + 4 * i < 4294967296.
Proof. unfold page. intros. Z.to_euclidean_division_equations. lia. Qed.
Lemma page_index_used p : page p -> p / 4096 * 4096 = p /\ 0 <= p / 4096 < 1048576.
Proof. unfold page. intros. Z.to_euclidean_division_equations. lia. Qed.
Lemma page_frame e : 0 <= e < 4294967296 -> page (frame_of e).
Proof. unfold page, frame_of. intros. Z.to_euclidean_division_equations. lia. Qed.

Section Inv.
Context (im : vmm_image).
Implicit Types (s : vm) (D : gset Z).
#[local] Abbreviation PD := (page_directory im).
#[local] Abbreviation FPT := (first_page_table im).

Record image_ok : Prop := {
  io_pd : page PD /\ 0 < PD < 4194304;
  io_fpt : page FPT /\ 0 < FPT < 4194304;
  io_ne : PD <> FPT;
}.
Hypothesis Him : image_ok.

Definition isdir D d : Prop := d = PD \/ d ∈ D.
Definition entry s d i : Z := ram s (d + 4 * i).

(** What the accesses of the code go through. *)
Record window s : Prop := {
  wi_paging : paging s = true;
  wi_cr3 : page (cr3 s) /\ cr3 s <> FPT /\ cr3 s <> 0;
  wi_first : entry s (cr3 s) 0 = FPT + 7;
  wi_self : entry s (cr3 s) 1023 = cr3 s + 3;
  wi_identity : forall i, 0 <= i < 1024 -> entry s FPT i = 4096 * i + 7;
}.

Lemma walk_low s d v : page d -> entry s d 0 = FPT + 7 ->
  (forall i, 0 <= i < 1024 -> entry s FPT i = 4096 * i + 7) -> 0 <= v < 4194304 ->
  walk_from (ram s) d v = Some v.
Proof.
  intros Hd H0 Hid Hv. unfold walk_from, entry in *.
  replace (dir_index v) with 0 by (unfold dir_index; Z.to_euclidean_division_equations; lia).
  rewrite H0. destruct (io_fpt Him) as [Hf _]. rewrite present_flags, frame_flags by (done || lia).
  change (Z.odd 7) with true. cbn match. assert (Hi : 0 <= v / 4096 < 1024) by (Z.to_euclidean_division_equations; lia).
  replace (table_index v) with (v / 4096) by (unfold table_index; by rewrite Z.mod_small).
  rewrite Hid by done. assert (Hp : page (4096 * (v / 4096))).
  { unfold page. Z.to_euclidean_division_equations. lia. }
  rewrite present_flags, frame_flags by (done || lia). change (Z.odd 7) with true. cbn match.
  f_equal. Z.to_euclidean_division_equations. lia.
Qed.

Lemma translate_walk s v : window s -> translate s v = walk_from (ram s) (cr3 s) v.
Proof. intros [Hp [Hc _] _ _ _]. unfold translate. rewrite Hp. by rewrite frame_page. Qed.
Lemma tr_low s v : window s -> 0 <= v < 4194304 -> translate s v = Some v.
Proof. intros Hw Hv. rewrite translate_walk by done. destruct Hw as [_ [? _] ? _ ?]. by apply walk_low. Qed.

Lemma window_index i j : 0 <= i < 1024 -> 0 <= j < 1024 ->
  let v := 0xFFC00000 + 4096 * i + 4 * j in
  dir_index v = 1023 /\ table_index v = i /\ v mod 4096 = 4 * j.
Proof. unfold dir_index, table_index. intros. Z.to_euclidean_division_equations. lia. Qed.
Lemma tr_table s i j : window s -> 0 <= i < 1024 -> 0 <= j < 1024 ->
  present (entry s (cr3 s) i) = true ->
  translate s (0xFFC00000 + 4096 * i + 4 * j) = Some (frame_of (entry s (cr3 s) i) + 4 * j).
Proof.
  intros Hw Hi Hj Hp. rewrite translate_walk by done. destruct Hw as [_ [Hc _] _ Hself _].
  unfold entry in *. unfold walk_from. destruct (window_index i j Hi Hj) as (-> & -> & ->).
  rewrite Hself, present_flags, frame_flags by (done || lia). change (Z.odd 3) with true. cbn match.
  by rewrite Hp.
Qed.
Lemma tr_pd s j : window s -> 0 <= j < 1024 ->
  translate s (current_pd + 4 * j) = Some (cr3 s + 4 * j).
Proof.
  intros Hw Hj. replace (current_pd + 4 * j) with (0xFFC00000 + 4096 * 1023 + 4 * j)
    by (unfold current_pd; lia).
  pose proof Hw as [_ [Hc _] _ Hself _].
  rewrite tr_table; rewrite ?Hself, ?present_flags, ?frame_flags; done || lia.
Qed.

(** ** Stores *)
Lemma entry_write s q i p j v : page p -> page q -> 0 <= i < 1024 -> 0 <= j < 1024 ->
  entry (set_ram (write (ram s) (p + 4 * j) v) s) q i
  = if (p =? q) && (j =? i) then v else entry s q i.
Proof. intros. unfold entry. cbn [ram set_ram]. by apply write_word. Qed.

(** The same machine but for the memory. *)
Definition same_cpu s s' : Prop := cr3 s' = cr3 s /\ paging s' = paging s /\ vm_pmm s' = vm_pmm s.
Lemma same_cpu_trans s1 s2 s3 : same_cpu s1 s2 -> same_cpu s2 s3 -> same_cpu s1 s3.
Proof. unfold same_cpu. intuition congruence. Qed.

Lemma window_frame s s' : cr3 s' = cr3 s -> paging s' = paging s -> window s ->
  entry s' (cr3 s) 0 = entry s (cr3 s) 0 -> entry s' (cr3 s) 1023 = entry s (cr3 s) 1023 ->
  (forall i, 0 <= i < 1024 -> entry s' FPT i = entry s FPT i) -> window s'.
Proof.
  intros Hc Hp [H1 H2 H3 H4 H5] E0 E1 EF. split; rewrite ?Hc, ?Hp; try done.
  - congruence.
  - congruence.
  - intros i Hi. rewrite EF by done. by apply H5.
Qed.

(** Zeroing the table behind an address window. *)
Lemma clear_table_spec base t n : page t -> t <> FPT -> forall s i,
  window s -> t <> cr3 s -> 0 <= i -> i + Z.of_nat n <= 1024 -> 0 <= base -> base + 4096 <= 4294967296 ->
  (forall s', window s' -> cr3 s' = cr3 s ->
     (forall k, 1 <= k < 1023 -> entry s' (cr3 s) k = entry s (cr3 s) k) ->
     forall j, 0 <= j < 1024 -> translate s' (base + 4 * j) = Some (t + 4 * j)) ->
  exists s', clear_table n s base i = Some s' /\ same_cpu s s' /\ window s' /\
    forall q j, page q -> 0 <= j < 1024 -> entry s' q j =
      if (q =? t) && (i <=? j) && (j <? i + Z.of_nat n) then 0 else entry s q j.
Proof.
  intros Ht HtF. induction n as [|n IH]; intros s i Hw Htc Hi Hn Hb0 Hb Htr; cbn [clear_table].
  { exists s. split; [done|]. split; [done|]. split; [done|]. intros q j _ Hj.
    destruct (Z.leb_spec i j), (Z.ltb_spec j (i + Z.of_nat 0)); rewrite ?andb_false_r; try done. lia. }
  rewrite u32_small by lia. unfold store at 1. rewrite (Htr s) by (done || lia). cbn [mbind option_bind].
  set (s1 := set_ram _ s). destruct (io_fpt Him) as [HF _]. pose proof Hw as [Hpg [Hc [HcF Hc0]] H0 H1 HI].
  assert (E1 : forall q j, page q -> 0 <= j < 1024 ->
    entry s1 q j = if (t =? q) && (i =? j) then 0 else entry s q j).
  { intros q j Hq Hj. unfold s1. rewrite entry_write by (done || lia). done. }
  assert (Hne : forall q j, page q -> q <> t -> 0 <= j < 1024 -> entry s1 q j = entry s q j).
  { intros q j Hq Hqt Hj. rewrite E1 by done. by rewrite (proj2 (Z.eqb_neq t q)) by done. }
  assert (Hw1 : window s1).
  { apply (window_frame s s1); try done; [apply Hne; done || lia..|].
    intros k Hk. by apply Hne. }
  destruct (IH s1 (i + 1)) as (s' & -> & Hsc & Hw' & He); try done; try lia.
  { intros s' Hws Hcs Hes. apply Htr; [done|done|]. intros k Hk. rewrite Hes by done.
    apply Hne; done || lia. }
  exists s'. split; [done|]. split; [done|]. split; [done|]. intros q j Hq Hj. rewrite He, E1 by done.
  destruct (Z.eqb_spec q t) as [->|Hqt].
  - rewrite Z.eqb_refl. cbn [andb].
    destruct (Z.leb_spec (i + 1) j), (Z.ltb_spec j (i + 1 + Z.of_nat n)), (Z.leb_spec i j),
      (Z.ltb_spec j (i + Z.of_nat (S n))), (Z.eqb_spec i j); cbn [andb]; try done; lia.
  - rewrite (proj2 (Z.eqb_neq t q)) by done. done.
Qed.

(** ** The invariant *)
Definition has_table s D d i : Prop := isdir D d /\ 1 <= i < 1023 /\ present (entry s d i) = true.
Definition table_at s d i : Z := frame_of (entry s d i).
(** The frames the page directories occupy. *)
Definition occupied D s f : Prop :=
  f = 0 \/ f = PD \/ f = FPT \/ f ∈ D \/ exists d i, has_table s D d i /\ table_at s d i = f.

Record vm_ok D s : Prop := {
  vo_paging : paging s = true;
  vo_cr3 : isdir D (cr3 s);
  vo_kernel : PD ∉ D;
  vo_dir : forall d, isdir D d -> page d /\ d <> 0 /\ d <> FPT /\
    entry s d 0 = FPT + 7 /\ entry s d 1023 = d + 3;
  vo_first : forall i, 0 <= i < 1024 -> entry s FPT i = 4096 * i + 7;
  vo_tables : forall d i, has_table s D d i ->
    page (table_at s d i) /\ table_at s d i <> FPT /\ ~ isdir D (table_at s d i);
  vo_shared : forall d i d' j, has_table s D d i -> has_table s D d' j ->
    table_at s d i = table_at s d' j -> table_at s d i <> 0 -> i = j /\ (d = d' \/ 768 <= i);
  vo_pmm : pmm_wf (vm_pmm s);
  vo_used : forall f, occupied D s f -> page_used (vm_pmm s) (f / 4096) = true;
}.

Lemma vo_window D s : vm_ok D s -> window s.
Proof.
  intros Hs. destruct (vo_dir _ _ Hs _ (vo_cr3 _ _ Hs)) as (Hp & H0 & HF & E0 & E1).
  split; try done; apply Hs.
Qed.
Lemma vo_pd_page D s : vm_ok D s -> page PD.
Proof. intros _. apply Him. Qed.

(** A page the allocator hands out is none of the occupied ones. *)
Lemma fresh_page D s f pm : vm_ok D s -> pmm_alloc_page (vm_pmm s) = Some (f, pm) -> f <> 0 ->
  page f /\ ~ occupied D s f /\ pmm_wf pm /\ page_used pm (f / 4096) = true /\
  forall j, page_used (vm_pmm s) j = true -> page_used pm j = true.
Proof.
  intros Hs Ha Hf. destruct (pmm_alloc_page_spec _ (vo_pmm _ _ Hs)) as
    [[E _]|(r & p' & E & Hwf & Hr & Hun & _ & _ & Hu)]; rewrite Ha in E; injection E as -> ->; [done|].
  pose proof (searched_le _ (vo_pmm _ _ Hs)) as Hle. unfold MAX_PAGES, PAGE_SIZE in *.
  rewrite Z.div_mul by lia. split; [|split; [|split; [done|split]]].
  - unfold page. rewrite Z.mod_mul by lia. lia.
  - intros Ho%(vo_used _ _ Hs). rewrite Z.div_mul in Ho by lia. congruence.
  - rewrite Hu, Z.eqb_refl. by rewrite orb_true_r.
  - intros j Hj. by rewrite Hu, Hj.
Qed.
(** Out of memory, or a fresh page. *)
Lemma alloc_cases D s : vm_ok D s -> exists f pm, pmm_alloc_page (vm_pmm s) = Some (f, pm) /\
  (f = 0 /\ pm = vm_pmm s \/
   f <> 0 /\ page f /\ ~ occupied D s f /\ pmm_wf pm /\ page_used pm (f / 4096) = true /\
   forall j, page_used (vm_pmm s) j = true -> page_used pm j = true).
Proof.
  intros Hs. destruct (pmm_alloc_page_spec _ (vo_pmm _ _ Hs)) as
    [[E _]|(r & p' & E & Hwf & Hr & Hun & _ & _ & Hu)].
  - exists 0, (vm_pmm s). split; [done|by left].
  - destruct (decide (r * PAGE_SIZE = 0)) as [Hz|Hz].
    + exfalso. assert (r = 0) as -> by (unfold PAGE_SIZE in Hz; lia).
      pose proof (vo_used _ _ Hs 0 ltac:(by left)) as H0. change (0 / 4096) with 0 in H0. congruence.
    + exists (r * PAGE_SIZE), p'. split; [done|]. right. split; [done|]. by apply (fresh_page D s).
Qed.

(** Changing words of page tables only keeps the invariant. *)
Lemma vm_ok_tables D s s' : vm_ok D s -> cr3 s' = cr3 s -> paging s' = paging s ->
  vm_pmm s' = vm_pmm s ->
  (forall q j, page q -> 0 <= j < 1024 -> isdir D q \/ q = FPT -> entry s' q j = entry s q j) -> vm_ok D s'.
Proof.
  intros [V1 V2 V3 V4 V5 V6 V7 V8 V9] Hc Hp Hm He.
  assert (HE : forall d j, isdir D d -> 0 <= j < 1024 -> entry s' d j = entry s d j).
  { intros d j Hd Hj. apply He; [by apply V4|done|by left]. }
  assert (HT : forall d i, has_table s' D d i <-> has_table s D d i).
  { intros d i. unfold has_table. split; intros (Hd & Hi & Hpr); (split; [done|]; split; [done|]);
      [rewrite <- HE|rewrite HE]; done || lia. }
  assert (HA : forall d i, has_table s D d i -> table_at s' d i = table_at s d i).
  { intros d i (Hd & Hi & _). unfold table_at. by rewrite HE by (done || lia). }
  split; rewrite ?Hc, ?Hp, ?Hm; try done.
  - intros d Hd. destruct (V4 d Hd) as (? & ? & ? & ? & ?). rewrite !HE by (done || lia). done.
  - intros i Hi. rewrite He; [by apply V5|apply Him|done|by right].
  - intros d i Ht%HT. rewrite HA by done. by apply V6.
  - intros d i d' j Ht%HT Ht'%HT. rewrite !HA by done. by apply V7.
  - intros f Hf. apply V9. unfold occupied in *. destruct Hf as [?|[?|[?|[?|(d & i & Ht & Hf)]]]]; auto 6.
    do 4 right. exists d, i. apply HT in Ht. split; [done|]. by rewrite <- HA.
Qed.

(** Writing an entry of the table behind a slot. *)
Lemma store_entry D s virt i j x : vm_ok D s -> has_table s D (cr3 s) i -> 0 <= j < 1024 ->
  let t := table_at s (cr3 s) i in
  virt = 0xFFC00000 + 4096 * i + 4 * j ->
  exists s', store s virt x = Some s' /\ vm_ok D s' /\ same_cpu s s' /\
    forall q k, page q -> 0 <= k < 1024 ->
      entry s' q k = if (t =? q) && (j =? k) then x else entry s q k.
Proof.
  intros Hs Ht Hj t ->. destruct (vo_tables _ _ Hs _ _ Ht) as (Hp & HF & Hd).
  destruct Ht as (Hcd & Hi & Hpr). unfold store.
  rewrite tr_table by (done || lia || by eapply vo_window). cbn [mbind option_bind].
  fold (table_at s (cr3 s) i). fold t. eexists. split; [reflexivity|].
  assert (HE : forall q k, page q -> 0 <= k < 1024 ->
    entry (set_ram (write (ram s) (t + 4 * j) x) s) q k = if (t =? q) && (j =? k) then x else entry s q k).
  { intros q k Hq Hk. by apply entry_write. }
  split; [|by split]. apply (vm_ok_tables D s); try done. intros q k Hq Hk Hor. rewrite HE by done.
  rewrite (proj2 (Z.eqb_neq t q)); [done|]. intros <-. by destruct Hor.
Qed.
End Inv.
