(* ===== verification/VmmMap.v ===== *)
(** * Mapping pages

    What vmm_map_page, vmm_unmap_page and the repair of the page fault handler
    do to the entries of the directories and tables, and that they keep the
    invariant of [VmmInv]. *)
From S2P Require Import Prelude CString Pmm Paging Vmm VmmInv.

Lemma land_present e : Z.land e PAGE_PRESENT =? 0 = negb (present e).
Proof.
  unfold PAGE_PRESENT, present. change 1 with (Z.ones 1). rewrite Z.land_ones by lia.
  change (2 ^ 1) with 2. rewrite Zmod_odd, Z.bit0_odd. by destruct (Z.odd e).
Qed.
Lemma user_entry f : page f -> Z.lor (Z.lor (Z.lor f PAGE_PRESENT) PAGE_RW) PAGE_USER = f + 7.
Proof.
  intros Hf. rewrite <- !Z.lor_assoc. change (Z.lor PAGE_PRESENT (Z.lor PAGE_RW PAGE_USER)) with 7.
  by rewrite lor_flags by (done || lia).
Qed.
Lemma kernel_entry f : page f -> Z.lor (Z.lor f PAGE_PRESENT) PAGE_RW = f + 3.
Proof.
  intros Hf. rewrite <- Z.lor_assoc. change (Z.lor PAGE_PRESENT PAGE_RW) with 3.
  by rewrite lor_flags by (done || lia).
Qed.
Lemma zero_not_present : present 0 = false.
Proof. done. Qed.

Section Map.
Context (im : vmm_image).
Implicit Types (s : vm) (D : gset Z).
#[local] Abbreviation PD := (page_directory im).
#[local] Abbreviation FPT := (first_page_table im).
Hypothesis Him : image_ok im.

(** The slot [idx] of the directories [G] now holds [e]. *)
Lemma vm_ok_slot D s s' (G : Z -> bool) idx e : vm_ok im D s ->
  cr3 s' = cr3 s -> paging s' = paging s -> 1 <= idx < 1023 ->
  (forall d, G d = true -> isdir im D d) ->
  (forall d j, isdir im D d -> 0 <= j < 1024 ->
     entry s' d j = if G d && (j =? idx) then e else entry s d j) ->
  (forall j, 0 <= j < 1024 -> entry s' FPT j = entry s FPT j) ->
  present e = true -> page (frame_of e) -> frame_of e <> FPT -> ~ isdir im D (frame_of e) ->
  (frame_of e <> 0 -> forall d i, has_table im s D d i -> table_at s d i = frame_of e ->
     i = idx /\ (G d = true \/ 768 <= idx)) ->
  (forall d d', G d = true -> G d' = true -> d = d' \/ 768 <= idx) ->
  pmm_wf (vm_pmm s') -> page_used (vm_pmm s') (frame_of e / 4096) = true ->
  (forall j, page_used (vm_pmm s) j = true -> page_used (vm_pmm s') j = true) -> vm_ok im D s'.
Proof.
  intros [V1 V2 V3 V4 V5 V6 V7 V8 V9] Hc Hp Hidx HG HE HF Hpr Hpg HfF Hfd Hsh HGG Hwf Hu Humono.
  assert (Hcase : forall d i, has_table im s' D d i ->
    G d = true /\ i = idx /\ table_at s' d i = frame_of e \/
    has_table im s D d i /\ table_at s' d i = table_at s d i).
  { intros d i (Hd & Hi & Hpe). unfold has_table, table_at. rewrite HE in * by (done || lia).
    destruct (G d) eqn:HGd; cbn [andb] in *; [|by right].
    destruct (Z.eqb_spec i idx) as [->|]; [by left|by right]. }
  split; rewrite ?Hc, ?Hp; try done.
  - intros d Hd. destruct (V4 d Hd) as (? & ? & ? & ? & ?). rewrite !HE by (done || lia).
    rewrite !(proj2 (Z.eqb_neq _ idx)) by lia. by rewrite !andb_false_r.
  - intros i Hi. rewrite HF by done. by apply V5.
  - intros d i Ht. destruct (Hcase d i Ht) as [(_ & _ & ->)|[Ht' ->]]; [done|by apply V6].
  - intros d i d' j Ht Ht' Heq Hnz.
    destruct (Hcase d i Ht) as [(H1 & H2 & H3)|[H1 H2]], (Hcase d' j Ht') as [(H4 & H5 & H6)|[H4 H5]].
    + subst. split; [done|by apply HGG].
    + rewrite H3 in Hnz, Heq. rewrite H5 in Heq.
      destruct (Hsh Hnz d' j H4 (eq_sym Heq)) as [-> Hor]. subst i. split; [done|].
      destruct Hor as [Hgd|?]; [by apply HGG|by right].
    + rewrite H6 in Heq. rewrite Heq in Hnz. rewrite H2 in Heq.
      destruct (Hsh Hnz d i H1 Heq) as [-> Hor]. subst j. split; [done|].
      destruct Hor as [Hgd|?]; [by apply HGG|by right].
    + rewrite H2 in Heq, Hnz. rewrite H5 in Heq. by apply V7.
  - intros f [?|[?|[?|[?|(d & i & Ht & Hf)]]]];
      try (apply Humono, V9; unfold occupied; by auto 6).
    destruct (Hcase d i Ht) as [(_ & _ & H1)|[H1 H2]].
    + by rewrite <- Hf, H1.
    + apply Humono, V9. do 4 right. exists d, i. split; [done|congruence].
Qed.

(** A store to a slot of the active directory, through the last entry. *)
Lemma store_pd s i x : window im s -> 0 <= i < 1024 ->
  store s (u32 (current_pd + 4 * i)) x = Some (set_ram (write (ram s) (cr3 s + 4 * i) x) s).
Proof.
  intros Hw Hi. rewrite u32_small by (unfold current_pd; lia). unfold store.
  by rewrite (tr_pd im) by done.
Qed.
Lemma load_pd s i : window im s -> 0 <= i < 1024 ->
  load s (u32 (current_pd + 4 * i)) = Some (entry s (cr3 s) i).
Proof.
  intros Hw Hi. rewrite u32_small by (unfold current_pd; lia). unfold load.
  by rewrite (tr_pd im) by done.
Qed.
(** Access to the kernel's directory at its own address. *)
Lemma kernel_word i : 0 <= i < 1024 -> 0 <= PD + 4 * i < 4194304 /\ u32 (PD + 4 * i) = PD + 4 * i.
Proof.
  intros Hi. destruct (io_pd _ Him) as [Hp Hr]. assert (0 <= PD + 4 * i < 4194304).
  { unfold page in Hp. Z.to_euclidean_division_equations. lia. }
  split; [done|]. by rewrite u32_small by lia.
Qed.
Lemma store_kernel s i x : window im s -> 0 <= i < 1024 ->
  store s (u32 (PD + 4 * i)) x = Some (set_ram (write (ram s) (PD + 4 * i) x) s).
Proof.
  intros Hw Hi. destruct (kernel_word i Hi) as [Hr ->]. unfold store. by rewrite (tr_low im Him) by done.
Qed.
Lemma load_kernel s i : window im s -> 0 <= i < 1024 -> load s (u32 (PD + 4 * i)) = Some (entry s PD i).
Proof.
  intros Hw Hi. destruct (kernel_word i Hi) as [Hr ->]. unfold load. by rewrite (tr_low im Him) by done.
Qed.

Lemma page_table_window idx j : 0 <= idx < 1024 -> 0 <= j < 1024 ->
  u32 (page_table_of idx + 4 * j) = 0xFFC00000 + 4096 * idx + 4 * j.
Proof. intros. unfold page_table_of. rewrite window_base by done. rewrite u32_small; lia. Qed.

(** Where the slot of a new table shows. *)
Definition gets_table s virt d : bool := (d =? cr3 s) || ((0xC0000000 <=? virt) && (d =? PD)).

Lemma new_table_spec D s virt idx : vm_ok im D s -> 0 <= virt < 4294967296 -> dir_index virt = idx ->
  1 <= idx < 1023 -> present (entry s (cr3 s) idx) = false ->
  exists s' f, new_table im s virt idx = Some s' /\ vm_ok im D s' /\
    cr3 s' = cr3 s /\ pmm_alloc_page (vm_pmm s) = Some (f, vm_pmm s') /\
    page f /\ (f <> 0 -> ~ occupied im D s f) /\
    forall q j, page q -> 0 <= j < 1024 -> entry s' q j =
      if q =? f then 0 else if gets_table s virt q && (j =? idx) then f + 7 else entry s q j.
Proof.
  intros Hs Hv Hdi Hidx Habs. destruct (alloc_cases im D s Hs) as (f & pm & Ha & Hf).
  assert (Hpf : page f /\ (f <> 0 -> ~ occupied im D s f) /\ pmm_wf pm /\
    page_used pm (f / 4096) = true /\ (forall j, page_used (vm_pmm s) j = true -> page_used pm j = true)).
  { destruct Hf as [[-> ->]|(? & ? & ? & ? & ? & ?)]; [|by split].
    split; [done|]. split; [done|]. split; [apply Hs|]. split; [|done]. apply (vo_used _ _ _ Hs). by left. }
  clear Hf. destruct Hpf as (Hpg & Hocc & Hwf & Hused & Hmono).
  pose proof (vo_window im D s Hs) as Hw.
  assert (Hfd : forall d, isdir im D d -> f <> d).
  { intros d Hd ->. destruct (vo_dir _ _ _ Hs d Hd) as (_ & Hnz & _). apply Hocc; [done|].
    destruct Hd as [->|Hd]; [right; by left|do 3 right; by left]. }
  assert (HfF : f <> FPT).
  { intros ->. destruct (io_fpt _ Him) as [_ ?]. apply Hocc; [lia|]. do 2 right. by left. }
  pose proof (vo_cr3 _ _ _ Hs) as Hcd. destruct (vo_dir _ _ _ Hs _ Hcd) as (Hcp & Hc0 & HcF & _).
  pose proof (vo_pd_page im Him D s Hs) as HPp. destruct (io_fpt _ Him) as [HFp _].
  unfold new_table. rewrite Ha. cbn [mbind option_bind]. rewrite user_entry by done.
  set (s0 := set_vm_pmm pm s).
  assert (Hw0 : window im s0) by (destruct Hw; by split).
  rewrite store_pd by (done || lia). cbn [mbind option_bind]. cbn [cr3 s0 set_vm_pmm].
  set (s1 := set_ram _ s0).
  assert (E1 : forall q j, page q -> 0 <= j < 1024 ->
    entry s1 q j = if (q =? cr3 s) && (j =? idx) then f + 7 else entry s q j).
  { intros q j Hq Hj. unfold s1. rewrite entry_write by (done || lia).
    rewrite (Z.eqb_sym (cr3 s) q), (Z.eqb_sym idx j). done. }
  assert (Hw1 : window im s1).
  { apply (window_frame im s0 s1); try done.
    - rewrite E1 by (done || lia). by rewrite (proj2 (Z.eqb_neq 0 idx)), andb_false_r by lia.
    - rewrite E1 by (done || lia). by rewrite (proj2 (Z.eqb_neq 1023 idx)), andb_false_r by lia.
    - intros i Hi. rewrite E1 by done. by rewrite (proj2 (Z.eqb_neq FPT (cr3 s))) by done. }
  set (o2 := if 0xC0000000 <=? virt then _ else _).
  assert (exists s2, o2 = Some s2 /\ window im s2 /\ cr3 s2 = cr3 s /\ paging s2 = paging s /\ vm_pmm s2 = pm /\
    forall q j, page q -> 0 <= j < 1024 ->
      entry s2 q j = if gets_table s virt q && (j =? idx) then f + 7 else entry s q j)
    as (s2 & -> & Hw2 & Hc2 & Hp2 & Hm2 & E2).
  { unfold o2, gets_table. destruct (0xC0000000 <=? virt) eqn:Hhi.
    - rewrite store_kernel by (done || lia). eexists. split; [reflexivity|].
      assert (E2 : forall q j, page q -> 0 <= j < 1024 ->
        entry (set_ram (write (ram s1) (PD + 4 * idx) (f + 7)) s1) q j
        = if ((q =? cr3 s) || (true && (q =? PD))) && (j =? idx) then f + 7 else entry s q j).
      { intros q j Hq Hj. rewrite entry_write, E1 by (done || lia).
        rewrite (Z.eqb_sym PD q), (Z.eqb_sym idx j).
        destruct (q =? PD), (q =? cr3 s), (j =? idx); done. }
      split; [|by repeat split].
      apply (window_frame im s1); try done; cbn [cr3 set_ram s1 s0 set_vm_pmm].
      + rewrite E2, E1 by (done || lia). by rewrite (proj2 (Z.eqb_neq 0 idx)), !andb_false_r by lia.
      + rewrite E2, E1 by (done || lia). by rewrite (proj2 (Z.eqb_neq 1023 idx)), !andb_false_r by lia.
      + intros i Hi. rewrite E2, E1 by done. rewrite (proj2 (Z.eqb_neq FPT (cr3 s))) by done.
        by rewrite (proj2 (Z.eqb_neq FPT PD)) by (apply not_eq_sym, Him).
    - exists s1. split; [done|]. split; [done|]. do 3 (split; [done|]). intros q j Hq Hj.
      rewrite E1 by done. by rewrite orb_false_r. }
  cbn [mbind option_bind].
  assert (Hslot : entry s2 (cr3 s) idx = f + 7).
  { rewrite E2 by (done || lia). unfold gets_table. by rewrite !Z.eqb_refl. }
  assert (Hodd : present (f + 7) = true /\ frame_of (f + 7) = f).
  { by rewrite present_flags, frame_flags by (done || lia). }
  destruct Hodd as [Hpr Hfr].
  destruct (clear_table_spec im Him (page_table_of idx) f 1024 Hpg HfF s2 0) as (s3 & -> & Hsc & Hw3 & E3);
    try done; try lia.
  { rewrite Hc2. by apply Hfd. }
  { unfold page_table_of. rewrite window_base by lia. lia. }
  { unfold page_table_of. rewrite window_base by lia. lia. }
  { intros s' Hw' Hc' He' j Hj. unfold page_table_of. rewrite window_base by lia.
    rewrite (tr_table im); rewrite ?Hc', ?He', ?Hc2, ?Hslot, ?Hpr, ?Hfr; try done; lia. }
  destruct Hsc as (Hc3 & Hp3 & Hm3).
  assert (E : forall q j, page q -> 0 <= j < 1024 -> entry s3 q j =
      if q =? f then 0 else if gets_table s virt q && (j =? idx) then f + 7 else entry s q j).
  { intros q j Hq Hj. rewrite E3, E2 by done.
    rewrite (proj2 (Z.leb_le 0 j)), (proj2 (Z.ltb_lt j _)) by lia. by rewrite !andb_true_r. }
  exists s3, f. split; [done|]. split; [|rewrite Hm3, Hm2, Hc3; by repeat (split; [done|])].
  apply (vm_ok_slot D s s3 (gets_table s virt) idx (f + 7) Hs); rewrite ?Hfr, ?Hm3, ?Hm2; try done.
  - congruence.
  - congruence.
  - intros d. unfold gets_table. rewrite orb_true_iff, andb_true_iff, !Z.eqb_eq.
    intros [->|[_ ->]]; [done|by left].
  - intros d j Hd Hj. rewrite E by (done || by eapply vo_dir).
    by rewrite (proj2 (Z.eqb_neq d f)) by (apply not_eq_sym; by apply Hfd).
  - intros j Hj. rewrite E by done. rewrite (proj2 (Z.eqb_neq FPT f)) by done.
    unfold gets_table. rewrite (proj2 (Z.eqb_neq FPT (cr3 s))) by done.
    by rewrite (proj2 (Z.eqb_neq FPT PD)), andb_false_r by (apply not_eq_sym, Him).
  - intros Hd. by apply (Hfd f).
  - intros Hnz d i Ht Hta. exfalso. apply (Hocc Hnz). do 4 right. by exists d, i.
  - intros d d'. unfold gets_table. rewrite !orb_true_iff, !andb_true_iff, !Z.eqb_eq, !Z.leb_le.
    unfold dir_index in Hdi. intros [->|[Hhi ->]] [->|[Hhi' ->]]; [by left| | |by left]; right;
      Z.to_euclidean_division_equations; lia.
Qed.

(** ** vmm_map_page *)
Lemma map_entry phys flags : 0 <= phys < 4294967296 -> 0 <= flags < 4096 ->
  Z.lor (Z.land phys 0xFFFFF000) flags = frame_of phys + flags.
Proof.
  intros Hp Hf. rewrite land_frame by done. apply lor_flags; [by apply page_frame|done].
Qed.

(** The entries after a mapping: in the table [t] that was there, or in a
    fresh table. *)
Definition mapped_in s s' virt x : Prop :=
  present (entry s (cr3 s) (dir_index virt)) = true /\ vm_pmm s' = vm_pmm s /\
  forall q j, page q -> 0 <= j < 1024 -> entry s' q j =
    if (table_at s (cr3 s) (dir_index virt) =? q) && (table_index virt =? j) then x else entry s q j.
Definition mapped_fresh D s s' virt x t : Prop :=
  present (entry s (cr3 s) (dir_index virt)) = false /\
  pmm_alloc_page (vm_pmm s) = Some (t, vm_pmm s') /\ page t /\ (t <> 0 -> ~ occupied im D s t) /\
  forall q j, page q -> 0 <= j < 1024 -> entry s' q j =
    if q =? t then (if table_index virt =? j then x else 0)
    else if gets_table s virt q && (j =? dir_index virt) then t + 7 else entry s q j.

Lemma vmm_map_page_spec D s virt phys flags : vm_ok im D s -> 0 <= virt < 4294967296 ->
  1 <= dir_index virt < 1023 -> 0 <= phys < 4294967296 -> 0 <= flags < 4096 ->
  exists s', vmm_map_page im s virt phys flags = Some s' /\ vm_ok im D s' /\ cr3 s' = cr3 s /\
    (mapped_in s s' virt (frame_of phys + flags) \/
     exists t, mapped_fresh D s s' virt (frame_of phys + flags) t).
Proof.
  intros Hs Hv Hidx Hph Hfl. unfold vmm_map_page. rewrite shiftr_22, table_index_land, map_entry by done.
  set (i := dir_index virt) in *. set (j := table_index virt). set (x := frame_of phys + flags).
  pose proof (table_index_range virt) as Hj. fold j in Hj. pose proof (vo_cr3 _ _ _ Hs) as Hcd.
  rewrite load_pd by (lia || by eapply vo_window). cbn [mbind option_bind].
  rewrite page_table_window, land_present by (done || lia).
  destruct (present (entry s (cr3 s) i)) eqn:Hpr; cbn [negb].
  - cbn [mbind option_bind]. destruct (store_entry im Him D s (0xFFC00000 + 4096 * i + 4 * j) i j x Hs) as (s' & -> & Hok & (Hc & _ & Hm) & HE);
      [by split|done|reflexivity|].
    exists s'. split; [done|]. split; [done|]. split; [done|]. left. by split.
  - destruct (new_table_spec D s virt i Hs Hv eq_refl Hidx Hpr) as
      (s1 & t & -> & Hok1 & Hc1 & Ha & Hpt & Hocc & E1). cbn [mbind option_bind].
    assert (Hslot : entry s1 (cr3 s1) i = t + 7).
    { destruct (vo_dir _ _ _ Hs _ Hcd) as (Hcp & Hc0 & _). rewrite Hc1, E1 by (done || lia).
      assert (cr3 s <> t) as Hct.
      { intros <-. apply Hocc; [done|]. destruct Hcd as [->|Hd]; [right; by left|do 3 right; by left]. }
      rewrite (proj2 (Z.eqb_neq (cr3 s) t)) by done. unfold gets_table. by rewrite !Z.eqb_refl. }
    assert (Hht : has_table im s1 D (cr3 s1) i).
    { split; [rewrite Hc1; apply Hcd|]. split; [done|]. rewrite Hslot, present_flags by (done || lia). done. }
    assert (Hta : table_at s1 (cr3 s1) i = t).
    { unfold table_at. rewrite Hslot, frame_flags by (done || lia). done. }
    destruct (store_entry im Him D s1 (0xFFC00000 + 4096 * i + 4 * j) i j x Hok1 Hht Hj eq_refl) as (s' & -> & Hok & (Hc & _ & Hm) & HE).
    rewrite Hta in HE. exists s'. split; [done|]. split; [done|]. split; [congruence|].
    right. exists t. split; [done|]. split; [by rewrite Hm|]. split; [done|]. split; [done|].
    intros q k Hq Hk. rewrite HE, E1 by done. fold i j. rewrite (Z.eqb_sym t q).
    destruct (q =? t); cbn [andb]; [|done]. by destruct (j =? k).
Qed.

(** ** What addresses mean afterwards *)
Lemma same_page v w : 0 <= v < 4294967296 -> 0 <= w < 4294967296 ->
  dir_index v = dir_index w -> table_index v = table_index w -> v / 4096 = w / 4096.
Proof. unfold dir_index, table_index. intros. Z.to_euclidean_division_equations. lia. Qed.
Lemma page_indices v w : 0 <= v < 4294967296 -> 0 <= w < 4294967296 -> v / 4096 = w / 4096 ->
  dir_index v = dir_index w /\ table_index v = table_index w.
Proof. unfold dir_index, table_index. intros. Z.to_euclidean_division_equations. lia. Qed.

Lemma walk_entries s d v : walk_from (ram s) d v =
  if present (entry s d (dir_index v)) then
    let pte := entry s (table_at s d (dir_index v)) (table_index v) in
    if present pte then Some (frame_of pte + v mod 4096) else None
  else None.
Proof. done. Qed.
(** The walk depends on two words. *)
Lemma walk_same s s' d v : 
  entry s' d (dir_index v) = entry s d (dir_index v) ->
  (present (entry s d (dir_index v)) = true ->
   entry s' (table_at s d (dir_index v)) (table_index v) = entry s (table_at s d (dir_index v)) (table_index v)) ->
  walk_from (ram s') d v = walk_from (ram s) d v.
Proof.
  intros Hd Ht. rewrite !walk_entries. unfold table_at in *. rewrite Hd.
  destruct (present _); [|done]. by rewrite Ht.
Qed.

(** The kernel's directory has the heap table the active one lacks only when
    the two have fallen out of step. *)
Definition in_step s idx : Prop :=
  present (entry s PD idx) = true -> present (entry s (cr3 s) idx) = true.

(** In every directory that shows the slot the mapping went to. *)
Lemma mapped_walk D s s' virt phys flags d v : vm_ok im D s ->
  0 <= virt < 4294967296 -> 1 <= dir_index virt < 1023 -> 0 <= phys < 4294967296 -> 0 <= flags < 4096 ->
  Z.odd flags = true ->
  mapped_in s s' virt (frame_of phys + flags) \/
    (exists t, mapped_fresh D s s' virt (frame_of phys + flags) t) ->
  gets_table s virt d = true ->
  (present (entry s (cr3 s) (dir_index virt)) = true ->
   entry s d (dir_index virt) = entry s (cr3 s) (dir_index virt)) ->
  0 <= v < 4294967296 -> v / 4096 = virt / 4096 ->
  walk_from (ram s') d v = Some (frame_of phys + v mod 4096).
Proof.
  intros Hs Hv Hidx Hph Hfl Hodd Hmap Hg Hsame Hw Hpage.
  destruct (page_indices v virt Hw Hv Hpage) as [Hdi Hti].
  assert (Hd : isdir im D d).
  { unfold gets_table in Hg. rewrite orb_true_iff, andb_true_iff, !Z.eqb_eq in Hg.
    destruct Hg as [->|[_ ->]]; [by eapply vo_cr3|by left]. }
  destruct (vo_dir _ _ _ Hs _ Hd) as (Hdp & Hd0 & _). pose proof (vo_cr3 _ _ _ Hs) as Hcd.
  pose proof (table_index_range virt) as Htr.
  rewrite walk_entries, Hdi, Hti.
  assert (Hpf : page (frame_of phys)) by by apply page_frame.
  assert (Hfin : present (frame_of phys + flags) = true /\ frame_of (frame_of phys + flags) = frame_of phys)
    by (by rewrite present_flags, frame_flags by done).
  destruct Hfin as [Hfp Hff].
  destruct Hmap as [(Hpr & _ & E)|(t & Hpr & Ha & Hpt & Hocc & E)].
  - specialize (Hsame Hpr).
    destruct (vo_tables _ _ _ Hs (cr3 s) (dir_index virt)) as (Htp & _ & Htd); [by split|].
    set (t := table_at s (cr3 s) (dir_index virt)) in *.
    assert (Hdt : t <> d) by (intros Heq; apply Htd; by rewrite Heq).
    assert (He : entry s' d (dir_index virt) = entry s (cr3 s) (dir_index virt)).
    { rewrite E by (done || lia). by rewrite (proj2 (Z.eqb_neq t d)). }
    rewrite He, Hpr. replace (table_at s' d (dir_index virt)) with t by (unfold t, table_at; by rewrite He).
    cbv zeta. rewrite E by done. rewrite !Z.eqb_refl. cbn [andb]. by rewrite Hfp, Hff.
  - assert (Hdt : d <> t).
    { intros <-. apply Hocc; [done|]. destruct Hd as [->|Hd]; [right; by left|do 3 right; by left]. }
    assert (He : entry s' d (dir_index virt) = t + 7).
    { rewrite E by (done || lia). rewrite (proj2 (Z.eqb_neq d t)) by done. by rewrite Hg, Z.eqb_refl. }
    rewrite He, present_flags by (done || lia). change (Z.odd 7) with true. cbn match.
    replace (table_at s' d (dir_index virt)) with t
      by (unfold table_at; rewrite He, frame_flags by (done || lia); done).
    cbv zeta. rewrite E by done. rewrite !Z.eqb_refl. by rewrite Hfp, Hff.
Qed.

Lemma mapped_translates D s s' virt phys flags v : vm_ok im D s -> vm_ok im D s' -> cr3 s' = cr3 s ->
  0 <= virt < 4294967296 -> 1 <= dir_index virt < 1023 -> 0 <= phys < 4294967296 -> 0 <= flags < 4096 ->
  Z.odd flags = true ->
  mapped_in s s' virt (frame_of phys + flags) \/
    (exists t, mapped_fresh D s s' virt (frame_of phys + flags) t) ->
  0 <= v < 4294967296 -> v / 4096 = virt / 4096 -> translate s' v = Some (frame_of phys + v mod 4096).
Proof.
  intros Hs Hs' Hc Hv Hidx Hph Hfl Hodd Hmap Hw Hpage.
  rewrite (translate_walk im) by by eapply vo_window. rewrite Hc.
  apply (mapped_walk D s s' virt phys flags); try done. unfold gets_table. by rewrite Z.eqb_refl.
Qed.

Lemma mapped_others D s s' virt x d v : vm_ok im D s -> 0 <= virt < 4294967296 ->
  1 <= dir_index virt < 1023 ->
  (mapped_in s s' virt x /\ table_at s (cr3 s) (dir_index virt) <> 0 \/
   exists t, mapped_fresh D s s' virt x t /\ t <> 0) ->
  (0xC0000000 <= virt -> in_step s (dir_index virt)) ->
  isdir im D d -> 0 <= v < 0xFFC00000 -> v / 4096 <> virt / 4096 ->
  walk_from (ram s') d v = walk_from (ram s) d v.
Proof.
  intros Hs Hv Hidx Hmap Hstep Hd Hw Hpage.
  destruct (vo_dir _ _ _ Hs _ Hd) as (Hdp & Hd0 & HdF & Ed0 & _).
  pose proof (table_index_range v) as Htr. pose proof (vo_cr3 _ _ _ Hs) as Hcd.
  assert (Hdv : 0 <= dir_index v < 1023) by (unfold dir_index; Z.to_euclidean_division_equations; lia).
  destruct (io_fpt _ Him) as [HFp _].
  assert (Htab : present (entry s d (dir_index v)) = true ->
    page (table_at s d (dir_index v)) /\
    (dir_index v = 0 /\ table_at s d (dir_index v) = FPT \/ has_table im s D d (dir_index v))).
  { intros Hpr. destruct (decide (dir_index v = 0)) as [->|Hne].
    - unfold table_at. rewrite Ed0, frame_flags by (done || lia). split; [done|]. by left.
    - assert (Ht : has_table im s D d (dir_index v)) by (split; [done|]; split; [lia|done]).
      split; [by eapply vo_tables|by right]. }
  destruct Hmap as [((Hpr & _ & E) & Hnz)|(t & (Hpr & Ha & Hpt & Hocc & E) & Hnz)].
  - assert (Hht : has_table im s D (cr3 s) (dir_index virt)) by by split.
    destruct (vo_tables _ _ _ Hs _ _ Hht) as (Htp & HtF & Htd).
    set (t := table_at s (cr3 s) (dir_index virt)) in *. apply walk_same.
    + rewrite E by (done || lia). rewrite (proj2 (Z.eqb_neq t d)); [done|]. intros ->. done.
    + intros Hprv. destruct (Htab Hprv) as [Hqp Hor]. rewrite E by done.
      destruct (Z.eqb_spec t (table_at s d (dir_index v))) as [Heq|]; [|done].
      destruct (Z.eqb_spec (table_index virt) (table_index v)) as [Hti|]; [|done]. exfalso.
      destruct Hor as [[_ HF]|Hht']; [congruence|].
      destruct (vo_shared _ _ _ Hs _ _ _ _ Hht Hht') as [Hdi _]; [done|done|].
      apply Hpage. apply same_page; lia.
  - specialize (Hocc Hnz).
    assert (Hdt : d <> t).
    { intros ->. apply Hocc. destruct Hd as [->|Hd]; [right; by left|do 3 right; by left]. }
    destruct (gets_table s virt d && (dir_index v =? dir_index virt)) eqn:Hg.
    + (* the slot of the new table: nothing was mapped there *)
      apply andb_true_iff in Hg as [Hg Hdi]. pose proof Hdi as Hdi'. apply Z.eqb_eq in Hdi'.
      assert (Habs : present (entry s d (dir_index virt)) = false).
      { unfold gets_table in Hg. rewrite orb_true_iff, andb_true_iff, !Z.eqb_eq, Z.leb_le in Hg.
        destruct Hg as [->|[Hhi ->]]; [done|]. apply not_true_is_false. intros HP.
        rewrite (Hstep Hhi HP) in Hpr. done. }
      rewrite !walk_entries, Hdi', Habs.
      assert (He : entry s' d (dir_index virt) = t + 7).
      { rewrite E by (done || lia). rewrite (proj2 (Z.eqb_neq d t)) by done. by rewrite Hg, Z.eqb_refl. }
      rewrite He, present_flags by (done || lia). change (Z.odd 7) with true. cbn match.
      replace (table_at s' d (dir_index virt)) with t
        by (unfold table_at; rewrite He, frame_flags by (done || lia); done).
      cbv zeta. rewrite E by done. rewrite Z.eqb_refl.
      destruct (Z.eqb_spec (table_index virt) (table_index v)) as [Hti|]; [|done].
      exfalso. apply Hpage. apply same_page; lia.
    + assert (He : entry s' d (dir_index v) = entry s d (dir_index v)).
      { rewrite E by (done || lia). rewrite (proj2 (Z.eqb_neq d t)) by done. by rewrite Hg. }
      apply walk_same; [done|]. intros Hprv. destruct (Htab Hprv) as [Hqp Hor].
      assert (Hqt : table_at s d (dir_index v) <> t).
      { intros Heq. apply Hocc. destruct Hor as [[_ HF]|Hht]; [do 2 right; left; congruence|].
        do 4 right. by exists d, (dir_index v). }
      rewrite E by done. rewrite (proj2 (Z.eqb_neq _ t)) by done.
      assert (Hqg : gets_table s virt (table_at s d (dir_index v)) = false); [|by rewrite Hqg].
      assert (Hnd : ~ isdir im D (table_at s d (dir_index v))).
      { destruct Hor as [[_ ->]|Hht]; [|by eapply vo_tables]. intros Hx.
        by destruct (vo_dir _ _ _ Hs _ Hx) as (_ & _ & ? & _). }
      unfold gets_table. rewrite orb_false_iff, andb_false_iff, !Z.eqb_neq. split.
      * intros Heq. apply Hnd. by rewrite Heq.
      * right. intros Heq. apply Hnd. rewrite Heq. by left.
Qed.
End Map.
