(* ===== verification/VmmOps.v ===== *)
(** * Creating, repairing and starting page directories

    vmm_create_page_directory, vmm_unmap_page, the repair of the page fault
    handler and init_vmm over the invariant of [VmmInv]. *)
From S2P Require Import Prelude CString Pmm Paging PortIo Pic Vga Console Vmm VmmInv VmmMap.

Section Ops.
Context (im : vmm_image).
Implicit Types (s : vm) (D : gset Z).
#[local] Abbreviation PD := (page_directory im).
#[local] Abbreviation FPT := (first_page_table im).
Hypothesis Him : image_ok im.

(** ** vmm_create_page_directory *)
(** A frame below 4 MB, outside the tables the accesses go through. *)
Record low_frame s f : Prop := {
  lf_page : page f /\ f < 4194304;
  lf_apart : f <> PD /\ f <> FPT /\ f <> cr3 s;
}.
Lemma low_word f i : page f -> f < 4194304 -> 0 <= i < 1024 ->
  0 <= f + 4 * i < 4194304 /\ u32 (f + 4 * i) = f + 4 * i.
Proof.
  intros Hp Hl Hi. assert (0 <= f + 4 * i < 4194304).
  { unfold page in Hp. Z.to_euclidean_division_equations. lia. }
  split; [done|]. by rewrite u32_small by lia.
Qed.

(** One store into it. *)
Lemma store_low s f i x : window im s -> low_frame s f -> 0 <= i < 1024 ->
  exists s', store s (u32 (f + 4 * i)) x = Some s' /\ same_cpu s s' /\ window im s' /\
    forall q j, page q -> 0 <= j < 1024 ->
      entry s' q j = if (f =? q) && (i =? j) then x else entry s q j.
Proof.
  intros Hw [[Hp Hl] (HP & HF & Hc)] Hi. destruct (low_word f i Hp Hl Hi) as [Hr ->].
  unfold store. rewrite (tr_low im Him) by done. cbn [mbind option_bind]. eexists. split; [reflexivity|].
  assert (HE : forall q j, page q -> 0 <= j < 1024 ->
    entry (set_ram (write (ram s) (f + 4 * i) x) s) q j = if (f =? q) && (i =? j) then x else entry s q j).
  { intros. by apply entry_write. }
  split; [done|]. split; [|done]. pose proof Hw as [_ [Hcp _] _ _ _].
  apply (window_frame im s); try done.
  - rewrite HE by (done || lia). by rewrite (proj2 (Z.eqb_neq f (cr3 s))).
  - rewrite HE by (done || lia). by rewrite (proj2 (Z.eqb_neq f (cr3 s))).
  - intros k Hk. rewrite HE; [by rewrite (proj2 (Z.eqb_neq f FPT))|by destruct (io_fpt _ Him)|done].
Qed.
Lemma low_frame_kept s s' f : same_cpu s s' -> low_frame s f -> low_frame s' f.
Proof. intros (Hc & _ & _) [? (? & ? & ?)]. split; [done|]. by rewrite Hc. Qed.

Lemma copy_heap_spec f n : forall s i, window im s -> low_frame s f -> 0 <= i -> i + Z.of_nat n <= 1024 ->
  exists s', copy_heap im n s f i = Some s' /\ same_cpu s s' /\ window im s' /\
    forall q j, page q -> 0 <= j < 1024 -> entry s' q j =
      if (f =? q) && ((i <=? j) && (j <? i + Z.of_nat n) && present (entry s PD j))
      then entry s PD j else entry s q j.
Proof.
  destruct (io_pd _ Him) as [HPp _].
  induction n as [|n IH]; intros s i Hw Hf Hi Hn; cbn [copy_heap].
  { exists s. split; [done|]. split; [done|]. split; [done|]. intros q j _ Hj.
    destruct (Z.leb_spec i j), (Z.ltb_spec j (i + Z.of_nat 0)); rewrite ?andb_false_r; try done. lia. }
  rewrite (load_kernel im Him) by (done || lia). cbn [mbind option_bind]. rewrite land_present, negb_involutive.
  set (o := if present (entry s PD i) then _ else _).
  assert (exists s1, o = Some s1 /\ same_cpu s s1 /\ window im s1 /\
    forall q j, page q -> 0 <= j < 1024 -> entry s1 q j =
      if (f =? q) && ((i =? j) && present (entry s PD j)) then entry s PD j else entry s q j)
    as (s1 & -> & Hsc & Hw1 & E1).
  { unfold o. destruct (present (entry s PD i)) eqn:Hpr.
    - destruct (store_low s f i (entry s PD i) Hw Hf) as (s1 & -> & Hsc & Hw1 & E1); [lia|].
      exists s1. split; [done|]. split; [done|]. split; [done|]. intros q j Hq Hj. rewrite E1 by done.
      destruct (f =? q); [|done]. destruct (Z.eqb_spec i j) as [<-|]; [|done]. cbn [andb]. by rewrite Hpr.
    - exists s. split; [done|]. split; [done|]. split; [done|]. intros q j Hq Hj.
      destruct (f =? q); [|done]. destruct (Z.eqb_spec i j) as [<-|]; [|done]. cbn [andb]. by rewrite Hpr. }
  cbn [mbind option_bind]. pose proof Hf as [_ (HfP & _)].
  assert (EP : forall j, 0 <= j < 1024 -> entry s1 PD j = entry s PD j).
  { intros j Hj. rewrite E1 by done. by rewrite (proj2 (Z.eqb_neq f PD)). }
  destruct (IH s1 (i + 1)) as (s' & -> & Hsc' & Hw' & E'); [done|by eapply low_frame_kept|lia|lia|].
  exists s'. split; [done|]. split; [by eapply same_cpu_trans|]. split; [done|]. intros q j Hq Hj.
  rewrite E', EP, E1 by done. destruct (f =? q); cbn [andb]; [|done].
  destruct (Z.leb_spec (i + 1) j), (Z.ltb_spec j (i + 1 + Z.of_nat n)), (Z.leb_spec i j),
    (Z.ltb_spec j (i + Z.of_nat (S n))), (Z.eqb_spec i j); cbn [andb]; try done; try lia;
    by destruct (present (entry s PD j)).
Qed.

(** The words of a new directory. *)
Definition new_entry s f j : Z :=
  if j =? 0 then FPT + 7 else if j =? 1023 then f + 3
  else if (768 <=? j) && (j <? 896) && present (entry s PD j) then entry s PD j else 0.

Lemma create_directory_spec D s f pm : vm_ok im D s -> pmm_alloc_page (vm_pmm s) = Some (f, pm) ->
  f <> 0 -> f < 4194304 ->
  exists s', vmm_create_page_directory im s = Some (f, s') /\ vm_ok im ({[f]} ∪ D) s' /\
    cr3 s' = cr3 s /\ vm_pmm s' = pm /\ ~ occupied im D s f /\
    forall q j, page q -> 0 <= j < 1024 ->
      entry s' q j = if q =? f then new_entry s f j else entry s q j.
Proof.
  intros Hs Ha Hnz Hlow. destruct (fresh_page im D s f pm Hs Ha Hnz) as (Hpf & Hocc & Hwf & Hu & Hmono).
  pose proof (vo_cr3 _ _ _ Hs) as Hcd.
  assert (Hfd : forall d, isdir im D d -> f <> d).
  { intros d Hd ->. apply Hocc. destruct Hd as [->|Hd]; [right; by left|do 3 right; by left]. }
  assert (HfF : f <> FPT) by (intros ->; apply Hocc; do 2 right; by left).
  assert (HfP : f <> PD) by (apply Hfd; by left).
  set (s0 := set_vm_pmm pm s).
  assert (Hw0 : window im s0) by (destruct (vo_window _ _ _ Hs); by split).
  assert (Hl0 : low_frame s0 f) by (split; [done|]; repeat split; try done; by apply Hfd).
  unfold vmm_create_page_directory. rewrite Ha. cbn [mbind option_bind].
  rewrite (proj2 (Z.eqb_neq f 0)) by done. fold s0.
  destruct (clear_table_spec im Him f f 1024 Hpf HfF s0 0) as (s1 & -> & Hsc1 & Hw1 & E1);
    try done; try lia; [by apply Hl0|..].
  { unfold page in Hpf. lia. }
  { intros s' Hw' _ _ j Hj. apply (tr_low im Him); [done|]. by apply low_word. }
  cbn [mbind option_bind]. pose proof (low_frame_kept _ _ _ Hsc1 Hl0) as Hl1.
  destruct (io_pd _ Him) as [HPp _].
  replace (load s1 PD) with (load s1 (u32 (PD + 4 * 0)))
    by (f_equal; rewrite u32_small; unfold page in HPp; lia).
  rewrite (load_kernel im Him) by (done || lia). cbn [mbind option_bind].
  assert (E1P : entry s1 PD 0 = FPT + 7).
  { rewrite E1 by (done || lia). rewrite (proj2 (Z.eqb_neq PD f)) by done.
    apply (vo_dir _ _ _ Hs). by left. }
  rewrite E1P.
  replace (store s1 f (FPT + 7)) with (store s1 (u32 (f + 4 * 0)) (FPT + 7))
    by (f_equal; rewrite u32_small; unfold page in Hpf; lia).
  destruct (store_low s1 f 0 (FPT + 7) Hw1 Hl1) as (s2 & -> & Hsc2 & Hw2 & E2); [lia|].
  cbn [mbind option_bind]. pose proof (low_frame_kept _ _ _ Hsc2 Hl1) as Hl2.
  destruct (copy_heap_spec f 128 s2 768 Hw2 Hl2) as (s3 & -> & Hsc3 & Hw3 & E3); [lia|lia|].
  cbn [mbind option_bind]. pose proof (low_frame_kept _ _ _ Hsc3 Hl2) as Hl3.
  rewrite kernel_entry by done.
  destruct (store_low s3 f 1023 (f + 3) Hw3 Hl3) as (s4 & -> & Hsc4 & Hw4 & E4); [lia|].
  cbn [mbind option_bind].
  assert (EP : forall j, 0 <= j < 1024 -> entry s2 PD j = entry s PD j).
  { intros j Hj. rewrite E2, E1 by done. rewrite (proj2 (Z.eqb_neq f PD)) by done.
    by rewrite (proj2 (Z.eqb_neq PD f)) by done. }
  assert (E : forall q j, page q -> 0 <= j < 1024 ->
    entry s4 q j = if q =? f then new_entry s f j else entry s q j).
  { intros q j Hq Hj. rewrite E4, E3, EP, E2, E1 by done. rewrite (Z.eqb_sym f q). unfold new_entry.
    rewrite (Z.eqb_sym 1023 j), (Z.eqb_sym 0 j).
    change (768 + Z.of_nat 128) with 896.
    destruct (q =? f); cbn [andb]; [|done].
    destruct (Z.eqb_spec j 0) as [->|]; [done|]. destruct (j =? 1023); [done|].
    rewrite (proj2 (Z.leb_le 0 j)), (proj2 (Z.ltb_lt j (0 + Z.of_nat 1024))) by lia. done. }
  assert (Hcpu : cr3 s4 = cr3 s /\ paging s4 = paging s /\ vm_pmm s4 = pm).
  { destruct Hsc1 as (? & ? & ?), Hsc2 as (? & ? & ?), Hsc3 as (? & ? & ?), Hsc4 as (? & ? & ?).
    cbn in *. intuition congruence. }
  destruct Hcpu as (Hc4 & Hp4 & Hm4). exists s4. split; [done|]. split; [|done].
  (* the invariant *)
  pose proof Hs as [V1 V2 V3 V4 V5 V6 V7 V8 V9].
  assert (Hdirs : forall d, isdir im ({[f]} ∪ D) d <-> d = f \/ isdir im D d).
  { intros d. unfold isdir. rewrite elem_of_union, elem_of_singleton. tauto. }
  assert (Hold : forall d j, isdir im D d -> 0 <= j < 1024 -> entry s4 d j = entry s d j).
  { intros d j Hd Hj. rewrite E by (done || by apply V4).
    rewrite (proj2 (Z.eqb_neq d f)); [done|]. intros ->. by apply (Hfd f). }
  assert (Hcase : forall d i, has_table im s4 ({[f]} ∪ D) d i ->
    (d = f /\ 768 <= i /\ has_table im s D PD i /\ table_at s4 d i = table_at s PD i) \/
    (d <> f /\ has_table im s D d i /\ table_at s4 d i = table_at s d i)).
  { intros d i (Hd%Hdirs & Hi & Hpr). unfold table_at. destruct (decide (d = f)) as [->|Hdf].
    - left. rewrite E, Z.eqb_refl in * by (done || lia). unfold new_entry in *.
      rewrite (proj2 (Z.eqb_neq i 0)), (proj2 (Z.eqb_neq i 1023)) in * by lia.
      destruct ((768 <=? i) && (i <? 896) && present (entry s PD i)) eqn:Hb; [|done].
      split; [done|]. split; [lia|]. split; [|done]. split; [by left|]. split; [lia|].
      by apply andb_true_iff in Hb as [_ ?].
    - right. destruct Hd as [|Hd]; [done|]. rewrite Hold in * by (done || lia). by split. }
  split; rewrite ?Hc4, ?Hp4, ?Hm4; try done.
  - apply Hdirs. by right.
  - intros [HPf%elem_of_singleton|HP]%elem_of_union; [|done]. by apply HfP.
  - intros d [->|Hd]%Hdirs.
    + rewrite !E, Z.eqb_refl by (done || lia). done.
    + rewrite !Hold by (done || lia). by apply V4.
  - intros i Hi. destruct (io_fpt _ Him) as [HFp _]. rewrite E by done.
    rewrite (proj2 (Z.eqb_neq FPT f)) by done. by apply V5.
  - intros d i Ht. assert (exists d', has_table im s D d' i /\ table_at s4 d i = table_at s d' i)
      as (d' & Ht' & ->).
    { destruct (Hcase d i Ht) as [(_ & _ & ? & ?)|(_ & ? & ?)]; [by exists PD|by exists d]. }
    destruct (V6 d' i Ht') as (? & ? & Hnd). split; [done|]. split; [done|].
    intros [Hx|Hx]%Hdirs; [|done]. apply Hocc. do 4 right. by exists d', i.
  - intros d i d' j Ht Ht'. destruct (Hcase d i Ht) as [(-> & Hi & H1 & ->)|(Hdf & H1 & ->)],
      (Hcase d' j Ht') as [(-> & Hj & H2 & ->)|(Hdf' & H2 & ->)]; intros Heq Hnz0;
      destruct (V7 _ _ _ _ H1 H2 Heq Hnz0) as [-> Hor]; (split; [done|]);
      first [by left|by right|exact Hor].
  - intros x [?|[?|[?|[Hx|(d & i & Ht & Hx)]]]].
    + apply Hmono, V9. by left.
    + apply Hmono, V9. right. by left.
    + apply Hmono, V9. do 2 right. by left.
    + apply elem_of_union in Hx as [->%elem_of_singleton|Hx]; [done|]. apply Hmono, V9. do 3 right. by left.
    + apply Hmono, V9. do 4 right. destruct (Hcase d i Ht) as [(_ & _ & ? & ?)|(_ & ? & ?)];
        [exists PD, i|exists d, i]; (split; [done|congruence]).
Qed.

Lemma clear_table_S n s table i : clear_table (S n) s table i =
  (s ← store s (u32 (table + 4 * i)) 0; clear_table n s table (i + 1)).
Proof. done. Qed.
(** A frame the active directory does not map cannot be cleared. *)
Lemma create_directory_faults s f pm : pmm_alloc_page (vm_pmm s) = Some (f, pm) -> f <> 0 ->
  0 <= f < 4294967296 -> translate s f = None -> vmm_create_page_directory im s = None.
Proof.
  intros Ha Hnz Hr Ht. unfold vmm_create_page_directory. rewrite Ha. cbn [mbind option_bind].
  rewrite (proj2 (Z.eqb_neq f 0)) by done. change 1024%nat with (S 1023). rewrite clear_table_S.
  rewrite Z.mul_0_r, Z.add_0_r, (u32_small f) by lia.
  assert (store (set_vm_pmm pm s) f 0 = None) as ->; [|done]. unfold store.
  change (translate (set_vm_pmm pm s) f) with (translate s f). by rewrite Ht.
Qed.
Lemma create_directory_none s pm : pmm_alloc_page (vm_pmm s) = Some (0, pm) ->
  vmm_create_page_directory im s = Some (0, set_vm_pmm pm s).
Proof. intros Ha. unfold vmm_create_page_directory. by rewrite Ha. Qed.

(** ** The repair of the page fault handler *)
Lemma fault_repair_spec {W} `{Ports W} D s (v : vga W) buf cr2 error_code : vm_ok im D s ->
  0xC0000000 <= cr2 < 0xFFC00000 -> present (entry s PD (dir_index cr2)) = true ->
  exists s', page_fault_handler im s v buf cr2 error_code = Some (Resume s') /\ vm_ok im D s' /\
    cr3 s' = cr3 s /\ vm_pmm s' = vm_pmm s /\
    forall q j, page q -> 0 <= j < 1024 -> entry s' q j =
      if (q =? cr3 s) && (j =? dir_index cr2) then entry s PD (dir_index cr2) else entry s q j.
Proof.
  intros Hs Hr Hpr. set (idx := dir_index cr2) in *.
  assert (Hidx : 768 <= idx < 1023) by (unfold idx, dir_index; Z.to_euclidean_division_equations; lia).
  pose proof (vo_window _ _ _ Hs) as Hw. unfold page_fault_handler. rewrite shiftr_22. fold idx.
  rewrite (proj2 (Z.leb_le _ _)), (proj2 (Z.ltb_lt idx 1023)) by lia. cbn [andb].
  rewrite !(load_kernel im Him) by (done || lia). cbn [mbind option_bind].
  rewrite land_present, Hpr. cbn [negb].
  rewrite (store_pd im) by (done || lia). cbn [mbind option_bind].
  pose proof (vo_cr3 _ _ _ Hs) as Hcd. destruct (vo_dir _ _ _ Hs _ Hcd) as (Hcp & Hc0 & HcF & _).
  set (s' := set_ram _ s).
  assert (E : forall q j, page q -> 0 <= j < 1024 -> entry s' q j =
    if (q =? cr3 s) && (j =? idx) then entry s PD idx else entry s q j).
  { intros q j Hq Hj. unfold s'. rewrite entry_write by (done || lia).
    by rewrite (Z.eqb_sym (cr3 s) q), (Z.eqb_sym idx j). }
  assert (Ht : has_table im s D PD idx) by (split; [by left|]; split; [lia|done]).
  destruct (vo_tables _ _ _ Hs _ _ Ht) as (Htp & HtF & Htd).
  exists s'. split; [done|]. split; [|by repeat split].
  apply (vm_ok_slot im D s s' (fun d => d =? cr3 s) idx (entry s PD idx) Hs); try done; try lia.
  - intros d Hd%Z.eqb_eq. by rewrite Hd.
  - intros d j Hd Hj. apply E; [by eapply vo_dir|done].
  - intros j Hj. rewrite E; [|apply Him|done]. by rewrite (proj2 (Z.eqb_neq FPT (cr3 s))).
  - intros Hnz d i Ht' Heq. destruct (vo_shared _ _ _ Hs _ _ _ _ Ht' Ht Heq) as [-> _].
    + by rewrite Heq.
    + split; [done|]. right. lia.
  - apply Hs.
  - apply (vo_used _ _ _ Hs). do 4 right. by exists PD, idx.
Qed.

(** ** vmm_unmap_page *)
Lemma unmap_spec D s virt : vm_ok im D s -> 0 <= virt < 4294967296 -> 1 <= dir_index virt < 1023 ->
  exists s', vmm_unmap_page s virt = Some s' /\ vm_ok im D s' /\ same_cpu s s' /\
    if present (entry s (cr3 s) (dir_index virt)) then
      forall q j, page q -> 0 <= j < 1024 -> entry s' q j =
        if (table_at s (cr3 s) (dir_index virt) =? q) && (table_index virt =? j) then 0 else entry s q j
    else s' = s.
Proof.
  intros Hs Hv Hidx. unfold vmm_unmap_page. rewrite shiftr_22, table_index_land.
  pose proof (table_index_range virt) as Hj.
  rewrite (load_pd im) by (lia || by eapply vo_window). cbn [mbind option_bind].
  rewrite page_table_window, land_present by (done || lia).
  destruct (present (entry s (cr3 s) (dir_index virt))) eqn:Hpr; cbn [negb].
  - destruct (store_entry im Him D s (0xFFC00000 + 4096 * dir_index virt + 4 * table_index virt)
      (dir_index virt) (table_index virt) 0 Hs) as (s' & -> & Hok & Hsc & HE); [|done|reflexivity|].
    + split; [apply Hs|by split].
    + by exists s'.
  - exists s. split; [done|]. split; [done|]. by split.
Qed.

(** ** vmm_switch_page_directory *)
Lemma switch_ok D s d : vm_ok im D s -> isdir im D d -> vm_ok im D (vmm_switch_page_directory s d).
Proof. intros [V1 V2 V3 V4 V5 V6 V7 V8 V9] Hd. by split. Qed.

(** ** init_vmm: paging is off, addresses are physical *)
Lemma store_off s p i x : paging s = false -> page p -> 0 <= i < 1024 ->
  store s (u32 (p + 4 * i)) x = Some (set_ram (write (ram s) (p + 4 * i) x) s).
Proof.
  intros Hpg Hp Hi. pose proof (page_add_range p i Hp Hi). rewrite u32_small by done.
  unfold store, translate. by rewrite Hpg.
Qed.
Lemma clear_off n : forall s p i, paging s = false -> page p -> 0 <= i -> i + Z.of_nat n <= 1024 ->
  exists s', clear_table n s p i = Some s' /\ same_cpu s s' /\
    forall q j, page q -> 0 <= j < 1024 -> entry s' q j =
      if (p =? q) && (i <=? j) && (j <? i + Z.of_nat n) then 0 else entry s q j.
Proof.
  induction n as [|n IH]; intros s p i Hpg Hp Hi Hn; cbn [clear_table].
  { exists s. split; [done|]. split; [done|]. intros q j _ Hj.
    destruct (Z.leb_spec i j), (Z.ltb_spec j (i + Z.of_nat 0)); rewrite ?andb_false_r; try done. lia. }
  rewrite store_off by (done || lia). cbn [mbind option_bind]. set (s1 := set_ram _ s).
  destruct (IH s1 p (i + 1)) as (s' & -> & Hsc & E); [done|done|lia|lia|].
  exists s'. split; [done|]. split; [done|]. intros q j Hq Hj. rewrite E by done. unfold s1.
  rewrite entry_write by (done || lia). destruct (p =? q); cbn [andb]; [|done].
  destruct (Z.leb_spec (i + 1) j), (Z.ltb_spec j (i + 1 + Z.of_nat n)), (Z.leb_spec i j),
    (Z.ltb_spec j (i + Z.of_nat (S n))), (Z.eqb_spec i j); cbn [andb]; try done; lia.
Qed.
Lemma fill_off n : forall s i, paging s = false -> 0 <= i -> i + Z.of_nat n <= 1024 ->
  exists s', fill_first im n s i = Some s' /\ same_cpu s s' /\
    forall q j, page q -> 0 <= j < 1024 -> entry s' q j =
      if (FPT =? q) && (i <=? j) && (j <? i + Z.of_nat n) then 4096 * j + 7 else entry s q j.
Proof.
  destruct (io_fpt _ Him) as [HF _].
  induction n as [|n IH]; intros s i Hpg Hi Hn; cbn [fill_first].
  { exists s. split; [done|]. split; [done|]. intros q j _ Hj.
    destruct (Z.leb_spec i j), (Z.ltb_spec j (i + Z.of_nat 0)); rewrite ?andb_false_r; try done. lia. }
  rewrite (u32_small (i * 0x1000)) by lia.
  rewrite user_entry by (unfold page; split; [lia|]; by apply Z.mod_mul).
  rewrite store_off by (done || lia). cbn [mbind option_bind]. set (s1 := set_ram _ s).
  destruct (IH s1 (i + 1)) as (s' & -> & Hsc & E); [done|lia|lia|].
  exists s'. split; [done|]. split; [done|]. intros q j Hq Hj. rewrite E by done. unfold s1.
  rewrite entry_write by (done || lia). destruct (FPT =? q); cbn [andb]; [|done].
  destruct (Z.leb_spec (i + 1) j), (Z.ltb_spec j (i + 1 + Z.of_nat n)), (Z.leb_spec i j),
    (Z.ltb_spec j (i + Z.of_nat (S n))), (Z.eqb_spec i j); cbn [andb]; try done; lia.
Qed.

Lemma init_vmm_spec s : paging s = false -> pmm_wf (vm_pmm s) ->
  page_used (vm_pmm s) 0 = true -> page_used (vm_pmm s) (PD / 4096) = true ->
  page_used (vm_pmm s) (FPT / 4096) = true ->
  exists s', init_vmm im s = Some s' /\ vm_ok im ∅ s' /\ cr3 s' = PD /\ vm_pmm s' = vm_pmm s /\
    forall q j, page q -> 0 <= j < 1024 -> entry s' q j =
      if q =? FPT then 4096 * j + 7
      else if q =? PD then (if j =? 0 then FPT + 7 else if j =? 1023 then PD + 3 else 0)
      else entry s q j.
Proof.
  intros Hpg Hwf U0 UP UF. destruct (io_pd _ Him) as [HP HPr], (io_fpt _ Him) as [HF HFr].
  pose proof (io_ne _ Him) as Hne. unfold init_vmm.
  destruct (clear_off 1024 s PD 0 Hpg HP) as (s1 & -> & (H1a & H1b & H1c) & E1); [lia|lia|].
  cbn [mbind option_bind]. rewrite user_entry, kernel_entry by done.
  replace (store s1 PD (FPT + 7)) with (store s1 (u32 (PD + 4 * 0)) (FPT + 7))
    by (f_equal; rewrite u32_small; unfold page in HP; lia).
  rewrite store_off by (congruence || done || lia). cbn [mbind option_bind]. set (s2 := set_ram _ s1).
  rewrite store_off by (try done; try lia; cbn; congruence). cbn [mbind option_bind]. set (s3 := set_ram _ s2).
  destruct (fill_off 1024 s3 0) as (s4 & -> & (H4a & H4b & H4c) & E4); [cbn; congruence|lia|lia|].
  cbn [mbind option_bind]. set (s5 := set_paging _ _).
  assert (E : forall q j, page q -> 0 <= j < 1024 -> entry s5 q j =
      if q =? FPT then 4096 * j + 7
      else if q =? PD then (if j =? 0 then FPT + 7 else if j =? 1023 then PD + 3 else 0)
      else entry s q j).
  { intros q j Hq Hj. change (entry s5 q j) with (entry s4 q j). rewrite E4 by done.
    unfold s3, s2. rewrite !entry_write, E1 by (done || lia).
    rewrite (Z.eqb_sym FPT q), (Z.eqb_sym PD q), (Z.eqb_sym 1023 j), (Z.eqb_sym 0 j).
    rewrite (proj2 (Z.leb_le 0 j)), (proj2 (Z.ltb_lt j (0 + Z.of_nat 1024))) by (clear - Hj; lia). rewrite !andb_true_r.
    destruct (q =? FPT); [done|]. destruct (q =? PD); cbn [andb]; [|done].
    destruct (Z.eqb_spec j 1023) as [->|]; [done|]. by destruct (j =? 0). }
  exists s5. split; [done|]. cbn [cr3 vm_pmm s5 set_paging set_cr3].
  assert (Hm : vm_pmm s4 = vm_pmm s) by (cbn in H4c; congruence).
  split; [|by repeat split].
  assert (EP : forall j, 0 <= j < 1024 -> entry s5 PD j =
    if j =? 0 then FPT + 7 else if j =? 1023 then PD + 3 else 0).
  { intros j Hj. rewrite E by done. by rewrite (proj2 (Z.eqb_neq PD FPT)), Z.eqb_refl by done. }
  assert (Hno : forall d i, ~ has_table im s5 ∅ d i).
  { intros d i ([->|Hd] & Hi & Hpr); [|by apply elem_of_empty in Hd].
    rewrite EP in Hpr by (clear - Hi; lia).
    rewrite (proj2 (Z.eqb_neq i 0)), (proj2 (Z.eqb_neq i 1023)) in Hpr by (clear - Hi; lia). done. }
  split; cbn [paging cr3 vm_pmm s5 set_paging set_cr3]; rewrite ?Hm; try done.
  - by left.
  - intros d [->|Hd]; [|by apply elem_of_empty in Hd]. rewrite !EP by (clear; lia).
    split; [done|]. split; [clear - HPr Hpg; lia|]. by split.
  - intros i Hi. rewrite E by done. by rewrite Z.eqb_refl.
  - intros d i Ht. by apply Hno in Ht.
  - intros d i d' j Ht. by apply Hno in Ht.
  - intros f [->|[->|[->|[Hf|(d & i & Ht & _)]]]]; try done; by apply Hno in Ht.
Qed.
End Ops.
