(* ===== verification/VmmProps.v ===== *)
(** * What the virtual memory manager promises

    Mapping a page, making a directory, repairing a fault and starting paging,
    in terms of where addresses lead. *)
From S2P Require Import Prelude CString Pmm Paging PortIo Pic Vga Console Vmm VmmInv VmmMap VmmOps.

(** ** The report of an unexpected fault *)
Section Report.
Context {W : Type} `{CrtcLaws W}.
Implicit Types (v : vga W).

Definition report_head : list Z :=
  (newline :: codes "========================================" ++ [newline]) ++
  (codes " [KERNEL PANIC] PAGE FAULT EXCEPTION!" ++ [newline]) ++
  (codes "========================================" ++ [newline]) ++
  codes "Faulting Virtual Address: 0x".
Definition report_tail (error_code : Z) : list Z :=
  [newline] ++ (codes "Error Code Details:" ++ [newline]) ++
  ((if Z.land error_code 0x1 =? 0
    then codes "  - Cause       : Super/Non-present page (Page not present in RAM)"
    else codes "  - Cause       : Page-protection violation") ++ [newline]) ++
  ((if Z.land error_code 0x2 =? 0
    then codes "  - Access Type : Read operation"
    else codes "  - Access Type : Write operation") ++ [newline]) ++
  ((if Z.land error_code 0x4 =? 0
    then codes "  - Privilege   : Kernel-mode (Ring 0)"
    else codes "  - Privilege   : User-mode (Ring 3)") ++ [newline]) ++
  (codes "System halted." ++ [newline]).

Lemma fault_report_spec v buf cr2 error_code : vga_wf v -> (8 < length buf)%nat -> 0 <= cr2 < 4294967296 ->
  exists v' ds, fault_report v buf cr2 error_code = Some v' /\ digits_of 16 cr2 ds /\
    shows (set_text_color v VGA_COLOR_LIGHT_RED VGA_COLOR_BLACK)
      (report_head ++ ds ++ report_tail error_code) v'.
Proof.
  intros Hv Hb Hc. unfold fault_report.
  set (v0 := set_text_color v VGA_COLOR_LIGHT_RED VGA_COLOR_BLACK).
  assert (Hv0 : vga_wf v0) by (destruct Hv; by split).
  pose proof (shows_refl v0 Hv0) as Hsh. cbv zeta. unfold lit.
  do 4 print_step. number_step 8%nat ds Hdig. do 5 print_step.
  match goal with Hs : shows v0 _ ?v |- context [print_string ?v (cbuf ?s)] =>
    destruct (print_plain v s (sh_wf _ _ _ Hs)) as (v' & -> & Hl); [vm_compute; reflexivity|];
    pose proof (shows_app _ _ _ _ _ Hs Hl) as Hall end.
  exists v', ds. split; [done|]. split; [done|]. revert Hall. unfold report_head, report_tail.
  rewrite <- !app_assoc. cbn [app]. done.
Qed.
End Report.

Section Props.
Context (im : vmm_image).
Implicit Types (s : vm) (D : gset Z).
#[local] Abbreviation PD := (page_directory im).


Lemma user_or_heap virt : 0x400000 <= virt < 0xFFC00000 -> 1 <= dir_index virt < 1023.
Proof. unfold dir_index. intros. Z.to_euclidean_division_equations. lia. Qed.


(** C26. vmm_create_page_directory answers 0 when memory is exhausted; on a frame below
    4 MB it makes a directory that maps the first 4 MB to themselves, the heap
    as the kernel's directory does and nothing in between, and leaves every
    other directory alone; on a frame the active directory does not map, the
    first store faults. *)
Theorem vmm_create_page_directory_correct D s f pm :
  image_ok im -> vm_ok im D s -> pmm_alloc_page (vm_pmm s) = Some (f, pm) ->
  (f = 0 -> vmm_create_page_directory im s = Some (0, set_vm_pmm pm s)) /\
  (f <> 0 -> translate s f = None -> vmm_create_page_directory im s = None) /\
  (f <> 0 -> f < 0x400000 ->
   exists s', vmm_create_page_directory im s = Some (f, s') /\ vm_ok im ({[f]} ∪ D) s' /\
     cr3 s' = cr3 s /\ ~ isdir im D f /\
     (forall v, 0 <= v < 0x400000 -> walk_from (ram s') f v = Some v) /\
     (forall v, 0x400000 <= v < 0xC0000000 -> walk_from (ram s') f v = None) /\
     (forall v, 0xC0000000 <= v < 0xE0000000 -> walk_from (ram s') f v = walk_from (ram s) PD v) /\
     forall d v, isdir im D d -> 0 <= v < 0xFFC00000 -> walk_from (ram s') d v = walk_from (ram s) d v).
Proof.
  intros Him Hs Ha. split; [intros ->; by apply create_directory_none|]. split.
  { intros Hnz Ht. destruct (fresh_page im D s f pm Hs Ha Hnz) as ([Hr _] & _).
    by eapply create_directory_faults. }
  intros Hnz Hlow. destruct (create_directory_spec im Him D s f pm Hs Ha Hnz Hlow) as
    (s' & Hcr & Hok & Hc & _ & Hocc & E).
  destruct (fresh_page im D s f pm Hs Ha Hnz) as (Hpf & _).
  assert (Hnd : ~ isdir im D f).
  { intros Hd. apply Hocc. destruct Hd as [->|Hd]; [right; by left|do 3 right; by left]. }
  assert (Hkeep : forall d v, isdir im D d -> 0 <= v < 0xFFC00000 ->
    walk_from (ram s') d v = walk_from (ram s) d v /\
    (present (entry s d (dir_index v)) = true -> table_at s d (dir_index v) <> f)).
  { intros d v Hd Hv. destruct (vo_dir _ _ _ Hs d Hd) as (Hdp & _ & _ & E0 & _).
    assert (Hi : 0 <= dir_index v < 1023) by (unfold dir_index; Z.to_euclidean_division_equations; lia).
    pose proof (table_index_range v) as Hj. destruct (io_fpt _ Him) as [HFp _].
    assert (Hdf : d <> f) by (intros ->; done).
    assert (Hne : present (entry s d (dir_index v)) = true -> table_at s d (dir_index v) <> f /\
      page (table_at s d (dir_index v))).
    { intros Hpr. destruct (decide (dir_index v = 0)) as [Hz|Hz].
      - unfold table_at. rewrite Hz, E0, frame_flags by (done || lia). split; [|done].
        intros Hx. apply Hocc. do 2 right. left. congruence.
      - assert (Ht : has_table im s D d (dir_index v)) by (split; [done|split; [lia|done]]).
        split; [|by eapply vo_tables]. intros Hx. apply Hocc. do 4 right. by exists d, (dir_index v). }
    split; [|intros Hpr; by apply Hne]. apply walk_same.
    - rewrite E by (done || lia). by rewrite (proj2 (Z.eqb_neq d f)).
    - intros Hpr. destruct (Hne Hpr) as [Htf Htp]. rewrite E by done. by rewrite (proj2 (Z.eqb_neq _ f)). }
  exists s'. split; [done|]. split; [done|]. split; [done|]. split; [done|].
  assert (Ef : forall j, 0 <= j < 1024 -> entry s' f j = new_entry im s f j).
  { intros j Hj. rewrite E by done. by rewrite Z.eqb_refl. }
  split; [|split; [|split]].
  - intros v Hv. apply (walk_low im Him s'); [done| |apply Hok|done]. by rewrite Ef by lia.
  - intros v Hv. rewrite walk_entries.
    assert (1 <= dir_index v < 768) by (unfold dir_index; Z.to_euclidean_division_equations; lia).
    rewrite Ef by lia. unfold new_entry.
    rewrite (proj2 (Z.eqb_neq (dir_index v) 0)), (proj2 (Z.eqb_neq (dir_index v) 1023)) by lia.
    by rewrite (proj2 (Z.leb_gt 768 (dir_index v))) by lia.
  - intros v Hv. assert (768 <= dir_index v < 896) by (unfold dir_index; Z.to_euclidean_division_equations; lia).
    assert (Hk : isdir im D PD) by by left. destruct (Hkeep PD v Hk ltac:(lia)) as [_ Htf].
    rewrite !walk_entries. unfold table_at. rewrite Ef by lia. unfold new_entry.
    rewrite (proj2 (Z.eqb_neq (dir_index v) 0)), (proj2 (Z.eqb_neq (dir_index v) 1023)) by lia.
    rewrite (proj2 (Z.leb_le 768 (dir_index v))), (proj2 (Z.ltb_lt (dir_index v) 896)) by lia. cbn [andb].
    destruct (present (entry s PD (dir_index v))) eqn:Hpr; [|done]. rewrite Hpr.
    assert (Ht : has_table im s D PD (dir_index v)) by (split; [by left|split; [lia|done]]).
    destruct (vo_tables _ _ _ Hs _ _ Ht) as (Htp & _). pose proof (table_index_range v).
    fold (table_at s PD (dir_index v)). rewrite E by done.
    by rewrite (proj2 (Z.eqb_neq _ f)) by by apply Htf.
  - intros d v Hd Hv. by apply Hkeep.
Qed.

(** The repair copies the kernel's slot into the active directory. *)
Lemma page_fault_repaired {W} `{CrtcLaws W} D s (v : vga W) buf cr2 error_code :
  image_ok im -> vm_ok im D s ->
  0xC0000000 <= cr2 < 0xFFC00000 -> present (entry s PD (dir_index cr2)) = true ->
  exists s', page_fault_handler im s v buf cr2 error_code = Some (Resume s') /\ vm_ok im D s' /\
    cr3 s' = cr3 s /\
    (forall a, 0 <= a < 4294967296 -> dir_index a = dir_index cr2 ->
       translate s' a = walk_from (ram s) PD a) /\
    forall d a, isdir im D d -> 0 <= a < 0xFFC00000 -> d <> cr3 s \/ dir_index a <> dir_index cr2 ->
      walk_from (ram s') d a = walk_from (ram s) d a.
Proof.
  intros Him Hs Hk Hpr. destruct (fault_repair_spec im Him D s v buf cr2 error_code Hs Hk Hpr) as
    (s' & -> & Hok & Hc & _ & E).
  assert (Hidx : 768 <= dir_index cr2 < 1023) by (unfold dir_index; Z.to_euclidean_division_equations; lia).
  assert (Ht : has_table im s D PD (dir_index cr2)) by (split; [by left|split; [lia|done]]).
  destruct (vo_tables _ _ _ Hs _ _ Ht) as (Htp & HtF & Htd).
  destruct (vo_dir _ _ _ Hs _ (vo_cr3 _ _ _ Hs)) as (Hcp & _).
  exists s'. split; [done|]. split; [done|]. split; [done|]. split.
  - intros a Ha Hdi. rewrite (translate_walk im) by by eapply vo_window. rewrite Hc, !walk_entries, Hdi.
    pose proof (table_index_range a). unfold table_at in *.
    assert (He : entry s' (cr3 s) (dir_index cr2) = entry s PD (dir_index cr2)).
    { rewrite E by (done || lia). by rewrite !Z.eqb_refl. }
    rewrite He, Hpr. cbv zeta. rewrite E by done.
    rewrite (proj2 (Z.eqb_neq _ (cr3 s))); [done|]. intros Hx. apply Htd. rewrite Hx. apply Hs.
  - intros d a Hd Ha Hor. destruct (vo_dir _ _ _ Hs d Hd) as (Hdp & _ & _ & E0 & _).
    assert (Hi : 0 <= dir_index a < 1023) by (unfold dir_index; Z.to_euclidean_division_equations; lia).
    pose proof (table_index_range a). apply walk_same.
    + rewrite E by (done || lia).
      destruct Hor; [by rewrite (proj2 (Z.eqb_neq d _))|by rewrite (proj2 (Z.eqb_neq (dir_index a) _)), andb_false_r].
    + intros Hpa. destruct (io_fpt _ Him) as [HFp _].
      assert (Hta : page (table_at s d (dir_index a)) /\ ~ isdir im D (table_at s d (dir_index a))).
      { destruct (decide (dir_index a = 0)) as [Hz|Hz].
        * unfold table_at. rewrite Hz, E0, frame_flags by (done || lia). split; [done|].
          intros Hx. by destruct (vo_dir _ _ _ Hs _ Hx) as (_ & _ & ? & _).
        * assert (Hta : has_table im s D d (dir_index a)) by (split; [done|split; [lia|done]]).
          destruct (vo_tables _ _ _ Hs _ _ Hta) as (? & _ & ?). by split. }
      destruct Hta as [Htap Htad]. rewrite E by done.
      rewrite (proj2 (Z.eqb_neq _ (cr3 s))); [done|]. intros Hx. apply Htad. rewrite Hx. apply Hs.
Qed.
(** Where the kernel has a table but no page, the access faults as before. *)
Lemma page_fault_handler_faults_again {W} `{CrtcLaws W} D s (v : vga W) buf cr2 error_code :
  image_ok im -> vm_ok im D s ->
  0xC0000000 <= cr2 < 0xFFC00000 -> present (entry s PD (dir_index cr2)) = true ->
  walk_from (ram s) PD cr2 = None ->
  exists s', page_fault_handler im s v buf cr2 error_code = Some (Resume s') /\ translate s' cr2 = None.
Proof.
  intros Him Hs Hk Hpr Hno.
  destruct (page_fault_repaired D s v buf cr2 error_code Him Hs Hk Hpr) as (s' & Hrun & _ & _ & Htr & _).
  exists s'. split; [done|]. rewrite Htr; [done|lia|done].
Qed.

(** C27. A page fault at an address of the kernel's half whose 4 MB slot the kernel's
    directory has a table for is answered by copying that slot into the active
    directory and returning without a word on the console, whatever the page
    and the error code: afterwards every address of the slot
    leads where it leads in the kernel's directory (to nothing, when the kernel
    has no page there: the access then faults again,
    [page_fault_handler_faults_again]) and no other address
    changes.  Every other fault is reported, with the address in hexadecimal, and
    the machine halts. *)
Theorem page_fault_handler_correct {W} `{CrtcLaws W} D s (v : vga W) buf cr2 error_code :
  image_ok im -> vm_ok im D s -> vga_wf v -> (8 < length buf)%nat -> 0 <= cr2 < 4294967296 ->
  (0xC0000000 <= cr2 < 0xFFC00000 -> present (entry s PD (dir_index cr2)) = true ->
   exists s', page_fault_handler im s v buf cr2 error_code = Some (Resume s') /\ vm_ok im D s' /\
     cr3 s' = cr3 s /\
     (forall a, 0 <= a < 4294967296 -> dir_index a = dir_index cr2 ->
        translate s' a = walk_from (ram s) PD a) /\
     forall d a, isdir im D d -> 0 <= a < 0xFFC00000 -> d <> cr3 s \/ dir_index a <> dir_index cr2 ->
       walk_from (ram s') d a = walk_from (ram s) d a) /\
  (cr2 < 0xC0000000 \/ 0xFFC00000 <= cr2 \/ present (entry s PD (dir_index cr2)) = false ->
   exists v' ds, page_fault_handler im s v buf cr2 error_code = Some (Halted v') /\ digits_of 16 cr2 ds /\
     shows (set_text_color v VGA_COLOR_LIGHT_RED VGA_COLOR_BLACK)
       (report_head ++ ds ++ report_tail error_code) v').
Proof.
  intros Him Hs Hv Hb Hr. split.
  - intros Hk Hpr. by apply page_fault_repaired.
  - intros Hor. destruct (fault_report_spec v buf cr2 error_code Hv Hb Hr) as (v' & ds & Hrep & Hds & Hsh).
    exists v', ds. split; [|done]. unfold page_fault_handler. rewrite shiftr_22, Hrep. cbn [mbind option_bind].
    destruct ((0xC0000000 <=? cr2) && (dir_index cr2 <? 1023)) eqn:Hin; [|done].
    apply andb_true_iff in Hin as [H1%Z.leb_le H2%Z.ltb_lt].
    assert (Hlt : cr2 < 0xFFC00000) by (unfold dir_index in H2; Z.to_euclidean_division_equations; lia).
    assert (Hidx : 768 <= dir_index cr2) by (unfold dir_index; Z.to_euclidean_division_equations; lia).
    rewrite (load_kernel im Him) by (lia || by eapply vo_window). cbn [mbind option_bind].
    rewrite land_present. destruct Hor as [?|[?|Habs]]; [lia|lia|]. by rewrite Habs.
Qed.

(** init_vmm turns paging on with the first 4 MB mapped to themselves and nothing
    else but the window on the tables, and establishes the invariant. *)
Theorem init_vmm_identity s :
  image_ok im -> paging s = false -> pmm_wf (vm_pmm s) -> page_used (vm_pmm s) 0 = true ->
  page_used (vm_pmm s) (PD / 4096) = true -> page_used (vm_pmm s) (first_page_table im / 4096) = true ->
  exists s', init_vmm im s = Some s' /\ vm_ok im ∅ s' /\ cr3 s' = PD /\
    (forall v, 0 <= v < 0x400000 -> translate s' v = Some v) /\
    forall v, 0x400000 <= v < 0xFFC00000 -> translate s' v = None.
Proof.
  intros Him Hpg Hwf U0 UP UF. destruct (init_vmm_spec im Him s Hpg Hwf U0 UP UF) as
    (s' & -> & Hok & Hc & _ & E). exists s'. split; [done|]. split; [done|]. split; [done|].
  pose proof (vo_window _ _ _ Hok) as Hw. split; [intros v Hv; by apply (tr_low im Him)|].
  intros v Hv. rewrite (translate_walk im) by done. rewrite Hc, walk_entries.
  pose proof (user_or_heap v Hv). destruct (io_pd _ Him) as [HP _]. rewrite E by (done || lia).
  rewrite (proj2 (Z.eqb_neq PD (first_page_table im))), Z.eqb_refl by apply Him.
  by rewrite (proj2 (Z.eqb_neq (dir_index v) 0)), (proj2 (Z.eqb_neq (dir_index v) 1023)) by lia.
Qed.

(** C40. vmm_map_page looks for a page table in the active directory only.  When the
    kernel's directory already has one for a heap address and the active one
    does not, it makes a second table and stores it in both: every other page
    of those 4 MB that the kernel had mapped is lost. *)
Theorem map_page_drops_heap_table D s virt phys flags f pm v :
  image_ok im -> vm_ok im D s -> 0xC0000000 <= virt < 0xFFC00000 -> 0 <= phys < 4294967296 ->
  0 <= flags < 4096 -> cr3 s <> PD -> present (entry s (cr3 s) (dir_index virt)) = false ->
  present (entry s PD (dir_index virt)) = true ->
  pmm_alloc_page (vm_pmm s) = Some (f, pm) -> f <> 0 ->
  0 <= v < 4294967296 -> dir_index v = dir_index virt -> v / 4096 <> virt / 4096 ->
  exists s', vmm_map_page im s virt phys flags = Some s' /\
    walk_from (ram s') PD v = None /\ translate s' v = None.
Proof.
  intros Him Hs Hv Hph Hfl Hne Habs Hpr Ha Hnz Hvr Hdi Hpage.
  pose proof (user_or_heap virt ltac:(lia)) as Hidx.
  destruct (vmm_map_page_spec im Him D s virt phys flags Hs ltac:(lia) Hidx Hph Hfl) as
    (s' & Hmap & Hok & Hc & Hcase). exists s'. split; [done|].
  destruct Hcase as [[Hp _]|(t & _ & Ha' & Hpt & Hocc & E)]; [congruence|].
  assert (t = f) as -> by congruence. specialize (Hocc Hnz).
  assert (Hgone : forall d, isdir im D d -> gets_table im s virt d = true -> walk_from (ram s') d v = None).
  { intros d Hd Hg. destruct (vo_dir _ _ _ Hs d Hd) as (Hdp & _).
    assert (Hdf : d <> f).
    { intros ->. apply Hocc. destruct Hd as [->|Hd]; [right; by left|do 3 right; by left]. }
    assert (He : entry s' d (dir_index virt) = f + 7).
    { rewrite E by (done || lia). rewrite (proj2 (Z.eqb_neq d f)) by done. by rewrite Hg, Z.eqb_refl. }
    rewrite walk_entries, Hdi. unfold table_at. rewrite He, present_flags, frame_flags by (done || lia).
    change (Z.odd 7) with true. cbv zeta. cbn match. rewrite E by (done || apply table_index_range).
    rewrite Z.eqb_refl. destruct (Z.eqb_spec (table_index virt) (table_index v)) as [Hti|]; [|done].
    exfalso. apply Hpage. apply same_page; lia. }
  split.
  - apply Hgone; [by left|]. unfold gets_table. rewrite (proj2 (Z.leb_le _ virt)) by lia.
    by rewrite Z.eqb_refl, orb_true_r.
  - rewrite (translate_walk im) by by eapply vo_window. rewrite Hc. apply Hgone; [apply Hs|].
    unfold gets_table. by rewrite Z.eqb_refl.
Qed.
End Props.

(** ** On an 8 MB machine *)
Import Crtc.
Definition demo_image : vmm_image := mk_image 0x110000 0x111000.
Lemma demo_image_ok : image_ok demo_image.
Proof. by repeat split. Qed.
Definition boot_vm : vm := mk_vm (fun _ => 0) 0 false demo_pmm.

Lemma demo_pages : page_used demo_pmm 0 = true /\ page_used demo_pmm 0x110 = true /\
  page_used demo_pmm 0x111 = true.
Proof. repeat split; vm_compute; reflexivity. Qed.
Definition pmm_after (p : pmm) : pmm := default p (snd <$> pmm_alloc_page p).
Lemma alloc_first : pmm_alloc_page demo_pmm = Some (0x125000, pmm_after demo_pmm).
Proof. apply (option_pair_eta _ 0x125000). vm_compute. reflexivity. Qed.
Lemma alloc_second : pmm_alloc_page (pmm_after demo_pmm)
  = Some (0x126000, pmm_after (pmm_after demo_pmm)).
Proof. apply (option_pair_eta _ 0x126000). vm_compute. reflexivity. Qed.
Lemma alloc_third : pmm_alloc_page (pmm_after (pmm_after demo_pmm))
  = Some (0x127000, pmm_after (pmm_after (pmm_after demo_pmm))).
Proof. apply (option_pair_eta _ 0x127000). vm_compute. reflexivity. Qed.

Lemma init_vmm_identity_witness : exists s', init_vmm demo_image boot_vm = Some s' /\
  translate s' 0xB8000 = Some 0xB8000.
Proof.
  destruct demo_pages as (U0 & U1 & U2).
  destruct (init_vmm_identity demo_image boot_vm demo_image_ok eq_refl (pmm_wfb_sound _ demo_wfb) U0 U1 U2)
    as (s' & Hi & _ & _ & Hid & _).
  exists s'. split; [exact Hi|]. apply Hid. lia.
Defined.

(** Paging on, nothing mapped above 4 MB. *)
Lemma demo_vm : exists s, vm_ok demo_image ∅ s /\ cr3 s = 0x110000 /\ vm_pmm s = demo_pmm /\
  forall i, 1 <= i < 1023 -> entry s 0x110000 i = 0.
Proof.
  destruct demo_pages as (U0 & U1 & U2).
  destruct (init_vmm_spec demo_image demo_image_ok boot_vm eq_refl (pmm_wfb_sound _ demo_wfb) U0 U1 U2)
    as (s' & _ & Hok & Hc & Hm & E).
  exists s'. split; [exact Hok|]. split; [exact Hc|]. split; [exact Hm|]. intros i Hi.
  rewrite E; [|apply demo_image_ok|lia]. cbn [page_directory first_page_table demo_image].
  rewrite (proj2 (Z.eqb_neq i 0)), (proj2 (Z.eqb_neq i 1023)) by lia. reflexivity.
Qed.


Lemma vmm_create_page_directory_correct_witness : exists s s', 
  vmm_create_page_directory demo_image s = Some (0x125000, s') /\
  walk_from (ram s') 0x125000 0xB8000 = Some 0xB8000.
Proof.
  destruct demo_vm as (s & Hok & Hc & Hm & E).
  destruct (vmm_create_page_directory_correct demo_image ∅ s 0x125000 (pmm_after demo_pmm) demo_image_ok Hok)
    as (_ & _ & Hcr); [rewrite Hm; exact alloc_first|].
  destruct Hcr as (s' & Hc' & _ & _ & _ & Hlow & _); [lia|lia|].
  exists s, s'. split; [exact Hc'|]. apply Hlow. lia.
Defined.

Lemma demo_frames : page 0x110000 /\ page 0x125000.
Proof. by repeat split. Qed.
Lemma demo_isdir : isdir demo_image ({[0x125000]} ∪ ∅) 0x125000.
Proof. right. set_solver. Qed.
(** A directory made before the heap had its first table, then that table; the
    new directory is active and lacks it. *)
Lemma demo_behind : exists s, vm_ok demo_image ({[0x125000]} ∪ ∅) s /\ cr3 s = 0x125000 /\
  vm_pmm s = pmm_after (pmm_after demo_pmm) /\
  present (entry s 0x110000 768) = true /\ present (entry s 0x125000 768) = false /\
  walk_from (ram s) 0x110000 0xC0000004 = Some 0x200004.
Proof.
  destruct demo_vm as (s0 & Hok0 & Hc0 & Hm0 & E0).
  destruct (create_directory_spec demo_image demo_image_ok ∅ s0 0x125000 (pmm_after demo_pmm) Hok0) as
    (s1 & _ & Hok1 & Hc1 & Hm1 & _ & E1); [rewrite Hm0; exact alloc_first|lia|lia|].
  assert (Hk1 : entry s1 0x110000 768 = 0) by (rewrite E1; [apply E0; lia|apply demo_frames|lia]).
  assert (Hu1 : entry s1 0x125000 768 = 0).
  { rewrite E1; [|apply demo_frames|lia]. unfold new_entry. change (page_directory demo_image) with 0x110000.
    rewrite E0 by lia. reflexivity. }
  destruct (vmm_map_page_spec demo_image demo_image_ok _ s1 0xC0000000 0x200000 3 Hok1) as
    (s2 & Hmap2 & Hok2 & Hc2 & Hcase); [lia|by split|lia|lia|].
  assert (Hcr1 : cr3 s1 = 0x110000) by congruence.
  assert (Hwalk : translate s2 0xC0000004 = Some 0x200004).
  { apply (mapped_translates demo_image _ s1 s2 0xC0000000 0x200000 3 0xC0000004 Hok1 Hok2 Hc2); (lia || by split || reflexivity || exact Hcase). }
  destruct Hcase as [[Hp _]|(t & _ & Ha & _ & _ & E2)].
  { rewrite Hcr1 in Hp. change (dir_index 0xC0000000) with 768 in Hp. rewrite Hk1 in Hp. discriminate Hp. }
  rewrite Hm1, alloc_second in Ha. apply (inj Some), pair_equal_spec in Ha as [<- Hm2].
  exists (vmm_switch_page_directory s2 0x125000).
  split; [exact (switch_ok demo_image _ s2 0x125000 Hok2 demo_isdir)|]. split; [reflexivity|].
  split; [exact (eq_sym Hm2)|]. change (ram (vmm_switch_page_directory s2 0x125000)) with (ram s2).
  change (entry (vmm_switch_page_directory s2 0x125000)) with (entry s2). split; [|split].
  - rewrite E2; [|apply demo_frames|lia]. unfold gets_table. rewrite Hcr1. reflexivity.
  - rewrite E2; [|apply demo_frames|lia]. unfold gets_table. rewrite Hcr1, Hu1. reflexivity.
  - rewrite (translate_walk demo_image) in Hwalk by (by eapply vo_window). rewrite Hc2, Hcr1 in Hwalk.
    exact Hwalk.
Qed.

(** Both answers: the heap page the active directory lacks is repaired, a
    fault on user memory halts the machine. *)
Lemma page_fault_handler_correct_witness : exists s,
  (translate s 0xC0000004 = None /\
   exists s', page_fault_handler demo_image s demo_screen (replicate 32 0) 0xC0000004 0 = Some (Resume s') /\
     translate s' 0xC0000004 = Some 0x200004) /\
  exists v', page_fault_handler demo_image s demo_screen (replicate 32 0) 0x500000 2 = Some (Halted v').
Proof.
  destruct demo_behind as (s & Hok & Hc & _ & Hk & Hu & Hw). exists s. split; [split|].
  - rewrite (translate_walk demo_image) by (by eapply vo_window).
    rewrite walk_entries, Hc. change (dir_index 0xC0000004) with 768. by rewrite Hu.
  - destruct (page_fault_handler_correct demo_image _ s demo_screen (replicate 32 0) 0xC0000004 0 demo_image_ok
      Hok demo_screen_wf) as [Hfix _]; [simpl; lia|lia|].
    destruct (Hfix ltac:(lia) Hk) as (s' & Hrun & _ & _ & Htr & _). exists s'. split; [exact Hrun|].
    rewrite Htr; [exact Hw|lia|reflexivity].
  - destruct (page_fault_handler_correct demo_image _ s demo_screen (replicate 32 0) 0x500000 2 demo_image_ok
      Hok demo_screen_wf) as [_ Hhalt]; [simpl; lia|lia|].
    destruct Hhalt as (v' & _ & Hrun & _); [left; lia|]. by exists v'.
Defined.

(** A page mapped from the directory that is behind. *)
Lemma map_page_drops_heap_table_witness : exists s s', 
  vmm_map_page demo_image s 0xC0001000 0x300000 3 = Some s' /\
  walk_from (ram s) 0x110000 0xC0000004 = Some 0x200004 /\ walk_from (ram s') 0x110000 0xC0000004 = None.
Proof.
  destruct demo_behind as (s & Hok & Hc & Hm & Hk & Hu & Hw).
  destruct (map_page_drops_heap_table demo_image _ s 0xC0001000 0x300000 3 0x127000
    (pmm_after (pmm_after (pmm_after demo_pmm))) 0xC0000004 demo_image_ok Hok) as (s4 & Hmap & Hnone & _);
    [lia|lia|lia|..|lia|lia|reflexivity|discriminate|].
  - rewrite Hc. discriminate.
  - rewrite Hc. change (dir_index 0xC0001000) with 768. exact Hu.
  - exact Hk.
  - rewrite Hm. exact alloc_third.
  - exists s, s4. split; [exact Hmap|]. split; [exact Hw|exact Hnone].
Defined.
