(* ===== verification/Memory.v ===== *)
(** * What the task layer needs of the memory managers

    [kmalloc]/[kfree] of mm/heap.cpp (the interface [Allocator]), the pages of
    mm/pmm.cpp and the page directories of mm/vmm.cpp, as one interface with
    its laws, and a small instance on which the definitions run. *)
From S2P Require Import Prelude Heap Allocator.

Class Memory (E : Type) := {
  memory_allocator :: Allocator E;
  pmm_alloc_op : E -> option (Z * E);                 (* 0 when exhausted *)
  pmm_free_op : E -> Z -> option E;
  vmm_kernel_op : E -> Z;                             (* vmm_get_kernel_page_directory *)
  vmm_create_op : E -> option (Z * E);
  vmm_switch_op : E -> Z -> E;
  vmm_map_op : E -> Z -> Z -> Z -> option E;
  memcpy_op : E -> Z -> list Z -> option E;  (* through the active directory *)
}.

(** The pages handed out to tasks, by what they are used for. *)
Inductive held := StackPage (p : Z) | Directory (p : Z).
#[export] Instance held_eq_dec : EqDecision held.
Proof. solve_decision. Defined.
#[export] Instance held_countable : Countable held.
Proof.
  refine (inj_countable' (fun h => match h with StackPage p => (false, p) | Directory p => (true, p) end)
    (fun x => if fst x : bool then Directory (snd x) else StackPage (snd x)) _). by intros [].
Defined.

(** [holds P act e m]: the memory managers are in a legal state, the heap
    blocks in use are [m], the pages handed out to tasks are [P] and [act] is
    the active page directory.  A directory for which there was no memory is 0;
    [vmm_create_op] need not return, since it may fault. *)
Class MemoryOk (E : Type) `{Memory E} := {
  memory_alloc_ok : gset held -> Z -> AllocatorOk E;
  holds (P : gset held) (act : Z) : E -> gmap Z Z -> Prop := @allocated E _ (memory_alloc_ok P act);
  base : Z;     (* below every heap block *)
  memory_base : forall P act, @heap_base _ _ (memory_alloc_ok P act) = base;
  pmm_alloc_law : forall P act e m, holds P act e m ->
    exists p e', pmm_alloc_op e = Some (p, e') /\
      (p = 0 /\ holds P act e' m \/ p <> 0 /\ StackPage p ∉ P /\ holds ({[StackPage p]} ∪ P) act e' m);
  stack_free_law : forall P act e m p, holds P act e m -> StackPage p ∈ P ->
    exists e', pmm_free_op e p = Some e' /\ holds (P ∖ {[StackPage p]}) act e' m;
  dir_free_law : forall P act e m p, holds P act e m -> Directory p ∈ P -> p <> act ->
    exists e', pmm_free_op e p = Some e' /\ holds (P ∖ {[Directory p]}) act e' m;
  kernel_dir : Z;
  kernel_dir_law : forall P act e m, holds P act e m ->
    vmm_kernel_op e = kernel_dir /\ Directory kernel_dir ∉ P;
  vmm_switch_law : forall P act e m d, holds P act e m -> Directory d ∈ P \/ d = kernel_dir ->
    holds P d (vmm_switch_op e d) m;
  vmm_create_law : forall P act e m d e', holds P act e m -> vmm_create_op e = Some (d, e') ->
    d = 0 /\ holds P act e' m \/ d <> 0 /\ Directory d ∉ P /\ holds ({[Directory d]} ∪ P) act e' m;
  vmm_map_law : forall P act e m va p, holds P act e m -> Directory act ∈ P ->
    0x40000000 <= va < 0xC0000000 -> StackPage p ∈ P ->
    exists e', vmm_map_op e va p 7 = Some e' /\ holds P act e' m;
}.

Section Laws.
Context {E : Type} `{MemoryOk E}.
Implicit Types (e : E) (P : gset held).

Lemma holds_kmalloc P act e m n : holds P act e m -> 0 < n <= 0xFFFFFFFC ->
  exists p e' m', kmalloc_op e n = Some (p, e') /\ holds P act e' m' /\
    (p = 0 /\ m' = m \/
     exists sz, 0 < p < 4294967296 /\ m !! p = None /\ n <= sz /\ m' = <[p := sz]> m).
Proof. apply (@kmalloc_law _ _ (memory_alloc_ok P act)). Qed.
Lemma holds_kfree P act e m p sz : holds P act e m -> m !! p = Some sz ->
  exists e', kfree_op e p = Some e' /\ holds P act e' (delete p m).
Proof. apply (@kfree_law _ _ (memory_alloc_ok P act)). Qed.
Lemma holds_range P act e m p sz : holds P act e m -> m !! p = Some sz ->
  base <= p /\ 0 <= sz /\ p + sz < 4294967296.
Proof. rewrite <- (memory_base P act). apply (@allocated_range _ _ (memory_alloc_ok P act)). Qed.
Lemma holds_disjoint P act e m p q sp sq : holds P act e m -> m !! p = Some sp ->
  m !! q = Some sq -> p < q -> p + sp <= q.
Proof. apply (@allocated_disjoint _ _ (memory_alloc_ok P act)). Qed.
End Laws.

(** ** A bump allocator of blocks and pages *)
Module Arena.
Record t : Type := mk_arena { brk : Z; page_brk : Z; cr3 : Z }.
Definition BRK_MIN : Z := 0x8000.
Definition BRK_MAX : Z := 0x10000.
Definition PAGE_MAX : Z := 0x100000.
(** The kernel's directory. *)
Definition KERNEL_DIR : Z := 0x1000.

Definition malloc (a : t) (n : Z) : option (Z * t) :=
  if (0 <? n) && (brk a + n <=? BRK_MAX) then Some (brk a, mk_arena (brk a + n) (page_brk a) (cr3 a))
  else Some (0, a).
Definition page (a : t) : option (Z * t) :=
  if page_brk a + 4096 <=? PAGE_MAX
  then Some (page_brk a, mk_arena (brk a) (page_brk a + 4096) (cr3 a)) else Some (0, a).
#[export] Instance arena_allocator : Allocator t :=
  { kmalloc_op := malloc; kfree_op a _ := Some a }.
#[export] Instance arena_memory : Memory t := {
  pmm_alloc_op := page; pmm_free_op a _ := Some a; vmm_kernel_op _ := KERNEL_DIR;
  vmm_create_op := page; vmm_switch_op a d := mk_arena (brk a) (page_brk a) d;
  vmm_map_op a _ _ _ := Some a; memcpy_op a _ _ := Some a;
}.

Definition page_no (h : held) : Z := match h with StackPage p | Directory p => p end.
Record arena_holds (P : gset held) (act : Z) (a : t) (m : gmap Z Z) : Prop := {
  ah_brk : BRK_MIN <= brk a <= BRK_MAX;
  ah_page : KERNEL_DIR < page_brk a <= PAGE_MAX;
  ah_pages : forall h, h ∈ P -> KERNEL_DIR < page_no h < page_brk a;
  ah_act : cr3 a = act /\ act < page_brk a;
  ah_blocks : forall p s, m !! p = Some s -> BRK_MIN <= p /\ 0 < s /\ p + s <= brk a;
  ah_disjoint : forall p q sp sq, m !! p = Some sp -> m !! q = Some sq -> p < q -> p + sp <= q;
}.

#[export] Instance arena_allocator_ok (P : gset held) (act : Z) : AllocatorOk t.
Proof.
  refine {| allocated := arena_holds P act; heap_base := BRK_MIN |}.
  - intros a m n [Hb Hp HP Ha Hm Hd] Hn. simpl. unfold malloc. rewrite (proj2 (Z.ltb_lt 0 n)) by lia. cbn [andb]. destruct (Z.leb_spec (brk a + n) BRK_MAX).
    2:{ exists 0, a, m. split; [done|]. split; [done|by left]. }
    eexists _, _, (<[brk a := n]> m). split; [reflexivity|].
    assert (Hfresh : m !! brk a = None).
    { destruct (m !! brk a) eqn:E; [|done]. specialize (Hm _ _ E). lia. }
    split.
    + split; simpl; try done; try lia.
      * intros p s [[<- <-]|[_ E]]%lookup_insert_Some; [lia|]. specialize (Hm _ _ E). lia.
      * intros p q sp sq [[<- <-]|[_ E]]%lookup_insert_Some [[<- <-]|[_ E']]%lookup_insert_Some Hlt;
          [lia| | |by eapply Hd].
        -- specialize (Hm _ _ E'). lia.
        -- specialize (Hm _ _ E). lia.
    + right. exists n. unfold BRK_MAX, BRK_MIN in *. split; [lia|]. by split.
  - intros a m p sz [Hb Hp HP Ha Hm Hd] _. exists a. split; [done|]. split; try done.
    + intros q s [_ E]%lookup_delete_Some. by apply Hm.
    + intros q r sq sr [_ E]%lookup_delete_Some [_ E']%lookup_delete_Some. by eapply Hd.
  - done.
  - done.
  - intros a m p sz Ha E. pose proof (ah_blocks _ _ _ _ Ha _ _ E). pose proof (ah_brk _ _ _ _ Ha).
    unfold BRK_MAX in *. lia.
  - intros a m p q sp sq Ha. apply (ah_disjoint _ _ _ _ Ha).
Defined.

Lemma arena_page P act a m : arena_holds P act a m -> exists p a', page a = Some (p, a') /\
  (p = 0 /\ arena_holds P act a' m \/
   p <> 0 /\ (forall h, h ∈ P -> page_no h <> p) /\
   forall h, page_no h = p -> arena_holds ({[h]} ∪ P) act a' m).
Proof.
  intros [Hb Hp HP Ha Hm Hd]. unfold page.
  destruct (Z.leb_spec (page_brk a + 4096) PAGE_MAX); eexists _, _; (split; [reflexivity|]).
  - right. unfold KERNEL_DIR in *. split; [lia|]. split; [intros h Hh; specialize (HP h Hh); lia|].
    intros h Hh. split; simpl; unfold KERNEL_DIR; try done; try lia.
    intros x [->%elem_of_singleton|Hx]%elem_of_union; [lia|]. specialize (HP x Hx). lia.
  - by left.
Qed.
Lemma arena_less P act a m h : arena_holds P act a m -> arena_holds (P ∖ {[h]}) act a m.
Proof. intros [Hb Hp HP Ha Hm Hd]. split; try done. intros q Hq. apply HP. set_solver. Qed.

#[export] Instance arena_memory_ok : MemoryOk t.
Proof.
  refine {| memory_alloc_ok := arena_allocator_ok; base := BRK_MIN; kernel_dir := KERNEL_DIR |}.
  - done.
  - intros P act a m Hh. destruct (arena_page P act a m Hh) as (p & a' & Hp & Hcase).
    exists p, a'. split; [exact Hp|]. destruct Hcase as [?|(Hnz & Hf & Ha)]; [by left|right].
    split; [done|]. split; [|by apply Ha]. intros Hx. by apply (Hf _ Hx).
  - intros P act a m p Hh _. exists a. split; [done|]. by apply arena_less.
  - intros P act a m p Hh _ _. exists a. split; [done|]. by apply arena_less.
  - intros P act a m [Hb Hp HP Ha Hm Hd]. split; [done|]. intros Hx. specialize (HP _ Hx). simpl in HP. lia.
  - intros P act a m d [Hb Hp HP Ha Hm Hd] Hdir. split; try done. simpl. split; [done|].
    destruct Hdir as [Hx| ->]; [by apply (HP _ Hx)|]. lia.
  - intros P act a m d a' Hh Heq. destruct (arena_page P act a m Hh) as (p & a1 & Hp & Hcase).
    simpl in Heq. rewrite Hp in Heq. injection Heq as <- <-.
    destruct Hcase as [?|(Hnz & Hf & Ha)]; [by left|right].
    split; [done|]. split; [|by apply Ha]. intros Hx. by apply (Hf _ Hx).
  - intros P act a m va p Hh _ _ _. by exists a.
Defined.
End Arena.
