(* ===== verification/Machine.v ===== *)
(** * The memory managers together

    mm/heap.cpp over mm/vmm.cpp over mm/pmm.cpp: the heap's pages come from the
    frame allocator and are mapped through the active page directory.  This
    discharges [PageProviderOk], which the heap's theorems rest on, and
    [MemoryOk], which the scheduler's rest on, for machines of at most 1 GB:
    there, no frame number is a mapped user address. *)
From S2P Require Import Prelude CString Pmm Heap Allocator Paging Vmm VmmInv VmmMap VmmOps Memory.

Section Machine.
Context (im : vmm_image).
Implicit Types (s : vm) (D : gset Z) (P : gset held).
#[local] Abbreviation PD := (page_directory im).

(** ** The calls *)
Definition vm_alloc_page s : option (Z * vm) :=
  '(p, pm) ← pmm_alloc_page (vm_pmm s); Some (p, set_vm_pmm pm s).
Definition vm_free_page s (p : Z) : option vm :=
  pm ← pmm_free_page (vm_pmm s) p; Some (set_vm_pmm pm s).
#[export] Instance vm_provider : PageProvider vm :=
  { provide_page := vm_alloc_page; map_page := vmm_map_page im }.

(** The byte at [v], in the word that holds it. *)
Definition store_byte s (v b : Z) : option vm :=
  p ← translate s v;
  let w := p / 4 * 4 in
  let k := 256 ^ (p mod 4) in
  let old := ram s w in
  Some (set_ram (write (ram s) w (old - (old / k) mod 256 * k + u8 b * k)) s).
(** The [for] loop of [memcpy], into the active address space. *)
Fixpoint copy_bytes s (dest : Z) (src : list Z) : option vm :=
  match src with
  | [] => Some s
  | b :: src' => s ← store_byte s (u32 dest) b; copy_bytes s (dest + 1) src'
  end.

#[export] Instance machine_memory : Memory (heap vm) := {
  memory_allocator := heap_allocator;
  pmm_alloc_op h := '(p, s) ← vm_alloc_page (provider h); Some (p, set_provider h s);
  pmm_free_op h p := s ← vm_free_page (provider h) p; Some (set_provider h s);
  vmm_kernel_op _ := vmm_get_kernel_page_directory im;
  vmm_create_op h := '(d, s) ← vmm_create_page_directory im (provider h); Some (d, set_provider h s);
  vmm_switch_op h d := set_provider h (vmm_switch_page_directory (provider h) d);
  vmm_map_op h v p f := s ← vmm_map_page im (provider h) v p f; Some (set_provider h s);
  memcpy_op h dest src := s ← copy_bytes (provider h) dest src; Some (set_provider h s);
}.

(** ** The invariant of the pages *)
Hypothesis Him : image_ok im.
Definition MAX_RAM_PAGES : Z := 262144.

Record pages_ok P (act : Z) s D : Prop := {
  pk_vm : vm_ok im D s;
  pk_dirs : forall d, d ∈ D <-> Directory d ∈ P;
  pk_act : cr3 s = act;
  pk_total : total_memory_pages (vm_pmm s) <= MAX_RAM_PAGES;
  pk_low : forall d i, isdir im D d -> 1 <= i < 256 -> present (entry s d i) = false;
  pk_stacks : forall p, StackPage p ∈ P ->
    page p /\ page_used (vm_pmm s) (p / 4096) = true /\ ~ occupied im D s p;
}.
Definition prov_inv P act s : Prop := exists D, pages_ok P act s D.

(** ** Frames *)
Lemma alloc_range p f pm : pmm_alloc_page p = Some (f, pm) -> 0 <= f < 4294967296.
Proof.
  unfold pmm_alloc_page. intros Ha. apply mbind_Some in Ha as (x & _ & Ha).
  destruct (x =? -1); [injection Ha as <- _; lia|].
  apply mbind_Some in Ha as (q & _ & Ha). injection Ha as <- _. apply u32_range.
Qed.
Lemma alloc_total p f pm : pmm_wf p -> pmm_alloc_page p = Some (f, pm) ->
  total_memory_pages pm = total_memory_pages p /\
  (f <> 0 -> f / 4096 < total_memory_pages p /\ page_used p (f / 4096) = false).
Proof.
  intros Hp Ha. pose proof (searched_le p Hp).
  destruct (pmm_alloc_page_spec p Hp) as [[E _]|(r & q & E & _ & Hr & Hun & _ & Ht & _)];
    rewrite Ha in E; injection E as -> ->; [done|].
  split; [done|]. intros _. unfold PAGE_SIZE. rewrite Z.div_mul by lia. split; [lia|done].
Qed.

(** The allocator has more pages in use. *)
Lemma vm_ok_pmm D s pm : vm_ok im D s -> pmm_wf pm ->
  (forall f, occupied im D s f -> page_used pm (f / 4096) = true) -> vm_ok im D (set_vm_pmm pm s).
Proof. intros [V1 V2 V3 V4 V5 V6 V7 V8 V9] Hwf Hm. by split. Qed.

Lemma alloc_ok P act s D : pages_ok P act s D -> exists f s', vm_alloc_page s = Some (f, s') /\
  0 <= f < 4294967296 /\
  (f = 0 /\ pages_ok P act s' D \/
   f <> 0 /\ StackPage f ∉ P /\ pages_ok P act s' D /\ pages_ok ({[StackPage f]} ∪ P) act s' D).
Proof.
  intros [Hv Hd Ha Ht Hl Hs]. destruct (alloc_cases im D s Hv) as (f & pm & Hal & Hcase).
  unfold vm_alloc_page. rewrite Hal. cbn [mbind option_bind]. exists f, (set_vm_pmm pm s).
  split; [done|]. split; [by eapply alloc_range|].
  destruct (alloc_total _ _ _ (vo_pmm _ _ _ Hv) Hal) as [Htot Hfree].
  destruct Hcase as [[-> ->]|(Hnz & Hp & Hocc & Hwf & Hu & Hmono)]; [left|right].
  - split; [done|]. split; try done. apply vm_ok_pmm; [done|apply Hv|apply Hv].
  - assert (Hok : pages_ok P act (set_vm_pmm pm s) D).
    { split; try done.
      - apply vm_ok_pmm; [done|done|]. intros x Hx. apply Hmono. by apply (vo_used _ _ _ Hv).
      - cbn [vm_pmm set_vm_pmm]. by rewrite Htot.
      - intros p Hin. destruct (Hs p Hin) as (? & ? & ?). split; [done|]. split; [by apply Hmono|done]. }
    split; [done|]. split; [|split; [done|]].
    + intros Hin. destruct (Hs f Hin) as (_ & Hx & _). destruct (Hfree Hnz) as [_ Hy]. congruence.
    + destruct Hok as [O1 O2 O3 O4 O5 O6]. split; try done.
      * intros d. rewrite O2. set_solver.
      * intros p [Hx%elem_of_singleton|Hx]%elem_of_union; [|by apply O6]. injection Hx as ->. by split.
Qed.

Lemma pages_unused P act s D p pm : pages_ok P act s D -> ~ occupied im D s p -> page p ->
  pmm_wf pm -> total_memory_pages pm = total_memory_pages (vm_pmm s) ->
  (forall j, j <> p / 4096 -> page_used pm j = page_used (vm_pmm s) j) ->
  pages_ok (P ∖ {[StackPage p]}) act (set_vm_pmm pm s) D.
Proof.
  intros [Hv Hd Ha Ht Hl Hs] Hocc Hp Hwf Htot Hrest.
  assert (Hne : forall q, page q -> q <> p -> q / 4096 <> p / 4096).
  { unfold page in *. intros q Hq. Z.to_euclidean_division_equations. lia. }
  assert (Hpage : forall q, occupied im D s q -> page q).
  { intros q [->|[->|[->|[Hq|(d & i & Ht' & <-)]]]]; [done|apply Him|apply Him| |].
    - apply (vo_dir _ _ _ Hv q). by right.
    - by apply (vo_tables _ _ _ Hv). }
  split; try done.
  - apply vm_ok_pmm; [done|done|]. intros q Hq. rewrite Hrest; [by apply (vo_used _ _ _ Hv)|].
    apply Hne; [by apply Hpage|]. by intros ->.
  - intros d. rewrite Hd. set_solver.
  - cbn [vm_pmm set_vm_pmm]. by rewrite Htot.
  - intros q [Hq Hqp]%elem_of_difference. destruct (Hs q Hq) as (Hqp' & Hqu & Hqo). split; [done|].
    split; [|done]. cbn [vm_pmm set_vm_pmm]. rewrite Hrest; [done|]. apply Hne; [done|].
    intros ->. by apply Hqp, elem_of_singleton.
Qed.

Lemma free_unset s p : pmm_wf (vm_pmm s) -> page p -> exists pm, vm_free_page s p = Some (set_vm_pmm pm s) /\
  pmm_wf pm /\ total_memory_pages pm = total_memory_pages (vm_pmm s) /\
  forall j, j <> p / 4096 -> page_used pm j = page_used (vm_pmm s) j.
Proof.
  intros Hwf Hp. unfold vm_free_page, pmm_free_page, PAGE_SIZE.
  destruct (bitmap_unset_spec (vm_pmm s) (p / 4096) Hwf) as (pm & -> & Hwf' & Ht & Hu);
    [by apply page_index_used|].
  exists pm. split; [done|]. split; [done|]. split; [done|]. intros j Hj.
  rewrite Hu, (proj2 (Z.eqb_neq _ _)) by done. by rewrite andb_true_r.
Qed.
Lemma free_stack_ok P act s D p : pages_ok P act s D -> StackPage p ∈ P ->
  exists s', vm_free_page s p = Some s' /\ pages_ok (P ∖ {[StackPage p]}) act s' D.
Proof.
  intros Hok Hin. destruct (pk_stacks _ _ _ _ Hok p Hin) as (Hp & _ & Hocc).
  destruct (free_unset s p (vo_pmm _ _ _ (pk_vm _ _ _ _ Hok)) Hp) as (pm & -> & Hwf & Ht & Hu).
  eexists. split; [reflexivity|]. by apply pages_unused.
Qed.

(** A directory that is not active is given up. *)
Lemma vm_ok_drop D s p : vm_ok im D s -> p ∈ D -> cr3 s <> p -> vm_ok im (D ∖ {[p]}) s.
Proof.
  intros [V1 V2 V3 V4 V5 V6 V7 V8 V9] Hp Hc.
  assert (Hd : forall d, isdir im (D ∖ {[p]}) d -> isdir im D d).
  { unfold isdir. intros d. set_solver. }
  assert (Ht : forall d i, has_table im s (D ∖ {[p]}) d i -> has_table im s D d i).
  { intros d i (? & ?). split; [by apply Hd|done]. }
  split; try done.
  - unfold isdir in *. set_solver.
  - set_solver.
  - intros d Hx. by apply V4, Hd.
  - intros d i Hx. destruct (V6 d i (Ht _ _ Hx)) as (? & ? & Hn). split; [done|]. split; [done|].
    intros Hy. by apply Hn, Hd.
  - intros d i d' j Hx Hy. by apply V7; apply Ht.
  - intros f Hf. apply V9. unfold occupied in *. destruct Hf as [?|[?|[?|[?|(d & i & Hx & Hf)]]]];
      [by auto 6..|set_solver|]. do 4 right. exists d, i. split; [by apply Ht|done].
Qed.
Lemma free_dir_ok P act s D p : pages_ok P act s D -> Directory p ∈ P -> p <> act ->
  exists s', vm_free_page s p = Some s' /\ pages_ok (P ∖ {[Directory p]}) act s' (D ∖ {[p]}).
Proof.
  intros Hok Hin Hne. pose proof Hok as [Hv Hd Ha Ht Hl Hs]. apply Hd in Hin.
  destruct (vo_dir _ _ _ Hv p) as (Hp & Hp0 & HpF & _); [by right|].
  assert (HpP : p <> PD) by (intros ->; by apply (vo_kernel _ _ _ Hv)).
  destruct (free_unset s p (vo_pmm _ _ _ Hv) Hp) as (pm & -> & Hwf & Htot & Hu).
  eexists. split; [reflexivity|].
  assert (Hv' : vm_ok im (D ∖ {[p]}) s) by (apply vm_ok_drop; [done|done|congruence]).
  assert (Hsub : forall d i, has_table im s (D ∖ {[p]}) d i -> has_table im s D d i).
  { intros d i ([?|?] & ?); (split; [|done]); [by left|right; set_solver]. }
  assert (Hocc : ~ occupied im (D ∖ {[p]}) s p).
  { intros [?|[?|[?|[?|(d & i & Ht' & Heq)]]]]; [done|done|done|set_solver|].
    destruct (vo_tables _ _ _ Hv d i (Hsub _ _ Ht')) as (_ & _ & Hn). apply Hn. rewrite Heq. by right. }
  assert (Hocc' : forall q, occupied im (D ∖ {[p]}) s q -> occupied im D s q).
  { intros q [?|[?|[?|[?|(d & i & Ht' & Heq)]]]]; unfold occupied; [by auto 6..|set_solver|].
    do 4 right. exists d, i. split; [by apply Hsub|done]. }
  assert (Hok' : pages_ok (P ∖ {[Directory p]}) act s (D ∖ {[p]})).
  { split; try done.
    - intros d. rewrite elem_of_difference, elem_of_singleton, Hd, elem_of_difference, elem_of_singleton.
      naive_solver.
    - intros d i [->|Hx] Hi; apply Hl; try done; [by left|right; set_solver].
    - intros q Hq. destruct (Hs q) as (? & ? & Hn); [set_solver|]. split; [done|]. split; [done|].
      intros Hx. by apply Hn, Hocc'. }
  assert (Hstk : StackPage p ∉ P).
  { intros Hx. destruct (Hs p Hx) as (_ & _ & Hn). apply Hn. do 3 right. by left. }
  replace (P ∖ {[Directory p]}) with (P ∖ {[Directory p]} ∖ {[StackPage p]}) by set_solver.
  by apply pages_unused.
Qed.

(** ** Mapping and directories *)
Lemma map_pages_ok P act s D virt phys flags : pages_ok P act s D -> 0x40000000 <= virt < 0xFFC00000 ->
  0 <= phys < 4294967296 -> 0 <= flags < 4096 ->
  exists s', vmm_map_page im s virt phys flags = Some s' /\ pages_ok P act s' D.
Proof.
  intros [Hv Hd Ha Ht Hl Hs] Hr Hph Hfl.
  assert (Hidx : 256 <= dir_index virt < 1023) by (unfold dir_index; Z.to_euclidean_division_equations; lia).
  destruct (vmm_map_page_spec im Him D s virt phys flags Hv ltac:(lia) ltac:(lia) Hph Hfl) as
    (s' & Hmap & Hv' & Hc & Hcase).
  exists s'. split; [done|].
  (* the directories: only the slot of [virt] may have changed *)
  assert (Hdirs : (forall d j, isdir im D d -> 0 <= j < 1024 -> j <> dir_index virt ->
      entry s' d j = entry s d j) /\
    exists t, (forall f, occupied im D s' f -> occupied im D s f \/ f = t) /\
      total_memory_pages (vm_pmm s') = total_memory_pages (vm_pmm s) /\
      (forall j, page_used (vm_pmm s) j = true -> page_used (vm_pmm s') j = true) /\
      (occupied im D s t \/ page_used (vm_pmm s) (t / 4096) = false)).
  { destruct Hcase as [(Hpr & Hm & E)|(t & Hpr & Hal & Hpt & Hocc & E)].
    - assert (Hht : has_table im s D (cr3 s) (dir_index virt)) by (split; [apply Hv|split; [lia|done]]).
      destruct (vo_tables _ _ _ Hv _ _ Hht) as (Htp & HtF & Htd).
      assert (Hsame : forall d j, isdir im D d -> 0 <= j < 1024 -> entry s' d j = entry s d j).
      { intros d j Hdd Hj. rewrite E by (done || by eapply vo_dir).
        rewrite (proj2 (Z.eqb_neq _ d)); [done|]. by intros <-. }
      split; [intros d j Hdd Hj _; by apply Hsame|].
      exists 0. rewrite Hm. split; [|split; [done|split; [done|left; by left]]].
      intros f [?|[?|[?|[?|(d & i & (Hdd & Hi & Hpi) & Hf)]]]]; left; unfold occupied; [by auto 6..|].
      do 4 right. exists d, i. unfold table_at in *. rewrite Hsame in * by (done || lia). by split.
    - assert (Hdt : forall d, isdir im D d -> d <> t).
      { intros d Hdd ->. destruct (vo_dir _ _ _ Hv t Hdd) as (_ & Hnz & _). apply Hocc; [done|].
        destruct Hdd as [->|Hdd]; [right; by left|do 3 right; by left]. }
      assert (HE : forall d j, isdir im D d -> 0 <= j < 1024 ->
        entry s' d j = if gets_table im s virt d && (j =? dir_index virt) then t + 7 else entry s d j).
      { intros d j Hdd Hj. rewrite E by (done || by eapply vo_dir).
        by rewrite (proj2 (Z.eqb_neq d t)) by by apply Hdt. }
      destruct (alloc_total _ _ _ (vo_pmm _ _ _ Hv) Hal) as [Htot Hfree]. split.
      + intros d j Hdd Hj Hne. rewrite HE by done. by rewrite (proj2 (Z.eqb_neq j _)), andb_false_r.
      + exists t. split; [|split; [done|split]].
        * intros f [?|[?|[?|[?|(d & i & (Hdd & Hi & Hpi) & Hf)]]]];
            [left; unfold occupied; by auto 6..|].
          unfold table_at in Hf. rewrite HE in * by (done || lia).
          destruct (gets_table im s virt d && (i =? dir_index virt)).
          -- right. by rewrite frame_flags in Hf by (done || lia).
          -- left. do 4 right. by exists d, i.
        * destruct (decide (t = 0)) as [->|Hnz].
          -- destruct (alloc_cases im D s Hv) as (f & pm & Hal' & Hc'). rewrite Hal in Hal'.
             injection Hal' as <- <-. destruct Hc' as [[_ ->]|(? & _)]; done.
          -- by destruct (fresh_page im D s t _ Hv Hal Hnz) as (_ & _ & _ & _ & ?).
        * destruct (decide (t = 0)) as [->|Hnz]; [left; by left|right; by apply Hfree]. }
  destruct Hdirs as [Hent (t & Hocc & Htot & Hmono & Hfresh)]. split; try done.
  - congruence.
  - by rewrite Htot.
  - intros d i Hdd Hi. rewrite Hent by (done || lia). by apply Hl.
  - intros p Hp. destruct (Hs p Hp) as (Hpp & Hpu & Hpo). split; [done|]. split; [by apply Hmono|].
    intros [Hx|Heq]%Hocc; [done|]. destruct Hfresh as [?|Hf]; [by rewrite Heq in Hpo|].
    rewrite Heq in Hpu. congruence.
Qed.

(** A directory can only be made in a frame below 4 MB. *)
Lemma created_low P act s D g pm r : pages_ok P act s D -> pmm_alloc_page (vm_pmm s) = Some (g, pm) -> g <> 0 -> page g ->
  vmm_create_page_directory im s = Some r -> g < 0x400000.
Proof.
  intros [Hv _ _ Ht Hl _] Hal Hnz Hp Hcr. destruct (alloc_total _ _ _ (vo_pmm _ _ _ Hv) Hal) as [_ Hfree].
  destruct (decide (g < 0x400000)); [done|]. exfalso. destruct (Hfree Hnz) as [Hg _]. unfold MAX_RAM_PAGES in *.
  assert (Hgi : 1 <= dir_index g < 256).
  { unfold page in Hp. unfold dir_index. Z.to_euclidean_division_equations. lia. }
  rewrite (create_directory_faults im s g pm Hal Hnz) in Hcr; [done|apply Hp|].
  rewrite (translate_walk im) by by eapply vo_window. rewrite walk_entries.
  by rewrite Hl by (lia || apply Hv).
Qed.
Lemma create_pages_ok P act s D f s' : pages_ok P act s D ->
  vmm_create_page_directory im s = Some (f, s') ->
  f = 0 /\ pages_ok P act s' D \/
  f <> 0 /\ Directory f ∉ P /\ pages_ok ({[Directory f]} ∪ P) act s' ({[f]} ∪ D).
Proof.
  intros Hok Hcr. pose proof Hok as [Hv Hd Ha Ht Hl Hs].
  destruct (alloc_cases im D s Hv) as (g & pm & Hal & Hcase).
  destruct (alloc_total _ _ _ (vo_pmm _ _ _ Hv) Hal) as [Htot Hfree].
  destruct Hcase as [[-> ->]|(Hnz & Hp & Hocc & Hwf & Hu & Hmono)].
  - left. rewrite (create_directory_none im s _ Hal) in Hcr. injection Hcr as <- <-. split; [done|].
    replace (set_vm_pmm (vm_pmm s) s) with s by (by destruct s). done.
  - pose proof (created_low P act s D g pm _ Hok Hal Hnz Hp Hcr) as Hlow.
    destruct (create_directory_spec im Him D s g pm Hv Hal Hnz Hlow) as (s2 & Heq & Hv2 & Hc2 & Hm2 & _ & E).
    rewrite Hcr in Heq. injection Heq as -> ->. right. split; [done|].
    assert (HgD : g ∉ D) by (intros Hx; apply Hocc; do 3 right; by left).
    split; [by rewrite <- Hd|]. split.
    + done.
    + intros d. rewrite !elem_of_union, !elem_of_singleton, Hd. naive_solver.
    + congruence.
    + rewrite Hm2. by rewrite Htot.
    + intros d i Hdd Hi. destruct (decide (d = g)) as [->|Hdg].
      * rewrite E, Z.eqb_refl by (done || lia). unfold new_entry.
        rewrite (proj2 (Z.eqb_neq i 0)), (proj2 (Z.eqb_neq i 1023)), (proj2 (Z.leb_gt 768 i)) by lia. done.
      * assert (isdir im D d) as Hdd' by (unfold isdir in *; set_solver).
        rewrite E by (lia || by eapply vo_dir). rewrite (proj2 (Z.eqb_neq d g)) by done. by apply Hl.
    + intros p Hp'. destruct (Hs p) as (Hpp & Hpu & Hpo); [set_solver|]. split; [done|].
      split; [rewrite Hm2; by apply Hmono|]. intros [?|[?|[?|[Hx|(d & i & (Hdd & Hi & Hpi) & Hf)]]]];
        [by apply Hpo; unfold occupied; auto 6..| |].
      * apply elem_of_union in Hx as [->%elem_of_singleton|Hx]; [|apply Hpo; do 3 right; by left].
        destruct (Hfree Hnz) as [_ Hx]. congruence.
      * apply Hpo. unfold table_at in Hf. destruct (decide (d = g)) as [->|Hdg].
        -- rewrite E, Z.eqb_refl in * by (done || lia). unfold new_entry in *.
           rewrite (proj2 (Z.eqb_neq i 0)), (proj2 (Z.eqb_neq i 1023)) in * by lia.
           destruct ((768 <=? i) && (i <? 896) && present (entry s PD i)) eqn:Hb; [|done].
           do 4 right. exists PD, i. split; [|done]. split; [by left|]. split; [lia|].
           by apply andb_true_iff in Hb as [_ ?].
        -- assert (isdir im D d) as Hdd' by (unfold isdir in *; set_solver).
           rewrite E in * by (lia || by eapply vo_dir). rewrite (proj2 (Z.eqb_neq d g)) in * by done.
           do 4 right. by exists d, i.
Qed.

(** ** The interfaces *)
#[export] Instance vm_provider_ok (P : gset held) (act : Z) : PageProviderOk vm.
Proof.
  refine {| provider_inv := prov_inv P act |}.
  - intros s [D Hok]. destruct (alloc_ok P act s D Hok) as (f & s' & Ha & _ & Hcase).
    exists f, s'. split; [exact Ha|]. exists D. by destruct Hcase as [[_ ?]|(_ & _ & ? & _)].
  - intros s virt phys s0 Hal Hnz [D Hok] Hr.
    assert (Hph : 0 <= phys < 4294967296).
    { cbn in Hal. unfold vm_alloc_page in Hal. apply mbind_Some in Hal as ([f pm] & Hf & Hal).
      injection Hal as -> _. by eapply alloc_range. }
    unfold HEAP_START, HEAP_MAX_ADDR, PAGE_RW_FLAGS in *.
    destruct (map_pages_ok P act s D virt phys 3 Hok) as (s' & Hmap & Hok'); [lia|lia|lia|].
    exists s'. split; [exact Hmap|]. by exists D.
Defined.

#[export] Instance machine_memory_ok : MemoryOk (heap vm).
Proof.
  refine {| memory_alloc_ok P act := @heap_allocator_ok vm vm_provider (vm_provider_ok P act);
            base := HEAP_START; kernel_dir := PD |}.
  - done.
  - intros P act h m (bs & Hw & [D Hok] & ->).
    destruct (alloc_ok P act (provider h) D Hok) as (f & s' & Ha & _ & Hcase).
    exists f, (set_provider h s'). split; [cbn; by rewrite Ha|].
    destruct Hcase as [[-> Hok']|(Hnz & Hno & _ & Hok')]; [left|right; split; [done|split; [done|]]];
      [split; [done|]|]; exists bs; (split; [by destruct Hw; split|split; [by exists D|done]]).
  - intros P act h m p (bs & Hw & [D Hok] & ->) Hin.
    destruct (free_stack_ok P act (provider h) D p Hok Hin) as (s' & Hf & Hok').
    exists (set_provider h s'). split; [cbn; by rewrite Hf|].
    exists bs. split; [by destruct Hw; split|]. split; [by exists D|done].
  - intros P act h m p (bs & Hw & [D Hok] & ->) Hin Hne.
    destruct (free_dir_ok P act (provider h) D p Hok Hin Hne) as (s' & Hf & Hok').
    exists (set_provider h s'). split; [cbn; by rewrite Hf|].
    exists bs. split; [by destruct Hw; split|]. split; [by exists (D ∖ {[p]})|done].
  - intros P act h m (bs & Hw & [D Hok] & ->). split; [done|]. rewrite <- (pk_dirs _ _ _ _ Hok).
    apply (vo_kernel _ _ _ (pk_vm _ _ _ _ Hok)).
  - intros P act h m d (bs & Hw & [D Hok] & ->) Hd. exists bs. split; [by destruct Hw; split|].
    split; [|done]. exists D. destruct Hok as [O1 O2 O3 O4 O5 O6]. split; try done.
    apply switch_ok; [done|]. destruct Hd as [Hd| ->]; [right; by apply O2|by left].
  - intros P act h m d h' (bs & Hw & [D Hok] & ->) Hcr. cbn in Hcr.
    apply mbind_Some in Hcr as ([f s'] & Hcr & Heq). injection Heq as <- <-.
    destruct (create_pages_ok P act (provider h) D f s' Hok Hcr) as [[-> Hok']|(Hnz & Hno & Hok')];
      [left; split; [done|]|right; split; [done|split; [done|]]];
      exists bs; (split; [by destruct Hw; split|split; [by eexists|done]]).
  - intros P act h m va p (bs & Hw & [D Hok] & ->) _ Hr Hin.
    destruct (pk_stacks _ _ _ _ Hok p Hin) as ([Hp _] & _).
    destruct (map_pages_ok P act (provider h) D va p 7 Hok) as (s' & Hmap & Hok'); [lia|lia|lia|].
    exists (set_provider h s'). split; [cbn; by rewrite Hmap|].
    exists bs. split; [by destruct Hw; split|]. split; [by exists D|done].
Defined.
End Machine.

(** ** Start-up *)
Section Boot.
Context (im : vmm_image) (Him : image_ok im).
Implicit Types (s : vm).
#[local] Existing Instance vm_provider.
#[local] Abbreviation memory := (machine_memory im).

Lemma boot_pages s s' : vm_ok im ∅ s' -> cr3 s' = page_directory im ->
  vm_pmm s' = vm_pmm s -> total_memory_pages (vm_pmm s) <= MAX_RAM_PAGES ->
  (forall j, 1 <= j < 1023 -> entry s' (page_directory im) j = 0) ->
  pages_ok im ∅ (page_directory im) s' ∅.
Proof.
  intros Hv Hc Hm Ht E. split; [done| |done|by rewrite Hm| |].
  - intros d. set_solver.
  - intros d i [->|Hd] Hi; [by rewrite E by lia|by apply elem_of_empty in Hd].
  - intros p Hp. by apply elem_of_empty in Hp.
Qed.

(** [init_vmm] and [init_heap], on a machine where a frame is free. *)
Lemma boot_memory_spec s f pm : paging s = false -> pmm_wf (vm_pmm s) ->
  page_used (vm_pmm s) 0 = true -> page_used (vm_pmm s) (page_directory im / 4096) = true ->
  page_used (vm_pmm s) (first_page_table im / 4096) = true ->
  total_memory_pages (vm_pmm s) <= MAX_RAM_PAGES ->
  pmm_alloc_page (vm_pmm s) = Some (f, pm) -> f <> 0 ->
  exists s' (h : heap vm), init_vmm im s = Some s' /\
    @init_heap vm (vm_provider im) s' = Some h /\
    @holds (heap vm) memory (machine_memory_ok im Him) ∅ (page_directory im) h ∅.
Proof.
  intros Hpg Hwf U0 UP UF Ht Ha Hf.
  destruct (init_vmm_spec im Him s Hpg Hwf U0 UP UF) as (s' & Hi & Hok & Hc & Hm & E).
  assert (Hpages : pages_ok im ∅ (page_directory im) s' ∅).
  { apply (boot_pages s); try done. intros j Hj. destruct (io_pd _ Him) as [HP _].
    rewrite E by (done || lia). rewrite (proj2 (Z.eqb_neq (page_directory im) _)) by apply Him.
    by rewrite Z.eqb_refl, (proj2 (Z.eqb_neq j 0)), (proj2 (Z.eqb_neq j 1023)) by lia. }
  destruct (@init_heap_wf vm (vm_provider im) (vm_provider_ok im Him ∅ (page_directory im)) s')
    as (h & Hh & Hw & Hp).
  - by exists ∅.
  - exists f, (set_vm_pmm pm s'). split; [|done]. cbn. unfold vm_alloc_page. by rewrite Hm, Ha.
  - exists s', h. split; [done|]. split; [done|]. exists [(HEAP_INITIAL_SIZE - HEADER, true)]. by split.
Qed.

(** The heap [init_heap] makes: one free block of a page. *)
Definition first_heap s : heap vm :=
  mk_heap {[HEAP_START := mk_block (HEAP_INITIAL_SIZE - HEADER) true 0 0]} HEAP_START (HEAP_START + HEAP_INITIAL_SIZE) s.
Lemma init_heap_first s h : @init_heap vm (vm_provider im) s = Some h -> exists s', h = first_heap s'.
Proof.
  unfold init_heap. intros Hh. apply mbind_Some in Hh as ([a s1] & _ & Hh).
  apply mbind_Some in Hh as (s2 & _ & [= <-]). by exists s2.
Qed.
End Boot.
