(* ===== verification/File.v ===== *)
(** * fs/file.cpp and fs/file.h: open files

    A [File] object is a value of the store [files], by its heap address; its
    operation table is one of the four static tables, and an operation is
    [None] inside when the table holds a null pointer.  The allocator is the
    interface [Allocator]. *)
From S2P Require Import Prelude CString Allocator BlockDev DiskLayout SimpleFs Vfs.
From S2P Require Import PortIo Pic Keyboard Vga.

Definition MAX_FD : Z := 16.

Inductive FileType := FILE_TYPE_UNUSED | FILE_TYPE_STDIN | FILE_TYPE_STDOUT
  | FILE_TYPE_STDERR | FILE_TYPE_REGULAR | FILE_TYPE_PIPE.
Inductive FileOps := stdin_ops | stdout_ops | stderr_ops | vfs_file_ops.
#[export] Instance file_ops_eq_dec : EqDecision FileOps.
Proof. solve_decision. Defined.

Record File := mk_file {
  f_type : FileType;
  f_ops : FileOps;
  f_node : option vfs_node;  (* [None]: not initialised *)
  f_offset : Z;
  f_flags : Z;
  f_ref_count : Z;
}.
Definition set_f_type t f := mk_file t (f_ops f) (f_node f) (f_offset f) (f_flags f) (f_ref_count f).
Definition set_f_node n f := mk_file (f_type f) (f_ops f) n (f_offset f) (f_flags f) (f_ref_count f).
Definition set_f_offset o f := mk_file (f_type f) (f_ops f) (f_node f) o (f_flags f) (f_ref_count f).

Definition SIZEOF_FILE : Z := 68.

(** ** The constructors: 0 is not checked, so a store through it is [None] *)
Section Create.
Context {A : Type} `{Allocator A}.
Implicit Types (a : A) (files : gmap Z File).

Definition new_file a files (f : File) : option (Z * A * gmap Z File) :=
  '(p, a') ← kmalloc_op a SIZEOF_FILE;
  if p =? 0 then None else Some (p, a', <[p := f]> files).
Definition create_stdin_file a files :=
  new_file a files (mk_file FILE_TYPE_STDIN stdin_ops None 0 0 1).
Definition create_stdout_file a files :=
  new_file a files (mk_file FILE_TYPE_STDOUT stdout_ops None 0 0 1).
Definition create_stderr_file a files :=
  new_file a files (mk_file FILE_TYPE_STDERR stderr_ops None 0 0 1).
Definition create_vfs_file a files (node : vfs_node) :=
  new_file a files (mk_file FILE_TYPE_REGULAR vfs_file_ops (Some node) 0 0 1).
End Create.

(** ** The operations *)
(** What the operations reach: the keyboard, the console and the file system. *)
Record io (W D : Type) := mk_io { io_kbd : keyboard; io_vga : vga W; io_fs : fs D }.
Arguments mk_io {W D} _ _ _.
Arguments io_kbd {W D} _.
Arguments io_vga {W D} _.
Arguments io_fs {W D} _.

Section Ops.
Context {W : Type} `{Ports W} {D : Type} `{BlockDevice D}.
Implicit Types (w : io W D) (f : File) (buf : list Z).

(** The loop takes at most one round per key waiting. *)
Fixpoint stdin_loop (fuel : nat) (k : keyboard) buf (bytes_read count : Z)
  : option (Z * list Z * keyboard) :=
  if (bytes_read <? count) && buffer_has_char k then
    match fuel with
    | O => None
    | S fuel' =>
        '(c, k') ← dequeue_key k;
        if c =? 0 then Some (bytes_read, buf, k') else
        buf' ← zset buf bytes_read c;
        stdin_loop fuel' k' buf' (bytes_read + 1) count
    end
  else Some (bytes_read, buf, k).
Definition stdin_read (k : keyboard) buf (count : Z) : option (Z * list Z * keyboard) :=
  '(n, buf', k') ← stdin_loop 128 k buf 0 count; Some (i32 n, buf', k').

(** [for (i < count) print_char(cbuf[i])] *)
Fixpoint print_loop (n : nat) (v : vga W) buf (i : Z) : option (vga W) :=
  match n with
  | O => Some v
  | S n' => c ← zget buf i; v' ← print_char v c; print_loop n' v' buf (i + 1)
  end.
Definition stdout_write (v : vga W) buf (count : Z) : option (Z * vga W) :=
  v' ← print_loop (Z.to_nat count) v buf 0; Some (i32 count, v').
Definition stderr_write (v : vga W) buf (count : Z) : option (Z * vga W) :=
  let v := set_text_color v VGA_COLOR_RED VGA_COLOR_BLACK in
  v' ← print_loop (Z.to_nat count) v buf 0;
  Some (i32 count, set_text_color v' VGA_COLOR_LIGHT_GREY VGA_COLOR_BLACK).

Definition advance f (bytes : Z) : File :=
  if 0 <? bytes then set_f_offset (u32 (f_offset f + bytes)) f else f.
Definition vfs_file_read (d : D) f buf (count : Z) : option (Z * list Z * File) :=
  node ← f_node f;
  '(bytes, buf') ← vfs_read d node buf count;
  Some (bytes, buf', advance f bytes).
Definition vfs_file_write (s : fs D) f buf (count : Z) : option (Z * fs D * File) :=
  node ← f_node f;
  '(bytes, s', node') ← vfs_write s node buf count;
  Some (bytes, s', advance (set_f_node (Some node') f) bytes).
Definition vfs_file_close f : Z * File := (0, set_f_type FILE_TYPE_UNUSED f).

(** [file->ops->read], [->write] and [->close]; the inner [None] is a null
    pointer in the table. *)
Definition file_read w f buf (count : Z) : option (option (Z * list Z * File * io W D)) :=
  match f_ops f with
  | stdin_ops =>
      '(n, buf', k') ← stdin_read (io_kbd w) buf count;
      Some (Some (n, buf', f, mk_io k' (io_vga w) (io_fs w)))
  | vfs_file_ops =>
      '(n, buf', f') ← vfs_file_read (dev (io_fs w)) f buf count;
      Some (Some (n, buf', f', w))
  | _ => Some None
  end.
Definition file_write w f buf (count : Z) : option (option (Z * File * io W D)) :=
  match f_ops f with
  | stdin_ops => Some None
  | stdout_ops =>
      '(n, v') ← stdout_write (io_vga w) buf count;
      Some (Some (n, f, mk_io (io_kbd w) v' (io_fs w)))
  | stderr_ops =>
      '(n, v') ← stderr_write (io_vga w) buf count;
      Some (Some (n, f, mk_io (io_kbd w) v' (io_fs w)))
  | vfs_file_ops =>
      '(n, s', f') ← vfs_file_write (io_fs w) f buf count;
      Some (Some (n, f', mk_io (io_kbd w) (io_vga w) s'))
  end.
Definition file_close f : option (Z * File) :=
  match f_ops f with vfs_file_ops => Some (vfs_file_close f) | _ => None end.
End Ops.
