(* ===== verification/FileProps.v ===== *)
(** * What the operations of open files do

    Reading stdin takes keys off the keyboard's queue, writing stdout and stderr
    puts characters on the screen, and a regular file is read and written as a
    whole, whatever the offset. *)
From S2P Require Import Prelude CString Allocator BlockDev DiskLayout SimpleFs FsView FsDir FsInv FsOps FsMount FsIo FsProps.
From S2P Require Import Vfs VfsProps File.
From S2P Require Import PortIo Pic Keyboard Vga Console.

(** ** stdin *)
Lemma has_char_spec k : kbd_wf k -> buffer_has_char k = negb (bool_decide (keys k = [])).
Proof.
  intros Hk. destruct (dequeue_key_spec k Hk) as (c & k' & Hd & _ & Hcase).
  unfold buffer_has_char, dequeue_key in *. rewrite (Z.eqb_sym (keyboard_head k)).
  destruct (Z.eqb_spec (keyboard_tail k) (keyboard_head k)) as [He|He]; cbn [negb].
  - destruct (bool_decide_reflect (keys k = [])) as [|Hn]; [done|]. exfalso. apply Hn.
    apply nil_length_inv. rewrite keys_length. unfold pending. by rewrite He, Z.sub_diag.
  - destruct (bool_decide_reflect (keys k = [])) as [Hn|]; [|done]. exfalso.
    apply (f_equal length) in Hn. rewrite keys_length in Hn. unfold pending in Hn. simpl in Hn.
    destruct Hk as [_ Hh Ht]. revert Hn. Z.to_euclidean_division_equations. lia.
Qed.

Lemma stdin_loop_spec count : forall fuel k (pre mid : list Z),
  kbd_wf k -> 0 ∉ keys k -> (length (keys k) <= fuel)%nat -> Z.of_nat (length pre) <= count ->
  count <= Z.of_nat (length pre + length mid) ->
  let m := Nat.min (Z.to_nat (count - Z.of_nat (length pre))) (length (keys k)) in
  exists k', stdin_loop fuel k (pre ++ mid) (Z.of_nat (length pre)) count =
      Some (Z.of_nat (length pre + m), pre ++ take m (keys k) ++ drop m mid, k') /\
    kbd_wf k' /\ keys k' = drop m (keys k).
Proof.
  induction fuel as [|fuel IH]; intros k pre mid Hk Hz Hf Hlo Hhi m; cbn [stdin_loop];
    rewrite (has_char_spec k Hk).
  - assert (Hn : keys k = []) by (apply nil_length_inv; lia). rewrite bool_decide_true by done.
    rewrite andb_false_r. exists k. unfold m. rewrite Hn. simpl length. rewrite Nat.min_0_r, Nat.add_0_r. done.
  - destruct (Z.ltb_spec (Z.of_nat (length pre)) count) as [Hlt|Hge]; cbn [andb].
    2:{ exists k. assert (m = 0)%nat as -> by lia. by rewrite Nat.add_0_r. }
    destruct (bool_decide_reflect (keys k = [])) as [Hn|Hn]; cbn [negb].
    { exists k. assert (m = 0)%nat as -> by (unfold m; rewrite Hn; simpl; lia). by rewrite Nat.add_0_r. }
    destruct (dequeue_key_spec k Hk) as (c & k1 & -> & Hk1 & Hcase). cbn [mbind option_bind].
    destruct (keys k) as [|x ks] eqn:Hks; [done|]. destruct Hcase as [-> Hk1s].
    apply not_elem_of_cons in Hz as [Hx0 Hz]. rewrite (proj2 (Z.eqb_neq x 0)) by done.
    destruct mid as [|y mid]; [simpl in Hhi; lia|]. rewrite zset_middle. cbn [mbind option_bind].
    simpl in Hf, Hhi. destruct (IH k1 (pre ++ [x]) mid Hk1) as (k' & Heq & Hk' & Hks');
      rewrite ?length_app, ?Hk1s; simpl; try lia; [done|].
    replace (pre ++ x :: mid) with ((pre ++ [x]) ++ mid) by by rewrite <- app_assoc.
    replace (Z.of_nat (length pre) + 1) with (Z.of_nat (length (pre ++ [x]))) by (rewrite length_app; simpl; lia).
    rewrite Heq. exists k'. rewrite Hk1s, length_app in *. simpl length in *.
    assert (Hm : m = S (Nat.min (Z.to_nat (count - Z.of_nat (length pre + 1))) (length ks))).
    { unfold m. simpl. lia. }
    rewrite Hm. cbn [take drop]. rewrite <- app_assoc. cbn [app]. split; [|split; [done|exact Hks']].
    do 3 f_equal. lia.
Qed.

(** Reading stdin takes the first keys of the queue, at most [count] of them,
    into the front of the buffer, in the order they were pressed, and never
    waits. *)
Theorem stdin_read_takes_keys k buf count :
  kbd_wf k -> 0 ∉ keys k -> 0 <= count <= Z.of_nat (length buf) ->
  let n := Nat.min (Z.to_nat count) (length (keys k)) in
  exists k', stdin_read k buf count = Some (Z.of_nat n, take n (keys k) ++ drop n buf, k') /\
    kbd_wf k' /\ keys k' = drop n (keys k).
Proof.
  intros Hk Hz Hc n. pose proof (pending_lt k) as Hp. rewrite <- keys_length in Hp.
  destruct (stdin_loop_spec count 128 k [] buf Hk Hz ltac:(lia) ltac:(simpl length; lia)
    ltac:(simpl length; lia)) as (k' & Heq & Hk' & Hks).
  cbn [length app] in Heq, Hks. change (Z.of_nat 0) with 0 in Heq, Hks. rewrite Z.sub_0_r in Heq, Hks.
  unfold stdin_read. rewrite Heq. cbn [mbind option_bind].
  exists k'. split; [|done]. rewrite i32_small by lia. done.
Qed.

(** ** stdout and stderr *)
Section Write.
Context {W : Type} `{CrtcLaws W}.
Implicit Types (v : vga W).

Lemma print_loop_spec n : forall v buf (i : nat), vga_wf v -> bytes_ok buf -> (i + n <= length buf)%nat ->
  exists v', print_loop n v buf (Z.of_nat i) = Some v' /\ shows v (take n (drop i buf)) v'.
Proof.
  induction n as [|n IH]; intros v buf i Hv Hb Hi.
  { exists v. rewrite take_0. split; [done|]. by apply shows_refl. }
  destruct (lookup_lt_is_Some_2 buf i) as [c Hc]; [lia|]. cbn [print_loop]. rewrite zget_nat, Hc.
  cbn [mbind option_bind]. assert (Hcb : 0 <= c < 256).
  { unfold bytes_ok in Hb. rewrite Forall_forall in Hb. apply Hb. by eapply list_elem_of_lookup_2. }
  destruct (print_char_spec v c Hv Hcb) as (v1 & -> & Hsc & Ha & _). cbn [mbind option_bind].
  pose proof (print_char_wf v v1 c Hv Hsc) as Hv1.
  destruct (IH v1 buf (S i) Hv1 Hb) as (v' & Heq & Hsh); [lia|].
  replace (Z.of_nat i + 1) with (Z.of_nat (S i)) by lia. exists v'. split; [exact Heq|].
  rewrite (drop_S _ _ _ Hc). cbn [take].
  apply (shows_app v [c] v1 _ v'); [|done]. by split.
Qed.

(** Writing to stdout shows the bytes on the screen in the colours set, and to
    stderr in red; both answer the count.  Afterwards stderr leaves the colours
    light grey on black, whatever they were. *)
Theorem console_write_shows v buf count :
  vga_wf v -> bytes_ok buf -> 0 <= count <= Z.of_nat (length buf) -> count < 2147483648 ->
  let text := take (Z.to_nat count) buf in
  (exists v', stdout_write v buf count = Some (count, v') /\ shows v text v') /\
  exists v1 v', stderr_write v buf count = Some (count, v') /\
    shows (set_text_color v VGA_COLOR_RED VGA_COLOR_BLACK) text v1 /\
    v' = set_text_color v1 VGA_COLOR_LIGHT_GREY VGA_COLOR_BLACK.
Proof.
  intros Hv Hb Hc Hi text. split.
  - destruct (print_loop_spec (Z.to_nat count) v buf 0 Hv Hb) as (v' & Heq & Hsh); [lia|].
    unfold stdout_write. change (Z.of_nat 0) with 0 in Heq. rewrite Heq. cbn [mbind option_bind].
    exists v'. by rewrite i32_small by lia.
  - set (v0 := set_text_color v VGA_COLOR_RED VGA_COLOR_BLACK).
    assert (Hv0 : vga_wf v0) by (destruct Hv; by split).
    destruct (print_loop_spec (Z.to_nat count) v0 buf 0 Hv0 Hb) as (v1 & Heq & Hsh); [lia|].
    unfold stderr_write. fold v0. cbv zeta. change (Z.of_nat 0) with 0 in Heq. rewrite Heq.
    cbn [mbind option_bind]. rewrite i32_small by lia. by exists v1, (set_text_color v1 VGA_COLOR_LIGHT_GREY VGA_COLOR_BLACK).
Qed.
End Write.

(** ** Regular files *)
Section Regular.
Context {D : Type} `{BlockDeviceOk D}.

(** The node is that of the file [i] with the contents [c]. *)
Record file_node T B node nm i c : Prop := {
  fn_plain : is_dir node = false;
  fn_parent : 0 <= n_parent_idx node < 64;
  fn_name : c_name (n_name node) nm;
  fn_find : fs_find T B (n_parent_idx node) nm = Some i;
  fn_contents : fs_file T B i = Some c;
}.

(** A file found by name has such a node. *)
Lemma step_file_node f N T B dir name nm node c : fs_rel f N T B -> node_ok dir -> c_name name nm ->
  step T B dir nm = Some node -> is_dir node = false -> fs_file T B (n_inode_idx node) = Some c ->
  file_node T B node nm (n_inode_idx node) c.
Proof.
  intros Hrel Hok Hn Hst Hd Hc. pose proof (rel_inv _ _ _ _ Hrel) as Hinv.
  destruct (step_file T B dir nm node Hinv Hok Hst Hd) as (i & Hf & -> & Hdi & Hi & Hdot).
  pose proof (found_name_short T B _ nm i Hinv Hok Hf) as Hshort.
  destruct Hn as [Hnb Hns Hnl]. destruct (cstring_Some _ _ Hns) as [Hnz [rest Hname]].
  destruct (name_field_ok nm) as [Hfield _]; [|done|lia|].
  { rewrite Hname in Hnb. by apply bytes_ok_app in Hnb as [? _]. }
  by split.
Qed.

Lemma vfs_read_spec f N T B node nm i c buf count :
  fs_rel f N T B -> file_node T B node nm i c ->
  0 <= count < 4294967296 -> count <= Z.of_nat (length buf) ->
  let n := Nat.min (Z.to_nat count) (length c) in
  vfs_read (dev f) node buf count = Some (Z.of_nat n, take n c ++ drop n buf).
Proof.
  intros Hrel [Hp Hpr Hn Hf Hc] Hc1 Hc2 n.
  unfold vfs_read. fold (is_dir node). rewrite Hp. cbn match.
  rewrite (simplefs_read_spec f N T B _ _ nm) by (done || (intros; lia)).
  rewrite Hf. cbn [mbind option_bind]. by rewrite Hc.
Qed.
Lemma vfs_file_read_spec f N T B node nm i c file buf count :
  fs_rel f N T B -> file_node T B node nm i c -> f_node file = Some node ->
  0 <= count < 4294967296 -> count <= Z.of_nat (length buf) ->
  let n := Nat.min (Z.to_nat count) (length c) in
  vfs_file_read (dev f) file buf count =
    Some (Z.of_nat n, take n c ++ drop n buf, advance file (Z.of_nat n)).
Proof.
  intros Hrel Hfn Hnode Hc1 Hc2 n. unfold vfs_file_read. rewrite Hnode. cbn [mbind option_bind].
  by rewrite (vfs_read_spec f N T B node nm i c).
Qed.

(** Writing to it through [vfs_write]. *)
Lemma vfs_write_spec f N T B node nm i c buf count :
  fs_rel f N T B -> file_node T B node nm i c -> bytes_ok buf ->
  0 <= count <= MAX_FILE -> count <= Z.of_nat (length buf) ->
  exists f' T' B' node', vfs_write f node buf count = Some (0, f', node') /\
    fs_rel f' N T' B' /\ file_node T' B' node' nm i (take (Z.to_nat count) buf) /\
    (forall q nm', 0 <= q < 64 -> fs_find T' B' q nm' = fs_find T B q nm') /\
    forall j, 0 <= j < 64 -> j <> i -> fs_file T' B' j = fs_file T B j.
Proof.
  intros Hrel [Hp Hpr Hn Hf Hc] Hb Hc1 Hc2. unfold vfs_write. fold (is_dir node). rewrite Hp.
  pose proof (rel_inv _ _ _ _ Hrel) as Hinv.
  destruct (fs_find_range T B Hinv _ nm i Hpr Hf) as (_ & Hi & _).
  destruct (file_size (dev f) N T B i c (rel_view _ _ _ _ Hrel) Hinv Hi Hc) as [_ Hdir].
  destruct (write_plain f N T B _ _ nm buf count i Hrel Hpr Hn Hb Hc1 Hc2 Hf Hdir) as
    (f' & T' & B' & -> & Hrel' & Hfind & Hfile).
  cbn [mbind option_bind]. cbn [Z.ltb Z.compare]. eexists f', T', B', _. split; [reflexivity|].
  split; [done|]. split; [|split; [exact Hfind|]].
  - split; cbn [n_parent_idx n_name]; try done; [by rewrite Hfind|]. by rewrite Hfile, decide_True.
  - intros j Hj Hne. by rewrite Hfile, decide_False.
Qed.

Lemma vfs_file_write_spec f N T B node nm i c file buf count :
  fs_rel f N T B -> file_node T B node nm i c -> f_node file = Some node -> bytes_ok buf ->
  0 <= count <= MAX_FILE -> count <= Z.of_nat (length buf) ->
  exists f' T' B' node', vfs_file_write f file buf count = Some (0, f', set_f_node (Some node') file) /\
    fs_rel f' N T' B' /\ file_node T' B' node' nm i (take (Z.to_nat count) buf) /\
    (forall q nm', 0 <= q < 64 -> fs_find T' B' q nm' = fs_find T B q nm') /\
    forall j, 0 <= j < 64 -> j <> i -> fs_file T' B' j = fs_file T B j.
Proof.
  intros Hrel Hfn Hnode Hb Hc1 Hc2. unfold vfs_file_write. rewrite Hnode. cbn [mbind option_bind].
  destruct (vfs_write_spec f N T B node nm i c buf count Hrel Hfn Hb Hc1 Hc2) as
    (f' & T' & B' & node' & -> & Hrel' & Hfn' & Hfind & Hrest). cbn [mbind option_bind].
  exists f', T', B', node'. by split.
Qed.
(** Another node of the same file, made before the write. *)
Lemma other_node T B T' B' node' nm' node2 nm2 i c c' :
  file_node T' B' node' nm' i c' ->
  (forall q nm, 0 <= q < 64 -> fs_find T' B' q nm = fs_find T B q nm) ->
  file_node T B node2 nm2 i c -> file_node T' B' node2 nm2 i c'.
Proof.
  intros [_ _ _ _ Hc'] Hfind [Hp Hpr Hn Hf _]. split; try done. by rewrite Hfind.
Qed.

(** A File has no cursor.  Whatever its offset says, reading a regular file
    answers its first bytes and moves the offset by as many, so the next read
    answers the same bytes; and writing replaces the whole contents, answers 0
    and leaves the offset where it was. *)
Theorem file_offset_is_ignored f N T B node nm i c file buf count :
  fs_rel f N T B -> file_node T B node nm i c -> f_node file = Some node -> bytes_ok buf ->
  0 <= count <= MAX_FILE -> count <= Z.of_nat (length buf) ->
  let n := Nat.min (Z.to_nat count) (length c) in
  vfs_file_read (dev f) file buf count =
    Some (Z.of_nat n, take n c ++ drop n buf, advance file (Z.of_nat n)) /\
  vfs_file_read (dev f) (advance file (Z.of_nat n)) buf count =
    Some (Z.of_nat n, take n c ++ drop n buf, advance (advance file (Z.of_nat n)) (Z.of_nat n)) /\
  exists f' T' B' node', vfs_file_write f file buf count = Some (0, f', set_f_node (Some node') file) /\
    fs_rel f' N T' B' /\ file_node T' B' node' nm i (take (Z.to_nat count) buf).
Proof.
  intros Hrel Hfn Hnode Hb Hc1 Hc2 n. unfold MAX_FILE in *. split; [|split].
  - apply (vfs_file_read_spec f N T B node nm i c); (done || lia).
  - apply (vfs_file_read_spec f N T B node nm i c); try (done || lia). unfold advance. by destruct (0 <? _).
  - destruct (vfs_file_write_spec f N T B node nm i c file buf count Hrel Hfn Hnode Hb) as
      (f' & T' & B' & node' & ? & ? & ? & _); [done|done|]. by exists f', T', B', node'.
Qed.
End Regular.

(** ** Examples *)
Import RamDisk Crtc.

(** A keyboard with the key [a] waiting. *)
Definition demo_kbd : keyboard := mk_kbd (<[0%nat := 97]> (replicate 128 0)) 1 0.
Lemma demo_kbd_wf : kbd_wf demo_kbd.
Proof. split; [reflexivity|cbn; lia..]. Qed.
Lemma demo_kbd_keys : keys demo_kbd = [97].
Proof. reflexivity. Qed.

Lemma stdin_read_takes_keys_witness : exists k', stdin_read demo_kbd [0; 0; 0] 3 = Some (1, [97; 0; 0], k') /\
  keys k' = [].
Proof.
  destruct (stdin_read_takes_keys demo_kbd [0; 0; 0] 3) as (k' & Heq & _ & Hk).
  - exact demo_kbd_wf.
  - rewrite demo_kbd_keys. by intros [? | []%elem_of_nil]%elem_of_cons.
  - cbn. lia.
  - exists k'. rewrite demo_kbd_keys in Heq, Hk. split; [exact Heq|exact Hk].
Defined.

Lemma console_write_shows_witness : exists v', stdout_write demo_screen [104; 105; 10] 3 = Some (3, v') /\
  shows demo_screen [104; 105; 10] v'.
Proof.
  destruct (console_write_shows demo_screen [104; 105; 10] 3) as [H _].
  - exact demo_screen_wf.
  - by repeat constructor.
  - cbn. lia.
  - lia.
  - exact H.
Defined.

Lemma demo_file_node : exists (f : fs disk) T B node i, fs_rel f 32768 T B /\ file_node T B node name_a i [].
Proof.
  destruct demo_file as (f & T & B & i & _ & Hrel & Hf & Hc).
  exists f, T, B, (node_of T i name_a 0), i. split; [exact Hrel|].
  assert (Hst : step T B root_node name_a = Some (node_of T i name_a 0)).
  { unfold step. change (is_dir root_node) with true. cbn [negb].
    rewrite decide_False by done. change (n_inode_idx root_node) with 0. rewrite Hf. reflexivity. }
  apply (step_file_node f 32768 T B root_node (cbuf name_a) name_a (node_of T i name_a 0) [] Hrel
    (proj1 root_node_valid) name_a_ok Hst); [rewrite node_of_dir; exact (demo_plain T B i Hc)|exact Hc].
Qed.

Lemma file_offset_is_ignored_witness : exists (f : fs disk) file,
  vfs_file_read (dev f) file [7; 7] 2 = Some (0, [7; 7], file) /\
  exists f' file', vfs_file_write f file [7; 7] 2 = Some (0, f', file').
Proof.
  destruct demo_file_node as (f & T & B & node & i & Hrel & Hfn).
  exists f, (mk_file FILE_TYPE_REGULAR vfs_file_ops (Some node) 5 0 1).
  destruct (file_offset_is_ignored f 32768 T B node name_a i [] (mk_file FILE_TYPE_REGULAR vfs_file_ops (Some node) 5 0 1)
    [7; 7] 2 Hrel Hfn eq_refl) as (Hr & _ & f' & T' & B' & node' & Hw & _).
  - by repeat constructor.
  - unfold MAX_FILE. lia.
  - cbn. lia.
  - split; [exact Hr|]. eexists _, _. exact Hw.
Defined.
