(* ===== verification/Cpu.v ===== *)
(** * The processor registers and the context switch of arch/x86/boot.asm

    The words of the kernel stacks are a map from address to 32-bit word; a
    read of a word that was never written is [None].  [pusha], [popa] and the
    rest of [switch_context] follow the assembly one instruction at a time. *)
From S2P Require Import Prelude.

Record gprs := mk_gprs {
  r_eax : Z; r_ecx : Z; r_edx : Z; r_ebx : Z; r_ebp : Z; r_esi : Z; r_edi : Z;
}.
Record cpu := mk_cpu { r_eip : Z; r_esp : Z; r_eflags : Z; r_gpr : gprs }.
Definition set_esp sp c := mk_cpu (r_eip c) sp (r_eflags c) (r_gpr c).

Notation stack_words := (gmap Z Z).
Implicit Types (c : cpu) (w : stack_words).

(** [push v] *)
Definition push (v : Z) (s : cpu * stack_words) : cpu * stack_words :=
  let sp := u32 (r_esp (fst s) - 4) in
  (set_esp sp (fst s), <[sp := v]> (snd s)).
(** [pop]: the word and the processor after it. *)
Definition pop c w : option (Z * cpu) :=
  v ← w !! r_esp c; Some (v, set_esp (u32 (r_esp c + 4)) c).

(** EAX, ECX, EDX, EBX, ESP before the instruction, EBP, ESI, EDI *)
Definition pusha (s : cpu * stack_words) : cpu * stack_words :=
  let g := r_gpr (fst s) in
  push (r_edi g) (push (r_esi g) (push (r_ebp g) (push (r_esp (fst s))
    (push (r_ebx g) (push (r_edx g) (push (r_ecx g) (push (r_eax g) s))))))).
Definition pushfd (s : cpu * stack_words) : cpu * stack_words := push (r_eflags (fst s)) s.

(** The saved ESP is skipped. *)
Definition popa c w : option cpu :=
  '(edi, c) ← pop c w; '(esi, c) ← pop c w; '(ebp, c) ← pop c w; '(_, c) ← pop c w;
  '(ebx, c) ← pop c w; '(edx, c) ← pop c w; '(ecx, c) ← pop c w; '(eax, c) ← pop c w;
  Some (mk_cpu (r_eip c) (r_esp c) (r_eflags c) (mk_gprs eax ecx edx ebx ebp esi edi)).
Definition popfd c w : option cpu :=
  '(f, c) ← pop c w; Some (mk_cpu (r_eip c) (r_esp c) f (r_gpr c)).
Definition ret c w : option cpu :=
  '(a, c) ← pop c w; Some (mk_cpu a (r_esp c) (r_eflags c) (r_gpr c)).

(** [call switch_context(prev, next)] up to the store of ESP: the arguments and
    the return address are pushed, then the flags and the registers; the
    answers are the arguments as the assembly reads them back. *)
Definition switch_save (ret_addr prev next : Z) c w : option (Z * Z * cpu * stack_words) :=
  let s := push ret_addr (push prev (push next (c, w))) in
  let '(c, w) := pusha (pushfd s) in
  eax ← w !! u32 (r_esp c + 40);
  edx ← w !! u32 (r_esp c + 44);
  Some (eax, edx, c, w).
(** From [mov esp, [edx + 4]] on. *)
Definition switch_load (sp : Z) c w : option cpu :=
  c ← popa (set_esp sp c) w; c ← popfd c w; ret c w.

(** [iret] to another ring: EIP, CS, EFLAGS, ESP, SS. *)
Record user_context := mk_user { u_eip : Z; u_cs : Z; u_eflags : Z; u_esp : Z; u_ss : Z }.
Definition iret c w : option user_context :=
  '(eip, c) ← pop c w; '(cs, c) ← pop c w; '(fl, c) ← pop c w;
  '(sp, c) ← pop c w; '(ss, _) ← pop c w;
  Some (mk_user eip cs fl sp ss).

(** ** What is on the stack of a task that is not running *)
Record frame_at w (sp : Z) c : Prop := {
  fr_range : 0 <= sp /\ sp + 40 < 4294967296;
  fr_edi : w !! sp = Some (r_edi (r_gpr c));
  fr_esi : w !! (sp + 4) = Some (r_esi (r_gpr c));
  fr_ebp : w !! (sp + 8) = Some (r_ebp (r_gpr c));
  fr_old : is_Some (w !! (sp + 12));
  fr_ebx : w !! (sp + 16) = Some (r_ebx (r_gpr c));
  fr_edx : w !! (sp + 20) = Some (r_edx (r_gpr c));
  fr_ecx : w !! (sp + 24) = Some (r_ecx (r_gpr c));
  fr_eax : w !! (sp + 28) = Some (r_eax (r_gpr c));
  fr_flags : w !! (sp + 32) = Some (r_eflags c);
  fr_eip : w !! (sp + 36) = Some (r_eip c);
  fr_esp : r_esp c = sp + 40;
}.

Lemma frame_frame w w' sp c : (forall a, sp <= a < sp + 40 -> w' !! a = w !! a) ->
  frame_at w sp c -> frame_at w' sp c.
Proof. intros Hw []. split; rewrite ?Hw by lia; done. Qed.

Lemma pop_eq c w v : w !! r_esp c = Some v -> 0 <= r_esp c < 4294967292 ->
  pop c w = Some (v, set_esp (r_esp c + 4) c).
Proof. intros Hv Hr. unfold pop. rewrite Hv. cbn [mbind option_bind]. by rewrite u32_small by lia. Qed.

(** One [pop] whose word a hypothesis gives. *)
Ltac pop_step :=
  erewrite pop_eq;
    [|cbn [set_esp r_esp];
      match goal with
      | H : ?w !! ?a = Some _ |- ?w !! ?b = _ => replace b with a by lia; exact H
      end
     |cbn [set_esp r_esp]; lia];
  cbn [mbind option_bind set_esp r_esp r_eip r_eflags r_gpr].

Lemma switch_load_spec w sp c0 c : frame_at w sp c -> switch_load sp c0 w = Some c.
Proof.
  intros [Hr H1 H2 H3 [x H4] H5 H6 H7 H8 H9 H10 Hsp].
  unfold switch_load, popa, popfd, ret. cbn [set_esp r_esp r_eip r_eflags r_gpr mbind option_bind].
  do 10 pop_step. f_equal. destruct c as [eip esp fl []]. cbn in *. f_equal. lia.
Qed.

(** What the call saves: 48 bytes below the stack pointer, the frame of a
    processor that comes back at [ret_addr] with its arguments still on the
    stack, and nothing else. *)
Definition resumed (ret_addr : Z) c : cpu :=
  mk_cpu ret_addr (r_esp c - 8) (r_eflags c) (r_gpr c).
Lemma push_eq v c w : 4 <= r_esp c < 4294967296 ->
  push v (c, w) = (set_esp (r_esp c - 4) c, <[r_esp c - 4 := v]> w).
Proof. intros. unfold push. cbn [fst snd]. by rewrite u32_small by lia. Qed.

Lemma switch_save_spec ret_addr prev next c w : 48 <= r_esp c < 4294967296 ->
  exists c' w', switch_save ret_addr prev next c w = Some (prev, next, c', w') /\
    r_esp c' = r_esp c - 48 /\ frame_at w' (r_esp c - 48) (resumed ret_addr c) /\
    forall a, ~ (r_esp c - 48 <= a < r_esp c) -> w' !! a = w !! a.
Proof.
  intros Hsp. destruct c as [eip sp fl g]. cbn [r_esp] in Hsp. unfold switch_save, pusha, pushfd.
  cbv zeta. repeat (rewrite push_eq by (cbn [set_esp r_esp]; lia);
    cbn [fst snd set_esp r_esp r_gpr r_eflags]).
  rewrite !u32_small by lia. rewrite !lookup_insert.
  repeat (first [rewrite decide_True by lia | rewrite decide_False by lia];
    cbn [mbind option_bind]).
  eexists _, _. split; [reflexivity|]. split; [simpl; lia|]. split.
  - split; cbn [resumed r_eip r_esp r_gpr r_eflags]; [lia| | | | | | | | | | |lia];
      rewrite !lookup_insert;
      repeat first [rewrite decide_True by lia | rewrite decide_False by lia]; by eauto.
  - intros a Ha. rewrite !lookup_insert. repeat rewrite decide_False by lia. done.
Qed.
