(* ===== verification/Registers.v ===== *)
(** * The system call frame of arch/x86/boot.asm and syscall.h

    [int 0x80] from ring 3: the processor pushes five words on the kernel stack
    of the task, [isr80] pushes the general registers and the segments, and the
    handler sees them as the struct [Registers].  [isr80_enter] and [isr80_exit]
    follow the assembly; the call of the handler in between is left open. *)
From S2P Require Import Prelude Cpu.

(** The four segment registers the stub saves. *)
Record segs := mk_segs { r_ds : Z; r_es : Z; r_fs : Z; r_gs : Z }.

Record Registers := mk_registers {
  rg_gs : Z; rg_fs : Z; rg_es : Z; rg_ds : Z;
  rg_edi : Z; rg_esi : Z; rg_ebp : Z; rg_esp : Z; rg_ebx : Z; rg_edx : Z; rg_ecx : Z; rg_eax : Z;
  rg_eip : Z; rg_cs : Z; rg_eflags : Z;
}.
Definition set_eax x r := mk_registers (rg_gs r) (rg_fs r) (rg_es r) (rg_ds r) (rg_edi r) (rg_esi r) (rg_ebp r) (rg_esp r)
  (rg_ebx r) (rg_edx r) (rg_ecx r) x (rg_eip r) (rg_cs r) (rg_eflags r).

(** What the processor and the stub push; [esp0] is the TSS's. *)
Definition int_frame (esp0 : Z) (u : user_context) (g : gprs) (w : stack_words) : cpu * stack_words :=
  push (u_eip u) (push (u_cs u) (push (u_eflags u) (push (u_esp u) (push (u_ss u)
    (mk_cpu 0 esp0 (u_eflags u) g, w))))).
Definition isr80_enter (esp0 : Z) (u : user_context) (g : gprs) (sg : segs) (w : stack_words)
  : cpu * stack_words :=
  push (r_gs sg) (push (r_fs sg) (push (r_es sg) (push (r_ds sg) (pusha (int_frame esp0 u g w))))).

(** The struct at [sp]: the handler's argument. *)
Definition regs_at (w : stack_words) (sp : Z) : option Registers :=
  g ← w !! sp; f ← w !! (sp + 4); e ← w !! (sp + 8); d ← w !! (sp + 12);
  di ← w !! (sp + 16); si ← w !! (sp + 20); bp ← w !! (sp + 24); s ← w !! (sp + 28);
  b ← w !! (sp + 32); dx ← w !! (sp + 36); cx ← w !! (sp + 40); ax ← w !! (sp + 44);
  ip ← w !! (sp + 48); c ← w !! (sp + 52); fl ← w !! (sp + 56);
  Some (mk_registers g f e d di si bp s b dx cx ax ip c fl).
(** [regs->eax = x] *)
Definition store_eax (sp x : Z) (w : stack_words) : stack_words := <[sp + 44 := x]> w.

(** From [add esp, 4] after the call on. *)
Definition isr80_exit (sp : Z) (c : cpu) (w : stack_words) : option (gprs * segs * user_context) :=
  '(g, c) ← pop (set_esp sp c) w; '(f, c) ← pop c w; '(e, c) ← pop c w; '(d, c) ← pop c w;
  c ← popa c w;
  u ← iret c w;
  Some (r_gpr c, mk_segs d e f g, u).

(** ** The frame *)
Definition set_r_eax x g := mk_gprs x (r_ecx g) (r_edx g) (r_ebx g) (r_ebp g) (r_esi g) (r_edi g).
Definition user_registers (esp0 : Z) (u : user_context) (g : gprs) (sg : segs) : Registers :=
  mk_registers (r_gs sg) (r_fs sg) (r_es sg) (r_ds sg) (r_edi g) (r_esi g) (r_ebp g) (esp0 - 20)
    (r_ebx g) (r_edx g) (r_ecx g) (r_eax g) (u_eip u) (u_cs u) (u_eflags u).

(** The words of the frame, from the struct up to the stack segment. *)
Record frame80 (w : stack_words) (sp : Z) (r : Registers) (usp uss : Z) : Prop := {
  f8_regs : regs_at w sp = Some r;
  f8_esp : w !! (sp + 60) = Some usp;
  f8_ss : w !! (sp + 64) = Some uss;
}.

Ltac lookup_offsets :=
  repeat (rewrite lookup_insert;
    first [rewrite decide_True by lia | rewrite decide_False by lia]); try reflexivity.

Lemma enter_spec esp0 u g sg w : 128 <= esp0 < 4294967296 ->
  exists c' w', isr80_enter esp0 u g sg w = (c', w') /\ r_esp c' = esp0 - 68 /\
    frame80 w' (esp0 - 68) (user_registers esp0 u g sg) (u_esp u) (u_ss u) /\
    forall a, ~ (esp0 - 68 <= a < esp0) -> w' !! a = w !! a.
Proof.
  intros Hsp. unfold isr80_enter, int_frame, pusha. cbv zeta.
  repeat (rewrite push_eq by (cbn [set_esp r_esp]; lia);
    cbn [fst snd set_esp r_esp r_gpr r_eflags]).
  eexists _, _. split; [reflexivity|]. cbn [r_esp set_esp]. split; [lia|]. split.
  - split; [unfold regs_at|lookup_offsets..].
    repeat (rewrite lookup_insert; first [rewrite decide_True by lia; cbn [mbind option_bind]
      | rewrite decide_False by lia]).
    unfold user_registers. do 2 f_equal. lia.
  - intros a Ha. rewrite !lookup_insert. repeat rewrite decide_False by lia. done.
Qed.

(** A [pop] through the frame. *)
Lemma exit_spec sp c w r usp uss : 0 <= sp < 4294967228 -> frame80 w sp r usp uss ->
  isr80_exit sp c w = Some (mk_gprs (rg_eax r) (rg_ecx r) (rg_edx r) (rg_ebx r) (rg_ebp r) (rg_esi r) (rg_edi r),
    mk_segs (rg_ds r) (rg_es r) (rg_fs r) (rg_gs r), mk_user (rg_eip r) (rg_cs r) (rg_eflags r) usp uss).
Proof.
  intros Hsp [Hr H1 H2]. unfold regs_at in Hr.
  repeat (apply mbind_Some in Hr as (? & ? & Hr)). injection Hr as <-.
  unfold isr80_exit, popa, iret. cbn [set_esp r_esp r_eip r_eflags r_gpr mbind option_bind].
  do 17 pop_step. reflexivity.
Qed.

(** Storing [eax] in the struct. *)
Lemma regs_at_store w w' sp r x : regs_at w sp = Some r ->
  (forall a, sp <= a < sp + 60 -> w' !! a = store_eax sp x w !! a) ->
  regs_at w' sp = Some (set_eax x r).
Proof.
  intros Hr Hw. unfold regs_at, store_eax in *.
  repeat (apply mbind_Some in Hr as (? & ? & Hr)). injection Hr as <-. rewrite !Hw by lia.
  repeat (rewrite lookup_insert; first [rewrite decide_True by lia|rewrite decide_False by lia]).
  repeat match goal with H : _ !! _ = Some _ |- _ => rewrite H; clear H; cbn [mbind option_bind] end.
  reflexivity.
Qed.

(** C10. A system call is transparent but for its result.  Whatever the user program
    runs with, [isr80] hands the handler the struct [Registers] with the user's
    registers and return address; if the handler changes nothing of the frame
    but the word of [eax], the program goes on at its return address with its
    stack, flags, segments and registers, and the new [eax]. *)
Theorem isr80_restores esp0 u g sg w c w' x :
  128 <= esp0 < 4294967296 ->
  let sp := esp0 - 68 in
  (forall a, sp <= a < esp0 -> w' !! a = store_eax sp x (snd (isr80_enter esp0 u g sg w)) !! a) ->
  r_esp (fst (isr80_enter esp0 u g sg w)) = sp /\
  regs_at (snd (isr80_enter esp0 u g sg w)) sp = Some (user_registers esp0 u g sg) /\
  isr80_exit sp c w' = Some (set_r_eax x g, sg, u) /\
  forall a, ~ (sp <= a < esp0) -> snd (isr80_enter esp0 u g sg w) !! a = w !! a.
Proof.
  intros Hsp sp Hw. destruct (enter_spec esp0 u g sg w Hsp) as (c1 & w1 & Heq & Hc1 & Hf & Hrest).
  rewrite Heq in *. cbn [fst snd] in *. split; [done|]. split; [apply Hf|]. split; [|exact Hrest].
  rewrite (exit_spec sp c w' (set_eax x (user_registers esp0 u g sg)) (u_esp u) (u_ss u)); [|lia|].
  - by destruct g, sg, u.
  - destruct Hf as [Hr H1 H2]. fold sp in Hr, H1, H2. split.
    + apply (regs_at_store w1); [done|]. intros a Ha. apply Hw. lia.
    + rewrite Hw by lia. unfold store_eax. rewrite lookup_insert_ne by lia. exact H1.
    + rewrite Hw by lia. unfold store_eax. rewrite lookup_insert_ne by lia. exact H2.
Qed.

Lemma isr80_restores_witness :
  let w1 := snd (isr80_enter 0x8400 (mk_user 0x40000010 0x1B 0x0202 0xBFFFEF00 0x23)
    (mk_gprs 10 1 0x40 5 6 7 8) (mk_segs 0x23 0x23 0x23 0x23) ∅) in
  isr80_exit (0x8400 - 68) (mk_cpu 0 0 0 (mk_gprs 0 0 0 0 0 0 0)) (store_eax (0x8400 - 68) 99 w1) =
    Some (mk_gprs 99 1 0x40 5 6 7 8, mk_segs 0x23 0x23 0x23 0x23,
      mk_user 0x40000010 0x1B 0x0202 0xBFFFEF00 0x23).
Proof.
  intros w1. apply (isr80_restores 0x8400 (mk_user 0x40000010 0x1B 0x0202 0xBFFFEF00 0x23)
    (mk_gprs 10 1 0x40 5 6 7 8) (mk_segs 0x23 0x23 0x23 0x23) ∅ _ _ 99); [lia|].
  intros a _. reflexivity.
Defined.
