(* ===== verification/UserMem.v ===== *)
(** * The memory of the caller of a system call

    The bytes the active page directory maps, by address.  A pointer the kernel
    is given stands for the bytes from there to the end of the mapped run. *)
From S2P Require Import Prelude CString.

Notation memory_map := (gmap Z Z).
Fixpoint mapped_run (n : nat) (mem : memory_map) (p : Z) : list Z :=
  match n with
  | O => []
  | S n' => match mem !! p with Some b => b :: mapped_run n' mem (p + 1) | None => [] end
  end.
(** The bytes from [p] on. *)
Definition object (mem : memory_map) (p : Z) : list Z := mapped_run (size mem) mem p.
(** The bytes [bs] stored from [p] on. *)
Fixpoint put_bytes (mem : memory_map) (p : Z) (bs : list Z) : memory_map :=
  match bs with [] => mem | b :: bs' => <[p := b]> (put_bytes mem (p + 1) bs') end.

Implicit Types (mem : memory_map) (bs : list Z).

Lemma put_bytes_lookup bs : forall mem p a, put_bytes mem p bs !! a =
  if decide (p <= a < p + Z.of_nat (length bs)) then bs !! Z.to_nat (a - p) else mem !! a.
Proof.
  induction bs as [|b bs IH]; intros mem p a; cbn [put_bytes length].
  { by rewrite decide_False by lia. }
  rewrite lookup_insert. case_decide as Hpa.
  - subst. by rewrite decide_True, Z.sub_diag by lia.
  - rewrite IH. case_decide; [rewrite decide_True by lia|by rewrite decide_False by lia].
    by replace (Z.to_nat (a - p)) with (S (Z.to_nat (a - (p + 1)))) by lia.
Qed.

Lemma mapped_run_lookup n : forall mem p i b, mapped_run n mem p !! i = Some b -> mem !! (p + Z.of_nat i) = Some b.
Proof.
  induction n as [|n IH]; intros mem p i b; cbn [mapped_run]; [done|].
  destruct (mem !! p) as [x|] eqn:Hp; [|done]. destruct i as [|i]; simpl.
  - intros [=<-]. by rewrite Z.add_0_r.
  - intros Hi%IH. rewrite <- Hi. f_equal. lia.
Qed.
Lemma mapped_run_length n : forall mem p k, (k <= n)%nat ->
  (forall i, (i < k)%nat -> is_Some (mem !! (p + Z.of_nat i))) -> (k <= length (mapped_run n mem p))%nat.
Proof.
  induction n as [|n IH]; intros mem p k Hk Hm; [lia|]. destruct k as [|k]; [lia|]. cbn [mapped_run].
  destruct (Hm 0%nat ltac:(lia)) as [x Hx]. rewrite Z.add_0_r in Hx. rewrite Hx. simpl.
  apply le_n_S. apply IH; [lia|]. intros i Hi. replace (p + 1 + Z.of_nat i) with (p + Z.of_nat (S i)) by lia.
  apply Hm. lia.
Qed.

(** [k] bytes are mapped from [p] on. *)
Definition readable mem (p : Z) (k : nat) : Prop := forall i, (i < k)%nat -> is_Some (mem !! (p + Z.of_nat i)).
Lemma readable_object mem p k : readable mem p k -> (k <= length (object mem p))%nat.
Proof.
  intros Hr. apply mapped_run_length; [|done].
  rewrite <- (length_seq k 0), <- (length_fmap (fun i => p + Z.of_nat i)), <- (size_dom (D := gset Z) mem).
  rewrite <- (size_list_to_set (C := gset Z)).
  - apply subseteq_size. intros a. rewrite elem_of_list_to_set, elem_of_dom, list_elem_of_fmap.
    intros (i & -> & Hi%elem_of_seq). apply Hr. lia.
  - apply NoDup_fmap_2; [|apply NoDup_seq]. intros i j. lia.
Qed.
Lemma object_lookup mem p i b : object mem p !! i = Some b -> mem !! (p + Z.of_nat i) = Some b.
Proof. apply mapped_run_lookup. Qed.
Lemma object_bytes mem p : map_Forall (fun _ b => 0 <= b < 256) mem -> bytes_ok (object mem p).
Proof.
  intros Hm. unfold bytes_ok. rewrite Forall_lookup. intros i b Hi. by eapply Hm, object_lookup.
Qed.

(** Storing the front of a buffer and leaving the rest is a store of the front. *)
Lemma put_front mem mem' p bs : mem' ⊆ mem -> (length bs <= length (object mem' p))%nat ->
  put_bytes mem p (bs ++ drop (length bs) (object mem' p)) = put_bytes mem p bs.
Proof.
  intros Hsub Hl. apply map_eq. intros a. rewrite !put_bytes_lookup, length_app, length_drop.
  destruct (decide (p <= a < p + Z.of_nat (length bs))).
  - rewrite decide_True by lia. rewrite lookup_app_l by lia. done.
  - case_decide; [|done]. rewrite lookup_app_r, lookup_drop by lia.
    replace (length bs + (Z.to_nat (a - p) - length bs))%nat with (Z.to_nat (a - p)) by lia.
    destruct (lookup_lt_is_Some_2 (object mem' p) (Z.to_nat (a - p))) as [b Hb]; [lia|].
    rewrite Hb. apply object_lookup in Hb. rewrite Z2Nat.id in Hb by lia.
    replace (p + (a - p)) with a in Hb by lia. symmetry. by eapply lookup_weaken.
Qed.
Lemma readable_weaken mem mem' p k : mem' ⊆ mem -> readable mem' p k -> readable mem p k.
Proof. intros Hsub Hr i Hi. destruct (Hr i Hi) as [b Hb]. exists b. by eapply lookup_weaken. Qed.
(** Storing over bytes that are there maps nothing new. *)
Lemma put_bytes_dom mem mem' p bs : mem' ⊆ mem -> (length bs <= length (object mem' p))%nat ->
  dom (put_bytes mem p bs) = dom mem.
Proof.
  intros Hsub Hl. apply set_eq. intros a. rewrite !elem_of_dom, put_bytes_lookup.
  case_decide as Ha; [|done]. split; intros _; [|apply lookup_lt_is_Some_2; lia].
  destruct (lookup_lt_is_Some_2 (object mem' p) (Z.to_nat (a - p))) as [b Hb]; [lia|].
  apply object_lookup in Hb. rewrite Z2Nat.id in Hb by lia. replace (p + (a - p)) with a in Hb by lia.
  exists b. by eapply lookup_weaken.
Qed.
(** What was stored is read back. *)
Lemma object_put mem p bs : readable mem p (length bs) -> take (length bs) (object (put_bytes mem p bs) p) = bs.
Proof.
  intros Hr. assert (Hr' : readable (put_bytes mem p bs) p (length bs)).
  { intros i Hi. rewrite put_bytes_lookup, decide_True by lia.
    replace (Z.to_nat (p + Z.of_nat i - p)) with i by lia. by apply lookup_lt_is_Some_2. }
  apply readable_object in Hr'. apply list_eq. intros i. destruct (decide (i < length bs)%nat).
  - rewrite lookup_take_lt by lia.
    destruct (lookup_lt_is_Some_2 (object (put_bytes mem p bs) p) i) as [b Hb]; [lia|].
    rewrite Hb. apply object_lookup in Hb. rewrite put_bytes_lookup, decide_True in Hb by lia.
    by replace (Z.to_nat (p + Z.of_nat i - p)) with i in Hb by lia.
  - rewrite lookup_take_ge by lia. symmetry. apply lookup_ge_None. lia.
Qed.
