(* ===== verification/Task.v ===== *)
(** * task/task.cpp and task/task.h: tasks and the scheduler

    Task objects are values of the store [tasks], by address; freeing one
    removes it, so a use after free is [None], as is a use of a null pointer.
    [words] are the words of the kernel stacks and [s_cpu] the registers of the
    running task.  The memory managers are the interface [Memory].  Each
    function runs with interrupts off: the timer interrupt is a step of its
    own.  The loops of task_sleep and exit_task go on for as long as other
    tasks run, so what they do before the first [schedule()] is a definition
    and the rest is a sequence of [schedule] steps. *)
From S2P Require Import Prelude CString Allocator Memory BlockDev DiskLayout SimpleFs Vfs File.
From S2P Require Import PortIo Pic Gdt Timer Cpu.

Definition TASK_STACK_SIZE : Z := 1024.
Definition USER_STACK_TOP : Z := 0xBFFFF000.
Definition USER_STACK_BOTTOM : Z := USER_STACK_TOP - 4096.
Definition USER_CODE_START : Z := 0x40000000.
Definition SIZEOF_TASK : Z := 152.
(** PAGE_USER | PAGE_RW | PAGE_PRESENT *)
Definition USER_PAGE : Z := 7.

Inductive TaskState := TASK_READY | TASK_RUNNING | TASK_SLEEPING | TASK_DEAD.
#[export] Instance task_state_eq_dec : EqDecision TaskState.
Proof. solve_decision. Defined.

Record Task := mk_task {
  t_id : Z;
  t_esp : Z;
  kernel_stack_bottom : Z;
  user_stack_bottom : Z;
  kernel_stack_top : Z;
  t_cr3 : Z;
  is_user : bool;
  t_state : TaskState;
  wake_tick : Z;
  t_next : Z;
  fd_table : list Z;
  cwd : vfs_node;
}.
Definition set_t_esp x t := mk_task (t_id t) x (kernel_stack_bottom t) (user_stack_bottom t)
  (kernel_stack_top t) (t_cr3 t) (is_user t) (t_state t) (wake_tick t) (t_next t) (fd_table t) (cwd t).
Definition set_t_state x t := mk_task (t_id t) (t_esp t) (kernel_stack_bottom t) (user_stack_bottom t)
  (kernel_stack_top t) (t_cr3 t) (is_user t) x (wake_tick t) (t_next t) (fd_table t) (cwd t).
Definition set_wake_tick x t := mk_task (t_id t) (t_esp t) (kernel_stack_bottom t) (user_stack_bottom t)
  (kernel_stack_top t) (t_cr3 t) (is_user t) (t_state t) x (t_next t) (fd_table t) (cwd t).
Definition set_t_next x t := mk_task (t_id t) (t_esp t) (kernel_stack_bottom t) (user_stack_bottom t)
  (kernel_stack_top t) (t_cr3 t) (is_user t) (t_state t) (wake_tick t) x (fd_table t) (cwd t).

(** Link-time addresses: the static kernel task and the assembly labels. *)
Record symbols := mk_symbols {
  KERNEL_TASK : Z; EXIT_TASK : Z; TRAMPOLINE : Z; SCHEDULE_RET : Z;
}.

Record sched (E : Type) := mk_sched {
  tasks : gmap Z Task;
  files : gmap Z File;
  words : stack_words;
  current_task : Z;
  next_pid : Z;
  s_gdt : gdt;
  s_cpu : cpu;
  env : E;
}.
Arguments mk_sched {E} _ _ _ _ _ _ _ _.
Arguments tasks {E} _.
Arguments files {E} _.
Arguments words {E} _.
Arguments current_task {E} _.
Arguments next_pid {E} _.
Arguments s_gdt {E} _.
Arguments s_cpu {E} _.
Arguments env {E} _.

(** [t->field = v] *)
Definition poke_task (T : gmap Z Task) (a : Z) (f : Task -> Task) : option (gmap Z Task) :=
  t ← T !! a; Some (<[a := f t]> T).

Section Task.
Context {E : Type} `{Memory E} (syms : symbols).
Implicit Types (s : sched E) (e : E) (T : gmap Z Task).

Definition set_tasks T s : sched E :=
  mk_sched T (files s) (words s) (current_task s) (next_pid s) (s_gdt s) (s_cpu s) (env s).
Definition set_env e s : sched E :=
  mk_sched (tasks s) (files s) (words s) (current_task s) (next_pid s) (s_gdt s) (s_cpu s) e.
Definition set_current a s : sched E :=
  mk_sched (tasks s) (files s) (words s) a (next_pid s) (s_gdt s) (s_cpu s) (env s).
Definition set_gdt g s : sched E :=
  mk_sched (tasks s) (files s) (words s) (current_task s) (next_pid s) g (s_cpu s) (env s).

Definition get_current_task s : Z := current_task s.

(** ** Creation *)
(** The descriptor table, the allocator and the open files. *)
Definition init_task_fds e (F : gmap Z File) : option (list Z * E * gmap Z File) :=
  '(f0, e, F) ← create_stdin_file e F;
  '(f1, e, F) ← create_stdout_file e F;
  '(f2, e, F) ← create_stderr_file e F;
  Some (f0 :: f1 :: f2 :: replicate 13 0, e, F).

(** [for (; n > 0; i++) stack_top[-i] = 0] *)
Fixpoint zero_words (n : nat) (top i : Z) (w : stack_words) : stack_words :=
  match n with
  | O => w
  | S n' => zero_words n' top (i + 1) (<[u32 (top - 4 * i) := 0]> w)
  end.

(** The frame [switch_context] finds, and the return into exit_task. *)
Definition task_frame (top entry_point : Z) (w : stack_words) : stack_words :=
  let w := <[u32 (top - 4) := EXIT_TASK syms]> w in
  let w := <[u32 (top - 8) := entry_point]> w in
  let w := <[u32 (top - 12) := 0x0202]> w in
  zero_words 8 top 4 w.
(** The same with an [iret] frame to ring 3 above it. *)
Definition user_frame (top entry_point : Z) (w : stack_words) : stack_words :=
  let w := <[u32 (top - 4) := 0x23]> w in
  let w := <[u32 (top - 8) := USER_STACK_TOP]> w in
  let w := <[u32 (top - 12) := 0x0202]> w in
  let w := <[u32 (top - 16) := 0x1B]> w in
  let w := <[u32 (top - 20) := entry_point]> w in
  let w := <[u32 (top - 24) := TRAMPOLINE syms]> w in
  let w := <[u32 (top - 28) := 0x0202]> w in
  zero_words 8 top 8 w.

(** The end of both constructors: descriptors, cwd and the link behind the
    current task. *)
Definition link_task (vfs_root : vfs_node) s (w : stack_words) (new_task sp stack_mem user_stack cr3 : Z)
    (user : bool) : option (Z * sched E) :=
  let id := next_pid s in
  '(fds, e, F) ← init_task_fds (env s) (files s);
  cwd ← (if current_task s =? 0 then Some vfs_root else cwd <$> tasks s !! current_task s);
  cur ← tasks s !! current_task s;
  let t := mk_task id sp stack_mem user_stack (u32 (stack_mem + TASK_STACK_SIZE)) cr3 user
             TASK_READY 0 (t_next cur) fds cwd in
  T ← poke_task (<[new_task := t]> (tasks s)) (current_task s) (set_t_next new_task);
  Some (new_task, mk_sched T F w (current_task s) (u32 (next_pid s + 1)) (s_gdt s) (s_cpu s) e).

(** The address of the new task, 0 when memory is exhausted. *)
Definition create_task (vfs_root : vfs_node) s (entry_point : Z) : option (Z * sched E) :=
  '(stack_mem, e) ← kmalloc_op (env s) TASK_STACK_SIZE;
  if stack_mem =? 0 then Some (0, set_env e s) else
  '(new_task, e) ← kmalloc_op e SIZEOF_TASK;
  if new_task =? 0 then e ← kfree_op e stack_mem; Some (0, set_env e s) else
  let top := u32 (stack_mem + TASK_STACK_SIZE) in
  let w := task_frame top entry_point (words s) in
  kernel ← tasks s !! KERNEL_TASK syms;
  link_task vfs_root (set_env e s) w new_task (u32 (top - 44)) stack_mem 0 (t_cr3 kernel) false.

(** [if (p) free(p)] *)
Definition free_if (free : E -> Z -> option E) e (p : Z) : option E :=
  if p =? 0 then Some e else free e p.

Definition create_user_task (vfs_root : vfs_node) s (entry_point : Z) : option (Z * sched E) :=
  '(kernel_stack_mem, e) ← kmalloc_op (env s) TASK_STACK_SIZE;
  '(user_stack_mem, e) ← pmm_alloc_op e;
  if (kernel_stack_mem =? 0) || (user_stack_mem =? 0) then
    e ← free_if kfree_op e kernel_stack_mem;
    e ← free_if pmm_free_op e user_stack_mem;
    Some (0, set_env e s)
  else
  '(new_task, e) ← kmalloc_op e SIZEOF_TASK;
  if new_task =? 0 then
    e ← kfree_op e kernel_stack_mem;
    e ← pmm_free_op e user_stack_mem;
    Some (0, set_env e s)
  else
  '(cr3, e) ← vmm_create_op e;
  let e := vmm_switch_op e cr3 in
  e ← vmm_map_op e USER_STACK_BOTTOM user_stack_mem USER_PAGE;
  cur ← tasks s !! current_task s;
  let e := vmm_switch_op e (t_cr3 cur) in
  let top := u32 (kernel_stack_mem + TASK_STACK_SIZE) in
  let w := user_frame top entry_point (words s) in
  link_task vfs_root (set_env e s) w new_task (u32 (top - 60)) kernel_stack_mem user_stack_mem cr3 true.

(** [for (; n > 0; i++)]: one frame for each page of the program. *)
Fixpoint map_program (n : nat) e (i : Z) : option E :=
  match n with
  | O => Some e
  | S n' =>
      '(frame, e) ← pmm_alloc_op e;
      e ← vmm_map_op e (u32 (USER_CODE_START + i * 4096)) frame USER_PAGE;
      map_program n' e (i + 1)
  end.

(** [junk] is the path resolver's stack, [fill n] what a fresh buffer of [n] bytes holds. *)
Definition create_user_process {D} `{BlockDevice D} (d : D) (vfs_root : vfs_node)
    (junk filepath : list Z) (fill : nat -> list Z) s : option (Z * sched E) :=
  cur ← tasks s !! current_task s;
  r ← vfs_resolve_path d vfs_root (cwd cur) junk (Some filepath);
  match r with
  | None => Some (0, s)
  | Some file_node =>
      let size := n_size file_node in
      '(buf, e) ← kmalloc_op (env s) size;
      if buf =? 0 then Some (0, set_env e s) else
      '(_, contents) ← vfs_read d file_node (fill (Z.to_nat size)) size;
      '(new_task, s1) ← create_user_task vfs_root (set_env e s) USER_CODE_START;
      if new_task =? 0 then e ← kfree_op (env s1) buf; Some (0, set_env e s1) else
      T ← poke_task (tasks s1) new_task (fun t => set_wake_tick 0xFFFFFFFF (set_t_state TASK_SLEEPING t));
      t ← T !! new_task;
      let e := vmm_switch_op (env s1) (t_cr3 t) in
      e ← map_program (Z.to_nat (u32 (size + 4095) / 4096)) e 0;
      e ← memcpy_op e USER_CODE_START (take (Z.to_nat size) contents);
      e ← kfree_op e buf;
      cur ← T !! current_task s1;
      let e := vmm_switch_op e (t_cr3 cur) in
      T ← poke_task T new_task (fun t => set_wake_tick 0 (set_t_state TASK_READY t));
      Some (new_task, set_env e (set_tasks T s1))
  end.

(** From the zero-initialised [kernel_task]; [current_task] was null. *)
Definition init_tasking {D} `{BlockDevice D} (d : D) (vfs_root : vfs_node) (junk : list Z)
    (g : gdt) (c : cpu) (w : stack_words) e : option (sched E) :=
  '(fds, e, F) ← init_task_fds e ∅;
  r ← vfs_resolve_path d vfs_root zero_node junk (Some (cbuf [47]));
  let kernel_task := mk_task 0 0 0 0 0 (vmm_kernel_op e) false TASK_RUNNING 0 (KERNEL_TASK syms) fds
                       (default zero_node r) in
  Some (mk_sched {[KERNEL_TASK syms := kernel_task]} F w (KERNEL_TASK syms) 1 g c e).

(** ** Sleeping and the timer *)
(** [task_sleep] up to its loop; [None] inside when there is no task. *)
Definition task_sleep_start (tick : Z) s (ms : Z) : option (sched E) :=
  if current_task s =? 0 then Some s else
  let ticks := u32 (ms * TIMER_FREQ) / 1000 in
  let ticks := if (0 <? ms) && (ticks =? 0) then 1 else ticks in
  T ← poke_task (tasks s) (current_task s)
        (fun t => set_t_state TASK_SLEEPING (set_wake_tick (u32 (tick + ticks)) t));
  Some (set_tasks T s).
(** The loop condition. *)
Definition still_sleeping s : option bool :=
  t ← tasks s !! current_task s; Some (bool_decide (t_state t = TASK_SLEEPING)).

Definition wake_one (tick : Z) (t : Task) : Task :=
  if bool_decide (t_state t = TASK_SLEEPING) && (wake_tick t <=? tick)
  then set_t_state TASK_READY t else t.
(** The [do ... while (t != current_task)] loop. *)
Fixpoint wake_loop (fuel : nat) (tick start : Z) T (t : Z) : option (gmap Z Task) :=
  x ← T !! t;
  let T := <[t := wake_one tick x]> T in
  if t_next x =? start then Some T else
  match fuel with O => None | S fuel' => wake_loop fuel' tick start T (t_next x) end.
Definition task_timer_tick (tick : Z) s : option (sched E) :=
  if current_task s =? 0 then Some s else
  T ← wake_loop (size (tasks s)) tick (current_task s) (tasks s) (current_task s);
  Some (set_tasks T s).

(** ** kill_task *)
(** What the body of the [if] does with the task [t] at [a] behind [prev]. *)
Definition unlink_task s (prev a : Z) (t : Task) : option (sched E) :=
  T ← poke_task (tasks s) prev (set_t_next (t_next t));
  e ← kfree_op (env s) (kernel_stack_bottom t);
  e ← (if is_user t then e ← pmm_free_op e (user_stack_bottom t); pmm_free_op e (t_cr3 t) else Some e);
  e ← kfree_op e a;
  Some (set_env e (set_tasks (delete a T) s)).

Fixpoint kill_loop (fuel : nat) s (pid prev t : Z) : option (Z * sched E) :=
  x ← tasks s !! t;
  if t_id x =? pid then s' ← unlink_task s prev t x; Some (i32 pid, s') else
  if t_next x =? current_task s then Some (-1, s) else
  match fuel with O => None | S fuel' => kill_loop fuel' s pid t (t_next x) end.
Definition kill_task s (pid : Z) : option (Z * sched E) :=
  if current_task s =? 0 then Some (-1, s) else
  if pid =? 0 then Some (-1, s) else
  cur ← tasks s !! current_task s;
  kill_loop (size (tasks s)) s pid (current_task s) (t_next cur).

(** ** schedule *)
(** The [while] loop: the state after the dead tasks met were killed, and
    [next]. *)
Fixpoint pick_loop (fuel : nat) s (prev next : Z) : option (Z * sched E) :=
  x ← tasks s !! next;
  if bool_decide (t_state x = TASK_READY) || (next =? prev) then Some (next, s) else
  match fuel with
  | O => None
  | S fuel' =>
      if bool_decide (t_state x = TASK_DEAD) then
        '(_, s') ← kill_task s (t_id x);
        pick_loop fuel' s' prev (t_next x)
      else pick_loop fuel' s prev (t_next x)
  end.

Definition switch_context s (prev next : Z) : option (sched E) :=
  '(eax, edx, c, w) ← switch_save (SCHEDULE_RET syms) prev next (s_cpu s) (words s);
  T ← poke_task (tasks s) eax (set_t_esp (r_esp c));
  t ← T !! edx;
  c ← switch_load (t_esp t) c w;
  Some (mk_sched T (files s) w (current_task s) (next_pid s) (s_gdt s) c (env s)).

(** From the choice of [next] to the end. *)
Definition dispatch s (prev next : Z) : option (sched E) :=
  p ← tasks s !! prev;
  T ← (if bool_decide (t_state p = TASK_RUNNING)
       then poke_task (tasks s) prev (set_t_state TASK_READY) else Some (tasks s));
  T ← poke_task T next (set_t_state TASK_RUNNING);
  n ← T !! next;
  g ← (if is_user n then set_kernel_stack (s_gdt s) (kernel_stack_top n) else Some (s_gdt s));
  p ← T !! prev;
  let e := if t_cr3 p =? t_cr3 n then env s else vmm_switch_op (env s) (t_cr3 n) in
  switch_context (set_current next (set_gdt g (set_env e (set_tasks T s)))) prev next.

Definition schedule s : option (sched E) :=
  if current_task s =? 0 then Some s else
  cur ← tasks s !! current_task s;
  if t_next cur =? current_task s then Some s else
  '(next, s') ← pick_loop (size (tasks s)) s (current_task s) (t_next cur);
  x ← tasks s' !! next;
  if negb (bool_decide (t_state x = TASK_READY)) then Some s'
  else dispatch s' (current_task s) next.
Definition task_yield s : option (sched E) := schedule s.

(** [exit_task] up to its first [schedule()]. *)
Definition exit_task_start s : option (sched E) :=
  T ← poke_task (tasks s) (current_task s) (set_t_state TASK_DEAD); Some (set_tasks T s).

(** drivers/timer.cpp: the IRQ0 handler; [timer_ticks] and the ports. *)
Definition timer_handler {W} `{Ports W} (timer_ticks : Z) (w : W) s : option (Z * W * sched E) :=
  let timer_ticks := tick timer_ticks in
  s1 ← task_timer_tick timer_ticks s;
  let w := pic_send_eoi w 0 in
  s2 ← schedule s1;
  Some (timer_ticks, w, s2).
End Task.
