(* ===== verification/TaskRing.v ===== *)
(** * The circular task list

    [lseg T a l b]: following [next] from [a] visits the tasks [l] and arrives
    at [b].  The scheduler's list is a segment from the current task back to
    itself; what the loops of task/task.cpp do to it is shown here. *)
From S2P Require Import Prelude CString Allocator Memory Vfs File Cpu Task.

Implicit Types (T : gmap Z Task) (l : list Z).

Fixpoint lseg T (a : Z) l (b : Z) : Prop :=
  match l with
  | [] => a = b
  | x :: l' => a = x /\ exists t, T !! x = Some t /\ lseg T (t_next t) l' b
  end.

Lemma lseg_app T l1 : forall a l2 b,
  lseg T a (l1 ++ l2) b <-> exists m, lseg T a l1 m /\ lseg T m l2 b.
Proof.
  induction l1 as [|x l1 IH]; intros a l2 b; simpl; [naive_solver|]. split.
  - intros [-> (t & Ht & (m & H1 & H2)%IH)]. exists m. split; [|done]. split; [done|]. by exists t.
  - intros (m & [-> (t & Ht & H1)] & H2). split; [done|]. exists t. split; [done|].
    apply IH. by exists m.
Qed.
Lemma lseg_head T a x l b : lseg T a (x :: l) b -> a = x.
Proof. by intros [-> _]. Qed.
Lemma lseg_lookup T a l b x : lseg T a l b -> x ∈ l -> is_Some (T !! x).
Proof.
  revert a. induction l as [|y l IH]; intros a; simpl; [by intros _ ?%not_elem_of_nil|].
  intros [-> (t & Ht & Hl)] [->|Hx]%elem_of_cons; [by eexists|by eapply IH].
Qed.

(** The links of the tasks of [l] decide the segment. *)
Lemma lseg_frame T T' l : forall a b,
  (forall x, x ∈ l -> t_next <$> T' !! x = t_next <$> T !! x) -> lseg T a l b -> lseg T' a l b.
Proof.
  induction l as [|x l IH]; intros a b Hx; simpl; [done|]. intros [-> (t & Ht & Hl)].
  split; [done|]. specialize (Hx x ltac:(left)) as Hxx. rewrite Ht in Hxx.
  apply fmap_Some in Hxx as (t' & Ht' & Hn). exists t'. split; [done|]. rewrite <- Hn.
  apply IH; [|done]. intros y Hy. apply Hx. by right.
Qed.

(** The last link of a segment. *)
Definition relink T (p : Z) (n : Z) : gmap Z Task := alter (set_t_next n) p T.
Lemma relink_next T p n x : x <> p -> t_next <$> relink T p n !! x = t_next <$> T !! x.
Proof. intros. unfold relink. by rewrite lookup_alter_ne. Qed.
Lemma lseg_relink T a l p b n : lseg T a (l ++ [p]) b -> p ∉ l -> lseg (relink T p n) a (l ++ [p]) n.
Proof.
  intros (m & H1 & [-> (t & Ht & _)])%lseg_app Hp. apply lseg_app. exists p. split.
  - eapply lseg_frame; [|exact H1]. intros x Hx. apply relink_next. by intros ->.
  - split; [done|]. exists (set_t_next n t). unfold relink. by rewrite lookup_alter_eq, Ht.
Qed.

Lemma poke_alter T a f : is_Some (T !! a) -> poke_task T a f = Some (alter f a T).
Proof.
  intros [t Ht]. unfold poke_task. rewrite Ht. cbn [mbind option_bind]. f_equal.
  apply map_eq. intros b. destruct (decide (a = b)) as [<-|].
  - by rewrite lookup_insert_eq, lookup_alter_eq, Ht.
  - by rewrite lookup_insert_ne, lookup_alter_ne.
Qed.

(** ** Rings *)
Definition ring T (cur : Z) l : Prop := lseg T cur (cur :: l) cur /\ NoDup (cur :: l).

Lemma ring_rotate T cur l1 x l2 : ring T cur (l1 ++ x :: l2) -> ring T x (l2 ++ cur :: l1).
Proof.
  intros [Hl Hn]. split.
  - change (cur :: l1 ++ x :: l2) with ((cur :: l1) ++ x :: l2) in Hl.
    apply lseg_app in Hl as (m & H1 & H2). pose proof (lseg_head _ _ _ _ _ H2) as ->.
    change (x :: l2 ++ cur :: l1) with ((x :: l2) ++ cur :: l1). apply lseg_app. by exists cur.
  - eapply NoDup_Permutation_proper; [|exact Hn].
    change (x :: l2 ++ cur :: l1) with ((x :: l2) ++ cur :: l1). apply Permutation_app_comm.
Qed.

(** Unlinking [a], found behind [p]. *)
Lemma ring_unlink T cur l1 p a t l2 : ring T cur (l1 ++ a :: l2) ->
  T !! a = Some t -> last (cur :: l1) = Some p ->
  ring (delete a (relink T p (t_next t))) cur (l1 ++ l2).
Proof.
  intros [Hl Hn] Ha Hp. apply last_Some in Hp as [l0 Hp].
  change (cur :: l1 ++ a :: l2) with ((cur :: l1) ++ a :: l2) in *. rewrite Hp in *.
  assert (Hdel : forall T x, x <> a -> t_next <$> delete a T !! x = t_next <$> T !! x).
  { intros T' x Hx. by rewrite lookup_delete_ne. }
  apply lseg_app in Hl as (m & H1 & [-> (t' & Ht & H2)]).
  rewrite Ha in Ht. injection Ht as <-.
  apply NoDup_app in Hn as (Hn1 & Hd & [Ha2 Hn2]%NoDup_cons).
  apply NoDup_app in Hn1 as (Hn0 & Hp0 & _).
  assert (Hpl : p ∉ l0) by (intros Hx; apply (Hp0 p Hx), list_elem_of_singleton; done).
  assert (Hpa : p <> a).
  { intros ->. apply (Hd a); [|by left]. apply elem_of_app. right. by left. }
  split.
  - change (cur :: l1 ++ l2) with ((cur :: l1) ++ l2). rewrite Hp. apply lseg_app.
    exists (t_next t). split.
    + eapply lseg_frame; [|by eapply lseg_relink]. intros x Hx. apply Hdel. intros ->.
      apply (Hd a Hx). by left.
    + eapply lseg_frame; [|exact H2]. intros x Hx. rewrite Hdel by by intros ->.
      apply relink_next. intros ->. apply (Hd p); [|by right]. apply elem_of_app. right. by left.
  - change (cur :: l1 ++ l2) with ((cur :: l1) ++ l2). rewrite Hp. apply NoDup_app.
    split; [apply NoDup_app; split; [done|]; split; [done|by apply NoDup_singleton]|].
    split; [|done]. intros x Hx Hx2. apply (Hd x Hx). by right.
Qed.

(** Linking a new task behind the current one. *)
Lemma ring_link T cur l a t : ring T cur l -> T !! a = None ->
  t_next <$> T !! cur = Some (t_next t) -> ring (relink (<[a := t]> T) cur a) cur (a :: l).
Proof.
  intros [Hl Hn] Ha Hc. pose proof Hl as [_ (c & Hcur & Hrest)]. rewrite Hcur in Hc. injection Hc as Hc.
  assert (Hnin : a ∉ cur :: l).
  { intros Hx. destruct (lseg_lookup _ _ _ _ _ Hl Hx). congruence. }
  apply not_elem_of_cons in Hnin as [Hac Hal]. split.
  - split; [done|]. exists (set_t_next a c). unfold relink. split.
    { rewrite lookup_alter_eq, lookup_insert_ne by done. by rewrite Hcur. }
    split; [done|]. exists t. split; [by rewrite lookup_alter_ne, lookup_insert_eq|].
    rewrite <- Hc. eapply lseg_frame; [|exact Hrest]. intros x Hx.
    apply NoDup_cons in Hn as [Hcl _]. rewrite lookup_alter_ne by (by intros ->).
    rewrite lookup_insert_ne; [done|]. by intros ->.
  - apply NoDup_cons in Hn as [Hcl Hl']. apply NoDup_cons. split.
    + apply not_elem_of_cons. by split.
    + by apply NoDup_cons.
Qed.

(** ** wake_loop *)
Lemma wake_loop_spec tick start fuel : forall T a l,
  lseg T a l start -> NoDup l -> l <> [] -> start ∉ tail l -> (length l <= S fuel)%nat ->
  exists T', wake_loop fuel tick start T a = Some T' /\
    forall x, T' !! x = (if decide (x ∈ l) then wake_one tick else id) <$> T !! x.
Proof.
  assert (Hnext : forall t, t_next (wake_one tick t) = t_next t).
  { intros t. unfold wake_one. by destruct (_ && _). }
  induction fuel as [|fuel IH]; intros T a l Hl Hn Hne Hs Hf;
    (destruct l as [|y l]; [done|]); destruct Hl as [-> (t & Ht & Hl)]; cbn [wake_loop]; rewrite Ht;
    cbn [mbind option_bind]; apply NoDup_cons in Hn as [Hy Hn]; simpl in Hs.
  - destruct l as [|z l]; [|simpl in Hf; lia]. simpl in Hl. rewrite Hl, Z.eqb_refl.
    eexists. split; [reflexivity|]. intros x. rewrite lookup_insert. destruct (decide (y = x)) as [<-|].
    + rewrite decide_True by by left. by rewrite Ht.
    + rewrite decide_False by (by intros [->|?%not_elem_of_nil]%elem_of_cons). by destruct (T !! x).
  - destruct (Z.eqb_spec (t_next t) start) as [He|Hne'].
    + destruct l as [|z l]; [|apply lseg_head in Hl; exfalso; apply Hs; rewrite <- He, Hl; by left].
      eexists. split; [reflexivity|]. intros x. rewrite lookup_insert. destruct (decide (y = x)) as [<-|].
      * rewrite decide_True by by left. by rewrite Ht.
      * rewrite decide_False by (by intros [->|?%not_elem_of_nil]%elem_of_cons). by destruct (T !! x).
    + destruct (IH (<[y := wake_one tick t]> T) (t_next t) l) as (T' & HT' & Hlook).
      * eapply lseg_frame; [|exact Hl]. intros x Hx. rewrite lookup_insert_ne; [done|]. by intros ->.
      * done.
      * intros ->. simpl in Hl. done.
      * intros Hx. apply Hs. destruct l; [done|]. by right.
      * simpl in Hf. lia.
      * exists T'. split; [done|]. intros x. rewrite Hlook, lookup_insert.
        destruct (decide (y = x)) as [<-|Hyx].
        -- rewrite (decide_False (P := y ∈ l)), (decide_True (P := y ∈ y :: l)) by (done || by left).
           by rewrite Ht.
        -- destruct (decide (x ∈ l)); [rewrite decide_True by by right|
             rewrite decide_False by (by intros [->|?]%elem_of_cons)]; done.
Qed.
