(* ===== verification/TaskInv.v ===== *)
(** * The scheduler's invariant

    [sched_ok P m s l]: the tasks of [s] form a ring, the current task first
    and then [l]; every task but the kernel's own owns its Task object, its
    kernel stack and, in user mode, its stack page and its page directory,
    none of them shared; every task that is not running has a frame that
    [switch_context] can load inside its own stack.  [P] and [m] are the pages
    and heap blocks in use.  What kill_task does to it is shown here. *)
From S2P Require Import Prelude CString Allocator Memory Vfs File Gdt Cpu Task TaskRing.

(** What does not change while a task lives. *)
Definition core (t : Task) : Task :=
  mk_task (t_id t) 0 (kernel_stack_bottom t) (user_stack_bottom t) (kernel_stack_top t) (t_cr3 t)
    (is_user t) TASK_READY 0 0 (fd_table t) (cwd t).
Definition blocks_of (a : Z) (t : Task) : list Z := [a; kernel_stack_bottom t].
Definition pages_of (t : Task) : list held :=
  if is_user t then [StackPage (user_stack_bottom t); Directory (t_cr3 t)] else [].

Section Owned.
(** The address of the kernel's task, the kernel's page directory, and the
    next process number. *)
Context (K kdir : Z).

Record task_owns (m : gmap Z Z) (P : gset held) (a : Z) (t : Task) : Prop := {
  to_task : exists sz, m !! a = Some sz /\ SIZEOF_TASK <= sz;
  to_stack : exists sz, m !! kernel_stack_bottom t = Some sz /\ TASK_STACK_SIZE <= sz;
  to_distinct : a <> kernel_stack_bottom t;
  to_top : kernel_stack_top t = kernel_stack_bottom t + TASK_STACK_SIZE;
  to_pages : Forall (fun p => p ∈ P) (pages_of t);
  to_cr3 : is_user t = false -> t_cr3 t = kdir;
}.
Record owned (m : gmap Z Z) (P : gset held) (np : Z) (R : gmap Z Task) : Prop := {
  ow_kernel : exists k, R !! K = Some k /\ t_id k = 0 /\ is_user k = false /\ t_cr3 k = kdir;
  ow_ids : forall a b x y, R !! a = Some x -> R !! b = Some y -> t_id x = t_id y -> a = b;
  ow_range : forall a x, R !! a = Some x -> 0 <= t_id x < np;
  ow_null : R !! 0 = None;
  ow_task : forall a t, R !! a = Some t -> a <> K -> task_owns m P a t;
  ow_sep : forall a b t u, R !! a = Some t -> R !! b = Some u -> a <> K -> b <> K -> a <> b ->
    (forall p, p ∈ blocks_of a t -> p ∉ blocks_of b u) /\
    (forall p, p ∈ pages_of t -> p ∉ pages_of u);
}.

(** The heap blocks and pages left when the task [a] is gone. *)
Definition blocks_left (m : gmap Z Z) (a : Z) (t : Task) : gmap Z Z :=
  delete a (delete (kernel_stack_bottom t) m).
Definition pages_left (P : gset held) (t : Task) : gset held := P ∖ list_to_set (pages_of t).

Lemma blocks_left_lookup m a t p :
  blocks_left m a t !! p = if decide (p ∈ blocks_of a t) then None else m !! p.
Proof.
  unfold blocks_left, blocks_of. case_decide as Hp.
  - apply list_elem_of_In in Hp as [->|[->|[]]]; [apply lookup_delete_eq|].
    rewrite delete_delete. apply lookup_delete_eq.
  - rewrite lookup_delete_ne by set_solver. rewrite lookup_delete_ne by set_solver. done.
Qed.
Lemma pages_left_in P t q : q ∈ pages_left P t <-> q ∈ P /\ q ∉ pages_of t.
Proof. unfold pages_left. by rewrite elem_of_difference, elem_of_list_to_set. Qed.

Lemma owned_delete m P np R a t : owned m P np R -> R !! a = Some t -> a <> K ->
  owned (blocks_left m a t) (pages_left P t) np (delete a R).
Proof.
  intros [(k & Hk & Hk') Hi Hr Hn Ht Hs] Ha HaK. split.
  - exists k. by rewrite lookup_delete_ne.
  - intros b c x y [_ Hb]%lookup_delete_Some [_ Hc]%lookup_delete_Some. by eapply Hi.
  - intros b x [_ Hb]%lookup_delete_Some. by eapply Hr.
  - rewrite lookup_delete_None. by right.
  - intros b u [Hab Hb]%lookup_delete_Some HbK. destruct (Hs a b t u Ha Hb HaK HbK Hab) as [Hsb Hsp].
    destruct (Ht b u Hb HbK) as [(z1 & H1 & H1') (z2 & H2 & H2') Hd Htop HP Hc].
    assert (Hne : forall p, p ∈ blocks_of b u -> blocks_left m a t !! p = m !! p).
    { intros p Hp. unfold blocks_left. rewrite !lookup_delete_ne; [done|..];
        intros <-; (eapply Hsb; [|exact Hp]); unfold blocks_of; set_solver. }
    split; try done.
    + exists z1. by rewrite Hne by (unfold blocks_of; set_solver).
    + exists z2. by rewrite Hne by (unfold blocks_of; set_solver).
    + rewrite Forall_forall in HP |- *. intros p Hp. unfold pages_left.
      apply elem_of_difference. split; [by apply HP|]. rewrite elem_of_list_to_set. intros Hx.
      by apply (Hsp p).
  - intros b c u v [_ Hb]%lookup_delete_Some [_ Hc]%lookup_delete_Some. by apply Hs.
Qed.

(** A new task with fresh blocks and pages. *)
Lemma owned_insert m P np R a t : owned m P np R -> a <> K -> a <> 0 -> R !! a = None ->
  t_id t = np ->
  (forall b u, R !! b = Some u -> b <> K ->
     (forall p, p ∈ blocks_of a t -> p ∉ blocks_of b u) /\
     (forall p, p ∈ pages_of t -> p ∉ pages_of u)) ->
  task_owns m P a t -> owned m P (np + 1) (<[a := t]> R).
Proof.
  intros [(k & Hk & Hk') Hi Hr Hn Ht Hs] HaK Ha0 Ha Hid Hsep Hto.
  assert (Hnp : 0 <= np) by (destruct (Hr K k Hk); lia). split.
  - exists k. by rewrite lookup_insert_ne.
  - intros b c x y [[<- <-]|[? Hb]]%lookup_insert_Some [[<- <-]|[? Hc]]%lookup_insert_Some Hxy;
      [done| | |by eapply Hi].
    + specialize (Hr _ _ Hc). lia.
    + specialize (Hr _ _ Hb). lia.
  - intros b x [[<- <-]|[? Hb]]%lookup_insert_Some; [lia|]. specialize (Hr _ _ Hb). lia.
  - rewrite lookup_insert_ne by done. exact Hn.
  - intros b u [[<- <-]|[? Hb]]%lookup_insert_Some; [done|]. by apply Ht.
  - intros b c u v [[<- <-]|[? Hb]]%lookup_insert_Some [[<- <-]|[? Hc]]%lookup_insert_Some HbK HcK Hne;
      [done| | |by apply Hs].
    + by apply (Hsep c v).
    + destruct (Hsep b u Hb HbK) as [Hx Hy]. split; intros p Hp Hq; [by apply (Hx p)|by apply (Hy p)].
Qed.

(** More blocks and pages in use elsewhere. *)
Lemma owned_mono m m' P P' np R : owned m P np R ->
  (forall p sz, m !! p = Some sz -> m' !! p = Some sz) -> P ⊆ P' -> owned m' P' np R.
Proof.
  intros [Hk Hi Hr Hn Ht Hs] Hm HP. split; try done. intros a t Ha HaK.
  destruct (Ht a t Ha HaK) as [(z1 & H1 & H1') (z2 & H2 & H2') Hd Htop HF Hc].
  split; try done; [exists z1; split; [by apply Hm|done]|exists z2; split; [by apply Hm|done]|].
  eapply Forall_impl; [exact HF|]. simpl. intros p Hp. by apply HP.
Qed.
End Owned.

(** ** The invariant *)
Section Inv.
Context {E : Type} `{MemoryOk E} (syms : symbols).
(** The boot stack, on which the kernel's own task runs. *)
Context (boot_lo boot_hi : Z).
Implicit Types (s : sched E).

Record layout_ok : Prop := {
  lo_boot : 0 <= boot_lo <= boot_hi /\ boot_hi <= base /\ boot_hi < 4294967296;
  lo_kernel : 0 < KERNEL_TASK syms < base;
}.
Definition stack_lo (a : Z) (t : Task) : Z :=
  if a =? KERNEL_TASK syms then boot_lo else kernel_stack_bottom t.
Definition stack_hi (a : Z) (t : Task) : Z :=
  if a =? KERNEL_TASK syms then boot_hi else kernel_stack_bottom t + TASK_STACK_SIZE.

(** A frame inside the stack of the task at [a]. *)
Definition has_frame (w : stack_words) (a : Z) (t : Task) : Prop :=
  exists c, frame_at w (t_esp t) c /\ stack_lo a t <= t_esp t /\ t_esp t + 40 <= stack_hi a t.

Record sched_ok (P : gset held) (m : gmap Z Z) s (l : list Z) : Prop := {
  so_ring : ring (tasks s) (current_task s) l;
  so_dom : forall a, is_Some (tasks s !! a) <-> a ∈ current_task s :: l;
  so_owned : owned (KERNEL_TASK syms) kernel_dir m P (next_pid s) (core <$> tasks s);
  so_running : forall a t, tasks s !! a = Some t -> t_state t = TASK_RUNNING -> a = current_task s;
  so_memory : exists t, tasks s !! current_task s = Some t /\ holds P (t_cr3 t) (env s) m;
  so_frames : forall a t, tasks s !! a = Some t -> a <> current_task s -> has_frame (words s) a t;
  so_tss : length (tss_words (tss (s_gdt s))) = 25%nat;
  so_pid : next_pid s < 4294967296;
}.

(** The running task has the 48 bytes of stack that [switch_context] needs. *)
Definition has_room s : Prop := forall t, tasks s !! current_task s = Some t ->
  stack_lo (current_task s) t + 48 <= r_esp (s_cpu s) <= stack_hi (current_task s) t.

Lemma so_null P m s l : sched_ok P m s l -> current_task s <> 0.
Proof.
  intros Hs Hz. pose proof (ow_null _ _ _ _ _ _ (so_owned _ _ _ _ Hs)) as Hn.
  rewrite lookup_fmap, fmap_None in Hn.
  assert (is_Some (tasks s !! current_task s)) as [t Ht] by (apply (so_dom _ _ _ _ Hs); by left).
  rewrite Hz, Hn in Ht. done.
Qed.
Lemma so_in P m s l a : sched_ok P m s l -> a ∈ current_task s :: l ->
  exists t, tasks s !! a = Some t /\ (core <$> tasks s) !! a = Some (core t).
Proof.
  intros Hs Ha. apply (so_dom _ _ _ _ Hs) in Ha as [t Ht]. exists t. split; [done|].
  by rewrite lookup_fmap, Ht.
Qed.
Lemma so_size P m s l : sched_ok P m s l -> size (tasks s) = S (length l).
Proof.
  intros Hs. destruct (so_ring _ _ _ _ Hs) as [_ Hn].
  rewrite <- (size_dom (D := gset Z) (tasks s)).
  assert (Hd : dom (tasks s) = list_to_set (current_task s :: l) :> gset Z).
  { apply set_eq. intros a. rewrite elem_of_dom, elem_of_list_to_set. apply (so_dom _ _ _ _ Hs). }
  rewrite Hd, size_list_to_set by done. done.
Qed.
Lemma so_kernel_in P m s l : sched_ok P m s l ->
  exists k, tasks s !! KERNEL_TASK syms = Some k /\ t_id k = 0 /\ is_user k = false /\
    t_cr3 k = kernel_dir.
Proof.
  intros Hs. destruct (ow_kernel _ _ _ _ _ _ (so_owned _ _ _ _ Hs)) as (k & Hk & Hk').
  rewrite lookup_fmap, fmap_Some in Hk. destruct Hk as (x & Hx & ->). by exists x.
Qed.
Lemma so_owns P m s l a t : sched_ok P m s l -> tasks s !! a = Some t -> a <> KERNEL_TASK syms ->
  task_owns kernel_dir m P a t.
Proof.
  intros Hs Ha HaK. destruct (ow_task _ _ _ _ _ _ (so_owned _ _ _ _ Hs) a (core t)) as [];
    [by rewrite lookup_fmap, Ha|done|]. by split.
Qed.
Lemma so_cr3 P m s l a t : sched_ok P m s l -> tasks s !! a = Some t ->
  Directory (t_cr3 t) ∈ P \/ t_cr3 t = kernel_dir.
Proof.
  intros Hs Ha. destruct (decide (a = KERNEL_TASK syms)) as [->|HaK].
  - destruct (so_kernel_in _ _ _ _ Hs) as (k & Hk & _ & _ & Hc). right. congruence.
  - destruct (so_owns _ _ _ _ _ _ Hs Ha HaK) as [_ _ _ _ HP Hc]. unfold pages_of in HP.
    destruct (is_user t); [left|right; by apply Hc]. by apply Forall_cons in HP as [_ [? _]%Forall_cons].
Qed.
End Inv.
