(* ===== verification/Dump.v ===== *)
(** * The reports on the console: heap_dump and task_dump

    [heap_dump] of mm/heap.cpp and [task_dump] of task/task.cpp, with what they
    show for a well-formed heap and for the ring of the scheduler. *)
From S2P Require Import Prelude CString Heap PortIo Pic Vga Console.
From S2P Require Import Allocator Memory Vfs File Gdt Cpu Task TaskRing TaskInv.
Open Scope Z_scope.

Section Dump.
Context {W : Type} `{Ports W}.
Implicit Types (v : vga W) (buf : list Z).

(** ** heap_dump *)
(** [while (curr != 0)]; the answer carries the three counters. *)
Fixpoint heap_dump_loop (fuel : nat) (m : gmap Z block_header) (curr block_cnt used_cnt free_cnt : Z)
    v buf : option (Z * Z * Z * vga W * list Z) :=
  if curr =? 0 then Some (block_cnt, used_cnt, free_cnt, v, buf) else
  match fuel with
  | O => None
  | S fuel' =>
      v ← print_string v (lit "[#");
      '(v, buf) ← print_itoa v block_cnt buf 10;
      v ← print_string v (lit "] Addr: 0x");
      '(v, buf) ← print_itoa v curr buf 16;
      v ← print_string v (lit " | Size:");
      b ← m !! curr;
      '(v, buf) ← print_itoa v (b_size b) buf 10;
      v ← print_string v (lit " | Status: ");
      v ← print_string v (lit (if b_is_free b then "[FREE]" else "[USED]"));
      v ← print_char v newline;
      let block_cnt := u32 (block_cnt + 1) in
      let free_cnt := if b_is_free b then u32 (free_cnt + 1) else free_cnt in
      let used_cnt := if b_is_free b then used_cnt else u32 (used_cnt + 1) in
      heap_dump_loop fuel' m (b_next b) block_cnt used_cnt free_cnt v buf
  end.
Definition heap_dump {P} (h : heap P) v buf : option (vga W) :=
  v ← print_string v (cbuf (codes "=== KERNEL HEAP DUMP ===" ++ [newline]));
  '(block_cnt, used_cnt, free_cnt, v, buf) ←
    heap_dump_loop (list_fuel h) (headers h) (heap_head h) 0 0 0 v buf;
  v ← print_string v (cbuf (codes "--------------------------------------------------" ++ [newline] ++
        codes "Total Blocks: "));
  '(v, buf) ← print_itoa v block_cnt buf 10;
  v ← print_string v (lit " (Used: ");
  '(v, buf) ← print_itoa v used_cnt buf 10;
  v ← print_string v (lit ", Free: ");
  '(v, buf) ← print_itoa v free_cnt buf 10;
  print_string v (cbuf (codes ")" ++ [newline])).

(** ** task_dump *)
Definition state_name (st : TaskState) : string :=
  match st with
  | TASK_RUNNING => "RUNNING   "
  | TASK_READY => "READY     "
  | TASK_SLEEPING => "SLEEPING  "
  | TASK_DEAD => "DEAD      "
  end.
(** The body of the [do ... while (t != current_task)] loop. *)
Definition dump_task (t : Task) v buf : option (vga W * list Z) :=
  v ← print_string v (lit " ");
  '(v, buf) ← print_itoa v (t_id t) buf 10;
  v ← print_string v (lit "     ");
  v ← print_string v (lit (if is_user t then "USER    " else "KERNEL  "));
  v ← print_string v (lit (state_name (t_state t)));
  v ← print_string v (lit "0x");
  '(v, buf) ← print_itoa v (t_esp t) buf 16;
  v ← print_string v (lit "  ");
  v ← print_string v (lit "0x");
  '(v, buf) ← print_itoa v (kernel_stack_bottom t) buf 16;
  v ← print_string v (cbuf [newline]);
  Some (v, buf).
Fixpoint task_dump_loop (fuel : nat) (T : gmap Z Task) (start t : Z) v buf : option (vga W) :=
  x ← T !! t;
  '(v, buf) ← dump_task x v buf;
  if t_next x =? start then Some v else
  match fuel with O => None | S fuel' => task_dump_loop fuel' T start (t_next x) v buf end.
Definition task_dump {E} (s : sched E) v buf : option (vga W) :=
  if current_task s =? 0 then Some v else
  v ← print_string v (cbuf (codes "PID   MODE    STATE     ESP         STACK_ADDR" ++ [newline]));
  v ← print_string v (cbuf (codes "----------------------------------------------------" ++ [newline]));
  task_dump_loop (size (tasks s)) (tasks s) (current_task s) (current_task s) v buf.
End Dump.

Section Spec.
Context {W : Type} `{CrtcLaws W}.
Implicit Types (v : vga W) (buf : list Z).

Lemma print_newline v0 s0 v : shows v0 s0 v ->
  exists v', print_char v newline = Some v' /\ shows v0 (s0 ++ [newline]) v'.
Proof.
  intros Hsh. destruct (print_plain v [newline] (sh_wf _ _ _ Hsh) eq_refl) as (v' & Hp & Hs).
  cbn in Hp. destruct (print_char v newline) as [v1|]; [|done]. cbn in Hp. injection Hp as ->.
  exists v'. split; [done|]. by eapply shows_app.
Qed.

(** The line of a block: its number, address, size and state. *)
Definition block_line (i a size : Z) (free : bool) (txt : list Z) : Prop :=
  exists d1 d2 d3, digits_of 10 i d1 /\ digits_of 16 a d2 /\ digits_of 10 size d3 /\
  txt = codes "[#" ++ d1 ++ codes "] Addr: 0x" ++ d2 ++ codes " | Size:" ++ d3 ++
        codes " | Status: " ++ codes (if free then "[FREE]" else "[USED]") ++ [newline].
(** The lines of the blocks [bs] placed from [a], numbered from [i]. *)
Fixpoint block_lines (i a : Z) (bs : blocks) (txt : list Z) : Prop :=
  match bs with
  | [] => txt = []
  | (size, free) :: bs' => exists l rest, block_line i a size free l /\
      block_lines (i + 1) (a + HEADER + size) bs' rest /\ txt = l ++ rest
  end.
Definition count_free (bs : blocks) : Z := Z.of_nat (length (base.filter (fun b => snd b = true) bs)).
Definition count_used (bs : blocks) : Z := Z.of_nat (length (base.filter (fun b => snd b = false) bs)).

Lemma heap_dump_loop_spec m bs v0 : forall fuel a p e q i n used free v s0 buf,
  0 < a -> e < 4294967296 -> seg m a p bs e q i 0 -> (length bs <= fuel)%nat ->
  shows v0 s0 v -> (10 < length buf)%nat -> 0 <= n -> 0 <= used -> 0 <= free ->
  n + Z.of_nat (length bs) < 4294967296 -> used + free = n ->
  exists v' buf' txt, heap_dump_loop fuel m i n used free v buf =
      Some (n + Z.of_nat (length bs), used + count_used bs, free + count_free bs, v', buf') /\
    shows v0 (s0 ++ txt) v' /\ block_lines n a bs txt /\ length buf' = length buf.
Proof.
  unfold count_used, count_free.
  induction bs as [|[sz fr] bs IH]; intros fuel a p e q i n used free v s0 buf Ha He Hseg Hf Hsh Hb Hn Hu Hfr Hlt Hsum.
  { destruct Hseg as (-> & -> & ->). exists v, buf, []. rewrite !Z.add_0_r, app_nil_r.
    split; [by destruct fuel|done]. }
  destruct Hseg as (-> & Hs & i' & Hm & Hseg). destruct fuel as [|fuel]; [simpl in Hf; lia|].
  pose proof (seg_end_le _ _ _ _ _ _ _ _ Hseg) as Hle. simpl length in *. unfold HEADER in *.
  cbn [heap_dump_loop]. rewrite (proj2 (Z.eqb_neq a 0)) by lia. unfold lit.
  print_step. number_step 10%nat d1 Hd1. print_step. number_step 10%nat d2 Hd2. print_step.
  rewrite Hm. cbn [mbind option_bind b_size b_is_free b_next]. number_step 10%nat d3 Hd3. do 2 print_step.
  match goal with Hsh : shows v0 _ ?v |- context [print_char ?v _] =>
    destruct (print_newline v0 _ v Hsh) as (vn & -> & Hsh7) end.
  cbn [mbind option_bind]. rewrite !u32_small by lia.
  edestruct (IH fuel (a + 16 + sz) a e q i' (n + 1) (if fr then used else used + 1)
    (if fr then free + 1 else free)) as (v' & buf' & txt & -> & Hsh' & Hl & Hlenn);
    [lia|done|exact Hseg|lia|exact Hsh7|lia|lia|destruct fr; lia|destruct fr; lia|lia|destruct fr; lia|].
  set (line := codes "[#" ++ d1 ++ codes "] Addr: 0x" ++ d2 ++ codes " | Size:" ++ d3 ++
        codes " | Status: " ++ codes (if fr then "[FREE]" else "[USED]") ++ [newline]).
  exists v', buf', (line ++ txt). split; [|split; [|split; [|congruence]]].
  - rewrite !filter_cons. destruct fr; cbn [snd];
      repeat first [rewrite decide_True by done|rewrite decide_False by done];
      cbn [length]; rewrite !Nat2Z.inj_succ; f_equal; rewrite !pair_equal_spec;
      (split; [split; [split; [split|]|]|]); try reflexivity; lia.
  - revert Hsh'. unfold line. rewrite <- !app_assoc. done.
  - cbn [block_lines]. exists line, txt. split; [by exists d1, d2, d3|]. by split.
Qed.

(** What heap_dump shows for the blocks [bs]. *)
Definition heap_report (bs : blocks) (txt : list Z) : Prop :=
  exists ls d1 d2 d3, block_lines 0 HEAP_START bs ls /\ digits_of 10 (Z.of_nat (length bs)) d1 /\
  digits_of 10 (count_used bs) d2 /\ digits_of 10 (count_free bs) d3 /\
  txt = codes "=== KERNEL HEAP DUMP ===" ++ [newline] ++ ls ++
    codes "--------------------------------------------------" ++ [newline] ++ codes "Total Blocks: " ++
    d1 ++ codes " (Used: " ++ d2 ++ codes ", Free: " ++ d3 ++ codes ")" ++ [newline].
Lemma counts bs : count_used bs + count_free bs = Z.of_nat (length bs).
Proof.
  unfold count_used, count_free. induction bs as [|[sz fr] bs IH]; [done|]. rewrite !filter_cons.
  destruct fr; cbn [snd]; repeat first [rewrite decide_True by done|rewrite decide_False by done];
    cbn [length]; lia.
Qed.

(** heap_dump terminates on every well-formed heap and shows its blocks in
    address order, one line each with number, address, size and state, then how
    many there are, how many are in use and how many are free. *)
Theorem heap_dump_correct {P} (h : heap P) bs v buf :
  heap_wf h bs -> vga_wf v -> (10 < length buf)%nat ->
  exists v' txt, heap_dump h v buf = Some v' /\ heap_report bs txt /\ shows v txt v'.
Proof.
  intros Hw Hv Hb. unfold heap_dump. pose proof (shows_refl v Hv) as Hsh. unfold lit.
  destruct (hw_seg _ _ Hw) as [q Hseg]. pose proof (hw_end _ _ Hw) as Hend.
  pose proof (seg_end_le _ _ _ _ _ _ _ _ Hseg) as Hle.
  pose proof (counts bs) as Hc. assert (0 <= count_used bs /\ 0 <= count_free bs) as [Hcu Hcf]
    by (unfold count_used, count_free; lia).
  unfold HEAP_MAX_ADDR, HEAP_START, HEADER in *.
  print_step. rewrite (hw_head _ _ Hw).
  match goal with Hs : shows v _ _ |- _ =>
    destruct (heap_dump_loop_spec (headers h) bs v (list_fuel h) HEAP_START 0 (heap_current_end h) q HEAP_START
      0 0 0 _ _ buf ltac:(done) ltac:(lia) Hseg (heap_fuel h bs Hw) Hs Hb) as (v2 & buf2 & ls & -> & Hs2 & Hl & Hlen);
      [lia|lia|lia|lia|lia|]; clear Hs end.
  cbn [mbind option_bind]. rewrite !Z.add_0_l.
  print_step. number_step 10%nat d1 Hd1. print_step.
  number_step 10%nat d2 Hd2. print_step.
  number_step 10%nat d3 Hd3. print_last. eexists. split; [reflexivity|].
  match goal with Hs : shows v _ _ |- _ => split; [|exact Hs] end.
  exists ls, d1, d2, d3. do 4 (split; [done|]). rewrite <- !app_assoc. done.
Qed.

(** ** The ring of tasks *)
Definition word (x : Z) : Prop := 0 <= x < 4294967296.
Definition words_of (t : Task) : Prop := word (t_id t) /\ word (t_esp t) /\ word (kernel_stack_bottom t).
(** The line of a task: number, mode, state, stack pointer and stack. *)
Definition task_line (t : Task) (txt : list Z) : Prop :=
  exists d1 d2 d3, digits_of 10 (t_id t) d1 /\ digits_of 16 (t_esp t) d2 /\
  digits_of 16 (kernel_stack_bottom t) d3 /\
  txt = codes " " ++ d1 ++ codes "     " ++ codes (if is_user t then "USER    " else "KERNEL  ") ++
        codes (state_name (t_state t)) ++ codes "0x" ++ d2 ++ codes "  " ++ codes "0x" ++ d3 ++ [newline].
Fixpoint task_lines (T : gmap Z Task) (l : list Z) (txt : list Z) : Prop :=
  match l with
  | [] => txt = []
  | a :: l' => exists t x rest, T !! a = Some t /\ task_line t x /\ task_lines T l' rest /\ txt = x ++ rest
  end.

Lemma dump_task_spec v0 t v s0 buf : words_of t -> shows v0 s0 v -> (10 < length buf)%nat ->
  exists v' buf' x, dump_task t v buf = Some (v', buf') /\ task_line t x /\ shows v0 (s0 ++ x) v' /\
    length buf' = length buf.
Proof.
  intros (Hi & He & Hk) Hsh Hb. unfold word in *. unfold dump_task, lit.
  print_step. number_step 10%nat d1 Hd1. do 2 print_step.
  match goal with Hs : shows v0 _ ?v |- context [print_string ?v (cbuf ?c)] =>
    destruct (print_plain v c (sh_wf _ _ _ Hs)) as (vn & -> & Hs2); [by destruct (t_state t)|];
    pose proof (shows_app _ _ _ _ _ Hs Hs2); clear Hs Hs2; cbn [mbind option_bind] end.
  print_step. number_step 10%nat d2 Hd2. do 2 print_step. number_step 10%nat d3 Hd3. print_step.
  eexists _, _, _. split; [reflexivity|]. split; [by exists d1, d2, d3|]. split; [|congruence].
  match goal with Hs : shows v0 _ _ |- _ => revert Hs end. rewrite <- !app_assoc. done.
Qed.

Lemma task_dump_loop_spec T start v0 : forall l fuel a v s0 buf,
  lseg T a (a :: l) start -> start ∉ l -> (length l <= fuel)%nat ->
  (forall b t, b ∈ a :: l -> T !! b = Some t -> words_of t) ->
  shows v0 s0 v -> (10 < length buf)%nat ->
  exists v' txt, task_dump_loop fuel T start a v buf = Some v' /\ task_lines T (a :: l) txt /\
    shows v0 (s0 ++ txt) v'.
Proof.
  induction l as [|b l IH]; intros fuel a v s0 buf Hseg Hst Hf Hwords Hsh Hb;
    destruct Hseg as [_ (t & Ht & Hseg)];
    destruct (dump_task_spec v0 t v s0 buf (Hwords a t ltac:(left) Ht) Hsh Hb) as
      (v1 & buf1 & x & Hd & Hx & Hs1 & Hlen).
  - simpl in Hseg. exists v1, x. destruct fuel; cbn [task_dump_loop]; rewrite Ht; cbn [mbind option_bind];
      rewrite Hd; cbn [mbind option_bind]; rewrite Hseg, Z.eqb_refl; (split; [done|]); (split; [|done]);
      exists t, x, []; by rewrite app_nil_r.
  - destruct fuel as [|fuel]; [simpl in Hf; lia|]. cbn [task_dump_loop]. rewrite Ht. cbn [mbind option_bind].
    rewrite Hd. cbn [mbind option_bind]. pose proof (lseg_head _ _ _ _ _ Hseg) as Hnb. rewrite Hnb in *.
    apply not_elem_of_cons in Hst as [Hne Hst]. rewrite (proj2 (Z.eqb_neq b start)) by done. simpl in Hf.
    destruct (IH fuel b v1 (s0 ++ x) buf1 Hseg Hst) as (v' & txt & -> & Hl & Hs'); [lia| |done|lia|].
    { intros c u Hc. apply Hwords. by right. }
    exists v', (x ++ txt). split; [done|]. split; [by exists t, x, txt|]. by rewrite app_assoc.
Qed.

Lemma ring_size T cur l : ring T cur l -> (S (length l) <= size T)%nat.
Proof.
  intros [Hl Hn]. rewrite <- (size_dom (D := gset Z) T).
  change (S (length l)) with (length (cur :: l)).
  rewrite <- (size_list_to_set (C := gset Z) (cur :: l)) by done. apply subseteq_size.
  intros a Ha%elem_of_list_to_set. apply elem_of_dom. by eapply lseg_lookup.
Qed.

(** task_dump terminates on every ring of tasks and shows the tasks in ring
    order from the current one, one line each with the number, the mode, the
    state, the saved stack pointer and the stack. *)
Theorem task_dump_correct {E} (s : sched E) l v buf :
  ring (tasks s) (current_task s) l -> current_task s <> 0 ->
  (forall a t, tasks s !! a = Some t -> words_of t) -> vga_wf v -> (10 < length buf)%nat ->
  exists v' txt, task_dump s v buf = Some v' /\ task_lines (tasks s) (current_task s :: l) txt /\
    shows v (codes "PID   MODE    STATE     ESP         STACK_ADDR" ++ [newline] ++
      codes "----------------------------------------------------" ++ [newline] ++ txt) v'.
Proof.
  intros Hr Hc Hw Hv Hb. unfold task_dump. rewrite (proj2 (Z.eqb_neq _ _)) by done.
  pose proof (shows_refl v Hv) as Hsh. do 2 print_step. pose proof (ring_size _ _ _ Hr) as Hsz.
  destruct Hr as [Hl [Hn _]%NoDup_cons].
  match goal with Hs : shows v _ ?v1 |- _ =>
    destruct (task_dump_loop_spec (tasks s) (current_task s) v l (size (tasks s)) (current_task s) v1 _ buf
      Hl Hn ltac:(lia) ltac:(intros b t _; by apply Hw) Hs Hb) as (v' & txt & -> & Ht & Hs') end.
  exists v', txt. split; [done|]. split; [done|]. revert Hs'. rewrite <- !app_assoc. done.
Qed.
End Spec.

(** ** Runs *)
Import Crtc.
Lemma heap_dump_correct_witness : exists v' txt, heap_dump demo_heap demo_screen (replicate 32 0) = Some v' /\
  heap_report [(HEAP_INITIAL_SIZE - HEADER, true)] txt /\ shows demo_screen txt v'.
Proof.
  apply (heap_dump_correct demo_heap [(HEAP_INITIAL_SIZE - HEADER, true)] demo_screen (replicate 32 0)).
  - exact demo_heap_wf.
  - exact demo_screen_wf.
  - simpl. lia.
Defined.

Definition lone_task : Task := mk_task 0 0 0 0 0 0 false TASK_RUNNING 0 0x100 [] zero_node.
Definition lone : sched unit := mk_sched {[0x100 := lone_task]} ∅ ∅ 0x100 1 gdt_boot
  (mk_cpu 0 0 0 (mk_gprs 0 0 0 0 0 0 0)) tt.
Lemma task_dump_correct_witness : exists v' txt, task_dump lone demo_screen (replicate 32 0) = Some v' /\
  task_lines (tasks lone) [0x100] txt.
Proof.
  destruct (task_dump_correct lone [] demo_screen (replicate 32 0)) as (v' & txt & Hd & Hl & _).
  - split; [|by apply NoDup_singleton]. split; [done|]. exists lone_task. by split.
  - discriminate.
  - intros a t Ht. change (({[0x100 := lone_task]} : gmap Z Task) !! a = Some t) in Ht.
    apply lookup_singleton_Some in Ht as [_ <-]. split; [|split]; unfold word, lone_task; cbn; lia.
  - exact demo_screen_wf.
  - simpl. lia.
  - exists v', txt. split; [exact Hd|exact Hl].
Defined.
