(* ===== verification/TaskSched.v ===== *)
(** * What the scheduler's operations do to the ring

    kill_task, the search of [schedule], the context switch and the timer, each
    as a lemma over the invariant of [TaskInv]. *)
From S2P Require Import Prelude CString Allocator Memory Vfs File Gdt Cpu Task TaskRing TaskInv.

(** Everything of a task but its link. *)
Definition unlinked (t : Task) : Task := set_t_next 0 t.
Lemma core_unlinked t u : unlinked t = unlinked u -> core t = core u.
Proof. destruct t, u. unfold unlinked, set_t_next, core. cbn. by intros [=]; subst. Qed.
(** The other fields of two tasks that agree but for the link. *)
Lemma unlinked_fields t u : unlinked t = unlinked u ->
  t_id t = t_id u /\ t_esp t = t_esp u /\ kernel_stack_bottom t = kernel_stack_bottom u /\
  kernel_stack_top t = kernel_stack_top u /\ t_cr3 t = t_cr3 u /\ is_user t = is_user u /\
  t_state t = t_state u /\ wake_tick t = wake_tick u.
Proof. destruct t, u. unfold unlinked, set_t_next. cbn. by intros [=]; subst. Qed.
Lemma unlinked_set_next n t : unlinked (set_t_next n t) = unlinked t.
Proof. by destruct t. Qed.
Lemma relink_unlinked T p n x : unlinked <$> relink T p n !! x = unlinked <$> T !! x.
Proof.
  unfold relink. destruct (decide (p = x)) as [<-|].
  - rewrite lookup_alter_eq. by destruct (T !! p) as [[]|].
  - by rewrite lookup_alter_ne.
Qed.

Lemma split_unique {A} (l1 : list A) a l2 : forall k1 k2,
  NoDup (l1 ++ a :: l2) -> l1 ++ a :: l2 = k1 ++ a :: k2 -> k1 = l1 /\ k2 = l2.
Proof.
  induction l1 as [|x l1 IH]; intros [|y k1] k2 [Hx Hn]%NoDup_cons; simpl; intros [=]; subst.
  - done.
  - exfalso. apply Hx. set_solver.
  - exfalso. apply Hx. set_solver.
  - by destruct (IH k1 k2) as [-> ->].
Qed.

Section Sched.
Context {E : Type} `{MemoryOk E} (syms : symbols) (boot_lo boot_hi : Z).
Hypothesis Hlay : layout_ok syms boot_lo boot_hi.
Implicit Types (s : sched E).
#[local] Abbreviation ok := (sched_ok syms boot_lo boot_hi).
#[local] Abbreviation K := (KERNEL_TASK syms).

(** The parts of the state that the task list does not concern. *)
Record same_machine s s' : Prop := {
  sm_files : files s' = files s;
  sm_words : words s' = words s;
  sm_current : current_task s' = current_task s;
  sm_pid : next_pid s' = next_pid s;
  sm_gdt : s_gdt s' = s_gdt s;
  sm_cpu : s_cpu s' = s_cpu s;
}.
Lemma same_machine_refl s : same_machine s s.
Proof. by split. Qed.
Lemma same_machine_trans s1 s2 s3 : same_machine s1 s2 -> same_machine s2 s3 -> same_machine s1 s3.
Proof. intros [] []. split; congruence. Qed.

(** [s'] is [s] without the task [a]. *)
Record removed s s' (a : Z) : Prop := {
  rm_machine : same_machine s s';
  rm_gone : tasks s' !! a = None;
  rm_rest : forall b, b <> a -> unlinked <$> tasks s' !! b = unlinked <$> tasks s !! b;
}.

Lemma rm_lookup s s' a b t : removed s s' a -> b <> a -> tasks s' !! b = Some t ->
  exists u, tasks s !! b = Some u /\ unlinked u = unlinked t.
Proof.
  intros [_ _ Hr] Hb Ht. specialize (Hr b Hb). rewrite Ht in Hr. symmetry in Hr.
  apply fmap_Some in Hr as (u & Hu & Heq). by exists u.
Qed.

Lemma unlink_free P m s l1 a t l2 : ok P m s (l1 ++ a :: l2) -> tasks s !! a = Some t -> a <> K ->
  exists e, (e ← kfree_op (env s) (kernel_stack_bottom t);
             e ← (if is_user t then e ← pmm_free_op e (user_stack_bottom t); pmm_free_op e (t_cr3 t)
                  else Some e);
             kfree_op e a) = Some e /\
    exists c, tasks s !! current_task s = Some c /\
      holds (pages_left P t) (t_cr3 c) e (blocks_left m a t).
Proof.
  intros Hs Ha HaK. destruct (so_owns _ _ _ _ _ _ _ _ _ Hs Ha HaK) as
    [(z1 & H1 & _) (z2 & H2 & _) Hd _ HP _].
  destruct (so_memory _ _ _ _ _ _ _ Hs) as (c & Hc & Hh).
  destruct (holds_kfree _ _ _ _ _ _ Hh H2) as (e1 & -> & Hh1). cbn [mbind option_bind].
  assert (Hm1 : delete (kernel_stack_bottom t) m !! a = Some z1) by by rewrite lookup_delete_ne.
  assert (Hcur : a <> current_task s).
  { intros ->. destruct (so_ring _ _ _ _ _ _ _ Hs) as [_ [Hn _]%NoDup_cons]. apply Hn. set_solver. }
  assert (Hact : is_user t = true -> t_cr3 t <> t_cr3 c).
  { intros Hut Heq. assert (Hp : Directory (t_cr3 c) ∈ pages_of t) by
      (unfold pages_of; rewrite Hut, Heq; set_solver).
    destruct (decide (current_task s = K)) as [HcK|HcK].
    - destruct (so_kernel_in _ _ _ _ _ _ _ Hs) as (k & Hk & _ & _ & Hkd).
      rewrite HcK, Hk in Hc. injection Hc as <-. rewrite Forall_forall in HP.
      destruct (kernel_dir_law _ _ _ _ Hh) as [_ Hno]. apply Hno. rewrite <- Hkd. by apply HP.
    - destruct (so_owns _ _ _ _ _ _ _ _ _ Hs Hc HcK) as [_ _ _ _ _ Hcd].
      destruct (is_user c) eqn:Hu.
      + destruct (ow_sep _ _ _ _ _ _ (so_owned _ _ _ _ _ _ _ Hs) a (current_task s) (core t) (core c))
          as [_ Hsep]; [by rewrite lookup_fmap, ?Ha, ?Hc..|done|done|done|].
        apply (Hsep (Directory (t_cr3 c))); [exact Hp|].
        unfold pages_of. cbn [core is_user user_stack_bottom t_cr3]. rewrite Hu. set_solver.
      + rewrite Forall_forall in HP. destruct (kernel_dir_law _ _ _ _ Hh) as [_ Hno]. apply Hno.
        rewrite <- Hcd by done. by apply HP. }
  unfold pages_left. unfold pages_of in *. destruct (is_user t); cbn [list_to_set].
  - apply Forall_cons in HP as [Hp1 [Hp2 _]%Forall_cons].
    destruct (stack_free_law _ _ _ _ (user_stack_bottom t) Hh1 Hp1) as (e2 & -> & Hh2).
    cbn [mbind option_bind].
    destruct (dir_free_law _ _ _ _ (t_cr3 t) Hh2) as (e3 & -> & Hh3); [set_solver|by apply Hact|].
    cbn [mbind option_bind].
    destruct (holds_kfree _ _ _ _ _ _ Hh3 Hm1) as (e4 & -> & Hh4). exists e4. split; [done|].
    exists c. split; [done|]. unfold blocks_left.
    replace (P ∖ ({[StackPage (user_stack_bottom t)]} ∪ ({[Directory (t_cr3 t)]} ∪ ∅)))
      with (P ∖ {[StackPage (user_stack_bottom t)]} ∖ {[Directory (t_cr3 t)]}) by set_solver. done.
  - cbn [mbind option_bind]. destruct (holds_kfree _ _ _ _ _ _ Hh1 Hm1) as (e4 & -> & Hh4).
    exists e4. split; [done|]. exists c. split; [done|]. unfold blocks_left.
    by replace (P ∖ ∅) with P by set_solver.
Qed.

Lemma unlink_spec P m s l1 a t l2 p : ok P m s (l1 ++ a :: l2) -> tasks s !! a = Some t -> a <> K ->
  last (current_task s :: l1) = Some p ->
  exists s', unlink_task s p a t = Some s' /\ removed s s' a /\
    ok (pages_left P t) (blocks_left m a t) s' (l1 ++ l2).
Proof.
  intros Hs Ha HaK Hp. destruct (unlink_free P m s l1 a t l2 Hs Ha HaK) as (e & He & c & Hc & Hh).
  pose proof (so_ring _ _ _ _ _ _ _ Hs) as Hring.
  assert (Hcur : a <> current_task s).
  { intros ->. destruct Hring as [_ [Hn _]%NoDup_cons]. apply Hn. set_solver. }
  assert (Hpin : p ∈ current_task s :: l1 ++ a :: l2).
  { apply last_Some in Hp as [l0 Hp]. rewrite app_comm_cons, Hp. set_solver. }
  unfold unlink_task. rewrite poke_alter by by apply (so_dom _ _ _ _ _ _ _ Hs).
  fold (relink (tasks s) p (t_next t)). cbn [mbind option_bind].
  match type of He with ?x = _ => set (X := x) in He end.
  exists (set_env e (set_tasks (delete a (relink (tasks s) p (t_next t))) s)).
  set (s' := set_env _ _).
  assert (Hrm : removed s s' a).
  { split; [by split|by apply lookup_delete_eq|]. intros b Hb. simpl.
    rewrite lookup_delete_ne by done. apply relink_unlinked. }
  split; [|split; [done|]].
  { unfold X in He. destruct (kfree_op (env s) (kernel_stack_bottom t)) as [e1|]; [|done].
    cbn [mbind option_bind] in *.
    destruct (if is_user t then _ else _) as [e2|]; [|done]. cbn [mbind option_bind] in *.
    rewrite He. done. }
  pose proof (ring_unlink _ _ _ _ _ _ _ Hring Ha Hp) as Hring'. split.
  - exact Hring'.
  - intros b. destruct (decide (b = a)) as [->|Hb].
    + rewrite (rm_gone _ _ _ Hrm). split; [by intros [? ?]|]. intros Hin. exfalso.
      destruct Hring as [_ Hn]. apply NoDup_cons in Hn as [_ Hn]. apply NoDup_app in Hn as (_ & Hd & Hn).
      apply NoDup_cons in Hn as [Hn _]. apply elem_of_cons in Hin as [Hin|Hin]; [done|].
      apply elem_of_app in Hin as [Hin|Hin]; [|done]. apply (Hd a Hin). by left.
    + rewrite <- (fmap_is_Some unlinked), (rm_rest _ _ _ Hrm b Hb), fmap_is_Some.
      rewrite (so_dom _ _ _ _ _ _ _ Hs). set_solver.
  - replace (core <$> tasks s') with (delete a (core <$> tasks s)).
    + apply (owned_delete _ _ _ _ _ _ _ (core t)); [apply Hs|by rewrite lookup_fmap, Ha|done].
    + simpl. rewrite <- fmap_delete. apply map_eq. intros b. rewrite !lookup_fmap.
      destruct (decide (b = a)) as [->|Hb]; [by rewrite !lookup_delete_eq|].
      rewrite !lookup_delete_ne by done. pose proof (relink_unlinked (tasks s) p (t_next t) b) as Hu.
      destruct (relink _ _ _ !! b) as [u|], (tasks s !! b) as [v|]; simpl in *; try done.
      f_equal. apply core_unlinked. congruence.
  - intros b u Hb Hst. destruct (decide (b = a)) as [->|Hba].
    { rewrite (rm_gone _ _ _ Hrm) in Hb. done. }
    destruct (rm_lookup _ _ _ _ _ Hrm Hba Hb) as (v & Hv & Heq).
    apply unlinked_fields in Heq as (_ & _ & _ & _ & _ & _ & Heq & _).
    apply (so_running _ _ _ _ _ _ _ Hs b v Hv). congruence.
  - assert (Hx := rm_rest _ _ _ Hrm (current_task s) (not_eq_sym Hcur)). rewrite Hc in Hx.
    apply fmap_Some in Hx as (u & Hu & Heq). exists u. split; [done|].
    apply unlinked_fields in Heq as (_ & _ & _ & _ & Heq & _). by rewrite <- Heq.
  - intros b u Hb Hbc. destruct (decide (b = a)) as [->|Hba].
    { rewrite (rm_gone _ _ _ Hrm) in Hb. done. }
    destruct (rm_lookup _ _ _ _ _ Hrm Hba Hb) as (v & Hv & Heq).
    destruct (so_frames _ _ _ _ _ _ _ Hs b v Hv Hbc) as (f & Hf & Hlo & Hhi).
    apply unlinked_fields in Heq as (_ & He1 & He2 & _). exists f. unfold stack_lo, stack_hi in *.
    by rewrite <- He1, <- He2.
  - apply (so_tss _ _ _ _ _ _ _ Hs).
  - apply (so_pid _ _ _ _ _ _ _ Hs).
Qed.

(** ** kill_task *)
(** The task with the number [pid] is gone, and nothing else changed. *)
Definition killed P m s l (pid : Z) s' : Prop :=
  exists l1 a t l2, l = l1 ++ a :: l2 /\ tasks s !! a = Some t /\ t_id t = pid /\
    removed s s' a /\ ok (pages_left P t) (blocks_left m a t) s' (l1 ++ l2).
Definition nobody s (l : list Z) (pid : Z) : Prop :=
  forall a t, a ∈ l -> tasks s !! a = Some t -> t_id t <> pid.

Lemma not_kernel P m s l a t : ok P m s l -> tasks s !! a = Some t -> t_id t <> 0 -> a <> K.
Proof.
  intros Hs Ha Hid ->. destruct (so_kernel_in _ _ _ _ _ _ _ Hs) as (k & Hk & Hk0 & _). congruence.
Qed.

Lemma kill_loop_spec P m s l pid (Hs : ok P m s l) : pid <> 0 -> forall fuel l1 todo p a,
  l = l1 ++ todo -> todo <> [] -> lseg (tasks s) a todo (current_task s) ->
  last (current_task s :: l1) = Some p -> nobody s l1 pid -> (length todo <= S fuel)%nat ->
  kill_loop fuel s pid p a = Some (-1, s) /\ nobody s l pid \/
  exists s', kill_loop fuel s pid p a = Some (i32 pid, s') /\ killed P m s l pid s'.
Proof.
  intros Hpid fuel. induction fuel as [|fuel IH]; intros l1 todo p a Hl Hne Hseg Hp Hno Hf;
    (destruct todo as [|x todo]; [done|]); destruct Hseg as [-> (t & Ht & Hseg)]; cbn [kill_loop];
    rewrite Ht; cbn [mbind option_bind];
    (destruct (Z.eqb_spec (t_id t) pid) as [Hid|Hid];
      [right; rewrite Hl in Hs; destruct (unlink_spec P m s l1 x t todo p Hs Ht) as (s' & -> & Hrm & Hok);
        [eapply (not_kernel _ _ _ _ _ _ Hs Ht); congruence|done|];
        exists s'; split; [done|]; by exists l1, x, t, todo|]);
    assert (Hno' : nobody s (l1 ++ [x]) pid) by
      (intros b u Hb Hu; apply elem_of_app in Hb as [Hb|Hb]; [by apply (Hno b)|];
       apply list_elem_of_singleton in Hb as ->; congruence);
    assert (Hend : t_next t = current_task s -> todo = []) by
      (intros Hn; destruct todo as [|y todo]; [done|]; apply lseg_head in Hseg;
       destruct (so_ring _ _ _ _ _ _ _ Hs) as [_ [Hc _]%NoDup_cons]; exfalso; apply Hc;
       rewrite Hl, <- Hn, Hseg; set_solver).
  - destruct todo; [|simpl in Hf; lia]. simpl in Hseg. rewrite Hseg, Z.eqb_refl. left.
    split; [done|]. by rewrite Hl.
  - destruct (Z.eqb_spec (t_next t) (current_task s)) as [Hn|Hn].
    + left. split; [done|]. rewrite Hl. by rewrite (Hend Hn).
    + apply (IH (l1 ++ [x]) todo x (t_next t)); try done.
      * by rewrite <- app_assoc.
      * intros ->. by apply Hn.
      * by rewrite app_comm_cons, last_snoc.
      * simpl in Hf. lia.
Qed.

Lemma kill_task_spec P m s l pid : ok P m s l -> pid <> 0 ->
  kill_task s pid = Some (-1, s) /\ nobody s l pid \/
  exists s', kill_task s pid = Some (i32 pid, s') /\ killed P m s l pid s'.
Proof.
  intros Hs Hpid. unfold kill_task. pose proof (so_null _ _ _ _ _ _ _ Hs).
  rewrite (proj2 (Z.eqb_neq _ _)), (proj2 (Z.eqb_neq pid 0)) by done.
  destruct (so_ring _ _ _ _ _ _ _ Hs) as [[_ (c & Hc & Hseg)] Hn]. rewrite Hc. cbn [mbind option_bind].
  destruct l as [|x l].
  - left. split; [|by intros ? ? ?%not_elem_of_nil]. simpl in Hseg. rewrite Hseg.
    destruct (so_kernel_in _ _ _ _ _ _ _ Hs) as (k & Hk & Hk0 & _).
    assert (K ∈ [current_task s]) as HK by (apply (so_dom _ _ _ _ _ _ _ Hs); by eexists).
    apply list_elem_of_singleton in HK. rewrite HK, Hc in Hk. injection Hk as ->.
    rewrite (so_size _ _ _ _ _ _ _ Hs). cbn [kill_loop length]. rewrite Hc. cbn [mbind option_bind].
    rewrite Hk0, (proj2 (Z.eqb_neq 0 pid)), Hseg, Z.eqb_refl by done. done.
  - apply (kill_loop_spec P m s (x :: l) pid Hs Hpid _ [] (x :: l)); try done.
    + by intros ? ? ?%not_elem_of_nil.
    + rewrite (so_size _ _ _ _ _ _ _ Hs). lia.
Qed.
Lemma kill_kernel s : kill_task s 0 = Some (-1, s).
Proof. unfold kill_task. by destruct (_ =? 0). Qed.

(** Killing a listed task by its own number. *)
Lemma kill_listed P m s l1 a t l2 : ok P m s (l1 ++ a :: l2) -> tasks s !! a = Some t -> t_id t <> 0 ->
  exists s', kill_task s (t_id t) = Some (i32 (t_id t), s') /\ removed s s' a /\
    ok (pages_left P t) (blocks_left m a t) s' (l1 ++ l2).
Proof.
  intros Hs Ha Hid. destruct (kill_task_spec P m s _ (t_id t) Hs Hid) as
    [[_ Hno]|(s' & -> & k1 & b & u & k2 & Hl & Hb & Hbid & Hrm & Hok)].
  { exfalso. apply (Hno a t); [set_solver|done|done]. }
  assert (b = a) as ->.
  { apply (ow_ids _ _ _ _ _ _ (so_owned _ _ _ _ _ _ _ Hs) b a (core u) (core t));
      rewrite ?lookup_fmap, ?Hb, ?Ha; done. }
  rewrite Ha in Hb. injection Hb as <-. exists s'. split; [done|]. split; [done|].
  destruct (so_ring _ _ _ _ _ _ _ Hs) as [_ [_ Hn]%NoDup_cons].
  by destruct (split_unique l1 a l2 k1 k2 Hn Hl) as [-> ->].
Qed.
End Sched.
