(* ===== verification/TaskSwitch.v ===== *)
(** * Dispatching a task

    The stacks of two tasks share no word, so the frame the running task leaves
    behind does not disturb the one the next task is loaded from. *)
From S2P Require Import Prelude CString Allocator Memory Vfs File Gdt Cpu Task TaskRing TaskInv TaskSched.

Section Switch.
Context {E : Type} `{MemoryOk E} (syms : symbols) (boot_lo boot_hi : Z).
Hypothesis Hlay : layout_ok syms boot_lo boot_hi.
Implicit Types (s : sched E).
#[local] Abbreviation ok := (sched_ok syms boot_lo boot_hi).
#[local] Abbreviation K := (KERNEL_TASK syms).
#[local] Abbreviation lo := (stack_lo syms boot_lo).
#[local] Abbreviation hi := (stack_hi syms boot_hi).


Lemma stack_bounds P m s l a t : ok P m s l -> tasks s !! a = Some t ->
  0 <= lo a t <= hi a t /\ hi a t < 4294967296.
Proof.
  intros Hs Ha. unfold stack_lo, stack_hi. destruct Hlay as [Hb HK].
  destruct (so_memory _ _ _ _ _ _ _ Hs) as (c & _ & Hh).
  destruct (Z.eqb_spec a K) as [->|HaK]; [lia|].
  destruct (so_owns _ _ _ _ _ _ _ _ _ Hs Ha HaK) as [_ (z & Hz & Hsz) _ _ _ _].
  pose proof (holds_range _ _ _ _ _ _ Hh Hz). unfold TASK_STACK_SIZE in *. lia.
Qed.

Lemma stacks_disjoint P m s l a b t u : ok P m s l -> tasks s !! a = Some t -> tasks s !! b = Some u ->
  a <> b -> hi a t <= lo b u \/ hi b u <= lo a t.
Proof.
  intros Hs Ha Hb Hab. unfold stack_lo, stack_hi. destruct Hlay as [Hboot HK].
  destruct (so_memory _ _ _ _ _ _ _ Hs) as (c & _ & Hh).
  assert (Hin : forall x v, tasks s !! x = Some v -> x <> K -> exists z,
    m !! kernel_stack_bottom v = Some z /\ TASK_STACK_SIZE <= z /\ base <= kernel_stack_bottom v).
  { intros x v Hx HxK. destruct (so_owns _ _ _ _ _ _ _ _ _ Hs Hx HxK) as [_ (z & Hz & Hsz) _ _ _ _].
    pose proof (holds_range _ _ _ _ _ _ Hh Hz). exists z. split; [done|]. split; [done|lia]. }
  destruct (Z.eqb_spec a K) as [->|HaK], (Z.eqb_spec b K) as [->|HbK]; [done|..].
  - left. destruct (Hin b u Hb HbK) as (z & _ & _ & ?). lia.
  - right. destruct (Hin a t Ha HaK) as (z & _ & _ & ?). lia.
  - destruct (Hin a t Ha HaK) as (z & Hz & Hsz & _), (Hin b u Hb HbK) as (y & Hy & Hsy & _).
    destruct (ow_sep _ _ _ _ _ _ (so_owned _ _ _ _ _ _ _ Hs) a b (core t) (core u)) as [Hsep _];
      [by rewrite lookup_fmap, ?Ha, ?Hb..|done|done|done|].
    specialize (Hsep (kernel_stack_bottom t)).
    assert (Hne : kernel_stack_bottom t <> kernel_stack_bottom u).
    { intros He. apply Hsep; unfold blocks_of; simpl; [set_solver|]. rewrite He. set_solver. }
    destruct (decide (kernel_stack_bottom t < kernel_stack_bottom u)) as [Hlt|Hge].
    + left. pose proof (holds_disjoint _ _ _ _ _ _ _ _ Hh Hz Hy Hlt). lia.
    + right. pose proof (holds_disjoint _ _ _ _ _ _ _ _ Hh Hy Hz ltac:(lia)). lia.
Qed.

(** Words written on the stack of [a] leave the frames of the others alone. *)
Lemma frame_kept P m s l a t b u w c : ok P m s l -> tasks s !! a = Some t -> tasks s !! b = Some u ->
  a <> b -> (forall x, ~ (lo a t <= x < hi a t) -> w !! x = words s !! x) ->
  lo b u <= t_esp u -> t_esp u + 40 <= hi b u -> frame_at (words s) (t_esp u) c ->
  frame_at w (t_esp u) c.
Proof.
  intros Hs Ha Hb Hab Hw Hl Hh. apply frame_frame. intros x Hx. apply Hw.
  destruct (stacks_disjoint _ _ _ _ _ _ _ _ Hs Ha Hb Hab); lia.
Qed.

(** The state of a task that gives up the processor. *)
Definition paused (t : Task) : Task :=
  if bool_decide (t_state t = TASK_RUNNING) then set_t_state TASK_READY t else t.

(** What [dispatch] does to the running task [cur] and the next one [n]. *)
Record dispatched s n (c t : Task) s' : Prop := {
  di_current : current_task s' = n;
  di_tasks : tasks s' = <[n := set_t_state TASK_RUNNING t]>
    (<[current_task s := set_t_esp (r_esp (s_cpu s) - 48) (paused c)]> (tasks s));
  di_saved : frame_at (words s') (r_esp (s_cpu s) - 48) (resumed (SCHEDULE_RET syms) (s_cpu s));
  di_cpu : frame_at (words s) (t_esp t) (s_cpu s');
  di_words : forall x, ~ (lo (current_task s) c <= x < hi (current_task s) c) ->
    words s' !! x = words s !! x;
  di_files : files s' = files s;
  di_pid : next_pid s' = next_pid s;
  di_esp0 : is_user t = true ->
    tss_words (tss (s_gdt s')) !! Z.to_nat TSS_ESP0 = Some (kernel_stack_top t);
}.

Lemma set_kernel_stack_spec g top : length (tss_words (tss g)) = 25%nat ->
  exists g', set_kernel_stack g top = Some g' /\ length (tss_words (tss g')) = 25%nat /\
    tss_words (tss g') !! Z.to_nat TSS_ESP0 = Some top.
Proof.
  intros Hl. unfold set_kernel_stack. rewrite zset_in_range by (rewrite Hl; done).
  eexists. split; [reflexivity|]. cbn [set_tss tss tss_words]. rewrite length_insert. split; [done|].
  apply list_lookup_insert_eq. rewrite Hl. unfold TSS_ESP0. lia.
Qed.

Lemma dispatch_tasks P m s l1 n t c l2 : ok P m s (l1 ++ n :: l2) -> has_room syms boot_lo boot_hi s ->
  tasks s !! n = Some t -> tasks s !! current_task s = Some c ->
  exists s', dispatch syms s (current_task s) n = Some s' /\ dispatched s n c t s' /\
    holds P (t_cr3 t) (env s') m /\ length (tss_words (tss (s_gdt s'))) = 25%nat.
Proof.
  intros Hs Hroom Hn Hc. set (cur := current_task s) in *.
  assert (Hne : n <> cur).
  { intros ->. destruct (so_ring _ _ _ _ _ _ _ Hs) as [_ [Hx _]%NoDup_cons]. apply Hx. unfold cur. set_solver. }
  unfold dispatch. rewrite Hc. cbn [mbind option_bind].
  assert (HT1 : (if bool_decide (t_state c = TASK_RUNNING)
       then poke_task (tasks s) cur (set_t_state TASK_READY) else Some (tasks s))
     = Some (<[cur := paused c]> (tasks s))).
  { unfold paused, poke_task. rewrite Hc. cbn [mbind option_bind].
    destruct (bool_decide _); [done|]. f_equal. symmetry. by apply insert_id. }
  rewrite HT1. cbn [mbind option_bind]. unfold poke_task at 1.
  rewrite lookup_insert_ne, Hn by done. cbn [mbind option_bind].
  rewrite lookup_insert_eq. cbn [mbind option_bind].
  set (g' := if is_user (set_t_state TASK_RUNNING t) then _ else _).
  assert (exists g1, g' = Some g1 /\ length (tss_words (tss g1)) = 25%nat /\
    (is_user t = true -> tss_words (tss g1) !! Z.to_nat TSS_ESP0 = Some (kernel_stack_top t)))
    as (g1 & Hg1 & Hlen & Hesp0).
  { pose proof (so_tss _ _ _ _ _ _ _ Hs) as Hl. unfold g'. cbn [set_t_state is_user kernel_stack_top].
    destruct (is_user t); [|by exists (s_gdt s)].
    destruct (set_kernel_stack_spec _ (kernel_stack_top t) Hl) as (g1 & ? & ? & ?). by exists g1. }
  rewrite Hg1. cbn [mbind option_bind]. rewrite lookup_insert_ne, lookup_insert_eq by done.
  cbn [mbind option_bind]. assert (Hpc : t_cr3 (paused c) = t_cr3 c) by
    (unfold paused; by destruct (bool_decide _)).
  rewrite Hpc. cbn [set_t_state t_cr3]. set (e' := if t_cr3 c =? t_cr3 t then _ else _).
  assert (Hh : holds P (t_cr3 t) e' m).
  { destruct (so_memory _ _ _ _ _ _ _ Hs) as (c' & Hc' & Hh). fold cur in Hc'.
    rewrite Hc in Hc'. injection Hc' as <-. unfold e'.
    destruct (Z.eqb_spec (t_cr3 c) (t_cr3 t)) as [<-|_]; [done|].
    eapply vmm_switch_law; [exact Hh|]. by eapply so_cr3. }
  unfold switch_context. cbn [s_cpu words set_current set_gdt set_env set_tasks tasks].
  pose proof (Hroom c Hc) as Hr. fold cur in Hr.
  destruct (stack_bounds _ _ _ _ _ _ Hs Hc) as [Hb1 Hb2].
  destruct (switch_save_spec (SCHEDULE_RET syms) cur n (s_cpu s) (words s)) as
    (c1 & w1 & -> & Hsp & Hfr & Hw); [lia|].
  cbn [mbind option_bind]. unfold poke_task. rewrite lookup_insert_ne, lookup_insert_eq by done.
  cbn [mbind option_bind]. rewrite lookup_insert_ne, lookup_insert_eq by done. cbn [mbind option_bind].
  assert (Hout : forall x, ~ (lo cur c <= x < hi cur c) -> w1 !! x = words s !! x).
  { intros x Hx. apply Hw. lia. }
  destruct (so_frames _ _ _ _ _ _ _ Hs n t Hn Hne) as (f & Hf & Hfl & Hfh).
  pose proof (frame_kept _ _ _ _ cur c n t w1 f Hs Hc Hn (not_eq_sym Hne) Hout Hfl Hfh Hf) as Hf1.
  cbn [t_esp set_t_state]. rewrite (switch_load_spec _ _ _ f Hf1). cbn [mbind option_bind].
  eexists. split; [reflexivity|]. split; [|split; [exact Hh|exact Hlen]].
  split; try done. cbn [tasks words]. rewrite Hsp.
  rewrite insert_insert_ne by done. by rewrite insert_insert_eq.
Qed.

Lemma core_paused t : core (paused t) = core t.
Proof. unfold paused. by destruct (bool_decide _). Qed.
Lemma paused_not_running t : t_state (paused t) <> TASK_RUNNING.
Proof. unfold paused. case_bool_decide; done. Qed.
Lemma paused_fields t : t_next (paused t) = t_next t /\ kernel_stack_bottom (paused t) = kernel_stack_bottom t /\
  t_cr3 (paused t) = t_cr3 t.
Proof. unfold paused. by case_bool_decide. Qed.

(** Replacing the values of listed tasks, links and cores kept. *)
Lemma core_insert (T : gmap Z Task) a t u : T !! a = Some t -> core u = core t ->
  core <$> <[a := u]> T = core <$> T.
Proof.
  intros Ha Hu. rewrite fmap_insert, Hu. apply insert_id. by rewrite lookup_fmap, Ha.
Qed.
Lemma ring_insert (T : gmap Z Task) cur l a t u : T !! a = Some t -> t_next u = t_next t ->
  ring T cur l -> ring (<[a := u]> T) cur l.
Proof.
  intros Ha Hu [Hl Hn]. split; [|done]. eapply lseg_frame; [|exact Hl]. intros x _.
  rewrite lookup_insert. case_decide as Hx; [|done]. subst. rewrite Ha. simpl. by f_equal.
Qed.

Lemma dispatched_ok P m s l1 n t c l2 s' : ok P m s (l1 ++ n :: l2) ->
  has_room syms boot_lo boot_hi s -> tasks s !! n = Some t -> tasks s !! current_task s = Some c ->
  dispatched s n c t s' -> holds P (t_cr3 t) (env s') m ->
  length (tss_words (tss (s_gdt s'))) = 25%nat -> ok P m s' (l2 ++ current_task s :: l1).
Proof.
  intros Hs Hroom Hn Hc [Dc Dt Ds Df Dw _ Dp _] Hh Htss. set (cur := current_task s) in *.
  assert (Hne : n <> cur).
  { intros ->. destruct (so_ring _ _ _ _ _ _ _ Hs) as [_ [Hx _]%NoDup_cons]. apply Hx. unfold cur. set_solver. }
  set (c' := set_t_esp (r_esp (s_cpu s) - 48) (paused c)) in *.
  assert (Hn1 : <[cur := c']> (tasks s) !! n = Some t) by by rewrite lookup_insert_ne.
  destruct (paused_fields c) as (Hpn & Hpk & _). split.
  - rewrite Dt, Dc. apply ring_rotate. eapply ring_insert; [exact Hn1|done|].
    eapply ring_insert; [exact Hc|done|]. apply Hs.
  - intros a. rewrite Dt, Dc. rewrite !lookup_insert_is_Some, (so_dom _ _ _ _ _ _ _ Hs). fold cur.
    rewrite !elem_of_cons, !elem_of_app, !elem_of_cons.
    destruct (decide (n = a)), (decide (cur = a)); intuition.
  - rewrite Dt, Dp, (core_insert _ _ t _ Hn1), (core_insert _ _ c c' Hc);
      [apply Hs|rewrite <- (core_paused c); by destruct (paused c)|by destruct t].
  - intros a x. rewrite Dt, Dc. intros [[<- _]|[_ [[<- <-]|[Hac Ha]]%lookup_insert_Some]]%lookup_insert_Some Hx;
      [done| |].
    + exfalso. apply (paused_not_running c). by destruct (paused c).
    + exfalso. apply Hac. symmetry. by apply (so_running _ _ _ _ _ _ _ Hs a x).
  - exists (set_t_state TASK_RUNNING t). rewrite Dt, Dc, lookup_insert_eq. by split.
  - intros a x. rewrite Dt, Dc. intros [[<- _]|[Han [[<- <-]|[Hac Ha]]%lookup_insert_Some]]%lookup_insert_Some Hx;
      [done| |].
    + exists (resumed (SCHEDULE_RET syms) (s_cpu s)). split; [exact Ds|].
      specialize (Hroom c Hc). fold cur in Hroom. unfold stack_lo, stack_hi in *. unfold c'.
      cbn [t_esp set_t_esp kernel_stack_bottom]. rewrite Hpk. lia.
    + destruct (so_frames _ _ _ _ _ _ _ Hs a x Ha) as (f & Hf & Hl & Hhi); [done|].
      exists f. split; [|done]. by eapply (frame_kept _ _ _ _ cur c a x).
  - exact Htss.
  - rewrite Dp. apply Hs.
Qed.

(** The running task chosen again: it comes back where it called. *)
Lemma dispatch_self P m s l c : ok P m s l -> has_room syms boot_lo boot_hi s ->
  tasks s !! current_task s = Some c -> t_state c = TASK_READY ->
  exists s' c', dispatch syms s (current_task s) (current_task s) = Some s' /\
    s_cpu s' = resumed (SCHEDULE_RET syms) (s_cpu s) /\ current_task s' = current_task s /\
    tasks s' = <[current_task s := c']> (tasks s) /\ t_state c' = TASK_RUNNING /\
    core c' = core c /\ t_next c' = t_next c /\ files s' = files s /\ next_pid s' = next_pid s /\
    (forall x, ~ (lo (current_task s) c <= x < hi (current_task s) c) -> words s' !! x = words s !! x) /\
    ok P m s' l.
Proof.
  intros Hs Hroom Hc Hst. set (cur := current_task s) in *. unfold dispatch. rewrite Hc.
  cbn [mbind option_bind]. rewrite Hst, bool_decide_false by done. cbn [mbind option_bind].
  unfold poke_task at 1. rewrite Hc. cbn [mbind option_bind]. rewrite !lookup_insert_eq.
  cbn [mbind option_bind]. set (g' := if is_user (set_t_state TASK_RUNNING c) then _ else _).
  assert (exists g1, g' = Some g1 /\ length (tss_words (tss g1)) = 25%nat) as (g1 & -> & Hlen).
  { pose proof (so_tss _ _ _ _ _ _ _ Hs) as Hl. unfold g'.
    destruct (is_user _); [|by exists (s_gdt s)].
    destruct (set_kernel_stack_spec _ (kernel_stack_top (set_t_state TASK_RUNNING c)) Hl) as (g1 & ? & ? & _).
    by exists g1. }
  cbn [mbind option_bind]. rewrite Z.eqb_refl. unfold switch_context.
  cbn [s_cpu words set_current set_gdt set_env set_tasks tasks].
  pose proof (Hroom c Hc) as Hr. fold cur in Hr. destruct (stack_bounds _ _ _ _ _ _ Hs Hc) as [Hb1 Hb2].
  destruct (switch_save_spec (SCHEDULE_RET syms) cur cur (s_cpu s) (words s)) as
    (c1 & w1 & -> & Hsp & Hfr & Hw); [lia|].
  cbn [mbind option_bind]. unfold poke_task. rewrite lookup_insert_eq. cbn [mbind option_bind].
  rewrite lookup_insert_eq. cbn [mbind option_bind t_esp set_t_esp]. rewrite Hsp.
  rewrite (switch_load_spec _ _ _ _ Hfr). cbn [mbind option_bind]. rewrite insert_insert_eq.
  set (c' := set_t_esp _ _). eexists _, c'. split; [reflexivity|]. cbn [s_cpu current_task tasks files].
  split; [done|]. split; [done|]. split; [done|]. split; [done|]. split; [by destruct c|].
  split; [done|]. split; [done|]. split; [done|].
  split; [intros x Hx; apply Hw; fold cur in Hx; lia|]. split; cbn [tasks current_task next_pid env words s_gdt].
  - eapply ring_insert; [exact Hc|done|apply Hs].
  - intros a. rewrite lookup_insert_is_Some, (so_dom _ _ _ _ _ _ _ Hs). fold cur.
    cbn [current_task set_current set_gdt set_env set_tasks].
    rewrite elem_of_cons. destruct (decide (cur = a)); intuition.
  - rewrite (core_insert _ _ c) by (done || by destruct c). apply Hs.
  - intros a x [[<- _]|[_ Ha]]%lookup_insert_Some Hx; [done|]. by apply (so_running _ _ _ _ _ _ _ Hs a x).
  - exists c'. rewrite lookup_insert_eq. split; [done|].
    destruct (so_memory _ _ _ _ _ _ _ Hs) as (x & Hx & Hh). fold cur in Hx. by simplify_eq.
  - intros a x [[<- _]|[Hac Ha]]%lookup_insert_Some Hx; [done|].
    destruct (so_frames _ _ _ _ _ _ _ Hs a x Ha) as (f & Hf & Hl & Hhi); [done|].
    exists f. split; [|done]. eapply (frame_kept _ _ _ _ cur c a x); try done. intros y Hy. apply Hw. lia.
  - exact Hlen.
  - apply Hs.
Qed.
End Switch.
