(* ===== verification/TaskPick.v ===== *)
(** * The search of [schedule]

    [schedule] walks the ring behind the current task up to the first task
    that is READY, and kills the dead tasks it meets.  Here the walk is
    described on the list of the ring: the tasks it passes, those of them that
    stay, and the ready task it stops at with everything behind it. *)
From S2P Require Import Prelude CString Allocator Memory Vfs File Gdt Cpu Task TaskRing TaskInv TaskSched.
From S2P Require Import TaskSwitch.

Section Walk.
Implicit Types (T : gmap Z Task) (l : list Z).

Definition in_state (st : TaskState) T (a : Z) : bool :=
  match T !! a with Some t => bool_decide (t_state t = st) | None => false end.
(** A dead task with a number of its own; kill_task refuses the kernel's. *)
Definition reaped T (a : Z) : bool :=
  match T !! a with
  | Some t => bool_decide (t_state t = TASK_DEAD) && negb (t_id t =? 0)
  | None => false
  end.

Fixpoint skipped T l : list Z :=
  match l with
  | [] => []
  | a :: l' => if in_state TASK_READY T a then [] else a :: skipped T l'
  end.
Fixpoint from_ready T l : list Z :=
  match l with
  | [] => []
  | a :: l' => if in_state TASK_READY T a then l else from_ready T l'
  end.
Definition survivors T l : list Z := base.filter (fun a => reaped T a = false) (skipped T l).
Definition dead_met T l : list Z := base.filter (fun a => reaped T a = true) (skipped T l).

(** The pages and blocks left when the tasks of a list are gone. *)
Fixpoint pages_after T l (P : gset held) : gset held :=
  match l with
  | [] => P
  | a :: l' => pages_after T l' (match T !! a with Some t => pages_left P t | None => P end)
  end.
Fixpoint blocks_after T l (m : gmap Z Z) : gmap Z Z :=
  match l with
  | [] => m
  | a :: l' => blocks_after T l' (match T !! a with Some t => blocks_left m a t | None => m end)
  end.

Lemma skipped_app T l : skipped T l ++ from_ready T l = l.
Proof. induction l as [|a l IH]; simpl; [done|]. destruct (in_state _ T a); [done|]. simpl. by f_equal. Qed.
Lemma from_ready_head T l n l2 : from_ready T l = n :: l2 -> in_state TASK_READY T n = true.
Proof. induction l as [|a l IH]; simpl; [done|]. destruct (in_state _ T a) eqn:Ha; [by intros [=<- _]|done]. Qed.
Lemma skipped_not_ready T l a : a ∈ skipped T l -> in_state TASK_READY T a = false.
Proof.
  induction l as [|b l IH]; simpl; [by intros ?%not_elem_of_nil|].
  destruct (in_state _ T b) eqn:Hb; [by intros ?%not_elem_of_nil|].
  by intros [->|Hx]%elem_of_cons; [|apply IH].
Qed.
Lemma from_ready_in T l a : a ∈ l -> in_state TASK_READY T a = true -> from_ready T l <> [].
Proof.
  induction l as [|b l IH]; simpl; [by intros ?%not_elem_of_nil|].
  intros [->|Hx]%elem_of_cons Ha; [by rewrite Ha|]. destruct (in_state _ T b); [done|by apply IH].
Qed.

(** The walk reads the tasks of the list only. *)
Definition same_tasks T T' l : Prop := forall a, a ∈ l -> unlinked <$> T' !! a = unlinked <$> T !! a.
Lemma same_tasks_cons T T' a l : same_tasks T T' (a :: l) ->
  unlinked <$> T' !! a = unlinked <$> T !! a /\ same_tasks T T' l.
Proof. intros Hl. split; [apply Hl; by left|]. intros x Hx. apply Hl. by right. Qed.
Lemma in_state_eq st T T' a : unlinked <$> T' !! a = unlinked <$> T !! a ->
  in_state st T' a = in_state st T a /\ reaped T' a = reaped T a.
Proof.
  unfold in_state, reaped. destruct (T' !! a) as [t|], (T !! a) as [u|]; simpl; try done.
  intros Heq%(inj Some). by apply unlinked_fields in Heq as (-> & _ & _ & _ & _ & _ & -> & _).
Qed.
Lemma walk_eq T T' l : same_tasks T T' l ->
  skipped T' l = skipped T l /\ from_ready T' l = from_ready T l /\
  survivors T' l = survivors T l /\ dead_met T' l = dead_met T l.
Proof.
  unfold survivors, dead_met. induction l as [|a l IH]; [done|].
  intros [Ha Hl]%same_tasks_cons. destruct (IH Hl) as (Hs & Hf & Hv & Hd). simpl.
  destruct (in_state_eq TASK_READY T T' a Ha) as [-> Hr]. destruct (in_state _ T a); [done|].
  rewrite !filter_cons, Hr, Hs, Hf. rewrite Hs in Hv, Hd. repeat case_decide; by rewrite ?Hv, ?Hd.
Qed.
Lemma unlinked_pages t u : unlinked t = unlinked u -> pages_of t = pages_of u.
Proof. destruct t, u. unfold unlinked, set_t_next, pages_of. cbn. by intros [=]; subst. Qed.
Lemma after_eq T T' l : same_tasks T T' l -> forall P m,
  pages_after T' l P = pages_after T l P /\ blocks_after T' l m = blocks_after T l m.
Proof.
  induction l as [|a l IH]; [done|]. intros [Ha Hl]%same_tasks_cons P m. simpl.
  destruct (T' !! a) as [t|], (T !! a) as [u|]; simpl in Ha; try done; [|by apply IH].
  apply (inj Some) in Ha. unfold pages_left, blocks_left. rewrite (unlinked_pages _ _ Ha).
  apply unlinked_fields in Ha as (_ & _ & -> & _). by apply IH.
Qed.
Lemma walk_in T l a : a ∈ dead_met T l -> a ∈ l.
Proof.
  unfold dead_met. rewrite list_elem_of_filter. intros [_ Ha]. rewrite <- (skipped_app T l).
  apply elem_of_app. by left.
Qed.
Lemma survivors_in T l a : a ∈ survivors T l -> a ∈ l.
Proof.
  unfold survivors. rewrite list_elem_of_filter. intros [_ Ha]. rewrite <- (skipped_app T l).
  apply elem_of_app. by left.
Qed.
End Walk.

Section Pick.
Context {E : Type} `{MemoryOk E} (syms : symbols) (boot_lo boot_hi : Z).
Hypothesis Hlay : layout_ok syms boot_lo boot_hi.
Implicit Types (s : sched E).
#[local] Abbreviation ok := (sched_ok syms boot_lo boot_hi).
#[local] Abbreviation K := (KERNEL_TASK syms).

(** The state after the walk over [l]: the dead tasks it met are gone. *)
Record swept s s' (gone : list Z) : Prop := {
  sw_machine : same_machine s s';
  sw_gone : forall a, a ∈ gone -> tasks s' !! a = None;
  sw_rest : forall a, a ∉ gone -> unlinked <$> tasks s' !! a = unlinked <$> tasks s !! a;
}.
Lemma swept_refl s : swept s s [].
Proof. split; [apply same_machine_refl|by intros a ?%not_elem_of_nil|done]. Qed.
Lemma swept_cons s s1 s2 a gone : a ∉ gone -> removed s s1 a -> swept s1 s2 gone -> swept s s2 (a :: gone).
Proof.
  intros Hag [Hm Hg Hr] [Hm' Hg' Hr']. split.
  - by eapply same_machine_trans.
  - intros b [->|Hb]%elem_of_cons; [|by apply Hg'].
    specialize (Hr' a Hag). rewrite Hg in Hr'. by destruct (tasks s2 !! a).
  - intros b [Hba Hbg]%not_elem_of_cons. by rewrite Hr', Hr.
Qed.

Lemma in_state_task st (T : gmap Z Task) a t : T !! a = Some t -> in_state st T a = bool_decide (t_state t = st).
Proof. unfold in_state. by intros ->. Qed.

Lemma reaped_task (T : gmap Z Task) a t : T !! a = Some t ->
  reaped T a = bool_decide (t_state t = TASK_DEAD) && negb (t_id t =? 0).
Proof. unfold reaped. by intros ->. Qed.

Lemma ring_next (T : gmap Z Task) cur kept a todo t : ring T cur (kept ++ a :: todo) -> T !! a = Some t ->
  t_next t = hd cur todo.
Proof.
  intros [Hl _] Ha. change (cur :: kept ++ a :: todo) with ((cur :: kept) ++ a :: todo) in Hl.
  apply lseg_app in Hl as (b & _ & [-> (t' & Ht' & Hl)]). rewrite Ha in Ht'. injection Ht' as <-.
  destruct todo as [|c todo]; [done|]. by apply lseg_head in Hl.
Qed.

Lemma pick_loop_spec fuel : forall P m s kept todo, ok P m s (kept ++ todo) -> (length todo <= fuel)%nat ->
  let T := tasks s in
  exists s', pick_loop fuel s (current_task s) (hd (current_task s) todo)
      = Some (hd (current_task s) (from_ready T todo), s') /\
    swept s s' (dead_met T todo) /\
    ok (pages_after T (dead_met T todo) P) (blocks_after T (dead_met T todo) m) s'
      (kept ++ survivors T todo ++ from_ready T todo).
Proof.
  induction fuel as [|fuel IH]; intros P m s kept todo Hs Hf T.
  - destruct todo; [|simpl in Hf; lia]. cbn [pick_loop hd].
    destruct (so_in _ _ _ _ _ _ _ _ Hs ltac:(left)) as (c & -> & _). cbn [mbind option_bind].
    rewrite Z.eqb_refl, orb_true_r. exists s. split; [done|]. split; [apply swept_refl|done].
  - destruct todo as [|a todo].
    { cbn [pick_loop hd]. destruct (so_in _ _ _ _ _ _ _ _ Hs ltac:(left)) as (c & -> & _).
      cbn [mbind option_bind]. rewrite Z.eqb_refl, orb_true_r. exists s.
      split; [done|]. split; [apply swept_refl|done]. }
    pose proof (so_ring _ _ _ _ _ _ _ Hs) as Hring.
    destruct (so_in _ _ _ _ _ _ _ a Hs ltac:(right; set_solver)) as (t & Ht & _).
    assert (Hac : a <> current_task s).
    { intros ->. destruct Hring as [_ [Hn _]%NoDup_cons]. apply Hn. set_solver. }
    pose proof (ring_next _ _ _ _ _ _ Hring Ht) as Hnx.
    unfold survivors, dead_met. cbn [pick_loop hd skipped from_ready]. fold T in Ht. fold T. rewrite Ht.
    cbn [mbind option_bind]. rewrite (in_state_task _ _ _ _ Ht), (proj2 (Z.eqb_neq a _)), orb_false_r by done.
    case_bool_decide as Hready.
    { exists s. split; [done|]. split; [apply swept_refl|done]. }
    rewrite Hnx, !filter_cons. rewrite !(reaped_task _ _ _ Ht). case_bool_decide as Hdead; simpl in Hf.
    + destruct (Z.eqb_spec (t_id t) 0) as [Hid|Hid].
      * rewrite Hid, kill_kernel. cbn [mbind option_bind andb negb].
        repeat (rewrite decide_True by done || rewrite decide_False by done).
        destruct (IH P m s (kept ++ [a]) todo) as (s' & Hp & Hsw & Hok); [by rewrite <- app_assoc|lia|].
        exists s'. split; [exact Hp|]. split; [exact Hsw|]. by rewrite <- app_assoc in Hok.
      * destruct (kill_listed syms boot_lo boot_hi Hlay P m s kept a t todo Hs Ht Hid) as (s1 & -> & Hrm & Hok1).
        cbn [mbind option_bind andb negb].
        repeat (rewrite decide_True by done || rewrite decide_False by done).
        destruct (IH _ _ s1 kept todo Hok1) as (s' & Hp & Hsw & Hok); [lia|].
        rewrite (sm_current _ _ (rm_machine _ _ _ Hrm)) in Hp.
        assert (Hat : a ∉ todo).
        { destruct Hring as [_ [_ Hn]%NoDup_cons]. apply NoDup_app in Hn as (_ & _ & [Hn _]%NoDup_cons). done. }
        assert (Hsame : same_tasks T (tasks s1) todo).
        { intros b Hb. apply (rm_rest _ _ _ Hrm). by intros ->. }
        destruct (walk_eq _ _ _ Hsame) as (_ & Ef & Ev & Ed). rewrite Ef in Hp. rewrite Ef, Ev, Ed in Hok.
        rewrite Ed in Hsw.
        destruct (after_eq T (tasks s1) (dead_met T todo)) with (P := pages_left P t) (m := blocks_left m a t)
          as [EP Em]; [intros b Hb; apply Hsame; by eapply walk_in|]. rewrite EP, Em in Hok.
        exists s'. split; [exact Hp|]. cbn [pages_after blocks_after]. rewrite Ht. split; [|exact Hok].
        eapply swept_cons; [|exact Hrm|exact Hsw]. intros Hx. apply Hat. by eapply walk_in.
    + cbn [andb]. repeat (rewrite decide_True by done || rewrite decide_False by done).
      destruct (IH P m s (kept ++ [a]) todo) as (s' & Hp & Hsw & Hok); [by rewrite <- app_assoc|lia|].
      exists s'. split; [exact Hp|]. split; [exact Hsw|]. by rewrite <- app_assoc in Hok.
Qed.
End Pick.
