(* ===== verification/TaskSchedule.v ===== *)
(** * schedule

    What [schedule] does to the tasks, to the processor and to the saved
    frames, in terms of the state before it. *)
From S2P Require Import Prelude CString Allocator Memory Vfs File Gdt Cpu Task TaskRing TaskInv TaskSched.
From S2P Require Import TaskSwitch TaskPick.

Section Schedule.
Context {E : Type} `{MemoryOk E} (syms : symbols) (boot_lo boot_hi : Z).
Hypothesis Hlay : layout_ok syms boot_lo boot_hi.
Implicit Types (s : sched E).
#[local] Abbreviation ok := (sched_ok syms boot_lo boot_hi).
#[local] Abbreviation lo := (stack_lo syms boot_lo).
#[local] Abbreviation hi := (stack_hi syms boot_hi).
#[local] Abbreviation room := (has_room syms boot_lo boot_hi).

(** What becomes of the task [t] at [a] when [n] gets the processor. *)
Definition after_switch s n a (t : Task) : Task :=
  if a =? n then set_t_state TASK_RUNNING t
  else if a =? current_task s then set_t_esp (r_esp (s_cpu s) - 48) (paused t)
  else t.

(** The processor goes from the current task to [n]. *)
Record switched s n s' (gone : list Z) : Prop := {
  wt_current : current_task s' = n;
  wt_gone : forall a, a ∈ gone -> tasks s' !! a = None;
  wt_tasks : forall a, a ∉ gone ->
    unlinked <$> tasks s' !! a = unlinked <$> (after_switch s n a <$> tasks s !! a);
  wt_cpu : exists t, tasks s !! n = Some t /\ frame_at (words s) (t_esp t) (s_cpu s') /\
    (is_user t = true -> tss_words (tss (s_gdt s')) !! Z.to_nat TSS_ESP0 = Some (kernel_stack_top t));
  wt_saved : frame_at (words s') (r_esp (s_cpu s) - 48) (resumed (SCHEDULE_RET syms) (s_cpu s));
  wt_words : forall c x, tasks s !! current_task s = Some c ->
    ~ (lo (current_task s) c <= x < hi (current_task s) c) -> words s' !! x = words s !! x;
  wt_files : files s' = files s;
  wt_pid : next_pid s' = next_pid s;
}.
(** The current task keeps it; when it was READY again it is RUNNING after. *)
Record stayed s s' (gone : list Z) : Prop := {
  st_current : current_task s' = current_task s;
  st_gone : forall a, a ∈ gone -> tasks s' !! a = None;
  st_tasks : forall a, a ∉ gone -> a <> current_task s ->
    unlinked <$> tasks s' !! a = unlinked <$> tasks s !! a;
  st_cur : exists c c', tasks s !! current_task s = Some c /\ tasks s' !! current_task s = Some c' /\
    core c' = core c /\
    (t_state c' = t_state c /\ s_cpu s' = s_cpu s \/
     t_state c = TASK_READY /\ t_state c' = TASK_RUNNING /\
     s_cpu s' = resumed (SCHEDULE_RET syms) (s_cpu s));
  st_words : forall c x, tasks s !! current_task s = Some c ->
    ~ (lo (current_task s) c <= x < hi (current_task s) c) -> words s' !! x = words s !! x;
  st_files : files s' = files s;
  st_pid : next_pid s' = next_pid s;
}.

Lemma swept_room s s' gone : swept s s' gone -> current_task s ∉ gone -> room s -> room s'.
Proof.
  intros [[_ _ Hc _ _ Hcpu] _ Hr] Hn Hroom t Ht. rewrite Hc in *. rewrite Hcpu.
  specialize (Hr _ Hn). rewrite Ht in Hr. symmetry in Hr. apply fmap_Some in Hr as (u & Hu & Heq).
  specialize (Hroom u Hu). apply unlinked_fields in Heq as (_ & _ & Heq & _).
  unfold stack_lo, stack_hi in *. by rewrite Heq.
Qed.
Lemma swept_lookup s s' gone a t : swept s s' gone -> tasks s' !! a = Some t ->
  exists u, tasks s !! a = Some u /\ unlinked t = unlinked u /\ a ∉ gone.
Proof.
  intros [_ Hg Hr] Ht. assert (Ha : a ∉ gone) by (intros Hx; specialize (Hg _ Hx); congruence).
  specialize (Hr _ Ha). rewrite Ht in Hr. symmetry in Hr. apply fmap_Some in Hr as (u & Hu & Heq).
  by exists u.
Qed.

(** The walk found [n]: dispatch after the sweep. *)
Lemma switched_intro s s1 s2 n c t gone : swept s s1 gone -> n ∉ gone -> current_task s ∉ gone ->
  n <> current_task s -> tasks s1 !! n = Some t -> tasks s1 !! current_task s = Some c ->
  dispatched syms boot_lo boot_hi s1 n c t s2 -> switched s n s2 gone.
Proof.
  intros Hsw Hn Hcur Hne Ht Hc [Dc Dt Ds Df Dw Dfl Dp De]. pose proof Hsw as [[Sf Sw Sc Sp Sg Su] Hg Hr].
  rewrite Sc, Su in *. split.
  - exact Dc.
  - intros a Ha. rewrite Dt. rewrite !lookup_insert_ne by (intros <-; done). by apply Hg.
  - intros a Ha. rewrite Dt. unfold after_switch. specialize (Hr a Ha).
    destruct (Z.eqb_spec a n) as [->|Han].
    + rewrite lookup_insert_eq. rewrite Ht in Hr. destruct (tasks s !! n) as [u|]; [|done].
      simpl in *. destruct t, u. unfold unlinked, set_t_next, set_t_state in *. cbn in *. congruence.
    + rewrite lookup_insert_ne by done. destruct (Z.eqb_spec a (current_task s)) as [->|Hac].
      * rewrite lookup_insert_eq. rewrite Hc in Hr. destruct (tasks s !! current_task s) as [u|]; [|done].
        simpl in *. f_equal. unfold paused. destruct c, u.
        unfold unlinked, set_t_next, set_t_state, set_t_esp in *. cbn in *. injection Hr as; subst.
        by case_bool_decide.
      * rewrite lookup_insert_ne by done. rewrite Hr. by destruct (tasks s !! a).
  - destruct (swept_lookup _ _ _ _ _ Hsw Ht) as (u & Hu & Heq & _). exists u. split; [done|].
    apply unlinked_fields in Heq as (_ & He & _ & Htop & _ & Hus & _). rewrite <- He, <- Sw, <- Htop, <- Hus.
    by split.
  - exact Ds.
  - intros u x Hu Hx. rewrite <- Sw. apply Dw. destruct (swept_lookup _ _ _ _ _ Hsw Hc) as (v & Hv & Heq & _).
    rewrite Hu in Hv. injection Hv as <-. apply unlinked_fields in Heq as (_ & _ & Heq & _).
    unfold stack_lo, stack_hi in *. by rewrite Heq.
  - congruence.
  - congruence.
Qed.

Lemma schedule_spec P m s l : ok P m s l -> room s ->
  let T := tasks s in let gone := dead_met T l in
  exists s', schedule syms s = Some s' /\
    match from_ready T l with
    | n :: l2 => switched s n s' gone /\
        ok (pages_after T gone P) (blocks_after T gone m) s' (l2 ++ current_task s :: survivors T l)
    | [] => stayed s s' gone /\ ok (pages_after T gone P) (blocks_after T gone m) s' (survivors T l)
    end.
Proof.
  intros Hs Hroom T gone. unfold schedule. rewrite (proj2 (Z.eqb_neq _ _)) by by eapply so_null.
  destruct (so_ring _ _ _ _ _ _ _ Hs) as [[_ (c & Hc & Hl)] [Hcl Hnd]%NoDup_cons].
  fold T in Hc, Hl. fold T. rewrite Hc. cbn [mbind option_bind].
  destruct l as [|a l].
  { simpl in Hl. rewrite Hl, Z.eqb_refl. exists s. split; [done|]. split; [|exact Hs].
    split; try done; [by intros a ?%not_elem_of_nil|]. exists c, c. by repeat split; [..|left]. }
  pose proof (lseg_head _ _ _ _ _ Hl) as Hnx. rewrite Hnx.
  assert (a <> current_task s) by (intros ->; apply Hcl; by left).
  rewrite (proj2 (Z.eqb_neq _ _)) by done.
  destruct (pick_loop_spec syms boot_lo boot_hi Hlay (size T) P m s [] (a :: l) Hs) as (s1 & Hp & Hsw & Hok).
  { unfold T. rewrite (so_size _ _ _ _ _ _ _ Hs). simpl. lia. }
  fold T in Hp, Hsw, Hok. cbn [hd] in Hp. rewrite Hp. cbn [mbind option_bind app] in *.
  fold gone in Hsw, Hok.
  assert (Hcg : current_task s ∉ gone).
  { intros Hx. apply Hcl. by eapply walk_in. }
  pose proof (sm_current _ _ (sw_machine _ _ _ Hsw)) as Hcc.
  pose proof (swept_room _ _ _ Hsw Hcg Hroom) as Hroom1.
  destruct (from_ready T (a :: l)) as [|n l2] eqn:Hfr; cbn [hd].
  - rewrite app_nil_r in Hok. destruct (so_in _ _ _ _ _ _ _ (current_task s) Hok) as (c1 & Hc1 & _).
    { rewrite Hcc. by left. }
    rewrite Hc1. cbn [mbind option_bind]. destruct (swept_lookup _ _ _ _ _ Hsw Hc1) as (u & Hu & Heq & _).
    fold T in Hu. rewrite Hc in Hu. injection Hu as <-.
    pose proof (core_unlinked _ _ Heq) as Hcore. apply unlinked_fields in Heq as (_ & _ & Hks & _ & _ & _ & Hst & _).
    case_bool_decide as Hrdy; cbn [negb].
    + rewrite <- Hcc in Hc1. destruct (dispatch_self syms boot_lo boot_hi Hlay _ _ s1 _ c1 Hok Hroom1 Hc1 Hrdy)
        as (s2 & c' & Hd & Hcpu & Hcur2 & HT2 & Hst2 & Hcore2 & _ & Hfl2 & Hpid2 & Hw2 & Hok2).
      rewrite Hcc in *. rewrite Hd. exists s2. split; [done|]. split; [|exact Hok2].
      destruct Hsw as [[Sf Sw Sc Sp Sg Su] Hg Hr]. split.
      * congruence.
      * intros b Hb. rewrite HT2, lookup_insert_ne by (intros <-; done). by apply Hg.
      * intros b Hb Hbc. rewrite HT2, lookup_insert_ne by done. by apply Hr.
      * exists c, c'. split; [done|]. rewrite HT2, lookup_insert_eq. split; [done|]. split; [congruence|].
        right. split; [congruence|]. split; [done|]. by rewrite Hcpu, Su.
      * intros v x Hv Hx. fold T in Hv. rewrite Hc in Hv. injection Hv as <-. rewrite <- Sw. apply Hw2.
        unfold stack_lo, stack_hi in *. by rewrite Hks.
      * congruence.
      * congruence.
    + exists s1. split; [done|]. split; [|exact Hok].
      destruct Hsw as [[Sf Sw Sc Sp Sg Su] Hg Hr]. split; try done.
      * intros b Hb _. by apply Hr.
      * exists c, c1. repeat split; try done. left. by rewrite <- Hst, Su.
      * intros v x _ _. by rewrite Sw.
  - destruct (so_in _ _ _ _ _ _ _ n Hok) as (t & Ht & _); [right; set_solver|].
    destruct (so_in _ _ _ _ _ _ _ (current_task s) Hok) as (c1 & Hc1 & _); [rewrite Hcc; by left|].
    rewrite Ht. cbn [mbind option_bind].
    destruct (swept_lookup _ _ _ _ _ Hsw Ht) as (u & Hu & Heq & Hng).
    apply unlinked_fields in Heq as (_ & _ & _ & _ & _ & _ & Hst & _).
    pose proof (from_ready_head _ _ _ _ Hfr) as Hrn. rewrite (in_state_task _ _ _ _ Hu) in Hrn.
    rewrite Hst, Hrn. cbn [negb]. rewrite <- Hcc in Hc1 |- *.
    destruct (dispatch_tasks syms boot_lo boot_hi Hlay _ _ s1 _ n t c1 _ Hok Hroom1 Ht Hc1)
      as (s2 & Hd & Hdd & Hh & Htss).
    rewrite Hd. exists s2. split; [done|]. split.
    + eapply switched_intro; try done; rewrite <- ?Hcc; try done.
      intros ->. destruct (so_ring _ _ _ _ _ _ _ Hok) as [_ [Hx _]%NoDup_cons]. apply Hx. set_solver.
    + by eapply (dispatched_ok syms boot_lo boot_hi Hlay _ _ s1 _ n t c1 l2).
Qed.
End Schedule.
