(* ===== verification/TaskOps.v ===== *)
(** * The other operations of the scheduler

    Sleeping, waking, ending and creating tasks keep the invariant of
    [TaskInv], and so does whatever the running task does on its own stack. *)
From S2P Require Import Prelude CString Allocator Memory Vfs File Gdt Cpu Task TaskRing TaskInv TaskSched.
From S2P Require Import TaskSwitch TaskPick.

(** What sleeping and waking change. *)
Definition quiet (t : Task) : Task := set_wake_tick 0 (set_t_state TASK_READY t).
Lemma quiet_core t u : quiet t = quiet u -> core t = core u /\ t_next t = t_next u /\ t_esp t = t_esp u.
Proof. destruct t, u. unfold quiet, set_wake_tick, set_t_state, core. cbn. by intros [=]; subst. Qed.
Lemma core_fields t u : core t = core u ->
  t_id t = t_id u /\ kernel_stack_bottom t = kernel_stack_bottom u /\ t_cr3 t = t_cr3 u /\
  kernel_stack_top t = kernel_stack_top u /\ is_user t = is_user u /\
  user_stack_bottom t = user_stack_bottom u.
Proof. destruct t, u. unfold core. cbn. by intros [=]; subst. Qed.

Lemma lookup_insert_quiet (T : gmap Z Task) a t u b : T !! a = Some t -> quiet u = quiet t ->
  quiet <$> <[a := u]> T !! b = quiet <$> T !! b.
Proof.
  intros Ha Hq. rewrite lookup_insert. case_decide as Hab; [|done]. subst. rewrite Ha. simpl. by f_equal.
Qed.

Section Ops.
Context {E : Type} `{MemoryOk E} (syms : symbols) (boot_lo boot_hi : Z).
Hypothesis Hlay : layout_ok syms boot_lo boot_hi.
Implicit Types (s : sched E).
#[local] Abbreviation ok := (sched_ok syms boot_lo boot_hi).
#[local] Abbreviation K := (KERNEL_TASK syms).
#[local] Abbreviation lo := (stack_lo syms boot_lo).
#[local] Abbreviation hi := (stack_hi syms boot_hi).

(** Quiet changes of tasks, and work of the running task: its registers, its
    own stack and its open files, with more memory in use at the end. *)
Lemma ok_change P m P' m' s s' l : ok P m s l ->
  current_task s' = current_task s -> next_pid s' = next_pid s -> s_gdt s' = s_gdt s ->
  (forall a, quiet <$> tasks s' !! a = quiet <$> tasks s !! a) ->
  (forall a t, tasks s' !! a = Some t -> t_state t = TASK_RUNNING -> a = current_task s) ->
  (forall a t x, tasks s !! a = Some t -> a <> current_task s -> lo a t <= x < hi a t ->
     words s' !! x = words s !! x) ->
  P ⊆ P' -> m ⊆ m' ->
  (forall c, tasks s !! current_task s = Some c -> holds P' (t_cr3 c) (env s') m') ->
  ok P' m' s' l.
Proof.
  intros Hs Hc Hp Hg HT Hrun Hw HP Hm Hh.
  assert (HT' : forall a t, tasks s' !! a = Some t -> exists u, tasks s !! a = Some u /\ quiet t = quiet u).
  { intros a t Ha. specialize (HT a). rewrite Ha in HT. symmetry in HT.
    apply fmap_Some in HT as (u & Hu & Heq). by exists u. }
  split.
  - rewrite Hc. destruct (so_ring _ _ _ _ _ _ _ Hs) as [Hl Hn]. split; [|done].
    eapply lseg_frame; [|exact Hl]. intros a _. specialize (HT a).
    destruct (tasks s' !! a), (tasks s !! a); simpl in *; try done.
    f_equal. by apply (inj Some), quiet_core in HT as (_ & ? & _).
  - intros a. rewrite <- (fmap_is_Some quiet), HT, fmap_is_Some, Hc. apply Hs.
  - rewrite Hp. replace (core <$> tasks s') with (core <$> tasks s).
    + eapply owned_mono; [apply Hs|intros p sz Hx; by eapply lookup_weaken|done].
    + apply map_eq. intros a. rewrite !lookup_fmap. specialize (HT a).
      destruct (tasks s' !! a), (tasks s !! a); simpl in *; try done.
      f_equal. by apply (inj Some), quiet_core in HT as (? & _ & _).
  - intros a t Ha Hr. rewrite Hc. by eapply Hrun.
  - destruct (so_memory _ _ _ _ _ _ _ Hs) as (c & Hcur & _). rewrite Hc.
    specialize (HT (current_task s)). rewrite Hcur in HT. apply fmap_Some in HT as (c' & Hc' & Heq).
    exists c'. split; [done|]. apply quiet_core in Heq as [(_ & _ & <- & _)%core_fields _]. by apply Hh.
  - intros a t Ha Hac. rewrite Hc in Hac. destruct (HT' a t Ha) as (u & Hu & Heq).
    destruct (so_frames _ _ _ _ _ _ _ Hs a u Hu Hac) as (f & Hf & Hfl & Hfh).
    apply quiet_core in Heq as ((_ & Hk & _)%core_fields & _ & He). exists f. rewrite He.
    unfold stack_lo, stack_hi in *. rewrite Hk. split; [|done].
    eapply frame_frame; [|exact Hf]. intros x Hx. eapply Hw; [exact Hu|exact Hac|].
    unfold stack_lo, stack_hi. lia.
  - rewrite Hg. apply Hs.
  - rewrite Hp. apply Hs.
Qed.
(** The same with the memory as it was. *)
Lemma ok_tasks P m s l T : ok P m s l ->
  (forall a, quiet <$> T !! a = quiet <$> tasks s !! a) ->
  (forall a t, T !! a = Some t -> t_state t = TASK_RUNNING -> a = current_task s) ->
  ok P m (set_tasks T s) l.
Proof.
  intros Hs HT Hr. eapply ok_change; try done. intros c Hc.
  destruct (so_memory _ _ _ _ _ _ _ Hs) as (x & Hx & Hh). by simplify_eq.
Qed.

(** The blocks of a task are in use, and the rest of the heap may come and go. *)
Lemma blocks_in P m s l a t p : ok P m s l -> tasks s !! a = Some t -> a <> K -> p ∈ blocks_of a t ->
  is_Some (m !! p).
Proof.
  intros Hs Ha HaK Hp. destruct (so_owns _ _ _ _ _ _ _ _ _ Hs Ha HaK) as [(z1 & H1 & _) (z2 & H2 & _) _ _ _ _].
  unfold blocks_of in Hp. apply elem_of_cons in Hp as [->|Hp]; [by eexists|].
  apply list_elem_of_singleton in Hp as ->. by eexists.
Qed.
Lemma ok_blocks P m m' s l c e : ok P m s l -> tasks s !! current_task s = Some c -> holds P (t_cr3 c) e m' ->
  (forall a t p, tasks s !! a = Some t -> a <> K -> p ∈ blocks_of a t -> m' !! p = m !! p) ->
  ok P m' (set_env e s) l.
Proof.
  clear Hlay. intros Hs Hc Hh Hm. pose proof (so_owned _ _ _ _ _ _ _ Hs) as [Ok Oi Or On Ot Os].
  split; cbn [tasks current_task next_pid words s_gdt env set_env]; try apply Hs.
  - split; try done. intros a x Ha HaK. pose proof Ha as Hx. rewrite lookup_fmap in Hx.
    apply fmap_Some in Hx as (t & Ht & ->). destruct (Ot a (core t) Ha HaK) as [O1 O2 O3 O4 O5 O6].
    assert (Hmm : forall p, p ∈ blocks_of a t -> m' !! p = m !! p) by (intros p; by apply (Hm a t)).
    unfold blocks_of in Hmm. split; try done.
    + rewrite Hmm by set_solver. done.
    + cbn [core kernel_stack_bottom] in *. rewrite Hmm by set_solver. done.
  - by exists c.
Qed.

(** ** Waking, sleeping and ending *)
Lemma wake_one_quiet tick t : quiet (wake_one tick t) = quiet t.
Proof. unfold wake_one. by destruct (_ && _). Qed.
Lemma wake_one_running tick t : t_state (wake_one tick t) = TASK_RUNNING -> t_state t = TASK_RUNNING.
Proof. unfold wake_one. by destruct (_ && _). Qed.

Lemma task_timer_tick_spec P m s l tick : ok P m s l ->
  task_timer_tick tick s = Some (set_tasks (wake_one tick <$> tasks s) s) /\
  ok P m (set_tasks (wake_one tick <$> tasks s) s) l.
Proof.
  intros Hs. split.
  - unfold task_timer_tick. rewrite (proj2 (Z.eqb_neq _ _)) by by eapply so_null.
    destruct (so_ring _ _ _ _ _ _ _ Hs) as [Hl Hn].
    destruct (wake_loop_spec tick (current_task s) (size (tasks s)) (tasks s) (current_task s)
      (current_task s :: l)) as (T' & -> & Hlook); try done.
    + by apply NoDup_cons in Hn as [? _].
    + rewrite (so_size _ _ _ _ _ _ _ Hs). simpl. lia.
    + cbn [mbind option_bind]. do 2 f_equal. apply map_eq. intros a. rewrite Hlook, lookup_fmap.
      case_decide as Ha; [done|]. rewrite <- (so_dom _ _ _ _ _ _ _ Hs) in Ha.
      destruct (tasks s !! a); [|done]. exfalso. by apply Ha.
  - apply ok_tasks; [done|..].
    + intros a. rewrite lookup_fmap. destruct (tasks s !! a); simpl; [|done]. f_equal. apply wake_one_quiet.
    + intros a t. rewrite lookup_fmap. destruct (tasks s !! a) eqn:Ha; [|done]. intros [=<-].
      intros Hr%wake_one_running. by eapply so_running.
Qed.

Lemma ok_poke_current P m s l c c' : ok P m s l -> tasks s !! current_task s = Some c ->
  quiet c' = quiet c -> ok P m (set_tasks (<[current_task s := c']> (tasks s)) s) l.
Proof.
  intros Hs Hc Hq. apply ok_tasks; [done|..].
  - intros a. by eapply lookup_insert_quiet.
  - intros a t [[<- _]|[_ Ha]]%lookup_insert_Some Hr; [done|]. by eapply so_running.
Qed.

(** ** Creation *)
(** Allocations that succeed, one after the other. *)
Fixpoint alloc_all (ns : list Z) e : option E :=
  match ns with
  | [] => Some e
  | n :: ns' => '(p, e') ← kmalloc_op e n; if p =? 0 then None else alloc_all ns' e'
  end.
Lemma alloc_one ns n p e e' : kmalloc_op e n = Some (p, e') -> p <> 0 ->
  alloc_all (n :: ns) e = alloc_all ns e'.
Proof. intros Hk Hp. cbn [alloc_all]. rewrite Hk. cbn [mbind option_bind]. by rewrite (proj2 (Z.eqb_neq p 0)). Qed.

Lemma new_file_spec P act e m (F : gmap Z File) f : holds P act e m ->
  (new_file e F f = None /\ exists e', kmalloc_op e SIZEOF_FILE = Some (0, e')) \/
  exists p e' m', new_file e F f = Some (p, e', <[p := f]> F) /\ holds P act e' m' /\
    m ⊆ m' /\ m !! p = None /\ is_Some (m' !! p) /\ 0 < p /\
    forall ns, alloc_all (SIZEOF_FILE :: ns) e = alloc_all ns e'.
Proof.
  intros Hh. unfold new_file.
  destruct (holds_kmalloc _ _ _ _ SIZEOF_FILE Hh) as (p & e' & m' & Hk & Hh' & Hcase); [done|].
  rewrite Hk. cbn [mbind option_bind]. destruct Hcase as [[-> ->]|(sz & Hp & Hm & Hsz & ->)].
  - left. split; [done|]. by exists e'.
  - right. rewrite (proj2 (Z.eqb_neq _ _)) by lia. eexists _, e', _. split; [done|]. split; [done|].
    split; [by apply insert_subseteq|]. split; [done|]. split; [by rewrite lookup_insert_eq|]. split; [lia|].
    intros ns. eapply alloc_one; [exact Hk|lia].
Qed.

(** The three standard files of a new task, in fresh objects. *)
Record standard_files (F F' : gmap Z File) (fds : list Z) : Prop := {
  sf_table : exists a b c, fds = a :: b :: c :: replicate 13 0 /\ NoDup [a; b; c] /\
    Forall (fun x => 0 < x) [a; b; c] /\
    (f_ops <$> F' !! a = Some stdin_ops) /\ (f_ops <$> F' !! b = Some stdout_ops) /\
    (f_ops <$> F' !! c = Some stderr_ops) /\
    forall x, x ∉ [a; b; c] -> F' !! x = F !! x;
}.
(** From [e], the heap has no room for three more File objects. *)
Definition out_of_files (e : E) : Prop := exists k e1 e2, (k < 3)%nat /\
  alloc_all (replicate k SIZEOF_FILE) e = Some e1 /\ kmalloc_op e1 SIZEOF_FILE = Some (0, e2).

Lemma alloc_all_app ns ns' e : alloc_all (ns ++ ns') e = (e' ← alloc_all ns e; alloc_all ns' e').
Proof.
  revert e. induction ns as [|n ns IH]; intros e; [done|]. cbn [alloc_all app].
  destruct (kmalloc_op e n) as [[p e1]|]; [|done]. cbn [mbind option_bind]. destruct (p =? 0); [done|apply IH].
Qed.
(** Room for the Files and more. *)
Lemma room_files ns e e' : alloc_all (replicate 3 SIZEOF_FILE ++ ns) e = Some e' -> ~ out_of_files e.
Proof.
  intros Ha (k & e1 & e2 & Hk & H1 & H2).
  replace (replicate 3 SIZEOF_FILE) with (replicate k SIZEOF_FILE ++ SIZEOF_FILE :: replicate (2 - k) SIZEOF_FILE) in Ha
    by (destruct k as [|[|[|k]]]; [done..|lia]).
  rewrite <- app_assoc, alloc_all_app, H1 in Ha. cbn [mbind option_bind app alloc_all] in Ha.
  by rewrite H2 in Ha.
Qed.

(** The blocks [m'] are [m] and those of the Files in [fds]. *)
Record new_files (m m' : gmap Z Z) (fds : list Z) : Prop := {
  nf_sub : m ⊆ m';
  nf_fresh : forall p, p ∈ fds -> p <> 0 -> m !! p = None /\ is_Some (m' !! p);
}.

Lemma init_task_fds_spec P act e m F : holds P act e m ->
  (init_task_fds e F = None /\ out_of_files e) \/
  exists fds e' F' m', init_task_fds e F = Some (fds, e', F') /\ holds P act e' m' /\ new_files m m' fds /\
    standard_files F F' fds.
Proof.
  intros Hh. unfold init_task_fds, create_stdin_file, create_stdout_file, create_stderr_file.
  destruct (new_file_spec _ _ _ _ F (mk_file FILE_TYPE_STDIN stdin_ops None 0 0 1) Hh)
    as [[-> ?]|(a & e1 & m1 & -> & H1 & S1 & N1 & I1 & P1 & A1)];
    [left; split; [done|]; exists 0%nat, e; naive_solver lia|].
  cbn [mbind option_bind].
  destruct (new_file_spec _ _ _ _ (<[a := mk_file FILE_TYPE_STDIN stdin_ops None 0 0 1]> F)
    (mk_file FILE_TYPE_STDOUT stdout_ops None 0 0 1) H1)
    as [[-> ?]|(b & e2 & m2 & -> & H2 & S2 & N2 & I2 & P2 & A2)];
    [left; split; [done|]; exists 1%nat, e1; cbn [replicate]; rewrite A1; naive_solver lia|].
  cbn [mbind option_bind]. 
  match goal with |- context [new_file e2 ?G ?f] =>
    destruct (new_file_spec _ _ _ _ G f H2) as [[-> ?]|(c & e3 & m3 & -> & H3 & S3 & N3 & I3 & P3 & A3)] end;
    [left; split; [done|]; exists 2%nat, e2; cbn [replicate]; rewrite A1, A2; naive_solver lia|].
  cbn [mbind option_bind]. right. eexists _, e3, _, m3. split; [done|]. split; [done|].
  assert (S13 : m1 ⊆ m3) by by etransitivity. assert (S02 : m ⊆ m2) by by etransitivity.
  split.
  { split; [by etransitivity|]. intros p Hp Hz. rewrite !elem_of_cons in Hp.
    destruct Hp as [->|[->|[->|[Hp _]%elem_of_replicate]]]; [| | |done]; split; try done.
    - destruct I1 as [z I1]. exists z. by eapply lookup_weaken.
    - by eapply lookup_weaken_None.
    - destruct I2 as [z I2]. exists z. by eapply lookup_weaken.
    - by eapply lookup_weaken_None. }
  assert (a <> b) by (intros ->; by rewrite N2 in I1; destruct I1).
  assert (b <> c) by (intros ->; by rewrite N3 in I2; destruct I2).
  assert (a <> c).
  { intros ->. destruct I1 as [z I1]. apply (lookup_weaken _ _ _ _ I1) in S2. congruence. }
  split. exists a, b, c. split; [done|]. split.
  { rewrite !NoDup_cons, !elem_of_cons, !elem_of_nil. repeat split; try apply NoDup_nil_2; naive_solver. }
  split; [by repeat constructor|].
  rewrite lookup_insert_ne, lookup_insert_ne, lookup_insert_eq by done.
  rewrite lookup_insert_ne, lookup_insert_eq by done. rewrite lookup_insert_eq.
  repeat (split; [done|]). intros x Hx. rewrite !not_elem_of_cons in Hx.
  by rewrite !lookup_insert_ne by naive_solver.
Qed.
(** The allocations behind the three Files. *)
Lemma init_fds_alloc e F fds e' F' : init_task_fds e F = Some (fds, e', F') ->
  alloc_all (replicate 3 SIZEOF_FILE) e = Some e'.
Proof.
  unfold init_task_fds, create_stdin_file, create_stdout_file, create_stderr_file, new_file. intros Hi.
  cbn [alloc_all replicate].
  destruct (kmalloc_op e SIZEOF_FILE) as [[p1 e1]|]; [|done]. cbn [mbind option_bind] in *.
  destruct (p1 =? 0); [done|]. cbn [mbind option_bind] in *.
  destruct (kmalloc_op e1 SIZEOF_FILE) as [[p2 e2]|]; [|done]. cbn [mbind option_bind] in *.
  destruct (p2 =? 0); [done|]. cbn [mbind option_bind] in *.
  destruct (kmalloc_op e2 SIZEOF_FILE) as [[p3 e3]|]; [|done]. cbn [mbind option_bind] in *.
  destruct (p3 =? 0); [done|]. cbn [mbind option_bind] in *. by injection Hi as <- <- <-.
Qed.
End Ops.
