(* ===== verification/TaskCreate.v ===== *)
(** * Creating tasks

    The frame a new task starts from, and the end of both constructors: the new
    task behind the current one, with three standard files of its own. *)
From S2P Require Import Prelude CString Allocator Memory Vfs File Gdt Cpu Task TaskRing TaskInv TaskSched.
From S2P Require Import TaskSwitch TaskPick TaskOps.

(** Registers all zero. *)
Definition fresh_cpu (eip esp : Z) : cpu := mk_cpu eip esp 0x0202 (mk_gprs 0 0 0 0 0 0 0).

Lemma zero_words_other n : forall top i w x, 0 <= i -> 4 * (i + Z.of_nat n) <= top < 4294967296 ->
  ~ (top - 4 * (i + Z.of_nat n) + 4 <= x <= top - 4 * i) -> zero_words n top i w !! x = w !! x.
Proof.
  induction n as [|n IH]; intros top i w x Hi Ht Hx; [done|]. cbn [zero_words].
  rewrite IH by lia. rewrite u32_small by lia. apply lookup_insert_ne. lia.
Qed.
Lemma zero_words_in n : forall top i w k, 0 <= i -> 4 * (i + Z.of_nat n) <= top < 4294967296 ->
  i <= k < i + Z.of_nat n -> zero_words n top i w !! (top - 4 * k) = Some 0.
Proof.
  induction n as [|n IH]; intros top i w k Hi Ht Hk; [lia|]. cbn [zero_words].
  destruct (decide (k = i)) as [->|Hki]; [|apply IH; lia].
  rewrite zero_words_other by lia. rewrite u32_small by lia. apply lookup_insert_eq.
Qed.

(** A lookup in a chain of insertions at constant offsets. *)
Ltac lookup_chain :=
  repeat (rewrite lookup_insert;
    first [rewrite decide_True by lia | rewrite decide_False by lia]); try reflexivity.

(** The eight zeros of a frame. *)
Lemma zero_frame (top i eip : Z) w : 4 * (i + 8) <= top < 4294967296 -> 2 < i ->
  w !! (top - 4 * (i - 1)) = Some 0x0202 -> w !! (top - 4 * (i - 2)) = Some eip ->
  frame_at (zero_words 8 top i w) (top - 4 * (i + 7)) (fresh_cpu eip (top - 4 * (i - 3))).
Proof.
  intros Ht Hi Hf He.
  assert (Hz : forall j, 0 <= j < 8 -> zero_words 8 top i w !! (top - 4 * (i + 7) + 4 * j) = Some 0).
  { intros j Hj. replace (top - 4 * (i + 7) + 4 * j) with (top - 4 * (i + 7 - j)) by lia.
    apply zero_words_in; lia. }
  split; cbn [fresh_cpu r_gpr r_eip r_esp r_eflags r_eax r_ecx r_edx r_ebx r_ebp r_esi r_edi]; [lia|..|lia].
  - rewrite <- (Hz 0) by lia. f_equal. lia.
  - by rewrite <- (Hz 1) by lia.
  - by rewrite <- (Hz 2) by lia.
  - exists 0. by rewrite <- (Hz 3) by lia.
  - by rewrite <- (Hz 4) by lia.
  - by rewrite <- (Hz 5) by lia.
  - by rewrite <- (Hz 6) by lia.
  - by rewrite <- (Hz 7) by lia.
  - rewrite zero_words_other by lia. rewrite <- Hf. f_equal. lia.
  - rewrite zero_words_other by lia. rewrite <- He. f_equal. lia.
Qed.

Section Frames.
Context (syms : symbols).
Lemma task_frame_spec top entry_point w : 48 <= top < 4294967296 ->
  let w' := task_frame syms top entry_point w in
  frame_at w' (top - 44) (fresh_cpu entry_point (top - 4)) /\
  w' !! (top - 4) = Some (EXIT_TASK syms) /\
  forall x, ~ (top - 44 <= x < top) -> w' !! x = w !! x.
Proof.
  intros Ht. unfold task_frame. cbv zeta. rewrite !u32_small by lia. split; [|split].
  - apply (zero_frame top 4 entry_point); [lia|lia|lookup_chain..].
  - rewrite zero_words_other by lia. lookup_chain.
  - intros x Hx. rewrite zero_words_other by lia. lookup_chain.
Qed.
(** Above the frame of a user task: what the [iret] of the trampoline pops. *)
Definition ring3 (entry_point : Z) : user_context := mk_user entry_point 0x1B 0x0202 USER_STACK_TOP 0x23.
Lemma user_frame_spec top entry_point w : 64 <= top < 4294967296 ->
  let w' := user_frame syms top entry_point w in
  frame_at w' (top - 60) (fresh_cpu (TRAMPOLINE syms) (top - 20)) /\
  (forall c, r_esp c = top - 20 -> iret c w' = Some (ring3 entry_point)) /\
  forall x, ~ (top - 60 <= x < top) -> w' !! x = w !! x.
Proof.
  intros Ht. unfold user_frame. cbv zeta. rewrite !u32_small by lia.
  match goal with |- context [zero_words 8 top 8 ?w1] => set (w1' := w1) end. split; [|split].
  - apply (zero_frame top 8 (TRAMPOLINE syms)); [lia|lia|unfold w1'; lookup_chain..].
  - intros c Hc. unfold iret.
    assert (H1 : zero_words 8 top 8 w1' !! (top - 20) = Some entry_point) by
      (rewrite zero_words_other by lia; unfold w1'; lookup_chain).
    assert (H2 : zero_words 8 top 8 w1' !! (top - 16) = Some 0x1B) by
      (rewrite zero_words_other by lia; unfold w1'; lookup_chain).
    assert (H3 : zero_words 8 top 8 w1' !! (top - 12) = Some 0x0202) by
      (rewrite zero_words_other by lia; unfold w1'; lookup_chain).
    assert (H4 : zero_words 8 top 8 w1' !! (top - 8) = Some USER_STACK_TOP) by
      (rewrite zero_words_other by lia; unfold w1'; lookup_chain).
    assert (H5 : zero_words 8 top 8 w1' !! (top - 4) = Some 0x23) by
      (rewrite zero_words_other by lia; unfold w1'; lookup_chain).
    clearbody w1'. revert H1 H2 H3 H4 H5. generalize (zero_words 8 top 8 w1'). intros w' H1 H2 H3 H4 H5.
    do 5 pop_step. reflexivity.
  - intros x Hx. rewrite zero_words_other by lia. unfold w1'. lookup_chain.
Qed.
End Frames.

Section Create.
Context {E : Type} `{MemoryOk E} (syms : symbols) (boot_lo boot_hi : Z) (vfs_root : vfs_node).
Hypothesis Hlay : layout_ok syms boot_lo boot_hi.
Implicit Types (s : sched E).
#[local] Abbreviation ok := (sched_ok syms boot_lo boot_hi).
#[local] Abbreviation K := (KERNEL_TASK syms).
#[local] Abbreviation lo := (stack_lo syms boot_lo).
#[local] Abbreviation hi := (stack_hi syms boot_hi).

(** [s'] is [s] with the new task [t] at [a], nothing else changed but the
    words of its stack. *)
Record created s s' a (t : Task) : Prop := {
  cr_task : tasks s' !! a = Some t;
  cr_fresh : tasks s !! a = None;
  cr_rest : forall b, b <> a -> unlinked <$> tasks s' !! b = unlinked <$> tasks s !! b;
  cr_current : current_task s' = current_task s;
  cr_state : t_state t = TASK_READY;
  cr_id : t_id t = next_pid s;
  cr_pid : next_pid s' = next_pid s + 1;
  cr_files : standard_files (files s) (files s') (fd_table t);
  cr_cwd : exists c, tasks s !! current_task s = Some c /\ cwd t = cwd c;
  cr_words : forall x, ~ (kernel_stack_bottom t <= x < kernel_stack_top t) ->
    words s' !! x = words s !! x;
  cr_cpu : s_cpu s' = s_cpu s;
}.

(** The blocks [m'] are [m] and those of the new task [t] at [a]: its object,
    its stack and its Files, all different. *)
Record new_blocks (m m' : gmap Z Z) a (t : Task) : Prop := {
  nb_sub : m ⊆ m';
  nb_own : forall p, p ∈ blocks_of a t -> m !! p = None;
  nb_files : forall p, p ∈ fd_table t -> p <> 0 -> m !! p = None /\ is_Some (m' !! p) /\ p ∉ blocks_of a t;
}.

(** A block that the heap hands out lies apart from every stack. *)
Lemma fresh_block P m s l P' act e m' p sz b u : ok P m s l -> tasks s !! b = Some u ->
  m ⊆ m' -> m !! p = None -> holds P' act e m' -> m' !! p = Some sz -> TASK_STACK_SIZE <= sz ->
  hi b u <= p \/ p + TASK_STACK_SIZE <= lo b u.
Proof.
  intros Hs Hb Hm Hp Hh Hp' Hsz. pose proof (holds_range _ _ _ _ _ _ Hh Hp') as Hr.
  unfold stack_lo, stack_hi. destruct Hlay as [Hboot _].
  destruct (Z.eqb_spec b K) as [->|HbK]; [left; lia|].
  destruct (so_owns _ _ _ _ _ _ _ _ _ Hs Hb HbK) as [_ (z & Hz & Hz') _ _ _ _].
  pose proof (lookup_weaken _ _ _ _ Hz Hm) as Hz2.
  assert (kernel_stack_bottom u <> p) by congruence.
  destruct (decide (kernel_stack_bottom u < p)) as [Hlt|Hge].
  - left. pose proof (holds_disjoint _ _ _ _ _ _ _ _ Hh Hz2 Hp' Hlt). lia.
  - right. pose proof (holds_disjoint _ _ _ _ _ _ _ _ Hh Hp' Hz2 ltac:(lia)). lia.
Qed.

(** What the constructors have prepared when they reach the descriptors. *)
Record prepared P m s P1 m1 e1 w a sp st us cr3 user : Prop := {
  pr_pid : next_pid s + 1 < 4294967296;
  pr_pages : P ⊆ P1;
  pr_blocks : m ⊆ m1;
  pr_holds : forall c, tasks s !! current_task s = Some c -> holds P1 (t_cr3 c) e1 m1;
  pr_fresh : m !! a = None /\ m !! st = None;
  pr_owns : forall id n wt fds d, task_owns kernel_dir m1 P1 a
    (mk_task id sp st us (st + TASK_STACK_SIZE) cr3 user TASK_READY wt n fds d);
  pr_new_pages : user = true -> StackPage us ∉ P /\ Directory cr3 ∉ P;
  pr_frame : exists f, frame_at w sp f;
  pr_inside : st <= sp /\ sp + 40 <= st + TASK_STACK_SIZE;
  pr_words : forall x, ~ (st <= x < st + TASK_STACK_SIZE) -> w !! x = words s !! x;
}.

Lemma link_task_spec P m s l P1 m1 e1 w a sp st us cr3 user : ok P m s l ->
  prepared P m s P1 m1 e1 w a sp st us cr3 user ->
  (link_task vfs_root (set_env e1 s) w a sp st us cr3 user = None /\ out_of_files e1) \/
  exists s' t m2, link_task vfs_root (set_env e1 s) w a sp st us cr3 user = Some (a, s') /\
    created s s' a t /\ words s' = w /\ t_esp t = sp /\ is_user t = user /\ t_cr3 t = cr3 /\
    kernel_stack_bottom t = st /\ kernel_stack_top t = st + TASK_STACK_SIZE /\
    user_stack_bottom t = us /\ new_blocks m m2 a t /\ ok P1 m2 s' (a :: l).
Proof.
  intros Hs [Hpid HP Hm Hh [Hfa Hfs] Hown Hnp [f Hf] Hin Hw].
  destruct (so_in _ _ _ _ _ _ _ _ Hs ltac:(left)) as (c & Hc & _).
  specialize (Hh c Hc). unfold link_task. cbn [next_pid current_task tasks files env set_env].
  rewrite (proj2 (Z.eqb_neq _ _)) by by eapply so_null. rewrite Hc. cbn [fmap option_map].
  destruct (init_task_fds_spec _ _ _ _ (files s) Hh) as [[-> He]|(fds & e2 & F2 & m2 & -> & Hh2 & [Hm2 Hnf] & Hsf)];
    [by left|]. right. cbn [mbind option_bind option_fmap option_map fmap].
  destruct (Hown 0 0 0 [] (cwd c)) as [(za & Hza & _) (zs & Hzs & Hzs') Hd _ _ _].
  cbn [kernel_stack_bottom] in *.
  pose proof (holds_range _ _ _ _ _ _ Hh Hza) as Hra. pose proof (holds_range _ _ _ _ _ _ Hh Hzs) as Hrs.
  assert (HaT : tasks s !! a = None).
  { destruct (tasks s !! a) as [u|] eqn:Hu; [|done]. exfalso.
    destruct (decide (a = K)) as [->|HaK]; [destruct Hlay as [_ HK]; lia|].
    destruct (so_owns _ _ _ _ _ _ _ _ _ Hs Hu HaK) as [(z & Hz & _) _ _ _ _ _]. congruence. }
  assert (Hac : current_task s <> a) by congruence.
  rewrite (u32_small (st + _)) by (destruct Hlay as [? _]; unfold TASK_STACK_SIZE in *; lia). rewrite u32_small by (destruct (ow_range _ _ _ _ _ _
    (so_owned _ _ _ _ _ _ _ Hs) (current_task s) (core c)); [by rewrite lookup_fmap, Hc|lia]).
  set (t := mk_task (next_pid s) sp st us _ cr3 user TASK_READY 0 (t_next c) fds (cwd c)).
  rewrite poke_alter by (rewrite lookup_insert_ne by done; by eexists).
  cbn [mbind option_bind]. fold (relink (<[a := t]> (tasks s)) (current_task s) a).
  set (T' := relink _ _ _). eexists _, t, m2. split; [reflexivity|].
  assert (HTa : T' !! a = Some t).
  { unfold T', relink. by rewrite lookup_alter_ne, lookup_insert_eq by done. }
  assert (HTr : forall b, b <> a -> unlinked <$> T' !! b = unlinked <$> tasks s !! b).
  { intros b Hb. unfold T'. by rewrite relink_unlinked, lookup_insert_ne by done. }
  assert (HTl : forall b u, b <> a -> T' !! b = Some u ->
    exists v, tasks s !! b = Some v /\ unlinked u = unlinked v).
  { intros b u Hb Hu. specialize (HTr b Hb). rewrite Hu in HTr. symmetry in HTr.
    apply fmap_Some in HTr as (v & Hv & Heq). by exists v. }
  split; [|do 7 (split; [done|]); split].
  { split; cbn [tasks current_task next_pid files words s_cpu]; try done.
    exists c. by split. }
  { split; [by etransitivity|by intros p [->|[->|[]%elem_of_nil]%elem_of_cons]%elem_of_cons|].
    cbn [fd_table t]. intros p Hp Hz. destruct (Hnf p Hp Hz) as [Hn1 Hn2].
    split; [by eapply lookup_weaken_None|]. split; [done|].
    assert (p <> a /\ p <> st) by (split; congruence). unfold blocks_of. cbn [kernel_stack_bottom t]. set_solver. }
  split; cbn [tasks current_task next_pid words s_gdt env].
  - apply ring_link; [apply Hs|done|by rewrite Hc].
  - intros b. destruct (decide (b = a)) as [->|Hb].
    + rewrite HTa. split; [intros _; set_solver|by eexists].
    + rewrite <- (fmap_is_Some unlinked), (HTr b Hb), fmap_is_Some, (so_dom _ _ _ _ _ _ _ Hs). set_solver.
  - replace (core <$> T') with (<[a := core t]> (core <$> tasks s)).
    + apply owned_insert.
      * eapply owned_mono; [apply Hs| |exact HP]. intros p z Hz. eapply lookup_weaken; [|exact Hm2].
        by eapply lookup_weaken.
      * destruct Hlay as [_ HK]. lia.
      * destruct Hlay as [_ HK]. lia.
      * by rewrite lookup_fmap, HaT.
      * done.
      * intros b v Hv HbK. rewrite lookup_fmap in Hv. apply fmap_Some in Hv as (u & Hu & ->).
        destruct (so_owns _ _ _ _ _ _ _ _ _ Hs Hu HbK) as [(z1 & H1 & _) (z2 & H2 & _) _ _ HF _].
        split; unfold blocks_of, pages_of; cbn [core kernel_stack_bottom is_user user_stack_bottom t_cr3 t].
        -- intros p Hp Hq.
           assert (m !! p = None) by (apply elem_of_cons in Hp as [->|Hp]; [done|];
             by apply list_elem_of_singleton in Hp as ->).
           assert (is_Some (m !! p)) as [? ?] by (apply elem_of_cons in Hq as [->|Hq]; [by eexists|];
             apply list_elem_of_singleton in Hq as ->; by eexists). congruence.
        -- intros p Hp Hq. rewrite Forall_forall in HF. specialize (HF p Hq).
           destruct user; [|by apply not_elem_of_nil in Hp]. destruct (Hnp eq_refl) as [N1 N2].
           apply elem_of_cons in Hp as [->|Hp]; [done|]. by apply list_elem_of_singleton in Hp as ->.
      * destruct (Hown (next_pid s) 0 0 fds (cwd c)) as [(y1 & Y1 & Y1') (y2 & Y2 & Y2') ? ? ? ?].
        split; try done; [exists y1|exists y2]; (split; [by eapply lookup_weaken|done]).
    + apply map_eq. intros b. rewrite lookup_insert, !lookup_fmap. case_decide as Hb.
      * subst. by rewrite HTa.
      * specialize (HTr b ltac:(done)). destruct (T' !! b), (tasks s !! b); simpl in *; try done.
        f_equal. symmetry. apply core_unlinked. congruence.
  - intros b u Hu Hr. destruct (decide (b = a)) as [->|Hb]; [by rewrite HTa in Hu; simplify_eq|].
    destruct (HTl b u Hb Hu) as (v & Hv & Heq). apply unlinked_fields in Heq as (_ & _ & _ & _ & _ & _ & Heq & _).
    apply (so_running _ _ _ _ _ _ _ Hs b v Hv). congruence.
  - specialize (HTr _ Hac). rewrite Hc in HTr. apply fmap_Some in HTr as (u & Hu & Heq).
    exists u. split; [done|]. apply unlinked_fields in Heq as (_ & _ & _ & _ & Heq & _). by rewrite <- Heq.
  - intros b u Hu Hbc. destruct (decide (b = a)) as [->|Hb].
    + rewrite HTa in Hu. injection Hu as <-. exists f. unfold stack_lo, stack_hi.
      rewrite (proj2 (Z.eqb_neq a K)) by (destruct Hlay as [_ HK]; lia). by split.
    + destruct (HTl b u Hb Hu) as (v & Hv & Heq).
      destruct (so_frames _ _ _ _ _ _ _ Hs b v Hv Hbc) as (g & Hg & Hlo & Hhi).
      pose proof (fresh_block _ _ _ _ _ _ _ _ _ _ _ _ Hs Hv Hm Hfs Hh Hzs Hzs') as Hdis.
      apply unlinked_fields in Heq as (_ & He1 & He2 & _). exists g. unfold stack_lo, stack_hi in *.
      rewrite He1, He2. split; [|done]. eapply frame_frame; [|exact Hg]. intros x Hx. apply Hw. lia.
  - apply Hs.
  - lia.
Qed.

(** The outcome of a constructor: no memory and nothing changed, or a new
    task.  (When the heap has no room for a File object, the code stores
    through a null pointer.) *)
Definition refused P m s l s' : Prop := exists e, s' = set_env e s /\ ok P m s' l.

(** The stack and the Task object are there, the three Files are not. *)
Definition files_short s : Prop := exists e,
  alloc_all [TASK_STACK_SIZE; SIZEOF_TASK] (env s) = Some e /\ out_of_files e.

Lemma create_task_spec P m s l entry_point : ok P m s l -> next_pid s + 1 < 4294967296 ->
  let r := create_task syms vfs_root s entry_point in
  r = None /\ files_short s \/
  (exists s', r = Some (0, s') /\ refused P m s l s') \/
  exists a s' t m', r = Some (a, s') /\ a <> 0 /\ created s s' a t /\ is_user t = false /\
    t_cr3 t = kernel_dir /\ t_esp t + 44 = kernel_stack_top t /\
    frame_at (words s') (t_esp t) (fresh_cpu entry_point (t_esp t + 40)) /\
    words s' !! (t_esp t + 40) = Some (EXIT_TASK syms) /\ new_blocks m m' a t /\ ok P m' s' (a :: l).
Proof.
  intros Hs Hpid. unfold create_task. destruct (so_memory _ _ _ _ _ _ _ Hs) as (c & Hc & Hh).
  destruct (holds_kmalloc _ _ _ _ TASK_STACK_SIZE Hh) as (st & e1 & m1 & Hk1 & Hh1 & Hcase1); [done|].
  rewrite Hk1. cbn [mbind option_bind].
  assert (Hrefuse : forall e, holds P (t_cr3 c) e m -> ok P m (set_env e s) l).
  { intros e He. apply (ok_change syms boot_lo boot_hi P m P m s (set_env e s) l Hs); try done;
      [by apply (so_running _ _ _ _ _ _ _ Hs)|]. intros c' Hc'. by simplify_eq. }
  destruct Hcase1 as [[-> ->]|(zs & Hst & Hms & Hzs & ->)].
  { right. left. eexists. split; [reflexivity|]. eexists. split; [reflexivity|]. by apply Hrefuse. }
  rewrite (proj2 (Z.eqb_neq st 0)) by lia.
  destruct (holds_kmalloc _ _ _ _ SIZEOF_TASK Hh1) as (a & e2 & m2 & Hk2 & Hh2 & Hcase2); [done|].
  rewrite Hk2. cbn [mbind option_bind]. destruct Hcase2 as [[-> ->]|(za & Ha & Hma & Hza & ->)].
  { destruct (holds_kfree _ _ _ _ st zs Hh2) as (e3 & -> & Hh3); [by rewrite lookup_insert_eq|].
    cbn [mbind option_bind]. right. left. eexists. split; [reflexivity|]. eexists. split; [reflexivity|].
    apply Hrefuse. by rewrite delete_insert_id in Hh3. }
  rewrite (proj2 (Z.eqb_neq a 0)) by lia.
  destruct (so_kernel_in _ _ _ _ _ _ _ Hs) as (k & Hk & _ & _ & Hkd). rewrite Hk. cbn [mbind option_bind].
  assert (Has : a <> st) by (intros ->; by rewrite lookup_insert_eq in Hma).
  assert (Hzs2 : <[a := za]> (<[st := zs]> m) !! st = Some zs) by (by rewrite lookup_insert_ne, lookup_insert_eq).
  pose proof (holds_range _ _ _ _ _ _ Hh2 Hzs2) as Hr. assert (TASK_STACK_SIZE = 1024) as Hsz by done.
  rewrite (u32_small (st + _)) by lia. rewrite u32_small by lia. rewrite Hkd.
  destruct (task_frame_spec syms (st + TASK_STACK_SIZE) entry_point (words s)) as (Hf & Hex & Hw); [lia|].
  set (w := task_frame _ _ _ _) in *.
  destruct (link_task_spec P m s l P (<[a := za]> (<[st := zs]> m)) e2 w a
    (st + TASK_STACK_SIZE - 44) st 0 kernel_dir false Hs)
    as [[-> He]|(s' & t & m3 & -> & Hcr & Hws & Hesp & Hu & Hd & Hkb & Hkt & _ & Hm3 & Hok)].
  - split; try done.
    + etransitivity; [by apply insert_subseteq|by apply insert_subseteq].
    + intros c' Hc'. by simplify_eq.
    + split; [|done]. by rewrite lookup_insert_ne in Hma.
    + intros id n wt fds d. split; try done.
      * exists za. by rewrite lookup_insert_eq.
      * exists zs. by split.
    + by eexists.
    + lia.
    + intros x Hx. apply Hw. lia.
  - left. split; [done|]. exists e2. split; [|done].
    by rewrite (alloc_one _ _ _ _ _ Hk1), (alloc_one _ _ _ _ _ Hk2) by lia.
  - right. right. exists a, s', t, m3. rewrite Hws, Hesp, Hkt.
    split; [done|]. split; [lia|]. split; [done|]. split; [done|].
    split; [done|]. split; [lia|].
    replace (st + TASK_STACK_SIZE - 44 + 40) with (st + TASK_STACK_SIZE - 4) by lia.
    by repeat (split; [done|]).
Qed.
End Create.
