(* ===== verification/TaskUser.v ===== *)
(** * Creating user tasks

    create_user_task: a kernel stack, a stack page mapped in a page directory of
    the task's own, and a frame through which the task enters ring 3. *)
From S2P Require Import Prelude CString Allocator Memory Vfs File Gdt Cpu Task TaskRing TaskInv TaskSched.
From S2P Require Import TaskSwitch TaskPick TaskOps TaskCreate.

Section User.
Context {E : Type} `{MemoryOk E} (syms : symbols) (boot_lo boot_hi : Z) (vfs_root : vfs_node).
Hypothesis Hlay : layout_ok syms boot_lo boot_hi.
Implicit Types (s : sched E).
#[local] Abbreviation ok := (sched_ok syms boot_lo boot_hi).
#[local] Abbreviation K := (KERNEL_TASK syms).

(** The constructor in two parts: the stack, the page and the Task object, and
    the directory with the stack's page mapped. *)
Definition user_memory s : option (Z * Z * Z * E) :=
  '(st, e) ← kmalloc_op (env s) TASK_STACK_SIZE;
  '(us, e) ← pmm_alloc_op e;
  if (st =? 0) || (us =? 0) then None else
  '(a, e) ← kmalloc_op e SIZEOF_TASK;
  if a =? 0 then None else Some (st, us, a, e).
Definition user_directory s (us : Z) (e : E) : option (Z * E) :=
  '(cr3, e) ← vmm_create_op e;
  e ← vmm_map_op (vmm_switch_op e cr3) USER_STACK_BOTTOM us USER_PAGE;
  cur ← tasks s !! current_task s;
  Some (cr3, vmm_switch_op e (t_cr3 cur)).
Lemma create_user_eq s entry_point st us a e : user_memory s = Some (st, us, a, e) ->
  create_user_task syms vfs_root s entry_point =
    '(cr3, e) ← user_directory s us e;
    let top := u32 (st + TASK_STACK_SIZE) in
    link_task vfs_root (set_env e s) (user_frame syms top entry_point (words s)) a (u32 (top - 60))
      st us cr3 true.
Proof.
  unfold user_memory, create_user_task, user_directory. intros Hm.
  apply mbind_Some in Hm as ([st' e1] & -> & Hm). cbn [mbind option_bind].
  apply mbind_Some in Hm as ([us' e2] & -> & Hm). cbn [mbind option_bind].
  destruct ((st' =? 0) || (us' =? 0)); [done|].
  apply mbind_Some in Hm as ([a' e3] & -> & Hm). cbn [mbind option_bind].
  destruct (a' =? 0); [done|]. injection Hm as -> -> -> ->.
  destruct (vmm_create_op e) as [[d e4]|]; [|done]. cbn [mbind option_bind].
  destruct (vmm_map_op _ _ _ _); [|done]. cbn [mbind option_bind].
  by destruct (tasks s !! current_task s).
Qed.

(** There is memory for the task, but its directory could not be made: the
    code does not look.  Or all is there but the File objects. *)
Definition no_directory s : Prop := exists st us a e, user_memory s = Some (st, us, a, e) /\
  (vmm_create_op e = None \/ exists e', vmm_create_op e = Some (0, e')).
Definition user_files_short s : Prop := exists st us a e d e', user_memory s = Some (st, us, a, e) /\
  user_directory s us e = Some (d, e') /\ out_of_files e'.

(** A new user task in a state: where it starts and what it owns. *)
Record starts_in_ring3 (P : gset held) s' (t : Task) (entry_point : Z) : Prop := {
  sr_user : is_user t = true;
  sr_pages : StackPage (user_stack_bottom t) ∉ P /\ Directory (t_cr3 t) ∉ P;
  sr_frame : frame_at (words s') (t_esp t) (fresh_cpu (TRAMPOLINE syms) (t_esp t + 40));
  sr_iret : forall c, r_esp c = t_esp t + 40 -> iret c (words s') = Some (ring3 entry_point);
}.

Lemma ok_env P m s l c e : ok P m s l -> tasks s !! current_task s = Some c ->
  holds P (t_cr3 c) e m -> ok P m (set_env e s) l.
Proof.
  intros Hs Hc He. apply (ok_change syms boot_lo boot_hi P m P m s (set_env e s) l Hs); try done.
  - by apply (so_running _ _ _ _ _ _ _ Hs).
  - intros c' Hc'. by simplify_eq.
Qed.

(** Without memory everything taken is given back. *)
Lemma user_memory_refused P m s l entry_point : ok P m s l -> user_memory s = None ->
  exists s', create_user_task syms vfs_root s entry_point = Some (0, s') /\
    refused syms boot_lo boot_hi P m s l s'.
Proof.
  intros Hs. unfold user_memory, create_user_task.
  destruct (so_memory _ _ _ _ _ _ _ Hs) as (c & Hc & Hh).
  assert (Hrefuse : forall e, holds P (t_cr3 c) e m ->
    exists s', Some (0, set_env e s) = Some (0, s') /\ refused syms boot_lo boot_hi P m s l s').
  { intros e He. eexists. split; [reflexivity|]. eexists. split; [reflexivity|]. by eapply ok_env. }
  destruct (holds_kmalloc _ _ _ _ TASK_STACK_SIZE Hh) as (st & e1 & m1 & -> & Hh1 & Hcase1); [done|].
  cbn [mbind option_bind].
  destruct (pmm_alloc_law _ _ _ _ Hh1) as (us & e2 & -> & Hcase2). cbn [mbind option_bind].
  assert (Hpage : us <> 0 -> forall e, holds ({[StackPage us]} ∪ P) (t_cr3 c) e m ->
    exists e', pmm_free_op e us = Some e' /\ holds P (t_cr3 c) e' m).
  { intros Hus e He. destruct (stack_free_law _ _ _ _ us He) as (e' & -> & He'); [set_solver|].
    exists e'. split; [done|]. destruct Hcase2 as [[? _]|(_ & Hn & _)]; [done|].
    replace P with (({[StackPage us]} ∪ P) ∖ {[StackPage us]}) by set_solver. done. }
  assert (Hstack : st <> 0 -> forall Q e, holds Q (t_cr3 c) e m1 ->
    exists e', kfree_op e st = Some e' /\ holds Q (t_cr3 c) e' m).
  { intros Hst Q e HQ. destruct Hcase1 as [[? _]|(zs & _ & Hms & _ & Hm1)]; [done|].
    destruct (holds_kfree _ _ _ _ st zs HQ) as (e' & -> & He'); [by rewrite Hm1, lookup_insert_eq|].
    exists e'. split; [done|]. by rewrite Hm1, delete_insert_id in He' by done. }
  unfold free_if. destruct (Z.eqb_spec st 0) as [->|Hst]; cbn [orb mbind option_bind].
  { intros _. destruct Hcase1 as [[_ ->]|(? & ? & _)]; [|lia]. destruct (Z.eqb_spec us 0) as [->|Hus].
    - destruct Hcase2 as [[_ Hh2]|(? & _)]; [by apply Hrefuse|done].
    - destruct Hcase2 as [[? _]|(_ & _ & Hh2)]; [done|].
      destruct (Hpage Hus _ Hh2) as (e3 & -> & Hh3). by apply Hrefuse. }
  destruct (Z.eqb_spec us 0) as [->|Hus].
  { intros _. destruct Hcase2 as [[_ Hh2]|(? & _)]; [|done].
    destruct (Hstack Hst _ _ Hh2) as (e3 & -> & Hh3). by apply Hrefuse. }
  destruct Hcase2 as [[? _]|(_ & _ & Hh2)]; [done|].
  destruct (holds_kmalloc _ _ _ _ SIZEOF_TASK Hh2) as (a & e3 & m2 & -> & Hh3 & Hcase3); [done|].
  cbn [mbind option_bind]. destruct (Z.eqb_spec a 0) as [->|Ha]; [|done]. intros _.
  destruct Hcase3 as [[_ ->]|(? & ? & _)]; [|lia].
  destruct (Hstack Hst _ _ Hh3) as (e4 & -> & Hh4). cbn [mbind option_bind].
  destruct (Hpage Hus _ Hh4) as (e5 & -> & Hh5). by apply Hrefuse.
Qed.

(** With it, the new blocks and the page are fresh. *)
Record has_user_memory P m s c st us a e m2 : Prop := {
  hm_holds : holds ({[StackPage us]} ∪ P) (t_cr3 c) e m2;
  hm_page : StackPage us ∉ P;
  hm_fresh : m !! a = None /\ m !! st = None /\ a <> st /\ a <> 0;
  hm_stack : exists z, m2 !! st = Some z /\ TASK_STACK_SIZE <= z;
  hm_task : exists z, m2 !! a = Some z /\ SIZEOF_TASK <= z;
  hm_blocks : m ⊆ m2;
}.
Lemma user_memory_spec P m s c st us a e : tasks s !! current_task s = Some c ->
  holds P (t_cr3 c) (env s) m -> user_memory s = Some (st, us, a, e) ->
  exists m2, has_user_memory P m s c st us a e m2.
Proof.
  intros Hc Hh. unfold user_memory.
  destruct (holds_kmalloc _ _ _ _ TASK_STACK_SIZE Hh) as (x & e1 & m1 & -> & Hh1 & Hcase1); [done|].
  cbn [mbind option_bind].
  destruct (pmm_alloc_law _ _ _ _ Hh1) as (y & e2 & -> & Hcase2). cbn [mbind option_bind].
  destruct (Z.eqb_spec x 0) as [?|Hx]; [done|]. destruct (Z.eqb_spec y 0) as [?|Hy]; [done|]. cbn [orb].
  destruct Hcase1 as [[? _]|(zs & _ & Hms & Hzs & Hm1)]; [done|].
  destruct Hcase2 as [[? _]|(_ & Hny & Hh2)]; [done|].
  destruct (holds_kmalloc _ _ _ _ SIZEOF_TASK Hh2) as (z & e3 & m2 & -> & Hh3 & Hcase3); [done|].
  cbn [mbind option_bind]. destruct (Z.eqb_spec z 0) as [?|Hz]; [done|]. intros Heq.
  injection Heq as -> -> -> ->. destruct Hcase3 as [[? _]|(za & _ & Hma & Hza & Hm2)]; [done|].
  assert (Has : a <> st) by (intros ->; rewrite Hm1 in Hma; by rewrite lookup_insert_eq in Hma).
  exists m2. split; try done.
  - split; [|done]. rewrite Hm1 in Hma. by rewrite lookup_insert_ne in Hma.
  - exists zs. rewrite Hm2, Hm1. by rewrite lookup_insert_ne, lookup_insert_eq.
  - exists za. by rewrite Hm2, lookup_insert_eq.
  - rewrite Hm2, Hm1. etransitivity; [by apply insert_subseteq|]. apply insert_subseteq. by rewrite <- Hm1.
Qed.

(** The directory of the new task, with its stack mapped. *)
Lemma user_directory_spec P m s l c st us a e m2 : ok P m s l -> tasks s !! current_task s = Some c ->
  user_memory s = Some (st, us, a, e) -> has_user_memory P m s c st us a e m2 ->
  no_directory s \/
  exists d e', user_directory s us e = Some (d, e') /\ d <> 0 /\ Directory d ∉ P /\
    holds ({[Directory d]} ∪ ({[StackPage us]} ∪ P)) (t_cr3 c) e' m2.
Proof.
  intros Hs Hc Hum Hm. pose proof (hm_holds _ _ _ _ _ _ _ _ _ Hm) as Hh.
  destruct (vmm_create_op e) as [[d e1]|] eqn:Hcr;
    [|left; exists st, us, a, e; split; [done|]; by left].
  destruct (vmm_create_law _ _ _ _ _ _ Hh Hcr) as [[-> _]|(Hd & Hnd & Hh1)];
    [left; exists st, us, a, e; split; [done|]; right; by exists e1|].
  right. pose proof (vmm_switch_law _ _ _ _ d Hh1 ltac:(left; set_solver)) as Hh2.
  destruct (vmm_map_law _ d _ _ USER_STACK_BOTTOM us Hh2) as (e2 & Hmap & Hh3);
    [set_solver|done|set_solver|].
  exists d, (vmm_switch_op e2 (t_cr3 c)). unfold user_directory. rewrite Hcr. cbn [mbind option_bind].
  change USER_PAGE with 7. rewrite Hmap. cbn [mbind option_bind]. rewrite Hc.
  split; [done|]. split; [done|]. split; [set_solver|].
  eapply vmm_switch_law; [exact Hh3|]. destruct (so_cr3 _ _ _ _ _ _ _ _ _ Hs Hc); [left; set_solver|by right].
Qed.

Lemma create_user_task_spec P m s l entry_point : ok P m s l -> next_pid s + 1 < 4294967296 -> ~ no_directory s ->
  let r := create_user_task syms vfs_root s entry_point in
  (user_memory s = None /\ exists s', r = Some (0, s') /\ refused syms boot_lo boot_hi P m s l s') \/
  (exists a s' t P' m', r = Some (a, s') /\ a <> 0 /\ created s s' a t /\
    starts_in_ring3 P s' t entry_point /\ P ⊆ P' /\ new_blocks m m' a t /\ ok P' m' s' (a :: l)) \/
  (r = None /\ user_files_short s).
Proof.
  intros Hs Hpid Hdo r. unfold r. destruct (so_memory _ _ _ _ _ _ _ Hs) as (c & Hc & Hh).
  destruct (user_memory s) as [[[[st us] a] e]|] eqn:Hum;
    [|left; split; [done|]; by apply (user_memory_refused P m)].
  right. destruct (user_memory_spec P m s c st us a e Hc Hh Hum) as [m2 Hm].
  destruct (user_directory_spec P m s l c st us a e m2 Hs Hc Hum Hm) as
    [?|(d & e5 & Hdir & Hd & Hnd & Hh5)]; [done|].
  rewrite (create_user_eq s entry_point st us a e Hum), Hdir. cbn [mbind option_bind].
  destruct Hm as [_ Hnus (Hma & Hms & Has & Ha) (zs & Hzs2 & Hzs) (za & Hza2 & Hza) Hmm].
  pose proof (holds_range _ _ _ _ _ _ Hh5 Hzs2) as Hr. assert (TASK_STACK_SIZE = 1024) as Hsz by done.
  assert (base_pos : 0 < base) by (rewrite <- (memory_base P (t_cr3 c)); apply heap_base_pos).
  rewrite (u32_small (st + _)) by lia. cbv zeta. rewrite u32_small by lia.
  destruct (user_frame_spec syms (st + TASK_STACK_SIZE) entry_point (words s)) as (Hf & Hex & Hw); [lia|].
  set (w := user_frame _ _ _ _) in *. set (P1 := {[Directory d]} ∪ ({[StackPage us]} ∪ P)) in *.
  destruct (link_task_spec syms boot_lo boot_hi vfs_root Hlay P m s l P1 m2
    e5 w a (st + TASK_STACK_SIZE - 60) st us d true Hs)
    as [[-> He]|(s' & t & m3 & -> & Hcr & Hws & Hesp & Hu & Hdt & Hkb & Hkt & Hub & Hm3 & Hok)].
  - split; try done.
    + unfold P1. set_solver.
    + intros c' Hc'. by simplify_eq.
    + intros id n wt fds dir. split; try done.
      * by exists za.
      * by exists zs.
      * unfold pages_of. cbn [is_user user_stack_bottom t_cr3]. repeat constructor; unfold P1; set_solver.
    + by eexists.
    + lia.
    + intros x Hx. apply Hw. lia.
  - right. split; [done|]. by exists st, us, a, e, d, e5.
  - left. exists a, s', t, P1, m3. split; [done|]. split; [done|]. split; [done|].
    split; [|split; [unfold P1; set_solver|by split]].
    split; rewrite ?Hws, ?Hesp, ?Hdt, ?Hub; try done.
    + by replace (st + TASK_STACK_SIZE - 60 + 40) with (st + TASK_STACK_SIZE - 20) by lia.
    + intros c' Hc'. apply Hex. rewrite Hc'. lia.
Qed.
End User.
