(* ===== verification/Loader.v ===== *)
(** * What loading a program needs of the memory managers

    create_user_process maps fresh frames from USER_CODE_START on in the
    directory of a new user task and copies the file's bytes there through it.
    [LoaderOk] states that as laws next to [MemoryOk]; the small allocator of
    [Memory] satisfies them, and [ProgramSlot] discharges them for the machine. *)
From S2P Require Import Prelude CString Allocator Memory Vfs File Gdt Cpu Task TaskRing TaskInv TaskSched.
From S2P Require Import TaskOps TaskCreate TaskUser.
Open Scope Z_scope.

(** The loop over the pages and the copy of [bs]. *)
Definition load_program {E} `{Memory E} (n : nat) (bs : list Z) (e : E) : option E :=
  e ← map_program n e 0; memcpy_op e USER_CODE_START bs.

(** [code_free d e]: the directory [d] maps nothing from USER_CODE_START on.
    [frames_left n e]: there are frames for [n] pages and their page table.
    [loaded e d bs]: through [d] the bytes from USER_CODE_START on are [bs]. *)
Class LoaderOk (E : Type) `{MemoryOk E} := {
  code_free : Z -> E -> Prop;
  frames_left : nat -> E -> Prop;
  loaded : E -> Z -> list Z -> Prop;
  code_free_law : forall P act e0 m us d e1 e2 e3, holds P act e0 m -> StackPage us ∈ P ->
    Directory act ∈ P \/ act = kernel_dir -> vmm_create_op e0 = Some (d, e1) -> d <> 0 ->
    vmm_map_op (vmm_switch_op e1 d) USER_STACK_BOTTOM us USER_PAGE = Some e2 ->
    alloc_all (replicate 3 SIZEOF_FILE) (vmm_switch_op e2 act) = Some e3 -> code_free d e3;
  kmalloc_zero_law : forall e, kmalloc_op e 0 = Some (0, e);
  load_law : forall P d e m n bs, code_free d e -> frames_left n e -> holds P d (vmm_switch_op e d) m ->
    Z.of_nat n <= 1024 -> Z.of_nat (length bs) <= 4096 * Z.of_nat n -> bytes_ok bs ->
    exists e' Q, load_program n bs (vmm_switch_op e d) = Some e' /\ P ⊆ Q /\ holds Q d e' m /\ loaded e' d bs;
  loaded_kfree : forall e p e' d bs, kfree_op e p = Some e' -> loaded e d bs -> loaded e' d bs;
  loaded_switch : forall e a d bs, loaded e d bs -> loaded (vmm_switch_op e a) d bs;
}.

(** ** The bump allocator keeps no contents *)
Module ArenaLoader.
Import Arena.
Definition room_for (n : nat) (a : t) : Prop := page_brk a + 4096 * Z.of_nat n <= PAGE_MAX.

Lemma arena_program n : forall P act a m i, arena_holds P act a m -> room_for n a ->
  exists a' Q, map_program n a i = Some a' /\ P ⊆ Q /\ arena_holds Q act a' m.
Proof.
  induction n as [|n IH]; intros P act a m i Hh Hr; [by exists a, P|].
  destruct (arena_page P act a m Hh) as (p & a1 & Hp & Hcase). cbn [map_program].
  change (pmm_alloc_op a) with (page a). rewrite Hp. cbn [mbind option_bind].
  assert (Hroom : p <> 0 /\ room_for n a1).
  { unfold room_for, page in *. rewrite (proj2 (Z.leb_le _ _)) in Hp by lia. injection Hp as <- <-.
    pose proof (ah_page _ _ _ _ Hh). unfold KERNEL_DIR in *. cbn [page_brk]. lia. }
  destruct Hcase as [[? _]|(_ & _ & Hadd)]; [by destruct Hroom|].
  destruct (IH _ act a1 m (i + 1) (Hadd (StackPage p) eq_refl) (proj2 Hroom)) as (a' & Q & Hm & Hsub & Hh').
  exists a', Q. split; [exact Hm|]. split; [set_solver|done].
Qed.

#[export] Instance arena_loader : LoaderOk t.
Proof.
  refine {| code_free _ _ := True; frames_left := room_for; loaded _ _ _ := True |}.
  - done.
  - done.
  - intros P d e m n bs _ Hr Hh _ _ _.
    destruct (arena_program n P d (vmm_switch_op e d) m 0 Hh Hr) as (a' & Q & Hm & Hsub & Hh').
    exists a', Q. unfold load_program. rewrite Hm. exact (conj eq_refl (conj Hsub (conj Hh' I))).
  - done.
  - done.
Defined.
End ArenaLoader.
