(* ===== verification/UserPages.v ===== *)
(** * A program in the pages of its directory

    What the loop and the copy of create_user_process do to the memory: fresh
    frames behind the addresses from USER_CODE_START on, and the program's bytes
    in them.  [byte_at] is a byte of the physical memory. *)
From S2P Require Import Prelude Cpu Gdt File Vfs Pmm Heap Allocator Paging Vmm VmmInv VmmMap VmmOps Memory Machine Task.
Open Scope Z_scope.

Definition byte_at (r : Z -> Z) (p : Z) : Z := r (p / 4 * 4) / 256 ^ (p mod 4) mod 256.

(** A byte replaced in a word. *)
Lemma word_byte x b i j : 0 <= i < 4 -> 0 <= j < 4 -> 0 <= b < 256 ->
  (x - x / 256 ^ i mod 256 * 256 ^ i + b * 256 ^ i) / 256 ^ j mod 256 = if j =? i then b else x / 256 ^ j mod 256.
Proof.
  intros Hi Hj Hb.
  assert (i = 0 \/ i = 1 \/ i = 2 \/ i = 3) as [-> |[-> |[-> | ->]]] by lia;
  assert (j = 0 \/ j = 1 \/ j = 2 \/ j = 3) as [-> |[-> |[-> | ->]]] by lia;
  cbn [Z.eqb Pos.eqb]; change (256 ^ 0) with 1; change (256 ^ 1) with 256; change (256 ^ 2) with 65536;
  change (256 ^ 3) with 16777216; Z.to_euclidean_division_equations; lia.
Qed.

Section Pages.
Context (im : vmm_image) (Him : image_ok im).
Implicit Types (s : vm) (D : gset Z) (P : gset held).
#[local] Abbreviation pages := (pages_ok im).

(** A store into a page that no directory occupies. *)
Record user_store D s s' (p b : Z) : Prop := {
  us_cpu : same_cpu s s';
  us_bytes : forall q, byte_at (ram s') q = if q =? p then b else byte_at (ram s) q;
  us_walks : forall d v, isdir im D d -> 1 <= dir_index v < 1023 -> walk_from (ram s') d v = walk_from (ram s) d v;
}.
Lemma store_user_byte P act s D f o v b : pages P act s D -> StackPage f ∈ P -> 0 <= o < 4096 -> 0 <= b < 256 ->
  translate s v = Some (f + o) ->
  exists s', store_byte s v b = Some s' /\ pages P act s' D /\ user_store D s s' (f + o) b.
Proof.
  intros Hok Hin Ho Hb Htr. destruct (pk_stacks _ _ _ _ _ Hok f Hin) as (Hf & Hfu & Hfo).
  unfold store_byte. rewrite Htr. cbn [mbind option_bind]. rewrite u8_small by lia.
  set (p := f + o). set (w := p / 4 * 4). set (x := _ + b * _). eexists. split; [reflexivity|].
  assert (Hw : exists j, 0 <= j < 1024 /\ w = f + 4 * j).
  { exists (o / 4). unfold w, p, page in *. Z.to_euclidean_division_equations. lia. }
  destruct Hw as (j & Hj & Hwj). set (s' := set_ram _ s).
  assert (HE : forall q k, page q -> q <> f -> 0 <= k < 1024 -> entry s' q k = entry s q k).
  { intros q k Hq Hne Hk. unfold s'. rewrite Hwj, entry_write by done. by rewrite (proj2 (Z.eqb_neq f q)) by done. }
  pose proof Hok as [Hv Hd Ha Ht Hl Hs].
  assert (Hdir : forall d, isdir im D d -> page d /\ d <> f).
  { intros d Hdd. split; [by eapply vo_dir|]. intros ->. apply Hfo. destruct Hdd as [->|?]; [right; by left|do 3 right; by left]. }
  assert (Hfpt : page (first_page_table im) /\ first_page_table im <> f).
  { split; [apply Him|]. intros <-. apply Hfo. do 2 right. by left. }
  assert (Hv' : vm_ok im D s').
  { apply (vm_ok_tables im Him D s); try done. intros q k Hq Hk [Hdq| ->]; apply HE; try done; [by apply Hdir|apply Hfpt]. }
  assert (Hocc : forall q, occupied im D s' q -> occupied im D s q).
  { intros q [?|[?|[?|[?|(d & i & (Hdd & Hi & Hpr) & Hq)]]]]; unfold occupied; auto 6. do 4 right. exists d, i.
    destruct (Hdir d Hdd). unfold table_at in *. rewrite HE in Hpr, Hq by (done || lia). split; [by split|done]. }
  split.
  { split; try done.
    - intros d i Hdd Hi. destruct (Hdir d Hdd). rewrite HE by (done || lia). by apply Hl.
    - intros q Hq. destruct (Hs q Hq) as (? & ? & Hn). split; [done|]. split; [done|]. intros Hx. by apply Hn, Hocc. }
  split; [by split| |].
  - intros q. unfold byte_at, s'. cbn [ram set_ram]. destruct (decide (q / 4 * 4 = w)) as [Heq|Hne].
    + rewrite Heq, write_eq. unfold x. rewrite word_byte by (done || (apply Z.mod_pos_bound; lia)).
      destruct (Z.eqb_spec q p) as [->|Hqp]; [by rewrite Z.eqb_refl|].
      rewrite (proj2 (Z.eqb_neq (q mod 4) (p mod 4))); [done|]. unfold w in Heq. Z.to_euclidean_division_equations. lia.
    + rewrite write_ne by done. destruct (Z.eqb_spec q p) as [->|]; [done|done].
  - intros d v' Hdd Hi. destruct (Hdir d Hdd) as [Hdp Hdf]. apply walk_same.
    + apply HE; done || lia.
    + intros Hpr. assert (Hht : has_table im s D d (dir_index v')) by by split.
      destruct (vo_tables _ _ _ Hv _ _ Hht) as (Htp & _). apply HE; [done| |apply table_index_range].
      intros Heq. apply Hfo. do 4 right. by exists d, (dir_index v').
Qed.

(** ** The program's pages *)
(** The frames [fs] stand behind the addresses from USER_CODE_START on. *)
Definition laid_out s (d : Z) (fs : list Z) : Prop := forall j f o, fs !! j = Some f -> 0 <= o < 4096 ->
  walk_from (ram s) d (USER_CODE_START + 4096 * Z.of_nat j + o) = Some (f + o).
(** They hold the bytes [bs]. *)
Definition filled s (fs bs : list Z) : Prop := forall i b, bs !! i = Some b ->
  exists f, fs !! Z.to_nat (Z.of_nat i / 4096) = Some f /\ byte_at (ram s) (f + Z.of_nat i mod 4096) = b.
(** What the directory [d] shows from USER_CODE_START on. *)
Definition code_at s (d : Z) (bs : list Z) : Prop := forall i b, bs !! i = Some b ->
  exists p, walk_from (ram s) d (USER_CODE_START + Z.of_nat i) = Some p /\ byte_at (ram s) p = b.

Lemma page_split (i : nat) : 0 <= Z.of_nat i mod 4096 < 4096 /\
  Z.of_nat i = 4096 * Z.of_nat (Z.to_nat (Z.of_nat i / 4096)) + Z.of_nat i mod 4096.
Proof. rewrite Z2Nat.id; Z.to_euclidean_division_equations; lia. Qed.
Lemma filled_code s d fs bs : laid_out s d fs -> filled s fs bs -> code_at s d bs.
Proof.
  intros Hl Hf i b Hi. destruct (Hf i b Hi) as (f & Hfi & Hb). exists (f + Z.of_nat i mod 4096). split; [|done].
  destruct (page_split i) as [Ho Hs]. rewrite Hs at 1. rewrite Z.add_assoc. by apply Hl.
Qed.
Lemma code_slot j o : 0 <= j < 1024 -> 0 <= o < 4096 -> dir_index (USER_CODE_START + 4096 * j + o) = 256.
Proof. unfold dir_index, USER_CODE_START. intros. Z.to_euclidean_division_equations. lia. Qed.

(** The copy: [bs] is in place, [src] follows. *)
Lemma copy_program P act D fs src : forall s bs, pages P act s D -> NoDup fs -> Z.of_nat (length fs) <= 1024 ->
  (forall f, f ∈ fs -> StackPage f ∈ P) -> Z.of_nat (length bs + length src) <= 4096 * Z.of_nat (length fs) -> bytes_ok src ->
  laid_out s act fs -> filled s fs bs ->
  exists s', copy_bytes s (USER_CODE_START + Z.of_nat (length bs)) src = Some s' /\ pages P act s' D /\
    same_cpu s s' /\ laid_out s' act fs /\ filled s' fs (bs ++ src).
Proof.
  induction src as [|b src IH]; intros s bs Hok Hnd Hlen HP Hn Hb Hl Hf.
  { exists s. rewrite app_nil_r. by repeat (split; [done|]). }
  apply Forall_cons in Hb as [Hb Hbs]. cbn [copy_bytes length] in *. set (k := length bs) in *.
  destruct (page_split k) as [Hko Hk]. set (j := Z.to_nat (Z.of_nat k / 4096)) in *. set (o := Z.of_nat k mod 4096) in *.
  destruct (lookup_lt_is_Some_2 fs j) as [f Hfj]; [lia|].
  pose proof (vo_window _ _ _ (pk_vm _ _ _ _ _ Hok)) as Hwin.
  assert (Hu : u32 (USER_CODE_START + Z.of_nat k) = USER_CODE_START + 4096 * Z.of_nat j + o).
  { rewrite u32_small by (unfold USER_CODE_START; lia). lia. }
  rewrite Hu. destruct (store_user_byte P act s D f o (USER_CODE_START + 4096 * Z.of_nat j + o) b) as
    (s1 & -> & Hok1 & [Hcpu Hbytes Hwalk]); [done|by apply HP; eapply list_elem_of_lookup_2|done|done| |].
  { rewrite (translate_walk im) by done. rewrite (pk_act _ _ _ _ _ Hok). by apply Hl. }
  cbn [mbind option_bind].
  assert (Hact : isdir im D act) by (rewrite <- (pk_act _ _ _ _ _ Hok); apply (vo_cr3 _ _ _ (pk_vm _ _ _ _ _ Hok))).
  assert (Hl1 : laid_out s1 act fs).
  { intros j' f' o' Hj' Ho'. rewrite Hwalk; [by apply Hl|done|]. apply lookup_lt_Some in Hj'. rewrite code_slot by lia. lia. }
  assert (Hf1 : filled s1 fs (bs ++ [b])).
  { intros i c Hi. apply lookup_snoc_Some in Hi as [[Hik Hi]|[-> ->]].
    - destruct (Hf i c Hi) as (f' & Hf' & Hc). exists f'. split; [done|]. rewrite Hbytes.
      rewrite (proj2 (Z.eqb_neq _ (f + o))); [done|]. intros Heq. destruct (page_split i) as [Hio Hii].
      destruct (pk_stacks _ _ _ _ _ Hok f (HP _ (list_elem_of_lookup_2 _ _ _ Hfj))) as ([_ Hp1] & _).
      destruct (pk_stacks _ _ _ _ _ Hok f' (HP _ (list_elem_of_lookup_2 _ _ _ Hf'))) as ([_ Hp2] & _).
      assert (f' = f) as -> by (clear - Hp1 Hp2 Heq Hio Hko; Z.to_euclidean_division_equations; lia).
      pose proof (NoDup_lookup _ _ _ _ Hnd Hf' Hfj). lia.
    - exists f. split; [done|]. rewrite Hbytes. fold k. by rewrite Z.eqb_refl. }
  replace (USER_CODE_START + Z.of_nat k + 1) with (USER_CODE_START + Z.of_nat (length (bs ++ [b])))
    by (rewrite length_app; simpl; lia).
  destruct (IH s1 (bs ++ [b])) as (s' & Hc & Hok' & Hcpu' & Hl' & Hf'); try done.
  { rewrite length_app. simpl. lia. }
  exists s'. split; [done|]. split; [done|]. split; [by eapply same_cpu_trans|]. split; [done|].
  by rewrite <- app_assoc in Hf'.
Qed.

(** ** Mapping the pages *)
(** [k] more frames can be had. *)
Fixpoint plenty (k : nat) (pm : pmm) : bool :=
  match k with
  | O => true
  | S k' => match pmm_alloc_page pm with Some (f, pm') => negb (f =? 0) && plenty k' pm' | None => false end
  end.
Lemma plenty_S k pm : plenty (S k) pm = true -> exists f pm', pmm_alloc_page pm = Some (f, pm') /\ f <> 0 /\ plenty k pm' = true.
Proof.
  cbn [plenty]. destruct (pmm_alloc_page pm) as [[f pm']|]; [|done]. intros [Hf Hp]%andb_true_iff.
  exists f, pm'. split; [done|]. split; [by apply Z.eqb_neq, negb_true_iff|done].
Qed.
Lemma plenty_less k : forall pm, plenty (S k) pm = true -> plenty k pm = true.
Proof.
  induction k as [|k IH]; intros pm Hp; [done|]. apply plenty_S in Hp as (f & pm' & Hf & Hnz & Hp).
  cbn [plenty]. rewrite Hf, (proj2 (Z.eqb_neq f 0)) by done. by apply IH.
Qed.

(** [n] pages of the slot [idx] can be mapped in [d]. *)
Definition ready (n : nat) s (d idx : Z) : Prop :=
  if present (entry s d idx) then table_at s d idx <> 0 /\ plenty n (vm_pmm s) = true
  else plenty (S n) (vm_pmm s) = true.

Lemma map_user_page P act s D f va n : pages P act s D -> StackPage f ∈ P -> 0x40000000 <= va < 0xC0000000 ->
  va mod 4096 = 0 -> ready n s act (dir_index va) ->
  exists s', vmm_map_page im s va f 7 = Some s' /\ pages P act s' D /\ ready n s' act (dir_index va) /\
    (forall o, 0 <= o < 4096 -> walk_from (ram s') act (va + o) = Some (f + o)) /\
    forall d v, isdir im D d -> 0 <= v < 0xFFC00000 -> v / 4096 <> va / 4096 ->
      walk_from (ram s') d v = walk_from (ram s) d v.
Proof.
  intros Hok Hin Hva Hal Hr. destruct (pk_stacks _ _ _ _ _ Hok f Hin) as (Hf & _).
  assert (Hidx : 256 <= dir_index va < 768) by (unfold dir_index; Z.to_euclidean_division_equations; lia).
  destruct (map_pages_ok im Him P act s D va f 7 Hok) as (s' & Hmap & Hok'); [lia|apply Hf|lia|].
  pose proof (pk_vm _ _ _ _ _ Hok) as Hv. pose proof (pk_vm _ _ _ _ _ Hok') as Hv'.
  pose proof (pk_act _ _ _ _ _ Hok) as Ha. pose proof (pk_act _ _ _ _ _ Hok') as Ha'.
  destruct (vmm_map_page_spec im Him D s va f 7 Hv ltac:(lia) ltac:(lia) (proj1 Hf) ltac:(lia)) as (s1 & Heq & _ & Hc & Hcase).
  rewrite Hmap in Heq. injection Heq as <-. exists s'. split; [done|]. split; [done|].
  unfold ready in *. pose proof (vo_cr3 _ _ _ Hv) as Hcd. rewrite Ha in Hcd.
  destruct (vo_dir _ _ _ Hv _ Hcd) as (Hap & Ha0 & _).
  split; [|split].
  - destruct Hcase as [(Hpr & Hm & E)|(t & Hpr & Hal' & Htp & Hocc & E)]; rewrite Ha in *; rewrite Hpr in Hr.
    + assert (He : entry s' act (dir_index va) = entry s act (dir_index va)).
      { rewrite E by (done || lia). rewrite (proj2 (Z.eqb_neq _ act)); [done|].
        intros Hx. destruct (vo_tables _ _ _ Hv act (dir_index va)) as (_ & _ & Hn); [split; [done|]; split; [lia|done]|].
        by rewrite Hx in Hn. }
      unfold table_at in *. by rewrite He, Hpr, Hm.
    + destruct (plenty_S _ _ Hr) as (t' & pm & Hal2 & Hnz & Hpl). rewrite Hal' in Hal2. injection Hal2 as <- <-.
      assert (He : entry s' act (dir_index va) = t + 7).
      { rewrite E by (done || lia). rewrite (proj2 (Z.eqb_neq act t)).
        - unfold gets_table. by rewrite Ha, !Z.eqb_refl.
        - intros <-. apply (Hocc Hnz). destruct Hcd as [->|?]; [right; by left|do 3 right; by left]. }
      unfold table_at. rewrite He, present_flags, frame_flags by (done || lia). done.
  - intros o Ho. rewrite <- Ha', <- (translate_walk im) by by eapply vo_window.
    rewrite (mapped_translates im D s s' va f 7 (va + o)); try done; try lia; [|apply Hf|].
    + f_equal. rewrite frame_page by done. f_equal. Z.to_euclidean_division_equations. lia.
    + Z.to_euclidean_division_equations. lia.
  - intros d v Hd Hw Hp. eapply (mapped_others im Him D s s' va); try done; [lia..| |lia].
    destruct Hcase as [Hin'|(t & Hfr)].
    + left. split; [exact Hin'|]. destruct Hin' as [Hpr _]. rewrite Ha in *. rewrite Hpr in Hr. apply Hr.
    + right. exists t. split; [exact Hfr|]. destruct Hfr as (Hpr & Hal' & _). rewrite Ha in Hpr. rewrite Hpr in Hr.
      destruct (plenty_S _ _ Hr) as (t' & pm & Hal2 & Hnz & _). congruence.
Qed.

#[local] Hint Extern 0 (Memory (heap vm)) => exact (machine_memory im) : typeclass_instances.
Definition stack_pages (fs : list Z) : gset held := list_to_set (StackPage <$> fs).
Lemma stack_pages_in fs f : f ∈ fs -> StackPage f ∈ stack_pages fs.
Proof. intros Hf. apply elem_of_list_to_set. by apply list_elem_of_fmap_2. Qed.
Lemma code_page j : 0 <= j < 1024 -> let va := u32 (USER_CODE_START + j * 4096) in
  va = USER_CODE_START + 4096 * j /\ 0x40000000 <= va < 0xC0000000 /\ va mod 4096 = 0 /\ dir_index va = 256.
Proof.
  intros Hj va. assert (va = USER_CODE_START + 4096 * j) as Hva by (unfold va, USER_CODE_START; rewrite u32_small; lia).
  rewrite Hva. split; [done|]. unfold USER_CODE_START, dir_index. Z.to_euclidean_division_equations. lia.
Qed.

Lemma take_frame P act s D n : pages P act s D -> ready (S n) s act 256 ->
  exists f s1, vm_alloc_page s = Some (f, s1) /\ StackPage f ∉ P /\ pages ({[StackPage f]} ∪ P) act s1 D /\
    ready n s1 act 256 /\ ram s1 = ram s.
Proof.
  intros Hok Hr. destruct (alloc_ok im Him P act s D Hok) as (f & s1 & Hal & _ & Hcase). exists f, s1. split; [done|].
  unfold vm_alloc_page in Hal. apply mbind_Some in Hal as ([f' pm] & Hal & [= -> <-]).
  assert (Hp : exists k, f <> 0 /\ plenty k pm = true /\ k = if present (entry s act 256) then n else S n).
  { unfold ready in Hr. destruct (present (entry s act 256)); [destruct Hr as [_ Hr]|];
      destruct (plenty_S _ _ Hr) as (f2 & pm2 & Hal2 & Hnz & Hp); rewrite Hal in Hal2; injection Hal2 as <- <-; eauto. }
  destruct Hp as (k & Hnz & Hp & Hk). destruct Hcase as [[? _]|(_ & Hnew & _ & Hok')]; [done|].
  split; [done|]. split; [done|]. split; [|done]. unfold ready in *. unfold table_at, entry in *. cbn [ram set_vm_pmm vm_pmm].
  destruct (present (ram s _)); [by split; [apply Hr|subst k]|by subst k].
Qed.

Lemma map_program_spec P act D n : forall h fs, pages (stack_pages fs ∪ P) act (provider h) D -> NoDup fs ->
  laid_out (provider h) act fs -> Z.of_nat (length fs + n) <= 1024 ->
  ready n (provider h) act 256 ->
  exists s' fs', map_program n h (Z.of_nat (length fs)) = Some (set_provider h s') /\ length fs' = n /\
    pages (stack_pages (fs ++ fs') ∪ P) act s' D /\ NoDup (fs ++ fs') /\ laid_out s' act (fs ++ fs').
Proof.
  induction n as [|n IH]; intros h fs Hok Hnd Hl Hn Hr.
  { exists (provider h), []. rewrite app_nil_r. split; [by destruct h|]. by repeat (split; [done|]). }
  destruct (take_frame _ _ _ _ n Hok Hr) as (f & s1 & Hal & Hnew & Hok1 & Hr1 & Hw1).
  destruct (code_page (Z.of_nat (length fs)) ltac:(lia)) as (Hva & Hvr & Hvm & Hvi).
  set (va := u32 (USER_CODE_START + Z.of_nat (length fs) * 4096)) in *. rewrite <- Hvi in Hr1.
  destruct (map_user_page _ _ _ _ f va n Hok1 ltac:(set_solver) Hvr Hvm Hr1) as (s2 & Hmap & Hok2 & Hr2 & Hpage & Hrest).
  rewrite Hvi in Hr2. cbn [map_program]. fold va.
  change (pmm_alloc_op h) with ('(p, s) ← vm_alloc_page (provider h); Some (p, set_provider h s)).
  rewrite Hal. cbn [mbind option_bind]. change (vmm_map_op (set_provider h s1) va f USER_PAGE) with
    (s ← vmm_map_page im s1 va f 7; Some (set_provider (set_provider h s1) s)).
  rewrite Hmap. cbn [mbind option_bind].
  change (set_provider (set_provider h s1) s2) with (set_provider h s2).
  replace (Z.of_nat (length fs) + 1) with (Z.of_nat (length (fs ++ [f]))) by (rewrite length_app; simpl; lia).
  destruct (IH (set_provider h s2) (fs ++ [f])) as (s' & fs' & Hm & Hlen & Hok' & Hnd' & Hl').
  - cbn [provider set_provider]. replace (stack_pages (fs ++ [f]) ∪ P) with ({[StackPage f]} ∪ (stack_pages fs ∪ P)); [done|].
    unfold stack_pages. rewrite fmap_app, list_to_set_app_L. cbn. set_solver.
  - apply NoDup_app. split; [done|]. split; [|apply NoDup_singleton]. intros x Hx ->%list_elem_of_singleton.
    apply Hnew, elem_of_union. left. by apply stack_pages_in.
  - intros j g o Hj Ho. apply lookup_snoc_Some in Hj as [[Hj Hg]|[-> ->]]; cbn [provider set_provider].
    + rewrite Hrest, ?Hw1.
      * by apply Hl.
      * rewrite <- (pk_act _ _ _ _ _ Hok1). apply (vo_cr3 _ _ _ (pk_vm _ _ _ _ _ Hok1)).
      * unfold USER_CODE_START. lia.
      * rewrite Hva. unfold USER_CODE_START. Z.to_euclidean_division_equations. lia.
    + rewrite <- Hva. by apply Hpage.
  - rewrite length_app. simpl. lia.
  - done.
  - exists s', (f :: fs'). rewrite <- app_assoc in Hok', Hnd', Hl'. split; [exact Hm|]. split; [simpl; lia|]. done.
Qed.
End Pages.
