(* ===== verification/ProgramSlot.v ===== *)
(** * The place of a program in a fresh directory

    The page directory of a new user task maps nothing in the 4 MB from
    USER_CODE_START on.  The heap may grow while the task is made; that maps
    pages elsewhere.  With the frames for them, the pages of a program go there
    and show its bytes: the interface [LoaderOk] on the memory of [Machine]. *)
From S2P Require Import Prelude Cpu Gdt File Vfs Pmm Heap Allocator Paging Vmm VmmInv VmmMap VmmOps Memory Machine Task.
From S2P Require Import CString TaskOps Loader UserPages.
Open Scope Z_scope.

Section Slot.
Context (im : vmm_image) (Him : image_ok im).
Implicit Types (s : vm) (h e : heap vm) (D : gset Z) (P : gset held).
#[local] Abbreviation pages := (pages_ok im).

Definition CODE_SLOT : Z := 256.
Lemma map_keeps_slot P act s D virt phys flags s' d idx : pages P act s D -> 0x40000000 <= virt < 0xFFC00000 ->
  0 <= phys < 4294967296 -> 0 <= flags < 4096 -> vmm_map_page im s virt phys flags = Some s' ->
  isdir im D d -> 0 <= idx < 1024 -> idx <> dir_index virt -> entry s' d idx = entry s d idx.
Proof.
  intros Hok Hr Hph Hfl Hmap Hd Hi Hne. pose proof (pk_vm _ _ _ _ _ Hok) as Hv.
  assert (Hidx : 256 <= dir_index virt < 1023) by (unfold dir_index; Z.to_euclidean_division_equations; lia).
  destruct (vmm_map_page_spec im Him D s virt phys flags Hv ltac:(lia) ltac:(lia) Hph Hfl) as (s1 & Heq & _ & _ & Hcase).
  rewrite Hmap in Heq. injection Heq as <-. destruct (vo_dir _ _ _ Hv d Hd) as (Hdp & Hd0 & _).
  destruct Hcase as [(Hpr & _ & E)|(t & _ & _ & Hpt & Hocc & E)]; rewrite E by done.
  - destruct (vo_tables _ _ _ Hv (cr3 s) (dir_index virt)) as (_ & _ & Hn); [split; [apply Hv|split; [lia|done]]|].
    rewrite (proj2 (Z.eqb_neq _ d)); [done|]. by intros <-.
  - destruct (Z.eqb_spec d t) as [->|_].
    + exfalso. apply (Hocc Hd0). destruct Hd as [->|?]; [right; by left|do 3 right; by left].
    + by rewrite (proj2 (Z.eqb_neq idx _)), andb_false_r by done.
Qed.

(** The slot stays free while the heap grows. *)
Definition slot_free P (act d : Z) s : Prop := exists D, pages P act s D /\ isdir im D d /\ present (entry s d CODE_SLOT) = false.
Definition slot_provider_ok P (act d : Z) : @PageProviderOk vm (vm_provider im).
Proof.
  refine {| provider_inv := slot_free P act d |}.
  - intros s (D & Hok & Hd & Hp). destruct (alloc_ok im Him P act s D Hok) as (f & s' & Ha & _ & Hcase).
    exists f, s'. split; [exact Ha|]. exists D. split; [by destruct Hcase as [[_ ?]|(_ & _ & ? & _)]|]. split; [done|].
    unfold vm_alloc_page in Ha. apply mbind_Some in Ha as ([f' pm] & _ & [= _ <-]). exact Hp.
  - intros s virt phys s0 Hal Hnz (D & Hok & Hd & Hp) Hr.
    assert (Hph : 0 <= phys < 4294967296).
    { cbn in Hal. unfold vm_alloc_page in Hal. apply mbind_Some in Hal as ([f pm] & Hf & [= -> _]). by eapply alloc_range. }
    unfold HEAP_START, HEAP_MAX_ADDR, PAGE_RW_FLAGS in *.
    destruct (map_pages_ok im Him P act s D virt phys 3 Hok) as (s' & Hmap & Hok'); [lia|lia|lia|].
    exists s'. split; [exact Hmap|]. exists D. split; [done|]. split; [done|].
    rewrite (map_keeps_slot P act s D virt phys 3 s' d CODE_SLOT); try done; try lia.
    unfold CODE_SLOT, dir_index. Z.to_euclidean_division_equations. lia.
Defined.
#[local] Abbreviation slot_allocator P act d :=
  (@heap_allocator_ok vm (vm_provider im) (slot_provider_ok P act d)).
#[local] Abbreviation slot_holds P act d := (@allocated (heap vm) _ (slot_allocator P act d)).

#[local] Hint Extern 0 (Memory (heap vm)) => exact (machine_memory im) : typeclass_instances.
#[local] Hint Extern 0 (MemoryOk (heap vm)) => exact (machine_memory_ok im Him) : typeclass_instances.
Lemma alloc_all_slot P act d ns : forall (h h' : heap vm) m, Forall (fun n => 0 < n <= 0xFFFFFFFC) ns ->
  slot_holds P act d h m -> alloc_all ns h = Some h' -> exists m', slot_holds P act d h' m'.
Proof.
  induction ns as [|n ns IH]; intros h h' m Hns Hh Ha; [injection Ha as <-; by exists m|].
  apply Forall_cons in Hns as [Hn Hns]. cbn [alloc_all] in Ha.
  destruct (@kmalloc_law _ _ (slot_allocator P act d) h m n Hh Hn) as (p & h1 & m1 & Hk & Hh1 & _).
  assert (Hk' : @kmalloc_op (heap vm) memory_allocator h n = Some (p, h1)) by exact Hk. rewrite Hk' in Ha. cbn [mbind option_bind] in Ha. destruct (p =? 0); [done|]. by apply (IH h1 h' m1).
Qed.

(** ** create_user_task *)
Lemma created_slot P act (e e' : heap vm) m d : holds P act e m -> vmm_create_op e = Some (d, e') -> d <> 0 ->
  Directory d ∉ P /\ exists m', slot_holds ({[Directory d]} ∪ P) act d e' m'.
Proof.
  intros (bs & Hw & [D Hok] & ->) Hcr Hd. cbn in Hcr. apply mbind_Some in Hcr as ([f s'] & Hcr & [= <- <-]).
  destruct (create_pages_ok im Him P act (provider e) D f s' Hok Hcr) as [[? _]|(_ & Hno & Hok')]; [done|].
  split; [done|]. eexists _, bs. split; [by destruct Hw; split|]. split; [|reflexivity].
  exists ({[f]} ∪ D). split; [done|]. split; [right; set_solver|].
  destruct (alloc_cases im D (provider e) (pk_vm _ _ _ _ _ Hok)) as (g & pm & Hal & Hcase).
  destruct (decide (g = 0)) as [->|Hg].
  { rewrite (create_directory_none im (provider e) _ Hal) in Hcr. by injection Hcr as <- _. }
  destruct Hcase as [[? _]|(_ & Hp & _)]; [done|].
  pose proof (created_low im P act (provider e) D g pm _ Hok Hal Hg Hp Hcr) as Hlow.
  destruct (create_directory_spec im Him D (provider e) g pm (pk_vm _ _ _ _ _ Hok) Hal Hg Hlow) as (s2 & Heq & _ & _ & _ & _ & E).
  rewrite Hcr in Heq. injection Heq as -> ->. rewrite E, Z.eqb_refl by (done || unfold CODE_SLOT; lia).
  apply zero_not_present.
Qed.
Lemma switch_pages P act s D d : pages P act s D -> isdir im D d -> pages P d (vmm_switch_page_directory s d) D.
Proof. intros [O1 O2 O3 O4 O5 O6] Hd. split; try done. by apply switch_ok. Qed.

Lemma directory_slot P act us (e0 e1 e2 : heap vm) m d : holds P act e0 m -> StackPage us ∈ P ->
  Directory act ∈ P \/ act = page_directory im -> vmm_create_op e0 = Some (d, e1) -> d <> 0 ->
  vmm_map_op (vmm_switch_op e1 d) USER_STACK_BOTTOM us USER_PAGE = Some e2 ->
  exists m', slot_holds ({[Directory d]} ∪ P) act d (vmm_switch_op e2 act) m'.
Proof.
  intros Hh Hin Hact Hcreate Hd Hmap.
  destruct (created_slot P act e0 e1 m d Hh Hcreate Hd) as (_ & m' & bs & Hw & (D & Hok & Hdd & Hfree) & ->).
  cbn in Hmap. apply mbind_Some in Hmap as (s2 & Hmap & [= <-]).
  pose proof (switch_pages _ _ _ _ d Hok Hdd) as Hok1.
  destruct (pk_stacks _ _ _ _ _ Hok1 us ltac:(set_solver)) as ([Hus _] & _).
  destruct (map_pages_ok im Him _ _ _ _ USER_STACK_BOTTOM us 7 Hok1 ltac:(done) Hus ltac:(done)) as (s3 & Hmap' & Hok2).
  change USER_PAGE with 7 in Hmap. rewrite Hmap' in Hmap. injection Hmap as <-.
  eexists _, bs. split; [by destruct Hw; split|]. split; [|reflexivity]. exists D. split; [|split; [done|]].
  - apply (switch_pages _ d); [done|]. destruct Hact as [Hx| ->]; [|by left]. right. apply (pk_dirs _ _ _ _ _ Hok2). set_solver.
  - change (present (entry s3 d CODE_SLOT) = false).
    rewrite (map_keeps_slot _ _ _ _ USER_STACK_BOTTOM us 7 s3 d CODE_SLOT Hok1); done.
Qed.

(** ** Loading the bytes *)
Lemma kfree_provider h p h' : kfree_op h p = Some h' -> provider h' = provider h.
Proof.
  change (kfree_op h p) with (kfree h p). unfold kfree. destruct (p =? 0); [by intros [= ->]|].
  intros (m0 & _ & (m1 & _ & (m2 & _ & [= <-])%mbind_Some)%mbind_Some)%mbind_Some. done.
Qed.

Lemma kmalloc_zero h : kmalloc_op h 0 = Some (0, h).
Proof. change (kmalloc_op h 0) with (@kmalloc vm (vm_provider im) h 0). unfold kmalloc. by destruct (Heap.pages_left h). Qed.

Lemma load_program_spec P act e m n bs : holds P act e m -> present (entry (provider e) act CODE_SLOT) = false ->
  plenty (S n) (vm_pmm (provider e)) = true -> Z.of_nat n <= 1024 -> Z.of_nat (length bs) <= 4096 * Z.of_nat n ->
  bytes_ok bs ->
  exists e' fs, load_program n bs e = Some e' /\ holds (stack_pages fs ∪ P) act e' m /\
    length fs = n /\ code_at (provider e') act bs.
Proof.
  intros (us & Hw & [D Hok] & ->) Hfree Hpl Hn Hlen Hb. unfold load_program.
  destruct (map_program_spec im Him P act D n e []) as (s1 & fs & Hmap & Hfs & Hok1 & Hnd & Hl); try done.
  - replace (stack_pages [] ∪ P) with P by (unfold stack_pages; cbn; set_solver). done.
  - apply NoDup_nil_2.
  - unfold ready.
    change 256 with CODE_SLOT. by rewrite Hfree.
  - cbn [length app] in Hmap, Hok1, Hnd, Hl. change (Z.of_nat 0) with 0 in Hmap. rewrite Hmap. cbn [mbind option_bind].
    destruct (copy_program im Him (stack_pages fs ∪ P) act D fs bs s1 []) as (s2 & Hc & Hok2 & _ & Hl2 & Hf2); try done.
    + lia.
    + intros f Hf. apply elem_of_union. left. by apply stack_pages_in.
    + simpl length. lia.
    + cbn [length] in Hc. change (USER_CODE_START + Z.of_nat 0) with USER_CODE_START in Hc.
      exists (set_provider e s2), fs. split.
      { change (memcpy_op (set_provider e s1) USER_CODE_START bs) with
          (s ← copy_bytes s1 USER_CODE_START bs; Some (set_provider (set_provider e s1) s)). by rewrite Hc. }
      split; [|split; [done|by apply (filled_code _ _ fs)]].
      exists us. split; [by destruct Hw; split|]. split; [by exists D|done].
Qed.

(** ** Frames *)
(** A directory can be made when the next frame is one the active directory
    maps, and making one with the stack's page in it takes two frames at most. *)
Lemma directory_made P act e m f pm : holds P act e m -> pmm_alloc_page (vm_pmm (provider e)) = Some (f, pm) ->
  0 < f < 4194304 -> exists e', vmm_create_op e = Some (f, e') /\ vm_pmm (provider e') = pm.
Proof.
  intros (bs & _ & [D Hok] & _) Ha Hf.
  destruct (create_directory_spec im Him D (provider e) f pm (pk_vm _ _ _ _ _ Hok) Ha) as (s' & Hcr & _ & _ & Hm & _); [lia|lia|].
  exists (set_provider e s'). split; [|exact Hm]. cbn. by rewrite Hcr.
Qed.
Lemma map_frames P act e m us e' k : holds P act e m -> StackPage us ∈ P ->
  vmm_map_op e USER_STACK_BOTTOM us USER_PAGE = Some e' ->
  plenty (S k) (vm_pmm (provider e)) = true -> plenty k (vm_pmm (provider e')) = true.
Proof.
  intros (bs & _ & [D Hok] & _) Hin Hmap Hpl. cbn in Hmap. apply mbind_Some in Hmap as (s' & Hmap & [= <-]).
  destruct (pk_stacks _ _ _ _ _ Hok us Hin) as ([Hus _] & _).
  destruct (vmm_map_page_spec im Him D (provider e) USER_STACK_BOTTOM us USER_PAGE (pk_vm _ _ _ _ _ Hok)) as
    (s1 & Hmap1 & _ & _ & Hcase); [done|done|done|done|].
  rewrite Hmap in Hmap1. injection Hmap1 as <-. cbn [provider set_provider].
  destruct Hcase as [(_ & Hm & _)|(t & _ & Ha & _)].
  - rewrite Hm. by apply plenty_less.
  - apply plenty_S in Hpl as (f & pm & Hf & _ & Hpl). rewrite Hf in Ha. by injection Ha as <- <-.
Qed.

#[export] Instance machine_loader : LoaderOk (heap vm).
Proof.
  refine {| code_free d e := present (entry (provider e) d CODE_SLOT) = false;
    frames_left n e := plenty (S n) (vm_pmm (provider e)) = true;
    loaded e d bs := code_at (provider e) d bs |}.
  - intros P act e0 m us d e1 e2 e3 Hh Hin Hact Hcr Hd Hmap Hal.
    destruct (directory_slot P act us e0 e1 e2 m d Hh Hin Hact Hcr Hd Hmap) as [m1 Hsl].
    destruct (alloc_all_slot _ _ _ (replicate 3 SIZEOF_FILE) _ e3 m1 ltac:(by repeat constructor) Hsl Hal)
      as (m4 & bs & _ & (D & _ & _ & Hp) & _). exact Hp.
  - exact kmalloc_zero.
  - intros P d e m n bs Hfree Hpl Hh Hn Hlen Hb.
    destruct (load_program_spec P d (vmm_switch_op e d) m n bs Hh Hfree Hpl Hn Hlen Hb) as (e' & fs & Hl & Hh' & _ & Hc).
    exists e', (stack_pages fs ∪ P). split; [exact Hl|]. split; [set_solver|]. exact (conj Hh' Hc).
  - intros e p e' d bs Hk Hc. by rewrite (kfree_provider _ _ _ Hk).
  - intros e a d bs Hc. exact Hc.
Defined.
End Slot.
