(* ===== verification/TaskExec.v ===== *)
(** * Creating a task from a file

    create_user_process on any memory managers with the laws of [LoaderOk]: the
    file's bytes in a buffer of the heap, a new user task, and the bytes behind
    the addresses from USER_CODE_START on of its page directory; and the three
    ways in which the kernel creates a task. *)
From S2P Require Import Prelude CString Allocator Memory BlockDev SimpleFs FsInv Vfs File Gdt Cpu Task TaskRing TaskInv TaskSched.
From S2P Require Import TaskOps TaskCreate TaskUser Loader.
Open Scope Z_scope.

Section Exec.
Context {E : Type} `{LoaderOk E} (syms : symbols) (boot_lo boot_hi : Z) (vfs_root : vfs_node).
Hypothesis Hlay : layout_ok syms boot_lo boot_hi.
Implicit Types (s : sched E) (P : gset held).
#[local] Abbreviation ok := (sched_ok syms boot_lo boot_hi).
#[local] Abbreviation K := (KERNEL_TASK syms).

(** A user task is made in steps: its memory, its directory, the three Files. *)
Lemma create_user_steps P m l s s' ep a : ok P m s l -> a <> 0 ->
  create_user_task syms vfs_root s ep = Some (a, s') ->
  exists st us e d e1 t, user_memory s = Some (st, us, a, e) /\ user_directory s us e = Some (d, e1) /\
    alloc_all (replicate 3 SIZEOF_FILE) e1 = Some (env s') /\ (a <> current_task s -> tasks s' !! a = Some t) /\
    t_cr3 t = d /\ t_state t = TASK_READY /\ wake_tick t = 0.
Proof.
  intros Hs Ha Hc. destruct (user_memory s) as [[[[st us] a'] e]|] eqn:Hm.
  - rewrite (create_user_eq syms vfs_root s ep st us a' e Hm) in Hc. apply mbind_Some in Hc as ([d e1] & Hd & Hc).
    unfold link_task in Hc. apply mbind_Some in Hc as ([[fds e2] F] & Hf & Hc). apply init_fds_alloc in Hf.
    apply mbind_Some in Hc as (dir & _ & Hc). apply mbind_Some in Hc as (cur & _ & Hc).
    apply mbind_Some in Hc as (T & HT & [= <- <-]). cbn [current_task set_env] in HT.
    eexists st, us, e, d, e1, _. split; [done|]. split; [done|]. split; [done|]. split.
    + intros Hne. unfold poke_task in HT. apply mbind_Some in HT as (x & _ & [= <-]). cbn [tasks].
      rewrite lookup_insert_ne by done. by rewrite lookup_insert_eq.
    + done.
  - destruct (user_memory_refused syms boot_lo boot_hi vfs_root Hlay P m s l ep Hs Hm) as (s2 & Heq & _). congruence.
Qed.

Lemma user_task_free P m l s s' ep a c : ok P m s l -> tasks s !! current_task s = Some c -> ~ no_directory s ->
  a <> 0 -> a <> current_task s -> create_user_task syms vfs_root s ep = Some (a, s') ->
  exists t, tasks s' !! a = Some t /\ t_state t = TASK_READY /\ wake_tick t = 0 /\ code_free (t_cr3 t) (env s').
Proof.
  intros Hs Hc Hnd Ha Hac Hcr.
  destruct (create_user_steps P m l s s' ep a Hs Ha Hcr) as (st & us & e & d & e1 & t & Hm & Hd & Hf & Ht & Htd & Hst & Hwt).
  exists t. split; [by apply Ht|]. split; [done|]. split; [done|]. rewrite Htd.
  destruct (so_memory _ _ _ _ _ _ _ Hs) as (c' & Hc' & Hh). rewrite Hc in Hc'. injection Hc' as <-.
  destruct (user_memory_spec P m s c st us a e Hc Hh Hm) as [m2 Hum]. pose proof (hm_holds _ _ _ _ _ _ _ _ _ Hum) as Hh2.
  unfold user_directory in Hd. apply mbind_Some in Hd as ([d' e2] & Hcd & Hd).
  apply mbind_Some in Hd as (e3 & Hmap & Hd). rewrite Hc in Hd. injection Hd as -> <-.
  eapply (code_free_law _ (t_cr3 c) _ _ us); [exact Hh2|set_solver| |exact Hcd| |exact Hmap|exact Hf].
  - destruct (so_cr3 _ _ _ _ _ _ _ _ _ Hs Hc) as [?|?]; [left; set_solver|by right].
  - intros ->. apply Hnd. exists st, us, a, e. split; [done|]. right. by exists e2.
Qed.

(** The heap block [p] belongs to no task. *)
Definition unowned s (p : Z) : Prop := forall a t, tasks s !! a = Some t -> a <> K -> p ∉ blocks_of a t.

Lemma load_task_spec P m s l c a t buf z n bs : ok P m s l ->
  tasks s !! current_task s = Some c -> tasks s !! a = Some t ->
  code_free (t_cr3 t) (env s) -> frames_left n (env s) -> Z.of_nat n <= 1024 ->
  Z.of_nat (length bs) <= 4096 * Z.of_nat n -> bytes_ok bs -> m !! buf = Some z -> unowned s buf ->
  exists e1 e2 P', load_program n bs (vmm_switch_op (env s) (t_cr3 t)) = Some e1 /\ kfree_op e1 buf = Some e2 /\
    loaded (vmm_switch_op e2 (t_cr3 c)) (t_cr3 t) bs /\ P ⊆ P' /\
    ok P' (delete buf m) (set_env (vmm_switch_op e2 (t_cr3 c)) s) l.
Proof.
  intros Hs Hc Ha Hfree Hpl Hn Hlen Hb Hbuf Hun.
  destruct (so_memory _ _ _ _ _ _ _ Hs) as (c' & Hc' & Hh). rewrite Hc in Hc'. injection Hc' as <-.
  pose proof (vmm_switch_law _ _ _ _ (t_cr3 t) Hh (so_cr3 _ _ _ _ _ _ _ _ _ Hs Ha)) as Hh0.
  destruct (load_law P (t_cr3 t) (env s) m n bs Hfree Hpl Hh0 Hn Hlen Hb) as (e1 & P' & Hload & HP & Hh1 & Hcode).
  destruct (holds_kfree _ _ _ _ buf z Hh1 Hbuf) as (e2 & Hk & Hh2).
  exists e1, e2, P'. split; [done|]. split; [done|]. split; [eapply loaded_switch, loaded_kfree; done|].
  assert (Hback : forall e m', holds P' (t_cr3 t) e m' -> holds P' (t_cr3 c) (vmm_switch_op e (t_cr3 c)) m').
  { intros e m' He. eapply vmm_switch_law; [exact He|].
    destruct (so_cr3 _ _ _ _ _ _ _ _ _ Hs Hc); [left; set_solver|by right]. }
  assert (Hok : ok P' m (set_env (vmm_switch_op e1 (t_cr3 c)) s) l).
  { apply (ok_change syms boot_lo boot_hi P m _ _ s _ l Hs); try done; [by apply (so_running _ _ _ _ _ _ _ Hs)|].
    intros c' Hc'. rewrite Hc in Hc'. injection Hc' as <-. by apply Hback. }
  split; [done|]. apply (ok_blocks syms boot_lo boot_hi P' m (delete buf m) _ l c _ Hok Hc (Hback _ _ Hh2)). intros b u p Hb' HbK Hp. rewrite lookup_delete_ne; [done|]. intros <-. by apply (Hun b u).
Qed.

Definition pages_for (size : Z) : nat := Z.to_nat (u32 (size + 4095) / 4096).
Lemma pages_for_enough size : 0 < size <= MAX_FILE ->
  size <= 4096 * Z.of_nat (pages_for size) /\ Z.of_nat (pages_for size) <= 4.
Proof.
  unfold MAX_FILE, pages_for. intros Hs. rewrite u32_small by lia.
  rewrite Z2Nat.id; Z.to_euclidean_division_equations; lia.
Qed.

(** Asleep and ready again, a task is as it was. *)
Lemma poke_quiet (T : gmap Z Task) a t : T !! a = Some t -> t_state t = TASK_READY -> wake_tick t = 0 ->
  exists T1 t1, poke_task T a (fun t => set_wake_tick 0xFFFFFFFF (set_t_state TASK_SLEEPING t)) = Some T1 /\
    T1 !! a = Some t1 /\ t_cr3 t1 = t_cr3 t /\ (forall b, b <> a -> T1 !! b = T !! b) /\
    poke_task T1 a (fun t => set_wake_tick 0 (set_t_state TASK_READY t)) = Some T.
Proof.
  intros Ha Hst Hw. unfold poke_task. rewrite Ha. cbn [mbind option_bind]. eexists _, _. split; [done|].
  rewrite lookup_insert_eq. split; [done|]. split; [done|]. split; [intros b Hb; by apply lookup_insert_ne|].
  cbn [mbind option_bind]. rewrite insert_insert_eq. f_equal. apply insert_id. rewrite Ha. f_equal.
  destruct t. cbn in *. by subst.
Qed.

Lemma blocks_without (m m' : gmap Z Z) buf z a t : m !! buf = None -> new_blocks (<[buf := z]> m) m' a t ->
  new_blocks m (delete buf m') a t.
Proof.
  intros Hbuf [Hsub Hown Hfiles].
  assert (Hold : forall p, <[buf := z]> m !! p = None -> m !! p = None /\ p <> buf)
    by (intros p [? ?]%lookup_insert_None; done).
  split.
  - apply map_subseteq_spec. intros p x Hp. rewrite lookup_delete_ne by (intros <-; congruence).
    eapply lookup_weaken; [|exact Hsub]. rewrite lookup_insert_ne; [done|]. intros <-. congruence.
  - intros p Hp. by apply Hold, Hown.
  - intros p Hp Hz. destruct (Hfiles p Hp Hz) as (Hn & Hm & Hb). apply Hold in Hn as [Hn Hne].
    by rewrite lookup_delete_ne.
Qed.

(** The new task [t] at [a] is ready to run the program [bs]. *)
Record runs_program P m s l s' a (t : Task) (bs : list Z) P' m' : Prop := {
  rp_created : created s s' a t;
  rp_ring3 : starts_in_ring3 syms P s' t USER_CODE_START;
  rp_code : loaded (env s') (t_cr3 t) bs;
  rp_pages : P ⊆ P';
  rp_blocks : new_blocks m m' a t;
  rp_ok : ok P' m' s' (a :: l);
}.

(** The task is made, with the buffer [buf] in use. *)
Lemma program_loaded P m s l z buf e s1 a t P' m' size bs n :
  let s0 := set_env e s in
  ok P m s l -> ok P (<[buf := z]> m) s0 l -> m !! buf = None -> ~ no_directory s0 -> a <> 0 ->
  create_user_task syms vfs_root s0 USER_CODE_START = Some (a, s1) -> created s0 s1 a t ->
  starts_in_ring3 syms P s1 t USER_CODE_START -> P ⊆ P' -> new_blocks (<[buf := z]> m) m' a t -> ok P' m' s1 (a :: l) ->
  n = pages_for size -> frames_left n (env s1) ->
  0 < size <= MAX_FILE -> length bs = Z.to_nat size -> bytes_ok bs ->
  exists T1 t1 c e1 e2 P2 m2, poke_task (tasks s1) a (fun t => set_wake_tick 0xFFFFFFFF (set_t_state TASK_SLEEPING t)) = Some T1 /\
    T1 !! a = Some t1 /\ load_program n bs (vmm_switch_op (env s1) (t_cr3 t1)) = Some e1 /\
    kfree_op e1 buf = Some e2 /\ T1 !! current_task s1 = Some c /\
    poke_task T1 a (fun t => set_wake_tick 0 (set_t_state TASK_READY t)) = Some (tasks s1) /\
    runs_program P m s l (set_env (vmm_switch_op e2 (t_cr3 c)) s1) a t bs P2 m2.
Proof.
  intros s0 Hs Hs0 Hbuf Hnd Ha Hcr Hcreated H3 HP Hnb Hok1 -> Hpl Hsz Hlen Hbs.
  pose proof (pages_for_enough size Hsz) as [Hp1 Hp2].
  destruct (so_in _ _ _ _ _ _ _ _ Hs0 ltac:(left)) as (c0 & Hc0 & _).
  assert (Hac : a <> current_task s0) by (intros ->; rewrite (cr_fresh _ _ _ _ Hcreated) in Hc0; done).
  destruct (user_task_free _ _ l s0 s1 USER_CODE_START a c0 Hs0 Hc0 Hnd Ha Hac Hcr) as (t' & Ht' & Hst & Hwt & Hslot).
  rewrite (cr_task _ _ _ _ Hcreated) in Ht'. injection Ht' as <-. pose proof (cr_task _ _ _ _ Hcreated) as Hta.
  destruct (so_in _ _ _ _ _ _ _ _ Hok1 ltac:(left)) as (c & Hc & _).
  assert (Hac1 : current_task s1 <> a) by (rewrite (cr_current _ _ _ _ Hcreated); done).
  destruct (poke_quiet _ _ _ Hta Hst Hwt) as (T1 & t1 & HT1 & Ht1 & Hcr3 & Hrest & HT).
  pose proof Hnb as [Hsub Hown _].
  assert (Hb' : m' !! buf = Some z) by (eapply lookup_weaken; [apply lookup_insert_eq|exact Hsub]).
  assert (Hun : unowned s1 buf).
  { intros b u Hb HbK Hin. destruct (decide (b = a)) as [->|Hba].
    - rewrite Hta in Hb. injection Hb as <-. specialize (Hown _ Hin). by rewrite lookup_insert_eq in Hown.
    - pose proof (cr_rest _ _ _ _ Hcreated b Hba) as Hr. rewrite Hb in Hr. symmetry in Hr.
      apply fmap_Some in Hr as (v & Hv & Heq). apply unlinked_fields in Heq as (_ & _ & Heq & _).
      unfold blocks_of in Hin. rewrite Heq in Hin.
      destruct (blocks_in syms boot_lo boot_hi P m s l b v buf Hs Hv HbK Hin) as [? Hx]. by rewrite Hbuf in Hx. }
  destruct (load_task_spec P' m' s1 (a :: l) c a t buf z (pages_for size) bs Hok1 Hc Hta Hslot Hpl) as
    (e1 & e2 & P2 & Hload & Hk & Hcode & HP2 & Hok2); try done; [lia|lia|].
  exists T1, t1, c, e1, e2, P2, (delete buf m'). split; [done|]. split; [done|].
  split; [by rewrite Hcr3|]. split; [done|]. split; [by rewrite Hrest|]. split; [done|].
  split; try done.
  - by destruct Hcreated; split.
  - by destruct H3; split.
  - by etransitivity.
  - by eapply blocks_without.
Qed.

(** ** create_user_process *)
(** The file at [node] holds the program [bs]. *)
Definition program_in {D} `{BlockDevice D} (d : D) (fill : nat -> list Z) (node : vfs_node) (bs : list Z) : Prop :=
  n_size node = Z.of_nat (length bs) /\ n_size node <= MAX_FILE /\ bytes_ok bs /\
  exists len rest, vfs_read d node (fill (length bs)) (n_size node) = Some (len, bs ++ rest).

(** What the code takes for granted once it has the buffer: the new task's
    directory can be made, and there are frames for the program. *)
Definition exec_fits s (size : Z) : Prop := forall buf e, kmalloc_op (env s) size = Some (buf, e) -> buf <> 0 ->
  ~ no_directory (set_env e s) /\
  forall a s1, create_user_task syms vfs_root (set_env e s) USER_CODE_START = Some (a, s1) -> a <> 0 ->
    frames_left (pages_for size) (env s1).
(** No memory for the buffer, or none left beside it for the task. *)
Definition exec_refused s (size : Z) : Prop := exists buf e, kmalloc_op (env s) size = Some (buf, e) /\
  (buf = 0 \/ user_memory (set_env e s) = None).
(** No memory for the Files. *)
Definition exec_files_short s (size : Z) : Prop := exists buf e,
  kmalloc_op (env s) size = Some (buf, e) /\ user_files_short (set_env e s).

Lemma create_user_process_spec {D} `{BlockDevice D} (d : D) P m s l junk path fill c node bs :
  ok P m s l -> next_pid s + 1 < 4294967296 -> tasks s !! current_task s = Some c ->
  vfs_resolve_path d vfs_root (cwd c) junk (Some path) = Some (Some node) ->
  program_in d fill node bs -> exec_fits s (n_size node) ->
  let r := create_user_process syms d vfs_root junk path fill s in
  (exec_refused s (n_size node) /\ exists s', r = Some (0, s') /\ refused syms boot_lo boot_hi P m s l s') \/
  (exists a s' t P' m', r = Some (a, s') /\ a <> 0 /\ runs_program P m s l s' a t bs P' m') \/
  (r = None /\ exec_files_short s (n_size node)).
Proof.
  intros Hs Hpid Hc Hpath (Hsize & Hmax & Hbs & len & rest & Hread) Hfit r. unfold r, create_user_process.
  rewrite Hc. cbn [mbind option_bind]. rewrite Hpath. cbn [mbind option_bind].
  destruct (decide (n_size node = 0)) as [Hz|Hn0].
  { left. rewrite Hz, kmalloc_zero_law. split; [exists 0, (env s); split; [apply kmalloc_zero_law|by left]|].
    exists s. split; [by destruct s|]. exists (env s). by destruct s. }
  assert (Hsz : 0 < n_size node <= MAX_FILE) by lia.
  destruct (so_memory _ _ _ _ _ _ _ Hs) as (c' & Hc' & Hh). rewrite Hc in Hc'. injection Hc' as <-.
  destruct (holds_kmalloc _ _ _ _ (n_size node) Hh) as (buf & e1 & m1 & Hk & Hh1 & Hcase); [unfold MAX_FILE in *; lia|].
  rewrite Hk. cbn [mbind option_bind]. destruct Hcase as [[-> ->]|(z & Hbp & Hbuf & _ & ->)].
  { left. split; [exists 0, e1; split; [done|by left]|].
    eexists. split; [reflexivity|]. eexists. split; [reflexivity|]. by eapply ok_env. }
  rewrite (proj2 (Z.eqb_neq buf 0)) by lia. destruct (Hfit buf e1 Hk ltac:(lia)) as [Hnd Hfr].
  rewrite Hsize, Nat2Z.id, <- Hsize, Hread. cbn [mbind option_bind].
  assert (Hs0 : ok P (<[buf := z]> m) (set_env e1 s) l).
  { apply (ok_change syms boot_lo boot_hi P m P _ s _ l Hs); try done; [by apply (so_running _ _ _ _ _ _ _ Hs)|by apply insert_subseteq|].
    intros c' Hc'. rewrite Hc in Hc'. injection Hc' as <-. exact Hh1. }
  destruct (create_user_task_spec syms boot_lo boot_hi vfs_root Hlay P _ _ l USER_CODE_START Hs0 Hpid Hnd) as
    [(Hum & s1 & -> & e2 & -> & Hok2)|[(a & s1 & t & P' & m' & Hcr & Ha & Hcreated & H3 & HP & Hnb & Hok1)|[Hr Hsh]]].
  - left. split; [exists buf, e1; split; [done|by right]|].
    cbn [mbind option_bind Z.eqb env set_env]. destruct (so_memory _ _ _ _ _ _ _ Hok2) as (c2 & Hc2 & Hh2).
    change (tasks s !! current_task s = Some c2) in Hc2. rewrite Hc in Hc2. injection Hc2 as <-.
    destruct (holds_kfree _ _ _ _ buf z Hh2) as (e3 & Hf & Hh3); [by rewrite lookup_insert_eq|].
    cbn [env set_env] in Hf. rewrite Hf. cbn [mbind option_bind]. rewrite delete_insert_id in Hh3 by done.
    eexists. split; [reflexivity|]. exists e3. split; [done|]. exact (ok_env syms boot_lo boot_hi P m s l c e3 Hs Hc Hh3).
  - right. left. rewrite Hcr. cbn [mbind option_bind]. rewrite (proj2 (Z.eqb_neq a 0)) by done.
    destruct (program_loaded P m s l z buf e1 s1 a t P' m' (n_size node) bs _ Hs Hs0 Hbuf Hnd Ha Hcr Hcreated H3 HP Hnb Hok1
      eq_refl (Hfr a s1 Hcr Ha) Hsz ltac:(lia) Hbs) as (T1 & t1 & c1 & e2 & e3 & P2 & m2 & -> & Ht1 & Hload & Hkf & Hc1 & HT & Hrp).
    cbn [mbind option_bind]. rewrite Ht1. cbn [mbind option_bind]. unfold load_program, pages_for in Hload.
    apply mbind_Some in Hload as (e4 & -> & Hcopy). cbn [mbind option_bind].
    rewrite take_app_le, take_ge by lia. rewrite Hcopy. cbn [mbind option_bind]. rewrite Hkf. cbn [mbind option_bind].
    rewrite Hc1. cbn [mbind option_bind]. rewrite HT. cbn [mbind option_bind].
    exists a, (set_env (vmm_switch_op e3 (t_cr3 c1)) s1), t, P2, m2. split; [by destruct s1|]. by split.
  - right. right. rewrite Hr. split; [done|]. by exists buf, e1.
Qed.

(** ** The three ways to create a task *)
Definition program_fits {D} `{BlockDevice D} (d : D) (junk : list Z) fill path s : Prop := forall c node,
  tasks s !! current_task s = Some c -> vfs_resolve_path d vfs_root (cwd c) junk (Some path) = Some (Some node) ->
  exists bs, program_in d fill node bs /\ exec_fits s (n_size node).

End Exec.

Inductive creation := KernelTask (entry_point : Z) | UserTask (entry_point : Z) | Exec (path : list Z).

Section Creates.
Context {E : Type} `{LoaderOk E} (syms : symbols) (boot_lo boot_hi : Z) (vfs_root : vfs_node).
Hypothesis Hlay : layout_ok syms boot_lo boot_hi.
Implicit Types (s : sched E) (P : gset held).
#[local] Abbreviation ok := (sched_ok syms boot_lo boot_hi).

(** A creation in [s]; [p] is what it gives back. *)
Inductive creates s : creation -> Z -> sched E -> Prop :=
  | creates_kernel entry_point p s' : next_pid s + 1 < 4294967296 ->
      create_task syms vfs_root s entry_point = Some (p, s') -> creates s (KernelTask entry_point) p s'
  | creates_user entry_point p s' : next_pid s + 1 < 4294967296 -> ~ no_directory s ->
      create_user_task syms vfs_root s entry_point = Some (p, s') -> creates s (UserTask entry_point) p s'
  | creates_process D (HD : BlockDevice D) (d : D) junk fill path p s' : next_pid s + 1 < 4294967296 ->
      program_fits syms vfs_root d junk fill path s ->
      create_user_process syms d vfs_root junk path fill s = Some (p, s') -> creates s (Exec path) p s'.

Lemma creates_spec P m s l c p s' : ok P m s l -> creates s c p s' ->
  p = 0 /\ refused syms boot_lo boot_hi P m s l s' \/
  exists t P' m', p <> 0 /\ created s s' p t /\ is_user t = (match c with KernelTask _ => false | _ => true end) /\
    P ⊆ P' /\ new_blocks m m' p t /\ ok P' m' s' (p :: l).
Proof.
  intros Hs Hc. destruct Hc as [ep p s' Hpid Hc|ep p s' Hpid Hnd Hc|D HD d junk fill path p s' Hpid Hfit Hc].
  - destruct (create_task_spec syms boot_lo boot_hi vfs_root Hlay P m s l ep Hs Hpid) as
      [[Hn _]|[(s2 & Heq & Hr)|(a & s2 & t & m' & Heq & Ha & Hcr & Hu & _ & _ & _ & _ & Hm & Hok)]];
      [congruence|..]; rewrite Hc in Heq; injection Heq as -> ->; [by left|right].
    exists t, P, m'. do 3 (split; [done|]). split; [set_solver|]. by split.
  - destruct (create_user_task_spec syms boot_lo boot_hi vfs_root Hlay P m s l ep Hs Hpid Hnd) as
      [(_ & s2 & Heq & Hr)|[(a & s2 & t & P' & m' & Heq & Ha & Hcr & [Hu _ _ _] & HP & Hm & Hok)|[Heq _]]];
      [..|congruence]; rewrite Hc in Heq; injection Heq as -> ->; [by left|right].
    exists t, P', m'. do 4 (split; [done|]). by split.
  - destruct (so_memory _ _ _ _ _ _ _ Hs) as (c & Hcur & _).
    destruct (vfs_resolve_path d vfs_root (cwd c) junk (Some path)) as [[node|]|] eqn:Hpath.
    + destruct (Hfit c node Hcur Hpath) as (bs & Hin & Hex).
      destruct (create_user_process_spec syms boot_lo boot_hi vfs_root Hlay d P m s l junk path fill c node bs
        Hs Hpid Hcur Hpath Hin Hex) as
        [(_ & s2 & Heq & Hr)|[(a & s2 & t & P' & m' & Heq & Ha & [Hcr [Hu _ _ _] _ HP Hm Hok])|[Heq _]]];
        [..|congruence]; rewrite Hc in Heq; injection Heq as -> ->; [by left|right].
      exists t, P', m'. do 4 (split; [done|]). by split.
    + left. unfold create_user_process in Hc. rewrite Hcur in Hc. cbn [mbind option_bind] in Hc.
      rewrite Hpath in Hc. injection Hc as <- <-. split; [done|]. exists (env s). by destruct s.
    + unfold create_user_process in Hc. rewrite Hcur in Hc. cbn [mbind option_bind] in Hc. by rewrite Hpath in Hc.
Qed.
End Creates.
