(* ===== verification/TaskSteps.v ===== *)
(** * Runs of the scheduler

    What the kernel does with its tasks, one event after the other: the
    running task computes, a timer interrupt wakes sleepers, the running task
    sleeps, ends or yields, and tasks are created, kernel threads as well as
    user tasks and programs from files, and killed.  Every event
    keeps the invariant, and no event puts a ready task further back than the
    tasks created in front of it. *)
From S2P Require Import Prelude CString Allocator Memory BlockDev DiskLayout SimpleFs Vfs File Gdt Cpu.
From S2P Require Import Task TaskRing TaskInv TaskSched TaskSwitch TaskPick TaskSchedule TaskOps TaskCreate TaskUser Loader TaskExec.

Inductive event := Run | Tick (now : Z) | Sleep (now ms : Z) | Exit | Yield
  | Create (c : creation) | Kill (pid : Z).
Definition is_yield (e : event) : bool := match e with Yield => true | _ => false end.
Definition is_create (e : event) : bool := match e with Create _ => true | _ => false end.
Definition count (p : event -> bool) (es : list event) : nat := length (base.filter (fun e => p e = true) es).

(** How many tasks stand in front of [a]. *)
Fixpoint pos (a : Z) (l : list Z) : nat :=
  match l with [] => O | b :: l' => if a =? b then O else S (pos a l') end.
Lemma pos_app a l1 l2 : a ∉ l1 -> pos a (l1 ++ l2) = (length l1 + pos a l2)%nat.
Proof.
  induction l1 as [|b l1 IH]; [done|]. intros [Hb Hl]%not_elem_of_cons. simpl.
  rewrite (proj2 (Z.eqb_neq _ _)) by done. by rewrite IH.
Qed.
Lemma pos_app_in a l1 l2 : a ∈ l1 -> pos a (l1 ++ l2) = pos a l1.
Proof.
  induction l1 as [|b l1 IH]; [by intros ?%not_elem_of_nil|]. intros Ha. simpl.
  destruct (Z.eqb_spec a b); [done|]. f_equal. apply IH. set_solver.
Qed.

Section Steps.
Context {E : Type} `{LoaderOk E} (syms : symbols) (boot_lo boot_hi : Z) (vfs_root : vfs_node).
Hypothesis Hlay : layout_ok syms boot_lo boot_hi.
Implicit Types (s : sched E).
#[local] Abbreviation ok := (sched_ok syms boot_lo boot_hi).
#[local] Abbreviation room := (has_room syms boot_lo boot_hi).
#[local] Abbreviation lo := (stack_lo syms boot_lo).
#[local] Abbreviation hi := (stack_hi syms boot_hi).

(** Memory managers with the same pages in use and at least the same blocks. *)
Definition grows (e e' : E) : Prop := forall P act m, holds P act e m ->
  exists m', m ⊆ m' /\ holds P act e' m'.

(** Work of the running task: its registers, the words of its own stack, its
    open files and more blocks. *)
Record computes s s' : Prop := {
  cp_tasks : tasks s' = tasks s;
  cp_current : current_task s' = current_task s;
  cp_pid : next_pid s' = next_pid s;
  cp_gdt : s_gdt s' = s_gdt s;
  cp_words : forall c x, tasks s !! current_task s = Some c ->
    ~ (lo (current_task s) c <= x < hi (current_task s) c) -> words s' !! x = words s !! x;
  cp_env : grows (env s) (env s');
}.

Inductive step s : event -> sched E -> Prop :=
  | step_run s' : computes s s' -> step s Run s'
  | step_tick now s' : task_timer_tick now s = Some s' -> step s (Tick now) s'
  | step_sleep now ms s' : task_sleep_start now s ms = Some s' -> step s (Sleep now ms) s'
  | step_exit s' : exit_task_start s = Some s' -> step s Exit s'
  | step_yield s' : room s -> schedule syms s = Some s' -> step s Yield s'
  | step_create c p s' : creates syms vfs_root s c p s' -> step s (Create c) s'
  | step_kill pid r s' : kill_task s pid = Some (r, s') -> step s (Kill pid) s'.
Inductive steps s : list event -> sched E -> Prop :=
  | steps_nil : steps s [] s
  | steps_cons e es s1 s2 : step s e s1 -> steps s1 es s2 -> steps s (e :: es) s2.

(** [a] is behind the current task and READY, under the number [id]. *)
Definition waiting s (l : list Z) (a id : Z) : Prop :=
  a ∈ l /\ exists t, tasks s !! a = Some t /\ t_state t = TASK_READY /\ t_id t = id.

Lemma waiting_unlinked s s' l l' a id : waiting s l a id -> a ∈ l' ->
  unlinked <$> tasks s' !! a = unlinked <$> tasks s !! a -> waiting s' l' a id.
Proof.
  intros [_ (t & Ht & Hst & Hid)] Hl Heq. split; [done|]. rewrite Ht in Heq.
  apply fmap_Some in Heq as (u & Hu & Heq). exists u. split; [done|].
  apply unlinked_fields in Heq as (<- & _ & _ & _ & _ & _ & <- & _). by split.
Qed.
Lemma waiting_not_current P m s l a id : ok P m s l -> waiting s l a id -> a <> current_task s.
Proof. intros Hs [Ha _] ->. by destruct (so_ring _ _ _ _ _ _ _ Hs) as [_ [Hn _]%NoDup_cons]. Qed.

(** What an event does to the place of a waiting task. *)
Definition kept_place s' (l l' : list Z) (a id : Z) (e : event) : Prop :=
  current_task s' = a \/ waiting s' l' a id /\
    (pos a l' + (if is_yield e then 1 else 0) <= pos a l + (if is_create e then 1 else 0))%nat.
Definition advances s s' l l' (e : event) : Prop :=
  forall a id, waiting s l a id -> e <> Kill id -> kept_place s' l l' a id e.

Lemma advances_same s s' l e : is_yield e = false ->
  (forall a t, tasks s !! a = Some t -> t_state t = TASK_READY -> a <> current_task s ->
     tasks s' !! a = Some t) ->
  current_task s ∉ l -> advances s s' l l e.
Proof.
  intros He Ht Hc a id [Ha (t & Hat & Hst & Hid)] _. right. rewrite He. split; [|lia].
  split; [done|]. exists t. split; [|done]. apply Ht; [done|done|]. by intros ->.
Qed.

Lemma step_yield_ok P m s l s' : ok P m s l -> room s -> schedule syms s = Some s' ->
  exists P' m' l', ok P' m' s' l' /\ advances s s' l l' Yield.
Proof.
  intros Hs Hroom Hsch.
  destruct (schedule_spec syms boot_lo boot_hi Hlay P m s l Hs Hroom) as (s2 & Heq & Hcase).
  rewrite Hsch in Heq. injection Heq as <-.
  assert (Hready : forall a id, waiting s l a id -> in_state TASK_READY (tasks s) a = true).
  { intros a id [_ (t & Ht & Hst & _)]. rewrite (in_state_task _ _ _ _ Ht). by case_bool_decide. }
  destruct (from_ready (tasks s) l) as [|n l2] eqn:Hfr.
  { destruct Hcase as [_ Hok]. eexists _, _, _. split; [exact Hok|].
    intros a id Hwt _. destruct (from_ready_in (tasks s) l a (proj1 Hwt)); [by eapply Hready|done]. }
  destruct Hcase as [Hsw Hok]. eexists _, _, _. split; [exact Hok|].
  intros a id Hwt _. pose proof (Hready a id Hwt) as Hr.
  assert (Hsplit : l = skipped (tasks s) l ++ n :: l2) by (by rewrite <- Hfr, skipped_app).
  assert (Hsk : a ∉ skipped (tasks s) l).
  { intros Hx%skipped_not_ready. congruence. }
  destruct (decide (a = n)) as [->|Han]; [left; apply Hsw|]. right.
  assert (Hl2 : a ∈ l2).
  { destruct Hwt as [Ha _]. rewrite Hsplit in Ha. apply elem_of_app in Ha as [Ha|Ha]; [done|].
    by apply elem_of_cons in Ha as [->|Ha]. }
  assert (Hng : a ∉ dead_met (tasks s) l).
  { unfold dead_met. rewrite list_elem_of_filter. by intros [_ ?]. }
  split.
  - eapply waiting_unlinked; [exact Hwt|apply elem_of_app; by left|].
    rewrite (wt_tasks _ _ _ _ _ _ _ Hsw a Hng). unfold after_switch.
    rewrite (proj2 (Z.eqb_neq a n)) by done.
    rewrite (proj2 (Z.eqb_neq a (current_task s))) by by eapply waiting_not_current.
    by destruct (tasks s !! a).
  - cbn [is_yield is_create]. rewrite (pos_app_in a l2) by done.
    assert (pos a l = length (skipped (tasks s) l) + S (pos a l2))%nat; [|lia].
    rewrite Hsplit at 1. rewrite pos_app by done. simpl. by rewrite (proj2 (Z.eqb_neq a n)) by done.
Qed.

Lemma step_kill_ok P m s l pid r s' : ok P m s l -> kill_task s pid = Some (r, s') ->
  exists P' m' l', ok P' m' s' l' /\ advances s s' l l' (Kill pid).
Proof.
  intros Hs Hk. destruct (decide (pid = 0)) as [->|Hpid].
  { rewrite kill_kernel in Hk. injection Hk as _ <-. exists P, m, l. split; [done|].
    apply advances_same; [done|done|]. by destruct (so_ring _ _ _ _ _ _ _ Hs) as [_ [? _]%NoDup_cons]. }
  destruct (kill_task_spec syms boot_lo boot_hi Hlay P m s l pid Hs Hpid) as
    [[Hk' _]|(s2 & Hk' & l1 & b & t & l2 & -> & Hb & Hid & Hrm & Hok)]; rewrite Hk in Hk';
    injection Hk' as _ <-.
  - exists P, m, l. split; [done|]. apply advances_same; [done|done|].
    by destruct (so_ring _ _ _ _ _ _ _ Hs) as [_ [? _]%NoDup_cons].
  - eexists _, _, _. split; [exact Hok|]. intros a id Hwt Hne.
    assert (Hab : a <> b).
    { intros ->. destruct Hwt as [_ (u & Hu & _ & Hui)]. apply Hne. f_equal. congruence. }
    right. split.
    + eapply waiting_unlinked; [exact Hwt| |by apply Hrm].
      destruct Hwt as [Ha _]. set_solver.
    + cbn [is_yield is_create]. destruct (decide (a ∈ l1)) as [Ha|Ha].
      * rewrite !pos_app_in by done. lia.
      * rewrite !pos_app by done. simpl. rewrite (proj2 (Z.eqb_neq a b)) by done. lia.
Qed.

Lemma computes_ok P m m' s l s' c : ok P m s l -> tasks s !! current_task s = Some c -> computes s s' ->
  m ⊆ m' -> holds P (t_cr3 c) (env s') m' -> ok P m' s' l.
Proof.
  intros Hs Hc [C1 C2 C3 C4 C5 C6] Hm Hh'.
  apply (ok_change syms boot_lo boot_hi P m P m' s s' l Hs); try done.
  - by rewrite C1.
  - rewrite C1. apply (so_running _ _ _ _ _ _ _ Hs).
  - intros a t x Ha Hac Hx. apply (C5 c); [done|].
    destruct (stacks_disjoint syms boot_lo boot_hi Hlay _ _ _ _ _ _ _ _ Hs Ha Hc Hac); lia.
  - intros c' Hc'. by simplify_eq.
Qed.

Lemma event_ok P m s l e s' : ok P m s l -> step s e s' ->
  exists P' m' l', ok P' m' s' l' /\ advances s s' l l' e.
Proof.
  intros Hs Hstep. assert (Hnc : current_task s ∉ l).
  { by destruct (so_ring _ _ _ _ _ _ _ Hs) as [_ [? _]%NoDup_cons]. }
  destruct (so_memory _ _ _ _ _ _ _ Hs) as (c & Hc & Hh).
  destruct Hstep as [s' Hcp|now s' Ht|now ms s' Ht|s' Ht|s' Hroom Ht|ct p s' Ht|pid r s' Ht].
  - destruct (cp_env _ _ Hcp _ _ _ Hh) as (m' & Hm & Hh').
    exists P, m', l. split; [by eapply computes_ok|]. apply advances_same; [done| |done].
    by rewrite (cp_tasks _ _ Hcp).
  - destruct (task_timer_tick_spec syms boot_lo boot_hi P m s l now Hs) as [Heq Hok].
    rewrite Ht in Heq. injection Heq as ->. exists P, m, l. split; [done|].
    apply advances_same; [done| |done]. intros a t Ha Hst _. cbn [tasks set_tasks].
    rewrite lookup_fmap, Ha. simpl. unfold wake_one. by rewrite Hst.
  - unfold task_sleep_start in Ht. rewrite (proj2 (Z.eqb_neq _ _)) in Ht by by eapply so_null.
    unfold poke_task in Ht. rewrite Hc in Ht. cbn [mbind option_bind] in Ht. injection Ht as <-.
    exists P, m, l. split; [by eapply ok_poke_current|].
    apply advances_same; [done| |done]. intros a t Ha _ Hac. cbn [tasks set_tasks].
    by rewrite lookup_insert_ne.
  - unfold exit_task_start, poke_task in Ht. rewrite Hc in Ht. cbn [mbind option_bind] in Ht.
    injection Ht as <-. exists P, m, l. split; [by eapply ok_poke_current|].
    apply advances_same; [done| |done]. intros a t Ha _ Hac. cbn [tasks set_tasks].
    by rewrite lookup_insert_ne.
  - by eapply step_yield_ok.
  - destruct (creates_spec syms boot_lo boot_hi vfs_root Hlay P m s l ct p s' Hs Ht) as
      [(_ & e & -> & Hok)|(t & P' & m' & _ & Hcr & _ & _ & _ & Hok)].
    + exists P, m, l. split; [done|]. by apply advances_same.
    + exists P', m', (p :: l). split; [done|]. intros b id Hwt _. right.
      assert (Hba : b <> p).
      { intros ->. destruct Hwt as [_ (u & Hu & _)]. rewrite (cr_fresh _ _ _ _ Hcr) in Hu. done. }
      split; [eapply waiting_unlinked; [exact Hwt|right; apply Hwt|by apply Hcr]|].
      cbn [is_yield is_create pos]. rewrite (proj2 (Z.eqb_neq b p)) by done. lia.
  - by eapply step_kill_ok.
Qed.

Lemma steps_ok P m s l es s' : ok P m s l -> steps s es s' -> exists P' m' l', ok P' m' s' l'.
Proof.
  intros Hs Hst. revert P m l Hs. induction Hst as [s|s e es s1 s2 Hone _ IH]; intros P m l Hs.
  - by exists P, m, l.
  - destruct (event_ok _ _ _ _ _ _ Hs Hone) as (P' & m' & l' & Hok & _). by eapply IH.
Qed.

(** A waiting task gets the processor. *)
Lemma steps_reach s es s' : steps s es s' -> forall P m l a id, ok P m s l -> waiting s l a id ->
  Forall (fun e => e <> Kill id) es -> (pos a l + count is_create es < count is_yield es)%nat ->
  exists es1 es2 s1, es = es1 ++ es2 /\ steps s es1 s1 /\ steps s1 es2 s' /\ current_task s1 = a.
Proof.
  intros Hst. induction Hst as [s|s e es s1 s2 Hone Hst IH]; intros P m l a id Hs Hwt Hk Hn.
  { unfold count in Hn. simpl in Hn. lia. }
  apply Forall_cons in Hk as [Hke Hk].
  destruct (event_ok _ _ _ _ _ _ Hs Hone) as (P' & m' & l' & Hok & Hadv).
  destruct (Hadv a id Hwt Hke) as [Hcur|[Hwt' Hpos]].
  - exists [e], es, s1. split; [done|]. split; [by eapply steps_cons, steps_nil|]. by split.
  - destruct (IH P' m' l' a id Hok Hwt' Hk) as (es1 & es2 & s3 & -> & Hs1 & Hs2 & Hcur).
    + unfold count in *. rewrite !filter_cons in Hn.
      destruct (is_yield e), (is_create e); simpl in *; lia.
    + exists (e :: es1), es2, s3. split; [done|]. split; [by eapply steps_cons|]. by split.
Qed.

(** ** init_tasking *)
Lemma init_tasking_spec {D} `{BlockDevice D} (d : D) junk g c w e m : holds ∅ kernel_dir e m ->
  length (tss_words (tss g)) = 25%nat ->
  (init_tasking syms d vfs_root junk g c w e = None /\ out_of_files e) \/
  exists s m' k, init_tasking syms d vfs_root junk g c w e = Some s /\ ok ∅ m' s [] /\
    current_task s = KERNEL_TASK syms /\ tasks s !! KERNEL_TASK syms = Some k /\
    t_state k = TASK_RUNNING /\ cwd k = vfs_root /\ new_files m m' (fd_table k) /\
    standard_files ∅ (files s) (fd_table k).
Proof.
  intros Hh Hg. unfold init_tasking.
  destruct (init_task_fds_spec _ _ _ _ ∅ Hh) as [[-> He]|(fds & e2 & F2 & m2 & -> & Hh2 & Hm2 & Hsf)];
    [by left|]. right. cbn [mbind option_bind].
  replace (vfs_resolve_path d vfs_root zero_node junk (Some (cbuf [47]))) with (Some (Some vfs_root)) by done.
  cbn [mbind option_bind from_option]. unfold id. eexists _, m2, _. split; [reflexivity|].
  cbn [current_task tasks files]. rewrite lookup_singleton_eq.
  split; [|split; [done|]; split; [reflexivity|]; split; [done|]; split; [done|by split]].
  pose proof (kernel_dir_law _ _ _ _ Hh2) as [Hkd _]. destruct Hlay as [_ HK].
  split; cbn [tasks current_task next_pid words s_gdt env].
  - split; [|by apply NoDup_singleton]. split; [done|]. eexists. rewrite lookup_singleton_eq. by split.
  - intros a. rewrite list_elem_of_singleton. split.
    + by intros [x [<- _]%lookup_singleton_Some].
    + intros ->. rewrite lookup_singleton_eq. by eexists.
  - rewrite map_fmap_singleton. split.
    + eexists. rewrite lookup_singleton_eq. by repeat split.
    + intros a b x y [<- <-]%lookup_singleton_Some [<- <-]%lookup_singleton_Some. done.
    + intros a x [<- <-]%lookup_singleton_Some. simpl. lia.
    + apply lookup_singleton_ne. lia.
    + intros a t [<- <-]%lookup_singleton_Some Ha. done.
    + intros a b t u [<- <-]%lookup_singleton_Some _ Ha. done.
  - intros a t [<- _]%lookup_singleton_Some _. done.
  - eexists. rewrite lookup_singleton_eq. split; [done|]. simpl. by rewrite Hkd.
  - intros a t [<- _]%lookup_singleton_Some Hne. done.
  - exact Hg.
  - lia.
Qed.
End Steps.
