(* ===== verification/TaskResume.v ===== *)
(** * A task comes back where it was

    While a task waits for the processor, no event touches its frame or the
    stack above it; when the scheduler returns to it, the registers are those
    it called [schedule] with. *)
From S2P Require Import Prelude CString Allocator Memory BlockDev DiskLayout SimpleFs Vfs File Gdt Cpu.
From S2P Require Import Task TaskRing TaskInv TaskSched TaskSwitch TaskPick TaskSchedule TaskOps TaskCreate.
From S2P Require Import TaskUser Loader TaskExec TaskSteps.

Section Resume.
Context {E : Type} `{LoaderOk E} (syms : symbols) (boot_lo boot_hi : Z) (vfs_root : vfs_node).
Hypothesis Hlay : layout_ok syms boot_lo boot_hi.
Implicit Types (s : sched E).
#[local] Abbreviation ok := (sched_ok syms boot_lo boot_hi).
#[local] Abbreviation lo := (stack_lo syms boot_lo).
#[local] Abbreviation hi := (stack_hi syms boot_hi).
#[local] Abbreviation step := (step syms boot_lo boot_hi vfs_root).
(** The task, its number, the registers it was left with, and the words above
    its frame. *)
Context (a id : Z) (f : cpu) (w0 : stack_words).

(** What of a task decides where it comes back. *)
Definition anchor (t : Task) : Z * Z * Z := (t_id t, t_esp t, kernel_stack_bottom t).
Lemma anchor_unlinked t u : unlinked t = unlinked u -> anchor t = anchor u.
Proof. intros (Hi & He & Hk & _)%unlinked_fields. unfold anchor. by rewrite Hi, He, Hk. Qed.
Lemma anchor_bounds t u : anchor t = anchor u -> lo a t = lo a u /\ hi a t = hi a u.
Proof. unfold anchor, stack_lo, stack_hi. intros [= _ _ ->]. done. Qed.

Record parked s (t : Task) : Prop := {
  pk_task : tasks s !! a = Some t;
  pk_id : t_id t = id;
  pk_away : a <> current_task s;
  pk_frame : frame_at (words s) (t_esp t) f;
  pk_inside : lo a t <= t_esp t /\ t_esp t + 40 <= hi a t;
  pk_above : forall x, t_esp t + 40 <= x < hi a t -> words s !! x = w0 !! x;
}.
Record returned s (t : Task) : Prop := {
  rt_current : current_task s = a;
  rt_cpu : s_cpu s = f;
  rt_above : forall x, t_esp t + 40 <= x < hi a t -> words s !! x = w0 !! x;
}.
(** The number is not used any more. *)
Definition retired s : Prop := id < next_pid s /\ forall b t, tasks s !! b = Some t -> t_id t <> id.

Lemma parked_kept s s' t u : parked s t -> tasks s' !! a = Some u -> anchor u = anchor t ->
  a <> current_task s' -> (forall x, lo a t <= x < hi a t -> words s' !! x = words s !! x) ->
  parked s' u.
Proof.
  intros [Ht Hid Hc Hf Hi Hab] Hu Han Hc' Hw. destruct (anchor_bounds _ _ Han) as [Hl Hh].
  injection Han as Hi' He _. split; try done; rewrite ?He, ?Hl, ?Hh.
  - congruence.
  - eapply frame_frame; [|exact Hf]. intros x Hx. apply Hw. lia.
  - done.
  - intros x Hx. rewrite <- Hab by done. apply Hw. lia.
Qed.
(** The number of a task whose address is free belongs to nobody. *)
Lemma retire P m s l t : ok P m s l -> parked s t -> forall s', next_pid s <= next_pid s' ->
  tasks s' !! a = None ->
  (forall b u, tasks s' !! b = Some u -> exists v, tasks s !! b = Some v /\ t_id v = t_id u) ->
  retired s'.
Proof.
  intros Hs [Ht Hid _ _ _ _] s' Hp Ha Hsub. pose proof (so_owned _ _ _ _ _ _ _ Hs) as Ho. split.
  - destruct (ow_range _ _ _ _ _ _ Ho a (core t)) as [_ Hr]; [by rewrite lookup_fmap, Ht|].
    simpl in Hr. lia.
  - intros b u Hb Hui. destruct (Hsub b u Hb) as (v & Hv & Hvi).
    assert (a = b) as <-; [|congruence].
    apply (ow_ids _ _ _ _ _ _ Ho a b (core t) (core v)); [by rewrite lookup_fmap, ?Ht, ?Hv..|].
    simpl. congruence.
Qed.

(** Events that leave every other task where it is. *)
Lemma parked_quiet P m s l s' t : ok P m s l -> parked s t -> current_task s' = current_task s ->
  (forall b, b <> current_task s -> quiet <$> tasks s' !! b = quiet <$> tasks s !! b) ->
  (forall c x, tasks s !! current_task s = Some c ->
     ~ (lo (current_task s) c <= x < hi (current_task s) c) -> words s' !! x = words s !! x) ->
  exists u, parked s' u /\ anchor u = anchor t.
Proof.
  intros Hs Hp Hc HT Hw. pose proof Hp as [Ht _ Hca _ _ _].
  destruct (so_memory _ _ _ _ _ _ _ Hs) as (c & Hcur & _).
  specialize (HT a Hca). rewrite Ht in HT. apply fmap_Some in HT as (u & Hu & Heq).
  apply quiet_core in Heq as ((Hi & Hk & _)%core_fields & _ & He).
  assert (Han : anchor u = anchor t) by (unfold anchor; by rewrite Hi, Hk, He).
  exists u. split; [|done]. eapply parked_kept; [exact Hp|done|done|congruence|].
  intros x Hx. apply (Hw c); [done|].
  destruct (stacks_disjoint syms boot_lo boot_hi Hlay _ _ _ _ _ _ _ _ Hs Ht Hcur Hca); lia.
Qed.

(** The three things an event can do to a parked task. *)
Definition stays_parked s' (t : Task) : Prop :=
  (exists u, parked s' u /\ anchor u = anchor t) \/ returned s' t \/ retired s'.

Lemma parked_schedule P m s l s' t : ok P m s l -> parked s t ->
  has_room syms boot_lo boot_hi s -> schedule syms s = Some s' -> stays_parked s' t.
Proof.
  intros Hs Hp Hroom Hsch. pose proof Hp as [Ht Hid Hca Hf Hin Hab].
  destruct (schedule_spec syms boot_lo boot_hi Hlay P m s l Hs Hroom) as (s2 & Heq & Hcase).
  rewrite Hsch in Heq. injection Heq as <-.
  destruct (so_memory _ _ _ _ _ _ _ Hs) as (c & Hcur & _).
  pose proof (stacks_disjoint syms boot_lo boot_hi Hlay _ _ _ _ _ _ _ _ Hs Ht Hcur Hca) as Hdis.
  set (gone := dead_met _ _) in *. destruct (decide (a ∈ gone)) as [Hg|Hg].
  - right. right. destruct (from_ready (tasks s) l) as [|n l2] eqn:Hfr.
    + destruct Hcase as [[S1 S2 S3 S4 S5 S6 S7] _]. eapply retire; [exact Hs|exact Hp|lia|by apply S2|].
      intros b u Hu. destruct (decide (b ∈ gone)) as [Hb|Hb]; [specialize (S2 _ Hb); congruence|].
      destruct (decide (b = current_task s)) as [->|Hbc].
      * destruct S4 as (c1 & c2 & Hc1 & Hc2 & (Hi & _)%core_fields & _). exists c1. split; [done|]. congruence.
      * specialize (S3 b Hb Hbc). rewrite Hu in S3. symmetry in S3. apply fmap_Some in S3 as (v & Hv & Heq).
        exists v. split; [done|]. by apply unlinked_fields in Heq as (-> & _).
    + destruct Hcase as [[W1 W2 W3 W4 W5 W6 W7 W8] _]. eapply retire; [exact Hs|exact Hp|lia|by apply W2|].
      intros b u Hu. destruct (decide (b ∈ gone)) as [Hb|Hb]; [specialize (W2 _ Hb); congruence|].
      specialize (W3 b Hb). rewrite Hu in W3. destruct (tasks s !! b) as [v|]; [|done].
      exists v. split; [done|]. apply (inj Some), unlinked_fields in W3 as (-> & _).
      unfold after_switch, paused. repeat case_match; done.
  - destruct (from_ready (tasks s) l) as [|n l2] eqn:Hfr.
    + left. destruct Hcase as [[S1 S2 S3 S4 S5 S6 S7] _].
      specialize (S3 a Hg Hca). rewrite Ht in S3. apply fmap_Some in S3 as (u & Hu & Heq).
      exists u. pose proof (anchor_unlinked _ _ Heq) as Han. split; [|done].
      eapply parked_kept; [exact Hp|done|done|congruence|].
      intros x Hx. apply (S5 c); [done|lia].
    + destruct Hcase as [[W1 W2 W3 W4 W5 W6 W7 W8] _]. destruct (decide (a = n)) as [Han|Han].
      * right. left. destruct W4 as (t' & Ht' & Hf' & _). rewrite <- Han, Ht in Ht'. injection Ht' as <-. split.
        -- congruence.
        -- pose proof (switch_load_spec _ _ (s_cpu s) _ Hf) as Hone.
           rewrite (switch_load_spec _ _ (s_cpu s) _ Hf') in Hone. by injection Hone.
        -- intros x Hx. rewrite <- Hab by done. apply (W6 c); [done|lia].
      * left. specialize (W3 a Hg). rewrite Ht in W3. simpl in W3. unfold after_switch in W3.
        rewrite (proj2 (Z.eqb_neq a n)), (proj2 (Z.eqb_neq a (current_task s))) in W3 by done.
        apply fmap_Some in W3 as (u & Hu & Heq). exists u.
        assert (anchor u = anchor t) as Hanc by (symmetry; by apply anchor_unlinked).
        split; [|done]. eapply parked_kept; [exact Hp|done|done|congruence|].
        intros x Hx. apply (W6 c); [done|lia].
Qed.

Lemma step_parked P m s l e s' t : ok P m s l -> parked s t -> step s e s' -> stays_parked s' t.
Proof.
  intros Hs Hp Hstep. pose proof Hp as [Ht Hid Hca _ _ _].
  destruct (so_memory _ _ _ _ _ _ _ Hs) as (c & Hc & _).
  assert (Hpoke : forall u, exists v,
    parked (set_tasks (<[current_task s := u]> (tasks s)) s) v /\ anchor v = anchor t).
  { intros u. eapply parked_quiet; try done. intros b Hb. cbn [tasks set_tasks]. by rewrite lookup_insert_ne. }
  destruct Hstep as [s' Hcp|now s' Hop|now ms s' Hop|s' Hop|s' Hroom Hop|ct p s' Hop|pid r s' Hop].
  - left. destruct Hcp as [C1 C2 C3 C4 C5 C6]. eapply parked_quiet; try done. by rewrite C1.
  - left. destruct (task_timer_tick_spec syms boot_lo boot_hi P m s l now Hs) as [Heq _].
    rewrite Hop in Heq. injection Heq as ->. eapply parked_quiet; try done.
    intros b _. cbn [tasks set_tasks]. rewrite lookup_fmap. destruct (tasks s !! b); [|done].
    simpl. f_equal. apply wake_one_quiet.
  - left. unfold task_sleep_start in Hop. rewrite (proj2 (Z.eqb_neq _ _)) in Hop by by eapply so_null.
    unfold poke_task in Hop. rewrite Hc in Hop. cbn [mbind option_bind] in Hop. injection Hop as <-. apply Hpoke.
  - left. unfold exit_task_start, poke_task in Hop. rewrite Hc in Hop. cbn [mbind option_bind] in Hop.
    injection Hop as <-. apply Hpoke.
  - by eapply parked_schedule.
  - left. destruct (creates_spec syms boot_lo boot_hi vfs_root Hlay P m s l ct p s' Hs Hop) as
      [(_ & e & -> & _)|(u & P' & m' & _ & Hcr & _ & _ & _ & Hok)].
    + eapply parked_quiet; done.
    + destruct Hcr as [R1 R2 R3 R4 R5 R6 R7 R8 R9 R10 R11].
      assert (Hab : a <> p) by congruence. specialize (R3 a Hab). rewrite Ht in R3.
      apply fmap_Some in R3 as (v & Hv & Heq). pose proof (anchor_unlinked _ _ Heq) as Han.
      exists v. split; [|done]. eapply parked_kept; [exact Hp|done|done|congruence|]. intros x Hx.
      apply R10. destruct (anchor_bounds _ _ Han) as [Hl Hh].
      pose proof (stacks_disjoint syms boot_lo boot_hi Hlay _ _ _ _ _ _ _ _ Hok Hv R1 Hab) as Hdis.
      assert (HbK : p <> KERNEL_TASK syms).
      { intros ->. destruct (so_kernel_in _ _ _ _ _ _ _ Hs) as (k & Hk & _). congruence. }
      rewrite (to_top _ _ _ _ _ (so_owns _ _ _ _ _ _ _ _ _ Hok R1 HbK)).
      rewrite <- Hl, <- Hh in Hdis. unfold stack_lo, stack_hi in *.
      rewrite (proj2 (Z.eqb_neq p _)) in Hdis by done. lia.
  - destruct (decide (pid = 0)) as [->|Hpid].
    { rewrite kill_kernel in Hop. injection Hop as _ <-. left. by exists t. }
    destruct (kill_task_spec syms boot_lo boot_hi Hlay P m s l pid Hs Hpid) as
      [[Hk' _]|(s2 & Hk' & l1 & b & u & l2 & -> & Hb & Hbid & [Hm Hg Hr] & Hok)]; rewrite Hop in Hk';
      injection Hk' as _ <-; [left; by exists t|].
    destruct (decide (a = b)) as [<-|Hab].
    + right. right. eapply retire; [exact Hs|exact Hp|by rewrite (sm_pid _ _ Hm)|done|].
      intros x v Hv. assert (x <> a) by congruence. specialize (Hr x ltac:(done)). rewrite Hv in Hr.
      symmetry in Hr. apply fmap_Some in Hr as (y & Hy & Heq). exists y. split; [done|].
      by apply unlinked_fields in Heq as (-> & _).
    + left. specialize (Hr a Hab). rewrite Ht in Hr. apply fmap_Some in Hr as (v & Hv & Heq).
      pose proof (anchor_unlinked _ _ Heq) as Han. exists v. split; [|done].
      eapply parked_kept; [exact Hp|done|done|by rewrite (sm_current _ _ Hm)|].
      intros x _. by rewrite (sm_words _ _ Hm).
Qed.

(** ** Numbers are not used twice *)
(** The tasks of [s'] have their numbers from [s], or the next free one. *)
Definition ids_from s s' : Prop := next_pid s <= next_pid s' /\
  forall b u, tasks s' !! b = Some u ->
    (t_id u = next_pid s /\ next_pid s < next_pid s') \/
    exists v, tasks s !! b = Some v /\ t_id v = t_id u.

Lemma ids_from_rest s s' (gone : Z -> Prop) : next_pid s <= next_pid s' ->
  (forall b, gone b \/ ~ gone b) -> (forall b, gone b -> tasks s' !! b = None) ->
  (forall b, ~ gone b -> t_id <$> tasks s' !! b = t_id <$> tasks s !! b) -> ids_from s s'.
Proof.
  intros Hp Hdec Hg Hr. split; [done|]. intros b u Hu. right.
  destruct (Hdec b) as [Hb|Hb]; [specialize (Hg b Hb); congruence|].
  specialize (Hr b Hb). rewrite Hu in Hr. symmetry in Hr. apply fmap_Some in Hr as (v & Hv & Heq).
  by exists v.
Qed.
Lemma id_of_unlinked (o o' : option Task) : unlinked <$> o = unlinked <$> o' -> t_id <$> o = t_id <$> o'.
Proof.
  destruct o, o'; simpl; try done. by intros (-> & _)%(inj Some)%unlinked_fields.
Qed.

Lemma schedule_ids P m s l s' : ok P m s l -> has_room syms boot_lo boot_hi s ->
  schedule syms s = Some s' -> ids_from s s'.
Proof.
  intros Hs Hroom Hsch.
  destruct (schedule_spec syms boot_lo boot_hi Hlay P m s l Hs Hroom) as (s2 & Heq & Hcase).
  rewrite Hsch in Heq. injection Heq as <-. set (gone := dead_met _ _) in *.
  apply (ids_from_rest _ _ (fun b => b ∈ gone));
    [|intros b; destruct (decide (b ∈ gone)); [by left|by right]|..];
    destruct (from_ready (tasks s) l) as [|n l2];
    destruct Hcase as [Hc _]; try (destruct Hc; (done || lia)).
  - intros b Hb. destruct Hc as [_ _ S3 (c1 & c2 & Hc1 & Hc2 & (Hi & _)%core_fields & _) _ _ _].
    destruct (decide (b = current_task s)) as [->|Hbc]; [rewrite Hc1, Hc2; simpl; by f_equal|].
    apply id_of_unlinked. by apply S3.
  - intros b Hb. destruct Hc as [_ _ W3 _ _ _ _ _]. rewrite (id_of_unlinked _ _ (W3 b Hb)).
    destruct (tasks s !! b); [|done]. simpl. f_equal. unfold after_switch, paused. by repeat case_match.
Qed.

Lemma step_ids P m s l e s' : ok P m s l -> step s e s' -> ids_from s s'.
Proof.
  intros Hs Hstep. destruct (so_memory _ _ _ _ _ _ _ Hs) as (c & Hc & _).
  assert (Hq : forall T, next_pid s <= next_pid s' -> tasks s' = T ->
    (forall b, t_id <$> T !! b = t_id <$> tasks s !! b) -> ids_from s s').
  { intros T Hp <- HT. apply (ids_from_rest _ _ (fun _ => False)); [done|intros _; right; by intros []|done|].
    intros b _. apply HT. }
  assert (Hpoke : forall u b, t_id u = t_id c ->
    t_id <$> <[current_task s := u]> (tasks s) !! b = t_id <$> tasks s !! b).
  { intros u b Hu. rewrite lookup_insert. case_decide as Hb; [|done]. rewrite <- Hb, Hc. simpl. by f_equal. }
  destruct Hstep as [s' Hcp|now s' Hop|now ms s' Hop|s' Hop|s' Hroom Hop|ct p s' Hop|pid r s' Hop].
  - destruct Hcp as [C1 C2 C3 C4 C5 C6]. apply (Hq (tasks s)); [lia|done|done].
  - destruct (task_timer_tick_spec syms boot_lo boot_hi P m s l now Hs) as [Heq _].
    rewrite Hop in Heq. injection Heq as ->. eapply Hq; [cbn; lia|reflexivity|].
    intros b. cbn [tasks set_tasks]. rewrite lookup_fmap. destruct (tasks s !! b); [|done]. simpl. f_equal.
    unfold wake_one. by case_match.
  - unfold task_sleep_start in Hop. rewrite (proj2 (Z.eqb_neq _ _)) in Hop by by eapply so_null.
    unfold poke_task in Hop. rewrite Hc in Hop. cbn [mbind option_bind] in Hop. injection Hop as <-.
    eapply Hq; [cbn; lia|reflexivity|]. intros b. by apply Hpoke.
  - unfold exit_task_start, poke_task in Hop. rewrite Hc in Hop. cbn [mbind option_bind] in Hop.
    injection Hop as <-. eapply Hq; [cbn; lia|reflexivity|]. intros b. by apply Hpoke.
  - by eapply schedule_ids.
  - destruct (creates_spec syms boot_lo boot_hi vfs_root Hlay P m s l ct p s' Hs Hop) as
      [(_ & e & -> & _)|(u & P' & m' & _ & Hcr & _)].
    + eapply Hq; [cbn; lia|reflexivity|done].
    + destruct Hcr as [R1 R2 R3 R4 R5 R6 R7 R8 R9 R10 R11]. split; [lia|]. intros x v Hv.
      destruct (decide (x = p)) as [->|Hxb]; [left; split; [congruence|lia]|]. right.
      specialize (R3 x Hxb). apply id_of_unlinked in R3. rewrite Hv in R3. symmetry in R3.
      apply fmap_Some in R3 as (y & Hy & Heq). by exists y.
  - destruct (decide (pid = 0)) as [->|Hpid].
    { rewrite kill_kernel in Hop. injection Hop as _ <-. eapply Hq; [cbn; lia|reflexivity|done]. }
    destruct (kill_task_spec syms boot_lo boot_hi Hlay P m s l pid Hs Hpid) as
      [[Hk' _]|(s2 & Hk' & l1 & b & u & l2 & -> & Hb & Hbid & [Hm Hg Hr] & Hok)]; rewrite Hop in Hk';
      injection Hk' as _ <-; [eapply Hq; [cbn; lia|reflexivity|done]|].
    apply (ids_from_rest _ _ (fun x => x = b)).
    + by rewrite (sm_pid _ _ Hm).
    + intros x. destruct (decide (x = b)); [by left|by right].
    + by intros x ->.
    + intros x Hx. apply id_of_unlinked. by apply Hr.
Qed.
Lemma retired_kept s s' : ids_from s s' -> retired s -> retired s'.
Proof.
  intros [Hp Hi] [Hr Hn]. split; [lia|]. intros b u Hu.
  destruct (Hi b u Hu) as [[-> _]|(v & Hv & <-)]; [lia|by eapply Hn].
Qed.

(** ** Until the task is back *)
(** Events of which only the last makes [a] the current task. *)
Inductive away s : sched E -> Prop :=
  | away_back e s' : step s e s' -> current_task s' = a -> away s s'
  | away_more e s1 s2 : step s e s1 -> current_task s1 <> a -> away s1 s2 -> away s s2.

Lemma away_returns s s' : away s s' -> forall P m l t, ok P m s l ->
  (exists u, parked s u /\ anchor u = anchor t) \/ retired s ->
  returned s' t \/ retired s'.
Proof.
  intros Haw. induction Haw as [s e s' Hone Hc|s e s1 s2 Hone Hc Haw IH]; intros P m l t Hs Hst.
  - destruct Hst as [(u & Hp & Han)|Hr]; [|right; eapply retired_kept; [by eapply step_ids|done]].
    destruct (step_parked _ _ _ _ _ _ _ Hs Hp Hone) as [(v & Hpv & _)|[Hrt|Hr]]; [|left|by right].
    + exfalso. by apply (pk_away _ _ Hpv).
    + destruct Hrt as [R1 R2 R3]. split; [done|done|]. destruct (anchor_bounds _ _ Han) as [_ Hh].
      injection Han as _ He _. by rewrite <- He, <- Hh.
  - destruct (event_ok syms boot_lo boot_hi vfs_root Hlay _ _ _ _ _ _ Hs Hone) as (P' & m' & l' & Hok & _).
    eapply IH; [exact Hok|]. destruct Hst as [(u & Hp & Han)|Hr].
    + destruct (step_parked _ _ _ _ _ _ _ Hs Hp Hone) as [(v & Hpv & Hv)|[[Hrt _ _]|Hr]]; [left|done|by right].
      exists v. split; [done|]. congruence.
    + right. eapply retired_kept; [exact (step_ids _ _ _ _ _ _ Hs Hone)|done].
Qed.
End Resume.
