(* ===== verification/TaskDemo.v ===== *)
(** * A small run of the scheduler

    The kernel's task, one task created by it and one by that: the states on
    which the theorems about tasks are tried, over the bump allocator. *)
From S2P Require Import Prelude CString Allocator Memory BlockDev DiskLayout SimpleFs Vfs File Gdt Cpu.
From S2P Require Import Task TaskRing TaskInv TaskSched TaskSwitch TaskPick TaskSchedule TaskOps TaskCreate.
From S2P Require Import TaskSteps.
Import RamDisk Arena.

Definition demo_syms : symbols := mk_symbols 0x100 0x200 0x300 0x400.
Definition BOOT_LO : Z := 0x2000.
Definition BOOT_HI : Z := 0x4000.
Definition slash : vfs_node := mk_node (47 :: replicate 31 0) VFS_DIRECTORY 0 0 0.
Definition boot_cpu : cpu := mk_cpu 0x500 0x3000 0x0202 (mk_gprs 1 2 3 4 5 6 7).
Definition arena0 : Arena.t := Arena.mk_arena 0x8000 0x2000 Arena.KERNEL_DIR.
Definition nowhere : sched Arena.t := mk_sched ∅ ∅ ∅ 0 0 gdt_boot boot_cpu arena0.

Definition demo0 : sched Arena.t :=
  default nowhere (init_tasking demo_syms blank slash [] gdt_boot boot_cpu ∅ arena0).
Definition demo1 : sched Arena.t := default nowhere (snd <$> create_task demo_syms slash demo0 0x600).
(** Where the first task lands. *)
Definition TASK1 : Z := 0x80CC + 0x400.

Lemma demo_layout : layout_ok demo_syms BOOT_LO BOOT_HI.
Proof. by split. Qed.
Lemma arena0_holds : holds ∅ kernel_dir arena0 ∅.
Proof. by split. Qed.

Lemma demo0_eq : init_tasking demo_syms blank slash [] gdt_boot boot_cpu ∅ arena0 = Some demo0.
Proof. vm_compute. reflexivity. Qed.
Lemma demo1_eq : create_task demo_syms slash demo0 0x600 = Some (TASK1, demo1).
Proof. vm_compute. reflexivity. Qed.
Lemma demo0_ok : exists m, sched_ok demo_syms BOOT_LO BOOT_HI ∅ m demo0 [].
Proof.
  destruct (init_tasking_spec demo_syms BOOT_LO BOOT_HI slash demo_layout blank [] gdt_boot boot_cpu ∅
    arena0 ∅ arena0_holds) as [[Hn _]|(s & m' & k & Hi & Hok & _)]; [done|by rewrite demo0_eq in Hn|].
  rewrite demo0_eq in Hi. injection Hi as <-. by exists m'.
Qed.
Lemma demo1_ok : exists m, sched_ok demo_syms BOOT_LO BOOT_HI ∅ m demo1 [TASK1].
Proof.
  destruct demo0_ok as [m Hs].
  destruct (create_task_spec demo_syms BOOT_LO BOOT_HI slash demo_layout ∅ m demo0 [] 0x600 Hs) as
    [[Hn _]|[(s & Heq & _)|(a & s & t & m' & Heq & _ & _ & _ & _ & _ & _ & _ & _ & Hok)]];
    [done|by rewrite demo1_eq in Hn|by rewrite demo1_eq in Heq|].
  rewrite demo1_eq in Heq. injection Heq as <- <-. by exists m'.
Qed.
Lemma demo1_room : has_room demo_syms BOOT_LO BOOT_HI demo1.
Proof. intros t Ht. by vm_compute. Qed.
