(* ===== verification/TaskProps.v ===== *)
(** * What the scheduler promises

    The theorems about task/task.cpp, over the invariant [sched_ok] and the
    interface of the memory managers. *)
From S2P Require Import Prelude CString Allocator Memory BlockDev DiskLayout SimpleFs Vfs File Gdt Cpu.
From S2P Require Import Task TaskRing TaskInv TaskSched TaskSwitch TaskPick TaskSchedule TaskOps TaskCreate.
From S2P Require Import TaskUser Loader TaskExec TaskSteps TaskResume TaskDemo.

(** The walk of [schedule] when the first ready task is [n]. *)
Lemma walk_split (T : gmap Z Task) l1 n l2 : in_state TASK_READY T n = true ->
  Forall (fun a => in_state TASK_READY T a = false) l1 ->
  from_ready T (l1 ++ n :: l2) = n :: l2 /\ skipped T (l1 ++ n :: l2) = l1.
Proof.
  intros Hn Hl. induction Hl as [|a l1 Ha Hl [IH1 IH2]]; simpl; [by rewrite Hn|].
  rewrite Ha. by rewrite IH1, IH2.
Qed.
Lemma walk_no_ready (T : gmap Z Task) l : Forall (fun a => in_state TASK_READY T a = false) l ->
  from_ready T l = [] /\ skipped T l = l.
Proof.
  intros Hl. induction Hl as [|a l Ha Hl [IH1 IH2]]; simpl; [done|]. rewrite Ha. by rewrite IH1, IH2.
Qed.
(** The tasks of a list that the walk kills, and those it leaves. *)
Definition dead_in (T : gmap Z Task) (l : list Z) : list Z := base.filter (fun a => reaped T a = true) l.
Definition live_in (T : gmap Z Task) (l : list Z) : list Z := base.filter (fun a => reaped T a = false) l.

Section Props.
Context {E : Type} `{LoaderOk E} (syms : symbols) (boot_lo boot_hi : Z) (vfs_root : vfs_node).
Implicit Types (s : sched E).
#[local] Abbreviation ok := (sched_ok syms boot_lo boot_hi).
#[local] Abbreviation room := (has_room syms boot_lo boot_hi).

(** C2. schedule is a round robin.  With the ring [cur, l1, n, l2] and [n] the first
    READY task behind the current one, the processor goes to [n]: its saved
    registers are loaded, the registers of [cur] are saved below its stack
    pointer, a RUNNING [cur] becomes READY, the TSS points at the kernel stack
    of a user task, the dead tasks of [l1] are freed with their stacks and
    pages, and the ring becomes [n, l2, cur, l1 without the dead].  With nobody
    READY the current task keeps the processor and the dead are freed.  In both
    cases schedule returns and the invariant holds after. *)
Theorem schedule_round_robin P m s l :
  layout_ok syms boot_lo boot_hi -> ok P m s l -> room s ->
  let T := tasks s in
  (forall l1 n l2, l = l1 ++ n :: l2 -> in_state TASK_READY T n = true ->
     Forall (fun a => in_state TASK_READY T a = false) l1 ->
     exists s', schedule syms s = Some s' /\
       switched syms boot_lo boot_hi s n s' (dead_in T l1) /\
       ok (pages_after T (dead_in T l1) P) (blocks_after T (dead_in T l1) m) s'
         (l2 ++ current_task s :: live_in T l1)) /\
  (Forall (fun a => in_state TASK_READY T a = false) l ->
     exists s', schedule syms s = Some s' /\
       stayed syms boot_lo boot_hi s s' (dead_in T l) /\
       ok (pages_after T (dead_in T l) P) (blocks_after T (dead_in T l) m) s' (live_in T l)).
Proof.
  intros Hlay Hs Hroom T.
  destruct (schedule_spec syms boot_lo boot_hi Hlay P m s l Hs Hroom) as (s' & Hsch & Hcase).
  unfold survivors, dead_met in Hcase. split.
  - intros l1 n l2 -> Hn Hl1. destruct (walk_split T l1 n l2 Hn Hl1) as [Hf Hk].
    fold T in Hcase. rewrite Hf, Hk in Hcase. by exists s'.
  - intros Hl. destruct (walk_no_ready T l Hl) as [Hf Hk].
    fold T in Hcase. rewrite Hf, Hk in Hcase. by exists s'.
Qed.

(** C4. From init_tasking on, in whatever order events happen (the running task
    computes on its own stack, timer interrupts, task_sleep, exit_task,
    schedule, create_task, create_user_task, create_user_process, kill_task),
    the tasks form one ring without repetition, every task but the kernel's owns
    its Task object and kernel stack alone and every user task also its stack
    page and page directory, at most the current task is RUNNING, every other
    task has a loadable frame on its own stack, and from there schedule, the
    timer tick and kill_task never fail.  Taken for granted are 48 bytes of stack
    at each call of schedule, process numbers that do not wrap, and at each
    creation what the code does not look at: the heap has room for the File
    objects, the page directory of a user task can be made, and the file of a
    program can be read and there are frames for its pages. *)
Theorem scheduler_invariant {D} `{BlockDevice D} (d : D) junk g c w e m s0 es s :
  layout_ok syms boot_lo boot_hi -> holds ∅ kernel_dir e m -> length (tss_words (tss g)) = 25%nat ->
  init_tasking syms d vfs_root junk g c w e = Some s0 ->
  steps syms boot_lo boot_hi vfs_root s0 es s ->
  (exists P m' l, ok P m' s l) /\
  (room s -> is_Some (schedule syms s)) /\
  (forall now, is_Some (task_timer_tick now s)) /\
  (forall pid, is_Some (kill_task s pid)).
Proof.
  intros Hlay Hh Hg Hi Hst.
  destruct (init_tasking_spec syms boot_lo boot_hi vfs_root Hlay d junk g c w e m Hh Hg) as
    [[Hn _]|(s1 & m1 & k & Hi' & Hok & _)]; [congruence|].
  rewrite Hi in Hi'. injection Hi' as <-.
  destruct (steps_ok syms boot_lo boot_hi vfs_root Hlay _ _ _ _ _ _ Hok Hst) as (P' & m' & l' & Hs).
  split; [by exists P', m', l'|]. split; [|split].
  - intros Hroom. destruct (schedule_spec syms boot_lo boot_hi Hlay _ _ _ _ Hs Hroom) as (s' & -> & _). done.
  - intros now. destruct (task_timer_tick_spec syms boot_lo boot_hi _ _ _ _ now Hs) as [-> _]. done.
  - intros pid. destruct (decide (pid = 0)) as [->|Hpid]; [by rewrite kill_kernel|].
    by destruct (kill_task_spec syms boot_lo boot_hi Hlay _ _ _ _ pid Hs Hpid) as [[-> _]|(s' & -> & _)].
Qed.

(** C8. A READY task gets the processor.  With [k] tasks between the current one
    and the task [a], a run with more calls of schedule than [k] plus the
    number of tasks created meanwhile, and no kill of [a], passes through a
    state in which [a] is the current task. *)
Theorem ready_task_runs P m s l a t es s' :
  layout_ok syms boot_lo boot_hi -> ok P m s l ->
  a ∈ l -> tasks s !! a = Some t -> t_state t = TASK_READY ->
  steps syms boot_lo boot_hi vfs_root s es s' -> Forall (fun e => e <> Kill (t_id t)) es ->
  (pos a l + count is_create es < count is_yield es)%nat ->
  exists es1 es2 s1, es = es1 ++ es2 /\ steps syms boot_lo boot_hi vfs_root s es1 s1 /\
    steps syms boot_lo boot_hi vfs_root s1 es2 s' /\ current_task s1 = a.
Proof.
  intros Hlay Hs Ha Ht Hst Hsteps Hk Hn.
  eapply (steps_reach syms boot_lo boot_hi vfs_root Hlay s es s' Hsteps P m l a (t_id t)); try done.
  split; [done|]. by exists t.
Qed.

(** C9. A task that gives up the processor gets it back as it left it.  When
    schedule takes it from the task [a], and after any further events [a] is
    the current task again and still the same task, the registers are those of
    the call, at the return from switch_context, and the words of its stack
    above the stack pointer are unchanged. *)
Theorem task_resumes P m s l s1 s2 c c2 :
  layout_ok syms boot_lo boot_hi -> ok P m s l -> room s ->
  tasks s !! current_task s = Some c -> schedule syms s = Some s1 ->
  current_task s1 <> current_task s ->
  away syms boot_lo boot_hi vfs_root (current_task s) s1 s2 ->
  tasks s2 !! current_task s = Some c2 -> t_id c2 = t_id c ->
  current_task s2 = current_task s /\ s_cpu s2 = resumed (SCHEDULE_RET syms) (s_cpu s) /\
  forall x, r_esp (s_cpu s) <= x < stack_hi syms boot_hi (current_task s) c ->
    words s2 !! x = words s1 !! x.
Proof.
  intros Hlay Hs Hroom Hc Hsch Hne Haw Hc2 Hid.
  destruct (schedule_spec syms boot_lo boot_hi Hlay P m s l Hs Hroom) as (s' & Heq & Hcase).
  rewrite Hsch in Heq. injection Heq as <-. set (a := current_task s) in *.
  destruct (from_ready (tasks s) l) as [|n l2] eqn:Hfr; [by destruct Hcase as [[? _ _ _ _ _ _] _]|].
  destruct Hcase as [Hsw Hok]. pose proof Hsw as [W1 W2 W3 W4 W5 W6 W7 W8]. rewrite W1 in Hne.
  assert (Hg : a ∉ dead_met (tasks s) l).
  { intros Hx%walk_in. by destruct (so_ring _ _ _ _ _ _ _ Hs) as [_ [Hn _]%NoDup_cons]. }
  specialize (W3 a Hg). rewrite Hc in W3. simpl in W3. unfold after_switch in W3. fold a in W3.
  rewrite (proj2 (Z.eqb_neq a n)), Z.eqb_refl in W3 by done.
  apply fmap_Some in W3 as (u & Hu & Heq). apply unlinked_fields in Heq as (Hi & He & Hk & _).
  destruct (paused_fields c) as (_ & Hpk & _). cbn [t_esp set_t_esp kernel_stack_bottom t_id] in Hi, He, Hk.
  assert (Hhi : stack_hi syms boot_hi a u = stack_hi syms boot_hi a c).
  { unfold stack_hi. by rewrite <- Hk, Hpk. }
  pose proof (Hroom c Hc) as Hr. fold a in Hr.
  assert (Hui : t_id u = t_id c) by (rewrite <- Hi; unfold paused; by destruct (bool_decide _)).
  destruct (away_returns syms boot_lo boot_hi vfs_root Hlay a (t_id c)
    (resumed (SCHEDULE_RET syms) (s_cpu s)) (words s1) s1 s2 Haw _ _ _ u Hok) as [[R1 R2 R3]|[_ Hno]].
  - left. exists u. split; [|done]. split; try done; rewrite <- ?He.
    + by rewrite W1.
    + exact W5.
    + rewrite Hhi. unfold stack_lo in *. rewrite <- Hk, Hpk. lia.
  - split; [done|]. split; [done|]. intros x Hx. apply R3. rewrite <- He, Hhi. lia.
  - exfalso. by eapply Hno.
Qed.

(** C14. kill_task removes exactly the task with the number given, and answers that
    number: its Task object and its kernel stack go back to the heap, its user
    stack page and its page directory to the page allocator, and nothing else
    does: its File objects, its program's frames and its page tables stay
    allocated.  The other tasks keep everything but the link
    that pointed at it.  For 0, for the current task and for a number nobody
    has it answers -1 and changes nothing. *)
Theorem kill_task_correct P m s l pid :
  layout_ok syms boot_lo boot_hi -> ok P m s l -> 0 <= pid < 2147483648 ->
  (exists l1 a t l2 s', l = l1 ++ a :: l2 /\ tasks s !! a = Some t /\ t_id t = pid /\ pid <> 0 /\
     kill_task s pid = Some (pid, s') /\ removed s s' a /\
     ok (pages_left P t) (blocks_left m a t) s' (l1 ++ l2) /\
     (forall p, blocks_left m a t !! p = if decide (p ∈ blocks_of a t) then None else m !! p) /\
     (forall q, q ∈ pages_left P t <-> q ∈ P /\ q ∉ pages_of t)) \/
  (kill_task s pid = Some (-1, s) /\
   (pid = 0 \/ forall a t, a ∈ l -> tasks s !! a = Some t -> t_id t <> pid)).
Proof.
  intros Hlay Hs Hp. destruct (decide (pid = 0)) as [->|Hpid].
  { right. split; [apply kill_kernel|by left]. }
  destruct (kill_task_spec syms boot_lo boot_hi Hlay P m s l pid Hs Hpid) as
    [[Hk Hno]|(s' & Hk & l1 & a & t & l2 & -> & Ha & Hid & Hrm & Hok)].
  - right. split; [done|]. right. exact Hno.
  - left. exists l1, a, t, l2, s'. rewrite i32_small in Hk by lia.
    do 7 (split; [done|]). split; [apply blocks_left_lookup|apply pages_left_in].
Qed.

(** The timer interrupt makes READY exactly the sleeping tasks whose wake_tick
    is not after the current tick, and changes nothing else. *)
Theorem task_timer_tick_wakes P m s l now : ok P m s l ->
  exists s', task_timer_tick now s = Some s' /\ ok P m s' l /\
    (exists T, s' = set_tasks T s) /\
    forall a t, tasks s !! a = Some t ->
      tasks s' !! a = Some (if bool_decide (t_state t = TASK_SLEEPING) && (wake_tick t <=? now)
                            then set_t_state TASK_READY t else t).
Proof.
  intros Hs. destruct (task_timer_tick_spec syms boot_lo boot_hi P m s l now Hs) as [Heq Hok].
  eexists. split; [exact Heq|]. split; [done|]. split; [by eexists|]. intros a t Ha.
  cbn [tasks set_tasks]. by rewrite lookup_fmap, Ha.
Qed.

(** C12. create_task gives back 0 with the task list and the memory in use as they
    were, or the address of a new READY task behind the current one, with the
    next process number, the standard files, the current directory of its
    creator, and a frame from which switch_context starts [entry_point] with
    interrupts on and the return address of exit_task on the stack.  Only when
    the heap runs out on a File object is the outcome undefined. *)
Theorem create_task_correct P m s l entry_point :
  layout_ok syms boot_lo boot_hi -> ok P m s l -> next_pid s + 1 < 4294967296 ->
  let r := create_task syms vfs_root s entry_point in
  (exists s', r = Some (0, s') /\ tasks s' = tasks s /\ words s' = words s /\ ok P m s' l) \/
  (exists a s' t m' c, r = Some (a, s') /\ a <> 0 /\ created s s' a t /\ is_user t = false /\
    m ⊆ m' /\ ok P m' s' (a :: l) /\
    switch_load (t_esp t) (s_cpu s') (words s') = Some c /\
    r_eip c = entry_point /\ r_eflags c = 0x0202 /\ words s' !! r_esp c = Some (EXIT_TASK syms)) \/
  (r = None /\ files_short s).
Proof.
  intros Hlay Hs Hp. destruct (create_task_spec syms boot_lo boot_hi vfs_root Hlay P m s l entry_point Hs Hp)
    as [Hn|[(s' & Hr & e & -> & Hok)|(a & s' & t & m' & Hr & Ha & Hcr & Hu & _ & _ & Hf & Hex & [Hm _ _] & Hok)]].
  - by right; right.
  - left. eexists. by split.
  - right. left. exists a, s', t, m'. eexists. split; [exact Hr|]. do 5 (split; [done|]).
    split; [exact (switch_load_spec _ _ _ _ Hf)|]. by repeat split.
Qed.

(** C11. When the page directory of the new task can be made, create_user_task
    has three outcomes.  Without memory for a kernel stack, a stack page or a
    Task object it gives back 0 with everything it took returned; when the heap
    runs out on a File object the outcome is undefined, as for create_task; and
    otherwise it gives back the address of a new READY task behind the current
    one that owns a stack page and a page directory nobody else has, and
    switching to it runs the trampoline, whose iret enters ring 3 at
    [entry_point] with interrupts on and the stack at the top of user memory. *)
Theorem create_user_task_correct P m s l entry_point :
  layout_ok syms boot_lo boot_hi -> ok P m s l -> next_pid s + 1 < 4294967296 -> ~ no_directory s ->
  let r := create_user_task syms vfs_root s entry_point in
  (user_memory s = None /\
   exists s', r = Some (0, s') /\ tasks s' = tasks s /\ words s' = words s /\ ok P m s' l) \/
  (exists a s' t P' m' c, r = Some (a, s') /\ a <> 0 /\ created s s' a t /\ is_user t = true /\
    StackPage (user_stack_bottom t) ∉ P /\ Directory (t_cr3 t) ∉ P /\
    P ⊆ P' /\ m ⊆ m' /\ ok P' m' s' (a :: l) /\
    switch_load (t_esp t) (s_cpu s') (words s') = Some c /\ r_eip c = TRAMPOLINE syms /\
    iret c (words s') = Some (mk_user entry_point 0x1B 0x0202 USER_STACK_TOP 0x23)) \/
  (r = None /\ user_files_short s).
Proof.
  intros Hlay Hs Hp Hdir.
  destruct (create_user_task_spec syms boot_lo boot_hi vfs_root Hlay P m s l entry_point Hs Hp Hdir)
    as [(Hum & s' & Hr & e & -> & Hok)|[(a & s' & t & P' & m' & Hr & Ha & Hcr & [Hu [Hp1 Hp2] Hf Hi] & HP & [Hm _ _] & Hok)|?]].
  - left. split; [done|]. eexists. by split.
  - right. left. exists a, s', t, P', m'. eexists. split; [exact Hr|]. do 8 (split; [done|]).
    split; [exact (switch_load_spec _ _ _ _ Hf)|]. split; [done|]. by apply Hi.
  - by right; right.
Qed.
End Props.

(** ** On the small run *)
Import RamDisk Arena ArenaLoader.
#[local] Abbreviation demo_steps := (steps demo_syms BOOT_LO BOOT_HI slash).

Lemma demo1_tasks : exists k t, tasks demo1 !! KERNEL_TASK demo_syms = Some k /\
  tasks demo1 !! TASK1 = Some t /\ t_state t = TASK_READY /\ t_id t = 1 /\ t_id k = 0 /\
  kernel_stack_bottom k = 0.
Proof. eexists _, _. repeat split; vm_compute; reflexivity. Qed.
Lemma demo1_ready : in_state TASK_READY (tasks demo1) TASK1 = true.
Proof. vm_compute. reflexivity. Qed.

Lemma schedule_round_robin_witness : exists s', schedule demo_syms demo1 = Some s' /\
  current_task s' = TASK1.
Proof.
  destruct demo1_ok as [m Hok].
  destruct (schedule_round_robin demo_syms BOOT_LO BOOT_HI ∅ m demo1 [TASK1] demo_layout Hok demo1_room)
    as [Hready _].
  destruct (Hready [] TASK1 [] eq_refl demo1_ready (Forall_nil_2 _)) as (s' & Hsch & Hsw & _).
  exists s'. split; [exact Hsch|apply Hsw].
Defined.

(** The first task runs, and one timer tick later yields. *)
Definition demo2 : sched Arena.t := default nowhere (schedule demo_syms demo1).
Lemma demo2_eq : schedule demo_syms demo1 = Some demo2.
Proof. vm_compute. reflexivity. Qed.
Lemma demo_run : demo_steps demo0 [Create (KernelTask 0x600); Yield] demo2.
Proof.
  eapply steps_cons; [eapply step_create, creates_kernel; [by vm_compute|exact demo1_eq]|].
  eapply steps_cons; [apply step_yield; [exact demo1_room|exact demo2_eq]|apply steps_nil].
Qed.

(** A user task, made by the kernel's. *)
Definition demo_user : sched Arena.t :=
  default nowhere (snd <$> create_user_task demo_syms slash demo0 USER_CODE_START).
Lemma demo_user_eq : create_user_task demo_syms slash demo0 USER_CODE_START = Some (TASK1, demo_user).
Proof. vm_compute. reflexivity. Qed.
Lemma demo_directory : ~ no_directory demo0.
Proof.
  intros (st & us & a & e & Hm & Hd).
  assert (exists e', user_memory demo0 = Some (0x80CC, 0x2000, TASK1, e') /\ vmm_create_op e' <> None /\
    forall e2, vmm_create_op e' <> Some (0, e2)) as (e' & Heq & Hn1 & Hn2).
  { eexists. split; [vm_compute; reflexivity|]. split; by vm_compute. }
  rewrite Hm in Heq. assert (e = e') as -> by congruence. destruct Hd as [Hd|[e2 Hd]]; [by apply Hn1|].
  by apply (Hn2 e2).
Qed.

Lemma demo_user_run : demo_steps demo0 [Create (UserTask USER_CODE_START)] demo_user.
Proof.
  eapply steps_cons; [|apply steps_nil]. eapply step_create, creates_user; [by vm_compute|exact demo_directory|exact demo_user_eq].
Qed.

Lemma scheduler_invariant_witness : exists P m l t, sched_ok demo_syms BOOT_LO BOOT_HI P m demo_user l /\
  tasks demo_user !! TASK1 = Some t /\ is_user t = true /\ Directory (t_cr3 t) ∈ P /\ StackPage (user_stack_bottom t) ∈ P /\
  is_Some (kill_task demo_user 1).
Proof.
  destruct (scheduler_invariant demo_syms BOOT_LO BOOT_HI slash blank [] gdt_boot boot_cpu ∅
    arena0 ∅ demo0 [Create (UserTask USER_CODE_START)] demo_user demo_layout arena0_holds eq_refl demo0_eq demo_user_run)
    as ((P & m & l & Hok) & _ & _ & Hk).
  assert (exists t, tasks demo_user !! TASK1 = Some t /\ is_user t = true) as (t & Ht & Hu)
    by (eexists; split; vm_compute; reflexivity).
  pose proof (to_pages _ _ _ _ _ (so_owns _ _ _ _ _ _ _ _ _ Hok Ht ltac:(done))) as Hp.
  unfold pages_of in Hp. rewrite Hu in Hp. apply Forall_cons in Hp as [Hp1 Hp]. apply Forall_cons in Hp as [Hp2 _].
  exists P, m, l, t. exact (conj Hok (conj Ht (conj Hu (conj Hp2 (conj Hp1 (Hk 1)))))).
Defined.

Lemma ready_task_runs_witness : exists es1 es2 s1, [Yield] = es1 ++ es2 /\ demo_steps demo1 es1 s1 /\
  demo_steps s1 es2 demo2 /\ current_task s1 = TASK1.
Proof.
  destruct demo1_ok as [m Hok]. destruct demo1_tasks as (k & t & Hk & Ht & Hst & Hid & _).
  apply (ready_task_runs demo_syms BOOT_LO BOOT_HI slash ∅ m demo1 [TASK1] TASK1 t [Yield] demo2 demo_layout Hok).
  - by left.
  - exact Ht.
  - exact Hst.
  - eapply steps_cons; [apply step_yield; [exact demo1_room|exact demo2_eq]|apply steps_nil].
  - by constructor.
  - by vm_compute.
Defined.

(** The task calls schedule at once, and the kernel's task is back. *)
Definition demo3 : sched Arena.t := default nowhere (schedule demo_syms demo2).
Lemma demo3_eq : schedule demo_syms demo2 = Some demo3.
Proof. vm_compute. reflexivity. Qed.
(** What the task has pushed by then. *)
Definition busy : sched Arena.t := mk_sched (tasks demo2) (files demo2) (words demo2) (current_task demo2)
  (next_pid demo2) (s_gdt demo2) (mk_cpu 0x600 0x8480 0x0202 (mk_gprs 9 9 9 9 9 9 9)) (env demo2).
Definition demo4 : sched Arena.t := default nowhere (schedule demo_syms busy).
Lemma demo4_eq : schedule demo_syms busy = Some demo4.
Proof. vm_compute. reflexivity. Qed.
Lemma busy_room : has_room demo_syms BOOT_LO BOOT_HI busy.
Proof. intros t Ht. vm_compute in Ht. injection Ht as <-. by vm_compute. Qed.

Lemma busy_computes : computes demo_syms BOOT_LO BOOT_HI demo2 busy.
Proof.
  unfold busy. generalize demo2. intros s.
  split; cbn [tasks files words current_task next_pid s_gdt s_cpu env]; try reflexivity.
  intros P act m' Hh. by exists m'.
Qed.

Lemma task_resumes_witness : r_esp (s_cpu demo1) = 0x3000 /\
  s_cpu demo4 = resumed (SCHEDULE_RET demo_syms) (s_cpu demo1).
Proof.
  split; [reflexivity|]. destruct demo1_ok as [m Hok].
  destruct demo1_tasks as (k & t & Hk & Ht & Hst & Hid & Hk0 & _).
  assert (exists k4, tasks demo4 !! KERNEL_TASK demo_syms = Some k4 /\ t_id k4 = 0) as (k4 & Hk4 & Hk40).
  { eexists. split; vm_compute; reflexivity. }
  apply (task_resumes demo_syms BOOT_LO BOOT_HI slash ∅ m demo1 [TASK1] demo2 demo4 k k4 demo_layout Hok
    demo1_room Hk demo2_eq).
  - by vm_compute.
  - eapply away_more; [apply (step_run _ _ _ _ _ busy)|by vm_compute|].
    + apply busy_computes.
    + eapply away_back; [apply step_yield; [exact busy_room|exact demo4_eq]|reflexivity].
  - exact Hk4.
  - congruence.
Defined.

Lemma kill_task_correct_witness : exists s', kill_task demo1 1 = Some (1, s').
Proof.
  destruct demo1_ok as [m Hok]. destruct demo1_tasks as (k & t & Hk & Ht & Hst & Hid & _).
  destruct (kill_task_correct demo_syms BOOT_LO BOOT_HI ∅ m demo1 [TASK1] 1 demo_layout Hok) as
    [(l1 & a & u & l2 & s' & _ & _ & _ & _ & Hkill & _)|[_ [Hx|Hno]]].
  - by split.
  - by exists s'.
  - done.
  - exfalso. apply (Hno TASK1 t); [by left|exact Ht|exact Hid].
Defined.

Lemma task_timer_tick_wakes_witness : exists s' t, task_timer_tick 5 demo1 = Some s' /\
  tasks s' !! TASK1 = Some t /\ t_state t = TASK_READY.
Proof.
  destruct demo1_ok as [m Hok]. destruct demo1_tasks as (k & t & Hk & Ht & Hst & _).
  destruct (task_timer_tick_wakes demo_syms BOOT_LO BOOT_HI ∅ m demo1 [TASK1] 5 Hok) as
    (s' & Heq & _ & _ & Hall).
  exists s', t. split; [exact Heq|]. specialize (Hall TASK1 t Ht). rewrite Hst in Hall. by split.
Defined.

Lemma create_task_correct_witness : exists a s' c t, create_task demo_syms slash demo0 0x600 = Some (a, s') /\
  switch_load (t_esp t) (s_cpu s') (words s') = Some c /\ r_eip c = 0x600.
Proof.
  destruct demo0_ok as [m Hok].
  destruct (create_task_correct demo_syms BOOT_LO BOOT_HI slash ∅ m demo0 [] 0x600 demo_layout Hok) as
    [(s' & Hr & _)|[(a & s' & t & m' & c & Hr & _ & _ & _ & _ & _ & Hl & He & _)|[Hr _]]].
  - by vm_compute.
  - by rewrite demo1_eq in Hr.
  - exists a, s', c, t. by split.
  - by rewrite demo1_eq in Hr.
Defined.

Lemma create_user_task_correct_witness : exists a s' c,
  create_user_task demo_syms slash demo0 USER_CODE_START = Some (a, s') /\
  iret c (words s') = Some (mk_user USER_CODE_START 0x1B 0x0202 USER_STACK_TOP 0x23).
Proof.
  destruct demo0_ok as [m Hok].
  destruct (create_user_task_correct demo_syms BOOT_LO BOOT_HI slash ∅ m demo0 [] USER_CODE_START
    demo_layout Hok) as
    [(_ & s' & Hr & _)|[(a & s' & t & P' & m' & c & Hr & _ & _ & _ & _ & _ & _ & _ & _ & _ & _ & Hi)|[Hr _]]].
  - by vm_compute.
  - exact demo_directory.
  - by rewrite demo_user_eq in Hr.
  - by exists a, s', c.
  - by rewrite demo_user_eq in Hr.
Defined.
