(* ===== verification/Syscall.v ===== *)
(** * arch/x86/syscall.cpp: the system calls

    The handler works on the struct [Registers], on the scheduler's state, on
    the devices behind open files and on the memory of the caller: [mem] maps
    the addresses of the memory that is the caller's own (the user pages of its
    directory, or the kernel's data for a task of the kernel) to their bytes.
    A pointer argument stands for the bytes from that address to the end of the
    mapped run.  The kernel checks no pointer: a store through one that reaches
    a Task, an open File or the kernel stack of another task, or a block header
    or a page table, would change what the kernel works on.  The model does not
    follow it there: [mem] holds no headers and no page tables, and a store into
    one of the other objects, like one outside [mem], is undefined ([own],
    [kernel_object]).  [junk] and [temp] are what the stack
    holds where the path code has uninitialised locals. *)
From S2P Require Import Prelude CString Allocator Memory BlockDev DiskLayout SimpleFs Vfs File.
From S2P Require Import PortIo Pic Keyboard Vga Gdt Timer Cpu Task Registers UserMem.

Definition SYS_EXIT : Z := 1.
Definition SYS_SLEEP : Z := 2.
Definition SYS_YIELD : Z := 3.
Definition SYS_GETTICK : Z := 4.
Definition SYS_READ : Z := 10.
Definition SYS_WRITE : Z := 11.
Definition SYS_OPEN : Z := 12.
Definition SYS_CLOSE : Z := 13.
Definition SYS_GETCWD : Z := 20.
Definition SYS_CHDIR : Z := 21.

Definition set_fd_table x t := mk_task (t_id t) (t_esp t) (kernel_stack_bottom t) (user_stack_bottom t)
  (kernel_stack_top t) (t_cr3 t) (is_user t) (t_state t) (wake_tick t) (t_next t) x (cwd t).
Definition set_cwd x t := mk_task (t_id t) (t_esp t) (kernel_stack_bottom t) (user_stack_bottom t)
  (kernel_stack_top t) (t_cr3 t) (is_user t) (t_state t) (wake_tick t) (t_next t) (fd_table t) x.

(** The kernel as the handler sees it. *)
Record kernel (E W D : Type) := mk_kernel { k_sched : sched E; k_io : io W D; k_ticks : Z }.
Arguments mk_kernel {E W D} _ _ _.
Arguments k_sched {E W D} _.
Arguments k_io {E W D} _.
Arguments k_ticks {E W D} _.

(** How a call ends: back in the caller; in the loop of task_sleep, to return
    with the registers unchanged; behind a [schedule()], the same; or in the
    endless loop of exit_task. *)
Inductive outcome (E W D : Type) :=
  | Done (r : Registers) (mem : memory_map) (k : kernel E W D)
  | Sleeps (r : Registers) (mem : memory_map) (k : kernel E W D)
  | Yields (r : Registers) (mem : memory_map) (k : kernel E W D)
  | Exits (k : kernel E W D).
Arguments Done {E W D} _ _ _.
Arguments Sleeps {E W D} _ _ _.
Arguments Yields {E W D} _ _ _.
Arguments Exits {E W D} _.

Section Syscall.
Context {E W D : Type} `{Memory E} `{Ports W} `{BlockDevice D}.
Context (syms : symbols) (vfs_root : vfs_node) (junk : list Z) (temp : vfs_node).
Implicit Types (k : kernel E W D) (s : sched E) (r : Registers) (mem : memory_map).

Definition set_k_sched s k : kernel E W D := mk_kernel s (k_io k) (k_ticks k).
Definition set_k_io w k : kernel E W D := mk_kernel (k_sched k) w (k_ticks k).
Definition set_files F s : sched E :=
  mk_sched (tasks s) F (words s) (current_task s) (next_pid s) (s_gdt s) (s_cpu s) (env s).
(** [regs->eax = x; break;] *)
Definition result (x : Z) r mem k : option (outcome E W D) := Some (Done (set_eax (u32 x) r) mem k).

(** The checks on a descriptor: [None] inside is a refusal, otherwise the
    address of the File and the File. *)
Definition get_file s (fd : Z) : option (option (Z * File)) :=
  if (fd <? 0) || (MAX_FD <=? fd) then Some None else
  t ← tasks s !! current_task s;
  p ← zget (fd_table t) fd;
  if p =? 0 then Some None else f ← files s !! p; Some (Some (p, f)).

(** The kernel's objects at addresses: the Task objects, the Files in their
    descriptors, and the kernel stacks, but that of a kernel task that runs. *)
Definition within (base size a : Z) : bool := (base <=? a) && (a <? base + size).
Definition kernel_object s (a : Z) : bool :=
  existsb (fun '(b, t) =>
      within b SIZEOF_TASK a
      || existsb (fun p => negb (p =? 0) && within p SIZEOF_FILE a) (fd_table t)
      || (is_user t || negb (b =? current_task s)) && within (kernel_stack_bottom t) TASK_STACK_SIZE a)
    (map_to_list (tasks s)).
(** The bytes a system call may store to. *)
Definition own s mem : memory_map := filter (fun ab => kernel_object s ab.1 = false) mem.

Definition sys_read_case r mem k : option (outcome E W D) :=
  let fd := i32 (rg_ebx r) in
  let buf := rg_ecx r in
  let count := rg_edx r in
  file ← get_file (k_sched k) fd;
  match file with
  | None => result (-1) r mem k
  | Some (p, f) =>
      x ← file_read (k_io k) f (object (own (k_sched k) mem) buf) count;
      match x with
      | None => result (-1) r mem k
      | Some (n, bytes, f, w) =>
          let s := set_files (<[p := f]> (files (k_sched k))) (k_sched k) in
          result n r (put_bytes mem buf bytes) (set_k_io w (set_k_sched s k))
      end
  end.
Definition sys_write_case r mem k : option (outcome E W D) :=
  let fd := i32 (rg_ebx r) in
  let buf := rg_ecx r in
  let count := rg_edx r in
  file ← get_file (k_sched k) fd;
  match file with
  | None => result (-1) r mem k
  | Some (p, f) =>
      x ← file_write (k_io k) f (object mem buf) count;
      match x with
      | None => result (-1) r mem k
      | Some (n, f, w) =>
          let s := set_files (<[p := f]> (files (k_sched k))) (k_sched k) in
          result n r mem (set_k_io w (set_k_sched s k))
      end
  end.

(** [for (i < MAX_FD) if (!fd_table[i])]: the first empty slot. *)
Fixpoint free_slot (n : nat) (fds : list Z) (i : Z) : option (option Z) :=
  match n with
  | O => Some None
  | S n' => p ← zget fds i; if p =? 0 then Some (Some i) else free_slot n' fds (i + 1)
  end.

(** A path argument. *)
Definition path_at mem (p : Z) : option (list Z) := if p =? 0 then None else Some (object mem p).

Definition sys_open_case r mem k : option (outcome E W D) :=
  let s := k_sched k in
  cur ← tasks s !! current_task s;
  node ← vfs_resolve_path (dev (io_fs (k_io k))) vfs_root (cwd cur) junk (path_at mem (rg_ebx r));
  match node with
  | None => result (-1) r mem k
  | Some node =>
      '(file, e, F) ← create_vfs_file (env s) (files s) node;
      (* [create_vfs_file] has stored through [file] by now: it is not null *)
      let s := set_files F (set_env e s) in
      assigned_fd ← free_slot (Z.to_nat MAX_FD) (fd_table cur) 0;
      match assigned_fd with
      | None =>
          e ← kfree_op e file;
          result (-1) r mem (set_k_sched (set_files (delete file F) (set_env e s)) k)
      | Some i =>
          fds ← zset (fd_table cur) i file;
          T ← poke_task (tasks s) (current_task s) (set_fd_table fds);
          result i r mem (set_k_sched (set_tasks T s) k)
      end
  end.

Definition sys_close_case r mem k : option (outcome E W D) :=
  let s := k_sched k in
  let fd := i32 (rg_ebx r) in
  file ← get_file s fd;
  match file with
  | None => result (-1) r mem k
  | Some (p, f) =>
      s ← match file_close f with
          | Some (_, f) => Some (set_files (<[p := f]> (files s)) s)
          | None => e ← kfree_op (env s) p; Some (set_files (delete p (files s)) (set_env e s))
          end;
      cur ← tasks s !! current_task s;
      fds ← zset (fd_table cur) fd 0;
      T ← poke_task (tasks s) (current_task s) (set_fd_table fds);
      result 0 r mem (set_k_sched (set_tasks T s) k)
  end.

Definition sys_getcwd_case r mem k : option (outcome E W D) :=
  let s := k_sched k in
  let buf := rg_ebx r in
  let size := rg_ecx r in
  if (buf =? 0) || (size =? 0) then result (-1) r mem k else
  cur ← tasks s !! current_task s;
  '(len, bytes) ← vfs_getcwd (dev (io_fs (k_io k))) (cwd cur) temp (object (own s mem) buf) size;
  result (if len <? 0 then -1 else len) r (put_bytes mem buf bytes) k.

Definition sys_chdir_case r mem k : option (outcome E W D) :=
  let s := k_sched k in
  cur ← tasks s !! current_task s;
  '(ret, cwd') ← vfs_cd (dev (io_fs (k_io k))) vfs_root (cwd cur) junk (path_at mem (rg_ebx r));
  T ← poke_task (tasks s) (current_task s) (set_cwd cwd');
  result ret r mem (set_k_sched (set_tasks T s) k).

Definition syscall_handler r mem k : option (outcome E W D) :=
  let s := k_sched k in
  let n := rg_eax r in
  if n =? SYS_EXIT then
    s ← exit_task_start s; s ← schedule syms s; Some (Exits (set_k_sched s k))
  else if n =? SYS_SLEEP then
    s ← task_sleep_start (k_ticks k) s (rg_ebx r); Some (Sleeps r mem (set_k_sched s k))
  else if n =? SYS_YIELD then
    s ← schedule syms s; Some (Yields r mem (set_k_sched s k))
  else if n =? SYS_GETTICK then result (get_tick (k_ticks k)) r mem k
  else if n =? SYS_READ then sys_read_case r mem k
  else if n =? SYS_WRITE then sys_write_case r mem k
  else if n =? SYS_OPEN then sys_open_case r mem k
  else if n =? SYS_CLOSE then sys_close_case r mem k
  else if n =? SYS_GETCWD then sys_getcwd_case r mem k
  else if n =? SYS_CHDIR then sys_chdir_case r mem k
  else Some (Done r mem k).

(** ** The wrappers: [int $0x80] with the arguments in registers *)
(** The registers an inline assembly statement sets. *)
Definition set_args (a b c d : Z) r : Registers :=
  mk_registers (rg_gs r) (rg_fs r) (rg_es r) (rg_ds r) (rg_edi r) (rg_esi r) (rg_ebp r) (rg_esp r)
    b d c a (rg_eip r) (rg_cs r) (rg_eflags r).
Definition sys_exit r mem k :=
  syscall_handler (set_args SYS_EXIT (rg_ebx r) (rg_ecx r) (rg_edx r) r) mem k.
Definition sys_sleep (delay_ticks : Z) r mem k :=
  syscall_handler (set_args SYS_SLEEP delay_ticks (rg_ecx r) (rg_edx r) r) mem k.
Definition sys_yield r mem k :=
  syscall_handler (set_args SYS_YIELD (rg_ebx r) (rg_ecx r) (rg_edx r) r) mem k.

(** A wrapper that answers EAX. *)
Definition returned (o : outcome E W D) : option (Z * memory_map * kernel E W D) :=
  match o with Done r mem k => Some (rg_eax r, mem, k) | _ => None end.
Definition call (a b c d : Z) r mem k : option (Z * memory_map * kernel E W D) :=
  o ← syscall_handler (set_args a b c d r) mem k; returned o.
Definition as_int (x : option (Z * memory_map * kernel E W D)) :=
  '(n, mem, k) ← x; Some (i32 n, mem, k).
Definition sys_get_tick r mem k := call SYS_GETTICK (rg_ebx r) (rg_ecx r) (rg_edx r) r mem k.
Definition sys_read (fd buf count : Z) r mem k := as_int (call SYS_READ (u32 fd) buf count r mem k).
Definition sys_write (fd buf count : Z) r mem k := as_int (call SYS_WRITE (u32 fd) buf count r mem k).
Definition sys_open (path : Z) r mem k := as_int (call SYS_OPEN path (rg_ecx r) (rg_edx r) r mem k).
Definition sys_close (fd : Z) r mem k := as_int (call SYS_CLOSE (u32 fd) (rg_ecx r) (rg_edx r) r mem k).
Definition sys_getcwd (buf size : Z) r mem k := as_int (call SYS_GETCWD buf size (rg_edx r) r mem k).
Definition sys_chdir (path : Z) r mem k := as_int (call SYS_CHDIR path (rg_ecx r) (rg_edx r) r mem k).
End Syscall.
