(* ===== verification/SyscallInv.v ===== *)
(** * The descriptor tables

    [fds_ok]: every open descriptor of every task is a File of its own that the
    heap holds apart from the tasks.  Together with the scheduler's invariant
    it is kept by what the system calls do. *)
From S2P Require Import Prelude CString Allocator Memory BlockDev DiskLayout SimpleFs Vfs File.
From S2P Require Import PortIo Pic Keyboard Vga Gdt Timer Cpu Task TaskRing TaskInv TaskSched TaskSwitch TaskPick.
From S2P Require Import TaskSchedule TaskOps Registers Syscall.

(** A task without its descriptors and its directory. *)
Definition bare (t : Task) : Task := set_fd_table [] (set_cwd zero_node t).
Lemma bare_fields t u : bare t = bare u ->
  t_id t = t_id u /\ t_esp t = t_esp u /\ kernel_stack_bottom t = kernel_stack_bottom u /\
  user_stack_bottom t = user_stack_bottom u /\ kernel_stack_top t = kernel_stack_top u /\
  t_cr3 t = t_cr3 u /\ is_user t = is_user u /\ t_state t = t_state u /\ wake_tick t = wake_tick u /\
  t_next t = t_next u.
Proof. destruct t, u. unfold bare, set_fd_table, set_cwd. cbn. intros [=]. by subst. Qed.

Lemma bare_fd x t : bare (set_fd_table x t) = bare t.
Proof. reflexivity. Qed.
Lemma bare_cwd x t : bare (set_cwd x t) = bare t.
Proof. reflexivity. Qed.

Record fds_ok (K : Z) (T : gmap Z Task) (F : gmap Z File) (m : gmap Z Z) : Prop := {
  fo_len : forall a t, T !! a = Some t -> length (fd_table t) = 16%nat;
  fo_open : forall a t p, T !! a = Some t -> p ∈ fd_table t -> p <> 0 ->
    is_Some (F !! p) /\ is_Some (m !! p);
  fo_apart : forall a t p b u, T !! a = Some t -> p ∈ fd_table t -> p <> 0 ->
    T !! b = Some u -> b <> K -> p ∉ blocks_of b u;
  fo_once : forall a b t u i j p, T !! a = Some t -> T !! b = Some u ->
    fd_table t !! i = Some p -> fd_table u !! j = Some p -> p <> 0 -> a = b /\ i = j;
}.

Section Fds.
Context (K : Z).
Implicit Types (T : gmap Z Task) (F : gmap Z File) (m : gmap Z Z).

(** The tasks that stay keep their descriptors, and the heap their Files. *)
Lemma fds_frame T T' F F' m m' : fds_ok K T F m ->
  (forall a t', T' !! a = Some t' -> exists t, T !! a = Some t /\ fd_table t' = fd_table t /\
     kernel_stack_bottom t' = kernel_stack_bottom t) ->
  (forall a t p, is_Some (T' !! a) -> T !! a = Some t -> p ∈ fd_table t -> p <> 0 ->
     is_Some (F !! p) -> is_Some (F' !! p)) ->
  (forall a t p, is_Some (T' !! a) -> T !! a = Some t -> p ∈ fd_table t -> p <> 0 ->
     is_Some (m !! p) -> is_Some (m' !! p)) ->
  fds_ok K T' F' m'.
Proof.
  intros [H1 H2 H3 H4] HT HF Hm. split.
  - intros a t' Ha. destruct (HT a t' Ha) as (t & Ht & -> & _). by eapply H1.
  - intros a t' p Ha Hp Hz. destruct (HT a t' Ha) as (t & Ht & Heq & _). rewrite Heq in Hp.
    destruct (H2 a t p Ht Hp Hz). split; [eapply HF|eapply Hm]; try done; by eexists.
  - intros a t' p b u' Ha Hp Hz Hb HbK. destruct (HT a t' Ha) as (t & Ht & Heq & _).
    destruct (HT b u' Hb) as (u & Hu & _ & Heq'). rewrite Heq in Hp. unfold blocks_of. rewrite Heq'.
    exact (H3 a t p b u Ht Hp Hz Hu HbK).
  - intros a b t' u' i j p Ha Hb. destruct (HT a t' Ha) as (t & Ht & -> & _).
    destruct (HT b u' Hb) as (u & Hu & -> & _). by apply H4.
Qed.

(** One task gets a new table. *)
Lemma fds_update T F F' m m' a t fds : fds_ok K T F m -> T !! a = Some t -> length fds = 16%nat ->
  (forall i p, fds !! i = Some p -> p <> 0 ->
     fd_table t !! i = Some p \/
     m !! p = None /\ is_Some (F' !! p) /\ is_Some (m' !! p) /\
     (forall j, fds !! j = Some p -> j = i) /\
     forall b u, T !! b = Some u -> b <> K -> p ∉ blocks_of b u) ->
  (forall b u p, T !! b = Some u -> p ∈ fd_table u -> p <> 0 ->
     (b = a -> p ∈ fds) -> is_Some (F' !! p) /\ is_Some (m' !! p)) ->
  fds_ok K (<[a := set_fd_table fds t]> T) F' m'.
Proof.
  intros [H1 H2 H3 H4] Ht Hl Hfds Hrest.
  set (T' := <[a := set_fd_table fds t]> T).
  (* where an entry of the new state comes from *)
  assert (Hcase : forall b u i p, T' !! b = Some u -> fd_table u !! i = Some p -> p <> 0 ->
    (exists v, T !! b = Some v /\ fd_table v !! i = Some p /\ (b = a -> p ∈ fds)) \/
    b = a /\ fds !! i = Some p /\ m !! p = None /\ is_Some (F' !! p) /\ is_Some (m' !! p) /\
    (forall j, fds !! j = Some p -> j = i) /\ forall c w, T !! c = Some w -> c <> K -> p ∉ blocks_of c w).
  { intros b u i p [[<- <-]|[Hne Hb]]%lookup_insert_Some Hi Hz.
    - cbn [fd_table set_fd_table] in Hi. destruct (Hfds i p Hi Hz) as [?|?]; [|by right].
      left. exists t. split; [done|]. split; [done|]. intros _. by eapply list_elem_of_lookup_2.
    - left. exists u. split; [done|]. split; [done|]. by intros ->. }
  assert (Hblocks : forall b u, T' !! b = Some u -> exists v, T !! b = Some v /\ blocks_of b u = blocks_of b v).
  { intros b u [[<- <-]|[Hne Hb]]%lookup_insert_Some; [by exists t|by exists u]. }
  split.
  - intros b u [[<- <-]|[_ Hb]]%lookup_insert_Some; [done|by eapply H1].
  - intros b u p Hb [i Hi]%list_elem_of_lookup Hz.
    destruct (Hcase b u i p Hb Hi Hz) as [(v & Hv & Hvi & Hin)|(_ & _ & _ & ? & ? & _)]; [|done].
    apply (Hrest b v p Hv); try done. by eapply list_elem_of_lookup_2.
  - intros b u p c w Hb [i Hi]%list_elem_of_lookup Hz Hc HcK. destruct (Hblocks c w Hc) as (x & Hx & ->).
    destruct (Hcase b u i p Hb Hi Hz) as [(v & Hv & Hvi & _)|(_ & _ & _ & _ & _ & _ & Hn)]; [|by apply Hn].
    eapply H3; [exact Hv| |done|exact Hx|done]. by eapply list_elem_of_lookup_2.
  - intros b c u w i j p Hb Hc Hi Hj Hz.
    destruct (Hcase b u i p Hb Hi Hz) as [(v & Hv & Hvi & _)|(-> & Hfi & Hmn & _ & _ & Hone & _)];
      destruct (Hcase c w j p Hc Hj Hz) as [(x & Hx & Hxj & _)|(-> & Hfj & Hmn' & _ & _ & Hone' & _)].
    + by eapply H4.
    + exfalso. destruct (H2 b v p Hv) as [_ [? ?]]; [by eapply list_elem_of_lookup_2|done|congruence].
    + exfalso. destruct (H2 c x p Hx) as [_ [? ?]]; [by eapply list_elem_of_lookup_2|done|congruence].
    + split; [done|]. by apply Hone'.
Qed.
End Fds.

(** ** The memory a call stores to *)
Lemma own_mem {E} (s : sched E) mem : own s mem ⊆ mem.
Proof. apply map_filter_subseteq. Qed.
Lemma own_lookup {E} (s : sched E) mem a b :
  own s mem !! a = Some b <-> mem !! a = Some b /\ kernel_object s a = false.
Proof. unfold own. by rewrite map_lookup_filter_Some. Qed.
Lemma own_all {E} (s : sched E) mem : (forall a, is_Some (mem !! a) -> kernel_object s a = false) -> own s mem = mem.
Proof.
  intros Ha. apply map_filter_id. intros a b Hb. apply Ha. by exists b.
Qed.

Section Kernel.
Context {E : Type} `{MemoryOk E} (syms : symbols) (boot_lo boot_hi : Z).
Implicit Types (s : sched E).
#[local] Abbreviation ok := (sched_ok syms boot_lo boot_hi).
#[local] Abbreviation K := (KERNEL_TASK syms).

Record kernel_ok P m s l : Prop := {
  ko_sched : ok P m s l;
  ko_fds : fds_ok K (tasks s) (files s) m;
}.

Lemma lookup_insert_bare (T : gmap Z Task) a c c' b t' : T !! a = Some c -> bare c' = bare c ->
  <[a := c']> T !! b = Some t' -> exists t, T !! b = Some t /\ bare t' = bare t.
Proof. intros Ha Hb [[<- <-]|[_ Hx]]%lookup_insert_Some; [by exists c|by exists t']. Qed.

(** What a system call does to the scheduler's state: the descriptors and the
    directory of its caller, and the heap apart from the tasks' blocks. *)
Lemma ok_caller P m m' s l c c' e F : ok P m s l -> tasks s !! current_task s = Some c ->
  bare c' = bare c -> holds P (t_cr3 c) e m' ->
  (forall a t p, tasks s !! a = Some t -> a <> K -> p ∈ blocks_of a t -> m' !! p = m !! p) ->
  ok P m' (mk_sched (<[current_task s := c']> (tasks s)) F (words s) (current_task s) (next_pid s)
             (s_gdt s) (s_cpu s) e) l.
Proof.
  intros Hs Hc Hb Hh Hm.
  assert (Hback : forall b t', <[current_task s := c']> (tasks s) !! b = Some t' ->
    exists t, tasks s !! b = Some t /\ bare t' = bare t) by (intros b t'; by apply (lookup_insert_bare _ _ c)).
  assert (Hcore : forall b x, (core <$> <[current_task s := c']> (tasks s)) !! b = Some x ->
    exists t, tasks s !! b = Some t /\ bare x = bare (core t)).
  { intros b x. rewrite lookup_fmap. intros (t' & Ht' & ->)%fmap_Some. destruct (Hback b t' Ht') as (t & Ht & Hbt).
    exists t. split; [done|]. destruct t, t'. unfold bare, set_fd_table, set_cwd, core in *. cbn in *.
    injection Hbt. intros. by subst. }
  pose proof (so_owned _ _ _ _ _ _ _ Hs) as [(k & Hk & Hk') Oi Or On Ot Os].
  assert (Hlift : forall b t, tasks s !! b = Some t -> (core <$> tasks s) !! b = Some (core t)).
  { intros b t Ht. by rewrite lookup_fmap, Ht. }
  split; cbn [tasks current_task next_pid words s_gdt env].
  - destruct (so_ring _ _ _ _ _ _ _ Hs) as [Hl Hn]. split; [|done]. eapply lseg_frame; [|exact Hl].
    intros a _. rewrite lookup_insert. case_decide as Ha; [|done]. subst. rewrite Hc. simpl. f_equal.
    by apply bare_fields in Hb as (_ & _ & _ & _ & _ & _ & _ & _ & _ & ?).
  - intros a. rewrite lookup_insert_is_Some, <- (so_dom _ _ _ _ _ _ _ Hs). split; [|by destruct (decide (current_task s = a)); auto].
    intros [<-|[_ ?]]; [by eexists|done].
  - split.
    + rewrite lookup_fmap in Hk. apply fmap_Some in Hk as (t & Ht & ->).
      rewrite lookup_fmap, lookup_insert. case_decide as Ha; [|rewrite Ht; by eexists].
      rewrite <- Ha, Hc in Ht. injection Ht as <-. exists (core c'). split; [done|].
      apply bare_fields in Hb as (? & _ & _ & _ & _ & ? & ? & _). cbn in *. intuition congruence.
    + intros a b x y (t & Ht & Hx)%Hcore (u & Hu & Hy)%Hcore Hid.
      apply (Oi a b (core t) (core u)); try by apply Hlift.
      apply bare_fields in Hx as [Hx _], Hy as [Hy _]. congruence.
    + intros a x (t & Ht & Hx)%Hcore. apply bare_fields in Hx as [-> _]. eapply Or. by apply Hlift.
    + rewrite lookup_fmap, lookup_insert_ne; [by rewrite <- lookup_fmap|]. by eapply so_null.
    + intros a x (t & Ht & Hx)%Hcore HaK. destruct (Ot a (core t) (Hlift a t Ht) HaK) as [O1 O2 O3 O4 O5 O6].
      apply bare_fields in Hx as (_ & _ & Hx1 & Hx2 & Hx3 & Hx4 & Hx5 & _).
      assert (Hmm : forall p, p ∈ blocks_of a t -> m' !! p = m !! p) by (intros p; by apply (Hm a t)).
      unfold blocks_of in Hmm. split; rewrite ?Hx1, ?Hx3, ?Hx4, ?Hx5; try done.
      * rewrite Hmm by set_solver. done.
      * cbn [core kernel_stack_bottom] in *. rewrite Hmm by set_solver. done.
      * unfold pages_of in *. by rewrite Hx5, Hx2, Hx4.
    + intros a b x y (t & Ht & Hx)%Hcore (u & Hu & Hy)%Hcore HaK HbK Hab.
      destruct (Os a b (core t) (core u) (Hlift a t Ht) (Hlift b u Hu) HaK HbK Hab) as [S1 S2].
      apply bare_fields in Hx as (_ & _ & Hx1 & Hx2 & _ & Hx4 & Hx5 & _).
      apply bare_fields in Hy as (_ & _ & Hy1 & Hy2 & _ & Hy4 & Hy5 & _).
      unfold blocks_of, pages_of in *. by rewrite Hx1, Hx2, Hx4, Hx5, Hy1, Hy2, Hy4, Hy5.
  - intros a t' (t & Ht & Hbt)%Hback Hr. apply (so_running _ _ _ _ _ _ _ Hs a t Ht).
    apply bare_fields in Hbt as (_ & _ & _ & _ & _ & _ & _ & <- & _). done.
  - exists c'. rewrite lookup_insert_eq. split; [done|]. by apply bare_fields in Hb as (_ & _ & _ & _ & _ & -> & _).
  - intros a t' (t & Ht & Hbt)%Hback Ha. destruct (so_frames _ _ _ _ _ _ _ Hs a t Ht Ha) as (f & Hf & Hlo & Hhi).
    apply bare_fields in Hbt as (_ & He & Hkb & _). exists f. unfold stack_lo, stack_hi in *. rewrite He, Hkb. done.
  - apply Hs.
  - apply Hs.
Qed.

(** The same with the tasks as they were. *)
Lemma ok_heap P m m' s l c e F : ok P m s l -> tasks s !! current_task s = Some c -> holds P (t_cr3 c) e m' ->
  (forall a t p, tasks s !! a = Some t -> a <> K -> p ∈ blocks_of a t -> m' !! p = m !! p) ->
  ok P m' (set_files F (set_env e s)) l.
Proof.
  intros Hs Hc Hh Hm. pose proof (ok_caller P m m' s l c c e F Hs Hc eq_refl Hh Hm) as Hok.
  by rewrite insert_id in Hok by done.
Qed.
Lemma ok_files P m s l F : ok P m s l -> ok P m (set_files F s) l.
Proof. intros []. by split. Qed.

Lemma blocks_same P m m' s l : ok P m s l -> m ⊆ m' ->
  forall a t p, tasks s !! a = Some t -> a <> K -> p ∈ blocks_of a t -> m' !! p = m !! p.
Proof.
  intros Hs Hm a t p Ha HaK Hp. destruct (blocks_in _ _ _ _ _ _ _ _ _ _ Hs Ha HaK Hp) as [z Hz].
  rewrite Hz. by eapply lookup_weaken.
Qed.

(** ** Descriptors *)
(** What the caller's descriptor [fd] is: nothing, or a File. *)
Definition descriptor (t : Task) (fd : Z) : option Z :=
  if decide (0 <= fd < 16) then p ← fd_table t !! Z.to_nat fd; if p =? 0 then None else Some p else None.
Lemma descriptor_in t fd p : descriptor t fd = Some p ->
  0 <= fd < 16 /\ fd_table t !! Z.to_nat fd = Some p /\ p ∈ fd_table t /\ p <> 0.
Proof.
  unfold descriptor. case_decide as Hfd; [|done]. intros (q & Hq & Hp)%mbind_Some.
  destruct (Z.eqb_spec q 0); [done|]. injection Hp as ->. split; [done|]. split; [done|]. split; [|done].
  by eapply list_elem_of_lookup_2.
Qed.

Lemma get_file_spec m s t fd : fds_ok K (tasks s) (files s) m -> tasks s !! current_task s = Some t ->
  descriptor t fd = None /\ get_file s fd = Some None \/
  exists p f, descriptor t fd = Some p /\ files s !! p = Some f /\ get_file s fd = Some (Some (p, f)).
Proof.
  intros Hf Ht. unfold get_file, descriptor, MAX_FD. pose proof (fo_len _ _ _ _ Hf _ _ Ht) as Hl.
  destruct (Z.ltb_spec fd 0); [rewrite decide_False by lia; by left|].
  destruct (Z.leb_spec 16 fd); [rewrite decide_False by lia; by left|]. cbn [orb].
  rewrite decide_True by lia. rewrite Ht. cbn [mbind option_bind].
  destruct (lookup_lt_is_Some_2 (fd_table t) (Z.to_nat fd)) as [p Hp]; [lia|].
  unfold zget. rewrite decide_True by lia. rewrite Hp. cbn [mbind option_bind].
  destruct (Z.eqb_spec p 0) as [->|Hz]; [by left|]. right.
  destruct (fo_open _ _ _ _ Hf _ _ p Ht) as [[f Hfp] _]; [by eapply list_elem_of_lookup_2|done|].
  exists p, f. by rewrite Hfp.
Qed.

(** The kernel's task lies outside the heap; all its other objects are blocks. *)
Lemma kernel_object_heap P m s l a : kernel_ok P m s l -> current_task s = K -> kernel_object s a = true ->
  K <= a < K + SIZEOF_TASK \/ base <= a.
Proof.
  intros [Hs Hf] Hcur Ha. unfold kernel_object in Ha.
  apply existsb_exists in Ha as ([b t] & Hin & Ha). apply list_elem_of_In, elem_of_map_to_list in Hin.
  destruct (so_memory _ _ _ _ _ _ _ Hs) as (c & _ & Hh).
  assert (Hbase : forall p n, is_Some (m !! p) -> within p n a = true -> base <= a).
  { intros p n [z Hp]. destruct (holds_range _ _ _ _ _ _ Hh Hp) as (? & _). unfold within.
    rewrite andb_true_iff, Z.leb_le. lia. }
  assert (Hblk : forall p, b <> K -> p ∈ blocks_of b t -> is_Some (m !! p)).
  { intros p Hb Hp. by eapply blocks_in. }
  rewrite !orb_true_iff, existsb_exists in Ha. destruct Ha as [[Ha|(p & Hp%list_elem_of_In & Ha)]|Ha].
  - destruct (decide (b = K)) as [->|Hb]; [left|right].
    + unfold within in Ha. rewrite andb_true_iff, Z.leb_le, Z.ltb_lt in Ha. lia.
    + eapply Hbase; [|exact Ha]. apply Hblk; [done|]. by left.
  - right. apply andb_true_iff in Ha as [Hz%negb_true_iff%Z.eqb_neq Ha]. eapply Hbase; [|exact Ha].
    by eapply (fo_open _ _ _ _ Hf b t p).
  - right. apply andb_true_iff in Ha as [Hu Ha]. eapply Hbase; [|exact Ha]. apply Hblk; [|right; by left].
    intros ->. destruct (so_kernel_in _ _ _ _ _ _ _ Hs) as (k & Hk & _ & Huk & _).
    rewrite Hcur, Z.eqb_refl in Hu. replace t with k in Hu by congruence. by rewrite Huk in Hu.
Qed.

Lemma kernel_files P m s l p f : kernel_ok P m s l -> is_Some (files s !! p) ->
  kernel_ok P m (set_files (<[p := f]> (files s)) s) l.
Proof.
  intros [Hs Hf] Hp. split; [by apply ok_files|]. cbn [tasks files set_files].
  eapply fds_frame; [exact Hf|by eauto| |done]. intros a t q _ _ _ _ Hq.
  apply lookup_insert_is_Some. destruct (decide (p = q)); by auto.
Qed.
End Kernel.
