(* ===== verification/SyscallMem.v ===== *)
(** * Where a system call stores

    A call that is defined changes bytes of the caller's own memory only: it
    maps nothing new and no byte of a Task, an open File or another kernel
    stack is touched. *)
From S2P Require Import Prelude CString Allocator Memory BlockDev DiskLayout SimpleFs Vfs File PortIo Pic Keyboard Vga.
From S2P Require Import Gdt Timer Cpu Task Registers UserMem Syscall SyscallInv.

(** ** Buffers keep their length *)
Lemma memcpy_loop_length n : forall dst src doff soff i dst',
  memcpy_loop n dst src doff soff i = Some dst' -> length dst' = length dst.
Proof.
  induction n as [|n IH]; intros dst src doff soff i dst'; cbn [memcpy_loop]; [by intros [= <-]|].
  intros (c & _ & (d & Hd%zset_length & Hrec%IH)%mbind_Some)%mbind_Some. congruence.
Qed.
Lemma memcpy_length dst doff src soff n dst' : memcpy dst doff src soff n = Some dst' -> length dst' = length dst.
Proof. apply memcpy_loop_length. Qed.
Lemma memcpy_within_loop_length n : forall buf doff soff i buf',
  memcpy_within_loop n buf doff soff i = Some buf' -> length buf' = length buf.
Proof.
  induction n as [|n IH]; intros buf doff soff i buf'; cbn [memcpy_within_loop]; [by intros [= <-]|].
  intros (c & _ & (d & Hd%zset_length & Hrec%IH)%mbind_Some)%mbind_Some. congruence.
Qed.

Section Length.
Context {W D : Type} `{Ports W} `{BlockDevice D}.
Implicit Types (buf : list Z).

Lemma read_blocks_length n : forall (d : D) ino buf i left buf',
  read_blocks n d ino buf i left = Some buf' -> length buf' = length buf.
Proof.
  induction n as [|n IH]; intros d ino buf i left buf'; cbn [read_blocks]; [by intros [= <-]|].
  intros (b & _ & (s & _ & (d' & Hd%memcpy_length & Hrec%IH)%mbind_Some)%mbind_Some)%mbind_Some. congruence.
Qed.
Lemma vfs_read_length (d : D) node buf size n buf' : vfs_read d node buf size = Some (n, buf') -> length buf' = length buf.
Proof.
  unfold vfs_read, simplefs_read. destruct (has_flag _ _); [by intros [= _ <-]|].
  intros (i & _ & Hrest)%mbind_Some. destruct (i =? -1); [by injection Hrest as _ <-|].
  apply mbind_Some in Hrest as (ino & _ & Hrest). destruct (has_flag _ _); [by injection Hrest as _ <-|].
  by apply mbind_Some in Hrest as (b & Hb%read_blocks_length & [= _ <-]).
Qed.
Lemma stdin_loop_length fuel : forall k buf i count n buf' k',
  stdin_loop fuel k buf i count = Some (n, buf', k') -> length buf' = length buf.
Proof.
  induction fuel as [|fuel IH]; intros k buf i count n buf' k'; cbn [stdin_loop];
    (destruct (_ && _); [|by intros [= _ <- _]]); [done|].
  intros ([c k1] & _ & Hrest)%mbind_Some. destruct (c =? 0); [by injection Hrest as _ <- _|].
  apply mbind_Some in Hrest as (b & Hb%zset_length & Hrec%IH). congruence.
Qed.
Lemma file_read_length (w : io W D) f buf count n buf' f' w' :
  file_read w f buf count = Some (Some (n, buf', f', w')) -> length buf' = length buf.
Proof.
  unfold file_read. destruct (f_ops f); try done.
  - unfold stdin_read. intros ([[m b] k'] & Hm & [= _ <- _ _])%mbind_Some.
    by apply mbind_Some in Hm as ([[j b'] k2] & Hl%stdin_loop_length & [= _ <- _]).
  - unfold vfs_file_read. intros ([[m b] g] & Hm & [= _ <- _ _])%mbind_Some.
    apply mbind_Some in Hm as (node & _ & Hm). by apply mbind_Some in Hm as ([j b'] & Hl%vfs_read_length & [= _ <- _]).
Qed.
Lemma get_path_loop_length fuel : forall (d : D) cur temp buf i ok buf' j,
  get_path_loop fuel d cur temp buf i = Some (ok, buf', j) -> length buf' = length buf.
Proof.
  induction fuel as [|fuel IH]; intros d cur temp buf i ok buf' j; cbn [get_path_loop];
    (destruct (_ =? 0); [by intros [= _ <- _]|]); [done|].
  intros ([parent|] & _ & Hrest)%mbind_Some; [|by injection Hrest as _ <- _].
  apply mbind_Some in Hrest as (c & _ & Hrest). apply mbind_Some in Hrest as (len & _ & Hrest).
  destruct (i <? _); [by injection Hrest as _ <- _|].
  apply mbind_Some in Hrest as (b1 & H1%memcpy_length & Hrest). apply mbind_Some in Hrest as (b2 & H2%zset_length & Hrest).
  destruct (_ <? 0); [injection Hrest as _ <- _; congruence|]. apply IH in Hrest. congruence.
Qed.
Lemma vfs_getcwd_length (d : D) cur temp buf size n buf' :
  vfs_getcwd d cur temp buf size = Some (n, buf') -> length buf' = length buf.
Proof.
  unfold vfs_getcwd, vfs_get_path. destruct (size =? 0); [by intros [= _ <-]|].
  destruct (_ =? 0); [by intros (b & Hb%memcpy_length & [= _ <-])%mbind_Some|].
  intros (b & Hb%zset_length & Hrest)%mbind_Some.
  apply mbind_Some in Hrest as ([[ok b2] j] & H2%get_path_loop_length & Hrest).
  destruct (negb ok); [injection Hrest as _ <-; congruence|].
  apply mbind_Some in Hrest as (b3 & H3%memcpy_within_loop_length & [= _ <-]). congruence.
Qed.
End Length.

(** ** Stores *)
Section Stores.
Context {E W D : Type} `{Memory E} `{Ports W} `{BlockDevice D}.
Context (syms : symbols) (vfs_root : vfs_node) (junk : list Z) (temp : vfs_node).
Implicit Types (k : kernel E W D) (s : sched E) (r : Registers).

(** The same bytes are mapped, and the kernel's objects are as they were. *)
Definition stores_own s (mem mem' : memory_map) : Prop :=
  dom mem' = dom mem /\ forall a, kernel_object s a = true -> mem' !! a = mem !! a.
Lemma stores_nothing s mem : stores_own s mem mem.
Proof. by split. Qed.
Lemma stores_buffer s mem p bs : length bs = length (object (own s mem) p) -> stores_own s mem (put_bytes mem p bs).
Proof.
  intros Hl. split; [apply (put_bytes_dom mem (own s mem)); [apply own_mem|lia]|].
  intros a Ha. rewrite put_bytes_lookup. case_decide as Hr; [|done]. exfalso.
  destruct (lookup_lt_is_Some_2 (object (own s mem) p) (Z.to_nat (a - p))) as [b Hb]; [lia|].
  apply object_lookup in Hb. rewrite Z2Nat.id in Hb by lia. replace (p + (a - p)) with a in Hb by lia.
  apply own_lookup in Hb as [_ Hb]. congruence.
Qed.
Lemma result_mem x r mem k r' mem' k' : result x r mem k = Some (Done r' mem' k') -> mem' = mem.
Proof. by intros [=]. Qed.

Lemma handler_stores r mem k r' mem' k' :
  syscall_handler syms vfs_root junk temp r mem k = Some (Done r' mem' k') -> stores_own (k_sched k) mem mem'.
Proof.
  assert (Hsame : mem' = mem -> stores_own (k_sched k) mem mem') by (intros ->; apply stores_nothing).
  unfold syscall_handler.
  destruct (rg_eax r =? SYS_EXIT); [by intros (s1 & _ & (s2 & _ & [=])%mbind_Some)%mbind_Some|].
  destruct (rg_eax r =? SYS_SLEEP); [by intros (s1 & _ & [=])%mbind_Some|].
  destruct (rg_eax r =? SYS_YIELD); [by intros (s1 & _ & [=])%mbind_Some|].
  destruct (rg_eax r =? SYS_GETTICK); [by intros ?%result_mem; apply Hsame|].
  destruct (rg_eax r =? SYS_READ).
  { unfold sys_read_case. intros ([[p f]|] & _ & Hrest)%mbind_Some; [|by apply Hsame; eapply result_mem].
    apply mbind_Some in Hrest as ([[[[n bs] f'] w]|] & Hl & ->%result_mem); [|by apply Hsame].
    apply stores_buffer. by eapply file_read_length. }
  destruct (rg_eax r =? SYS_WRITE).
  { unfold sys_write_case. intros ([[p f]|] & _ & Hrest)%mbind_Some; [|by apply Hsame; eapply result_mem].
    apply mbind_Some in Hrest as ([[[n f'] w]|] & _ & ?%result_mem); by apply Hsame. }
  destruct (rg_eax r =? SYS_OPEN).
  { unfold sys_open_case. intros (c & _ & ([node|] & _ & Hrest)%mbind_Some)%mbind_Some; [|by apply Hsame; eapply result_mem].
    apply mbind_Some in Hrest as ([[p e] F] & _ & ([i|] & _ & Hrest)%mbind_Some).
    - apply mbind_Some in Hrest as (fds & _ & (T & _ & ?%result_mem)%mbind_Some). by apply Hsame.
    - apply mbind_Some in Hrest as (e2 & _ & ?%result_mem). by apply Hsame. }
  destruct (rg_eax r =? SYS_CLOSE).
  { unfold sys_close_case. intros ([[p f]|] & _ & Hrest)%mbind_Some; [|by apply Hsame; eapply result_mem].
    apply mbind_Some in Hrest as (s1 & _ & (c & _ & (fds & _ & (T & _ & ?%result_mem)%mbind_Some)%mbind_Some)%mbind_Some).
    by apply Hsame. }
  destruct (rg_eax r =? SYS_GETCWD).
  { unfold sys_getcwd_case. destruct (_ || _); [by intros ?%result_mem; apply Hsame|].
    intros (c & _ & ([n bs] & Hl & ->%result_mem)%mbind_Some)%mbind_Some. apply stores_buffer. by eapply vfs_getcwd_length. }
  destruct (rg_eax r =? SYS_CHDIR).
  { unfold sys_chdir_case. intros (c & _ & ([n d] & _ & (T & _ & ?%result_mem)%mbind_Some)%mbind_Some)%mbind_Some.
    by apply Hsame. }
  intros [=]. by apply Hsame.
Qed.
End Stores.
