(* ===== verification/SyscallOps.v ===== *)
(** * What each system call does

    The cases of the handler over the invariant [kernel_ok]: opening and
    closing files, the current directory, and the calls that reschedule. *)
From S2P Require Import Prelude CString Allocator Memory BlockDev DiskLayout SimpleFs Vfs File.
From S2P Require Import PortIo Pic Keyboard Vga Gdt Timer Cpu Task TaskRing TaskInv TaskSched TaskSwitch TaskPick.
From S2P Require Import TaskSchedule TaskOps Registers Syscall SyscallInv.

(** The slot [SYS_OPEN] takes: the first empty one. *)
Definition lowest_free (fds : list Z) : option nat := fst <$> list_find (fun p => p = 0) fds.
Lemma free_slot_spec fds n : forall i, (i + n = length fds)%nat ->
  free_slot n fds (Z.of_nat i) = Some ((fun x => Z.of_nat (i + x)) <$> lowest_free (drop i fds)).
Proof.
  unfold lowest_free. induction n as [|n IH]; intros i Hi.
  { rewrite drop_ge by lia. done. }
  destruct (lookup_lt_is_Some_2 fds i) as [p Hp]; [lia|]. cbn [free_slot]. rewrite zget_nat, Hp.
  cbn [mbind option_bind]. rewrite (drop_S _ _ _ Hp). cbn [list_find].
  destruct (Z.eqb_spec p 0) as [Hz|Hz].
  - rewrite decide_True by done. simpl. by rewrite Nat.add_0_r.
  - rewrite decide_False by done. replace (Z.of_nat i + 1) with (Z.of_nat (S i)) by lia.
    rewrite IH by lia. destruct (list_find _ _) as [[x y]|]; simpl; [|done]. do 2 f_equal. lia.
Qed.
Lemma free_slot_0 fds : length fds = 16%nat ->
  free_slot (Z.to_nat MAX_FD) fds 0 = Some (Z.of_nat <$> lowest_free fds).
Proof. intros Hl. exact (free_slot_spec fds 16 0 (eq_sym Hl)). Qed.
Lemma lowest_free_Some fds i : lowest_free fds = Some i ->
  fds !! i = Some 0 /\ (i < length fds)%nat /\ forall j q, (j < i)%nat -> fds !! j = Some q -> q <> 0.
Proof.
  unfold lowest_free. intros ([j p] & Hf & ->)%fmap_Some. apply list_find_Some in Hf as (Hj & -> & Hlt).
  split; [done|]. split; [by eapply lookup_lt_Some|]. intros k q Hk Hq. by apply (Hlt k q).
Qed.
Lemma lowest_free_None fds : lowest_free fds = None -> Forall (fun p => p <> 0) fds.
Proof. unfold lowest_free. intros Hf%fmap_None. by apply list_find_None in Hf. Qed.

Section Ops.
Context {E W D : Type} `{MemoryOk E} `{Ports W} `{BlockDevice D}.
Context (syms : symbols) (boot_lo boot_hi : Z) (vfs_root : vfs_node) (junk : list Z) (temp : vfs_node).
Hypothesis Hlay : layout_ok syms boot_lo boot_hi.
Implicit Types (k : kernel E W D) (s : sched E) (r : Registers).
#[local] Abbreviation okk := (kernel_ok syms boot_lo boot_hi).
#[local] Abbreviation K := (KERNEL_TASK syms).

(** ** Opening *)
Definition regular (node : vfs_node) : File := mk_file FILE_TYPE_REGULAR vfs_file_ops (Some node) 0 0 1.
(** The caller [t] has the new File [p] as its descriptor [i]. *)
Record opened (m : gmap Z Z) s s' (t : Task) (i : nat) (p : Z) node (m' : gmap Z Z) : Prop := {
  op_tasks : tasks s' = <[current_task s := set_fd_table (<[i := p]> (fd_table t)) t]> (tasks s);
  op_files : files s' = <[p := regular node]> (files s);
  op_fresh : m !! p = None /\ is_Some (m' !! p) /\ p <> 0;
  op_blocks : m ⊆ m';
}.

Lemma open_kernel P m s l t i p e m' node : okk P m s l -> tasks s !! current_task s = Some t ->
  fd_table t !! i = Some 0 -> holds P (t_cr3 t) e m' -> m ⊆ m' -> m !! p = None -> is_Some (m' !! p) ->
  okk P m' (set_tasks (<[current_task s := set_fd_table (<[i := p]> (fd_table t)) t]> (tasks s))
    (set_files (<[p := regular node]> (files s)) (set_env e s))) l.
Proof.
  intros [Hs Hf] Ht Hi Hh Hm Hp Hp'. split.
  - apply (ok_caller syms boot_lo boot_hi P m m' s l t (set_fd_table (<[i := p]> (fd_table t)) t) e _ Hs Ht (bare_fd _ _) Hh).
    by apply (blocks_same _ _ _ P m m' s l Hs).
  - cbn [tasks files set_tasks set_files]. pose proof (fo_len _ _ _ _ Hf _ _ Ht) as Hl.
    pose proof (lookup_lt_Some _ _ _ Hi) as Hlt.
    apply (fds_update K (tasks s) (files s) _ m m' (current_task s) t); [done|done|by rewrite length_insert| |].
    + intros j q Hj Hq. destruct (decide (j = i)) as [->|Hji].
      * rewrite list_lookup_insert_eq in Hj by lia. injection Hj as <-. right. split; [done|].
        split; [apply lookup_insert_is_Some; by left|]. split; [done|]. split.
        -- intros j Hj. destruct (decide (j = i)); [done|]. rewrite list_lookup_insert_ne in Hj by done.
           exfalso. destruct (fo_open _ _ _ _ Hf _ t p Ht) as [_ [? ?]];
             [by eapply list_elem_of_lookup_2|done|congruence].
        -- intros b u Hb HbK Hin. destruct (blocks_in _ _ _ _ _ _ _ _ _ _ Hs Hb HbK Hin). congruence.
      * rewrite list_lookup_insert_ne in Hj by done. by left.
    + intros b u q Hb Hq Hz _. destruct (fo_open _ _ _ _ Hf b u q Hb Hq Hz) as [HF [z Hz']].
      split; [apply lookup_insert_is_Some; destruct (decide (p = q)); by auto|].
      exists z. by eapply lookup_weaken.
Qed.

Lemma sys_open_spec P m k l r mem t : okk P m (k_sched k) l ->
  tasks (k_sched k) !! current_task (k_sched k) = Some t -> forall node,
  vfs_resolve_path (dev (io_fs (k_io k))) vfs_root (cwd t) junk (path_at mem (rg_ebx r)) = Some (Some node) ->
  let run := sys_open_case vfs_root junk r mem k in
  run = None /\ (exists e, kmalloc_op (env (k_sched k)) SIZEOF_FILE = Some (0, e)) \/
  exists k', k_io k' = k_io k /\ k_ticks k' = k_ticks k /\
    (lowest_free (fd_table t) = None /\ run = result (-1) r mem k' /\
       tasks (k_sched k') = tasks (k_sched k) /\
       (exists p m', files (k_sched k') = delete p (files (k_sched k)) /\ m !! p = None /\
          m ⊆ m' /\ okk P m' (k_sched k') l) \/
     exists i p m', lowest_free (fd_table t) = Some i /\ run = result (Z.of_nat i) r mem k' /\
       opened m (k_sched k) (k_sched k') t i p node m' /\ okk P m' (k_sched k') l).
Proof.
  intros Hk Ht node Hres run. pose proof Hk as [Hs Hf]. unfold run, sys_open_case. rewrite Ht. cbn [mbind option_bind].
  rewrite Hres. cbn [mbind option_bind]. unfold create_vfs_file. fold (regular node).
  destruct (so_memory _ _ _ _ _ _ _ Hs) as (c & Hc & Hh). rewrite Ht in Hc. injection Hc as <-.
  destruct (new_file_spec P (t_cr3 t) (env (k_sched k)) m (files (k_sched k)) (regular node) Hh) as
    [[Hn He]|(p & e & m' & Heq & Hh' & Hm & Hp & Hp' & Hpos & _)]; [left; by rewrite Hn|right].
  rewrite Heq. cbn [mbind option_bind]. pose proof (fo_len _ _ _ _ Hf _ _ Ht) as Hl.
  rewrite free_slot_0 by done.
  destruct (lowest_free (fd_table t)) as [i|] eqn:Hfree; cbn [fmap option_fmap option_map mbind option_bind].
  - destruct (lowest_free_Some _ _ Hfree) as (Hi & Hlt & _). rewrite zset_nat by done.
    cbn [mbind option_bind tasks current_task set_files set_env]. unfold poke_task. rewrite Ht.
    cbn [mbind option_bind]. eexists.
    split; [|split; [|right; exists i, p, m'; split; [done|]; split; [reflexivity|]; split]]; [done|done| |].
    + split; try done. split; [done|]. split; [done|lia].
    + by apply (open_kernel P m).
  - destruct Hp' as [z Hz]. destruct (holds_kfree _ _ _ _ p z Hh' Hz) as (e2 & -> & Hh2). cbn [mbind option_bind].
    assert (Hm2 : m ⊆ delete p m').
    { apply map_subseteq_spec. intros q x Hq. rewrite lookup_delete_ne by congruence. by eapply lookup_weaken. }
    eexists. split; [|split; [|left; split; [done|]; split; [reflexivity|]; split;
      [|exists p, (delete p m'); split; [|split; [done|]; split; [done|]]]]]; [done|done|done| |].
    + cbn [k_sched set_k_sched files set_files]. by rewrite delete_insert_eq.
    + split.
      { change (sched_ok syms boot_lo boot_hi P (delete p m')
          (set_files (delete p (<[p := regular node]> (files (k_sched k)))) (set_env e2 (k_sched k))) l).
        apply (ok_heap _ _ _ P m (delete p m') (k_sched k) l t); [done..|].
        by apply (blocks_same _ _ _ P m _ (k_sched k) l Hs). }
      eapply fds_frame; [exact Hf|by eauto| |].
      * intros a u q _ Ha Hq Hqz [f Hqf]. exists f. cbn [files set_k_sched k_sched set_files].
        rewrite delete_insert_eq, lookup_delete_ne; [done|].
        intros <-. destruct (fo_open _ _ _ _ Hf a u p Ha Hq Hqz) as [_ [? ?]]. congruence.
      * intros a u q _ _ _ _ [x Hx]. exists x. by eapply lookup_weaken.
Qed.

(** ** Closing *)
(** The descriptor [fd] of the caller [t] is empty; its File is gone, or for a
    regular file left behind, marked unused. *)
Record closed s s' (t : Task) (fd : Z) (p : Z) (f : File) : Prop := {
  cl_tasks : tasks s' = <[current_task s := set_fd_table (<[Z.to_nat fd := 0]> (fd_table t)) t]> (tasks s);
  cl_files : files s' = match f_ops f with
                        | vfs_file_ops => <[p := set_f_type FILE_TYPE_UNUSED f]> (files s)
                        | _ => delete p (files s)
                        end;
}.

(** One File less, named by one descriptor only. *)
Lemma close_kernel P m m' s l t fd p e F : okk P m s l -> tasks s !! current_task s = Some t ->
  descriptor t fd = Some p -> holds P (t_cr3 t) e m' ->
  (forall q, q <> p -> m' !! q = m !! q) -> (forall q, q <> p -> F !! q = files s !! q) ->
  okk P m' (set_tasks (<[current_task s := set_fd_table (<[Z.to_nat fd := 0]> (fd_table t)) t]> (tasks s))
    (set_files F (set_env e s))) l.
Proof.
  intros [Hs Hf] Ht Hd Hh Hm HF. destruct (descriptor_in t fd p Hd) as (Hfd & Hi & Hin & Hz). split.
  - apply (ok_caller syms boot_lo boot_hi P m m' s l t (set_fd_table (<[Z.to_nat fd := 0]> (fd_table t)) t) e F
      Hs Ht (bare_fd _ _) Hh).
    intros a u q Ha HaK Hq. apply Hm. intros ->. by apply (fo_apart _ _ _ _ Hf _ t p a u Ht Hin Hz Ha HaK).
  - cbn [tasks files set_tasks set_files]. pose proof (fo_len _ _ _ _ Hf _ _ Ht) as Hl.
    apply (fds_update K (tasks s) (files s) F m m' (current_task s) t); [done|done|by rewrite length_insert| |].
    + intros i q Hq Hqz. left. destruct (decide (i = Z.to_nat fd)) as [->|Hne].
      * rewrite list_lookup_insert_eq in Hq by lia. congruence.
      * by rewrite list_lookup_insert_ne in Hq.
    + intros b u q Hb [i Hi']%list_elem_of_lookup Hqz Hba.
      assert (Hqp : q <> p).
      { intros ->. destruct (fo_once _ _ _ _ Hf b (current_task s) u t i (Z.to_nat fd) p Hb Ht Hi' Hi Hz) as [-> ->].
        specialize (Hba eq_refl). apply list_elem_of_lookup in Hba as [j Hj].
        destruct (decide (j = Z.to_nat fd)) as [->|Hj'].
        - rewrite list_lookup_insert_eq in Hj by lia. congruence.
        - rewrite list_lookup_insert_ne in Hj by done.
          destruct (fo_once _ _ _ _ Hf _ _ t t j (Z.to_nat fd) p Ht Ht Hj Hi Hz). done. }
      rewrite Hm, HF by done. eapply (fo_open _ _ _ _ Hf b u q Hb); [by eapply list_elem_of_lookup_2|done].
Qed.

Lemma sys_close_spec P m k l r mem t : okk P m (k_sched k) l ->
  tasks (k_sched k) !! current_task (k_sched k) = Some t ->
  let fd := i32 (rg_ebx r) in
  descriptor t fd = None /\ sys_close_case r mem k = result (-1) r mem k \/
  exists p f k' m', descriptor t fd = Some p /\ files (k_sched k) !! p = Some f /\
    sys_close_case r mem k = result 0 r mem k' /\ k_io k' = k_io k /\ k_ticks k' = k_ticks k /\
    closed (k_sched k) (k_sched k') t fd p f /\
    m' = (if decide (f_ops f = vfs_file_ops) then m else delete p m) /\ okk P m' (k_sched k') l.
Proof.
  intros Hk Ht fd. pose proof Hk as [Hs Hf]. unfold sys_close_case. fold fd.
  destruct (get_file_spec syms m (k_sched k) t fd Hf Ht) as [[Hd ->]|(p & f & Hd & Hfile & ->)];
    cbn [mbind option_bind]; [by left|right].
  destruct (descriptor_in t fd p Hd) as (Hfd & Hi & Hin & Hz). pose proof (fo_len _ _ _ _ Hf _ _ Ht) as Hl.
  destruct (so_memory _ _ _ _ _ _ _ Hs) as (c & Hc & Hh). rewrite Ht in Hc. injection Hc as <-.
  assert (Hend : forall F e m', holds P (t_cr3 t) e m' ->
    (forall q, q <> p -> m' !! q = m !! q) -> (forall q, q <> p -> F !! q = files (k_sched k) !! q) ->
    let s := set_files F (set_env e (k_sched k)) in exists k',
    (cur ← tasks s !! current_task s; fds ← zset (fd_table cur) fd 0;
     T ← poke_task (tasks s) (current_task s) (set_fd_table fds);
     result 0 r mem (set_k_sched (set_tasks T s) k)) = result 0 r mem k' /\ k_io k' = k_io k /\
    k_ticks k' = k_ticks k /\ files (k_sched k') = F /\
    tasks (k_sched k') = <[current_task (k_sched k) :=
      set_fd_table (<[Z.to_nat fd := 0]> (fd_table t)) t]> (tasks (k_sched k)) /\
    okk P m' (k_sched k') l).
  { intros F e m' He Hm HF. cbv zeta. cbn [tasks current_task set_files set_env]. rewrite Ht. cbn [mbind option_bind].
    rewrite zset_in_range by lia. cbn [mbind option_bind]. unfold poke_task. rewrite Ht. cbn [mbind option_bind].
    eexists. split; [reflexivity|]. do 4 (split; [done|]). by eapply close_kernel. }
  exists p, f. unfold file_close. destruct (decide (f_ops f = vfs_file_ops)) as [Hops|Hops].
  - rewrite Hops. cbn [vfs_file_close mbind option_bind].
    destruct (Hend (<[p := set_f_type FILE_TYPE_UNUSED f]> (files (k_sched k))) (env (k_sched k)) m Hh) as
      (k' & Heq & Hio & Htk & HF & HT & Hok'); [done|intros q Hq; by rewrite lookup_insert_ne|].
    exists k', m. split; [done|]. split; [done|]. split; [exact Heq|]. split; [done|]. split; [done|].
    split; [|done]. split; [done|]. by rewrite Hops.
  - destruct (fo_open _ _ _ _ Hf _ t p Ht Hin Hz) as [_ [z Hz']].
    destruct (holds_kfree _ _ _ _ p z Hh Hz') as (e & He & Hhe).
    destruct (Hend (delete p (files (k_sched k))) e (delete p m) Hhe) as
      (k' & Heq & Hio & Htk & HF & HT & Hok'); [intros q Hq; by rewrite lookup_delete_ne..|].
    exists k', (delete p m). split; [done|]. split; [done|].
    split; [|split; [done|split; [done|split; [split; [done|]|done]]]].
    + destruct (f_ops f); try done; rewrite He; cbn [mbind option_bind]; exact Heq.
    + by destruct (f_ops f).
Qed.

(** ** Calls that change no descriptor *)
Lemma poke_kernel P m s l c c' : okk P m s l -> tasks s !! current_task s = Some c -> quiet c' = quiet c ->
  okk P m (set_tasks (<[current_task s := c']> (tasks s)) s) l.
Proof.
  intros [Hs Hf] Hc Hq. split; [by apply (ok_poke_current syms boot_lo boot_hi P m s l c)|].
  cbn [tasks files set_tasks]. eapply fds_frame; [exact Hf| |done|done].
  intros a t' [[<- <-]|[_ Ha]]%lookup_insert_Some; [|by exists t']. exists c. split; [done|].
  split; [by apply (f_equal fd_table) in Hq|by apply (f_equal kernel_stack_bottom) in Hq].
Qed.
Lemma cwd_kernel P m s l c d : okk P m s l -> tasks s !! current_task s = Some c ->
  okk P m (set_tasks (<[current_task s := set_cwd d c]> (tasks s)) s) l.
Proof.
  intros [Hs Hf] Hc. split.
  - destruct (so_memory _ _ _ _ _ _ _ Hs) as (c1 & Hc1 & Hh). rewrite Hc in Hc1. injection Hc1 as <-.
    by apply (ok_caller syms boot_lo boot_hi P m m s l c (set_cwd d c) (env s) (files s) Hs Hc (bare_cwd _ _) Hh).
  - cbn [tasks files set_tasks]. eapply fds_frame; [exact Hf| |done|done].
    intros a t' [[<- <-]|[_ Ha]]%lookup_insert_Some; [by exists c|by exists t'].
Qed.

Lemma blocks_after_keep T gone p : forall m, (forall a t, a ∈ gone -> T !! a = Some t -> p ∉ blocks_of a t) ->
  blocks_after T gone m !! p = m !! p.
Proof.
  induction gone as [|a gone IH]; intros m Hp; [done|]. cbn [blocks_after].
  rewrite IH by (intros b t Hb; apply Hp; by right).
  destruct (T !! a) as [t|] eqn:Ha; [|done]. specialize (Hp a t ltac:(left) Ha). unfold blocks_of, blocks_left in *.
  rewrite !lookup_delete_ne; [done|set_solver..].
Qed.
Lemma unlinked_fds t u : unlinked t = unlinked u ->
  fd_table t = fd_table u /\ kernel_stack_bottom t = kernel_stack_bottom u.
Proof. intros Heq. split; [by apply (f_equal fd_table) in Heq|by apply (f_equal kernel_stack_bottom) in Heq]. Qed.

Lemma schedule_kernel P m s l s' : okk P m s l -> has_room syms boot_lo boot_hi s ->
  schedule syms s = Some s' -> exists P' m' l', okk P' m' s' l'.
Proof.
  intros [Hs Hf] Hroom Hsch.
  destruct (schedule_spec syms boot_lo boot_hi Hlay P m s l Hs Hroom) as (s2 & Heq & Hcase).
  rewrite Hsch in Heq. injection Heq as <-. set (gone := dead_met (tasks s) l) in *.
  assert (Hmain : forall P' l', sched_ok syms boot_lo boot_hi P' (blocks_after (tasks s) gone m) s' l' ->
    files s' = files s -> (forall a, a ∈ gone -> tasks s' !! a = None) ->
    (forall a t', tasks s' !! a = Some t' -> exists t, tasks s !! a = Some t /\ fd_table t' = fd_table t /\
       kernel_stack_bottom t' = kernel_stack_bottom t) ->
    okk P' (blocks_after (tasks s) gone m) s' l').
  { intros P' l' Hok HF Hgone HT. split; [done|]. rewrite HF. eapply fds_frame; [exact Hf|exact HT|done|].
    intros a t p _ Ha Hp Hz Hmp. rewrite blocks_after_keep; [done|]. intros b u Hb Hu.
    apply (fo_apart _ _ _ _ Hf a t p b u Ha Hp Hz Hu). intros ->.
    destruct (so_kernel_in _ _ _ _ _ _ _ Hok) as (kt & Hkt & _). rewrite Hgone in Hkt; done. }
  destruct (from_ready (tasks s) l) as [|n l2]; destruct Hcase as [Hsw Hok]; eexists _, _, _; (apply Hmain; [exact Hok|..]).
  - apply (st_files _ _ _ _ _ _ Hsw).
  - apply (st_gone _ _ _ _ _ _ Hsw).
  - intros a t' Ha. destruct (decide (a ∈ gone)) as [Hg|Hg]; [by rewrite (st_gone _ _ _ _ _ _ Hsw) in Ha|].
    destruct (decide (a = current_task s)) as [->|Hac].
    + destruct (st_cur _ _ _ _ _ _ Hsw) as (c & c' & Hc & Hc' & Hcore & _). rewrite Ha in Hc'. injection Hc' as <-.
      exists c. split; [done|]. split; [by apply (f_equal fd_table) in Hcore|by apply (f_equal kernel_stack_bottom) in Hcore].
    + pose proof (st_tasks _ _ _ _ _ _ Hsw a Hg Hac) as HT. rewrite Ha in HT. symmetry in HT.
      apply fmap_Some in HT as (t & Ht & Heq). exists t. split; [done|]. by apply unlinked_fds.
  - apply (wt_files _ _ _ _ _ _ _ Hsw).
  - apply (wt_gone _ _ _ _ _ _ _ Hsw).
  - intros a t' Ha. destruct (decide (a ∈ gone)) as [Hg|Hg]; [by rewrite (wt_gone _ _ _ _ _ _ _ Hsw) in Ha|].
    pose proof (wt_tasks _ _ _ _ _ _ _ Hsw a Hg) as HT. rewrite Ha in HT. symmetry in HT.
    apply fmap_Some in HT as (u & Hu & Heq). apply fmap_Some in Hu as (t & Ht & ->). exists t. split; [done|].
    apply unlinked_fds in Heq as [-> ->]. unfold after_switch, paused. split; by repeat case_match.
Qed.
End Ops.
