(* ===== verification/SyscallRun.v ===== *)
(** * Runs of the kernel

    System calls, timer interrupts, and the creation and the end of tasks
    (kernel threads, user tasks and programs from files), from [init_tasking]
    on: every step keeps the invariant [kernel_ok], so that the
    descriptors of the tasks always name Files of their own. *)
From S2P Require Import Prelude CString Allocator Memory BlockDev DiskLayout SimpleFs Vfs File PortIo Pic Keyboard Vga.
From S2P Require Import Gdt Timer Cpu Task TaskRing TaskInv TaskSched TaskSwitch TaskPick TaskSchedule TaskOps TaskCreate.
From S2P Require Import TaskUser Loader TaskExec TaskSteps Registers UserMem Syscall SyscallInv SyscallOps.

(** The kernel when a call is over for now. *)
Definition kernel_after {E W D} (o : outcome E W D) : kernel E W D :=
  match o with Done _ _ k | Sleeps _ _ k | Yields _ _ k | Exits k => k end.

Section Keeps.
Context {E W D : Type} `{MemoryOk E} `{Ports W} `{BlockDevice D}.
Context (syms : symbols) (boot_lo boot_hi : Z) (vfs_root : vfs_node) (junk : list Z) (temp : vfs_node).
Hypothesis Hlay : layout_ok syms boot_lo boot_hi.
Implicit Types (k : kernel E W D) (r : Registers).
#[local] Abbreviation okk := (kernel_ok syms boot_lo boot_hi).
#[local] Abbreviation room := (has_room syms boot_lo boot_hi).
#[local] Abbreviation handler := (syscall_handler syms vfs_root junk temp).

Lemma result_eq x r mem k (o : outcome E W D) : result x r mem k = Some o -> kernel_after o = k.
Proof. by intros [= <-]. Qed.

Lemma io_kernel P m k w l p f t fd : okk P m (k_sched k) l -> 
  tasks (k_sched k) !! current_task (k_sched k) = Some t -> descriptor t fd = Some p ->
  okk P m (k_sched (set_k_io w (set_k_sched (set_files (<[p := f]> (files (k_sched k))) (k_sched k)) k))) l.
Proof.
  intros Hk Ht (_ & _ & Hp & Hz)%descriptor_in. apply kernel_files; [done|].
  by destruct (fo_open _ _ _ _ (ko_fds _ _ _ _ _ _ _ Hk) _ t p Ht Hp Hz).
Qed.

(** ** The cases one by one *)
Lemma read_keeps P m l r mem k o t : okk P m (k_sched k) l ->
  tasks (k_sched k) !! current_task (k_sched k) = Some t -> sys_read_case r mem k = Some o ->
  okk P m (k_sched (kernel_after o)) l.
Proof.
  intros Hk Ht. unfold sys_read_case.
  destruct (get_file_spec syms m (k_sched k) t (i32 (rg_ebx r)) (ko_fds _ _ _ _ _ _ _ Hk) Ht)
    as [[_ ->]|(p & f & Hd & Hfile & ->)]; cbn [mbind option_bind]; [by intros ->%result_eq|].
  intros ([[[[n bytes] f'] w]|] & _ & Hrun)%mbind_Some; apply result_eq in Hrun as ->; [by eapply io_kernel|done].
Qed.
Lemma write_keeps P m l r mem k o t : okk P m (k_sched k) l ->
  tasks (k_sched k) !! current_task (k_sched k) = Some t -> sys_write_case r mem k = Some o ->
  okk P m (k_sched (kernel_after o)) l.
Proof.
  intros Hk Ht. unfold sys_write_case.
  destruct (get_file_spec syms m (k_sched k) t (i32 (rg_ebx r)) (ko_fds _ _ _ _ _ _ _ Hk) Ht)
    as [[_ ->]|(p & f & Hd & Hfile & ->)]; cbn [mbind option_bind]; [by intros ->%result_eq|].
  intros ([[[n f'] w]|] & _ & Hrun)%mbind_Some; apply result_eq in Hrun as ->; [by eapply io_kernel|done].
Qed.
Lemma open_keeps P m l r mem k o t : okk P m (k_sched k) l ->
  tasks (k_sched k) !! current_task (k_sched k) = Some t ->
  sys_open_case vfs_root junk r mem k = Some o -> exists m', okk P m' (k_sched (kernel_after o)) l.
Proof.
  intros Hk Ht Hrun. pose proof Hrun as Hres. unfold sys_open_case in Hres. rewrite Ht in Hres.
  cbn [mbind option_bind] in Hres. apply mbind_Some in Hres as ([node|] & Hres & Hrest).
  - destruct (sys_open_spec syms boot_lo boot_hi vfs_root junk P m k l r mem t Hk Ht node Hres) as
      [[Hn _]|(k' & _ & _ & [(_ & Hr & _ & p & m' & _ & _ & _ & Hok)|(i & p & m' & _ & Hr & _ & Hok)])];
      [by rewrite Hn in Hrun|..]; rewrite Hr in Hrun; apply result_eq in Hrun as ->; by exists m'.
  - apply result_eq in Hrest as ->. by exists m.
Qed.
Lemma close_keeps P m l r mem k o t : okk P m (k_sched k) l ->
  tasks (k_sched k) !! current_task (k_sched k) = Some t ->
  sys_close_case r mem k = Some o -> exists m', okk P m' (k_sched (kernel_after o)) l.
Proof.
  intros Hk Ht. destruct (sys_close_spec syms boot_lo boot_hi P m k l r mem t Hk Ht) as
    [[_ ->]|(p & f & k' & m' & _ & _ & -> & _ & _ & _ & _ & Hok)]; intros ->%result_eq; by eexists.
Qed.
Lemma chdir_keeps P m l r mem k o t : okk P m (k_sched k) l ->
  tasks (k_sched k) !! current_task (k_sched k) = Some t ->
  sys_chdir_case vfs_root junk r mem k = Some o -> okk P m (k_sched (kernel_after o)) l.
Proof.
  intros Hk Ht. unfold sys_chdir_case, poke_task. rewrite Ht. cbn [mbind option_bind].
  intros ([ret d] & _ & Hrun)%mbind_Some. cbn [mbind option_bind] in Hrun.
  apply result_eq in Hrun as ->. by apply cwd_kernel.
Qed.
Lemma getcwd_keeps r mem k (o : outcome E W D) : sys_getcwd_case temp r mem k = Some o -> kernel_after o = k.
Proof.
  unfold sys_getcwd_case. destruct (_ || _); [apply result_eq|].
  intros (cur & _ & ([len bytes] & _ & ->%result_eq)%mbind_Some)%mbind_Some. done.
Qed.

(** Every system call that returns leaves the invariant. *)
Lemma handler_keeps P m l r mem k o :
  okk P m (k_sched k) l -> room (k_sched k) ->
  handler r mem k = Some o ->
  exists P' m' l', okk P' m' (k_sched (kernel_after o)) l'.
Proof.
  intros Hk Hroom Hrun. pose proof (ko_sched _ _ _ _ _ _ _ Hk) as Hs.
  destruct (so_memory _ _ _ _ _ _ _ Hs) as (c & Hc & _). unfold syscall_handler in Hrun.
  destruct (rg_eax r =? SYS_EXIT).
  { unfold exit_task_start, poke_task in Hrun. rewrite Hc in Hrun. cbn [mbind option_bind] in Hrun.
    apply mbind_Some in Hrun as (s' & Hsch & [= <-]). eapply schedule_kernel; [done| | |exact Hsch].
    - by apply (poke_kernel _ _ _ P m _ l c).
    - intros t' Ht'. cbn [tasks current_task set_tasks s_cpu] in *. rewrite lookup_insert_eq in Ht'.
      injection Ht' as <-. by apply (Hroom c). }
  destruct (rg_eax r =? SYS_SLEEP).
  { unfold task_sleep_start, poke_task in Hrun.
    rewrite (proj2 (Z.eqb_neq _ _)) in Hrun by by eapply so_null. rewrite Hc in Hrun. cbn [mbind option_bind] in Hrun.
    injection Hrun as <-. exists P, m, l. by apply (poke_kernel _ _ _ P m _ l c). }
  destruct (rg_eax r =? SYS_YIELD).
  { apply mbind_Some in Hrun as (s' & Hsch & [= <-]). by eapply schedule_kernel. }
  destruct (rg_eax r =? SYS_GETTICK); [apply result_eq in Hrun as ->; by exists P, m, l|].
  destruct (rg_eax r =? SYS_READ); [exists P, m, l; by eapply read_keeps|].
  destruct (rg_eax r =? SYS_WRITE); [exists P, m, l; by eapply write_keeps|].
  destruct (rg_eax r =? SYS_OPEN); [exists P; edestruct open_keeps as [m' ?]; [done..|by exists m', l]|].
  destruct (rg_eax r =? SYS_CLOSE); [exists P; edestruct close_keeps as [m' ?]; [done..|by exists m', l]|].
  destruct (rg_eax r =? SYS_GETCWD); [apply getcwd_keeps in Hrun as ->; by exists P, m, l|].
  destruct (rg_eax r =? SYS_CHDIR); [exists P, m, l; by eapply chdir_keeps|].
  injection Hrun as <-. by exists P, m, l.
Qed.

End Keeps.

(** ** The other steps *)
Section Run.
Context {E W D : Type} `{LoaderOk E} `{Ports W} `{BlockDevice D}.
Context (syms : symbols) (boot_lo boot_hi : Z) (vfs_root : vfs_node) (junk : list Z) (temp : vfs_node).
Hypothesis Hlay : layout_ok syms boot_lo boot_hi.
Implicit Types (k : kernel E W D) (s : sched E).
#[local] Abbreviation okk := (kernel_ok syms boot_lo boot_hi).
#[local] Abbreviation ok := (sched_ok syms boot_lo boot_hi).
#[local] Abbreviation room := (has_room syms boot_lo boot_hi).
#[local] Abbreviation K := (KERNEL_TASK syms).

(** A new task brings Files of its own. *)
Lemma fds_create P m m' s s' l a t : okk P m s l -> created s s' a t -> new_blocks m m' a t ->
  fds_ok K (tasks s') (files s') m'.
Proof.
  intros [Hs Hf] Hcr [Hm Hown Hnew].
  destruct (cr_files _ _ _ _ Hcr) as [(f1 & f2 & f3 & Htab & Hnd & Hpos & F1 & F2 & F3 & Hrest)].
  assert (Hlive : forall p, p ∈ fd_table t -> p <> 0 -> p ∈ [f1; f2; f3]).
  { intros p Hp Hz. rewrite Htab in Hp. rewrite !elem_of_cons in *.
    destruct Hp as [?|[?|[?|[? _]%elem_of_replicate]]]; try done; by eauto. }
  assert (Hold : forall b u, b <> a -> tasks s' !! b = Some u ->
    exists v, tasks s !! b = Some v /\ fd_table u = fd_table v /\ blocks_of b u = blocks_of b v).
  { intros b u Hb Hu. pose proof (cr_rest _ _ _ _ Hcr b Hb) as Hr. rewrite Hu in Hr. symmetry in Hr.
    apply fmap_Some in Hr as (v & Hv & Heq). exists v. split; [done|].
    destruct (unlinked_fds _ _ Heq) as [-> Hk]. split; [done|]. unfold blocks_of. by rewrite Hk. }
  assert (Hinj : forall i j p, fd_table t !! i = Some p -> fd_table t !! j = Some p -> p <> 0 -> i = j).
  { intros i j p. rewrite Htab. intros Hi Hj Hz.
    change (f1 :: f2 :: f3 :: replicate 13 0) with ([f1; f2; f3] ++ replicate 13 0) in Hi, Hj.
    apply lookup_app_Some in Hi as [Hi|[_ Hi]]; apply lookup_app_Some in Hj as [Hj|[_ Hj]];
      try by (apply lookup_replicate in Hi as [? _]).
    - by eapply NoDup_lookup.
    - by apply lookup_replicate in Hj as [? _]. }
  pose proof Hf as [N1 N2 N3 N4]. split.
  - intros b u Hu. destruct (decide (b = a)) as [->|Hb].
    + rewrite (cr_task _ _ _ _ Hcr) in Hu. injection Hu as <-. by rewrite Htab.
    + destruct (Hold b u Hb Hu) as (v & Hv & -> & _). by eapply N1.
  - intros b u p Hu Hp Hz. destruct (decide (b = a)) as [->|Hb].
    + rewrite (cr_task _ _ _ _ Hcr) in Hu. injection Hu as <-. split; [|by apply Hnew].
      specialize (Hlive p Hp Hz). rewrite !elem_of_cons in Hlive.
      rewrite <- (fmap_is_Some f_ops).
      destruct Hlive as [->|[->|[->|[]%elem_of_nil]]].
      * rewrite F1. by eexists.
      * rewrite F2. by eexists.
      * rewrite F3. by eexists.
    + destruct (Hold b u Hb Hu) as (v & Hv & Heq & _). rewrite Heq in Hp.
      destruct (N2 b v p Hv Hp Hz) as [[f Hfp] [z Hmp]]. split; [|exists z; by eapply lookup_weaken].
      exists f. rewrite Hrest; [done|]. intros Hin.
      assert (p ∈ fd_table t) as Hin' by (rewrite Htab; change (p ∈ [f1; f2; f3] ++ replicate 13 0); by apply elem_of_app; left).
      destruct (Hnew p Hin' Hz). congruence.
  - intros b u p c w Hu Hp Hz Hw HcK. destruct (decide (b = a)) as [->|Hb].
    + rewrite (cr_task _ _ _ _ Hcr) in Hu. injection Hu as <-. destruct (Hnew p Hp Hz) as (Hn & _ & Ha).
      destruct (decide (c = a)) as [->|Hc].
      * rewrite (cr_task _ _ _ _ Hcr) in Hw. by injection Hw as <-.
      * destruct (Hold c w Hc Hw) as (x & Hx & _ & ->). intros Hin.
        destruct (blocks_in _ _ _ _ _ _ _ _ _ _ Hs Hx HcK Hin). congruence.
    + destruct (Hold b u Hb Hu) as (v & Hv & Heq & _). rewrite Heq in Hp.
      destruct (decide (c = a)) as [->|Hc].
      * rewrite (cr_task _ _ _ _ Hcr) in Hw. injection Hw as <-. intros Hin.
        destruct (N2 b v p Hv Hp Hz) as [_ [? ?]]. specialize (Hown p Hin). congruence.
      * destruct (Hold c w Hc Hw) as (x & Hx & _ & ->). exact (N3 b v p c x Hv Hp Hz Hx HcK).
  - intros b c u w i j p Hu Hw Hi Hj Hz.
    destruct (decide (b = a)) as [->|Hb], (decide (c = a)) as [->|Hc].
    + rewrite (cr_task _ _ _ _ Hcr) in Hu, Hw. simplify_eq. split; [done|by eapply Hinj].
    + rewrite (cr_task _ _ _ _ Hcr) in Hu. injection Hu as <-. exfalso.
      destruct (Hold c w Hc Hw) as (x & Hx & Heq & _). rewrite Heq in Hj.
      destruct (Hnew p) as [Hn _]; [by eapply list_elem_of_lookup_2|done|].
      destruct (N2 c x p Hx) as [_ [? ?]]; [by eapply list_elem_of_lookup_2|done|congruence].
    + rewrite (cr_task _ _ _ _ Hcr) in Hw. injection Hw as <-. exfalso.
      destruct (Hold b u Hb Hu) as (x & Hx & Heq & _). rewrite Heq in Hi.
      destruct (Hnew p) as [Hn _]; [by eapply list_elem_of_lookup_2|done|].
      destruct (N2 b x p Hx) as [_ [? ?]]; [by eapply list_elem_of_lookup_2|done|congruence].
    + destruct (Hold b u Hb Hu) as (x & Hx & Heq & _), (Hold c w Hc Hw) as (y & Hy & Heq' & _).
      rewrite Heq in Hi. rewrite Heq' in Hj. exact (N4 b c x y i j p Hx Hy Hi Hj Hz).
Qed.

Lemma kernel_env P P' m m' s l e : okk P m s l -> ok P' m' (set_env e s) l -> m ⊆ m' -> okk P' m' (set_env e s) l.
Proof.
  intros [_ Hf] Hok Hm. split; [done|]. eapply fds_frame; [exact Hf|by eauto|done|].
  intros a t p _ _ _ _ [z Hz]. exists z. by eapply lookup_weaken.
Qed.

Lemma kill_kernel_ok P m s l pid r s' : okk P m s l -> kill_task s pid = Some (r, s') ->
  exists P' m' l', okk P' m' s' l'.
Proof.
  intros Hk Hrun. pose proof Hk as [Hs Hf]. destruct (decide (pid = 0)) as [->|Hpid].
  { rewrite kill_kernel in Hrun. injection Hrun as _ <-. by exists P, m, l. }
  destruct (kill_task_spec syms boot_lo boot_hi Hlay P m s l pid Hs Hpid) as
    [[Hr _]|(s2 & Hr & l1 & a & t & l2 & -> & Ha & Hid & Hrm & Hok)]; rewrite Hrun in Hr; injection Hr as _ ->;
    [by exists P, m, l|].
  exists (pages_left P t), (blocks_left m a t), (l1 ++ l2). split; [done|].
  assert (HaK : a <> K).
  { intros ->. destruct (so_kernel_in _ _ _ _ _ _ _ Hs) as (k & Hkt & Hk0 & _). congruence. }
  eapply fds_frame; [exact Hf| | |].
  - intros b t' Hb. assert (b <> a) as Hba by (intros ->; by rewrite (rm_gone _ _ _ Hrm) in Hb).
    destruct (rm_lookup _ _ _ _ _ Hrm Hba Hb) as (u & Hu & Heq%unlinked_fds).
    exists u. split; [done|]. by destruct Heq as [-> ->].
  - intros b u p _ _ _ _. by rewrite (sm_files _ _ (rm_machine _ _ _ Hrm)).
  - intros b u p _ Hb Hp Hz [z Hmp]. exists z. unfold blocks_left.
    pose proof (fo_apart _ _ _ _ Hf b u p a t Hb Hp Hz Ha HaK) as Hn. unfold blocks_of in Hn.
    apply not_elem_of_cons in Hn as [? [? _]%not_elem_of_cons]. by rewrite !lookup_delete_ne.
Qed.

Lemma tick_kernel P m s l now s' : okk P m s l -> task_timer_tick now s = Some s' ->
  okk P m s' l /\ (room s -> room s').
Proof.
  intros [Hs Hf] Hrun. destruct (task_timer_tick_spec syms boot_lo boot_hi P m s l now Hs) as [Heq Hok].
  rewrite Hrun in Heq. injection Heq as ->. split; [split; [done|]|].
  - cbn [tasks files set_tasks]. eapply fds_frame; [exact Hf| |done|done].
    intros a t'. rewrite lookup_fmap. intros (t & Ht & ->)%fmap_Some. exists t. split; [done|].
    unfold wake_one. by destruct (_ && _).
  - intros Hroom t'. cbn [tasks current_task set_tasks s_cpu]. rewrite lookup_fmap.
    intros (t & Ht & ->)%fmap_Some. specialize (Hroom t Ht). unfold stack_lo, stack_hi in *.
    unfold wake_one. by destruct (_ && _).
Qed.

(** One step of the kernel: the running task computes or a device changes, an
    interrupt of the timer, a system call, and what the shell and the start-up
    do with tasks. *)
Inductive kstep k : kernel E W D -> Prop :=
  | ks_computes s' : computes syms boot_lo boot_hi (k_sched k) s' -> files s' = files (k_sched k) ->
      kstep k (set_k_sched s' k)
  | ks_devices w : kstep k (set_k_io w k)
  | ks_timer (w w' : W) t s' : room (k_sched k) ->
      timer_handler syms (k_ticks k) w (k_sched k) = Some (t, w', s') ->
      kstep k (mk_kernel s' (k_io k) t)
  | ks_call r mem o : room (k_sched k) -> syscall_handler syms vfs_root junk temp r mem k = Some o ->
      kstep k (kernel_after o)
  | ks_yield s' : room (k_sched k) -> schedule syms (k_sched k) = Some s' -> kstep k (set_k_sched s' k)
  | ks_create c p s' : creates syms vfs_root (k_sched k) c p s' -> kstep k (set_k_sched s' k)
  | ks_kill pid r s' : kill_task (k_sched k) pid = Some (r, s') -> kstep k (set_k_sched s' k).
Inductive ksteps k : kernel E W D -> Prop :=
  | ksteps_refl : ksteps k k
  | ksteps_more k1 k2 : kstep k k1 -> ksteps k1 k2 -> ksteps k k2.

Lemma kstep_ok P m l k k' : okk P m (k_sched k) l -> kstep k k' ->
  exists P' m' l', okk P' m' (k_sched k') l'.
Proof.
  intros Hk Hstep. pose proof Hk as [Hs Hf].
  destruct Hstep as [s' Hcp HF|w|w w' t s' Hroom Ht|r mem o Hroom Ho|s' Hroom Hsch|ct p s' Hc|pid r s' Hkill].
  - destruct (so_memory _ _ _ _ _ _ _ Hs) as (c & Hc & Hh). destruct (cp_env _ _ _ _ _ Hcp _ _ _ Hh) as (m' & Hm & Hh').
    exists P, m', l. split; [by eapply computes_ok|]. cbn [k_sched set_k_sched].
    rewrite (cp_tasks _ _ _ _ _ Hcp), HF. eapply fds_frame; [exact Hf|by eauto|done|].
    intros a u q _ _ _ _ [z Hz]. exists z. by eapply lookup_weaken.
  - by exists P, m, l.
  - unfold timer_handler in Ht. apply mbind_Some in Ht as (s1 & Ht & Hsch).
    apply mbind_Some in Hsch as (s2 & Hsch & [= <- <- <-]).
    destruct (tick_kernel _ _ _ _ _ _ Hk Ht) as [Hk1 Hr1]. eapply schedule_kernel; [done|exact Hk1|by apply Hr1|done].
  - by eapply handler_keeps.
  - by eapply schedule_kernel.
  - destruct (creates_spec syms boot_lo boot_hi vfs_root Hlay P m _ l ct p s' Hs Hc) as
      [(_ & e & -> & Hok)|(t & P' & m' & _ & Hcr & _ & _ & Hm & Hok)].
    + exists P, m, l. by eapply kernel_env.
    + exists P', m', (p :: l). split; [done|]. by eapply fds_create.
  - by eapply kill_kernel_ok.
Qed.
Lemma ksteps_ok P m l k k' : okk P m (k_sched k) l -> ksteps k k' ->
  exists P' m' l', okk P' m' (k_sched k') l'.
Proof.
  intros Hk Hst. revert P m l Hk. induction Hst as [k|k k1 k2 Hk1 _ IH]; intros P m l Hk; [by exists P, m, l|].
  destruct (kstep_ok P m l k k1 Hk Hk1) as (P' & m' & l' & Hk'). by eapply IH.
Qed.

(** The state [init_tasking] leaves: one task with the three standard Files. *)
Lemma init_kernel_ok {D'} `{BlockDevice D'} (d : D') junk' g c w e m s : holds ∅ kernel_dir e m ->
  length (tss_words (tss g)) = 25%nat -> init_tasking syms d vfs_root junk' g c w e = Some s ->
  exists m', okk ∅ m' s [].
Proof.
  intros Hh Hg Hi. destruct (init_tasking_spec syms boot_lo boot_hi vfs_root Hlay d junk' g c w e m Hh Hg) as
    [[Hn _]|(s2 & m' & k & Hi' & Hok & Hcur & Hk & _ & _ & [Hsub Hnew] & [Hsf])]; [congruence|].
  rewrite Hi in Hi'. injection Hi' as <-. exists m'. split; [done|].
  destruct Hsf as (f1 & f2 & f3 & Htab & Hnd & Hpos & F1 & F2 & F3 & Hrest).
  assert (Honly : forall a t, tasks s !! a = Some t -> a = K /\ t = k).
  { intros a t Ha. assert (a ∈ [current_task s]) as Hin by (apply (so_dom _ _ _ _ _ _ _ Hok); by eexists).
    apply list_elem_of_singleton in Hin. rewrite Hcur in Hin. subst a. split; [done|congruence]. }
  split.
  - intros a t [-> ->]%Honly. by rewrite Htab.
  - intros a t p [-> ->]%Honly Hp Hz. split; [|by apply Hnew]. rewrite <- (fmap_is_Some f_ops).
    rewrite Htab, !elem_of_cons in Hp. destruct Hp as [->|[->|[->|[? _]%elem_of_replicate]]].
    + rewrite F1. by eexists.
    + rewrite F2. by eexists.
    + rewrite F3. by eexists.
    + done.
  - intros a t p b u _ _ _ [-> ->]%Honly. done.
  - intros a b t u i j p [-> ->]%Honly [-> ->]%Honly Hi1 Hj Hz. split; [done|]. rewrite Htab in Hi1, Hj.
    change (f1 :: f2 :: f3 :: replicate 13 0) with ([f1; f2; f3] ++ replicate 13 0) in Hi1, Hj.
    apply lookup_app_Some in Hi1 as [Hi1|[_ Hi1]]; apply lookup_app_Some in Hj as [Hj|[_ Hj]];
      try by (apply lookup_replicate in Hi1 as [? _]).
    + by eapply NoDup_lookup.
    + by apply lookup_replicate in Hj as [? _].
Qed.
End Run.
