(* ===== verification/SyscallProps.v ===== *)
(** * What the system calls promise

    Bad descriptors are refused, and opening, closing, reading and writing do
    what their names say, as seen through [syscall_handler]. *)
From S2P Require Import Prelude CString Allocator Memory BlockDev DiskLayout SimpleFs FsView FsDir FsInv FsOps FsMount FsIo FsProps.
From S2P Require Import Vfs VfsProps File PortIo Pic Keyboard Vga Console FileProps Gdt Timer Cpu Task TaskRing TaskInv TaskSched.
From S2P Require Import TaskSwitch TaskPick TaskSchedule TaskOps TaskCreate TaskUser Loader TaskExec TaskSteps TaskDemo Registers UserMem.
From S2P Require Import Syscall SyscallInv SyscallMem SyscallOps SyscallRun.

(** ** The descriptor tables *)
Section Descriptors.
Context {E W D : Type} `{LoaderOk E} `{Ports W} `{BlockDevice D}.
Context (syms : symbols) (boot_lo boot_hi : Z) (vfs_root : vfs_node) (junk : list Z) (temp : vfs_node).

(** C3. From init_tasking on, however these happen one after the other: the
    running task computes, devices change, timer interrupts, schedule, system
    calls, create_task, create_user_task, create_user_process and kill_task.
    Every task has 16 descriptors, every one that is not null is the address of
    a File object, no File is the descriptor of two tasks or twice of one,
    looking a descriptor up is defined for every number, and a system call that
    returns has stored in the caller's own memory only.  A system call may have
    any registers, but one that would store through a pointer into a Task, a
    File that a descriptor names or another kernel stack, which the code does
    not check, is undefined and so no step (block headers and page tables are
    not in the caller's memory at all); neither is one made with less than
    48 bytes of stack.  Each creation takes for granted that the process number
    does not wrap, the heap has room for the File objects, the page directory of
    a user task can be made, and the file of a program can be read and there are
    frames for its pages. *)
Theorem kernel_descriptors_sound {D'} `{BlockDevice D'} (d : D') junk' g c w e m s0 io ticks (k : kernel E W D) :
  layout_ok syms boot_lo boot_hi -> holds ∅ kernel_dir e m -> length (tss_words (tss g)) = 25%nat ->
  init_tasking syms d vfs_root junk' g c w e = Some s0 ->
  ksteps syms boot_lo boot_hi vfs_root junk temp (mk_kernel s0 io ticks) k ->
  let s := k_sched k in
  (forall a t, tasks s !! a = Some t -> length (fd_table t) = 16%nat) /\
  (forall a t p, tasks s !! a = Some t -> p ∈ fd_table t -> p <> 0 -> is_Some (files s !! p)) /\
  (forall a b t u i j p, tasks s !! a = Some t -> tasks s !! b = Some u ->
     fd_table t !! i = Some p -> fd_table u !! j = Some p -> p <> 0 -> a = b /\ i = j) /\
  (forall fd, is_Some (get_file s fd)) /\
  forall r mem r' mem' k', syscall_handler syms vfs_root junk temp r mem k = Some (Done r' mem' k') ->
    stores_own s mem mem'.
Proof.
  intros Hlay Hh Hg Hi Hst s.
  destruct (init_kernel_ok syms boot_lo boot_hi vfs_root Hlay d junk' g c w e m s0 Hh Hg Hi) as [m0 Hk0].
  destruct (ksteps_ok syms boot_lo boot_hi vfs_root junk temp Hlay ∅ m0 [] (mk_kernel s0 io ticks) k Hk0 Hst)
    as (P' & m' & l' & Hk). fold s in Hk. destruct (ko_fds _ _ _ _ _ _ _ Hk) as [F1 F2 _ F4].
  split; [done|]. split; [intros a t p Ha Hp Hz; by apply (F2 a t p)|]. split; [done|].
  split; [|intros r mem r' mem' k'; apply handler_stores].
  intros fd. destruct (so_memory _ _ _ _ _ _ _ (ko_sched _ _ _ _ _ _ _ Hk)) as (t & Ht & _).
  destruct (get_file_spec syms m' s t fd (ko_fds _ _ _ _ _ _ _ Hk) Ht) as [[_ ->]|(p & f & _ & _ & ->)]; done.
Qed.
End Descriptors.

Section Calls.
Context {E W D : Type} `{MemoryOk E} `{Ports W} `{BlockDevice D}.
Context (syms : symbols) (boot_lo boot_hi : Z) (vfs_root : vfs_node) (junk : list Z) (temp : vfs_node).
Implicit Types (k : kernel E W D) (r : Registers).
#[local] Abbreviation okk := (kernel_ok syms boot_lo boot_hi).
#[local] Abbreviation handler := (syscall_handler syms vfs_root junk temp).

(** C33. Refusals change nothing: a descriptor out of range or empty, reading stdout
    or stderr and writing stdin, a path that does not resolve, a null or empty
    buffer for the current directory answer -1; a number that is no system call
    is ignored, EAX included. *)
Theorem syscall_refuses P m l r mem k t :
  okk P m (k_sched k) l -> tasks (k_sched k) !! current_task (k_sched k) = Some t ->
  let n := rg_eax r in
  let refused := Some (Done (set_eax 0xFFFFFFFF r) mem k) in
  let through ops := exists p f, descriptor t (i32 (rg_ebx r)) = Some p /\
                       files (k_sched k) !! p = Some f /\ f_ops f = ops in
  ((n = SYS_READ \/ n = SYS_WRITE \/ n = SYS_CLOSE) -> descriptor t (i32 (rg_ebx r)) = None ->
     handler r mem k = refused) /\
  (n = SYS_READ -> through stdout_ops \/ through stderr_ops -> handler r mem k = refused) /\
  (n = SYS_WRITE -> through stdin_ops -> handler r mem k = refused) /\
  (n = SYS_OPEN -> vfs_resolve_path (dev (io_fs (k_io k))) vfs_root (cwd t) junk (path_at mem (rg_ebx r)) = Some None ->
     handler r mem k = refused) /\
  (n = SYS_GETCWD -> rg_ebx r = 0 \/ rg_ecx r = 0 -> handler r mem k = refused) /\
  (n ∉ [SYS_EXIT; SYS_SLEEP; SYS_YIELD; SYS_GETTICK; SYS_READ; SYS_WRITE; SYS_OPEN; SYS_CLOSE; SYS_GETCWD; SYS_CHDIR] ->
     handler r mem k = Some (Done r mem k)).
Proof.
  intros Hk Ht n refused through. unfold syscall_handler. fold n.
  assert (Hgf := get_file_spec syms m (k_sched k) t (i32 (rg_ebx r)) (ko_fds _ _ _ _ _ _ _ Hk) Ht).
  assert (Hthrough : forall ops, through ops -> exists p f, get_file (k_sched k) (i32 (rg_ebx r)) = Some (Some (p, f)) /\ f_ops f = ops).
  { intros ops (p & f & Hd & Hf & Ho). destruct Hgf as [[Hn _]|(q & g & Hd' & Hg & ->)]; [congruence|].
    exists q, g. split; [done|]. congruence. }
  repeat split.
  - intros Hn Hd. destruct Hgf as [[_ Hg]|(p & f & Hd' & _)]; [|congruence].
    destruct Hn as [Hn|[Hn|Hn]]; rewrite Hn; cbn;
      unfold sys_read_case, sys_write_case, sys_close_case; by rewrite Hg.
  - intros Hn Hor. rewrite Hn. cbn. unfold sys_read_case.
    destruct Hor as [Hx|Hx]; destruct (Hthrough _ Hx) as (p & f & -> & Hops); cbn [mbind option_bind];
      unfold file_read; by rewrite Hops.
  - intros Hn Hx. rewrite Hn. cbn. unfold sys_write_case. destruct (Hthrough _ Hx) as (p & f & -> & Hops).
    cbn [mbind option_bind]. unfold file_write. by rewrite Hops.
  - intros Hn Hres. rewrite Hn. cbn. unfold sys_open_case. rewrite Ht. cbn [mbind option_bind]. by rewrite Hres.
  - intros Hn Hz. rewrite Hn. cbn. unfold sys_getcwd_case. by destruct Hz as [->| ->]; rewrite ?orb_true_r.
  - intros Hn. repeat (apply not_elem_of_cons in Hn as [? Hn]). by repeat rewrite (proj2 (Z.eqb_neq n _)) by done.
Qed.

(** C31. open answers the lowest empty descriptor of the caller, which from then on is
    a fresh File at offset 0 for the node the path names; with the table full it
    answers -1 and takes the new File back.  The descriptors, tasks and Files
    that were there stay.  Only without memory for a File is the outcome
    undefined: the code stores through the null pointer before it looks. *)
Theorem sys_open_correct P m l path r mem k t node :
  okk P m (k_sched k) l -> tasks (k_sched k) !! current_task (k_sched k) = Some t ->
  vfs_resolve_path (dev (io_fs (k_io k))) vfs_root (cwd t) junk (path_at mem path) = Some (Some node) ->
  let run := sys_open syms vfs_root junk temp path r mem k in
  (run = None /\ exists e, kmalloc_op (env (k_sched k)) SIZEOF_FILE = Some (0, e)) \/
  exists k' m', k_io k' = k_io k /\ okk P m' (k_sched k') l /\
    ((Forall (fun p => p <> 0) (fd_table t) /\ run = Some (-1, mem, k') /\
        tasks (k_sched k') = tasks (k_sched k) /\
        exists p, m !! p = None /\ files (k_sched k') = delete p (files (k_sched k))) \/
     exists i p, fd_table t !! i = Some 0 /\ (i < 16)%nat /\
       (forall j q, (j < i)%nat -> fd_table t !! j = Some q -> q <> 0) /\
       run = Some (Z.of_nat i, mem, k') /\
       opened m (k_sched k) (k_sched k') t i p node m').
Proof.
  intros Hk Ht Hres run. pose proof (fo_len _ _ _ _ (ko_fds _ _ _ _ _ _ _ Hk) _ _ Ht) as Hl.
  set (r' := set_args SYS_OPEN path (rg_ecx r) (rg_edx r) r).
  assert (Hrun : run = as_int (o ← sys_open_case vfs_root junk r' mem k; returned o)) by reflexivity.
  destruct (sys_open_spec syms boot_lo boot_hi vfs_root junk P m k l r' mem t Hk Ht node Hres) as
    [[Hn He]|(k' & Hio & Htk & [(Hfree & Hr & HT & p & m' & HF & Hp & Hm & Hok)|(i & p & m' & Hfree & Hr & Hop & Hok)])].
  - left. split; [|done]. rewrite Hrun, Hn. done.
  - right. exists k', m'. split; [done|]. split; [done|]. left. split; [by apply lowest_free_None|].
    split; [by rewrite Hrun, Hr|]. split; [done|]. by exists p.
  - right. exists k', m'. split; [done|]. split; [done|]. right. exists i, p.
    destruct (lowest_free_Some _ _ Hfree) as (Hi & Hlt & Hj). split; [done|]. split; [lia|]. split; [done|].
    split; [|done]. rewrite Hrun, Hr. unfold result, as_int. cbn. rewrite u32_small, i32_small by lia. done.
Qed.

(** C32. close of an open descriptor answers 0 and empties it, and no other
    descriptor of any task changes.  The File of a standard stream goes back to
    the heap; that of a regular file is only marked unused and stays allocated,
    with no descriptor left that names it: its memory is lost. *)
Theorem sys_close_correct P m l fd r mem k t p f :
  okk P m (k_sched k) l -> tasks (k_sched k) !! current_task (k_sched k) = Some t ->
  descriptor t fd = Some p -> files (k_sched k) !! p = Some f ->
  exists k' m', sys_close syms vfs_root junk temp fd r mem k = Some (0, mem, k') /\
    k_io k' = k_io k /\ okk P m' (k_sched k') l /\
    tasks (k_sched k') =
      <[current_task (k_sched k) := set_fd_table (<[Z.to_nat fd := 0]> (fd_table t)) t]> (tasks (k_sched k)) /\
    (f_ops f <> vfs_file_ops -> m' = delete p m /\ files (k_sched k') = delete p (files (k_sched k))) /\
    (f_ops f = vfs_file_ops -> m' = m /\ is_Some (m' !! p) /\
       forall a u, tasks (k_sched k') !! a = Some u -> p ∉ fd_table u).
Proof.
  intros Hk Ht Hd Hf. destruct (descriptor_in t fd p Hd) as (Hfd & Hi & Hin & Hz).
  set (r' := set_args SYS_CLOSE (u32 fd) (rg_ecx r) (rg_edx r) r).
  assert (Hrun : sys_close syms vfs_root junk temp fd r mem k = as_int (o ← sys_close_case r' mem k; returned o)) by reflexivity.
  assert (Hfd' : i32 (rg_ebx r') = fd) by (cbn; rewrite u32_small, i32_small by lia; done).
  pose proof (ko_fds _ _ _ _ _ _ _ Hk) as Hfds. pose proof (fo_len _ _ _ _ Hfds _ _ Ht) as Hl.
  destruct (sys_close_spec syms boot_lo boot_hi P m k l r' mem t Hk Ht) as
    [[Hn _]|(q & g & k' & m' & Hq & Hg & Hr & Hio & Htk & [HT HF] & Hm & Hok)]; rewrite Hfd' in *; [congruence|].
  assert (q = p) as -> by congruence. assert (g = f) as -> by congruence.
  exists k', m'. split; [by rewrite Hrun, Hr|]. split; [done|]. split; [done|]. split; [done|]. split.
  - intros Hne. rewrite Hm, decide_False by done. split; [done|]. rewrite HF. by destruct (f_ops f).
  - intros He. rewrite Hm, decide_True by done. split; [done|]. split; [by destruct (fo_open _ _ _ _ Hfds _ t p Ht Hin Hz)|].
    intros a u Ha [j Hj]%list_elem_of_lookup. rewrite HT in Ha.
    apply lookup_insert_Some in Ha as [[<- <-]|[Hne Ha]].
    + cbn [fd_table set_fd_table] in Hj. destruct (decide (j = Z.to_nat fd)) as [->|Hjf].
      * rewrite list_lookup_insert_eq in Hj by lia. congruence.
      * rewrite list_lookup_insert_ne in Hj by done.
        by destruct (fo_once _ _ _ _ Hfds _ _ t t j (Z.to_nat fd) p Ht Ht Hj Hi Hz).
    + by destruct (fo_once _ _ _ _ Hfds _ _ u t j (Z.to_nat fd) p Ha Ht Hj Hi Hz).
Qed.
End Calls.

(** ** Reading and writing *)
Section Io.
Context {E W D : Type} `{MemoryOk E} `{Ports W} `{BlockDeviceOk D}.
Context (syms : symbols) (boot_lo boot_hi : Z) (vfs_root : vfs_node) (junk : list Z) (temp : vfs_node).
Implicit Types (k : kernel E W D) (r : Registers).
#[local] Abbreviation okk := (kernel_ok syms boot_lo boot_hi).

(** The caller [t] has the File [f] as its descriptor [fd]. *)
Definition has_file k (t : Task) (fd : Z) (p : Z) (f : File) : Prop :=
  tasks (k_sched k) !! current_task (k_sched k) = Some t /\
  descriptor t fd = Some p /\ files (k_sched k) !! p = Some f.
Lemma has_file_get k t fd p f : has_file k t fd p f -> i32 (u32 fd) = fd /\
  get_file (k_sched k) fd = Some (Some (p, f)).
Proof.
  intros (Ht & Hd & Hf). destruct (descriptor_in t fd p Hd) as (Hfd & Hi & _ & Hz).
  split; [by rewrite u32_small, i32_small by lia|]. unfold get_file, MAX_FD.
  rewrite (proj2 (Z.ltb_ge fd 0)), (proj2 (Z.leb_gt 16 fd)) by lia. cbn [orb]. rewrite Ht. cbn [mbind option_bind].
  unfold zget. rewrite decide_True by lia. rewrite Hi. cbn [mbind option_bind].
  rewrite (proj2 (Z.eqb_neq p 0)) by done. by rewrite Hf.
Qed.
Lemma sys_read_eq fd buf count r mem k t p f : has_file k t fd p f ->
  sys_read syms vfs_root junk temp fd buf count r mem k =
  (x ← file_read (k_io k) f (object (own (k_sched k) mem) buf) count;
   match x with
   | None => Some (-1, mem, k)
   | Some (n, bytes, f, w) => Some (i32 (u32 n), put_bytes mem buf bytes,
       set_k_io w (set_k_sched (set_files (<[p := f]> (files (k_sched k))) (k_sched k)) k))
   end).
Proof.
  intros Hf. destruct (has_file_get k t fd p f Hf) as [Hfd Hg].
  unfold sys_read, call, syscall_handler. cbn. unfold sys_read_case. cbn. rewrite Hfd, Hg. cbn [mbind option_bind].
  by destruct (file_read (k_io k) f (object (own (k_sched k) mem) buf) count) as [[[[[n bytes] f'] w]|]|].
Qed.
Lemma sys_write_eq fd buf count r mem k t p f : has_file k t fd p f ->
  sys_write syms vfs_root junk temp fd buf count r mem k =
  (x ← file_write (k_io k) f (object mem buf) count;
   match x with
   | None => Some (-1, mem, k)
   | Some (n, f, w) => Some (i32 (u32 n), mem,
       set_k_io w (set_k_sched (set_files (<[p := f]> (files (k_sched k))) (k_sched k)) k))
   end).
Proof.
  intros Hf. destruct (has_file_get k t fd p f Hf) as [Hfd Hg].
  unfold sys_write, call, syscall_handler. cbn. unfold sys_write_case. cbn. rewrite Hfd, Hg. cbn [mbind option_bind].
  by destruct (file_write (k_io k) f (object mem buf) count) as [[[[n f'] w]|]|].
Qed.

(** C34. Reading the keyboard through a descriptor: the first [count] waiting keys,
    or as many as wait, go to the caller's buffer in the order they were
    pressed and leave the queue; nothing else of the caller's memory changes.
    The buffer is memory of the caller ([own]): no byte of it is a Task's, an open
    File's or another kernel stack's. *)
Theorem sys_read_takes_keys fd buf count r mem k t p f :
  has_file k t fd p f -> f_ops f = stdin_ops ->
  kbd_wf (io_kbd (k_io k)) -> 0 ∉ keys (io_kbd (k_io k)) ->
  0 <= count < 2147483648 -> readable (own (k_sched k) mem) buf (Z.to_nat count) ->
  let waiting := keys (io_kbd (k_io k)) in
  let n := Nat.min (Z.to_nat count) (length waiting) in
  exists k', sys_read syms vfs_root junk temp fd buf count r mem k =
      Some (Z.of_nat n, put_bytes mem buf (take n waiting), k') /\
    keys (io_kbd (k_io k')) = drop n waiting /\ kbd_wf (io_kbd (k_io k')) /\
    io_fs (k_io k') = io_fs (k_io k) /\ io_vga (k_io k') = io_vga (k_io k).
Proof.
  intros Hf Hops Hk Hz Hc Hm waiting n. pose proof (readable_object _ _ _ Hm) as Hlen.
  rewrite (sys_read_eq _ _ _ _ _ _ t p f Hf). unfold file_read. rewrite Hops.
  destruct (stdin_loop_spec count 128 (io_kbd (k_io k)) [] (object (own (k_sched k) mem) buf) Hk Hz) as (k' & Heq & Hk' & Hks).
  { pose proof (pending_lt (io_kbd (k_io k))). rewrite keys_length. lia. }
  { cbn [length]. lia. }
  { cbn [length]. lia. }
  cbn [length app] in Heq, Hks. change (Z.of_nat 0) with 0 in Heq, Hks. rewrite Z.sub_0_r in Heq, Hks.
  fold waiting n in Heq, Hks. unfold stdin_read. rewrite Heq. cbn [mbind option_bind Nat.add].
  assert (Hn : (n <= length waiting)%nat) by lia. rewrite (i32_small (Z.of_nat n)), u32_small, i32_small by lia.
  assert (Hput : put_bytes mem buf (take n waiting ++ drop n (object (own (k_sched k) mem) buf)) = put_bytes mem buf (take n waiting)).
  { pose proof (put_front mem _ buf (take n waiting) (own_mem (k_sched k) mem)) as Hp.
    rewrite length_take_le in Hp by done. apply Hp. lia. }
  rewrite Hput. eexists. split; [reflexivity|]. split; [exact Hks|]. split; [exact Hk'|]. by split.
Qed.

(** C6. What is written through a fresh descriptor of a file is read back through
    another fresh descriptor of the same file: with both offsets 0, the write
    answers 0, the read the count, and what the caller finds in the second
    buffer is what it had in the first; no other byte of its memory changes.
    (Through one and the same descriptor a cursor would stand behind the bytes
    written; the code has none, [file_offset_is_ignored].) *)
Theorem sys_write_read_roundtrip N T B fd fd2 buf rbuf count r mem k t p p2 f f2 node node2 nm nm2 i c :
  has_file k t fd p f -> has_file k t fd2 p2 f2 -> p <> p2 ->
  f_ops f = vfs_file_ops -> f_ops f2 = vfs_file_ops -> f_offset f = 0 -> f_offset f2 = 0 ->
  f_node f = Some node -> f_node f2 = Some node2 ->
  fs_rel (io_fs (k_io k)) N T B -> file_node T B node nm i c -> file_node T B node2 nm2 i c ->
  map_Forall (fun _ b => 0 <= b < 256) mem -> 0 <= count <= MAX_FILE ->
  readable mem buf (Z.to_nat count) -> readable (own (k_sched k) mem) rbuf (Z.to_nat count) ->
  exists k1 k2 mem2, sys_write syms vfs_root junk temp fd buf count r mem k = Some (0, mem, k1) /\
    sys_read syms vfs_root junk temp fd2 rbuf count r mem k1 = Some (count, mem2, k2) /\
    take (Z.to_nat count) (object mem2 rbuf) = take (Z.to_nat count) (object mem buf) /\
    forall a, ~ (rbuf <= a < rbuf + count) -> mem2 !! a = mem !! a.
Proof.
  intros Hf Hf2 Hne Hops Hops2 _ _ Hnode Hnode2 Hrel Hfn Hfn2 Hb Hc Hm1 Hm2. unfold MAX_FILE in *.
  pose proof (readable_object _ _ _ Hm1) as Hl1. pose proof (readable_object _ _ _ Hm2) as Hl2.
  rewrite (sys_write_eq _ _ _ _ _ _ t p f Hf). unfold file_write. rewrite Hops.
  destruct (vfs_file_write_spec (io_fs (k_io k)) N T B node nm i c f (object mem buf) count Hrel Hfn Hnode) as
    (fs' & T' & B' & node' & -> & Hrel' & Hfn' & Hfind & _); [by apply object_bytes|unfold MAX_FILE; lia|lia|].
  cbn [mbind option_bind]. set (bs := take (Z.to_nat count) (object mem buf)) in *.
  assert (Hbs : length bs = Z.to_nat count) by (unfold bs; rewrite length_take; lia).
  set (k1 := set_k_io _ _). exists k1.
  assert (Hf1 : has_file k1 t fd2 p2 f2).
  { destruct Hf2 as (Ht & Hd & Hp). split; [done|]. split; [done|]. unfold k1. cbn. by rewrite lookup_insert_ne. }
  rewrite (sys_read_eq _ _ _ _ _ _ t p2 _ Hf1). unfold file_read. rewrite Hops2.
  change (io_fs (k_io k1)) with fs'.
  pose proof (other_node _ _ _ _ _ _ _ _ _ _ _ Hfn' Hfind Hfn2) as Hfn2'.
  rewrite (vfs_file_read_spec fs' N T' B' node2 nm2 i bs _ _ _ Hrel' Hfn2') by (done || (change (own (k_sched k1) mem) with (own (k_sched k) mem); lia)).
  cbn [mbind option_bind]. rewrite Hbs, Nat.min_id, take_ge by lia.
  rewrite (Z2Nat.id count), (u32_small count), (i32_small count) by lia.
  eexists _, (put_bytes mem rbuf bs). split; [done|]. split; [|split].
  - pose proof (put_front mem _ rbuf bs (own_mem (k_sched k) mem)) as Hput.
    change (own (k_sched k1) mem) with (own (k_sched k) mem). rewrite Hbs in Hput. rewrite Hput by lia. reflexivity.
  - rewrite <- Hbs. apply object_put. rewrite Hbs. exact (readable_weaken _ _ _ _ (own_mem (k_sched k) mem) Hm2).
  - intros a Ha. rewrite put_bytes_lookup, decide_False; [done|]. rewrite Hbs. lia.
Qed.
End Io.

(** ** Examples *)
Import RamDisk Arena ArenaLoader Crtc.
#[local] Abbreviation demo_kernel := (kernel Arena.t Crtc.t disk).

(** The kernel's task alone, with a keyboard, a screen and a file system. *)
Definition demo_k (f : fs disk) : demo_kernel := mk_kernel demo0 (mk_io demo_kbd demo_screen f) 0.
Definition demo_regs : Registers := mk_registers 0 0 0 0 0 0 0 0 0 0 0 0 0x1000 0x08 0x0202.
(** ["/"] at 0x5000. *)
Definition demo_mem : memory_map := {[0x5000 := 47; 0x5001 := 0]}.

Lemma demo_k_ok f : exists m, kernel_ok demo_syms BOOT_LO BOOT_HI ∅ m (k_sched (demo_k f)) [].
Proof.
  exact (init_kernel_ok demo_syms BOOT_LO BOOT_HI slash demo_layout blank [] gdt_boot boot_cpu ∅ arena0 ∅
    demo0 arena0_holds eq_refl demo0_eq).
Qed.
Lemma demo_has_file f (i : nat) ops : nth_error [stdin_ops; stdout_ops; stderr_ops] i = Some ops ->
  exists t p g, has_file (demo_k f) t (Z.of_nat i) p g /\ f_ops g = ops /\ cwd t = slash.
Proof.
  destruct i as [|[|[|i]]]; cbn; [| | |by destruct i]; intros [= <-];
    eexists _, _, _; (split; [split; [|split]|split]; vm_compute; reflexivity).
Qed.
Lemma demo_room f : has_room demo_syms BOOT_LO BOOT_HI (k_sched (demo_k f)).
Proof. intros t Ht. vm_compute in Ht. injection Ht as <-. by vm_compute. Qed.

Lemma kernel_descriptors_sound_witness : exists k : demo_kernel,
  ksteps demo_syms BOOT_LO BOOT_HI slash [] slash (demo_k demo_fs) k /\ k_sched k <> demo0 /\
  is_Some (get_file (k_sched k) 1).
Proof.
  destruct (demo_k_ok demo_fs) as [m Hk]. destruct (demo_has_file demo_fs 1 stdout_ops eq_refl) as
    (t & p & g & (Ht & Hd & Hf) & _).
  destruct (sys_close_spec demo_syms BOOT_LO BOOT_HI ∅ m (demo_k demo_fs) []
    (set_args SYS_CLOSE 1 0 0 demo_regs) ∅ t Hk Ht) as [[Hn _]|(q & h & k' & m' & _ & _ & Hr & _ & _ & [HT _] & _)].
  { change (descriptor t 1 = None) in Hn. change (descriptor t 1 = Some p) in Hd. congruence. }
  assert (Hst : ksteps demo_syms BOOT_LO BOOT_HI slash [] slash (demo_k demo_fs) k').
  { eapply ksteps_more; [|apply ksteps_refl].
    exact (ks_call demo_syms BOOT_LO BOOT_HI slash [] slash (demo_k demo_fs) (set_args SYS_CLOSE 1 0 0 demo_regs) ∅
      _ (demo_room demo_fs) Hr). }
  exists k'. split; [exact Hst|]. split.
  - intros Heq. rewrite Heq in HT. apply (f_equal (fun T => T !! current_task demo0)) in HT.
    rewrite lookup_insert_eq in HT. change (tasks demo0 !! current_task demo0 = Some t) in Ht. rewrite Ht in HT.
    injection HT as HT. apply (f_equal (fun x => descriptor x 1)) in HT.
    change (descriptor t (Z.of_nat 1)) with (descriptor t 1) in Hd. rewrite Hd in HT.
    unfold descriptor in HT. cbn [fd_table set_fd_table] in HT. change (i32 _) with 1 in HT.
    destruct (descriptor_in t 1 p Hd) as (_ & Hi & _).
    rewrite decide_True, list_lookup_insert_eq in HT by (done || by eapply lookup_lt_Some). done.
  - destruct (kernel_descriptors_sound demo_syms BOOT_LO BOOT_HI slash [] slash blank [] gdt_boot boot_cpu ∅
      arena0 ∅ demo0 (k_io (demo_k demo_fs)) 0 k' demo_layout arena0_holds eq_refl demo0_eq Hst)
      as (_ & _ & _ & Hget & _). apply Hget.
Defined.

Lemma syscall_refuses_witness :
  syscall_handler demo_syms slash [] slash (set_args SYS_READ 99 0x5000 1 demo_regs) demo_mem (demo_k demo_fs) =
  Some (Done (set_eax 0xFFFFFFFF (set_args SYS_READ 99 0x5000 1 demo_regs)) demo_mem (demo_k demo_fs)).
Proof.
  destruct (demo_k_ok demo_fs) as [m Hk]. destruct (demo_has_file demo_fs 1 stdout_ops eq_refl) as
    (t & p & g & (Ht & _ & _) & _).
  destruct (syscall_refuses demo_syms BOOT_LO BOOT_HI slash [] slash ∅ m []
    (set_args SYS_READ 99 0x5000 1 demo_regs) demo_mem (demo_k demo_fs) t Hk Ht) as [Hbad _].
  apply Hbad; [by left|reflexivity].
Defined.

Lemma sys_open_correct_witness : exists k' i,
  sys_open demo_syms slash [] slash 0x5000 demo_regs demo_mem (demo_k demo_fs) = Some (Z.of_nat i, demo_mem, k').
Proof.
  destruct (demo_k_ok demo_fs) as [m Hk]. destruct (demo_has_file demo_fs 1 stdout_ops eq_refl) as
    (t & p & g & (Ht & _ & _) & _ & Hcwd).
  destruct (sys_open_correct demo_syms BOOT_LO BOOT_HI slash [] slash ∅ m [] 0x5000 demo_regs demo_mem
    (demo_k demo_fs) t slash Hk Ht) as [[_ [e He]]|(k' & m' & _ & _ & [(Hfull & _)|(i & q & _ & _ & _ & Hr & _)])].
  - rewrite Hcwd. reflexivity.
  - exfalso. vm_compute in He. discriminate He.
  - exfalso. vm_compute in Ht. injection Ht as <-. rewrite Forall_forall in Hfull.
    apply (Hfull 0); [|reflexivity]. cbn [fd_table]. by do 3 right; left.
  - exists k', i. exact Hr.
Defined.

Lemma sys_close_correct_witness : exists k',
  sys_close demo_syms slash [] slash 1 demo_regs demo_mem (demo_k demo_fs) = Some (0, demo_mem, k').
Proof.
  destruct (demo_k_ok demo_fs) as [m Hk]. destruct (demo_has_file demo_fs 1 stdout_ops eq_refl) as
    (t & p & g & (Ht & Hd & Hf) & _).
  destruct (sys_close_correct demo_syms BOOT_LO BOOT_HI slash [] slash ∅ m [] 1 demo_regs demo_mem
    (demo_k demo_fs) t p g Hk Ht Hd Hf) as (k' & m' & Hr & _).
  exists k'. exact Hr.
Defined.

Lemma demo_readable n : (n <= 2)%nat -> readable demo_mem 0x5000 n.
Proof.
  intros Hn i Hi. destruct i as [|[|i]]; [by exists 47|by exists 0|lia].
Qed.
Lemma demo_own (k : demo_kernel) n : (forall a, 0x5000 <= a < 0x5002 -> kernel_object (k_sched k) a = false) ->
  (n <= 2)%nat -> readable (own (k_sched k) demo_mem) 0x5000 n.
Proof.
  intros Ha Hn. rewrite own_all; [by apply demo_readable|]. intros a [b Hb]. apply Ha. unfold demo_mem in Hb.
  apply lookup_insert_Some in Hb as [[<- _]|[_ [<- _]%lookup_singleton_Some]]; lia.
Qed.
Lemma demo_apart (k : demo_kernel) : kernel_object (k_sched k) 0x5000 = false -> kernel_object (k_sched k) 0x5001 = false ->
  forall a, 0x5000 <= a < 0x5002 -> kernel_object (k_sched k) a = false.
Proof. intros H0 H1 a Ha. assert (a = 0x5000 \/ a = 0x5001) as [->| ->] by lia; done. Qed.
Lemma sys_read_takes_keys_witness : exists k',
  sys_read demo_syms slash [] slash 0 0x5000 2 demo_regs demo_mem (demo_k demo_fs) =
    Some (1, put_bytes demo_mem 0x5000 [97], k') /\ keys (io_kbd (k_io k')) = [].
Proof.
  destruct (demo_has_file demo_fs 0 stdin_ops eq_refl) as (t & p & g & Hf & Hops & _).
  destruct (sys_read_takes_keys demo_syms slash [] slash 0 0x5000 2 demo_regs demo_mem (demo_k demo_fs) t p g Hf Hops)
    as (k' & Hr & Hk & _).
  - exact demo_kbd_wf.
  - change (0 ∉ [97]). by intros [? | []%elem_of_nil]%elem_of_cons.
  - lia.
  - apply demo_own; [|lia]. apply demo_apart; vm_compute; reflexivity.
  - exists k'. split; [exact Hr|exact Hk].
Defined.

(** A task whose descriptors 3 and 4 are the file [node]. *)
Definition demo_task : Task :=
  mk_task 0 0 0 0 0 0 false TASK_RUNNING 0 0x100 [0; 0; 0; 0x9000; 0x9100] slash.
Definition demo_open (node : vfs_node) (f : fs disk) : demo_kernel :=
  mk_kernel (mk_sched {[0x100 := demo_task]} {[0x9000 := regular node; 0x9100 := regular node]} ∅ 0x100 1
    gdt_boot boot_cpu arena0) (mk_io demo_kbd demo_screen f) 0.
Lemma sys_write_read_roundtrip_witness : exists (f : fs disk) node k1 k2 mem2,
  sys_write demo_syms slash [] slash 3 0x5000 2 demo_regs demo_mem (demo_open node f) = Some (0, demo_mem, k1) /\
  sys_read demo_syms slash [] slash 4 0x5000 2 demo_regs demo_mem k1 = Some (2, mem2, k2).
Proof.
  destruct demo_file_node as (f & T & B & node & i & Hrel & Hfn). exists f, node.
  destruct (sys_write_read_roundtrip demo_syms slash [] slash 32768 T B 3 4 0x5000 0x5000 2 demo_regs demo_mem
    (demo_open node f) demo_task 0x9000 0x9100 (regular node) (regular node) node node name_a name_a i [])
    as (k1 & k2 & mem2 & Hw & Hr & _).
  - split; [reflexivity|]. split; reflexivity.
  - split; [reflexivity|]. split; reflexivity.
  - discriminate.
  - reflexivity.
  - reflexivity.
  - reflexivity.
  - reflexivity.
  - reflexivity.
  - reflexivity.
  - exact Hrel.
  - exact Hfn.
  - exact Hfn.
  - unfold demo_mem. intros a b [[<- <-]|[_ [<- <-]%lookup_singleton_Some]]%lookup_insert_Some; lia.
  - unfold MAX_FILE. lia.
  - by apply demo_readable.
  - apply demo_own; [|lia]. apply demo_apart; vm_compute; reflexivity.
  - exists k1, k2, mem2. split; [exact Hw|exact Hr].
Defined.
