(* ===== verification/Shell.v ===== *)
(** * shell/shell.cpp: the command shell

    The shell is the kernel's task.  It reads keys and prints through the system
    calls, and calls the memory managers, the file system and the scheduler
    directly.  A string argument of a system call lies at [addr]; [uninit n] is
    what an uninitialised array of [n] bytes holds, [temp] an uninitialised
    node, and [regs] the registers around a call.  [None] is an undefined
    result; [inr] a machine that halted on a fault. *)
From S2P Require Import Prelude CString Pmm Heap Allocator Paging Vmm Memory Machine BlockDev DiskLayout SimpleFs Vfs File.
From S2P Require Import PortIo Pic Keyboard Vga Console Gdt Timer Cpu Task Dump Registers UserMem Syscall.
Open Scope Z_scope.

Inductive handler_name :=
  | cmd_help | cmd_clear | cmd_sysinfo | cmd_meminfo | cmd_alloc | cmd_test | cmd_fault | cmd_heap | cmd_ps
  | cmd_kill | cmd_touch | cmd_mkdir | cmd_cd | cmd_ls | cmd_pwd | cmd_write | cmd_cat | cmd_exec.
Record Command := mk_command { name : list Z; description : list Z; handler : handler_name }.
Definition command (n d : string) (h : handler_name) : Command := mk_command (lit n) (lit d) h.
Definition commands : list Command := [
  command "help" "Show this help menu" cmd_help;
  command "clear" "Clear the screen" cmd_clear;
  command "sysinfo" "Show system configuration information" cmd_sysinfo;
  command "meminfo" "Show physical memory usage (PMM)" cmd_meminfo;
  command "alloc" "Test allocating a 4KB physical page" cmd_alloc;
  command "test" "Test function" cmd_test;
  command "fault" "Trigger a Page Fault exception (read unmapped addr)" cmd_fault;
  command "heap" "Display kernel heap memory blocks" cmd_heap;
  command "ps" "List all running tasks/processes" cmd_ps;
  command "kill" "Terminate a task by PID (e.g. kill 1)" cmd_kill;
  command "touch" "Create an empty file" cmd_touch;
  command "mkdir" "Create a directory" cmd_mkdir;
  command "cd" "Change directory" cmd_cd;
  command "ls" "List directory contents" cmd_ls;
  command "pwd" "Print working directory" cmd_pwd;
  command "write" "Write text to a file (e.g. write file.txt hello)" cmd_write;
  command "cat" "Display file content (e.g. cat file.txt)" cmd_cat;
  command "exec" "Execute a binary file" cmd_exec ].

(** A literal that ends in '\n'. *)
Definition line (s : string) : list Z := cbuf (codes s ++ [newline]).

(** ** The parsers *)
(** [while ( *p == ' ') p++;] *)
Fixpoint skip_blanks (p : list Z) : option (list Z) :=
  match p with
  | [] => None
  | c :: rest => if c =? 32 then skip_blanks rest else Some p
  end.
(** [while ( *p != ' ' && *p != '\0' && i < limit) buf[i++] = *p++;] *)
Fixpoint copy_word (limit : Z) (p buf : list Z) (i : Z) : option (list Z * list Z * Z) :=
  match p with
  | [] => None
  | c :: rest =>
      if negb (c =? 32) && negb (c =? 0) && (i <? limit) then
        buf ← zset buf i c; copy_word limit rest buf (i + 1)
      else Some (p, buf, i)
  end.

Section Shell.
Context {W D : Type} `{Ports W} `{BlockDevice D}.
Context (im : vmm_image) (syms : symbols) (vfs_root : vfs_node).
Context (uninit : nat -> list Z) (temp : vfs_node) (addr : Z) (regs : Registers).
#[local] Hint Extern 0 (Memory (heap vm)) => exact (machine_memory im) : typeclass_instances.
#[local] Abbreviation kernel := (kernel (heap vm) W D).
Implicit Types (k : kernel) (arg cmd : list Z).

(** ** Output *)
Definition shell_write (fd : Z) (s : list Z) (count : Z) k : option kernel :=
  '(_, _, k) ← sys_write syms vfs_root (uninit 256) temp fd addr count regs (put_bytes ∅ addr s) k; Some k.
Definition shell_print (str : option (list Z)) k : option kernel :=
  match str with
  | None => Some k
  | Some s => len ← strlen s; shell_write 1 s len k
  end.
Definition shell_print_char (c : Z) k : option kernel := shell_write 1 [c] 1 k.
Definition shell_error (str : option (list Z)) k : option kernel :=
  match str with
  | None => Some k
  | Some s => len ← strlen s; shell_write 2 s len k
  end.
(** A number printed through a local buffer. *)
Definition shell_itoa (num base : Z) (buf : list Z) k : option (list Z * kernel) :=
  buf ← itoa_u num buf base; k ← shell_print (Some buf) k; Some (buf, k).

Definition set_vga v k : kernel := set_k_io (mk_io (io_kbd (k_io k)) v (io_fs (k_io k))) k.
Definition set_fs f k : kernel := set_k_io (mk_io (io_kbd (k_io k)) (io_vga (k_io k)) f) k.
Definition current k : option Task := tasks (k_sched k) !! current_task (k_sched k).
(** [vfs_resolve_path(path, &node)] *)
Definition resolve (path : list Z) k : option (option vfs_node) :=
  cur ← current k; vfs_resolve_path (dev (io_fs (k_io k))) vfs_root (cwd cur) (uninit 256) (Some path).

(** The answer of [sys_getcwd(path_buf, 256)] and the array afterwards. *)
Definition shell_getcwd k : option (Z * list Z * kernel) :=
  '(ret, mem, k) ← sys_getcwd syms vfs_root (uninit 256) temp addr 256 regs (put_bytes ∅ addr (uninit 256)) k;
  Some (ret, object mem addr, k).
Definition print_prompt k : option kernel :=
  '(_, path_buf, k) ← shell_getcwd k;
  k ← shell_print (Some path_buf) k;
  shell_print (Some (lit "$ ")) k.

(** [n] rounds of the loop from [i]; [entry] is the local node. *)
Fixpoint dir_entries_loop (n : nat) (dir : vfs_node) (i : Z) (entry : vfs_node) k : option kernel :=
  match n with
  | O => Some k
  | S n' =>
      r ← vfs_readdir (dev (io_fs (k_io k))) dir i entry;
      match r with
      | None => dir_entries_loop n' dir (i + 1) entry k
      | Some entry =>
          k ← shell_print (Some (n_name entry)) k;
          k ← (if has_flag (n_flags entry) VFS_DIRECTORY then shell_print (Some (lit "/")) k else Some k);
          k ← shell_print (Some (line "")) k;
          dir_entries_loop n' dir (i + 1) entry k
      end
  end.
Definition print_dir_entries (dir : option vfs_node) k : option kernel :=
  match dir with None => Some k | Some dir => dir_entries_loop 16 dir 0 temp k end.

(** ** The commands *)
(** [for (s = 0; s < n; s++)] *)
Fixpoint print_spaces (n : nat) k : option kernel :=
  match n with O => Some k | S n' => k ← shell_print_char 32 k; print_spaces n' k end.
Fixpoint help_loop (cs : list Command) k : option kernel :=
  match cs with
  | [] => Some k
  | c :: cs' =>
      k ← shell_print (Some (lit "  ")) k;
      k ← shell_print (Some (name c)) k;
      len ← strlen (name c);
      k ← print_spaces (Z.to_nat (10 - i32 len)) k;
      k ← shell_print (Some (lit "- ")) k;
      k ← shell_print (Some (description c)) k;
      k ← shell_print (Some (line "")) k;
      help_loop cs' k
  end.
Definition run_help k : option kernel :=
  k ← shell_print (Some (line "NOSMERI-OS Command Shell. Available commands:")) k; help_loop commands k.
Definition run_clear k : option kernel := shell_print_char 12 k.
Definition run_sysinfo k : option kernel :=
  k ← shell_print (Some (line "NOSMERI-OS System Information:")) k;
  k ← shell_print (Some (line "  OS Name       : NOSMERI-OS")) k;
  k ← shell_print (Some (line "  Kernel Version: 1.0.0")) k;
  k ← shell_print (Some (line "  Architecture  : x86 (32-bit)")) k;
  k ← shell_print (Some (line "  GDT Status    : Initialized (Active)")) k;
  k ← shell_print (Some (line "  IDT Status    : Initialized (Active)")) k;
  shell_print (Some (line "  Timer Status  : 100Hz PIT Active")) k.

Definition frames k : pmm := vm_pmm (provider (env (k_sched k))).
Definition run_meminfo k : option kernel :=
  let p := frames k in
  let buf := uninit 32 in
  k ← shell_print (Some (line "Physical Memory Information (PMM):")) k;
  k ← shell_print (Some (lit "  Total Memory : ")) k;
  '(buf, k) ← shell_itoa (pmm_get_total_memory_kb p / 1024) 10 buf k;
  k ← shell_print (Some (lit " MB (")) k;
  '(buf, k) ← shell_itoa (pmm_get_total_pages p) 10 buf k;
  k ← shell_print (Some (line " pages)")) k;
  k ← shell_print (Some (lit "  Used Memory  : ")) k;
  '(buf, k) ← shell_itoa (pmm_get_used_memory_kb p) 10 buf k;
  k ← shell_print (Some (lit " KB (")) k;
  '(buf, k) ← shell_itoa (pmm_get_used_pages p) 10 buf k;
  k ← shell_print (Some (line " pages)")) k;
  k ← shell_print (Some (lit "  Free Memory  : ")) k;
  '(buf, k) ← shell_itoa (pmm_get_free_memory_kb p / 1024) 10 buf k;
  k ← shell_print (Some (lit " MB (")) k;
  '(buf, k) ← shell_itoa (pmm_get_free_pages p) 10 buf k;
  shell_print (Some (line " pages)")) k.

Definition run_alloc k : option kernel :=
  '(page, e) ← pmm_alloc_op (env (k_sched k));
  let k := set_k_sched (set_env e (k_sched k)) k in
  if negb (page =? 0) then
    k ← shell_print (Some (lit "Allocated 4KB Page at Physical Address: 0x")) k;
    '(_, k) ← shell_itoa page 16 (uninit 32) k;
    shell_print (Some (line "")) k
  else shell_print (Some (line "Failed to allocate page: Out of Memory!")) k.

Definition run_test k : option kernel :=
  k ← shell_write 1 (line "[FD Test] stdout (fd 1) output!") 32 k;
  shell_write 2 (line "[FD Test] stderr (fd 2) red error output!") 42 k.

(** Reading an address that no page table maps: the fault handler, error code 0
    (not present, read, ring 0).  It may repair the tables and have the read
    done again. *)
Definition run_fault k : option (kernel + vga W) :=
  k ← shell_print (Some (line "Deliberately accessing unmapped address 0xA0000000 to trigger Page Fault...")) k;
  let h := env (k_sched k) in
  match load (provider h) 0xA0000000 with
  | Some _ => Some (inl k)
  | None =>
      r ← page_fault_handler im (provider h) (io_vga (k_io k)) (uninit 32) 0xA0000000 0;
      match r with
      | Halted v => Some (inr v)
      | Resume s => _ ← load s 0xA0000000; Some (inl (set_k_sched (set_env (set_provider h s) (k_sched k)) k))
      end
  end.

Definition run_heap k : option kernel :=
  v ← heap_dump (env (k_sched k)) (io_vga (k_io k)) (uninit 32); Some (set_vga v k).
Definition run_ps k : option kernel :=
  v ← task_dump (k_sched k) (io_vga (k_io k)) (uninit 32); Some (set_vga v k).

(** ** Commands with an argument: [None] of [first_char] reads past the end *)
Definition no_argument arg : option bool := c ← zget arg 0; Some (c =? 0).
Definition run_kill arg k : option kernel :=
  arg ← skip_blanks arg;
  e ← no_argument arg;
  if e : bool then shell_print (Some (line "Usage: kill <pid>")) k else
  pid ← atoi arg;
  '(r, s) ← kill_task (k_sched k) (u32 pid);
  let k := set_k_sched s k in
  if negb (r =? -1) then shell_print (Some (line "Task killed successfully.")) k
  else shell_print (Some (line "Failed to kill task (invalid PID or kernel task).")) k.
(** touch and mkdir differ in the call and the messages. *)
Definition run_make (make : fs D -> vfs_node -> list Z -> bool -> option (Z * fs D * option vfs_node))
    (usage failed : list Z) arg k : option kernel :=
  arg ← skip_blanks arg;
  e ← no_argument arg;
  if e : bool then shell_print (Some usage) k else
  cur ← current k;
  '(r, f, _) ← make (io_fs (k_io k)) (cwd cur) arg false;
  let k := set_fs f k in
  if negb (r =? 0) then shell_print (Some failed) k else Some k.
Definition run_touch := run_make vfs_create (line "Usage: touch <filename>")
  (line "Failed to create file (already exists or disk full)").
Definition run_mkdir := run_make vfs_mkdir (line "Usage: mkdir <dirname>")
  (line "Failed to create directory (already exists or disk full)").
Definition run_cd arg k : option kernel :=
  arg ← skip_blanks arg;
  e ← no_argument arg;
  if e : bool then shell_print (Some (line "Usage: cd <path>")) k else
  '(r, _, k) ← sys_chdir syms vfs_root (uninit 256) temp addr regs (put_bytes ∅ addr arg) k;
  if negb (r =? 0) then shell_print (Some (line "Directory not found")) k else Some k.
Definition run_ls arg k : option kernel :=
  arg ← skip_blanks arg;
  e ← no_argument arg;
  if e : bool then cur ← current k; print_dir_entries (Some (cwd cur)) k else
  r ← resolve arg k;
  match r with
  | Some node =>
      if has_flag (n_flags node) VFS_DIRECTORY then print_dir_entries (Some node) k
      else shell_print (Some (line "Directory not found")) k
  | None => shell_print (Some (line "Directory not found")) k
  end.
Definition run_pwd k : option kernel :=
  '(r, path_buf, k) ← shell_getcwd k;
  if r =? 0 then k ← shell_print (Some path_buf) k; shell_print (Some (line "")) k
  else shell_print (Some (line "Error getting current directory")) k.
Definition run_write arg k : option kernel :=
  arg ← skip_blanks arg;
  '(arg, path_buffer, i) ← copy_word 255 arg (uninit 256) 0;
  path_buffer ← zset path_buffer i 0;
  arg ← skip_blanks arg;
  c ← zget path_buffer 0;
  e ← (if c =? 0 then Some true else no_argument arg);
  if e : bool then shell_print (Some (line "Usage: write <file> <text>")) k else
  r ← resolve path_buffer k;
  match r with
  | None => shell_print (Some (line "File not found")) k
  | Some file =>
      len ← strlen arg;
      '(r, f, _) ← vfs_write (io_fs (k_io k)) file arg len;
      let k := set_fs f k in
      if r =? -1 then shell_print (Some (line "Write failed")) k else Some k
  end.
Definition run_cat arg k : option kernel :=
  arg ← skip_blanks arg;
  e ← no_argument arg;
  if e : bool then shell_print (Some (line "Usage: cat <file>")) k else
  r ← resolve arg k;
  match r with
  | None => shell_print (Some (line "File not found or is a directory")) k
  | Some node =>
      if has_flag (n_flags node) VFS_DIRECTORY
      then shell_print (Some (line "File not found or is a directory")) k else
      let size := n_size node in
      '(buf, e) ← kmalloc_op (env (k_sched k)) (u32 (size + 1));
      let k := set_k_sched (set_env e (k_sched k)) k in
      if buf =? 0 then shell_print (Some (line "Out of memory")) k else
      '(_, contents) ← vfs_read (dev (io_fs (k_io k))) node (uninit (Z.to_nat (u32 (size + 1)))) size;
      contents ← zset contents size 0;
      k ← shell_print (Some contents) k;
      k ← shell_print_char newline k;
      e ← kfree_op (env (k_sched k)) buf;
      Some (set_k_sched (set_env e (k_sched k)) k)
  end.
Definition run_exec arg k : option kernel :=
  arg ← skip_blanks arg;
  e ← no_argument arg;
  if e : bool then shell_print (Some (line "Usage: exec <filepath>")) k else
  '(t, s) ← create_user_process syms (dev (io_fs (k_io k))) vfs_root (uninit 256) arg uninit (k_sched k);
  let k := set_k_sched s k in
  if negb (t =? 0) then
    k ← shell_print (Some (lit "Process spawned with PID: ")) k;
    x ← tasks (k_sched k) !! t;
    '(_, k) ← shell_itoa (t_id x) 10 (uninit 16) k;
    shell_print (Some (line "")) k
  else shell_print (Some (line "Failed to execute: file not found or load error")) k.

(** ** Dispatch *)
Definition run_handler (h : handler_name) arg k : option (kernel + vga W) :=
  match h with
  | cmd_help => inl <$> run_help k
  | cmd_clear => inl <$> run_clear k
  | cmd_sysinfo => inl <$> run_sysinfo k
  | cmd_meminfo => inl <$> run_meminfo k
  | cmd_alloc => inl <$> run_alloc k
  | cmd_test => inl <$> run_test k
  | cmd_fault => run_fault k
  | cmd_heap => inl <$> run_heap k
  | cmd_ps => inl <$> run_ps k
  | cmd_kill => inl <$> run_kill arg k
  | cmd_touch => inl <$> run_touch arg k
  | cmd_mkdir => inl <$> run_mkdir arg k
  | cmd_cd => inl <$> run_cd arg k
  | cmd_ls => inl <$> run_ls arg k
  | cmd_pwd => inl <$> run_pwd k
  | cmd_write => inl <$> run_write arg k
  | cmd_cat => inl <$> run_cat arg k
  | cmd_exec => inl <$> run_exec arg k
  end.
(** The loop over [commands]. *)
Fixpoint find_command (cs : list Command) (cmd_name : list Z) : option (option Command) :=
  match cs with
  | [] => Some None
  | c :: cs' => r ← strcmp cmd_name (name c); if r =? 0 then Some (Some c) else find_command cs' cmd_name
  end.
Definition execute_command cmd k : option (kernel + vga W) :=
  cmd ← skip_blanks cmd;
  e ← no_argument cmd;
  if e : bool then Some (inl k) else
  '(cmd, cmd_name, i) ← copy_word 31 cmd (uninit 32) 0;
  cmd_name ← zset cmd_name i 0;
  arg ← skip_blanks cmd;
  found ← find_command commands cmd_name;
  match found with
  | Some c => run_handler (handler c) arg k
  | None =>
      k ← shell_error (Some (lit "Unknown command: ")) k;
      k ← shell_error (Some cmd_name) k;
      inl <$> shell_print (Some (cbuf (newline :: codes "Type 'help' for available commands." ++ [newline]))) k
  end.

(** ** The command line *)
Record shell := mk_shell { sh_kernel : kernel; input_buffer : list Z; input_buffer_len : Z }.
Definition shell_handle_key (c : Z) (s : shell) : option (shell + vga W) :=
  let k := sh_kernel s in
  let buf := input_buffer s in
  let len := input_buffer_len s in
  if c =? newline then
    buf ← zset buf len 0;
    k ← shell_print_char newline k;
    r ← execute_command buf k;
    match r with
    | inr v => Some (inr v)
    | inl k => k ← print_prompt k; Some (inl (mk_shell k buf 0))
    end
  else if c =? 8 then
    if 0 <? len then
      k ← shell_print_char 8 k; Some (inl (mk_shell k buf (len - 1)))
    else Some (inl s)
  else
    if len <? 255 then
      buf ← zset buf len c;
      k ← shell_print_char c k;
      Some (inl (mk_shell k buf (len + 1)))
    else Some (inl s).

(** [shell_main]: what comes before the loop, and a round of it, which ends
    ready for the next, asleep in [sys_sleep(10)], or on a halted machine. *)
Definition shell_start (k : kernel) (buf : list Z) : option shell :=
  k ← shell_print (Some (cbuf (codes "Welcome to NOSMERI-OS! Type 'help' to see available commands." ++
        [newline; newline]))) k;
  k ← print_prompt k;
  Some (mk_shell k buf 0).
Inductive round := Next (s : shell) | Waiting (s : shell) | Stopped (v : vga W).
Definition shell_round (s : shell) : option round :=
  '(bytes, mem, k) ← sys_read syms vfs_root (uninit 256) temp 0 addr 1 regs (put_bytes ∅ addr (uninit 1)) (sh_kernel s);
  let s := mk_shell k (input_buffer s) (input_buffer_len s) in
  if 0 <? bytes then
    c ← zget (object mem addr) 0;
    r ← shell_handle_key c s;
    Some (match r with inl s => Next s | inr v => Stopped v end)
  else
    o ← sys_sleep syms vfs_root (uninit 256) temp 10 regs ∅ k;
    match o with
    | Sleeps _ _ k => Some (Waiting (mk_shell k (input_buffer s) (input_buffer_len s)))
    | _ => None
    end.
End Shell.
