(* ===== verification/ShellOut.v ===== *)
(** * What the shell prints

    Printing through the descriptors 1 and 2 of the current task changes the
    screen and nothing else: [prints] chains such steps, [console] is what they
    need. *)
From S2P Require Import Prelude CString Pmm Heap Allocator Paging Vmm Memory Machine BlockDev DiskLayout SimpleFs Vfs File.
From S2P Require Import PortIo Pic Keyboard Vga Console FileProps Gdt Timer Cpu Task Registers UserMem Syscall SyscallInv SyscallProps Shell.
Open Scope Z_scope.

(** The bytes of a string at an address and nothing else. *)
Lemma object_alone p bs : object (put_bytes ∅ p bs) p = bs.
Proof.
  assert (Hall : forall a, is_Some ((put_bytes ∅ p bs : memory_map) !! a) <-> p <= a < p + Z.of_nat (length bs)).
  { intros a. rewrite put_bytes_lookup. case_decide as Ha.
    - split; [done|]. intros _. apply lookup_lt_is_Some_2. lia.
    - split; [by intros [? ?]|lia]. }
  assert (Hr : readable (put_bytes ∅ p bs) p (length bs)) by (intros i Hi; apply Hall; lia).
  pose proof (readable_object _ _ _ Hr) as Hle.
  assert (Hge : (length (object (put_bytes ∅ p bs) p) <= length bs)%nat).
  { destruct (decide (length bs < length (object (put_bytes ∅ p bs) p))%nat) as [Hlt|]; [|lia].
    destruct (lookup_lt_is_Some_2 _ _ Hlt) as [b Hb]. apply object_lookup in Hb.
    assert (p <= p + Z.of_nat (length bs) < p + Z.of_nat (length bs)) by (apply Hall; by eexists). lia. }
  rewrite <- (take_ge (object (put_bytes ∅ p bs) p) (length bs)) by lia.
  apply list_eq. intros i. destruct (decide (i < length bs)%nat).
  - rewrite lookup_take_lt by lia. destruct (lookup_lt_is_Some_2 (object (put_bytes ∅ p bs) p) i) as [b Hb]; [lia|].
    rewrite Hb. apply object_lookup in Hb. rewrite put_bytes_lookup, decide_True in Hb by lia.
    by replace (Z.to_nat (p + Z.of_nat i - p)) with i in Hb by lia.
  - rewrite lookup_take_ge by lia. symmetry. apply lookup_ge_None. lia.
Qed.

Section Out.
Context {W D : Type} `{CrtcLaws W} `{BlockDeviceOk D}.
Context (im : vmm_image) (syms : symbols) (vfs_root : vfs_node).
Context (uninit : nat -> list Z) (temp : vfs_node) (addr : Z) (regs : Registers).
#[local] Hint Extern 0 (Memory (heap vm)) => exact (machine_memory im) : typeclass_instances.
#[local] Abbreviation kernel := (kernel (heap vm) W D).
Implicit Types (k : kernel) (s : list Z).
#[local] Abbreviation print := (shell_print im syms vfs_root uninit temp addr regs).
#[local] Abbreviation print_char := (shell_print_char im syms vfs_root uninit temp addr regs).
#[local] Abbreviation error := (shell_error im syms vfs_root uninit temp addr regs).
#[local] Abbreviation write := (shell_write im syms vfs_root uninit temp addr regs).

(** The current task has stdout and stderr open, and the screen is sound. *)
Record console k : Prop := {
  con_out : exists t p f, has_file k t 1 p f /\ f_ops f = stdout_ops;
  con_err : exists t p f, has_file k t 2 p f /\ f_ops f = stderr_ops;
  con_vga : vga_wf (io_vga (k_io k));
}.
(** Only the screen differs, by the text [s]. *)
Definition prints k s k' : Prop := exists v, k' = set_vga v k /\ shows (io_vga (k_io k)) s v.

Lemma set_vga_twice v v' k : set_vga v' (set_vga v k) = set_vga v' k.
Proof. reflexivity. Qed.
Lemma prints_nil k : vga_wf (io_vga (k_io k)) -> prints k [] k.
Proof. intros Hv. exists (io_vga (k_io k)). split; [by destruct k as [? []]|by apply shows_refl]. Qed.
Lemma prints_app k1 s1 k2 s2 k3 : prints k1 s1 k2 -> prints k2 s2 k3 -> prints k1 (s1 ++ s2) k3.
Proof.
  intros (v1 & -> & H1') (v2 & -> & H2'). exists v2. split; [apply set_vga_twice|]. by eapply shows_app.
Qed.
Lemma console_vga k v : console k -> vga_wf v -> console (set_vga v k).
Proof. intros [H1' H2' _] Hv. by split. Qed.
Lemma prints_console k s k' : console k -> prints k s k' -> console k'.
Proof. intros Hc (v & -> & Hs). apply console_vga; [done|by destruct Hs]. Qed.

Lemma same_files k p f : files (k_sched k) !! p = Some f ->
  set_k_sched (set_files (<[p := f]> (files (k_sched k))) (k_sched k)) k = k.
Proof. intros Hf. rewrite insert_id by done. by destruct k as [[] ?]. Qed.

(** ** The two descriptors *)
Lemma write_out k s count : console k -> bytes_ok s -> 0 <= count <= Z.of_nat (length s) -> count < 2147483648 ->
  exists k', write 1 s count k = Some k' /\ prints k (take (Z.to_nat count) s) k'.
Proof.
  intros [(t & p & f & Hf & Hops) _ Hv] Hs Hc Hi. unfold shell_write.
  rewrite (sys_write_eq _ _ _ _ _ _ _ _ _ _ t p f Hf). unfold file_write. rewrite Hops, object_alone.
  destruct (print_loop_spec (Z.to_nat count) (io_vga (k_io k)) s 0 Hv Hs) as (v' & Heq & Hsh); [lia|].
  unfold stdout_write. change (Z.of_nat 0) with 0 in Heq. rewrite Heq. cbn [mbind option_bind].
  eexists. split; [reflexivity|]. exists v'. split; [|exact Hsh].
  destruct Hf as (_ & _ & Hfp). unfold set_vga. by rewrite (same_files k p f Hfp).
Qed.
(** stderr prints in red and leaves light grey on black. *)
Definition grey (v : vga W) : vga W := set_text_color v VGA_COLOR_LIGHT_GREY VGA_COLOR_BLACK.
Definition red (v : vga W) : vga W := set_text_color v VGA_COLOR_RED VGA_COLOR_BLACK.
Definition reports k s k' : Prop :=
  exists v, k' = set_vga (grey v) k /\ shows (red (io_vga (k_io k))) s v.
Lemma write_err k s count : console k -> bytes_ok s -> 0 <= count <= Z.of_nat (length s) -> count < 2147483648 ->
  exists k', write 2 s count k = Some k' /\ reports k (take (Z.to_nat count) s) k'.
Proof.
  intros [_ (t & p & f & Hf & Hops) Hv] Hs Hc Hi. unfold shell_write.
  rewrite (sys_write_eq _ _ _ _ _ _ _ _ _ _ t p f Hf). unfold file_write. rewrite Hops, object_alone.
  assert (Hv0 : vga_wf (red (io_vga (k_io k)))) by (destruct Hv; by split).
  destruct (print_loop_spec (Z.to_nat count) (red (io_vga (k_io k))) s 0 Hv0 Hs) as (v' & Heq & Hsh); [lia|].
  unfold stderr_write. change (Z.of_nat 0) with 0 in Heq. cbv zeta. fold (red (io_vga (k_io k))).
  rewrite Heq. cbn [mbind option_bind]. fold (grey v').
  eexists. split; [reflexivity|]. exists v'. split; [|exact Hsh].
  destruct Hf as (_ & _ & Hfp). unfold set_vga. by rewrite (same_files k p f Hfp).
Qed.
Lemma reports_console k s k' : console k -> reports k s k' -> console k'.
Proof. intros Hc (v & -> & [Hw _ _]). apply console_vga; [done|]. destruct Hw. by split. Qed.

(** ** Strings and characters *)
Lemma print_string_out k s rest : console k -> bytes_ok (s ++ 0 :: rest) -> 0 ∉ s ->
  Z.of_nat (length s) < 2147483648 ->
  exists k', print (Some (s ++ 0 :: rest)) k = Some k' /\ prints k s k' /\ console k'.
Proof.
  intros Hc Hb Hz Hl. unfold shell_print.
  rewrite (strlen_spec _ s) by (by apply cstring_cbuf || lia). cbn [mbind option_bind].
  destruct (write_out k (s ++ 0 :: rest) (Z.of_nat (length s)) Hc Hb) as (k' & Hw & Hp);
    [rewrite length_app; lia|done|].
  rewrite Nat2Z.id, take_app_length in Hp. exists k'. split; [exact Hw|]. split; [done|]. by eapply prints_console.
Qed.
Lemma print_string_err k s rest : console k -> bytes_ok (s ++ 0 :: rest) -> 0 ∉ s ->
  Z.of_nat (length s) < 2147483648 ->
  exists k', error (Some (s ++ 0 :: rest)) k = Some k' /\ reports k s k' /\ console k'.
Proof.
  intros Hc Hb Hz Hl. unfold shell_error.
  rewrite (strlen_spec _ s) by (by apply cstring_cbuf || lia). cbn [mbind option_bind].
  destruct (write_err k (s ++ 0 :: rest) (Z.of_nat (length s)) Hc Hb) as (k' & Hw & Hp);
    [rewrite length_app; lia|done|].
  rewrite Nat2Z.id, take_app_length in Hp. exists k'. split; [exact Hw|]. split; [done|]. by eapply reports_console.
Qed.
Lemma print_char_out k c : console k -> 0 <= c < 256 ->
  exists k', print_char c k = Some k' /\ prints k [c] k' /\ console k'.
Proof.
  intros Hc Hb. destruct (write_out k [c] 1 Hc) as (k' & Hw & Hp); [by apply Forall_singleton|simpl; lia|lia|].
  exists k'. split; [exact Hw|]. split; [exact Hp|by eapply prints_console].
Qed.

(** Literals. *)
Lemma plain_codes s : plain s = true -> bytes_ok s /\ 0 ∉ s.
Proof.
  intros Hs. assert (HF : Forall (fun c => 0 < c < 256) s).
  { apply Forall_forall. intros c Hc. apply list_elem_of_In in Hc. unfold plain in Hs.
    rewrite forallb_forall in Hs. specialize (Hs c Hc). lia. }
  split; [eapply Forall_impl; [exact HF|simpl; lia]|].
  intros Hz. rewrite Forall_forall in HF. specialize (HF 0 Hz). lia.
Qed.
Lemma print_plain_out k s : console k -> plain s = true -> Z.of_nat (length s) < 2147483648 ->
  exists k', print (Some (cbuf s)) k = Some k' /\ prints k s k' /\ console k'.
Proof.
  intros Hc [Hb Hz]%plain_codes Hl. apply print_string_out; [done| |done|done].
  apply bytes_ok_app. split; [done|]. by repeat constructor.
Qed.
End Out.
