(* ===== verification/ShellDemo.v ===== *)
(** * A small machine for the shell

    The kernel's task over the heap that [init_heap] leaves on the 8 MB machine
    of [VmmProps], with a keyboard, a screen and a file system: the state on
    which the shell's theorems are tried. *)
From S2P Require Import Prelude CString Pmm Heap Allocator Paging Vmm VmmInv VmmMap VmmOps VmmProps Memory Machine BlockDev DiskLayout.
From S2P Require Import SimpleFs FsView FsDir FsInv FsOps FsMount FsIo FsProps Vfs VfsProps File PortIo Pic Keyboard Vga Console.
From S2P Require Import FileProps Gdt Timer Cpu Task TaskRing TaskInv TaskSched TaskOps TaskCreate TaskSteps TaskDemo Registers.
From S2P Require Import UserMem Syscall SyscallInv SyscallProps SyscallRun Shell ShellOut.
Open Scope Z_scope.
Import RamDisk Crtc.
#[local] Hint Extern 0 (Memory (heap vm)) => exact (machine_memory demo_image) : typeclass_instances.
#[local] Hint Extern 0 (MemoryOk (heap vm)) => exact (machine_memory_ok demo_image demo_image_ok) : typeclass_instances.

(** The heap after [init_heap]: its first page and the page's table are taken. *)
Lemma first_heap_frames s' s : vm_ok demo_image ∅ s' -> cr3 s' = 0x110000 -> vm_pmm s' = demo_pmm ->
  entry s' 0x110000 768 = 0 -> @init_heap vm (vm_provider demo_image) s' = Some (first_heap s) ->
  vm_pmm s = pmm_after (pmm_after demo_pmm).
Proof.
  intros Hok Hc Hm E Hh. unfold init_heap in Hh.
  apply mbind_Some in Hh as ([a s1] & Ha & Hh). apply mbind_Some in Hh as (s3 & Hmap & Heq).
  assert (s3 = s) as -> by by injection Heq. clear Heq.
  cbn in Ha. unfold vm_alloc_page in Ha. rewrite Hm, alloc_first in Ha. cbn [mbind option_bind] in Ha.
  apply (inj Some), pair_equal_spec in Ha as [<- <-].
  assert (Hok1 : vm_ok demo_image ∅ (set_vm_pmm (pmm_after demo_pmm) s')).
  { destruct (alloc_cases demo_image ∅ s' Hok) as (f & pm & Hal & Hcase). rewrite Hm, alloc_first in Hal.
    apply (inj Some), pair_equal_spec in Hal as [<- <-]. destruct Hcase as [[? _]|(_ & _ & _ & Hwf & _ & Hu)]; [done|].
    apply vm_ok_pmm; [done|exact Hwf|]. intros f Hf. by apply Hu, (vo_used _ _ _ Hok). }
  change (vmm_map_page demo_image (set_vm_pmm (pmm_after demo_pmm) s') HEAP_START 0x125000 3 = Some s) in Hmap.
  destruct (vmm_map_page_spec demo_image demo_image_ok ∅ _ HEAP_START 0x125000 3 Hok1) as
    (s2 & Hmap2 & _ & _ & Hcase); [done|done|done|done|].
  rewrite Hmap in Hmap2. injection Hmap2 as <-.
  destruct Hcase as [(Hp & _)|(t & _ & Hal & _)].
  - unfold entry in Hp. cbn [ram cr3 set_vm_pmm] in Hp. fold (entry s' (cr3 s') (dir_index HEAP_START)) in Hp. rewrite Hc in Hp.
    change (dir_index HEAP_START) with 768 in Hp. rewrite E in Hp. discriminate Hp.
  - cbn [vm_pmm set_vm_pmm] in Hal. rewrite alloc_second in Hal. by apply (inj Some), pair_equal_spec in Hal as [_ <-].
Qed.
Lemma first_heap_holds : exists s, @holds (heap vm) _ _ ∅ (page_directory demo_image) (first_heap s) ∅ /\
  vm_pmm s = pmm_after (pmm_after demo_pmm).
Proof.
  destruct demo_pages as (U0 & U1 & U2).
  destruct (boot_memory_spec demo_image demo_image_ok boot_vm 0x125000 (pmm_after demo_pmm) eq_refl
    (pmm_wfb_sound _ demo_wfb) U0 U1 U2) as (s' & h & Hi & Hh & Hok); [by vm_compute|exact alloc_first|done|].
  destruct (init_vmm_spec demo_image demo_image_ok boot_vm eq_refl (pmm_wfb_sound _ demo_wfb) U0 U1 U2)
    as (s0 & Hi0 & Hok0 & Hc & Hm & E). rewrite Hi in Hi0. apply (inj Some) in Hi0 as <-.
  destruct (init_heap_first demo_image s' h Hh) as [s2 ->]. exists s2. split; [exact Hok|].
  apply (first_heap_frames s' s2 Hok0 Hc Hm); [|exact Hh].
  rewrite E; [|apply demo_image_ok|lia]. cbn [page_directory first_page_table demo_image].
  rewrite (proj2 (Z.eqb_neq 0x110000 0x111000)) by lia. reflexivity.
Qed.

Definition shell_sched (s : vm) : sched (heap vm) :=
  default (mk_sched ∅ ∅ ∅ 0 0 gdt_boot boot_cpu (first_heap s))
    (init_tasking demo_syms blank root_node [] gdt_boot boot_cpu ∅ (first_heap s)).
Lemma shell_sched_eq s :
  init_tasking demo_syms blank root_node [] gdt_boot boot_cpu ∅ (first_heap s) = Some (shell_sched s).
Proof. vm_compute. reflexivity. Qed.
Definition shell_kernel (s : vm) (f : fs disk) : kernel (heap vm) Crtc.t disk :=
  mk_kernel (shell_sched s) (mk_io demo_kbd demo_screen f) 0.

Lemma shell_layout : @layout_ok (heap vm) _ _ demo_syms BOOT_LO BOOT_HI.
Proof. by split. Qed.
Lemma shell_kernel_frames f : exists s m, kernel_ok demo_syms BOOT_LO BOOT_HI ∅ m (k_sched (shell_kernel s f)) [] /\
  vm_pmm s = pmm_after (pmm_after demo_pmm).
Proof.
  destruct first_heap_holds as (s & Hs & Hm). exists s.
  destruct (init_kernel_ok demo_syms BOOT_LO BOOT_HI root_node shell_layout blank [] gdt_boot boot_cpu ∅ (first_heap s) ∅
    (shell_sched s) Hs eq_refl (shell_sched_eq s)) as [m Hk]. exists m. exact (conj Hk Hm).
Qed.
Lemma shell_kernel_ok f : exists s m, kernel_ok demo_syms BOOT_LO BOOT_HI ∅ m (k_sched (shell_kernel s f)) [].
Proof. destruct (shell_kernel_frames f) as (s & m & Hk & _). by exists s, m. Qed.
Lemma shell_task s f : exists t, current (shell_kernel s f) = Some t /\ cwd t = root_node.
Proof. eexists. split; vm_compute; reflexivity. Qed.
Lemma shell_files s f (i : nat) ops : nth_error [stdin_ops; stdout_ops; stderr_ops] i = Some ops ->
  exists t p g, has_file (shell_kernel s f) t (Z.of_nat i) p g /\ f_ops g = ops.
Proof.
  destruct i as [|[|[|i]]]; cbn; [| | |by destruct i]; intros [= <-];
    eexists _, _, _; (split; [split; [|split]|]; vm_compute; reflexivity).
Qed.
Lemma shell_console s f : console (shell_kernel s f).
Proof. split; [exact (shell_files s f 1 _ eq_refl)|exact (shell_files s f 2 _ eq_refl)|exact demo_screen_wf]. Qed.

Definition zeros (n : nat) : list Z := replicate n 0.
Lemma zeros_ok n : length (zeros n) = n /\ bytes_ok (zeros n).
Proof. split; [apply length_replicate|]. by apply bytes_ok_replicate. Qed.
Definition shell_regs : Registers := mk_registers 0 0 0 0 0 0 0 0 0 0 0 0 0x1000 0x08 0x0202.
