(* ===== verification/ShellProps.v ===== *)
(** * What the shell promises

    The line editor keeps what was typed and echoes it, Enter runs the command
    the line names with its argument, and [write] and [cat] round-trip. *)
From S2P Require Import Prelude CString Pmm Heap Allocator Paging Vmm Memory Machine BlockDev DiskLayout SimpleFs FsView FsDir.
From S2P Require Import FsInv FsOps FsMount FsIo FsProps Vfs VfsProps File PortIo Pic Keyboard Vga Console FileProps Gdt Timer Cpu.
From S2P Require Import Task Registers UserMem Syscall SyscallInv SyscallProps TaskDemo VmmProps Shell ShellOut ShellDemo.
Open Scope Z_scope.

(** ** Words of a command line *)
Definition blank (c : Z) : bool := c =? 32.
Fixpoint drop_blanks (s : list Z) : list Z :=
  match s with c :: s' => if blank c then drop_blanks s' else s | [] => [] end.
(** The first word of a string without leading blanks, and what follows it. *)
Fixpoint word_of (s : list Z) : list Z :=
  match s with c :: s' => if blank c then [] else c :: word_of s' | [] => [] end.
Fixpoint after_word (s : list Z) : list Z :=
  match s with c :: s' => if blank c then s else after_word s' | [] => [] end.
Definition first_word (s : list Z) : list Z := word_of (drop_blanks s).
Definition argument (s : list Z) : list Z := drop_blanks (after_word (drop_blanks s)).

Lemma drop_blanks_sub s c : c ∈ drop_blanks s -> c ∈ s.
Proof. induction s as [|x s IH]; simpl; [done|]. destruct (blank x); [|done]. intros Hc. right. by apply IH. Qed.
Lemma word_split s : s = word_of s ++ after_word s.
Proof. induction s as [|x s IH]; simpl; [done|]. destruct (blank x); [done|]. simpl. by f_equal. Qed.
Lemma word_plain s c : c ∈ word_of s -> blank c = false.
Proof.
  induction s as [|x s IH]; simpl; [by intros ?%not_elem_of_nil|]. destruct (blank x) eqn:Hx; [by intros ?%not_elem_of_nil|].
  intros [->|Hc]%elem_of_cons; [done|by apply IH].
Qed.
Lemma after_word_head s : after_word s = [] \/ exists r, after_word s = 32 :: r.
Proof.
  induction s as [|x s IH]; simpl; [by left|]. destruct (blank x) eqn:Hx; [|done].
  apply Z.eqb_eq in Hx as ->. right. by eexists.
Qed.

Lemma skip_blanks_spec s rest : skip_blanks (s ++ 0 :: rest) = Some (drop_blanks s ++ 0 :: rest).
Proof.
  induction s as [|c s IH]; [done|]. simpl. unfold blank. destruct (c =? 32); [exact IH|done].
Qed.
Lemma no_argument_spec s rest : 0 ∉ s -> no_argument (s ++ 0 :: rest) = Some (bool_decide (s = [])).
Proof.
  unfold no_argument. destruct s as [|c s]; [done|]. intros [Hc _]%not_elem_of_cons. cbn [app].
  change (zget (c :: s ++ 0 :: rest) 0) with (Some c). cbn [mbind option_bind].
  by rewrite (proj2 (Z.eqb_neq c 0)).
Qed.

(** Copying a word that fits: the buffer holds it, then [zset] ends it. *)
Lemma copy_word_spec limit s rest : forall w tail pre mid,
  s = w ++ tail -> (forall c, c ∈ w -> blank c = false /\ c <> 0) -> (tail = [] \/ exists r, tail = 32 :: r) ->
  (length w <= length mid)%nat -> Z.of_nat (length pre + length w) <= limit ->
  copy_word limit (s ++ 0 :: rest) (pre ++ mid) (Z.of_nat (length pre)) =
    Some (tail ++ 0 :: rest, pre ++ w ++ drop (length w) mid, Z.of_nat (length pre + length w)).
Proof.
  revert s. induction s as [|c s IH]; intros w tail pre mid Hs Hw Ht Hl Hlim.
  - symmetry in Hs. apply app_nil in Hs as [-> ->]. simpl. by rewrite Nat.add_0_r.
  - destruct w as [|x w].
    + simpl in Hs. subst tail. destruct Ht as [?|[r [= -> ->]]]; [done|]. simpl. by rewrite Nat.add_0_r.
    + injection Hs as <- Hs. destruct (Hw c) as [Hb Hc]; [left|]. unfold blank in Hb.
      destruct mid as [|y mid]; [simpl in Hl; lia|]. cbn [app copy_word length] in *.
      rewrite Hb, (proj2 (Z.eqb_neq c 0)) by done. cbn [negb andb].
      rewrite (proj2 (Z.ltb_lt _ limit)) by lia. rewrite zset_middle. cbn [mbind option_bind].
      replace (pre ++ c :: mid) with ((pre ++ [c]) ++ mid) by by rewrite <- app_assoc.
      replace (Z.of_nat (length pre) + 1) with (Z.of_nat (length (pre ++ [c]))) by (rewrite length_app; simpl; lia).
      rewrite (IH w tail); try done; rewrite ?length_app; simpl in *; try lia.
      * rewrite <- app_assoc. do 3 f_equal. lia.
      * intros d Hd. apply Hw. by right.
Qed.

(** The word ended in a buffer of [n] bytes, [n] more than its length. *)
Lemma word_buffer (w buf : list Z) : (length w < length buf)%nat ->
  exists junk, zset (w ++ drop (length w) buf) (Z.of_nat (length w)) 0 = Some (w ++ 0 :: junk) /\
    (bytes_ok buf -> bytes_ok junk).
Proof.
  intros Hl. destruct (drop (length w) buf) as [|y junk] eqn:Hd.
  { apply (f_equal length) in Hd. rewrite length_drop in Hd. simpl in Hd. lia. }
  exists junk. split; [by rewrite zset_middle|]. intros Hb.
  assert (bytes_ok (y :: junk)) as [_ ?]%Forall_cons by (rewrite <- Hd; by apply Forall_drop). done.
Qed.

(** Looking a command up by its name. *)
Definition command_named (nm : list Z) : option Command := snd <$> list_find (fun c => name c = cbuf nm) commands.
Lemma commands_ok : Forall (fun c => exists nm, name c = cbuf nm /\ bytes_ok nm /\ 0 ∉ nm) commands.
Proof.
  unfold commands. repeat (apply Forall_cons; split; [eexists; split; [reflexivity|]; by apply plain_codes|]).
  by apply Forall_nil.
Qed.
Lemma find_command_spec nm rest : bytes_ok (nm ++ 0 :: rest) -> 0 ∉ nm ->
  find_command commands (nm ++ 0 :: rest) = Some (command_named nm).
Proof.
  intros Hb Hz. unfold command_named. pose proof commands_ok as Hok. revert Hok.
  generalize commands. intros cs. induction cs as [|c cs IH]; intros Hok; [done|].
  apply Forall_cons in Hok as [(x & Hx & Hxb & Hxz) Hok]. cbn [find_command list_find].
  destruct (strcmp_zero (nm ++ 0 :: rest) (name c) nm x Hb) as (r & -> & Hr).
  - rewrite Hx. apply bytes_ok_app. split; [done|]. by repeat constructor.
  - by apply cstring_cbuf.
  - rewrite Hx. by apply cstring_cbuf.
  - cbn [mbind option_bind]. destruct (Z.eqb_spec r 0) as [He|He].
    + apply Hr in He as ->. by rewrite decide_True.
    + rewrite decide_False; [|rewrite Hx; unfold cbuf; intros Heq; apply He, Hr; by apply app_inj_tail in Heq as [-> _]].
      rewrite IH by done. by destruct (list_find _ _) as [[? ?]|].
Qed.

Section Shell.
Context {W D : Type} `{CrtcLaws W} `{BlockDeviceOk D}.
Context (im : vmm_image) (syms : symbols) (vfs_root : vfs_node).
Context (uninit : nat -> list Z) (temp : vfs_node) (addr : Z) (regs : Registers).
Hypothesis Huninit : forall n, length (uninit n) = n /\ bytes_ok (uninit n).
#[local] Hint Extern 0 (Memory (heap vm)) => exact (machine_memory im) : typeclass_instances.
#[local] Abbreviation kernel := (kernel (heap vm) W D).
#[local] Abbreviation shell := (shell (W := W) (D := D)).
Implicit Types (k : kernel) (s : list Z) (sh : shell).
#[local] Abbreviation run := (run_handler im syms vfs_root uninit temp addr regs).
#[local] Abbreviation execute := (execute_command im syms vfs_root uninit temp addr regs).
#[local] Abbreviation handle_key := (shell_handle_key im syms vfs_root uninit temp addr regs).
#[local] Abbreviation prompt := (print_prompt im syms vfs_root uninit temp addr regs).

(** ** Running a command *)
(** What an unknown name is answered: twice red on stderr, then a hint. *)
Definition answers_unknown k (nm : list Z) k' : Prop :=
  exists k1 k2, reports k (codes "Unknown command: ") k1 /\ reports k1 nm k2 /\
    prints k2 (newline :: codes "Type 'help' for available commands." ++ [newline]) k'.

Lemma execute_spec k s rest : console k -> bytes_ok (s ++ 0 :: rest) -> 0 ∉ s ->
  (length (first_word s) <= 31)%nat ->
  (first_word s = [] /\ execute (s ++ 0 :: rest) k = Some (inl k)) \/
  first_word s <> [] /\
  match command_named (first_word s) with
  | Some c => execute (s ++ 0 :: rest) k = run (handler c) (argument s ++ 0 :: rest) k
  | None => exists k', execute (s ++ 0 :: rest) k = Some (inl k') /\ answers_unknown k (first_word s) k'
  end.
Proof.
  intros Hc Hb Hz Hlen. unfold execute_command. rewrite skip_blanks_spec. cbn [mbind option_bind].
  assert (Hz' : 0 ∉ drop_blanks s) by (intros ?%drop_blanks_sub; done).
  rewrite no_argument_spec by done. cbn [mbind option_bind].
  unfold first_word, argument in *. set (d := drop_blanks s) in *.
  assert (Hdb : d = [] \/ exists c d', d = c :: d' /\ blank c = false).
  { unfold d. clear. induction s as [|c s IH]; simpl; [by left|]. destruct (blank c) eqn:Hb; [done|]. right. by eexists _, _. }
  destruct (bool_decide_reflect (d = [])) as [Hd|Hd].
  { left. by rewrite Hd. }
  right. destruct Hdb as [?|(c0 & d' & Hd0 & Hb0)]; [done|]. split; [by rewrite Hd0; simpl; rewrite Hb0|].
  destruct (Huninit 32) as [Hu1 Hu2].
  assert (Hwd : forall c, c ∈ word_of d -> blank c = false /\ c <> 0).
  { intros c Hcw. split; [by eapply word_plain|]. intros ->. apply Hz'. rewrite (word_split d). apply elem_of_app. by left. }
  pose proof (copy_word_spec 31 d rest (word_of d) (after_word d) [] (uninit 32) (word_split d) Hwd
    (after_word_head d) ltac:(lia) ltac:(simpl length; lia)) as Hcopy.
  cbn [app length Nat.add] in Hcopy. change (Z.of_nat 0) with 0 in Hcopy. rewrite Hcopy. cbn [mbind option_bind].
  destruct (word_buffer (word_of d) (uninit 32)) as (jk & -> & Hjk); [lia|]. cbn [mbind option_bind].
  rewrite skip_blanks_spec. cbn [mbind option_bind].
  assert (Hsub : forall c, c ∈ word_of d -> c ∈ s).
  { intros c Hcw. apply drop_blanks_sub. fold d. rewrite (word_split d). apply elem_of_app. by left. }
  assert (Hwz : 0 ∉ word_of d) by (intros Hx; by apply Hz, Hsub).
  apply bytes_ok_app in Hb as [Hbs Hbr].
  assert (Hwb : bytes_ok (word_of d)).
  { apply Forall_forall. intros c Hcw. unfold bytes_ok in Hbs. rewrite Forall_forall in Hbs. by apply Hbs, Hsub. }
  assert (Hnb : bytes_ok (word_of d ++ 0 :: jk)).
  { apply bytes_ok_app. split; [done|]. constructor; [lia|by apply Hjk]. }
  rewrite find_command_spec by done. cbn [mbind option_bind].
  destruct (command_named (word_of d)) as [c|]; [done|].
  destruct (print_string_err im syms vfs_root uninit temp addr regs k (codes "Unknown command: ") [] Hc) as
    (k1 & E1 & R1 & C1); [by apply bytes_ok_app; split; [by apply plain_codes|by repeat constructor]|by apply plain_codes|done|].
  unfold lit, cbuf. rewrite E1. cbn [mbind option_bind].
  destruct (print_string_err im syms vfs_root uninit temp addr regs k1 (word_of d) jk C1 Hnb Hwz) as (k2 & E2 & R2 & C2); [lia|].
  rewrite E2. cbn [mbind option_bind].
  destruct (print_plain_out im syms vfs_root uninit temp addr regs k2
    (newline :: codes "Type 'help' for available commands." ++ [newline]) C2) as (k3 & E3 & R3 & _); [done|done|].
  unfold cbuf in E3. rewrite E3. exists k3. split; [done|]. by exists k1, k2.
Qed.

(** ** The line editor *)
Record line_ok sh : Prop := {
  lo_buffer : length (input_buffer sh) = 256%nat;
  lo_bytes : bytes_ok (input_buffer sh);
  lo_len : 0 <= input_buffer_len sh <= 255;
}.
(** What has been typed since the last Enter. *)
Definition typed sh : list Z := take (Z.to_nat (input_buffer_len sh)) (input_buffer sh).
Lemma typed_length sh : line_ok sh -> length (typed sh) = Z.to_nat (input_buffer_len sh).
Proof. intros [H1' _ H2']. unfold typed. rewrite length_take. lia. Qed.

(** A key in the line [l], and what it shows. *)
Definition edit (l : list Z) (c : Z) : list Z :=
  if c =? 8 then take (length l - 1) l else if decide (length l < 255)%nat then l ++ [c] else l.
Definition echo (l : list Z) (c : Z) : list Z :=
  if c =? 8 then (if decide (l = []) then [] else [8]) else if decide (length l < 255)%nat then [c] else [].
Fixpoint echoes (l : list Z) (cs : list Z) : list Z :=
  match cs with [] => [] | c :: cs' => echo l c ++ echoes (edit l c) cs' end.

Lemma handle_key_spec sh c : console (sh_kernel sh) -> line_ok sh -> 0 <= c < 256 -> c <> newline ->
  exists sh', handle_key c sh = Some (inl sh') /\ line_ok sh' /\ typed sh' = edit (typed sh) c /\
    prints (sh_kernel sh) (echo (typed sh) c) (sh_kernel sh') /\ console (sh_kernel sh').
Proof.
  intros Hc Hl Hb Hn. pose proof (typed_length sh Hl) as Htl. pose proof Hl as [L1 L2 L3].
  unfold shell_handle_key, edit, echo. rewrite (proj2 (Z.eqb_neq c newline)) by done.
  destruct (Z.eqb_spec c 8) as [->|H8].
  - destruct (Z.ltb_spec 0 (input_buffer_len sh)) as [Hpos|Hz].
    + destruct (print_char_out im syms vfs_root uninit temp addr regs (sh_kernel sh) 8 Hc) as (k' & -> & Hp & Hc'); [lia|].
      cbn [mbind option_bind]. eexists. split; [reflexivity|]. split; [split; cbn; done || lia|].
      split; [|rewrite decide_False by (intros Hnil; rewrite Hnil in Htl; simpl in Htl; lia); by split].
      unfold typed at 1. cbn [input_buffer input_buffer_len]. rewrite Htl. unfold typed. rewrite take_take.
      f_equal. lia.
    + assert (Hnil : typed sh = []) by (apply nil_length_inv; lia). exists sh. split; [done|]. split; [done|].
      rewrite Hnil. split; [done|]. split; [|done]. by apply prints_nil, Hc.
  - destruct (Z.ltb_spec (input_buffer_len sh) 255) as [Hlt|Hge].
    + rewrite zset_in_range by lia. cbn [mbind option_bind].
      destruct (print_char_out im syms vfs_root uninit temp addr regs (sh_kernel sh) c Hc Hb) as (k' & -> & Hp & Hc').
      cbn [mbind option_bind]. eexists. split; [reflexivity|].
      rewrite !decide_True by lia. split; [|split; [|by split]].
      * split; cbn; [by rewrite length_insert|by apply Forall_insert|lia].
      * unfold typed at 1. cbn [input_buffer input_buffer_len].
        replace (Z.to_nat (input_buffer_len sh + 1)) with (S (Z.to_nat (input_buffer_len sh))) by lia.
        rewrite (take_S_r _ _ c) by (apply list_lookup_insert_eq; lia).
        unfold typed. by rewrite take_insert_ge by lia.
    + exists sh. rewrite !decide_False by lia. split; [done|]. split; [done|]. split; [done|]. split; [|done].
      by apply prints_nil, Hc.
Qed.

(** Keys pressed one after the other. *)
Fixpoint type_keys (cs : list Z) sh : option (shell + vga W) :=
  match cs with
  | [] => Some (inl sh)
  | c :: cs' => r ← handle_key c sh; match r with inl sh' => type_keys cs' sh' | inr v => Some (inr v) end
  end.

(** C17. The line editor is a line of at most 255 characters: every key but Enter
    appends itself, or nothing when the line is full, and backspace takes the
    last character away, or nothing from an empty line.  What changes is shown,
    the buffer is never left, and nothing but the screen and the line changes. *)
Theorem shell_edits_line sh cs :
  console (sh_kernel sh) -> line_ok sh -> Forall (fun c => 0 <= c < 256 /\ c <> newline) cs ->
  exists sh', type_keys cs sh = Some (inl sh') /\ line_ok sh' /\
    typed sh' = foldl edit (typed sh) cs /\
    prints (sh_kernel sh) (echoes (typed sh) cs) (sh_kernel sh').
Proof.
  intros Hc Hl Hcs. revert sh Hc Hl. induction Hcs as [|c cs [Hb Hn] _ IH]; intros sh Hc Hl; cbn [type_keys].
  - exists sh. split; [done|]. split; [done|]. split; [done|]. by apply prints_nil, Hc.
  - destruct (handle_key_spec sh c Hc Hl Hb Hn) as (sh1 & -> & Hl1 & Ht1 & Hp1 & Hc1). cbn [mbind option_bind].
    destruct (IH sh1 Hc1 Hl1) as (sh' & Hr & Hl' & Ht' & Hp'). exists sh'. split; [done|]. split; [done|].
    cbn [foldl echoes]. rewrite Ht1 in Ht', Hp'. split; [done|]. by eapply prints_app.
Qed.

(** C16. Enter runs the line.  Blanks in front are skipped; an empty line does
    nothing; a first word of at most 31 characters that names a command runs its
    handler on the rest of the line without the blanks in front; any other word
    is answered as unknown.  Then the prompt comes and the line is empty. *)
Theorem shell_enter_runs_line sh :
  console (sh_kernel sh) -> line_ok sh -> 0 ∉ typed sh -> (length (first_word (typed sh)) <= 31)%nat ->
  let s := typed sh in
  let rest := drop (S (length s)) (input_buffer sh) in
  exists k, prints (sh_kernel sh) [newline] k /\
    let next r := r ← r; match r with inr v => Some (inr v)
                         | inl k => k ← prompt k; Some (inl (mk_shell k (s ++ 0 :: rest) 0)) end in
    if decide (first_word s = []) then handle_key newline sh = next (Some (inl k)) else
    match command_named (first_word s) with
    | Some c => handle_key newline sh = next (run (handler c) (argument s ++ 0 :: rest) k)
    | None => exists k', answers_unknown k (first_word s) k' /\ handle_key newline sh = next (Some (inl k'))
    end.
Proof.
  intros Hc Hl Hz Hw s rest. pose proof Hl as [L1 L2 L3]. unfold shell_handle_key. rewrite Z.eqb_refl.
  assert (Hset : zset (input_buffer sh) (input_buffer_len sh) 0 = Some (s ++ 0 :: rest)).
  { rewrite zset_in_range by lia. rewrite insert_take_drop by lia. unfold rest, s. by rewrite typed_length. }
  
  assert (Hbuf : bytes_ok (s ++ 0 :: rest)) by (apply zset_Some in Hset as [_ ->]; by apply Forall_insert).
  rewrite Hset. cbn [mbind option_bind].
  destruct (print_char_out im syms vfs_root uninit temp addr regs (sh_kernel sh) newline Hc) as (k & -> & Hp & Hck); [done|].
  cbn [mbind option_bind]. exists k. split; [done|]. cbv zeta.
  destruct (execute_spec k s rest Hck Hbuf Hz Hw) as [[Hf ->]|[Hf Hrun]].
  - by rewrite decide_True.
  - rewrite decide_False by done. destruct (command_named (first_word s)) as [c|].
    + by rewrite Hrun.
    + destruct Hrun as (k' & -> & Ha). by exists k'.
Qed.
End Shell.

(** ** Examples *)
Import RamDisk Crtc.
(** A command line with [l] typed. *)
Definition demo_line (s : vm) (f : fs disk) (l : list Z) : shell :=
  mk_shell (shell_kernel s f) (l ++ zeros (256 - length l)) (Z.of_nat (length l)).
Lemma demo_line_ok s f l : bytes_ok l -> (length l <= 255)%nat -> line_ok (demo_line s f l) /\ typed (demo_line s f l) = l.
Proof.
  intros Hb Hl. split; [split|].
  - cbn. rewrite length_app. unfold zeros. rewrite length_replicate. lia.
  - cbn [input_buffer demo_line]. apply bytes_ok_app. split; [exact Hb|apply zeros_ok].
  - cbn. lia.
  - unfold typed. cbn [input_buffer input_buffer_len demo_line]. by rewrite Nat2Z.id, take_app_length.
Qed.

(** Typing "lz", backspace, "s". *)
Lemma shell_edits_line_witness : exists s sh', 
  type_keys demo_image demo_syms root_node zeros root_node 0x5000 shell_regs [108; 122; 8; 115] (demo_line s demo_fs []) =
    Some (inl sh') /\ typed sh' = [108; 115].
Proof.
  destruct (demo_line_ok boot_vm demo_fs []) as [Hok Ht]; [constructor|cbn; lia|].
  destruct (shell_edits_line demo_image demo_syms root_node zeros root_node 0x5000 shell_regs
    (demo_line boot_vm demo_fs []) [108; 122; 8; 115]) as (sh' & Hr & _ & Hty & _).
  - exact (shell_console boot_vm demo_fs).
  - exact Hok.
  - repeat constructor; discriminate.
  - exists boot_vm, sh'. split; [exact Hr|]. rewrite Hty, Ht. reflexivity.
Defined.

(** The line "  ps  x": the command ps, with the argument "x". *)
Lemma shell_enter_runs_line_witness : exists s k,
  shell_handle_key demo_image demo_syms root_node zeros root_node 0x5000 shell_regs newline
    (demo_line s demo_fs [32; 112; 115; 32; 120]) =
  (r ← run_handler demo_image demo_syms root_node zeros root_node 0x5000 shell_regs cmd_ps ([120] ++ 0 :: zeros 250) k;
   match r with
   | inr v => Some (inr v)
   | inl k => k ← print_prompt demo_image demo_syms root_node zeros root_node 0x5000 shell_regs k;
              Some (inl (mk_shell k ([32; 112; 115; 32; 120] ++ 0 :: zeros 250) 0))
   end).
Proof.
  destruct (demo_line_ok boot_vm demo_fs [32; 112; 115; 32; 120]) as [Hok Ht]; [by repeat constructor|cbn; lia|].
  destruct (shell_enter_runs_line demo_image demo_syms root_node zeros root_node 0x5000 shell_regs zeros_ok
    (demo_line boot_vm demo_fs [32; 112; 115; 32; 120])) as (k & _ & Hrun).
  - exact (shell_console boot_vm demo_fs).
  - exact Hok.
  - rewrite Ht. rewrite !not_elem_of_cons. repeat (split; [discriminate|]). apply not_elem_of_nil.
  - rewrite Ht. cbn. lia.
  - exists boot_vm, k. rewrite Ht in Hrun. exact Hrun.
Defined.
