(* ===== verification/ShellFiles.v ===== *)
(** * The shell's [write] and [cat]

    What [write] stores in a file of the current directory [cat] prints, and
    the memory [cat] takes it gives back. *)
From S2P Require Import Prelude CString Pmm Heap Allocator Paging Vmm VmmInv Memory Machine BlockDev DiskLayout SimpleFs FsView FsDir.
From S2P Require Import FsInv FsOps FsMount FsIo FsProps Vfs VfsProps File PortIo Pic Keyboard Vga Console FileProps Gdt Timer Cpu.
From S2P Require Import Task TaskRing TaskInv TaskSched Registers UserMem Syscall SyscallInv SyscallProps SyscallRun TaskDemo VmmProps Shell ShellOut ShellDemo ShellProps.
Open Scope Z_scope.

(** A name without a slash is its only component. *)
Lemma components_name s : forall acc, 47 ∉ s -> acc ++ s <> [] -> components s acc = [acc ++ s].
Proof.
  induction s as [|c s IH]; intros acc Hs Hne; simpl.
  - rewrite app_nil_r in *. by destruct acc.
  - apply not_elem_of_cons in Hs as [Hc Hs]. rewrite (proj2 (Z.eqb_neq c 47)) by done.
    rewrite IH; [by rewrite <- app_assoc|done|by destruct acc].
Qed.

Section Files.
Context {D : Type} `{BlockDeviceOk D}.

(** The file [nm] of the directory [dir]. *)
Record named_file T B dir nm node i c : Prop := {
  nf_step : step T B dir nm = Some node;
  nf_node : file_node T B node nm i c;
  nf_idx : n_inode_idx node = i;
  nf_size : n_size node = Z.of_nat (length c);
}.
Lemma named_file_ok (f : fs D) N T B dir nm name node c : fs_rel f N T B -> node_ok dir -> c_name name nm ->
  step T B dir nm = Some node -> is_dir node = false -> fs_file T B (n_inode_idx node) = Some c ->
  named_file T B dir nm node (n_inode_idx node) c.
Proof.
  intros Hrel Hok Hn Hst Hd Hc. split; [done|by eapply step_file_node|done|].
  destruct (step_file T B dir nm node (rel_inv _ _ _ _ Hrel) Hok Hst Hd) as (i & _ & -> & _ & Hi & _).
  by destruct (file_size (dev f) N T B i c (rel_view _ _ _ _ Hrel) (rel_inv _ _ _ _ Hrel) Hi Hc).
Qed.

(** Writing the file keeps its name. *)
Lemma write_named_file (f : fs D) N T B dir nm name node i c buf count :
  fs_rel f N T B -> node_ok dir -> c_name name nm -> named_file T B dir nm node i c ->
  bytes_ok buf -> 0 <= count <= MAX_FILE -> count <= Z.of_nat (length buf) ->
  exists f' T' B' node1 node', vfs_write f node buf count = Some (0, f', node1) /\ fs_rel f' N T' B' /\
    named_file T' B' dir nm node' i (take (Z.to_nat count) buf).
Proof.
  intros Hrel Hok Hn [Hst Hfn Hidx Hsz] Hb Hc1 Hc2.
  destruct (vfs_write_spec f N T B node nm i c buf count Hrel Hfn Hb Hc1 Hc2) as
    (f' & T' & B' & node1 & Hw & Hrel' & Hfn' & Hfind & _).
  destruct (step_file T B dir nm node (rel_inv _ _ _ _ Hrel) Hok Hst (fn_plain _ _ _ _ _ _ Hfn)) as
    (j & Hfj & Hnode & _ & Hj & Hdot).
  assert (j = i) as -> by (by rewrite Hnode in Hidx).
  assert (Hst' : step T' B' dir nm = Some (node_of T' i nm (n_inode_idx dir))).
  { unfold step in *. destruct (is_dir dir); [|done]. cbn [negb] in *. rewrite decide_False by done.
    by rewrite Hfind, Hfj by done. }
  destruct (file_size (dev f') N T' B' i _ (rel_view _ _ _ _ Hrel') (rel_inv _ _ _ _ Hrel') Hj (fn_contents _ _ _ _ _ _ Hfn'))
    as [_ Hdir].
  exists f', T', B', node1, (node_of T' i nm (n_inode_idx dir)). split; [done|]. split; [done|].
  apply (named_file_ok f' N T' B' dir nm name); try done.
  - by rewrite node_of_dir.
  - exact (fn_contents _ _ _ _ _ _ Hfn').
Qed.

(** A path that is the name of a file of the current directory. *)
Lemma resolve_name (f : fs D) N T B root cwd junk nm node i c rest :
  fs_rel f N T B -> node_ok root -> node_ok cwd -> length junk = 256%nat -> bytes_ok junk ->
  bytes_ok (nm ++ 0 :: rest) -> 0 ∉ nm -> 47 ∉ nm -> nm <> [] -> named_file T B cwd nm node i c ->
  vfs_resolve_path (dev f) root cwd junk (Some (nm ++ 0 :: rest)) = Some (Some node).
Proof.
  intros Hrel Hr Hc Hl Hj Hb Hz Hs Hne [Hst Hfn _ _].
  rewrite (resolve_path_spec (dev f) N T B root cwd junk _ nm (rel_view _ _ _ _ Hrel) (rel_inv _ _ _ _ Hrel));
    try done; [|by apply cstring_cbuf|].
  - rewrite components_name by done. unfold walk. cbn [foldl app mbind option_bind].
    assert (Hst0 : start root cwd nm = cwd).
    { unfold start. destruct nm as [|c0 nm]; [done|]. cbn [absolute]. apply not_elem_of_cons in Hs as [Hs _].
      by rewrite (proj2 (Z.eqb_neq c0 47)). }
    by rewrite Hst0, Hst.
  - rewrite components_name by done. apply Forall_singleton. cbn [app].
    pose proof (found_name_short T B _ nm i (rel_inv _ _ _ _ Hrel) (fn_parent _ _ _ _ _ _ Hfn) (fn_find _ _ _ _ _ _ Hfn)). lia.
Qed.
End Files.

Section Roundtrip.
Context {W D : Type} `{CrtcLaws W} `{BlockDeviceOk D}.
Context (im : vmm_image) (Him : image_ok im) (syms : symbols) (vfs_root : vfs_node) (boot_lo boot_hi : Z).
Context (uninit : nat -> list Z) (temp : vfs_node) (addr : Z) (regs : Registers).
Hypothesis Huninit : forall n, length (uninit n) = n /\ bytes_ok (uninit n).
#[local] Hint Extern 0 (Memory (heap vm)) => exact (machine_memory im) : typeclass_instances.
#[local] Hint Extern 0 (MemoryOk (heap vm)) => exact (machine_memory_ok im Him) : typeclass_instances.
#[local] Abbreviation kernel := (kernel (heap vm) W D).
Implicit Types (k : kernel) (s : list Z).
#[local] Abbreviation okk := (kernel_ok syms boot_lo boot_hi).
#[local] Abbreviation write := (run_write im syms vfs_root uninit temp addr regs).
#[local] Abbreviation cat := (run_cat im syms vfs_root uninit temp addr regs).

(** The caller's current directory is [t]'s, and resolving a name in it. *)
Lemma resolve_current k N T B t nm node i c rest : current k = Some t -> fs_rel (io_fs (k_io k)) N T B ->
  node_ok vfs_root -> node_ok (cwd t) -> bytes_ok (nm ++ 0 :: rest) -> 0 ∉ nm -> 47 ∉ nm -> nm <> [] ->
  named_file T B (cwd t) nm node i c -> resolve vfs_root uninit (nm ++ 0 :: rest) k = Some (Some node).
Proof.
  intros Hcur Hrel Hr Hc Hb Hz Hs Hne Hnf. unfold resolve. rewrite Hcur. cbn [mbind option_bind].
  destruct (Huninit 256) as [Hl Hj]. by apply (resolve_name (io_fs (k_io k)) N T B vfs_root (cwd t) _ nm node i c).
Qed.

(** [write] of a line whose first word is the name and whose rest is the text. *)
Lemma run_write_spec k N T B t nm node i c s rest : current k = Some t -> fs_rel (io_fs (k_io k)) N T B ->
  node_ok vfs_root -> node_ok (cwd t) -> bytes_ok (s ++ 0 :: rest) -> 0 ∉ s -> 47 ∉ nm ->
  first_word s = nm -> nm <> [] -> argument s <> [] -> Z.of_nat (length (argument s)) <= MAX_FILE ->
  named_file T B (cwd t) nm node i c ->
  exists f' T' B' node', write (s ++ 0 :: rest) k = Some (set_fs f' k) /\ fs_rel f' N T' B' /\
    named_file T' B' (cwd t) nm node' i (argument s).
Proof.
  intros Hcur Hrel Hr Hc Hb Hz Hs47 Hfw Hne Hta Hlen Hnf. unfold MAX_FILE in *. unfold run_write.
  rewrite skip_blanks_spec. cbn [mbind option_bind]. unfold first_word, argument in *.
  set (d := drop_blanks s) in *. set (text := drop_blanks (after_word d)) in *.
  assert (Hdz : 0 ∉ d) by (intros ?%drop_blanks_sub; done).
  assert (Hsplit : d = nm ++ after_word d) by (rewrite <- Hfw; apply word_split).
  apply bytes_ok_app in Hb as [Hbs Hbr]. pose proof Hbs as Hbs'. unfold bytes_ok in Hbs'. rewrite Forall_forall in Hbs'.
  assert (Hin : forall x, x ∈ d -> x ∈ s) by (intros x; apply drop_blanks_sub).
  assert (Hnmd : forall x, x ∈ nm -> x ∈ d) by (intros x Hx; rewrite Hsplit; apply elem_of_app; by left).
  assert (Hnmz : 0 ∉ nm) by (intros ?%Hnmd; done).
  pose proof (found_name_short T B _ nm i (rel_inv _ _ _ _ Hrel) (fn_parent _ _ _ _ _ _ (nf_node _ _ _ _ _ _ _ Hnf))
    (fn_find _ _ _ _ _ _ (nf_node _ _ _ _ _ _ _ Hnf))) as Hshort.
  assert (Hwd : forall x, x ∈ nm -> blank x = false /\ x <> 0).
  { intros x Hx. split; [rewrite <- Hfw in Hx; by eapply word_plain|]. intros ->. by apply Hnmz. }
  destruct (Huninit 256) as [Hu1 Hu2].
  pose proof (copy_word_spec 255 d rest nm (after_word d) [] (uninit 256) Hsplit Hwd (after_word_head d)
    ltac:(lia) ltac:(simpl length; lia)) as Hcopy.
  cbn [app length Nat.add] in Hcopy. change (Z.of_nat 0) with 0 in Hcopy. rewrite Hcopy. cbn [mbind option_bind].
  destruct (word_buffer nm (uninit 256)) as (jk & -> & Hjk); [lia|]. cbn [mbind option_bind].
  rewrite skip_blanks_spec. cbn [mbind option_bind]. fold text.
  assert (Htz : 0 ∉ text).
  { intros Hx%drop_blanks_sub. apply Hdz. rewrite Hsplit. apply elem_of_app. by right. }
  assert (Hhead : exists c0 nm', nm = c0 :: nm' /\ c0 <> 0).
  { destruct nm as [|c0 nm']; [done|]. exists c0, nm'. split; [done|]. intros ->. apply Hnmz. by left. }
  destruct Hhead as (c0 & nm' & Hnm & Hc0).
  assert (Hget : zget (nm ++ 0 :: jk) 0 = Some c0) by by rewrite Hnm.
  rewrite Hget. cbn [mbind option_bind]. rewrite (proj2 (Z.eqb_neq c0 0)) by done.
  rewrite no_argument_spec by done. rewrite bool_decide_false by done. cbn [mbind option_bind].
  assert (Hnb : bytes_ok (nm ++ 0 :: jk)).
  { apply bytes_ok_app. split; [|constructor; [lia|by apply Hjk]]. apply Forall_forall. intros x Hx. by apply Hbs', Hin, Hnmd. }
  rewrite (resolve_current k N T B t nm node i c jk) by done. cbn [mbind option_bind].
  rewrite (strlen_spec _ text) by (by apply cstring_cbuf || lia). cbn [mbind option_bind].
  assert (Htb : bytes_ok (text ++ 0 :: rest)).
  { apply bytes_ok_app. split; [|done]. apply Forall_forall. intros x Hx%drop_blanks_sub. apply Hbs', Hin.
    rewrite Hsplit. apply elem_of_app. by right. }
  destruct (write_named_file (io_fs (k_io k)) N T B (cwd t) nm (nm ++ 0 :: jk) node i c (text ++ 0 :: rest)
    (Z.of_nat (length text)) Hrel Hc) as (f' & T' & B' & node1 & node' & Hw & Hrel' & Hnf');
    [split; [done|by apply cstring_cbuf|lia]|done|done|unfold MAX_FILE; lia|rewrite length_app; lia|].
  rewrite Hw. cbn [mbind option_bind]. change (0 =? -1) with false. cbn match.
  exists f', T', B', node'. split; [done|]. split; [done|]. by rewrite Nat2Z.id, take_app_length in Hnf'.
Qed.

(** What [cat] of a file does: the contents and a newline, the heap's blocks as
    they were, or the message that there is no memory for the buffer. *)
Definition shows_file P m l k (c : list Z) k' : Prop :=
  (shows (io_vga (k_io k)) (c ++ [newline]) (io_vga (k_io k')) /\ okk P m (k_sched k') l) \/
  ((exists e, kmalloc_op (env (k_sched k)) (Z.of_nat (length c) + 1) = Some (0, e)) /\
   shows (io_vga (k_io k)) (codes "Out of memory" ++ [newline]) (io_vga (k_io k')) /\ okk P m (k_sched k') l).

Lemma kernel_heap P m m' l k e : okk P m (k_sched k) l -> m' = m ->
  (forall c, current k = Some c -> holds P (t_cr3 c) e m') -> okk P m (set_env e (k_sched k)) l.
Proof.
  intros Hk -> He. destruct (so_memory _ _ _ _ _ _ _ (ko_sched _ _ _ _ _ _ _ Hk)) as (c & Hc & Hh).
  apply (kernel_env syms boot_lo boot_hi P P m m (k_sched k) l e Hk); [|done].
  change (sched_ok syms boot_lo boot_hi P m (set_files (files (k_sched k)) (set_env e (k_sched k))) l).
  by apply (ok_heap syms boot_lo boot_hi P m m (k_sched k) l c e _ (ko_sched _ _ _ _ _ _ _ Hk) Hc (He c Hc)).
Qed.

Lemma run_cat_spec P m l k N T B t nm node i c s rest : okk P m (k_sched k) l -> console k -> current k = Some t ->
  fs_rel (io_fs (k_io k)) N T B -> node_ok vfs_root -> node_ok (cwd t) ->
  bytes_ok (s ++ 0 :: rest) -> 0 ∉ s -> 47 ∉ nm -> drop_blanks s = nm -> nm <> [] ->
  named_file T B (cwd t) nm node i c -> bytes_ok c -> 0 ∉ c -> Z.of_nat (length c) <= MAX_FILE ->
  exists k', cat (s ++ 0 :: rest) k = Some k' /\ io_fs (k_io k') = io_fs (k_io k) /\ shows_file P m l k c k'.
Proof.
  intros Hk Hcon Hcur Hrel Hr Hc Hb Hz Hs47 Hd Hne Hnf Hcb Hcz Hlen. unfold MAX_FILE in *. unfold run_cat.
  rewrite skip_blanks_spec, Hd. cbn [mbind option_bind].
  assert (Hnz : 0 ∉ nm) by (rewrite <- Hd; intros ?%drop_blanks_sub; done).
  rewrite no_argument_spec by done. rewrite bool_decide_false by done. cbn [mbind option_bind].
  apply bytes_ok_app in Hb as [Hbs Hbr].
  assert (Hnb : bytes_ok (nm ++ 0 :: rest)).
  { apply bytes_ok_app. split; [|done]. unfold bytes_ok in Hbs. rewrite Forall_forall in Hbs. apply Forall_forall.
    intros x Hx. apply Hbs. rewrite <- Hd in Hx. by apply drop_blanks_sub. }
  rewrite (resolve_current k N T B t nm node i c rest) by done. cbn [mbind option_bind].
  pose proof Hnf as [_ Hfn _ Hsz]. pose proof (fn_plain _ _ _ _ _ _ Hfn) as Hplain. unfold is_dir in Hplain.
  rewrite Hplain, Hsz. set (n := Z.of_nat (length c)) in *. rewrite (u32_small (n + 1)) by lia.
  destruct (so_memory _ _ _ _ _ _ _ (ko_sched _ _ _ _ _ _ _ Hk)) as (t' & Ht' & Hh).
  unfold current in Hcur. rewrite Hcur in Ht'. injection Ht' as <-.
  destruct (holds_kmalloc P (t_cr3 t) _ m (n + 1) Hh) as (p & e1 & m1 & Hm1 & Hh1 & Hcase); [lia|].
  rewrite Hm1. cbn [mbind option_bind].
  set (k1 := set_k_sched (set_env e1 (k_sched k)) k).
  assert (Hcon1 : console k1) by (destruct Hcon as [A1 A2 A3]; by split).
  destruct Hcase as [[-> Heq]|(sz & Hp & Hmp & Hnsz & Heq)].
  - cbn [Z.eqb]. destruct (print_plain_out im syms vfs_root uninit temp addr regs k1
      (codes "Out of memory" ++ [newline]) Hcon1) as (k2 & Hpr & (v & -> & Hsh) & _); [done|done|].
    unfold line. rewrite Hpr. eexists. split; [reflexivity|]. split; [done|]. right.
    split; [by exists e1|]. split; [exact Hsh|].
    apply (kernel_heap P m m1 l k e1 Hk Heq). intros c' Hc'. unfold current in Hc'. rewrite Hcur in Hc'.
    by injection Hc' as <-.
  - rewrite (proj2 (Z.eqb_neq p 0)) by lia.
    destruct (Huninit (Z.to_nat (n + 1))) as [Hul Hub].
    change (io_fs (k_io k1)) with (io_fs (k_io k)).
    rewrite (vfs_read_spec (io_fs (k_io k)) N T B node nm i c _ n Hrel Hfn) by lia. cbn [mbind option_bind].
    replace (Z.to_nat n `min` length c)%nat with (length c) by lia. rewrite firstn_all.
    destruct (word_buffer c (uninit (Z.to_nat (n + 1)))) as (jk & Hset & Hjk); [lia|].
    fold n in Hset. rewrite Hset. cbn [mbind option_bind].
    destruct (print_string_out im syms vfs_root uninit temp addr regs k1 c jk Hcon1) as (k2 & -> & P2 & C2);
      [apply bytes_ok_app; split; [done|constructor; [lia|by apply Hjk]]|done|lia|].
    cbn [mbind option_bind].
    destruct (print_char_out im syms vfs_root uninit temp addr regs k2 newline C2) as (k3 & -> & P3 & C3); [done|].
    cbn [mbind option_bind]. destruct (prints_app _ _ _ _ _ P2 P3) as (v & -> & Hsh).
    change (env (k_sched (set_vga v k1))) with e1.
    destruct (holds_kfree P (t_cr3 t) e1 m1 p sz Hh1) as (e2 & -> & Hh2); [by rewrite Heq, lookup_insert_eq|].
    cbn [mbind option_bind]. eexists. split; [reflexivity|]. split; [done|]. left. split; [exact Hsh|].
    cbn [k_sched set_k_sched].
    change (okk P m (set_env e2 (k_sched k)) l).
    apply (kernel_heap P m (delete p m1) l k e2 Hk); [by rewrite Heq, delete_insert_id|].
    intros c' Hc'. unfold current in Hc'. rewrite Hcur in Hc'. by injection Hc' as <-.
Qed.

(** C15. What is written is what is shown.  In a directory with the file [nm],
    "write nm text" stores the text and prints nothing, and "cat nm" after it
    prints the text and a newline and gives its buffer back, or says that it
    has no memory for the buffer. *)
Theorem shell_write_cat_roundtrip P m l k N T B t nm node c s1 rest1 s2 rest2 :
  okk P m (k_sched k) l -> console k -> current k = Some t -> node_ok vfs_root -> node_ok (cwd t) ->
  fs_rel (io_fs (k_io k)) N T B -> step T B (cwd t) nm = Some node -> is_dir node = false ->
  fs_file T B (n_inode_idx node) = Some c -> nm <> [] -> 47 ∉ nm ->
  bytes_ok (s1 ++ 0 :: rest1) -> 0 ∉ s1 -> first_word s1 = nm ->
  argument s1 <> [] -> Z.of_nat (length (argument s1)) <= MAX_FILE ->
  bytes_ok (s2 ++ 0 :: rest2) -> 0 ∉ s2 -> drop_blanks s2 = nm ->
  exists k1 k2, write (s1 ++ 0 :: rest1) k = Some k1 /\ k_sched k1 = k_sched k /\
    io_vga (k_io k1) = io_vga (k_io k) /\
    cat (s2 ++ 0 :: rest2) k1 = Some k2 /\ shows_file P m l k1 (argument s1) k2.
Proof.
  intros Hk Hcon Hcur Hr Hc Hrel Hst Hd Hcf Hne H47 Hb1 Hz1 Hw1 Ha1 Hl1 Hb2 Hz2 Hw2.
  assert (Hnmz : 0 ∉ nm) by (rewrite <- Hw2; intros ?%drop_blanks_sub; done).
  assert (Hnm : c_name (cbuf nm) nm).
  { destruct (step_file T B (cwd t) nm node (rel_inv _ _ _ _ Hrel) Hc Hst Hd) as (j & Hfj & _ & _ & _ & _).
    assert (Hdir : 0 <= n_inode_idx (cwd t) < 64) by done.
    pose proof (found_name_short T B _ nm j (rel_inv _ _ _ _ Hrel) Hdir Hfj).
    split; [|by apply cstring_cbuf|lia]. apply bytes_ok_app. split; [|by repeat constructor].
    apply bytes_ok_app in Hb2 as [Hb2 _]. unfold bytes_ok in Hb2. rewrite Forall_forall in Hb2.
    apply Forall_forall. intros x Hx. apply Hb2. rewrite <- Hw2 in Hx. by apply drop_blanks_sub. }
  pose proof (named_file_ok _ N T B (cwd t) nm _ node c Hrel Hc Hnm Hst Hd Hcf) as Hnf.
  destruct (run_write_spec k N T B t nm node _ c s1 rest1 Hcur Hrel Hr Hc Hb1 Hz1 H47 Hw1 Hne Ha1 Hl1 Hnf) as
    (f' & T' & B' & node' & -> & Hrel' & Hnf').
  assert (Hat : bytes_ok (argument s1) /\ 0 ∉ argument s1).
  { assert (Hin : forall x, x ∈ argument s1 -> x ∈ s1).
    { intros x Hx%drop_blanks_sub. apply drop_blanks_sub. rewrite (word_split (drop_blanks s1)).
      apply elem_of_app. by right. }
    apply bytes_ok_app in Hb1 as [Hb1 _]. unfold bytes_ok in Hb1. rewrite Forall_forall in Hb1.
    split; [apply Forall_forall; intros x Hx; by apply Hb1, Hin|by intros Hx%Hin]. }
  assert (Hcon' : console (set_fs f' k)) by (destruct Hcon as [A1 A2 A3]; by split).
  destruct (run_cat_spec P m l (set_fs f' k) N T' B' t nm node' _ (argument s1) s2 rest2 Hk Hcon' Hcur Hrel' Hr Hc
    Hb2 Hz2 H47 Hw2 Hne Hnf' (proj1 Hat) (proj2 Hat) Hl1) as (k2 & Hcat & _ & Hsf).
  exists (set_fs f' k), k2. by repeat (split; [done|]).
Qed.
End Roundtrip.

(** ** Example: "a hi", then "a" *)
Import RamDisk Crtc.
Lemma shell_write_cat_roundtrip_witness : exists s f k1 k2,
  run_write demo_image demo_syms root_node zeros root_node 0x5000 shell_regs [97; 32; 104; 105; 0] (shell_kernel s f) = Some k1 /\
  run_cat demo_image demo_syms root_node zeros root_node 0x5000 shell_regs [97; 0] k1 = Some k2.
Proof.
  destruct demo_file as (f & T & B & i & _ & Hrel & Hf & Hc).
  destruct (shell_kernel_ok f) as (s & m & Hk). destruct (shell_task s f) as (t & Ht & Hcwd).
  assert (Hst : step T B root_node name_a = Some (node_of T i name_a 0)).
  { unfold step. change (is_dir root_node) with true. cbn [negb].
    rewrite decide_False by done. change (n_inode_idx root_node) with 0. rewrite Hf. reflexivity. }
  destruct (shell_write_cat_roundtrip demo_image demo_image_ok demo_syms root_node BOOT_LO BOOT_HI zeros root_node 0x5000
    shell_regs zeros_ok ∅ m [] (shell_kernel s f) 32768 T B t name_a (node_of T i name_a 0) [] [97; 32; 104; 105] []
    [97] [] Hk (shell_console s f) Ht) as (k1 & k2 & Hw & _ & _ & Hcat & _).
  - exact (proj1 root_node_valid).
  - rewrite Hcwd. exact (proj1 root_node_valid).
  - exact Hrel.
  - rewrite Hcwd. exact Hst.
  - rewrite node_of_dir. exact (demo_plain T B i Hc).
  - exact Hc.
  - discriminate.
  - unfold name_a. rewrite not_elem_of_cons. split; [discriminate|apply not_elem_of_nil].
  - by repeat constructor.
  - rewrite !not_elem_of_cons. repeat (split; [discriminate|]). apply not_elem_of_nil.
  - reflexivity.
  - discriminate.
  - cbn. unfold MAX_FILE. lia.
  - by repeat constructor.
  - rewrite not_elem_of_cons. split; [discriminate|apply not_elem_of_nil].
  - reflexivity.
  - exists s, f, k1, k2. split; [exact Hw|exact Hcat].
Defined.
