(* ===== verification/TaskProgram.v ===== *)
(** * Running a program from a file

    create_user_process on the machine and the file system: what [TaskExec]
    says of it on any memory managers, for the bytes of a file. *)
From S2P Require Import Prelude CString Cpu Gdt Timer PortIo Pic Keyboard Vga Console Pmm Heap Allocator Paging Vmm VmmInv VmmOps VmmProps.
From S2P Require Import Memory Machine BlockDev DiskLayout SimpleFs FsView FsDir FsInv FsOps FsMount FsIo FsProps Vfs VfsProps File FileProps.
From S2P Require Import Task TaskRing TaskInv TaskSched TaskOps TaskCreate TaskUser Loader UserPages ProgramSlot TaskExec.
From S2P Require Import TaskSteps TaskDemo Registers UserMem Syscall SyscallInv Shell ShellDemo ShellFiles.
Open Scope Z_scope.

Section Program.
Context (im : vmm_image) (Him : image_ok im).
#[local] Hint Extern 0 (Memory (heap vm)) => exact (machine_memory im) : typeclass_instances.
#[local] Hint Extern 0 (MemoryOk (heap vm)) => exact (machine_memory_ok im Him) : typeclass_instances.
#[local] Hint Extern 0 (Allocator (heap vm)) => exact (@memory_allocator _ (machine_memory im)) : typeclass_instances.
#[local] Hint Extern 0 (LoaderOk (heap vm)) => exact (machine_loader im Him) : typeclass_instances.
Context (syms : symbols) (boot_lo boot_hi : Z) (vfs_root : vfs_node).
Hypothesis Hlay : @layout_ok (heap vm) _ _ syms boot_lo boot_hi.
Implicit Types (s : sched (heap vm)) (P : gset held).
#[local] Abbreviation ok := (@sched_ok (heap vm) _ _ syms boot_lo boot_hi).
(** ** When a program fits *)
Lemma directory_provider s us (e : heap vm) d e1 : user_directory s us e = Some (d, e1) ->
  exists v, e1 = set_provider e v.
Proof.
  unfold user_directory. intros ([d' e2] & Hcr & (e3 & Hmap & (c & _ & [= _ <-])%mbind_Some)%mbind_Some)%mbind_Some.
  cbn in Hcr. apply mbind_Some in Hcr as ([f s'] & _ & [= _ <-]).
  cbn in Hmap. apply mbind_Some in Hmap as (s2 & _ & [= <-]). by eexists.
Qed.
Lemma directory_frames P act s us (e e1 : heap vm) m d f pm k : holds P act e m -> StackPage us ∈ P ->
  pmm_alloc_page (vm_pmm (provider e)) = Some (f, pm) -> 0 < f < 4194304 -> plenty (S k) pm = true ->
  user_directory s us e = Some (d, e1) -> plenty k (vm_pmm (provider e1)) = true.
Proof.
  intros Hh Hin Ha Hf Hpl. destruct (directory_made im Him P act e m f pm Hh Ha Hf) as (e2 & Hcr & Hm).
  unfold user_directory. rewrite Hcr. cbn [mbind option_bind].
  intros (e3 & Hmap & (c & _ & [= _ <-])%mbind_Some)%mbind_Some.
  destruct (vmm_create_law _ _ _ _ _ _ Hh Hcr) as [[? _]|(_ & _ & Hh2)]; [lia|].
  pose proof (vmm_switch_law _ _ _ _ f Hh2 ltac:(left; set_solver)) as Hh3.
  change (plenty k (vm_pmm (provider e3)) = true).
  refine (map_frames im Him _ _ _ _ us e3 k Hh3 ltac:(set_solver) Hmap _).
  change (plenty (S k) (vm_pmm (provider e2)) = true). by rewrite Hm.
Qed.

(** With these frames and this room in the heap, the file's task is made. *)
Lemma exec_goes P m s l size buf e st us a e2 f pm : ok P m s l -> 0 < size <= MAX_FILE ->
  kmalloc_op (env s) size = Some (buf, e) -> buf <> 0 -> user_memory (set_env e s) = Some (st, us, a, e2) ->
  pmm_alloc_page (vm_pmm (provider e2)) = Some (f, pm) -> 0 < f < 4194304 -> plenty (S (S (pages_for size))) pm = true ->
  (forall v, exists e3, alloc_all (replicate 3 SIZEOF_FILE) (set_provider e2 v) = Some e3 /\ provider e3 = v) ->
  exec_fits syms vfs_root s size /\ ~ exec_refused s size /\ ~ exec_files_short s size.
Proof.
  intros Hs Hsz Hk Hb Hum Ha Hf Hpl Hroom. destruct (so_memory _ _ _ _ _ _ _ Hs) as (c & Hc & Hh).
  destruct (holds_kmalloc _ _ _ _ size Hh) as (p & e' & m1 & Hk' & Hh1 & Hcase); [unfold MAX_FILE in *; lia|].
  rewrite Hk in Hk'. injection Hk' as <- <-. destruct Hcase as [[Hz _]|(z & _ & Hbuf & _ & ->)]; [by destruct Hb|].
  set (s0 := set_env e s) in *.
  assert (Hs0 : ok P (<[buf := z]> m) s0 l).
  { apply (ok_change syms boot_lo boot_hi P m P _ s s0 l Hs); try done; [by apply (so_running _ _ _ _ _ _ _ Hs)|by apply insert_subseteq|].
    intros c' Hc'. rewrite Hc in Hc'. injection Hc' as <-. exact Hh1. }
  destruct (user_memory_spec P _ s0 c st us a e2 Hc Hh1 Hum) as [m2 Hm2]. pose proof (hm_holds _ _ _ _ _ _ _ _ _ Hm2) as Hh2.
  destruct (directory_made im Him _ _ e2 m2 f pm Hh2 Ha Hf) as (e4 & Hcr & _).
  split; [|split].
  - intros buf' e' Hk' _. rewrite Hk in Hk'. injection Hk' as <- <-. fold s0. split.
    + intros (st' & us' & a' & e' & Hum' & Hd). rewrite Hum in Hum'. injection Hum' as <- <- <- <-.
      rewrite Hcr in Hd. destruct Hd as [Hd|[e5 Hd]]; [done|]. injection Hd as -> _. lia.
    + intros a' s1 Hct Ha'.
      destruct (create_user_steps syms boot_lo boot_hi vfs_root Hlay P _ l s0 s1 _ a' Hs0 Ha' Hct) as
        (st' & us' & e' & d & e5 & t & Hum' & Hdir & Hfiles & _).
      rewrite Hum in Hum'. injection Hum' as <- <- <- <-.
      pose proof (directory_frames _ _ s0 us e2 e5 m2 d f pm _ Hh2 ltac:(set_solver) Ha Hf Hpl Hdir) as Hpl5.
      destruct (directory_provider s0 us e2 d e5 Hdir) as [v ->]. destruct (Hroom v) as (e3 & Hall & Hv).
      rewrite Hfiles in Hall. injection Hall as Hall.
      change (plenty (S (pages_for size)) (vm_pmm (provider (env s1))) = true). rewrite Hall, Hv. exact Hpl5.
  - intros (buf' & e' & Hk' & Hd). rewrite Hk in Hk'. injection Hk' as <- <-. destruct Hd as [Hd|Hd]; [done|].
    fold s0 in Hd. congruence.
  - intros (buf' & e' & Hk' & st' & us' & a' & e5 & d & e6 & Hum' & Hdir & Hout). rewrite Hk in Hk'. injection Hk' as <- <-.
    fold s0 in Hum', Hdir. rewrite Hum in Hum'. injection Hum' as <- <- <- <-.
    destruct (directory_provider s0 us e2 d e6 Hdir) as [v ->]. destruct (Hroom v) as (e3 & Hall & _).
    refine (room_files [] _ e3 _ Hout). rewrite app_nil_r. exact Hall.
Qed.

(** ** The bytes of a file *)
Context {V : Type} `{BlockDeviceOk V} (fill : nat -> list Z).
Hypothesis Hfill : forall n, length (fill n) = n.

Lemma contents_ok f N T B node nm i bs : fs_rel f N T B -> file_node T B node nm i bs ->
  bytes_ok bs /\ Z.of_nat (length bs) <= MAX_FILE.
Proof.
  intros Hrel [_ Hp _ Hf Hc]. pose proof (rel_inv _ _ _ _ Hrel) as Hinv. pose proof (rel_view _ _ _ _ Hrel) as Hv.
  destruct (fs_find_range T B Hinv _ nm i Hp Hf) as (_ & Hi & _).
  destruct (file_size (dev f) N T B i bs Hv Hinv Hi Hc) as [Hsize _]. unfold fs_file in Hc.
  destruct (inode_used (T i)) eqn:Hu; [|done]. destruct (inv_file _ _ Hinv i Hi Hu) as [Hsz _].
  destruct (negb (inode_dir (T i))); [|done]. injection Hc as <-. split; [|lia].
  apply Forall_take, Forall_concat, Forall_fmap, Forall_take, Forall_forall. intros b Hb.
  destruct (v_block _ _ _ _ Hv b) as [_ [_ Hok]]; [|exact Hok]. pose proof (v_big _ _ _ _ Hv).
  pose proof (inv_range _ _ Hinv i b Hi Hu Hb). unfold MIN_SECTORS, LAST_BLOCK in *. lia.
Qed.

Lemma file_program f N T B node nm i bs : fs_rel f N T B -> file_node T B node nm i bs ->
  n_size node = Z.of_nat (length bs) -> program_in (dev f) fill node bs.
Proof.
  intros Hrel Hfn Hsize. destruct (contents_ok f N T B node nm i bs Hrel Hfn) as [Hbs Hmax].
  split; [done|]. split; [lia|]. split; [done|].
  eexists _, _. rewrite Hsize.
  rewrite (vfs_read_spec f N T B node nm i bs) by (done || rewrite ?Hfill; unfold MAX_FILE in *; lia).
  rewrite Nat2Z.id, Nat.min_id, firstn_all. reflexivity.
Qed.

(** C13. create_user_process of a path that names nothing answers 0 and changes
    nothing.  Of a file, when the new task's page directory can be made and
    there are frames for the pages of the program and their table, it has three
    outcomes.  Without memory for the buffer, or beside it for the task, it
    answers 0 with everything it took given back.  When the heap runs out on a
    File object the outcome is undefined, as for create_task.  Otherwise it
    makes a READY user task whose page directory shows the file's bytes from
    USER_CODE_START on: switching to it runs the trampoline, whose iret enters
    ring 3 at the first of these bytes.  The buffer is back in the heap and no
    block or page of another task is touched. *)
Theorem create_user_process_correct P m s l f N T B junk path c found :
  ok P m s l -> next_pid s + 1 < 4294967296 -> tasks s !! current_task s = Some c -> fs_rel f N T B ->
  vfs_resolve_path (dev f) vfs_root (cwd c) junk (Some path) = Some found ->
  let r := create_user_process syms (dev f) vfs_root junk path fill s in
  match found with
  | None => r = Some (0, s)
  | Some node => forall nm i bs, file_node T B node nm i bs -> n_size node = Z.of_nat (length bs) ->
      exec_fits syms vfs_root s (n_size node) ->
      (exec_refused s (n_size node) /\
       exists s', r = Some (0, s') /\ tasks s' = tasks s /\ words s' = words s /\ ok P m s' l) \/
      (exists a s' t P' m' x, r = Some (a, s') /\ a <> 0 /\ created s s' a t /\
        code_at (provider (env s')) (t_cr3 t) bs /\ Directory (t_cr3 t) ∉ P /\ P ⊆ P' /\
        new_blocks m m' a t /\ ok P' m' s' (a :: l) /\
        switch_load (t_esp t) (s_cpu s') (words s') = Some x /\ r_eip x = TRAMPOLINE syms /\
        iret x (words s') = Some (mk_user USER_CODE_START 0x1B 0x0202 USER_STACK_TOP 0x23)) \/
      (r = None /\ exec_files_short s (n_size node))
  end.
Proof.
  intros Hs Hpid Hc Hrel Hpath r. destruct found as [node|].
  2:{ unfold r, create_user_process. rewrite Hc. cbn [mbind option_bind]. by rewrite Hpath. }
  intros nm i bs Hfn Hsize Hfit.
  destruct (create_user_process_spec syms boot_lo boot_hi vfs_root Hlay (dev f) P m s l junk path fill c node bs Hs Hpid Hc Hpath
    (file_program f N T B node nm i bs Hrel Hfn Hsize) Hfit) as
    [(Hre & s' & Hr & e & -> & Hok)|[(a & s' & t & P' & m' & Hr & Ha & [Hcr [Hu [Hp1 Hp2] Hf Hi] Hcode HP Hnb Hok])|Hx]].
  - left. split; [exact Hre|]. eexists. split; [exact Hr|]. split; [done|]. split; [done|exact Hok].
  - right. left. exists a, s', t, P', m'. eexists. split; [exact Hr|]. split; [exact Ha|]. split; [exact Hcr|].
    split; [exact Hcode|]. split; [exact Hp2|]. split; [exact HP|]. split; [exact Hnb|]. split; [exact Hok|].
    split; [exact (switch_load_spec _ _ _ _ Hf)|]. split; [done|]. by apply Hi.
  - right. right. exact Hx.
Qed.
End Program.

(** ** Example: a file of two bytes *)
Import RamDisk Crtc.
#[local] Hint Extern 0 (Memory (heap vm)) => exact (machine_memory demo_image) : typeclass_instances.
#[local] Hint Extern 0 (MemoryOk (heap vm)) => exact (machine_memory_ok demo_image demo_image_ok) : typeclass_instances.
#[local] Hint Extern 0 (Allocator (heap vm)) => exact (@memory_allocator _ (machine_memory demo_image)) : typeclass_instances.
#[local] Hint Extern 0 (LoaderOk (heap vm)) => exact (machine_loader demo_image demo_image_ok) : typeclass_instances.
Definition demo_code : list Z := [0xEB; 0xFE].   (* jmp to itself *)
Lemma demo_program : exists (f : fs disk) T B node i, fs_rel f 32768 T B /\ named_file T B root_node name_a node i demo_code.
Proof.
  destruct demo_file as (f & T & B & i & _ & Hrel & Hf & Hc).
  assert (Hst : VfsProps.step T B root_node name_a = Some (node_of T i name_a 0)).
  { unfold VfsProps.step. change (is_dir root_node) with true. cbn [negb].
    rewrite decide_False by done. change (n_inode_idx root_node) with 0. rewrite Hf. reflexivity. }
  assert (Hnf : named_file T B root_node name_a (node_of T i name_a 0) i []).
  { apply (named_file_ok f 32768 T B root_node name_a (cbuf name_a) (node_of T i name_a 0) [] Hrel (proj1 root_node_valid) name_a_ok Hst).
    - rewrite node_of_dir. exact (demo_plain T B i Hc).
    - exact Hc. }
  destruct (write_named_file f 32768 T B root_node name_a (cbuf name_a) _ i [] demo_code 2 Hrel (proj1 root_node_valid) name_a_ok Hnf)
    as (f' & T' & B' & _ & node' & _ & Hrel' & Hnf'); [by repeat constructor|by vm_compute|done|].
  by exists f', T', B', node', i.
Qed.

(** There is room on the first heap, for the buffer, the task and the Files. *)
Lemma demo_memory s pm : pmm_alloc_page (vm_pmm s) = Some (0x127000, pm) ->
  exists buf e st a e2, kmalloc_op (env (shell_sched s)) 2 = Some (buf, e) /\ buf <> 0 /\
    user_memory (set_env e (shell_sched s)) = Some (st, 0x127000, a, e2) /\ vm_pmm (provider e2) = pm /\
    forall v, exists e3, alloc_all (replicate 3 SIZEOF_FILE) (set_provider e2 v) = Some e3 /\ provider e3 = v.
Proof.
  intros Ha.
  assert (exists buf e, kmalloc_op (env (shell_sched s)) 2 = Some (buf, e) /\ buf <> 0 /\
    exists st e1, kmalloc_op e TASK_STACK_SIZE = Some (st, e1) /\ st <> 0 /\ provider e1 = s /\
    forall v, exists a e2, kmalloc_op (set_provider e1 v) SIZEOF_TASK = Some (a, e2) /\ a <> 0 /\ provider e2 = v /\
    forall v, exists e3, alloc_all (replicate 3 SIZEOF_FILE) (set_provider e2 v) = Some e3 /\ provider e3 = v)
    as (buf & e & Hb & Hbz & st & e1 & H1 & Hst & Hp & Hrest).
  { clear Ha. eexists _, _. split; [vm_compute; reflexivity|]. split; [discriminate|].
    eexists _, _. split; [vm_compute; reflexivity|]. split; [discriminate|]. split; [reflexivity|]. intros v.
    eexists _, _. split; [vm_compute; reflexivity|]. split; [discriminate|]. split; [reflexivity|]. intros w.
    eexists. split; [vm_compute; reflexivity|reflexivity]. }
  destruct (Hrest (set_vm_pmm pm s)) as (a & e2 & H2 & Haz & Hp2 & Hfiles).
  exists buf, e, st, a, e2. split; [exact Hb|]. split; [exact Hbz|]. split; [|split; [by rewrite Hp2|exact Hfiles]].
  unfold user_memory. cbn [env set_env]. rewrite H1. cbn [mbind option_bind].
  change (pmm_alloc_op e1) with ('(p, s) ← vm_alloc_page (provider e1); Some (p, set_provider e1 s)).
  unfold vm_alloc_page. rewrite Hp, Ha. cbn [mbind option_bind].
  rewrite (proj2 (Z.eqb_neq st 0)) by exact Hst. cbn [orb Z.eqb]. rewrite H2. cbn [mbind option_bind].
  rewrite (proj2 (Z.eqb_neq a 0)) by exact Haz. reflexivity.
Qed.

(** The next frames: the stack's page, the directory, its table, and enough. *)
Definition demo_pmm3 : pmm := pmm_after (pmm_after (pmm_after demo_pmm)).
Lemma alloc_fourth : pmm_alloc_page demo_pmm3 = Some (0x128000, pmm_after demo_pmm3).
Proof. apply (option_pair_eta _ 0x128000). vm_compute. reflexivity. Qed.
Lemma alloc_plenty : plenty 3 (pmm_after demo_pmm3) = true.
Proof. vm_compute. reflexivity. Qed.

#[local] Abbreviation demo_ok := (@sched_ok (heap vm) _ _ demo_syms BOOT_LO BOOT_HI).
Lemma demo_exec s m l : demo_ok ∅ m (shell_sched s) l -> vm_pmm s = pmm_after (pmm_after demo_pmm) ->
  exec_fits demo_syms root_node (shell_sched s) 2 /\ ~ exec_refused (shell_sched s) 2 /\ ~ exec_files_short (shell_sched s) 2.
Proof.
  intros Hs Hm. destruct (demo_memory s demo_pmm3) as (buf & e & st & a & e2 & Hk & Hb & Hum & Hp2 & Hfiles);
    [rewrite Hm; exact alloc_third|].
  refine (exec_goes demo_image demo_image_ok demo_syms BOOT_LO BOOT_HI root_node shell_layout ∅ m (shell_sched s) l
    2 buf e st 0x127000 a e2 0x128000 (pmm_after demo_pmm3) Hs _ Hk Hb Hum _ _ alloc_plenty Hfiles).
  - by split.
  - rewrite Hp2. exact alloc_fourth.
  - by split.
Qed.

Lemma create_user_process_correct_witness : exists s (f : fs disk) node i B T a s' t,
  vfs_resolve_path (dev f) root_node root_node (zeros 256) (Some (name_a ++ [0])) = Some (Some node) /\
  fs_file T B i = Some demo_code /\
  create_user_process demo_syms (dev f) root_node (zeros 256) (name_a ++ [0]) zeros (shell_sched s) = Some (a, s') /\
  created (shell_sched s) s' a t /\ code_at (provider (env s')) (t_cr3 t) demo_code.
Proof.
  destruct demo_program as (f & T & B & node & i & Hrel & Hnf).
  destruct (shell_kernel_frames f) as (s & m & [Hs _] & Hm). destruct (shell_task s f) as (c & Hc & Hcwd).
  destruct (demo_exec s m [] Hs Hm) as (Hfit & Hre & Hfs).
  assert (Hpath : vfs_resolve_path (dev f) root_node (cwd c) (zeros 256) (Some (name_a ++ [0])) = Some (Some node)).
  { rewrite Hcwd. destruct (zeros_ok 256) as [Hl Hz]. pose proof (proj1 root_node_valid) as Hroot.
    assert (Ha : bytes_ok (name_a ++ [0])) by by repeat constructor.
    assert (Hn : forall x, x <> 97 -> x ∉ name_a).
    { intros x Hx. unfold name_a. rewrite not_elem_of_cons. split; [done|apply not_elem_of_nil]. }
    exact (resolve_name f 32768 T B root_node root_node (zeros 256) name_a node i demo_code [] Hrel Hroot Hroot Hl Hz Ha
      (Hn 0 ltac:(done)) (Hn 47 ltac:(done)) ltac:(discriminate) Hnf). }
  destruct Hnf as [_ Hfn _ Hsize]. assert (Hsize2 : n_size node = 2) by exact Hsize.
  rewrite <- Hsize2 in Hfit, Hre, Hfs.
  destruct (create_user_process_correct demo_image demo_image_ok demo_syms BOOT_LO BOOT_HI root_node shell_layout zeros
    (fun n => proj1 (zeros_ok n)) ∅ m (shell_sched s) [] f 32768 T B (zeros 256) (name_a ++ [0]) c (Some node) Hs
    eq_refl Hc Hrel Hpath name_a i demo_code Hfn Hsize Hfit) as
    [[Hx _]|[(a & s' & t & P' & m' & x & Hr & _ & Hcr & Hcode & _)|[_ Hx]]].
  - destruct (Hre Hx).
  - exists s, f, node, i, B, T, a, s', t. rewrite Hcwd in Hpath.
    exact (conj Hpath (conj (fn_contents _ _ _ _ _ _ Hfn) (conj Hr (conj Hcr Hcode)))).
  - destruct (Hfs Hx).
Defined.
