(* ===== verification/Kernel.v ===== *)
(** * kernel.cpp: the start of the kernel and its spinner

    [kernel_main] calls each component's initialisation once and ends in the
    shell.  The linker's addresses are a [link_map], what the loader and the
    firmware leave a [machine_state]; the memory map the loader passes is
    [mmap_at], as in [Pmm].  The messages of [simplefs_init] are printed here:
    [SimpleFs] has no console. *)
From S2P Require Import Prelude CString Pmm Heap Allocator Paging Vmm Memory Machine BlockDev DiskLayout SimpleFs Vfs File.
From S2P Require Import PortIo Pic Keyboard Vga Console Gdt Timer Idt Cpu Task Registers UserMem Syscall Shell.
Open Scope Z_scope.

(** The addresses the linker chose. *)
Record link_map := mk_link_map {
  im_tables : vmm_image;      (* page_directory, first_page_table *)
  kernel_end : Z;
  gdt_at : Z * Z * Z;         (* gdt_record, gdt_entries, tss *)
  idt_at : Z * Z;             (* idt_record, idt_entries *)
  im_handlers : handlers;
  spinner : Z;
}.
Record machine_state (W D : Type) := mk_state {
  st_vga : vga W; st_gdt : gdt; st_idt : idt W; st_vm : vm; st_cpu : cpu; st_words : stack_words; st_disk : D;
}.
Arguments mk_state {W D} _ _ _ _ _ _ _.
Arguments st_vga {W D} _.
Arguments st_gdt {W D} _.
Arguments st_idt {W D} _.
Arguments st_vm {W D} _.
Arguments st_cpu {W D} _.
Arguments st_words {W D} _.
Arguments st_disk {W D} _.

(** Setting the interrupt flag. *)
Definition sti (c : cpu) : cpu := mk_cpu (r_eip c) (r_esp c) (Z.lor (r_eflags c) 0x200) (r_gpr c).

Section Kernel.
Context {W D : Type} `{Ports W} `{BlockDevice D}.
Context (img : link_map) (syms : symbols) (mmap_at : Z -> multiboot_mmap_entry).
Context (uninit : nat -> list Z) (temp : vfs_node) (addr : Z) (regs : Registers).
#[local] Abbreviation im := (im_tables img).
#[local] Hint Extern 0 (Memory (heap vm)) => exact (machine_memory im) : typeclass_instances.
#[local] Hint Extern 0 (PageProvider vm) => exact (vm_provider im) : typeclass_instances.
#[local] Abbreviation kernel := (kernel (heap vm) W D).
Implicit Types (v : vga W) (st : machine_state W D).

(** ** The spinner: a round of its loop, up to its sleep *)
Definition spinner_chars : list Z := codes "|/-\".
Definition spinner_round (idx : Z) (k : kernel) : option (Z * kernel) :=
  c ← zget spinner_chars (Z.rem idx 4);
  m ← zset (video_memory (io_vga (k_io k))) 79 (u16 (Z.lor c (Z.shiftl 0x0A 8)));
  let k := set_vga (set_memory (io_vga (k_io k)) m) k in
  s ← task_sleep_start (k_ticks k) (k_sched k) 100;
  Some (i32 (idx + 1), set_k_sched s k).

(** ** kernel_main *)
(** [init_idt] programs the controllers of the machine the screen is on. *)
Definition start_interrupts v (t : idt W) : option (vga W * idt W) :=
  t ← init_idt (fst (idt_at img)) (snd (idt_at img)) (im_handlers img) (on_machine t (fun _ => machine v));
  Some (mk_vga (video_memory v) (cursor_pos v) (text_attribute v) (idt_machine t), t).
(** What [simplefs_init] prints. *)
Definition mount_messages (d : D) v : option (vga W) :=
  buffer ← ata_read_sector d SIMPLEFS_SUPERBLOCK_SECTOR;
  let s := decode_sb buffer in
  if negb (magic s =? SIMPLEFS_MAGIC) || (total_sectors s =? 0) then
    v ← print_string v (lit "[SimpleFS] Formatting Disk...");
    v ← print_string v (lit "Clearing Inodes...");
    v ← print_string v (lit "Creating root directory...");
    print_string v (line "Done.")
  else print_string v (lit "[SimpleFS] Disk mounted successfully.").

Definition kernel_main (magic : Z) (mbi : multiboot_info) st
  : option (idt W * vfs_node * shell (W := W) (D := D)) :=
  v ← vga_init (st_vga st);
  v ← print_string v (lit "Initializing GDT...");
  let '(gdt_record, gdt_entries, tss) := gdt_at img in
  g ← init_gdt gdt_record gdt_entries tss (st_gdt st);
  v ← print_string v (line " Done.");
  v ← print_string v (lit "Initializing IDT & Interrupts...");
  '(v, t) ← start_interrupts v (st_idt st);
  v ← print_string v (line " Done.");
  v ← print_string v (lit "Initializing Physical Memory Manager...");
  p ← init_pmm mmap_at (kernel_end img) magic mbi;
  v ← print_string v (line " Done.");
  v ← print_string v (lit "Initializing Virtual Memory Manager...");
  s ← init_vmm im (set_vm_pmm p (st_vm st));
  v ← print_string v (line " Done.");
  v ← print_string v (lit "Initializing Heap...");
  h ← init_heap s;
  v ← print_string v (line " Done.");
  v ← print_string v (lit "Initializing VFS...");
  v ← mount_messages (st_disk st) v;
  '(vfs_root, f) ← vfs_init (st_disk st);
  v ← print_string v (line " Done.");
  v ← print_string v (lit "Initializing Task...");
  sc ← init_tasking syms (dev f) vfs_root (uninit 256) g (st_cpu st) (st_words st) h;
  '(_, sc) ← create_task syms vfs_root sc (spinner img);
  v ← print_string v (line " Done.");
  let sc := mk_sched (tasks sc) (files sc) (words sc) (current_task sc) (next_pid sc) (s_gdt sc)
              (sti (s_cpu sc)) (env sc) in
  v ← print_string v (cbuf (codes "Interrupts enabled." ++ [newline; newline]));
  sh ← shell_start im syms vfs_root uninit temp addr regs (mk_kernel sc (mk_io keyboard_init v f) 0)
         (replicate 256 0);
  Some (t, vfs_root, sh).
End Kernel.
