(* ===== verification/KernelBoot.v ===== *)
(** * The steps of the start

    The memory managers, the first tasks and the first prompt, each from what
    the steps before it leave. *)
From S2P Require Import Prelude CString Pmm Heap Allocator Paging Vmm VmmInv VmmOps Memory Machine BlockDev DiskLayout SimpleFs.
From S2P Require Import FsView FsDir FsInv FsOps FsMount FsIo FsProps Vfs VfsProps File PortIo Pic Keyboard Vga Console FileProps.
From S2P Require Import Gdt Timer Idt Cpu Task TaskRing TaskInv TaskSched TaskOps TaskCreate TaskSteps Registers UserMem Syscall.
From S2P Require Import SyscallInv SyscallOps SyscallRun SyscallProps Shell ShellOut Kernel.
Open Scope Z_scope.

(** ** A heap with room *)
Section Room.
Context {E : Type} `{MemoryOk E}.
Implicit Types (e : E) (s : sched E).

(** With room for the stack and the object, [create_task] does not answer 0. *)
Lemma room_task syms root s ns e' ep s' :
  alloc_all (TASK_STACK_SIZE :: SIZEOF_TASK :: ns) (env s) = Some e' ->
  create_task syms root s ep <> Some (0, s').
Proof.
  cbn [alloc_all]. unfold create_task. intros Ha Hc.
  destruct (kmalloc_op (env s) TASK_STACK_SIZE) as [[p1 e1]|]; [|done]. cbn [mbind option_bind] in *.
  destruct (p1 =? 0); [done|].
  destruct (kmalloc_op e1 SIZEOF_TASK) as [[p2 e2]|]; [|done]. cbn [mbind option_bind] in *.
  destruct (Z.eqb_spec p2 0) as [|Hp2]; [done|]. apply mbind_Some in Hc as (kt & _ & Hc). unfold link_task in Hc.
  apply mbind_Some in Hc as ([[? ?] ?] & _ & Hc). apply mbind_Some in Hc as (? & _ & Hc).
  apply mbind_Some in Hc as (? & _ & Hc). apply mbind_Some in Hc as (? & _ & Hc). congruence.
Qed.
End Room.

(** ** The first two tasks *)
Section Tasks.
Context {E : Type} `{MemoryOk E} (syms : symbols) (vfs_root : vfs_node) (boot_lo boot_hi : Z).
Hypothesis Hlay : layout_ok syms boot_lo boot_hi.
#[local] Abbreviation K := (KERNEL_TASK syms).

(** [create_task] leaves the TSS alone. *)
Lemma create_gdt s ep a s' : create_task syms vfs_root s ep = Some (a, s') -> s_gdt s' = s_gdt s.
Proof.
  unfold create_task. intros Hc. apply mbind_Some in Hc as ([p e] & _ & Hc). destruct (p =? 0); [by injection Hc as <- <-|].
  apply mbind_Some in Hc as ([q e1] & _ & Hc). destruct (q =? 0).
  { apply mbind_Some in Hc as (e2 & _ & [= <- <-]). done. }
  apply mbind_Some in Hc as (kt & _ & Hc). unfold link_task in Hc.
  apply mbind_Some in Hc as ([[? ?] ?] & _ & Hc). apply mbind_Some in Hc as (? & _ & Hc).
  apply mbind_Some in Hc as (? & _ & Hc). by apply mbind_Some in Hc as (? & _ & [= <- <-]).
Qed.

Lemma first_tasks {D} `{BlockDevice D} (d : D) junk g c w e0 e ep :
  holds ∅ kernel_dir e0 ∅ -> length (tss_words (tss g)) = 25%nat ->
  alloc_all (replicate 3 SIZEOF_FILE ++ TASK_STACK_SIZE :: SIZEOF_TASK :: replicate 3 SIZEOF_FILE) e0 = Some e ->
  exists s1 s2 a t m k, init_tasking syms d vfs_root junk g c w e0 = Some s1 /\
    create_task syms vfs_root s1 ep = Some (a, s2) /\ created s1 s2 a t /\
    frame_at (words s2) (t_esp t) (fresh_cpu ep (t_esp t + 40)) /\
    kernel_ok syms boot_lo boot_hi ∅ m s2 [a] /\ s_gdt s2 = g /\
    current_task s1 = K /\ tasks s1 !! K = Some k /\ t_state k = TASK_RUNNING /\ cwd k = vfs_root /\
    standard_files ∅ (files s1) (fd_table k).
Proof.
  intros Hh Hg Hroom.
  destruct (init_tasking_spec syms boot_lo boot_hi vfs_root Hlay d junk g c w _ _ Hh Hg) as
    [[_ Hof]|(s1 & m1 & k & Hi & Hok & Hcur & Hk & Hst & Hcwd & Hnf & Hsf)].
  { exfalso. by apply (room_files _ _ _ Hroom). }
  destruct (init_kernel_ok syms boot_lo boot_hi vfs_root Hlay d junk g c w _ _ s1 Hh Hg Hi) as [m1' Hk1].
  assert (Hs1 : s_gdt s1 = g /\ alloc_all (replicate 3 SIZEOF_FILE) e0 = Some (env s1) /\
    next_pid s1 = 1).
  { unfold init_tasking in Hi. apply mbind_Some in Hi as ([[fds e1] F] & Hf & Hi). apply init_fds_alloc in Hf.
    apply mbind_Some in Hi as (r & _ & [= <-]). done. }
  destruct Hs1 as (Hg1 & Henv & Hpid). rewrite alloc_all_app, Henv in Hroom. cbn [mbind option_bind] in Hroom.
  destruct (create_task_spec syms boot_lo boot_hi vfs_root Hlay ∅ m1' s1 [] ep (ko_sched _ _ _ _ _ _ _ Hk1)) as
    [[_ (e1 & Ha & Hof)]|[(s2 & Hc & _)|(a & s2 & t & m2 & Hc & _ & Hcr & _ & _ & _ & Hfr & _ & Hnb & Hok2)]]; [lia|..].
  - change (alloc_all ([TASK_STACK_SIZE; SIZEOF_TASK] ++ replicate 3 SIZEOF_FILE) (env s1) = Some e) in Hroom.
    rewrite alloc_all_app, Ha in Hroom. cbn [mbind option_bind] in Hroom.
    by eapply (room_files []) in Hof.
  - by apply (room_task syms vfs_root s1 _ _ ep s2) in Hroom.
  - exists s1, s2, a, t, m2, k. split; [done|]. split; [done|]. split; [done|]. split; [done|].
    split; [split; [done|]; by eapply fds_create|]. split; [|done].
    rewrite <- Hg1. by apply (create_gdt s1 ep a).
Qed.

(** The kernel's task runs with the three standard Files, the new one waits to
    start at [ep]. *)
Record started (s : sched E) (a ep : Z) (k : Task) : Prop := {
  sd_current : current_task s = K;
  sd_kernel : tasks s !! K = Some k /\ t_state k = TASK_RUNNING /\ cwd k = vfs_root;
  sd_files : forall i ops, [stdin_ops; stdout_ops; stderr_ops] !! i = Some ops ->
    exists p f, descriptor k (Z.of_nat i) = Some p /\ files s !! p = Some f /\ f_ops f = ops;
  sd_new : exists t, tasks s !! a = Some t /\ t_state t = TASK_READY /\
    frame_at (words s) (t_esp t) (fresh_cpu ep (t_esp t + 40));
}.
Lemma boot_tasks {D} `{BlockDevice D} (d : D) junk g c w e0 e ep :
  holds ∅ kernel_dir e0 ∅ -> length (tss_words (tss g)) = 25%nat ->
  alloc_all (replicate 3 SIZEOF_FILE ++ TASK_STACK_SIZE :: SIZEOF_TASK :: replicate 3 SIZEOF_FILE) e0 = Some e ->
  exists s1 s2 a m k, init_tasking syms d vfs_root junk g c w e0 = Some s1 /\
    create_task syms vfs_root s1 ep = Some (a, s2) /\ kernel_ok syms boot_lo boot_hi ∅ m s2 [a] /\
    s_gdt s2 = g /\ started s2 a ep k.
Proof.
  intros Hh Hg Hroom. destruct (first_tasks d junk g c w e0 e ep Hh Hg Hroom) as
    (s1 & s2 & a & t & m & k & Hi & Hc & Hcr & Hfr & Hok & Hgd & Hcur & Hk & Hst & Hcwd & [Hsf]).
  assert (HaK : K <> a) by (intros <-; by rewrite (cr_fresh _ _ _ _ Hcr) in Hk).
  pose proof (cr_rest _ _ _ _ Hcr K HaK) as Hr. rewrite Hk in Hr. apply fmap_Some in Hr as (k' & Hk' & Heq).
  destruct (unlinked_fds _ _ Heq) as [Hfd _]. destruct (unlinked_fields _ _ Heq) as (_ & _ & _ & _ & _ & _ & Hs' & _).
  exists s1, s2, a, m, k'. split; [done|]. split; [done|]. split; [done|]. split; [done|].
  pose proof (cr_task _ _ _ _ Hcr) as Hta.
  split; [by rewrite (cr_current _ _ _ _ Hcr)|split; [done|]; split; [by rewrite <- Hs'|]| |exists t; split; [done|];
    split; [exact (cr_state _ _ _ _ Hcr)|done]].
  { apply (f_equal cwd) in Heq. cbn in Heq. by rewrite <- Heq. }
  destruct (cr_files _ _ _ _ Hcr) as [(f1 & f2 & f3 & Htab & _ & Hpos & _ & _ & _ & Hrest)].
  destruct Hsf as (g1 & g2 & g3 & Hktab & _ & Hkpos & G1 & G2 & G3 & _). rewrite Hktab in Hfd.
  assert (Hkeep : forall i p, [g1; g2; g3] !! i = Some p -> 0 < p /\ fd_table k' !! i = Some p /\ files s2 !! p = files s1 !! p).
  { intros i p Hp. pose proof Hp as Hpin%list_elem_of_lookup_2. rewrite Forall_forall in Hkpos.
    pose proof (Hkpos p Hpin) as Hpp. split; [done|].
    assert (Hkp : fd_table k' !! i = Some p).
    { rewrite <- Hfd. change (g1 :: g2 :: g3 :: replicate 13 0) with ([g1; g2; g3] ++ replicate 13 0). by apply lookup_app_l_Some. }
    split; [done|]. apply Hrest. intros Hin. apply list_elem_of_lookup in Hin as (j & Hj).
    destruct (fo_once _ _ _ _ (ko_fds _ _ _ _ _ _ _ Hok) K a k' t i j p) as [? _]; try done; [|lia].
    rewrite Htab. change (f1 :: f2 :: f3 :: replicate 13 0) with ([f1; f2; f3] ++ replicate 13 0). by apply lookup_app_l_Some. }
  assert (Hget : forall i p ops, [g1; g2; g3] !! i = Some p -> f_ops <$> files s1 !! p = Some ops ->
    exists q f, descriptor k' (Z.of_nat i) = Some q /\ files s2 !! q = Some f /\ f_ops f = ops).
  { intros i p ops Hp Hf. destruct (Hkeep i p Hp) as (Hpp & Hip & Hfp). apply fmap_Some in Hf as (f & Hf & ->).
    exists p, f. apply lookup_lt_Some in Hp. cbn in Hp. split; [|by rewrite Hfp].
    unfold descriptor. rewrite decide_True, Nat2Z.id, Hip by lia. cbn [mbind option_bind].
    by rewrite (proj2 (Z.eqb_neq p 0)) by lia. }
  intros i ops Hi'. destruct i as [|[|[|i]]]; [..|done]; injection Hi' as <-.
  - by apply (Hget 0%nat g1).
  - by apply (Hget 1%nat g2).
  - by apply (Hget 2%nat g3).
Qed.
End Tasks.

Section FirstHeap.
Context (im : vmm_image).
#[local] Hint Extern 0 (Memory (heap vm)) => exact (machine_memory im) : typeclass_instances.
(** The first page of the heap holds what the two first tasks need. *)
Lemma first_heap_room s : exists e,
  alloc_all (replicate 3 SIZEOF_FILE ++ TASK_STACK_SIZE :: SIZEOF_TASK :: replicate 3 SIZEOF_FILE) (first_heap s) = Some e.
Proof. eexists. vm_compute. reflexivity. Qed.
End FirstHeap.


(** ** The memory *)
(** What the loader passes: a memory map of whole entries. *)
Record loader_ok (mmap_at : Z -> multiboot_mmap_entry) (magic : Z) (mbi : multiboot_info)
    (es : list multiboot_mmap_entry) : Prop := {
  ld_magic : magic = MULTIBOOT_BOOTLOADER_MAGIC;
  ld_flags : Z.land (mbi_flags mbi) MULTIBOOT_INFO_MEM_MAP <> 0;
  ld_map : 0 <= mbi_mmap_addr mbi /\ 0 <= mbi_mmap_length mbi /\
    mbi_mmap_addr mbi + mbi_mmap_length mbi < 4294967296;
  ld_entries : mmap_chain mmap_at (mbi_mmap_addr mbi) (mbi_mmap_addr mbi + mbi_mmap_length mbi) es;
}.
(** A machine of at most 1 GB that holds the kernel and has a page to spare. *)
Record ram_ok (img : link_map) (total : Z) (es : list multiboot_mmap_entry) : Prop := {
  rm_tables : 0x100000 <= page_directory (im_tables img) < kernel_end img /\
    0x100000 <= first_page_table (im_tables img) < kernel_end img;
  rm_kernel : 0x100000 <= kernel_end img <= total * 4096 /\ kernel_end img < 4294963200;
  rm_total : total <= MAX_RAM_PAGES;
  rm_free : exists j, 0 <= j < total / 32 * 32 /\ init_used (kernel_end img) es j = false;
}.

Lemma kernel_used kend es p : 0x100000 <= p < kend -> kend < 4294963200 -> init_used kend es (p / 4096) = true.
Proof.
  intros Hp Hk. unfold init_used, in_used_region, PAGE_SIZE. rewrite (u32_small (kend - _)) by lia.
  rewrite (u32_small (kend - _ + _ - _)) by lia.
  apply orb_true_iff. right. apply andb_true_iff. split; [apply Z.leb_le|apply Z.ltb_lt];
    Z.to_euclidean_division_equations; lia.
Qed.
Lemma page_0_used kend es : init_used kend es 0 = true.
Proof. unfold init_used. replace (in_used_region 0x0 0x100000 0) with true by done. by destruct (existsb _ _). Qed.

Lemma boot_pmm img mmap_at magic mbi es : loader_ok mmap_at magic mbi es -> ram_ok img (memory_pages magic mbi) es ->
  exists p f pm, init_pmm mmap_at (kernel_end img) magic mbi = Some p /\ pmm_wf p /\
    page_used p 0 = true /\ page_used p (page_directory (im_tables img) / 4096) = true /\
    page_used p (first_page_table (im_tables img) / 4096) = true /\
    total_memory_pages p <= MAX_RAM_PAGES /\ pmm_alloc_page p = Some (f, pm) /\ f <> 0.
Proof.
  intros [L1 L2 (L3 & L4 & L5) L6] [(Hpd & Hft) (Hk1 & Hk2) Ht (j & Hj & Hfree)].
  destruct (init_pmm_spec mmap_at (kernel_end img) magic mbi es L1 L2 L3 L4 L5 L6) as (p & Hi & Hwf & Htot & Hu).
  assert (Hin : forall x, 0 <= x < kernel_end img -> 0 <= x / 4096 < total_memory_pages p).
  { intros x Hx. rewrite Htot. Z.to_euclidean_division_equations. lia. }
  destruct (pmm_alloc_page_spec p Hwf) as [[_ Hall]|(r & pm & Ha & _ & Hr & Hru & _)].
  - exfalso. unfold searched in Hall. rewrite <- Htot in Hj. specialize (Hall j ltac:(lia)).
    rewrite Hu in Hall; [congruence|]. pose proof (searched_le p Hwf). unfold searched in *. lia.
  - exists p, (r * PAGE_SIZE), pm. split; [done|]. split; [done|].
    assert (H0' : page_used p 0 = true) by (rewrite Hu by (specialize (Hin 0); change (0 / 4096) with 0 in Hin; lia);
      apply page_0_used).
    split; [done|].
    split; [rewrite Hu by (apply Hin; lia); by apply kernel_used|].
    split; [rewrite Hu by (apply Hin; lia); by apply kernel_used|].
    split; [by rewrite Htot|]. split; [done|]. unfold PAGE_SIZE. intros Hz. assert (r = 0) as -> by lia. congruence.
Qed.

Lemma boot_heap im (Him : image_ok im) s p f pm : paging s = false -> pmm_wf p ->
  page_used p 0 = true -> page_used p (page_directory im / 4096) = true ->
  page_used p (first_page_table im / 4096) = true -> total_memory_pages p <= MAX_RAM_PAGES ->
  pmm_alloc_page p = Some (f, pm) -> f <> 0 ->
  exists s1 s2, init_vmm im (set_vm_pmm p s) = Some s1 /\ @init_heap vm (vm_provider im) s1 = Some (first_heap s2) /\
    @holds (heap vm) _ (machine_memory_ok im Him) ∅ (page_directory im) (first_heap s2) ∅.
Proof.
  intros Hpg Hwf U0 UP UF Ht Ha Hf.
  destruct (boot_memory_spec im Him (set_vm_pmm p s) f pm Hpg Hwf U0 UP UF Ht Ha Hf) as (s1 & h & Hv & Hh & Hok).
  destruct (init_heap_first im s1 h Hh) as [s2 ->]. by exists s1, s2.
Qed.

(** ** The first prompt *)
Section Prompt.
Context {W D : Type} `{CrtcLaws W} `{BlockDeviceOk D}.
Context (im : vmm_image) (syms : symbols) (vfs_root : vfs_node).
Context (uninit : nat -> list Z) (temp : vfs_node) (addr : Z) (regs : Registers).
Hypothesis Huninit : forall n, length (uninit n) = n /\ bytes_ok (uninit n).
Hypothesis Haddr : addr <> 0.
#[local] Hint Extern 0 (Memory (heap vm)) => exact (machine_memory im) : typeclass_instances.
#[local] Abbreviation kernel := (kernel (heap vm) W D).
Implicit Types (k : kernel).

Lemma put_twice (b : list Z) : forall a p, length a = length b -> put_bytes (put_bytes ∅ p a) p b = put_bytes ∅ p b.
Proof.
  intros a p Hl. apply map_eq. intros x. rewrite !put_bytes_lookup. case_decide; [done|].
  by rewrite decide_False by lia.
Qed.
Lemma root_path (buf : list Z) : length buf = 256%nat -> memcpy buf 0 (cbuf [47]) 0 2 = Some (47 :: 0 :: drop 2 buf).
Proof.
  intros Hl. pose proof (memcpy_spec buf (cbuf [47]) 0 0 2 ltac:(lia) ltac:(simpl; lia)) as Hm.
  change (Z.of_nat 0) with 0 in Hm. change (Z.of_nat 2) with 2 in Hm. rewrite Hm.
  by destruct buf as [|x [|y u]].
Qed.
(** In the root directory the path is a slash. *)
Lemma sys_getcwd_eq size k t mem : current k = Some t ->
  sys_getcwd syms vfs_root (uninit 256) temp addr size regs mem k =
    (if (addr =? 0) || (size =? 0) then Some (-1, mem, k) else
     '(len, bytes) ← vfs_getcwd (dev (io_fs (k_io k))) (cwd t) temp (object (own (k_sched k) mem) addr) size;
     Some (i32 (u32 (if len <? 0 then -1 else len)), put_bytes mem addr bytes, k)).
Proof.
  intros Ht. unfold sys_getcwd, call, syscall_handler. cbn. unfold sys_getcwd_case. cbn.
  unfold current in Ht. rewrite Ht. cbn [mbind option_bind].
  destruct ((addr =? 0) || (size =? 0)); [done|].
  by destruct (vfs_getcwd _ _ _ _ _) as [[len bytes]|].
Qed.
(** The array of the prompt is none of the kernel's objects. *)
Definition array_apart k : Prop := forall a, addr <= a < addr + 256 -> kernel_object (k_sched k) a = false.
Lemma own_array k bs : array_apart k -> length bs = 256%nat ->
  own (k_sched k) (put_bytes ∅ addr bs) = put_bytes ∅ addr bs.
Proof.
  intros Ha Hl. apply own_all. intros a. rewrite put_bytes_lookup. case_decide; [|by intros []].
  intros _. apply Ha. lia.
Qed.
Lemma getcwd_root k t : array_apart k -> current k = Some t -> n_inode_idx (cwd t) = 0 ->
  shell_getcwd im syms vfs_root uninit temp addr regs k = Some (0, 47 :: 0 :: drop 2 (uninit 256), k).
Proof.
  intros Hap Ht Hi. destruct (Huninit 256) as [Hl _]. unfold shell_getcwd.
  rewrite (sys_getcwd_eq 256 k t _ Ht), (proj2 (Z.eqb_neq addr 0)) by done. cbn [orb].
  rewrite own_array, object_alone by done. change (256 =? 0) with false. unfold vfs_getcwd, vfs_get_path.
  change (256 =? 0) with false. rewrite Hi, Z.eqb_refl. cbn match. rewrite (root_path _ Hl). cbn [mbind option_bind].
  rewrite put_twice, object_alone; [reflexivity|].
  cbn [length]. rewrite length_drop. lia.
Qed.
Lemma prompt_root k t : console k -> array_apart k -> current k = Some t -> n_inode_idx (cwd t) = 0 ->
  exists k', print_prompt im syms vfs_root uninit temp addr regs k = Some k' /\ prints k (codes "/$ ") k' /\ console k'.
Proof.
  intros Hc Hap Ht Hi. unfold print_prompt. rewrite (getcwd_root k t) by done. cbn [mbind option_bind].
  destruct (print_string_out im syms vfs_root uninit temp addr regs k [47] (drop 2 (uninit 256)) Hc) as (k1 & E1 & P1 & C1).
  - apply bytes_ok_app. split; [by apply Forall_singleton|]. constructor; [lia|]. apply Forall_drop, Huninit.
  - rewrite not_elem_of_cons. split; [done|apply not_elem_of_nil].
  - done.
  - cbn [app] in E1. rewrite E1. cbn [mbind option_bind].
    destruct (print_plain_out im syms vfs_root uninit temp addr regs k1 (codes "$ ") C1) as (k2 & E2 & P2 & C2); [done|done|].
    unfold lit. rewrite E2. exists k2. split; [done|]. split; [by eapply (prints_app _ [47])|done].
Qed.

Definition greeting : list Z :=
  codes "Welcome to NOSMERI-OS! Type 'help' to see available commands." ++ [newline; newline] ++ codes "/$ ".
Lemma shell_start_root k t buf : console k -> array_apart k -> current k = Some t -> n_inode_idx (cwd t) = 0 ->
  exists k', shell_start im syms vfs_root uninit temp addr regs k buf = Some (mk_shell k' buf 0) /\
    prints k greeting k' /\ console k'.
Proof.
  intros Hc Hap Ht Hi. unfold shell_start.
  destruct (print_plain_out im syms vfs_root uninit temp addr regs k
    (codes "Welcome to NOSMERI-OS! Type 'help' to see available commands." ++ [newline; newline]) Hc)
    as (k1 & -> & P1 & C1); [done|done|]. cbn [mbind option_bind].
  assert (Ht1 : current k1 = Some t) by (destruct P1 as (v & -> & _); exact Ht).
  assert (Hap1 : array_apart k1) by (destruct P1 as (v & -> & _); exact Hap).
  destruct (prompt_root k1 t C1 Hap1 Ht1 Hi) as (k2 & -> & P2 & C2). cbn [mbind option_bind].
  exists k2. split; [done|]. split; [|done]. unfold greeting. rewrite app_assoc. by eapply prints_app.
Qed.
End Prompt.
