(* ===== verification/KernelProps.v ===== *)
(** * What the start leaves

    [kernel_main] from the state the loader leaves to the shell's prompt: the
    invariant every later step keeps, the tables of the processor, the file
    system and the text on the screen. *)
From S2P Require Import Prelude CString Pmm Heap Allocator Paging Vmm VmmInv VmmOps VmmProps Memory Machine BlockDev DiskLayout SimpleFs.
From S2P Require Import FsView FsDir FsInv FsOps FsMount FsIo FsProps Vfs VfsProps File PortIo Pic Keyboard Vga Console FileProps.
From S2P Require Import Gdt Timer Idt Cpu Task TaskRing TaskInv TaskSched TaskOps TaskCreate TaskSteps TaskDemo Registers UserMem Syscall.
From S2P Require Import SyscallInv SyscallOps SyscallRun SyscallProps Shell ShellOut ShellDemo ShellProps Kernel KernelBoot.
Open Scope Z_scope.

(** ** The disk *)
Section Disk.
Context {D : Type} `{BlockDeviceOk D}.
Implicit Types (d : D).

(** A blank disk, or one that holds a file system. *)
Definition disk_state (formatted : bool) d : Prop :=
  if formatted then exists f N T B, dev f = d /\ fs_rel f N T B
  else MIN_SECTORS <= dev_sectors d /\ unformatted d.
Definition mount_log (formatted : bool) : list Z :=
  if formatted then codes "[SimpleFS] Disk mounted successfully."
  else codes "[SimpleFS] Formatting Disk...Clearing Inodes...Creating root directory...Done." ++ [newline].

Lemma vfs_init_spec d f N T B : simplefs_init d = Some f -> fs_rel f N T B ->
  exists root, vfs_init d = Some (root, f) /\ node_ok root /\ n_inode_idx root = 0 /\ is_dir root = true.
Proof.
  intros Hi Hrel. unfold vfs_init. rewrite Hi. cbn [mbind option_bind].
  change (memcpy (n_name zero_node) 0 (cbuf [47]) 0 2) with (Some (name_field [47])). cbn [mbind option_bind].
  rewrite (get_inode_spec (dev f) N T B 0 (rel_view _ _ _ _ Hrel)) by lia. cbn [mbind option_bind].
  eexists. split; [reflexivity|]. done.
Qed.

Lemma mount_disk {W} `{CrtcLaws W} formatted d : disk_state formatted d ->
  exists f N T B, simplefs_init d = Some f /\ fs_rel f N T B /\
    forall v : vga W, vga_wf v -> exists v', mount_messages d v = Some v' /\ shows v (mount_log formatted) v'.
Proof.
  intros Hd. unfold mount_messages, SIMPLEFS_SUPERBLOCK_SECTOR, lit, line. destruct formatted; cbn [disk_state] in Hd.
  - destruct Hd as (f & N & T & B & <- & Hrel). exists f, N, T, B. split; [by eapply remount|]. split; [done|].
    intros v Hv. destruct Hrel as [Hview _ (Hsb & Hm & Ht) _].
    destruct (v_block _ _ _ _ Hview 0) as [-> _]; [by left|]. cbn [mbind option_bind]. cbv zeta. rewrite Hsb.
    replace (negb _ || _) with false by lia. by apply print_plain.
  - destruct Hd as [HN Hu]. destruct (simplefs_init_format d HN Hu) as (d' & B & Hi & Hrel & _).
    eexists _, _, _, B. split; [exact Hi|]. split; [exact Hrel|]. intros v Hv.
    destruct Hu as (sc & Hs & Hsb). unfold SIMPLEFS_SUPERBLOCK_SECTOR in Hs. rewrite Hs. cbn [mbind option_bind]. cbv zeta.
    replace (negb _ || _) with true by lia.
    pose proof (shows_refl v Hv) as Hsh. do 3 print_step. print_last. by split.
Qed.
End Disk.

(** ** The screen *)
Section Boot.
Context {W D : Type} `{CrtcLaws W} `{BlockDeviceOk D}.
Context (img : link_map) (Him : image_ok (im_tables img)) (syms : symbols) (boot_lo boot_hi : Z).
Context (mmap_at : Z -> multiboot_mmap_entry) (uninit : nat -> list Z) (temp : vfs_node) (addr : Z) (regs : Registers).
Hypothesis Huninit : forall n, length (uninit n) = n /\ bytes_ok (uninit n).
(** The array of the shell's prompt lies on the boot stack, clear of the
    kernel's Task object. *)
Hypothesis Haddr : 0 < addr /\ boot_lo <= addr /\ addr + 256 <= boot_hi /\
  (addr + 256 <= KERNEL_TASK syms \/ KERNEL_TASK syms + SIZEOF_TASK <= addr).
#[local] Abbreviation im := (im_tables img).
#[local] Hint Extern 0 (Memory (heap vm)) => exact (machine_memory im) : typeclass_instances.
#[local] Hint Extern 0 (MemoryOk (heap vm)) => exact (machine_memory_ok im Him) : typeclass_instances.
Hypothesis Hlay : @layout_ok (heap vm) _ _ syms boot_lo boot_hi.
Implicit Types (v : vga W) (st : machine_state W D).

Lemma shows_machine v s v' w : shows v s v' -> shows v s (mk_vga (video_memory v') (cursor_pos v') (text_attribute v') w).
Proof. intros [[] ? ?]. by split. Qed.
Lemma vga_init_shows v : length (video_memory v) = 2000%nat -> exists v', vga_init v = Some v' /\ vga_wf v' /\
  text_attribute v' = text_attribute v /\ screen v' = (replicate 2000 (Vga.blank (text_attribute v)), 0).
Proof.
  intros Hl. destruct (clear_screen_spec v Hl) as (v' & Hc & Hs & Ha & _). exists v'. split; [exact Hc|].
  split; [|by split]. pose proof (f_equal fst Hs) as Hm. pose proof (f_equal snd Hs) as Hp. unfold screen, fst, snd in Hm, Hp.
  split; [by rewrite Hm, length_replicate|by rewrite Hp].
Qed.
Lemma start_interrupts_spec v s v0 t : shows v0 s v -> length (idt_entries t) = 256%nat -> handlers_ok (im_handlers img) ->
  exists v' t', start_interrupts img v t = Some (v', t') /\ shows v0 s v' /\
    forall j, 0 <= j < 256 -> gate_at t' j = Some (vector (im_handlers img) j).
Proof.
  intros Hs Hl Hh. unfold start_interrupts.
  destruct (init_idt_vectors (fst (idt_at img)) (snd (idt_at img)) (im_handlers img)
    (on_machine t (fun _ => machine v)) Hl Hh) as (t' & -> & Hg & _). cbn [mbind option_bind].
  eexists _, t'. split; [reflexivity|]. split; [by apply shows_machine|done].
Qed.

(** What is printed from the cleared screen to the prompt. *)
Definition done_log : list Z := codes " Done." ++ [newline].
Definition start_log (formatted : bool) : list Z :=
  codes "Initializing GDT..." ++ done_log ++ codes "Initializing IDT & Interrupts..." ++ done_log ++
  codes "Initializing Physical Memory Manager..." ++ done_log ++ codes "Initializing Virtual Memory Manager..." ++ done_log ++
  codes "Initializing Heap..." ++ done_log ++ codes "Initializing VFS..." ++ mount_log formatted ++ done_log ++
  codes "Initializing Task..." ++ done_log ++ codes "Interrupts enabled." ++ [newline; newline].
Definition boot_log (formatted : bool) : list Z := start_log formatted ++ greeting.

(** The state in which [kernel_main] is entered. *)
Record entry_ok (formatted : bool) st : Prop := {
  en_screen : length (video_memory (st_vga st)) = 2000%nat;
  en_gdt : st_gdt st = gdt_boot;
  en_idt : length (idt_entries (st_idt st)) = 256%nat;
  en_handlers : handlers_ok (im_handlers img);
  en_tss : 0 <= snd (gdt_at img) < 4294967296;
  en_paging : paging (st_vm st) = false;
  en_disk : disk_state formatted (st_disk st);
}.

Definition scheduler (sh : shell (W := W) (D := D)) := k_sched (sh_kernel sh).
Definition devices (sh : shell (W := W) (D := D)) := k_io (sh_kernel sh).
(** The kernel at its first prompt. *)
Record booted (formatted : bool) st (t : idt W) (root : vfs_node) (sh : shell (W := W) (D := D)) : Prop := {
  bo_gdt : gdtr (s_gdt (scheduler sh)) = Some (fst (fst (gdt_at img))) /\ tr (s_gdt (scheduler sh)) = Some 0x28;
  bo_gates : forall j, 0 <= j < 256 -> gate_at t j = Some (vector (im_handlers img) j);
  bo_invariant : exists m a k, kernel_ok syms boot_lo boot_hi ∅ m (scheduler sh) [a] /\
    started syms root (scheduler sh) a (spinner img) k;
  bo_disk : simplefs_init (st_disk st) = Some (io_fs (devices sh)) /\ exists N T B, fs_rel (io_fs (devices sh)) N T B;
  bo_root : n_inode_idx root = 0 /\ is_dir root = true;
  bo_console : console (sh_kernel sh);
  bo_screen : screen (io_vga (devices sh)) = put_string (text_attribute (st_vga st)) (boot_log formatted)
    (replicate 2000 (Vga.blank (text_attribute (st_vga st))), 0);
  bo_keys : io_kbd (devices sh) = keyboard_init;
  bo_line : line_ok sh /\ typed sh = [];
}.

Lemma started_console s root a ep k v kbd f c : started syms root s a ep k -> vga_wf v ->
  console (mk_kernel (mk_sched (tasks s) (files s) (words s) (current_task s) (next_pid s) (s_gdt s) c (env s))
    (mk_io kbd v f) 0 : kernel (heap vm) W D).
Proof.
  intros [Hcur (Hk & _) Hf _] Hv. split; [| |done].
  - destruct (Hf 1%nat stdout_ops eq_refl) as (p & g & Hd & Hg & Ho). exists k, p, g. split; [|done].
    split; [cbn; by rewrite Hcur|done].
  - destruct (Hf 2%nat stderr_ops eq_refl) as (p & g & Hd & Hg & Ho). exists k, p, g. split; [|done].
    split; [cbn; by rewrite Hcur|done].
Qed.
Lemma sched_cpu_ok P m s l c : kernel_ok syms boot_lo boot_hi P m s l ->
  kernel_ok syms boot_lo boot_hi P m
    (mk_sched (tasks s) (files s) (words s) (current_task s) (next_pid s) (s_gdt s) c (env s) : sched (heap vm)) l.
Proof. intros [[S1 S2 S3 S4 S5 S6 S7 S8] Hf]. by split. Qed.
Lemma init_gdt_boot a b c : 0 <= c < 4294967296 -> exists g, init_gdt a b c gdt_boot = Some g /\
  gdtr g = Some a /\ tr g = Some 0x28 /\ length (tss_words (tss g)) = 25%nat.
Proof. intros Hc. eexists. split; [lazy -[make_gate]; reflexivity|]. by repeat split. Qed.

Lemma array_on_stack P m s l k : kernel_ok syms boot_lo boot_hi P m s l -> current_task s = KERNEL_TASK syms ->
  k_sched k = s -> array_apart (W := W) (D := D) addr k.
Proof.
  intros Hok Hcur <- a Ha. apply not_true_iff_false. intros Hko.
  destruct (kernel_object_heap _ _ _ _ _ _ _ _ Hok Hcur Hko) as [?|?]; [lia|]. destruct Hlay as [(_ & ? & _) _]. lia.
Qed.
(** From the end of the initialisations to the prompt. *)
Lemma boot_shell formatted st t root sc m a k v0 v f N T B :
  gdtr (s_gdt sc) = Some (fst (fst (gdt_at img))) -> tr (s_gdt sc) = Some 0x28 ->
  (forall j, 0 <= j < 256 -> gate_at t j = Some (vector (im_handlers img) j)) ->
  kernel_ok syms boot_lo boot_hi ∅ m sc [a] -> started syms root sc a (spinner img) k ->
  simplefs_init (st_disk st) = Some f -> fs_rel f N T B -> n_inode_idx root = 0 -> is_dir root = true ->
  text_attribute v0 = text_attribute (st_vga st) ->
  screen v0 = (replicate 2000 (Vga.blank (text_attribute (st_vga st))), 0) -> shows v0 (start_log formatted) v ->
  exists sh, shell_start im syms root uninit temp addr regs
    (mk_kernel (mk_sched (tasks sc) (files sc) (words sc) (current_task sc) (next_pid sc) (s_gdt sc) (sti (s_cpu sc)) (env sc))
      (mk_io keyboard_init v f) 0) (replicate 256 0) = Some sh /\ booted formatted st t root sh.
Proof.
  intros Hg1 Hg2 Hg Hok Hst Hi Hrel Hri Hrd Ha0 Hs0 Hsh.
  pose proof (started_console sc root a _ k v keyboard_init f (sti (s_cpu sc)) Hst (sh_wf _ _ _ Hsh)) as Hcon.
  destruct Hst as [Hcur (Hk & Hrun & Hcwd) Hf Hnew].
  pose proof (array_on_stack _ _ _ _ (mk_kernel _ (mk_io keyboard_init v f) 0)
    (sched_cpu_ok _ _ _ _ (sti (s_cpu sc)) Hok) Hcur eq_refl) as Hap.
  destruct (shell_start_root im syms root uninit temp addr regs Huninit ltac:(lia) _ k (replicate 256 0) Hcon Hap) as
    (k' & Hs & (v' & -> & Hsh') & Hcon'); [unfold current; cbn; by rewrite Hcur|by rewrite Hcwd|].
  eexists. split; [exact Hs|]. pose proof (shows_app _ _ _ _ _ Hsh Hsh') as [_ _ Hscr].
  split; unfold scheduler, devices; cbn [sh_kernel set_vga set_k_io k_sched k_io io_vga io_fs io_kbd]; try done.
  - exists m, a, k. split; [by apply sched_cpu_ok|]. by split.
  - split; [done|]. by exists N, T, B.
  - rewrite Hscr, Hs0, Ha0. done.
  - split; [split; [apply length_replicate|by apply bytes_ok_replicate|cbn; lia]|done].
Qed.

(** C5. The kernel starts.  From what the loader leaves on a machine of at most
    1 GB with a page to spare, and with a blank disk or one that holds a file
    system, [kernel_main] is defined: no allocation of the start fails.  (The
    array of the prompt is on the boot stack, clear of the kernel's Task.)  At the
    first prompt the six gates and the segments are loaded, the file system is
    mounted and sound, the scheduler and the descriptors satisfy the invariant,
    the kernel's task runs and the spinner waits for its first turn, the screen
    shows exactly the log, and the command line is empty. *)
Theorem kernel_boots magic mbi es formatted st :
  loader_ok mmap_at magic mbi es -> ram_ok img (memory_pages magic mbi) es -> entry_ok formatted st ->
  exists t root sh, kernel_main img syms mmap_at uninit temp addr regs magic mbi st = Some (t, root, sh) /\
    booted formatted st t root sh.
Proof.
  intros Hld Hram [E1 E2 E3 E4 E5 E6 E7].
  destruct (boot_pmm img mmap_at magic mbi es Hld Hram) as (p & f & pm & Hpmm & Hwf & U0 & U1 & U2 & Htot & Hal & Hf).
  destruct (boot_heap im Him (st_vm st) p f pm E6 Hwf U0 U1 U2 Htot Hal Hf) as (s1 & s2 & Hvmm & Hheap & Hholds).
  destruct (mount_disk formatted (st_disk st) E7) as (fs & N & T & B & Hinit & Hrel & Hlog).
  destruct (vfs_init_spec _ _ _ _ _ Hinit Hrel) as (root & Hvfs & Hrok & Hri & Hrd).
  destruct (gdt_at img) as [[ga gb] gc] eqn:Hga. cbn [snd] in E5.
  destruct (init_gdt_boot ga gb gc E5) as (g & Hgdt & Hg1 & Hg2 & Hg3).
  destruct (first_heap_room im s2) as [e Hroom].
  destruct (boot_tasks syms root boot_lo boot_hi Hlay (dev fs) (uninit 256) g (st_cpu st) (st_words st) _ e (spinner img)
    Hholds Hg3 Hroom) as (sc1 & sc & a & m & k & Hit & Hct & Hok & Hgd & Hst).
  destruct (vga_init_shows (st_vga st) E1) as (v0 & Hv0 & Hw0 & Ha0 & Hs0).
  unfold kernel_main, lit, line. rewrite Hv0, E2, Hga. cbn [mbind option_bind].
  pose proof (shows_refl v0 Hw0) as Hsh.
  print_step. rewrite Hgdt. cbn [mbind option_bind]. do 2 print_step.
  match goal with Hs : shows v0 _ _ |- _ => rename Hs into Hlog1 end.
  destruct (start_interrupts_spec _ _ _ (st_idt st) Hlog1 E3 E4) as (vi & t' & -> & Hlog2 & Hgates). clear Hlog1.
  cbn [mbind option_bind]. do 2 print_step. rewrite Hpmm. cbn [mbind option_bind].
  do 2 print_step. rewrite Hvmm. cbn [mbind option_bind]. do 2 print_step. rewrite Hheap. cbn [mbind option_bind].
  do 2 print_step.
  match goal with Hs : shows v0 _ _ |- _ => rename Hs into Hlog1 end.
  destruct (Hlog _ (sh_wf _ _ _ Hlog1)) as (vf & -> & Hs2). pose proof (shows_app _ _ _ _ _ Hlog1 Hs2) as Hlog3. clear Hlog1 Hs2.
  cbn [mbind option_bind]. rewrite Hvfs. cbn [mbind option_bind]. do 2 print_step.
  rewrite Hit. cbn [mbind option_bind]. rewrite Hct. cbn [mbind option_bind]. do 2 print_step.
  match goal with Hs : shows v0 ?l _ |- _ => replace l with (start_log formatted) in Hs by
    (unfold start_log, done_log; rewrite <- !app_assoc; reflexivity); rename Hs into Htext end.
  rewrite <- Hgd in Hg1, Hg2. replace ga with (fst (fst (gdt_at img))) in Hg1 by (by rewrite Hga).
  destruct (boot_shell formatted st t' root sc m a k v0 _ fs N T B Hg1 Hg2 Hgates Hok Hst Hinit Hrel Hri Hrd Ha0 Hs0 Htext)
    as (sh & -> & Hb).
  exists t', root, sh. by split.
Qed.
(** ** The spinner *)
Lemma spinner_char idx : 0 <= idx -> exists c, spinner_chars !! Z.to_nat (idx mod 4) = Some c /\ 0 <= c < 256 /\
  zget spinner_chars (Z.rem idx 4) = Some c.
Proof.
  intros Hi. rewrite Z.rem_mod_nonneg by lia. pose proof (Z.mod_pos_bound idx 4 ltac:(lia)) as Hm.
  destruct (lookup_lt_is_Some_2 spinner_chars (Z.to_nat (idx mod 4))) as [c Hc]; [cbn; lia|]. exists c.
  split; [done|]. split; [pose proof (codes_ok "|/-\") as Hok; by eapply Forall_lookup_1 in Hok|].
  unfold zget. by rewrite decide_True by lia.
Qed.
(** A round of the spinner shows the next of its four characters in green in
    the upper right corner, touches no other cell nor the cursor, and puts the
    running task to sleep for ten ticks; the invariant is kept. *)
Theorem spinner_spins P m l (k : kernel (heap vm) W D) idx : kernel_ok syms boot_lo boot_hi P m (k_sched k) l -> vga_wf (io_vga (k_io k)) ->
  0 <= idx < 2147483647 ->
  exists k' c t, spinner_round idx k = Some (idx + 1, k') /\ spinner_chars !! Z.to_nat (idx mod 4) = Some c /\
    io_vga (k_io k') = set_memory (io_vga (k_io k)) (<[79%nat := 0x0A00 + c]> (video_memory (io_vga (k_io k)))) /\
    io_kbd (k_io k') = io_kbd (k_io k) /\ io_fs (k_io k') = io_fs (k_io k) /\
    current k' = Some t /\ t_state t = TASK_SLEEPING /\ wake_tick t = u32 (k_ticks k + 10) /\
    kernel_ok syms boot_lo boot_hi P m (k_sched k') l.
Proof.
  intros Hok [Hl _] Hi. destruct (spinner_char idx) as (c & Hc & Hcb & Hz); [lia|].
  destruct (so_memory _ _ _ _ _ _ _ (ko_sched _ _ _ _ _ _ _ Hok)) as (t & Ht & _).
  unfold spinner_round. rewrite Hz. cbn [mbind option_bind]. rewrite zset_in_range by lia. cbn [mbind option_bind].
  unfold task_sleep_start. cbn [k_sched set_vga set_k_io k_ticks].
  rewrite (proj2 (Z.eqb_neq _ _)) by (by eapply so_null, ko_sched). unfold poke_task. rewrite Ht. cbn [mbind option_bind].
  assert (Hcell : u16 (Z.lor c (Z.shiftl 0x0A 8)) = 0x0A00 + c).
  { change (Z.shiftl 0x0A 8) with 0x0A00. rewrite Z.lor_comm, (lor_add 8) by (done || lia). apply u16_small. lia. }
  rewrite Hcell. replace (i32 (idx + 1)) with (idx + 1) by word.
  eexists _, c, _. split; [reflexivity|]. split; [done|]. split; [done|]. split; [done|]. split; [done|].
  split; [unfold current; cbn; by rewrite lookup_insert_eq|]. split; [done|]. split; [done|].
  by apply (poke_kernel _ _ _ P m _ l t).
Qed.
End Boot.

(** ** Example: the 8 MB machine of [VmmProps] with a blank disk *)
Import RamDisk Crtc.
Definition demo_img : link_map :=
  mk_link_map demo_image 0x125000 (0x112000, 0x112010, 0x112100) (0x112200, 0x112210)
    (mk_handlers 0x101000 0x101010 0x101020 0x101030 0x101040 0x101050) 0x102000.
Definition demo_state : machine_state Crtc.t disk :=
  mk_state demo_screen gdt_boot (mk_idt (replicate 256 null_gate) (0, 0) None (0, fun _ => 0)) boot_vm boot_cpu ∅ blank.
Lemma demo_loader : loader_ok demo_mmap MULTIBOOT_BOOTLOADER_MAGIC demo_mbi [demo_mmap 0x9000; demo_mmap 0x9018].
Proof.
  split; [reflexivity|vm_compute; discriminate|split; [|split]; vm_compute; done|].
  simpl. apply (chain_entry demo_mmap 0x9000); [reflexivity|vm_compute; discriminate|reflexivity|].
  apply (chain_entry demo_mmap 0x9018); [reflexivity|vm_compute; discriminate|reflexivity|].
  apply chain_end. vm_compute. discriminate.
Qed.
Lemma demo_ram : ram_ok demo_img (memory_pages MULTIBOOT_BOOTLOADER_MAGIC demo_mbi) [demo_mmap 0x9000; demo_mmap 0x9018].
Proof.
  assert (Ht : memory_pages MULTIBOOT_BOOTLOADER_MAGIC demo_mbi = 2048) by (vm_compute; reflexivity). rewrite Ht.
  split; cbn [demo_img im_tables kernel_end demo_image page_directory first_page_table]; [lia|lia|unfold MAX_RAM_PAGES; lia|].
  exists 0x125. split; [vm_compute; split; congruence|vm_compute; reflexivity].
Qed.
Lemma demo_entry : entry_ok demo_img false demo_state.
Proof.
  split; [reflexivity|reflexivity|reflexivity|by repeat constructor|cbn; lia|reflexivity|].
  split; [exact blank_big|exact blank_unformatted].
Qed.

Lemma demo_array : 0 < 0x3000 /\ BOOT_LO <= 0x3000 /\ 0x3000 + 256 <= BOOT_HI /\
  (0x3000 + 256 <= KERNEL_TASK demo_syms \/ KERNEL_TASK demo_syms + SIZEOF_TASK <= 0x3000).
Proof. unfold BOOT_LO, BOOT_HI. cbn. unfold SIZEOF_TASK. lia. Qed.
Lemma kernel_boots_witness : exists t root sh,
  kernel_main demo_img demo_syms demo_mmap zeros root_node 0x3000 shell_regs MULTIBOOT_BOOTLOADER_MAGIC demo_mbi demo_state =
    Some (t, root, sh) /\ typed sh = [].
Proof.
  destruct (kernel_boots demo_img demo_image_ok demo_syms BOOT_LO BOOT_HI demo_mmap zeros root_node 0x3000 shell_regs
    zeros_ok demo_array shell_layout MULTIBOOT_BOOTLOADER_MAGIC demo_mbi [demo_mmap 0x9000; demo_mmap 0x9018] false demo_state
    demo_loader demo_ram demo_entry) as (t & root & sh & Hrun & Hb).
  exists t, root, sh. split; [exact Hrun|]. destruct Hb as [_ _ _ _ _ _ _ _ [_ Hl]]. exact Hl.
Defined.
